(* ===== verification/_CoqProject ===== *)
-Q . S2P
Prelude.v
CTypes.v
VmlinuxX86.v
VmlinuxArm64.v
VmlinuxBpfX86.v
VmlinuxBpfArm64.v
BpfHelperDefs.v
BpfTracing.v
BpfHelpers.v
BpfCoreRead.v
BpfCoreQuery.v
RingBuffer.v
SimKernel.v
BpfBitfield.v
OomKill.v
OomKillCorrect.v
OomKillProps.v
GoStrings.v
GoFlag.v
Annotation.v
GoRegexp.v
Lookup.v
GoBinary.v
Version.v
Metrics.v
GoJson.v
K8s.v
GoErrors.v
Loading.v
Tracer.v
Command.v
CommandLine.v
Chart.v
Fairness.v
Shutdown.v
SimWorld.v
SimCommand.v
SimShutdown.v
EndToEnd.v
System.v
Node.v
Agent.v
SimNode.v
