(* ===== verification/Prelude.v ===== *)
(** * oom-tracer, verified

    oom-tracer watches the Linux OOM killer on Kubernetes nodes.  A BPF program
    ([src/pkg/ebpf/bpf/oomkill.c]) attached to the kernel function
    [oom_kill_process] writes a record of every kill into a ring buffer; a Go
    agent ([src/pkg/oomtracer], [src/pkg/metrics], [src/pkg/k8s]) reads the
    records, finds the pod the victim's cgroup belongs to and annotates it, so
    that a descheduler evicts it.  This library models both halves and what
    lies between them, and proves that they fit together: [EndToEnd.end_to_end]
    goes from an OOM situation in kernel memory to the patch request (or its
    absence) and the counters, [Node.node_spec] and [Node.node_live] from
    any run of kernel, processes and cluster to what the agent has done by then
    and will do in the end, and [Agent.agent_spec] from a command line to all
    that the program does.

    ** The files

    - [Prelude] (this file): bytes, machine integers at their width, little-endian
      encoding, writing into byte buffers, shared tactics and hint databases.
    - [CTypes]: C object types and the layout rules of the compiler (LP64, little
      endian, System V bit-fields): [sizeof], [alignof], [offsetof] of member
      designators through anonymous structs and unions.
    - [VmlinuxX86], [VmlinuxArm64]: the kernel declarations of
      [vmlinux_generated_x86_64.h] and [vmlinux_generated_aarch64.h] the probe
      reaches and those their pointers lead to, in that syntax, each closed under
      by-value members.
    - [BpfHelperDefs]: the 180 declarations of [bpf_helper_defs.h], with call number,
      signature and the class of documented results.
    - [BpfTracing]: [bpf_tracing.h], from the choice of the target to the register
      tables, the argument wrappers and the return-address macros.
    - [BpfHelpers]: map definitions and the computing macros of [bpf_helpers.h]:
      printing, tail calls, [container_of], version numbers.
    - [BpfCoreRead]: the class [BpfKernel], the helpers that read memory and fill the
      ring buffer on an abstract kernel state, with their documented behaviour as
      the laws [BpfKernelLaws]; CO-RE relocation ([relocate]); and the reading
      macros of [bpf_core_read.h], all twelve of them.
    - [BpfCoreQuery]: the queries of [bpf_core_read.h] about fields, types and
      enumerators of the running kernel.
    - [RingBuffer]: the map [events] of [oomkill.c], and the class [RingBuffer] of what
      the reader has released and when a reservation finds room.
    - [SimKernel]: a concrete kernel that satisfies those laws.
    - [BpfBitfield]: the bit-field macros of [bpf_core_read.h].
    - [OomKill]: [oomkill.c] itself.  [fill_event] is the body of the program, on the
      bytes of the reserved record; [walk] its loop; [kprobe__oom_kill_process]
      the program as attached, for either shipped build ([amd64], [arm64]) and
      in a kernel with its own types, to which the loader relocates it.
      [oom_at] describes an OOM situation in kernel memory and [spec_event] the
      event that should be reported for it.
    - [OomKillCorrect]: the field-by-field proof of the program; [OomKillProps]: what
      the probe promises, and an example kernel.
    - [GoStrings], [GoRegexp], [GoJson], [GoFlag], [GoErrors]: the parts of the Go
      standard library the agent uses, [strings], [regexp], [encoding/json],
      [flag] with the parsers of [strconv], and wrapped errors.
    - [Annotation]: [parseAnnotation] of [oomtracer.go].
    - [Lookup]: [LookupPod] of [oomtracer.go] with its two patterns.
    - [GoBinary]: [encoding/binary] on the struct types bpf2go generates
      ([bpf_x86_bpfel.go], [bpf_arm64_bpfel.go], [ebpf.go]) and the conversion of
      C strings.
    - [Version]: [version.go]; [Metrics]: [metrics.go]; [K8s]: [k8s.go], its requests
      and their documents.
    - [Loading]: [LoadBPF] of [ebpf.go] and the part of the generated bindings it goes
      through, over the resources of the eBPF library.
    - [Tracer]: the rest of [oomtracer.go]: configuration, the loop body
      ([handle_event], [handle]), the loop ([trace], [TraceKernelOOMKills]) and
      its runs as a step relation in which the world may change in between.
    - [Command]: [main.go], from parsed options to the exit of the process;
      [CommandLine]: from the arguments to the options, and the whole of [main];
      [Chart]: the arguments the chart's template makes of its values.
    - [Fairness]: "leads to" along infinite runs, and the rules to prove it.
    - [Shutdown]: the goroutines of the tracing function, the signal and the deferred
      closing as interleaved steps of one process state.
    - [SimWorld]: a concrete world for the agent; [SimCommand], [SimShutdown]: command
      lines (the chart's among them) and a run of the process in it.
    - [EndToEnd]: both halves composed, for one kill; [System]: the kernel over time and
      the sequential loop; [Node]: the kernel and the goroutines with what they
      hold open, which refines [System] and [Shutdown]; [Agent]: the program from
      its command line on, which starts and stops the process of a node;
      [SimNode]: a run of both.

    ** Interfaces

    Code that is not in the repository is a parameter.  [BpfKernel] stands for the
    kernel side of the helpers and [RingBuffer] for the reader's side of the map,
    [Unix] for [golang.org/x/sys/unix], [Prometheus] for the metrics client library,
    [Cluster] for client-go, the pod informer and the API server, [ClientLib] for
    the construction of the client; [World] joins metrics and cluster; [Ebpf] for
    cilium/ebpf, [Klog] for klog's flags, [Loader] for what the BPF loader decides,
    [Yaml] for the reading of the chart's output.  Each states the documented
    behaviour the code relies on as laws, theorems are proved against the
    interface, and [SimKernel] and [SimWorld] discharge the laws for concrete
    instances, on which the witnesses run the program.

    ** What the theorems show

    - Headers: members lie inside their objects, aligned and disjoint
      ([header_members_placed]); both builds find the members the probe reads where
      the shipped object files have them ([shipped_offsets]); helper numbers and
      signatures are a consistent call interface ([helper_interface]); argument
      registers and wrappers ([kprobe_arguments], [shipped_offsets],
      [register_sources]); macro chains follow pointers ([core_read_chase]), and
      queries say where they can ([core_queries]); bit-fields are read and written
      bit by bit ([bitfield_read], [bitfield_write]).
    - Probe, on any kernel that has the members it reads and goes on while it runs:
      refinement of the event specification ([probe_refines]), totality and ring
      buffer discipline on any memory, changing or not ([probe_total]), the record
      format ([event_layout]), the one field that is not relocated
      ([totalpages_not_relocated]), and what happens on an aborted scan
      ([aborted_scan_names]).
    - Transport: decoding inverts the probe's encoding and never gets stuck
      ([read_event_roundtrip], [read_event_total]).
    - Agent: option parsing ([parse_annotation_spec]), the lookup ([lookup_pod_spec],
      [lookup_pod_cgroup], [lookup_container_scope]), patches ([annotate_pod_spec], [patch_carries_annotations]), counters
      ([metrics_spec]), the loop body against its verdicts
      ([handle_event_refines]), and all runs: accounting ([metrics_account]),
      safety of marking ([requests_justified]), when the loop ends
      ([trace_returns]); the version shown ([split_version_spec]); the command
      line ([command_line_spec], [options_roundtrip]), also the chart's
      ([chart_spec]), and the run of the command ([main_spec]).
    - Process: what [LoadBPF] leaves open, leaks on its error paths included
      ([load_bpf_spec]); every interleaving of loop, waiting goroutine and signals
      is one of the sequential loop, so that the theorems about its runs apply
      ([shutdown_safe]); a cancelled context ends the process under any fair
      scheduler, with everything closed ([shutdown_live]).
    - System: one kill end to end ([end_to_end]); whole runs of a node, where the probe
      stays attached until the tracing function has ended and the agent does
      exactly what the verdicts for the recorded kills say, in order
      ([node_spec]); a kill is recorded exactly when fewer than 29127 events are
      unread, which is what fits into the ring buffer ([no_kill_lost]); and under
      a fair scheduler each recorded kill is handled, unless the function returns,
      which it does when the context is cancelled ([node_live]); and the program as
      a whole, which does all this with the options of its command line, or stops
      before it has done anything ([agent_spec]).

    ** Conventions and bounds

    Addresses and registers are numbers below 2^64 with wrap-around written out;
    memory is a partial function from addresses to bytes, so faults are part of
    the model.  The rest of the kernel goes on while the probe runs: each helper
    call sees a state of its own, also within a macro ([ks] in [READ] and
    [fill_event], [meantime] in [oom_kill_process]).  Theorems about what a record
    says assume that the bytes which describe the OOM situation stay for the run
    ([undisturbed]); that the probe ends well assumes nothing of the sort
    ([probe_total]), and the runs of the node have kills of both kinds ([kill]).
    A C program that does not compile (a member the
    headers lack) or load (one the running kernel lacks) is [None]; the shipped
    builds never are on a kernel with the members they read ([probe_total]).
    The loader's part in CO-RE is its documented one: an access is moved to
    the member of the same name in the kernel's type of the same name.
    Fuel occurs in [walk] (the four rounds of the C loop), in the string and
    JSON functions (rounds bounded by the length of the input, each consuming a
    byte), in the regular expression loop (likewise) and in the parser of command
    lines (rounds that each consume an argument); none of them can run
    out, and the theorems are about the functions with that fuel.

    ** Not modelled

    The attribute macros of [bpf_helpers.h], which only direct the compiler and the
    loader, and the kernel types further away from the probe than one pointer
    (nearly all of the two generated headers).  Log output and the HTTP server are
    I/O; the chart is modelled as far as it makes the agent's arguments.
    The parser of floating-point numbers is a parameter.  Handling one event is
    a single step of the process in [Shutdown], [System] and [Node], but one during
    which others may change the cluster, between the listing of the pods and the
    patch ([handle_event_meanwhile]); the goroutine and the probe share nothing with
    it but the reader and the ring buffer.  The probes of two kills do not overlap:
    the kernel's [oom_lock] serialises [oom_kill_process]. *)
From stdpp Require Export base list list_numbers strings gmap.
From Stdlib Require Export ZArith Lia.
From Stdlib.Strings Require Export Byte.

Open Scope Z_scope.

(** ** Bytes and machine integers *)

(** A byte read as an unsigned number. *)
Definition byte_to_Z (b : byte) : Z := Z.of_N (Byte.to_N b).

(** Truncation of a number to its low eight bits. *)
Definition byte_of_Z (z : Z) : byte :=
  match Byte.of_N (Z.to_N (z mod 256)) with
  | Some b => b
  | None => x00
  end.

(** Unsigned wrap-around at [w] bits. *)
Definition wrap (w z : Z) : Z := z mod 2 ^ w.

(** Two's-complement reading of the low [w] bits. *)
Definition swrap (w z : Z) : Z := (z + 2 ^ (w - 1)) mod 2 ^ w - 2 ^ (w - 1).

(** Little-endian encoding of a number in [n] bytes. *)
Fixpoint le_bytes (n : nat) (z : Z) : list byte :=
  match n with
  | O => []
  | S n => byte_of_Z z :: le_bytes n (z / 256)
  end.

(** Little-endian reading of a byte string. *)
Fixpoint le_Z (bs : list byte) : Z :=
  match bs with
  | [] => 0
  | b :: bs => byte_to_Z b + 256 * le_Z bs
  end.

(** A string literal as a byte string. *)
Definition bs (s : string) : list byte := String.list_byte_of_string s.


#[global] Instance byte_eq_dec : EqDecision byte := Byte.byte_eq_dec.

#[global] Program Instance byte_countable : Countable byte :=
  inj_countable' Byte.to_N (λ n, default x00 (Byte.of_N n)) _.
Next Obligation. intros x. simpl. by rewrite Byte.of_to_N. Qed.

(** ** Tactics of the development *)

Create HintDb otdb.
Create Rewrite HintDb otlen.
Create Rewrite HintDb otworld.
Create HintDb otworld.

(** Case analysis on the innermost [match] or [if] of the goal or a hypothesis. *)
Ltac crush_match :=
  repeat (case_match || case_decide || case_bool_decide); simplify_eq/=.

(** Boolean hypotheses turned into propositions. *)
Ltac bsimp :=
  repeat match goal with
  | H : _ && _ = true |- _ => apply andb_prop in H as [??]
  | H : _ || _ = false |- _ => apply orb_false_elim in H as [??]
  | H : negb _ = true |- _ => apply negb_true_iff in H
  | H : negb _ = false |- _ => apply negb_false_iff in H
  | H : (_ <=? _)%Z = true |- _ => apply Z.leb_le in H
  | H : (_ <? _)%Z = true |- _ => apply Z.ltb_lt in H
  | H : (_ =? _)%Z = true |- _ => apply Z.eqb_eq in H
  | H : (_ <=? _)%Z = false |- _ => apply Z.leb_gt in H
  | H : (_ <? _)%Z = false |- _ => apply Z.ltb_ge in H
  | H : (_ =? _)%Z = false |- _ => apply Z.eqb_neq in H
  | H : String.eqb _ _ = true |- _ => apply String.eqb_eq in H
  | H : String.eqb _ _ = false |- _ => apply String.eqb_neq in H
  end.

(** Length goals over the list operations used here. *)
Ltac len :=
  repeat first
    [ progress autorewrite with otlen
    | progress cbn [length] ];
  try lia.

(** ** Facts about bytes *)

Lemma byte_to_Z_range b : 0 <= byte_to_Z b < 256.
Proof.
  unfold byte_to_Z. pose proof (Byte.to_N_bounded b). lia.
Qed.
#[export] Hint Resolve byte_to_Z_range : otdb.

Lemma byte_to_of_Z z : byte_to_Z (byte_of_Z z) = z mod 256.
Proof.
  unfold byte_to_Z, byte_of_Z.
  pose proof (Z.mod_pos_bound z 256 ltac:(lia)) as Hb.
  destruct (Byte.of_N (Z.to_N (z mod 256))) as [c|] eqn:E.
  - apply Byte.to_of_N in E. rewrite E. lia.
  - apply Byte.of_N_None_iff in E. lia.
Qed.

Lemma byte_of_to_Z b : byte_of_Z (byte_to_Z b) = b.
Proof.
  unfold byte_of_Z. rewrite Z.mod_small by apply byte_to_Z_range.
  unfold byte_to_Z. by rewrite N2Z.id, Byte.of_to_N.
Qed.

Lemma byte_to_Z_inj b1 b2 : byte_to_Z b1 = byte_to_Z b2 → b1 = b2.
Proof. intros H. by rewrite <- (byte_of_to_Z b1), H, byte_of_to_Z. Qed.

Lemma length_le_bytes n z : length (le_bytes n z) = n.
Proof. revert z; induction n; intros; simpl; auto. Qed.

#[export] Hint Rewrite length_le_bytes @length_app @length_take @length_drop
  @length_replicate @length_map @length_fmap : otlen.

Lemma le_Z_bound l : 0 <= le_Z l < 256 ^ Z.of_nat (length l).
Proof.
  induction l as [|a l IH]; cbn [le_Z length]; [lia|].
  pose proof (byte_to_Z_range a).
  rewrite Nat2Z.inj_succ, Z.pow_succ_r by lia. lia.
Qed.

Lemma le_Z_le_bytes n z : le_Z (le_bytes n z) = z mod 256 ^ Z.of_nat n.
Proof.
  revert z; induction n as [|n IH]; intros z; cbn [le_bytes le_Z].
  - by rewrite Z.mod_1_r.
  - rewrite IH, byte_to_of_Z, Nat2Z.inj_succ, Z.pow_succ_r by lia.
    assert (0 < 256 ^ Z.of_nat n) by (apply Z.pow_pos_nonneg; lia).
    rewrite Z.rem_mul_r by lia. lia.
Qed.

Lemma le_bytes_le_Z l : le_bytes (length l) (le_Z l) = l.
Proof.
  induction l as [|a l IH]; [done|].
  cbn [length le_bytes le_Z]. pose proof (byte_to_Z_range a). f_equal.
  - apply byte_to_Z_inj. rewrite byte_to_of_Z.
    rewrite (Z.mul_comm 256), Z.mod_add, Z.mod_small; lia.
  - rewrite (Z.mul_comm 256), Z.div_add, Z.div_small by lia. done.
Qed.

(** Reading back what was encoded, when it fits. *)
Lemma le_roundtrip n z :
  0 <= z < 256 ^ Z.of_nat n → le_Z (le_bytes n z) = z.
Proof. intros. rewrite le_Z_le_bytes. by apply Z.mod_small. Qed.

Lemma wrap_range w z : 0 <= w → 0 <= wrap w z < 2 ^ w.
Proof. intros. apply Z.mod_pos_bound. apply Z.pow_pos_nonneg; lia. Qed.

Lemma wrap_small w z : 0 <= z < 2 ^ w → wrap w z = z.
Proof. apply Z.mod_small. Qed.

(** Reinterpreting a signed value at the same width keeps its bits. *)
Lemma wrap_swrap w z : 0 < w → wrap w (swrap w z) = wrap w z.
Proof.
  intros Hw. unfold wrap, swrap.
  rewrite Zminus_mod, Z.mod_mod, <- Zminus_mod by (apply Z.pow_nonzero; lia).
  f_equal. lia.
Qed.

Lemma length_concat_const {A} (l : list (list A)) n :
  Forall (λ x, length x = n) l → length (concat l) = (length l * n)%nat.
Proof. induction 1; simpl; [done|]. rewrite length_app. lia. Qed.

(** ** Writing into a byte buffer *)

(** [write_at off d buf]: overwrite [buf] from [off] on with [d]. *)
Definition write_at (off : nat) (d buf : list byte) : list byte :=
  take off buf ++ d ++ drop (off + length d) buf.

(** [slice off n buf]: the [n] bytes of [buf] from [off] on. *)
Definition slice (off n : nat) (buf : list byte) : list byte :=
  take n (drop off buf).

Lemma length_write_at off d buf :
  (off + length d <= length buf)%nat → length (write_at off d buf) = length buf.
Proof. intros. unfold write_at. len. Qed.

Lemma write_at_app off d l1 l2 l3 :
  length l1 = off → length l2 = length d →
  write_at off d (l1 ++ l2 ++ l3) = l1 ++ d ++ l3.
Proof.
  intros <- Hl. unfold write_at. rewrite take_app_length. f_equal. f_equal.
  rewrite <- Hl, <- length_app, app_assoc. by rewrite drop_app_length.
Qed.

Lemma slice_app off n l1 l2 l3 :
  length l1 = off → length l2 = n → slice off n (l1 ++ l2 ++ l3) = l2.
Proof.
  intros <- <-. unfold slice. by rewrite drop_app_length, take_app_length.
Qed.

Arguments le_bytes : simpl never.
Arguments le_Z : simpl never.
