(* ===== verification/CTypes.v ===== *)
(** * C types and their memory layout

    The data layout rules the compiler applies to the kernel headers the probe
    is built against (LP64, little-endian, System V bit-fields): size,
    alignment, the offset of a named member, and the resolution of a member
    designator such as [css.cgroup] or [regs[0]].  [VmlinuxX86] and
    [VmlinuxArm64] write the kernel's declarations in this syntax, and
    [OomKill] writes [struct event] in it.

    A member list is an inductive type of its own, so that anonymous structs
    and unions, whose members belong to the enclosing scope, are ordinary
    nested values.  Offsets are counted in bits because bit-fields need it. *)
From S2P Require Import Prelude.

(** ** Syntax *)

(** The integer types of C. *)
Inductive ikind :=
  | IBool | IChar | IUChar | IShort | IUShort | IInt | IUInt
  | ILong | IULong | ILLong | IULLong | IInt128 | IUInt128.

(** C object types, and member lists. [TPtr] keeps the spelling of the pointed-to
    type, [TEnum] the enumeration constants; an anonymous member has the empty
    name. *)
Inductive ctype :=
  | TInt (k : ikind)
  | TEnum (tag : string) (consts : list (string * Z))
  | TPtr (pointee : string)
  | TArr (elt : ctype) (len : Z)
  | TStruct (tag : string) (ms : members)
  | TUnion (tag : string) (ms : members)
with members :=
  | MNil
  | MFld (name : string) (t : ctype) (rest : members)
  | MBits (name : string) (t : ctype) (width : Z) (rest : members).

Scheme ctype_mut := Induction for ctype Sort Prop
  with members_mut := Induction for members Sort Prop.
Combined Scheme ctype_members_ind from ctype_mut, members_mut.

Declare Scope ctype_scope.
Delimit Scope ctype_scope with ctype.
Notation "'members{' x ; .. ; y '}'" := (x ( .. (y MNil) .. ))
  (at level 0, x at level 69, y at level 69, only parsing) : ctype_scope.
Notation "'members{' '}'" := MNil (only parsing) : ctype_scope.
Open Scope ctype_scope.

(** ** Size and alignment *)

(** Size of an integer type in bytes, which is also its alignment. *)
Definition isize (k : ikind) : Z :=
  match k with
  | IBool | IChar | IUChar => 1
  | IShort | IUShort => 2
  | IInt | IUInt => 4
  | ILong | IULong | ILLong | IULLong => 8
  | IInt128 | IUInt128 => 16
  end.

(** An enumeration is an [int] unless a constant does not fit one. *)
Definition enum_size (consts : list (string * Z)) : Z :=
  if forallb (λ c, (- 2 ^ 31 <=? c.2) && (c.2 <? 2 ^ 32)) consts then 4 else 8.

(** The least multiple of [a] that is at least [x]. *)
Definition align_up (x a : Z) : Z := (x + a - 1) / a * a.

(** Alignment. An unnamed bit-field does not constrain its struct. *)
Fixpoint alignof (t : ctype) : Z :=
  match t with
  | TInt k => isize k
  | TEnum _ cs => enum_size cs
  | TPtr _ => 8
  | TArr t _ => alignof t
  | TStruct _ ms | TUnion _ ms => members_align ms
  end
with members_align (ms : members) : Z :=
  match ms with
  | MNil => 1
  | MFld _ t ms => Z.max (alignof t) (members_align ms)
  | MBits x t _ ms =>
      if String.eqb x "" then members_align ms
      else Z.max (alignof t) (members_align ms)
  end.

(** Where a bit-field of [w] bits declared with a type of [unit] bits starts when
    the next free bit is [pos]: a field never straddles its storage unit, and
    a zero-width field closes the current unit. *)
Definition place_bits (unit w pos : Z) : Z :=
  if w =? 0 then align_up pos unit
  else if unit <? pos mod unit + w then align_up pos unit
  else pos.

(** Size in bytes. [struct_end] is the first free bit after laying out the
    members from bit [pos] on, [union_end] the largest member size in bits. *)
Fixpoint sizeof (t : ctype) : Z :=
  match t with
  | TInt k => isize k
  | TEnum _ cs => enum_size cs
  | TPtr _ => 8
  | TArr t n => n * sizeof t
  | TStruct _ ms => align_up (align_up (struct_end ms 0) 8 / 8) (members_align ms)
  | TUnion _ ms => align_up (align_up (union_end ms) 8 / 8) (members_align ms)
  end
with struct_end (ms : members) (pos : Z) : Z :=
  match ms with
  | MNil => pos
  | MFld _ t ms => struct_end ms (align_up pos (8 * alignof t) + 8 * sizeof t)
  | MBits _ t w ms => struct_end ms (place_bits (8 * sizeof t) w pos + w)
  end
with union_end (ms : members) : Z :=
  match ms with
  | MNil => 0
  | MFld _ t ms => Z.max (8 * sizeof t) (union_end ms)
  | MBits _ t w ms => Z.max w (union_end ms)
  end.

(** ** Member designators *)

(** One step of a designator: [.x] or [[n]]. *)
Inductive step := Dot (x : string) | Idx (n : Z).

(** The member [x] of a struct or union at bit [base]: its bit offset and type.
    Members of anonymous structs and unions are found through them; bit-fields
    have no address and are not designated. *)
Fixpoint find_member (x : string) (t : ctype) (base : Z) : option (Z * ctype) :=
  match t with
  | TStruct _ ms => find_struct x ms base 0
  | TUnion _ ms => find_union x ms base
  | _ => None
  end
with find_struct (x : string) (ms : members) (base pos : Z) : option (Z * ctype) :=
  match ms with
  | MNil => None
  | MFld y t ms =>
      let o := align_up pos (8 * alignof t) in
      let next := find_struct x ms base (o + 8 * sizeof t) in
      if String.eqb y "" then
        match find_member x t (base + o) with Some r => Some r | None => next end
      else if String.eqb x y then Some (base + o, t)
      else next
  | MBits _ t w ms =>
      find_struct x ms base (place_bits (8 * sizeof t) w pos + w)
  end
with find_union (x : string) (ms : members) (base : Z) : option (Z * ctype) :=
  match ms with
  | MNil => None
  | MFld y t ms =>
      if String.eqb y "" then
        match find_member x t base with
        | Some r => Some r
        | None => find_union x ms base
        end
      else if String.eqb x y then Some (base, t)
      else find_union x ms base
  | MBits _ _ _ ms => find_union x ms base
  end.

(** One designator step from a type at bit [base]. An index must be in range. *)
Definition designate1 (s : step) (t : ctype) (base : Z) : option (Z * ctype) :=
  match s, t with
  | Dot x, t => find_member x t base
  | Idx n, TArr u len =>
      if (0 <=? n) && (n <? len) then Some (base + n * (8 * sizeof u), u) else None
  | Idx _, _ => None
  end.

Fixpoint designate (p : list step) (t : ctype) (base : Z) : option (Z * ctype) :=
  match p with
  | [] => Some (base, t)
  | s :: p =>
      match designate1 s t base with
      | Some (o, u) => designate p u o
      | None => None
      end
  end.

(** [offsetof(t, p)] in bytes, with the type of the designated object. *)
Definition offsetof (t : ctype) (p : list step) : option (Z * ctype) :=
  match designate p t 0 with
  | Some (o, u) => Some (o / 8, u)
  | None => None
  end.

(** The designator [x]. *)
Definition fld (x : string) : list step := [Dot x].

(** The declaration a pointer type's spelling refers to, in the declarations
    [env] of a header: the last step of the compiler's [typeof(src->a)] when
    [a] is a pointer. *)
Fixpoint pointee_in (env : list (string * ctype)) (spelling : string) : option ctype :=
  match env with
  | [] => None
  | (s, t) :: env => if String.eqb s spelling then Some t else pointee_in env spelling
  end.

(** ** Well-formed declarations *)

Fixpoint wf_ctype (t : ctype) : bool :=
  match t with
  | TInt _ | TEnum _ _ | TPtr _ => true
  | TArr t n => wf_ctype t && (0 <=? n)
  | TStruct _ ms | TUnion _ ms => wf_members ms
  end
with wf_members (ms : members) : bool :=
  match ms with
  | MNil => true
  | MFld _ t ms => wf_ctype t && wf_members ms
  | MBits x t w ms =>
      wf_ctype t && (0 <? sizeof t) && (0 <=? w) && (w <=? 8 * sizeof t) && wf_members ms
  end.

(** The type of a function: its result and its arguments. *)
Record prototype := { p_ret : ctype; p_args : list ctype }.

(** ** Arithmetic of alignment *)

Lemma align_up_spec x a :
  0 < a → x <= align_up x a < x + a ∧ (a | align_up x a).
Proof.
  intros Ha. unfold align_up. split; [|apply Z.divide_factor_r].
  pose proof (Z.div_mod (x + a - 1) a ltac:(lia)).
  pose proof (Z.mod_pos_bound (x + a - 1) a Ha). lia.
Qed.

Lemma align_up_le x a : 0 < a → x <= align_up x a.
Proof. intros Ha. apply align_up_spec, Ha. Qed.

Lemma align_up_divide x a : 0 < a → (a | align_up x a).
Proof. intros Ha. apply align_up_spec, Ha. Qed.

(** Alignment is the least multiple: it never goes past another multiple. *)
Lemma align_up_least x a y : 0 < a → (a | y) → x <= y → align_up x a <= y.
Proof.
  intros Ha [k ->] Hx. destruct (align_up_spec x a Ha) as [H [m Hm]].
  rewrite Hm in *. assert (m < k + 1); [|nia].
  apply (Z.mul_lt_mono_pos_r a); lia.
Qed.

#[export] Hint Resolve align_up_le align_up_divide : otdb.

Lemma place_bits_le unit w pos : 0 < unit → pos <= place_bits unit w pos.
Proof. intros Hu. unfold place_bits. crush_match; eauto with otdb; lia. Qed.

(** Powers of two, the alignments of C types. *)
Definition pow2 (a : Z) : Prop := ∃ k, 0 <= k ∧ a = 2 ^ k.

Lemma pow2_pos a : pow2 a → 0 < a.
Proof. intros (k & Hk & ->). apply Z.pow_pos_nonneg; lia. Qed.

Lemma pow2_divide a c : pow2 a → pow2 c → a <= c → (a | c).
Proof.
  intros (k & Hk & ->) (m & Hm & ->) Hle.
  assert (k <= m) by (apply (Z.pow_le_mono_r_iff 2); lia).
  exists (2 ^ (m - k)). rewrite <- Z.pow_add_r by lia. f_equal. lia.
Qed.

Lemma pow2_max a c : pow2 a → pow2 c → pow2 (Z.max a c).
Proof. intros. destruct (Z.max_spec a c) as [[_ ->]|[_ ->]]; done. Qed.

Lemma pow2_const k : 0 <= k → pow2 (2 ^ k).
Proof. intros. by exists k. Qed.

Lemma pow2_isize k : pow2 (isize k).
Proof.
  destruct k; simpl;
    first [ by apply (pow2_const 0) | by apply (pow2_const 1) | by apply (pow2_const 2)
          | by apply (pow2_const 3) | by apply (pow2_const 4) ].
Qed.

Lemma pow2_enum_size cs : pow2 (enum_size cs).
Proof.
  unfold enum_size. case_match; [by apply (pow2_const 2)|by apply (pow2_const 3)].
Qed.

#[export] Hint Resolve pow2_pos pow2_max pow2_isize pow2_enum_size : otdb.

(** ** The layout is well formed *)

Lemma alignof_pow2_mut :
  (∀ t, pow2 (alignof t)) ∧ (∀ ms, pow2 (members_align ms)).
Proof.
  apply ctype_members_ind; simpl; intros; eauto with otdb.
  - by apply (pow2_const 3).
  - by apply (pow2_const 0).
  - case_match; eauto with otdb.
Qed.

Lemma alignof_pow2 t : pow2 (alignof t).
Proof. apply alignof_pow2_mut. Qed.

Lemma alignof_pos t : 0 < alignof t.
Proof. apply pow2_pos, alignof_pow2. Qed.

Lemma members_align_pos ms : 0 < members_align ms.
Proof. apply pow2_pos, alignof_pow2_mut. Qed.

#[export] Hint Resolve alignof_pow2 alignof_pos members_align_pos : otdb.

(** Sizes are non-negative and a struct never shrinks as members are added. *)
Lemma sizeof_nonneg_mut :
  (∀ t, wf_ctype t = true → 0 <= sizeof t) ∧
  (∀ ms, wf_members ms = true →
     (∀ pos, pos <= struct_end ms pos) ∧ 0 <= union_end ms).
Proof.
  apply ctype_members_ind; simpl; intros; bsimp.
  - pose proof (pow2_pos _ (pow2_isize k)). lia.
  - pose proof (pow2_pos _ (pow2_enum_size consts)). lia.
  - lia.
  - apply Z.mul_nonneg_nonneg; auto.
  - destruct (H H0) as [Hs _]. specialize (Hs 0).
    pose proof (align_up_le (struct_end ms 0) 8 ltac:(lia)).
    eapply Z.le_trans; [|apply align_up_le, members_align_pos].
    apply Z.div_pos; lia.
  - destruct (H H0) as [_ Hu].
    pose proof (align_up_le (union_end ms) 8 ltac:(lia)).
    eapply Z.le_trans; [|apply align_up_le, members_align_pos].
    apply Z.div_pos; lia.
  - split; intros; lia.
  - destruct (H0 H2) as [Hs Hu]. specialize (H H1). split; [intros pos|lia].
    pose proof (alignof_pos t).
    pose proof (align_up_le pos (8 * alignof t) ltac:(lia)).
    specialize (Hs (align_up pos (8 * alignof t) + 8 * sizeof t)). lia.
  - destruct (H0 H2) as [Hs Hu].
    split; [intros pos|lia].
    pose proof (place_bits_le (8 * sizeof t) width pos ltac:(lia)).
    specialize (Hs (place_bits (8 * sizeof t) width pos + width)). lia.
Qed.

Lemma sizeof_nonneg t : wf_ctype t = true → 0 <= sizeof t.
Proof. apply sizeof_nonneg_mut. Qed.

Lemma struct_end_ge ms pos : wf_members ms = true → pos <= struct_end ms pos.
Proof. intros H. by apply sizeof_nonneg_mut. Qed.

(** A size is a multiple of the alignment, so the elements of an array are
    aligned as its first one is. *)
Lemma sizeof_divide t : (alignof t | sizeof t).
Proof.
  induction t; simpl; eauto using Z.divide_refl, Z.divide_mul_r with otdb.
Qed.
#[export] Hint Resolve sizeof_divide : otdb.

Lemma byte_end_le e a : 0 < a → e <= 8 * align_up (align_up e 8 / 8) a.
Proof.
  intros Ha. destruct (align_up_spec e 8 ltac:(lia)) as [He [k Hk]].
  rewrite Hk in *. rewrite Z.div_mul by lia.
  pose proof (align_up_le k a Ha). lia.
Qed.

Lemma struct_size_end tag ms : struct_end ms 0 <= 8 * sizeof (TStruct tag ms).
Proof. simpl. apply byte_end_le; eauto with otdb. Qed.

Lemma union_size_end tag ms : union_end ms <= 8 * sizeof (TUnion tag ms).
Proof. simpl. apply byte_end_le; eauto with otdb. Qed.

(** The alignment of a member divides that of the aggregate. *)
Lemma members_align_head x t ms : (8 * alignof t | 8 * members_align (MFld x t ms)).
Proof.
  apply Z.mul_divide_mono_l, pow2_divide; simpl; eauto with otdb.
  - apply pow2_max; [eauto with otdb|apply alignof_pow2_mut].
  - lia.
Qed.

Lemma members_align_tail m ms :
  members_align ms <= members_align m → (8 * members_align ms | 8 * members_align m).
Proof.
  intros. apply Z.mul_divide_mono_l, pow2_divide; auto; apply alignof_pow2_mut.
Qed.

Lemma members_align_bits x t w ms : members_align ms <= members_align (MBits x t w ms).
Proof. simpl. case_match; lia. Qed.

(** Where a designated object of type [u] at bit [o] may lie: inside [lo, hi)
    and aligned. *)
Definition placed (lo hi o : Z) (u : ctype) : Prop :=
  lo <= o ∧ o + 8 * sizeof u <= hi ∧ (8 * alignof u | o).

Lemma placed_weaken lo hi lo' hi' o u :
  placed lo hi o u → lo' <= lo → hi <= hi' → placed lo' hi' o u.
Proof. unfold placed. intuition lia. Qed.

(** A member is found at the head of a struct or union, or inside it, or further on. *)
Section find_field.
Variables (x y : string) (t : ctype) (ms : members) (base o : Z) (u : ctype).
Hypotheses (Hwt : wf_ctype t = true) (Hwm : wf_members ms = true).
Hypothesis Hbt : (8 * alignof t | base).
Hypothesis IHt : ∀ base o u, (8 * alignof t | base) → find_member x t base = Some (o, u) →
  placed base (base + 8 * sizeof t) o u ∧ wf_ctype u = true.

Lemma find_struct_field pos :
  (∀ pos, find_struct x ms base pos = Some (o, u) →
     placed (base + pos) (base + struct_end ms pos) o u ∧ wf_ctype u = true) →
  find_struct x (MFld y t ms) base pos = Some (o, u) →
  placed (base + pos) (base + struct_end (MFld y t ms) pos) o u ∧ wf_ctype u = true.
Proof using Hwt Hwm Hbt IHt.
  intros IHs Hf. pose proof (sizeof_nonneg t Hwt). pose proof (alignof_pos t) as Ha.
  simpl in Hf |- *. destruct (align_up_spec pos (8 * alignof t) ltac:(lia)) as [Hle Hdiv].
  set (p := align_up pos (8 * alignof t)) in *.
  pose proof (struct_end_ge ms (p + 8 * sizeof t) Hwm).
  assert (Hnext : find_struct x ms base (p + 8 * sizeof t) = Some (o, u) →
    placed (base + pos) (base + struct_end ms (p + 8 * sizeof t)) o u ∧ wf_ctype u = true).
  { intros Hn. destruct (IHs _ Hn). split; [|done]. eapply placed_weaken; eauto; lia. }
  crush_match; auto.
  - destruct (IHt (base + p) o u) as [Hpl Hwu]; [by apply Z.divide_add_r|done|].
    split; [|done]. eapply placed_weaken; [exact Hpl|lia|lia].
  - split; [|done]. unfold placed. split_and!; [lia|lia|by apply Z.divide_add_r].
Qed.

Lemma find_union_field :
  (find_union x ms base = Some (o, u) →
     placed base (base + union_end ms) o u ∧ wf_ctype u = true) →
  find_union x (MFld y t ms) base = Some (o, u) →
  placed base (base + union_end (MFld y t ms)) o u ∧ wf_ctype u = true.
Proof using Hwt Hbt IHt.
  intros IHu Hf. pose proof (sizeof_nonneg t Hwt). simpl in Hf |- *.
  assert (Hnext : find_union x ms base = Some (o, u) →
    placed base (base + Z.max (8 * sizeof t) (union_end ms)) o u ∧ wf_ctype u = true).
  { intros Hn. destruct (IHu Hn). split; [|done]. eapply placed_weaken; eauto; lia. }
  crush_match; auto.
  - destruct (IHt base o u Hbt) as [Hpl Hwu]; [done|].
    split; [|done]. eapply placed_weaken; [exact Hpl|lia|lia].
  - split; [|done]. unfold placed. split_and!; [lia|lia|done].
Qed.
End find_field.

Lemma find_member_placed_mut x :
  (∀ t, wf_ctype t = true → ∀ base o u,
     (8 * alignof t | base) → find_member x t base = Some (o, u) →
     placed base (base + 8 * sizeof t) o u ∧ wf_ctype u = true) ∧
  (∀ ms, wf_members ms = true → ∀ base o u, (8 * members_align ms | base) →
     (∀ pos, find_struct x ms base pos = Some (o, u) →
        placed (base + pos) (base + struct_end ms pos) o u ∧ wf_ctype u = true) ∧
     (find_union x ms base = Some (o, u) →
        placed base (base + union_end ms) o u ∧ wf_ctype u = true)).
Proof.
  apply ctype_members_ind; try done.
  - (* struct *)
    intros tag ms IH Hwf base o u Hb Hf.
    destruct (IH Hwf base o u Hb) as [Hs _]. destruct (Hs 0 Hf) as [Hp Hu].
    split; [|done]. pose proof (struct_size_end tag ms).
    eapply placed_weaken; [exact Hp|lia|lia].
  - (* union *)
    intros tag ms IH Hwf base o u Hb Hf.
    destruct (IH Hwf base o u Hb) as [_ Hs]. destruct (Hs Hf) as [Hp Hu].
    split; [|done]. pose proof (union_size_end tag ms).
    eapply placed_weaken; [exact Hp|lia|lia].
  - (* MFld *)
    intros y t IHt ms IHms Hwf base o u Hb.
    simpl in Hwf. apply andb_prop in Hwf as [Hwt Hwm].
    assert (Hbt : (8 * alignof t | base))
      by (eapply Z.divide_trans; [apply members_align_head|exact Hb]).
    assert (Hbm : (8 * members_align ms | base)).
    { eapply Z.divide_trans; [apply (members_align_tail (MFld y t ms)); simpl; lia|exact Hb]. }
    destruct (IHms Hwm base o u Hbm) as [IHs IHu].
    split; [intros pos; by apply find_struct_field; auto|by apply find_union_field; auto].
  - (* MBits *)
    intros y t _ w ms IHms Hwf base o u Hb. simpl in Hwf.
    bsimp.
    assert (Hbm : (8 * members_align ms | base)).
    { eapply Z.divide_trans; [apply (members_align_tail (MBits y t w ms))|exact Hb].
      apply members_align_bits. }
    destruct (IHms ltac:(done) base o u Hbm) as [IHs IHu]. split.
    + intros pos Hf. simpl in Hf |- *. destruct (IHs _ Hf) as [Hp Hu]. split; [|done].
      pose proof (place_bits_le (8 * sizeof t) w pos ltac:(lia)).
      eapply placed_weaken; eauto; lia.
    + intros Hf. simpl in Hf |- *. destruct (IHu Hf) as [Hp Hu]. split; [|done].
      eapply placed_weaken; eauto; lia.
Qed.

Lemma designate_placed p t base o u :
  wf_ctype t = true → (8 * alignof t | base) → designate p t base = Some (o, u) →
  placed base (base + 8 * sizeof t) o u ∧ wf_ctype u = true.
Proof.
  revert t base. induction p as [|s p IH]; intros t base Hwf Hb Hd; simpl in Hd.
  - simplify_eq. split; [|done]. unfold placed. split_and!; [lia|lia|done].
  - destruct (designate1 s t base) as [[o1 u1]|] eqn:E; [|done].
    assert (H1 : placed base (base + 8 * sizeof t) o1 u1 ∧ wf_ctype u1 = true).
    { destruct s as [x|n]; simpl in E.
      - by apply (find_member_placed_mut x).
      - destruct t as [| | |u' len| |]; try done.
        crush_match. apply andb_prop in Hwf as [Hwf _].
        bsimp.
        pose proof (sizeof_nonneg _ Hwf). split; [|done].
        unfold placed. split_and!; [nia|nia|].
        apply Z.divide_add_r; [done|]. apply Z.divide_mul_r.
        apply Z.mul_divide_mono_l, sizeof_divide. }
    destruct H1 as [(Hlo & Hhi & Hdiv) Hw1].
    destruct (IH u1 o1 Hw1 Hdiv Hd) as [Hp Hu]. split; [|done].
    eapply placed_weaken; [exact Hp|lia|lia].
Qed.

Lemma offsetof_placed t p o u :
  wf_ctype t = true → offsetof t p = Some (o, u) →
  0 <= o ∧ 0 <= sizeof u ∧ o + sizeof u <= sizeof t ∧ (alignof u | o).
Proof.
  intros Hwf Ho. unfold offsetof in Ho.
  destruct (designate p t 0) as [[q v]|] eqn:E; simplify_eq/=.
  destruct (designate_placed p t 0 q u Hwf ltac:(apply Z.divide_0_r) E)
    as [(H1 & H2 & k & ->) Hu%sizeof_nonneg].
  replace (k * (8 * alignof u)) with (k * alignof u * 8) in * by lia.
  rewrite Z.div_mul by lia. split_and!; [lia|lia|lia|by apply Z.divide_factor_r].
Qed.

(** ** An example *)

(** A struct with bit-fields, an anonymous union and an array. *)
Definition example_struct : ctype := TStruct "s" members{
  MFld "flag" (TInt IChar);
  MBits "lo" (TInt IUInt) 3;
  MBits "hi" (TInt IUInt) 30;
  MFld "" (TUnion "" members{ MFld "word" (TInt IULong); MFld "ptr" (TPtr "char") });
  MFld "regs" (TArr (TInt IUShort) 5) }.

Example example_offsets :
  offsetof example_struct (fld "ptr") = Some (8, TPtr "char") ∧
  offsetof example_struct [Dot "regs"; Idx 4] = Some (24, TInt IUShort) ∧
  offsetof example_struct [Dot "regs"; Idx 5] = None ∧ sizeof example_struct = 32.
Proof. by vm_compute. Qed.
