(* ===== verification/VmlinuxX86.v ===== *)
(** * Kernel types of the x86-64 build

    The declarations of [vmlinux_generated_x86_64.h] the probe reaches: the structs whose members
    [oomkill.c] reads ([oom_control], [task_struct], [css_set], [cgroup],
    [cgroup_subsys_state], [mem_cgroup], [kernfs_node] and the saved
    registers), the structs and unions their pointers lead to (but for those with
    attributes), and the map types, with every struct, union, enum and typedef
    they hold by value, in an order where each is declared before its use.  A
    pointer keeps the spelling of what it points to in [TPtr]. *)
From S2P Require Import Prelude CTypes.

Definition gfp_t : ctype :=
  (TInt IUInt).

Definition oom_constraint : ctype :=
  TEnum "oom_constraint" [("CONSTRAINT_NONE", 0); ("CONSTRAINT_CPUSET", 1); ("CONSTRAINT_MEMORY_POLICY", 2); ("CONSTRAINT_MEMCG", 3)].

Definition oom_control : ctype :=
  TStruct "oom_control" members{
  MFld "zonelist" (TPtr "struct zonelist");
  MFld "nodemask" (TPtr "nodemask_t");
  MFld "memcg" (TPtr "struct mem_cgroup");
  MFld "gfp_mask" gfp_t;
  MFld "order" (TInt IInt);
  MFld "totalpages" (TInt IULong);
  MFld "chosen" (TPtr "struct task_struct");
  MFld "chosen_points" (TInt ILong);
  MFld "constraint" oom_constraint }.

Definition __u32 : ctype :=
  (TInt IUInt).

Definition u32 : ctype :=
  __u32.

Definition thread_info : ctype :=
  TStruct "thread_info" members{
  MFld "flags" (TInt IULong);
  MFld "syscall_work" (TInt IULong);
  MFld "status" u32;
  MFld "cpu" u32 }.

Definition atomic_t : ctype :=
  (TStruct "" members{
    MFld "counter" (TInt IInt) }).

Definition refcount_struct : ctype :=
  TStruct "refcount_struct" members{
  MFld "refs" atomic_t }.

Definition refcount_t : ctype :=
  refcount_struct.

Definition llist_node : ctype :=
  TStruct "llist_node" members{
  MFld "next" (TPtr "struct llist_node") }.

Definition __u16 : ctype :=
  (TInt IUShort).

Definition u16 : ctype :=
  __u16.

Definition __call_single_node : ctype :=
  TStruct "__call_single_node" members{
  MFld "llist" llist_node;
  MFld "" (TUnion "" members{
    MFld "u_flags" (TInt IUInt);
    MFld "a_flags" atomic_t });
  MFld "src" u16;
  MFld "dst" u16 }.

Definition load_weight : ctype :=
  TStruct "load_weight" members{
  MFld "weight" (TInt IULong);
  MFld "inv_weight" u32 }.

Definition rb_node : ctype :=
  TStruct "rb_node" members{
  MFld "__rb_parent_color" (TInt IULong);
  MFld "rb_right" (TPtr "struct rb_node");
  MFld "rb_left" (TPtr "struct rb_node") }.

Definition __u64 : ctype :=
  (TInt IULLong).

Definition u64 : ctype :=
  __u64.

Definition list_head : ctype :=
  TStruct "list_head" members{
  MFld "next" (TPtr "struct list_head");
  MFld "prev" (TPtr "struct list_head") }.

Definition __s64 : ctype :=
  (TInt ILLong).

Definition s64 : ctype :=
  __s64.

Definition sched_avg : ctype :=
  TStruct "sched_avg" members{
  MFld "last_update_time" u64;
  MFld "load_sum" u64;
  MFld "runnable_sum" u64;
  MFld "util_sum" u32;
  MFld "period_contrib" u32;
  MFld "load_avg" (TInt IULong);
  MFld "runnable_avg" (TInt IULong);
  MFld "util_avg" (TInt IULong);
  MFld "util_est" (TInt IUInt) }.

Definition sched_entity : ctype :=
  TStruct "sched_entity" members{
  MFld "load" load_weight;
  MFld "run_node" rb_node;
  MFld "deadline" u64;
  MFld "min_vruntime" u64;
  MFld "group_node" list_head;
  MFld "on_rq" (TInt IUInt);
  MFld "exec_start" u64;
  MFld "sum_exec_runtime" u64;
  MFld "prev_sum_exec_runtime" u64;
  MFld "vruntime" u64;
  MFld "vlag" s64;
  MFld "slice" u64;
  MFld "nr_migrations" u64;
  MFld "depth" (TInt IInt);
  MFld "parent" (TPtr "struct sched_entity");
  MFld "cfs_rq" (TPtr "struct cfs_rq");
  MFld "my_q" (TPtr "struct cfs_rq");
  MFld "runnable_weight" (TInt IULong);
  MBits "" (TInt ILong) 64;
  MBits "" (TInt ILong) 64;
  MFld "avg" sched_avg }.

Definition sched_rt_entity : ctype :=
  TStruct "sched_rt_entity" members{
  MFld "run_list" list_head;
  MFld "timeout" (TInt IULong);
  MFld "watchdog_stamp" (TInt IULong);
  MFld "time_slice" (TInt IUInt);
  MFld "on_rq" (TInt IUShort);
  MFld "on_list" (TInt IUShort);
  MFld "back" (TPtr "struct sched_rt_entity") }.

Definition ktime_t : ctype :=
  s64.

Definition timerqueue_node : ctype :=
  TStruct "timerqueue_node" members{
  MFld "node" rb_node;
  MFld "expires" ktime_t }.

Definition __u8 : ctype :=
  (TInt IUChar).

Definition u8 : ctype :=
  __u8.

Definition hrtimer : ctype :=
  TStruct "hrtimer" members{
  MFld "node" timerqueue_node;
  MFld "_softexpires" ktime_t;
  MFld "function" (TPtr "enum hrtimer_restart (*)()");
  MFld "base" (TPtr "struct hrtimer_clock_base");
  MFld "state" u8;
  MFld "is_rel" u8;
  MFld "is_soft" u8;
  MFld "is_hard" u8 }.

Definition dl_server_has_tasks_f : ctype :=
  (TPtr "bool (*)()").

Definition dl_server_pick_f : ctype :=
  (TPtr "struct task_struct (*)()").

Definition sched_dl_entity : ctype :=
  TStruct "sched_dl_entity" members{
  MFld "rb_node" rb_node;
  MFld "dl_runtime" u64;
  MFld "dl_deadline" u64;
  MFld "dl_period" u64;
  MFld "dl_bw" u64;
  MFld "dl_density" u64;
  MFld "runtime" s64;
  MFld "deadline" u64;
  MFld "flags" (TInt IUInt);
  MBits "dl_throttled" (TInt IUInt) 1;
  MBits "dl_yielded" (TInt IUInt) 1;
  MBits "dl_non_contending" (TInt IUInt) 1;
  MBits "dl_overrun" (TInt IUInt) 1;
  MBits "dl_server" (TInt IUInt) 1;
  MFld "dl_timer" hrtimer;
  MFld "inactive_timer" hrtimer;
  MFld "rq" (TPtr "struct rq");
  MFld "server_has_tasks" dl_server_has_tasks_f;
  MFld "server_pick" dl_server_pick_f;
  MFld "pi_se" (TPtr "struct sched_dl_entity") }.

Definition uclamp_se : ctype :=
  TStruct "uclamp_se" members{
  MBits "value" (TInt IUInt) 11;
  MBits "bucket_id" (TInt IUInt) 3;
  MBits "active" (TInt IUInt) 1;
  MBits "user_defined" (TInt IUInt) 1 }.

Definition sched_statistics : ctype :=
  TStruct "sched_statistics" members{
  MFld "wait_start" u64;
  MFld "wait_max" u64;
  MFld "wait_count" u64;
  MFld "wait_sum" u64;
  MFld "iowait_count" u64;
  MFld "iowait_sum" u64;
  MFld "sleep_start" u64;
  MFld "sleep_max" u64;
  MFld "sum_sleep_runtime" s64;
  MFld "block_start" u64;
  MFld "block_max" u64;
  MFld "sum_block_runtime" s64;
  MFld "exec_max" s64;
  MFld "slice_max" u64;
  MFld "nr_migrations_cold" u64;
  MFld "nr_failed_migrations_affine" u64;
  MFld "nr_failed_migrations_running" u64;
  MFld "nr_failed_migrations_hot" u64;
  MFld "nr_forced_migrations" u64;
  MFld "nr_wakeups" u64;
  MFld "nr_wakeups_sync" u64;
  MFld "nr_wakeups_migrate" u64;
  MFld "nr_wakeups_local" u64;
  MFld "nr_wakeups_remote" u64;
  MFld "nr_wakeups_affine" u64;
  MFld "nr_wakeups_affine_attempts" u64;
  MFld "nr_wakeups_passive" u64;
  MFld "nr_wakeups_idle" u64;
  MFld "core_forceidle_sum" u64;
  MBits "" (TInt ILong) 64;
  MBits "" (TInt ILong) 64;
  MBits "" (TInt ILong) 64 }.

Definition hlist_head : ctype :=
  TStruct "hlist_head" members{
  MFld "first" (TPtr "struct hlist_node") }.

Definition cpumask : ctype :=
  TStruct "cpumask" members{
  MFld "bits" (TArr (TInt IULong) 128) }.

Definition cpumask_t : ctype :=
  cpumask.

Definition rcu_special : ctype :=
  TUnion "rcu_special" members{
  MFld "b" (TStruct "" members{
    MFld "blocked" u8;
    MFld "need_qs" u8;
    MFld "exp_hint" u8;
    MFld "need_mb" u8 });
  MFld "s" u32 }.

Definition sched_info : ctype :=
  TStruct "sched_info" members{
  MFld "pcount" (TInt IULong);
  MFld "run_delay" (TInt IULLong);
  MFld "last_arrival" (TInt IULLong);
  MFld "last_queued" (TInt IULLong) }.

Definition plist_node : ctype :=
  TStruct "plist_node" members{
  MFld "prio" (TInt IInt);
  MFld "prio_list" list_head;
  MFld "node_list" list_head }.

Definition __kernel_clockid_t : ctype :=
  (TInt IInt).

Definition clockid_t : ctype :=
  __kernel_clockid_t.

Definition timespec_type : ctype :=
  TEnum "timespec_type" [("TT_NONE", 0); ("TT_NATIVE", 1); ("TT_COMPAT", 2)].

Definition restart_block : ctype :=
  TStruct "restart_block" members{
  MFld "arch_data" (TInt IULong);
  MFld "fn" (TPtr "long int (*)()");
  MFld "" (TUnion "" members{
    MFld "futex" (TStruct "" members{
      MFld "uaddr" (TPtr "u32");
      MFld "val" u32;
      MFld "flags" u32;
      MFld "bitset" u32;
      MFld "time" u64;
      MFld "uaddr2" (TPtr "u32") });
    MFld "nanosleep" (TStruct "" members{
      MFld "clockid" clockid_t;
      MFld "type" timespec_type;
      MFld "" (TUnion "" members{
        MFld "rmtp" (TPtr "struct __kernel_timespec");
        MFld "compat_rmtp" (TPtr "struct old_timespec32") });
      MFld "expires" u64 });
    MFld "poll" (TStruct "" members{
      MFld "ufds" (TPtr "struct pollfd");
      MFld "nfds" (TInt IInt);
      MFld "has_timeout" (TInt IInt);
      MFld "tv_sec" (TInt IULong);
      MFld "tv_nsec" (TInt IULong) }) }) }.

Definition __kernel_pid_t : ctype :=
  (TInt IInt).

Definition pid_t : ctype :=
  __kernel_pid_t.

Definition hlist_node : ctype :=
  TStruct "hlist_node" members{
  MFld "next" (TPtr "struct hlist_node");
  MFld "pprev" (TPtr "struct hlist_node*") }.

Definition qspinlock : ctype :=
  TStruct "qspinlock" members{
  MFld "" (TUnion "" members{
    MFld "val" atomic_t;
    MFld "" (TStruct "" members{
      MFld "locked" u8;
      MFld "pending" u8 });
    MFld "" (TStruct "" members{
      MFld "locked_pending" u16;
      MFld "tail" u16 }) }) }.

Definition arch_spinlock_t : ctype :=
  qspinlock.

Definition raw_spinlock : ctype :=
  TStruct "raw_spinlock" members{
  MFld "raw_lock" arch_spinlock_t }.

Definition raw_spinlock_t : ctype :=
  raw_spinlock.

Definition prev_cputime : ctype :=
  TStruct "prev_cputime" members{
  MFld "utime" u64;
  MFld "stime" u64;
  MFld "lock" raw_spinlock_t }.

Definition seqcount : ctype :=
  TStruct "seqcount" members{
  MFld "sequence" (TInt IUInt) }.

Definition seqcount_t : ctype :=
  seqcount.

Definition vtime_state : ctype :=
  TEnum "vtime_state" [("VTIME_INACTIVE", 0); ("VTIME_IDLE", 1); ("VTIME_SYS", 2); ("VTIME_USER", 3); ("VTIME_GUEST", 4)].

Definition vtime : ctype :=
  TStruct "vtime" members{
  MFld "seqcount" seqcount_t;
  MFld "starttime" (TInt IULLong);
  MFld "state" vtime_state;
  MFld "cpu" (TInt IUInt);
  MFld "utime" u64;
  MFld "stime" u64;
  MFld "gtime" u64 }.

Definition rb_root : ctype :=
  TStruct "rb_root" members{
  MFld "rb_node" (TPtr "struct rb_node") }.

Definition rb_root_cached : ctype :=
  TStruct "rb_root_cached" members{
  MFld "rb_root" rb_root;
  MFld "rb_leftmost" (TPtr "struct rb_node") }.

Definition timerqueue_head : ctype :=
  TStruct "timerqueue_head" members{
  MFld "rb_root" rb_root_cached }.

Definition posix_cputimer_base : ctype :=
  TStruct "posix_cputimer_base" members{
  MFld "nextevt" u64;
  MFld "tqhead" timerqueue_head }.

Definition posix_cputimers : ctype :=
  TStruct "posix_cputimers" members{
  MFld "bases" (TArr posix_cputimer_base 3);
  MFld "timers_active" (TInt IUInt);
  MFld "expiry_active" (TInt IUInt) }.

Definition callback_head : ctype :=
  TStruct "callback_head" members{
  MFld "next" (TPtr "struct callback_head");
  MFld "func" (TPtr "void (*)()") }.

Definition atomic64_t : ctype :=
  (TStruct "" members{
    MFld "counter" s64 }).

Definition atomic_long_t : ctype :=
  atomic64_t.

Definition optimistic_spin_queue : ctype :=
  TStruct "optimistic_spin_queue" members{
  MFld "tail" atomic_t }.

Definition mutex : ctype :=
  TStruct "mutex" members{
  MFld "owner" atomic_long_t;
  MFld "wait_lock" raw_spinlock_t;
  MFld "osq" optimistic_spin_queue;
  MFld "wait_list" list_head }.

Definition posix_cputimers_work : ctype :=
  TStruct "posix_cputimers_work" members{
  MFld "work" callback_head;
  MFld "mutex" mutex;
  MFld "scheduled" (TInt IUInt) }.

Definition sysv_sem : ctype :=
  TStruct "sysv_sem" members{
  MFld "undo_list" (TPtr "struct sem_undo_list") }.

Definition sysv_shm : ctype :=
  TStruct "sysv_shm" members{
  MFld "shm_clist" list_head }.

Definition sigset_t : ctype :=
  (TStruct "" members{
    MFld "sig" (TArr (TInt IULong) 1) }).

Definition sigpending : ctype :=
  TStruct "sigpending" members{
  MFld "list" list_head;
  MFld "signal" sigset_t }.

Definition __kernel_ulong_t : ctype :=
  (TInt IULong).

Definition __kernel_size_t : ctype :=
  __kernel_ulong_t.

Definition size_t : ctype :=
  __kernel_size_t.

Definition __kernel_uid32_t : ctype :=
  (TInt IUInt).

Definition uid_t : ctype :=
  __kernel_uid32_t.

Definition kuid_t : ctype :=
  (TStruct "" members{
    MFld "val" uid_t }).

Definition seccomp : ctype :=
  TStruct "seccomp" members{
  MFld "mode" (TInt IInt);
  MFld "filter_count" atomic_t;
  MFld "filter" (TPtr "struct seccomp_filter") }.

Definition bool_t : ctype :=
  (TInt IBool).

Definition syscall_user_dispatch : ctype :=
  TStruct "syscall_user_dispatch" members{
  MFld "selector" (TPtr "char");
  MFld "offset" (TInt IULong);
  MFld "len" (TInt IULong);
  MFld "on_dispatch" bool_t }.

Definition spinlock : ctype :=
  TStruct "spinlock" members{
  MFld "" (TUnion "" members{
    MFld "rlock" raw_spinlock }) }.

Definition spinlock_t : ctype :=
  spinlock.

Definition wake_q_node : ctype :=
  TStruct "wake_q_node" members{
  MFld "next" (TPtr "struct wake_q_node") }.

Definition task_io_accounting : ctype :=
  TStruct "task_io_accounting" members{
  MFld "rchar" u64;
  MFld "wchar" u64;
  MFld "syscr" u64;
  MFld "syscw" u64;
  MFld "read_bytes" u64;
  MFld "write_bytes" u64;
  MFld "cancelled_write_bytes" u64 }.

Definition nodemask_t : ctype :=
  (TStruct "" members{
    MFld "bits" (TArr (TInt IULong) 16) }).

Definition seqcount_spinlock : ctype :=
  TStruct "seqcount_spinlock" members{
  MFld "seqcount" seqcount_t }.

Definition seqcount_spinlock_t : ctype :=
  seqcount_spinlock.

Definition arch_tlbflush_unmap_batch : ctype :=
  TStruct "arch_tlbflush_unmap_batch" members{
  MFld "cpumask" cpumask }.

Definition tlbflush_unmap_batch : ctype :=
  TStruct "tlbflush_unmap_batch" members{
  MFld "arch" arch_tlbflush_unmap_batch;
  MFld "flush_required" bool_t;
  MFld "writable" bool_t }.

Definition page_frag : ctype :=
  TStruct "page_frag" members{
  MFld "page" (TPtr "struct page");
  MFld "offset" __u32;
  MFld "size" __u32 }.

Definition latency_record : ctype :=
  TStruct "latency_record" members{
  MFld "backtrace" (TArr (TInt IULong) 12);
  MFld "count" (TInt IUInt);
  MFld "time" (TInt IULong);
  MFld "max" (TInt IULong) }.

Definition kmap_ctrl : ctype :=
  TStruct "kmap_ctrl" MNil.

Definition timer_list : ctype :=
  TStruct "timer_list" members{
  MFld "entry" hlist_node;
  MFld "expires" (TInt IULong);
  MFld "function" (TPtr "void (*)()");
  MFld "flags" u32 }.

Definition llist_head : ctype :=
  TStruct "llist_head" members{
  MFld "first" (TPtr "struct llist_node") }.

Definition da_monitor : ctype :=
  TStruct "da_monitor" members{
  MFld "monitoring" bool_t;
  MFld "curr_state" (TInt IUInt) }.

Definition rv_task_monitor : ctype :=
  TUnion "rv_task_monitor" members{
  MFld "da_mon" da_monitor }.

Definition desc_struct : ctype :=
  TStruct "desc_struct" members{
  MFld "limit0" u16;
  MFld "base0" u16;
  MBits "base1" u16 8;
  MBits "type" u16 4;
  MBits "s" u16 1;
  MBits "dpl" u16 2;
  MBits "p" u16 1;
  MBits "limit1" u16 4;
  MBits "avl" u16 1;
  MBits "l" u16 1;
  MBits "d" u16 1;
  MBits "g" u16 1;
  MBits "base2" u16 8 }.

Definition thread_shstk : ctype :=
  TStruct "thread_shstk" members{
  MFld "base" u64;
  MFld "size" u64 }.

Definition fpu_state_perm : ctype :=
  TStruct "fpu_state_perm" members{
  MFld "__state_perm" u64;
  MFld "__state_size" (TInt IUInt);
  MFld "__user_state_size" (TInt IUInt) }.

Definition fregs_state : ctype :=
  TStruct "fregs_state" members{
  MFld "cwd" u32;
  MFld "swd" u32;
  MFld "twd" u32;
  MFld "fip" u32;
  MFld "fcs" u32;
  MFld "foo" u32;
  MFld "fos" u32;
  MFld "st_space" (TArr u32 20);
  MFld "status" u32 }.

Definition fxregs_state : ctype :=
  TStruct "fxregs_state" members{
  MFld "cwd" u16;
  MFld "swd" u16;
  MFld "twd" u16;
  MFld "fop" u16;
  MFld "" (TUnion "" members{
    MFld "" (TStruct "" members{
      MFld "rip" u64;
      MFld "rdp" u64 });
    MFld "" (TStruct "" members{
      MFld "fip" u32;
      MFld "fcs" u32;
      MFld "foo" u32;
      MFld "fos" u32 }) });
  MFld "mxcsr" u32;
  MFld "mxcsr_mask" u32;
  MFld "st_space" (TArr u32 32);
  MFld "xmm_space" (TArr u32 64);
  MFld "padding" (TArr u32 12);
  MFld "" (TUnion "" members{
    MFld "padding1" (TArr u32 12);
    MFld "sw_reserved" (TArr u32 12) }) }.

Definition swregs_state : ctype :=
  TStruct "swregs_state" members{
  MFld "cwd" u32;
  MFld "swd" u32;
  MFld "twd" u32;
  MFld "fip" u32;
  MFld "fcs" u32;
  MFld "foo" u32;
  MFld "fos" u32;
  MFld "st_space" (TArr u32 20);
  MFld "ftop" u8;
  MFld "changed" u8;
  MFld "lookahead" u8;
  MFld "no_update" u8;
  MFld "rm" u8;
  MFld "alimit" u8;
  MFld "info" (TPtr "struct math_emu_info");
  MFld "entry_eip" u32 }.

Definition xstate_header : ctype :=
  TStruct "xstate_header" members{
  MFld "xfeatures" u64;
  MFld "xcomp_bv" u64;
  MFld "reserved" (TArr u64 6) }.

Definition xregs_state : ctype :=
  TStruct "xregs_state" members{
  MFld "i387" fxregs_state;
  MFld "header" xstate_header;
  MFld "extended_state_area" (TArr u8 0) }.

Definition fpregs_state : ctype :=
  TUnion "fpregs_state" members{
  MFld "fsave" fregs_state;
  MFld "fxsave" fxregs_state;
  MFld "soft" swregs_state;
  MFld "xsave" xregs_state;
  MFld "__padding" (TArr u8 4096) }.

Definition fpstate : ctype :=
  TStruct "fpstate" members{
  MFld "size" (TInt IUInt);
  MFld "user_size" (TInt IUInt);
  MFld "xfeatures" u64;
  MFld "user_xfeatures" u64;
  MFld "xfd" u64;
  MBits "is_valloc" (TInt IUInt) 1;
  MBits "is_guest" (TInt IUInt) 1;
  MBits "is_confidential" (TInt IUInt) 1;
  MBits "in_use" (TInt IUInt) 1;
  MBits "" (TInt ILong) 64;
  MBits "" (TInt ILong) 64;
  MBits "" (TInt ILong) 64;
  MFld "regs" fpregs_state }.

Definition fpu : ctype :=
  TStruct "fpu" members{
  MFld "last_cpu" (TInt IUInt);
  MFld "avx512_timestamp" (TInt IULong);
  MFld "fpstate" (TPtr "struct fpstate");
  MFld "__task_fpstate" (TPtr "struct fpstate");
  MFld "perm" fpu_state_perm;
  MFld "guest_perm" fpu_state_perm;
  MFld "__fpstate" fpstate }.

Definition thread_struct : ctype :=
  TStruct "thread_struct" members{
  MFld "tls_array" (TArr desc_struct 3);
  MFld "sp" (TInt IULong);
  MFld "es" (TInt IUShort);
  MFld "ds" (TInt IUShort);
  MFld "fsindex" (TInt IUShort);
  MFld "gsindex" (TInt IUShort);
  MFld "fsbase" (TInt IULong);
  MFld "gsbase" (TInt IULong);
  MFld "ptrace_bps" (TArr (TPtr "struct perf_event") 4);
  MFld "virtual_dr6" (TInt IULong);
  MFld "ptrace_dr7" (TInt IULong);
  MFld "cr2" (TInt IULong);
  MFld "trap_nr" (TInt IULong);
  MFld "error_code" (TInt IULong);
  MFld "io_bitmap" (TPtr "struct io_bitmap");
  MFld "iopl_emul" (TInt IULong);
  MBits "iopl_warn" (TInt IUInt) 1;
  MFld "pkru" u32;
  MFld "features" (TInt IULong);
  MFld "features_locked" (TInt IULong);
  MFld "shstk" thread_shstk;
  MBits "" (TInt ILong) 64;
  MFld "fpu" fpu }.

Definition task_struct : ctype :=
  TStruct "task_struct" members{
  MFld "thread_info" thread_info;
  MFld "__state" (TInt IUInt);
  MFld "saved_state" (TInt IUInt);
  MFld "stack" (TPtr "void");
  MFld "usage" refcount_t;
  MFld "flags" (TInt IUInt);
  MFld "ptrace" (TInt IUInt);
  MFld "on_cpu" (TInt IInt);
  MFld "wake_entry" __call_single_node;
  MFld "wakee_flips" (TInt IUInt);
  MFld "wakee_flip_decay_ts" (TInt IULong);
  MFld "last_wakee" (TPtr "struct task_struct");
  MFld "recent_used_cpu" (TInt IInt);
  MFld "wake_cpu" (TInt IInt);
  MFld "on_rq" (TInt IInt);
  MFld "prio" (TInt IInt);
  MFld "static_prio" (TInt IInt);
  MFld "normal_prio" (TInt IInt);
  MFld "rt_priority" (TInt IUInt);
  MFld "se" sched_entity;
  MFld "rt" sched_rt_entity;
  MFld "dl" sched_dl_entity;
  MFld "dl_server" (TPtr "struct sched_dl_entity");
  MFld "sched_class" (TPtr "struct sched_class");
  MFld "core_node" rb_node;
  MFld "core_cookie" (TInt IULong);
  MFld "core_occupation" (TInt IUInt);
  MFld "sched_task_group" (TPtr "struct task_group");
  MFld "uclamp_req" (TArr uclamp_se 2);
  MFld "uclamp" (TArr uclamp_se 2);
  MBits "" (TInt ILong) 64;
  MFld "stats" sched_statistics;
  MFld "preempt_notifiers" hlist_head;
  MFld "btrace_seq" (TInt IUInt);
  MFld "policy" (TInt IUInt);
  MFld "nr_cpus_allowed" (TInt IInt);
  MFld "cpus_ptr" (TPtr "cpumask_t");
  MFld "user_cpus_ptr" (TPtr "cpumask_t");
  MFld "cpus_mask" cpumask_t;
  MFld "migration_pending" (TPtr "void");
  MFld "migration_disabled" (TInt IUShort);
  MFld "migration_flags" (TInt IUShort);
  MFld "rcu_read_lock_nesting" (TInt IInt);
  MFld "rcu_read_unlock_special" rcu_special;
  MFld "rcu_node_entry" list_head;
  MFld "rcu_blocked_node" (TPtr "struct rcu_node");
  MFld "rcu_tasks_nvcsw" (TInt IULong);
  MFld "rcu_tasks_holdout" u8;
  MFld "rcu_tasks_idx" u8;
  MFld "rcu_tasks_idle_cpu" (TInt IInt);
  MFld "rcu_tasks_holdout_list" list_head;
  MFld "rcu_tasks_exit_cpu" (TInt IInt);
  MFld "rcu_tasks_exit_list" list_head;
  MFld "trc_reader_nesting" (TInt IInt);
  MFld "trc_ipi_to_cpu" (TInt IInt);
  MFld "trc_reader_special" rcu_special;
  MFld "trc_holdout_list" list_head;
  MFld "trc_blkd_node" list_head;
  MFld "trc_blkd_cpu" (TInt IInt);
  MFld "sched_info" sched_info;
  MFld "tasks" list_head;
  MFld "pushable_tasks" plist_node;
  MFld "pushable_dl_tasks" rb_node;
  MFld "mm" (TPtr "struct mm_struct");
  MFld "active_mm" (TPtr "struct mm_struct");
  MFld "faults_disabled_mapping" (TPtr "struct address_space");
  MFld "exit_state" (TInt IInt);
  MFld "exit_code" (TInt IInt);
  MFld "exit_signal" (TInt IInt);
  MFld "pdeath_signal" (TInt IInt);
  MFld "jobctl" (TInt IULong);
  MFld "personality" (TInt IUInt);
  MBits "sched_reset_on_fork" (TInt IUInt) 1;
  MBits "sched_contributes_to_load" (TInt IUInt) 1;
  MBits "sched_migrated" (TInt IUInt) 1;
  MBits "sched_task_hot" (TInt IUInt) 1;
  MBits "" (TInt ILong) 28;
  MBits "sched_remote_wakeup" (TInt IUInt) 1;
  MBits "sched_rt_mutex" (TInt IUInt) 1;
  MBits "in_execve" (TInt IUInt) 1;
  MBits "in_iowait" (TInt IUInt) 1;
  MBits "restore_sigmask" (TInt IUInt) 1;
  MBits "in_user_fault" (TInt IUInt) 1;
  MBits "in_lru_fault" (TInt IUInt) 1;
  MBits "no_cgroup_migration" (TInt IUInt) 1;
  MBits "frozen" (TInt IUInt) 1;
  MBits "use_memdelay" (TInt IUInt) 1;
  MBits "in_memstall" (TInt IUInt) 1;
  MBits "in_eventfd" (TInt IUInt) 1;
  MBits "pasid_activated" (TInt IUInt) 1;
  MBits "reported_split_lock" (TInt IUInt) 1;
  MBits "in_thrashing" (TInt IUInt) 1;
  MFld "atomic_flags" (TInt IULong);
  MFld "restart_block" restart_block;
  MFld "pid" pid_t;
  MFld "tgid" pid_t;
  MFld "stack_canary" (TInt IULong);
  MFld "real_parent" (TPtr "struct task_struct");
  MFld "parent" (TPtr "struct task_struct");
  MFld "children" list_head;
  MFld "sibling" list_head;
  MFld "group_leader" (TPtr "struct task_struct");
  MFld "ptraced" list_head;
  MFld "ptrace_entry" list_head;
  MFld "thread_pid" (TPtr "struct pid");
  MFld "pid_links" (TArr hlist_node 4);
  MFld "thread_node" list_head;
  MFld "vfork_done" (TPtr "struct completion");
  MFld "set_child_tid" (TPtr "int");
  MFld "clear_child_tid" (TPtr "int");
  MFld "worker_private" (TPtr "void");
  MFld "utime" u64;
  MFld "stime" u64;
  MFld "gtime" u64;
  MFld "prev_cputime" prev_cputime;
  MFld "vtime" vtime;
  MFld "tick_dep_mask" atomic_t;
  MFld "nvcsw" (TInt IULong);
  MFld "nivcsw" (TInt IULong);
  MFld "start_time" u64;
  MFld "start_boottime" u64;
  MFld "min_flt" (TInt IULong);
  MFld "maj_flt" (TInt IULong);
  MFld "posix_cputimers" posix_cputimers;
  MFld "posix_cputimers_work" posix_cputimers_work;
  MFld "ptracer_cred" (TPtr "struct cred");
  MFld "real_cred" (TPtr "struct cred");
  MFld "cred" (TPtr "struct cred");
  MFld "cached_requested_key" (TPtr "struct key");
  MFld "comm" (TArr (TInt IChar) 16);
  MFld "nameidata" (TPtr "struct nameidata");
  MFld "sysvsem" sysv_sem;
  MFld "sysvshm" sysv_shm;
  MFld "last_switch_count" (TInt IULong);
  MFld "last_switch_time" (TInt IULong);
  MFld "fs" (TPtr "struct fs_struct");
  MFld "files" (TPtr "struct files_struct");
  MFld "io_uring" (TPtr "struct io_uring_task");
  MFld "nsproxy" (TPtr "struct nsproxy");
  MFld "signal" (TPtr "struct signal_struct");
  MFld "sighand" (TPtr "struct sighand_struct");
  MFld "blocked" sigset_t;
  MFld "real_blocked" sigset_t;
  MFld "saved_sigmask" sigset_t;
  MFld "pending" sigpending;
  MFld "sas_ss_sp" (TInt IULong);
  MFld "sas_ss_size" size_t;
  MFld "sas_ss_flags" (TInt IUInt);
  MFld "task_works" (TPtr "struct callback_head");
  MFld "audit_context" (TPtr "struct audit_context");
  MFld "loginuid" kuid_t;
  MFld "sessionid" (TInt IUInt);
  MFld "seccomp" seccomp;
  MFld "syscall_dispatch" syscall_user_dispatch;
  MFld "parent_exec_id" u64;
  MFld "self_exec_id" u64;
  MFld "alloc_lock" spinlock_t;
  MFld "pi_lock" raw_spinlock_t;
  MFld "wake_q" wake_q_node;
  MFld "pi_waiters" rb_root_cached;
  MFld "pi_top_task" (TPtr "struct task_struct");
  MFld "pi_blocked_on" (TPtr "struct rt_mutex_waiter");
  MFld "in_ubsan" (TInt IUInt);
  MFld "journal_info" (TPtr "void");
  MFld "bio_list" (TPtr "struct bio_list");
  MFld "plug" (TPtr "struct blk_plug");
  MFld "reclaim_state" (TPtr "struct reclaim_state");
  MFld "io_context" (TPtr "struct io_context");
  MFld "capture_control" (TPtr "struct capture_control");
  MFld "ptrace_message" (TInt IULong);
  MFld "last_siginfo" (TPtr "kernel_siginfo_t");
  MFld "ioac" task_io_accounting;
  MFld "psi_flags" (TInt IUInt);
  MFld "acct_rss_mem1" u64;
  MFld "acct_vm_mem1" u64;
  MFld "acct_timexpd" u64;
  MFld "mems_allowed" nodemask_t;
  MFld "mems_allowed_seq" seqcount_spinlock_t;
  MFld "cpuset_mem_spread_rotor" (TInt IInt);
  MFld "cpuset_slab_spread_rotor" (TInt IInt);
  MFld "cgroups" (TPtr "struct css_set");
  MFld "cg_list" list_head;
  MFld "closid" u32;
  MFld "rmid" u32;
  MFld "robust_list" (TPtr "struct robust_list_head");
  MFld "compat_robust_list" (TPtr "struct compat_robust_list_head");
  MFld "pi_state_list" list_head;
  MFld "pi_state_cache" (TPtr "struct futex_pi_state");
  MFld "futex_exit_mutex" mutex;
  MFld "futex_state" (TInt IUInt);
  MFld "perf_event_ctxp" (TPtr "struct perf_event_context");
  MFld "perf_event_mutex" mutex;
  MFld "perf_event_list" list_head;
  MFld "mempolicy" (TPtr "struct mempolicy");
  MFld "il_prev" (TInt IShort);
  MFld "pref_node_fork" (TInt IShort);
  MFld "numa_scan_seq" (TInt IInt);
  MFld "numa_scan_period" (TInt IUInt);
  MFld "numa_scan_period_max" (TInt IUInt);
  MFld "numa_preferred_nid" (TInt IInt);
  MFld "numa_migrate_retry" (TInt IULong);
  MFld "node_stamp" u64;
  MFld "last_task_numa_placement" u64;
  MFld "last_sum_exec_runtime" u64;
  MFld "numa_work" callback_head;
  MFld "numa_group" (TPtr "struct numa_group");
  MFld "numa_faults" (TPtr "long unsigned int");
  MFld "total_numa_faults" (TInt IULong);
  MFld "numa_faults_locality" (TArr (TInt IULong) 3);
  MFld "numa_pages_migrated" (TInt IULong);
  MFld "rseq" (TPtr "struct rseq");
  MFld "rseq_len" u32;
  MFld "rseq_sig" u32;
  MFld "rseq_event_mask" (TInt IULong);
  MFld "mm_cid" (TInt IInt);
  MFld "last_mm_cid" (TInt IInt);
  MFld "migrate_from_cpu" (TInt IInt);
  MFld "mm_cid_active" (TInt IInt);
  MFld "cid_work" callback_head;
  MFld "tlb_ubc" tlbflush_unmap_batch;
  MFld "splice_pipe" (TPtr "struct pipe_inode_info");
  MFld "task_frag" page_frag;
  MFld "delays" (TPtr "struct task_delay_info");
  MFld "nr_dirtied" (TInt IInt);
  MFld "nr_dirtied_pause" (TInt IInt);
  MFld "dirty_paused_when" (TInt IULong);
  MFld "latency_record_count" (TInt IInt);
  MFld "latency_record" (TArr latency_record 32);
  MFld "timer_slack_ns" u64;
  MFld "default_timer_slack_ns" u64;
  MFld "curr_ret_stack" (TInt IInt);
  MFld "curr_ret_depth" (TInt IInt);
  MFld "ret_stack" (TPtr "struct ftrace_ret_stack");
  MFld "ftrace_timestamp" (TInt IULLong);
  MFld "trace_overrun" atomic_t;
  MFld "tracing_graph_pause" atomic_t;
  MFld "trace_recursion" (TInt IULong);
  MFld "memcg_in_oom" (TPtr "struct mem_cgroup");
  MFld "memcg_oom_gfp_mask" gfp_t;
  MFld "memcg_oom_order" (TInt IInt);
  MFld "memcg_nr_pages_over_high" (TInt IUInt);
  MFld "active_memcg" (TPtr "struct mem_cgroup");
  MFld "objcg" (TPtr "struct obj_cgroup");
  MFld "throttle_disk" (TPtr "struct gendisk");
  MFld "utask" (TPtr "struct uprobe_task");
  MFld "sequential_io" (TInt IUInt);
  MFld "sequential_io_avg" (TInt IUInt);
  MFld "kmap_ctrl" kmap_ctrl;
  MFld "rcu" callback_head;
  MFld "rcu_users" refcount_t;
  MFld "pagefault_disabled" (TInt IInt);
  MFld "oom_reaper_list" (TPtr "struct task_struct");
  MFld "oom_reaper_timer" timer_list;
  MFld "stack_vm_area" (TPtr "struct vm_struct");
  MFld "stack_refcount" refcount_t;
  MFld "patch_state" (TInt IInt);
  MFld "security" (TPtr "void");
  MFld "bpf_storage" (TPtr "struct bpf_local_storage");
  MFld "bpf_ctx" (TPtr "struct bpf_run_ctx");
  MFld "mce_vaddr" (TPtr "void");
  MFld "mce_kflags" __u64;
  MFld "mce_addr" u64;
  MBits "mce_ripv" __u64 1;
  MBits "mce_whole_page" __u64 1;
  MBits "__mce_reserved" __u64 62;
  MFld "mce_kill_me" callback_head;
  MFld "mce_count" (TInt IInt);
  MFld "kretprobe_instances" llist_head;
  MFld "rethooks" llist_head;
  MFld "l1d_flush_kill" callback_head;
  MFld "rv" (TArr rv_task_monitor 1);
  MFld "user_event_mm" (TPtr "struct user_event_mm");
  MFld "thread" thread_struct }.

Definition css_set : ctype :=
  TStruct "css_set" members{
  MFld "subsys" (TArr (TPtr "struct cgroup_subsys_state") 14);
  MFld "refcount" refcount_t;
  MFld "dom_cset" (TPtr "struct css_set");
  MFld "dfl_cgrp" (TPtr "struct cgroup");
  MFld "nr_tasks" (TInt IInt);
  MFld "tasks" list_head;
  MFld "mg_tasks" list_head;
  MFld "dying_tasks" list_head;
  MFld "task_iters" list_head;
  MFld "e_cset_node" (TArr list_head 14);
  MFld "threaded_csets" list_head;
  MFld "threaded_csets_node" list_head;
  MFld "hlist" hlist_node;
  MFld "cgrp_links" list_head;
  MFld "mg_src_preload_node" list_head;
  MFld "mg_dst_preload_node" list_head;
  MFld "mg_node" list_head;
  MFld "mg_src_cgrp" (TPtr "struct cgroup");
  MFld "mg_dst_cgrp" (TPtr "struct cgroup");
  MFld "mg_dst_cset" (TPtr "struct css_set");
  MFld "dead" bool_t;
  MFld "callback_head" callback_head }.

Definition percpu_ref : ctype :=
  TStruct "percpu_ref" members{
  MFld "percpu_count_ptr" (TInt IULong);
  MFld "data" (TPtr "struct percpu_ref_data") }.

Definition work_func_t : ctype :=
  (TPtr "void (*)()").

Definition work_struct : ctype :=
  TStruct "work_struct" members{
  MFld "data" atomic_long_t;
  MFld "entry" list_head;
  MFld "func" work_func_t }.

Definition rcu_work : ctype :=
  TStruct "rcu_work" members{
  MFld "work" work_struct;
  MFld "rcu" callback_head;
  MFld "wq" (TPtr "struct workqueue_struct") }.

Definition cgroup_subsys_state : ctype :=
  TStruct "cgroup_subsys_state" members{
  MFld "cgroup" (TPtr "struct cgroup");
  MFld "ss" (TPtr "struct cgroup_subsys");
  MFld "refcnt" percpu_ref;
  MFld "sibling" list_head;
  MFld "children" list_head;
  MFld "rstat_css_node" list_head;
  MFld "id" (TInt IInt);
  MFld "flags" (TInt IUInt);
  MFld "serial_nr" u64;
  MFld "online_cnt" atomic_t;
  MFld "destroy_work" work_struct;
  MFld "destroy_rwork" rcu_work;
  MFld "parent" (TPtr "struct cgroup_subsys_state") }.

Definition cgroup_file : ctype :=
  TStruct "cgroup_file" members{
  MFld "kn" (TPtr "struct kernfs_node");
  MFld "notified_at" (TInt IULong);
  MFld "notify_timer" timer_list }.

Definition cacheline_padding : ctype :=
  TStruct "cacheline_padding" members{
  MFld "x" (TArr (TInt IChar) 0) }.

Definition task_cputime : ctype :=
  TStruct "task_cputime" members{
  MFld "stime" u64;
  MFld "utime" u64;
  MFld "sum_exec_runtime" (TInt IULLong) }.

Definition cgroup_base_stat : ctype :=
  TStruct "cgroup_base_stat" members{
  MFld "cputime" task_cputime;
  MFld "forceidle_sum" u64 }.

Definition wait_queue_head : ctype :=
  TStruct "wait_queue_head" members{
  MFld "lock" spinlock_t;
  MFld "head" list_head }.

Definition wait_queue_head_t : ctype :=
  wait_queue_head.

Definition cgroup_bpf : ctype :=
  TStruct "cgroup_bpf" members{
  MFld "effective" (TArr (TPtr "struct bpf_prog_array") 38);
  MFld "progs" (TArr hlist_head 38);
  MFld "flags" (TArr u8 38);
  MFld "storages" list_head;
  MFld "inactive" (TPtr "struct bpf_prog_array");
  MFld "refcnt" percpu_ref;
  MFld "release_work" work_struct }.

Definition cgroup_freezer_state : ctype :=
  TStruct "cgroup_freezer_state" members{
  MFld "freeze" bool_t;
  MFld "e_freeze" (TInt IInt);
  MFld "nr_frozen_descendants" (TInt IInt);
  MFld "nr_frozen_tasks" (TInt IInt) }.

Definition cgroup : ctype :=
  TStruct "cgroup" members{
  MFld "self" cgroup_subsys_state;
  MFld "flags" (TInt IULong);
  MFld "level" (TInt IInt);
  MFld "max_depth" (TInt IInt);
  MFld "nr_descendants" (TInt IInt);
  MFld "nr_dying_descendants" (TInt IInt);
  MFld "max_descendants" (TInt IInt);
  MFld "nr_populated_csets" (TInt IInt);
  MFld "nr_populated_domain_children" (TInt IInt);
  MFld "nr_populated_threaded_children" (TInt IInt);
  MFld "nr_threaded_children" (TInt IInt);
  MFld "kill_seq" (TInt IUInt);
  MFld "kn" (TPtr "struct kernfs_node");
  MFld "procs_file" cgroup_file;
  MFld "events_file" cgroup_file;
  MFld "psi_files" (TArr cgroup_file 3);
  MFld "subtree_control" u16;
  MFld "subtree_ss_mask" u16;
  MFld "old_subtree_control" u16;
  MFld "old_subtree_ss_mask" u16;
  MFld "subsys" (TArr (TPtr "struct cgroup_subsys_state") 14);
  MFld "root" (TPtr "struct cgroup_root");
  MFld "cset_links" list_head;
  MFld "e_csets" (TArr list_head 14);
  MFld "dom_cgrp" (TPtr "struct cgroup");
  MFld "old_dom_cgrp" (TPtr "struct cgroup");
  MFld "rstat_cpu" (TPtr "struct cgroup_rstat_cpu");
  MFld "rstat_css_list" list_head;
  MBits "" (TInt ILong) 64;
  MBits "" (TInt ILong) 64;
  MFld "_pad_" cacheline_padding;
  MFld "rstat_flush_next" (TPtr "struct cgroup");
  MFld "last_bstat" cgroup_base_stat;
  MFld "bstat" cgroup_base_stat;
  MFld "prev_cputime" prev_cputime;
  MFld "pidlists" list_head;
  MFld "pidlist_mutex" mutex;
  MFld "offline_waitq" wait_queue_head_t;
  MFld "release_agent_work" work_struct;
  MFld "psi" (TPtr "struct psi_group");
  MFld "bpf" cgroup_bpf;
  MFld "congestion_count" atomic_t;
  MFld "freezer" cgroup_freezer_state;
  MFld "bpf_cgrp_storage" (TPtr "struct bpf_local_storage");
  MFld "ancestors" (TArr (TPtr "struct cgroup") 0) }.

Definition mem_cgroup_id : ctype :=
  TStruct "mem_cgroup_id" members{
  MFld "id" (TInt IInt);
  MFld "ref" refcount_t }.

Definition page_counter : ctype :=
  TStruct "page_counter" members{
  MFld "usage" atomic_long_t;
  MBits "" (TInt ILong) 64;
  MBits "" (TInt ILong) 64;
  MBits "" (TInt ILong) 64;
  MBits "" (TInt ILong) 64;
  MBits "" (TInt ILong) 64;
  MBits "" (TInt ILong) 64;
  MBits "" (TInt ILong) 64;
  MFld "_pad1_" cacheline_padding;
  MFld "emin" (TInt IULong);
  MFld "min_usage" atomic_long_t;
  MFld "children_min_usage" atomic_long_t;
  MFld "elow" (TInt IULong);
  MFld "low_usage" atomic_long_t;
  MFld "children_low_usage" atomic_long_t;
  MFld "watermark" (TInt IULong);
  MFld "failcnt" (TInt IULong);
  MFld "_pad2_" cacheline_padding;
  MFld "min" (TInt IULong);
  MFld "low" (TInt IULong);
  MFld "high" (TInt IULong);
  MFld "max" (TInt IULong);
  MFld "parent" (TPtr "struct page_counter");
  MBits "" (TInt ILong) 64;
  MBits "" (TInt ILong) 64;
  MBits "" (TInt ILong) 64 }.

Definition vmpressure : ctype :=
  TStruct "vmpressure" members{
  MFld "scanned" (TInt IULong);
  MFld "reclaimed" (TInt IULong);
  MFld "tree_scanned" (TInt IULong);
  MFld "tree_reclaimed" (TInt IULong);
  MFld "sr_lock" spinlock_t;
  MFld "events" list_head;
  MFld "events_lock" mutex;
  MFld "work" work_struct }.

Definition mem_cgroup_thresholds : ctype :=
  TStruct "mem_cgroup_thresholds" members{
  MFld "primary" (TPtr "struct mem_cgroup_threshold_ary");
  MFld "spare" (TPtr "struct mem_cgroup_threshold_ary") }.

Definition percpu_counter : ctype :=
  TStruct "percpu_counter" members{
  MFld "lock" raw_spinlock_t;
  MFld "count" s64;
  MFld "list" list_head;
  MFld "counters" (TPtr "s32") }.

Definition fprop_global : ctype :=
  TStruct "fprop_global" members{
  MFld "events" percpu_counter;
  MFld "period" (TInt IUInt);
  MFld "sequence" seqcount_t }.

Definition wb_domain : ctype :=
  TStruct "wb_domain" members{
  MFld "lock" spinlock_t;
  MFld "completions" fprop_global;
  MFld "period_timer" timer_list;
  MFld "period_time" (TInt IULong);
  MFld "dirty_limit_tstamp" (TInt IULong);
  MFld "dirty_limit" (TInt IULong) }.

Definition wb_completion : ctype :=
  TStruct "wb_completion" members{
  MFld "cnt" atomic_t;
  MFld "waitq" (TPtr "wait_queue_head_t") }.

Definition memcg_cgwb_frn : ctype :=
  TStruct "memcg_cgwb_frn" members{
  MFld "bdi_id" u64;
  MFld "memcg_id" (TInt IInt);
  MFld "at" u64;
  MFld "done" wb_completion }.

Definition deferred_split : ctype :=
  TStruct "deferred_split" members{
  MFld "split_queue_lock" spinlock_t;
  MFld "split_queue" list_head;
  MFld "split_queue_len" (TInt IULong) }.

Definition lru_gen_mm_list : ctype :=
  TStruct "lru_gen_mm_list" members{
  MFld "fifo" list_head;
  MFld "lock" spinlock_t }.

Definition mem_cgroup : ctype :=
  TStruct "mem_cgroup" members{
  MFld "css" cgroup_subsys_state;
  MFld "id" mem_cgroup_id;
  MBits "" (TInt ILong) 64;
  MBits "" (TInt ILong) 64;
  MBits "" (TInt ILong) 64;
  MBits "" (TInt ILong) 64;
  MBits "" (TInt ILong) 64;
  MBits "" (TInt ILong) 64;
  MFld "memory" page_counter;
  MFld "" (TUnion "" members{
    MFld "swap" page_counter;
    MFld "memsw" page_counter });
  MFld "kmem" page_counter;
  MFld "tcpmem" page_counter;
  MFld "high_work" work_struct;
  MFld "zswap_max" (TInt IULong);
  MFld "zswap_writeback" bool_t;
  MFld "soft_limit" (TInt IULong);
  MFld "vmpressure" vmpressure;
  MFld "oom_group" bool_t;
  MFld "oom_lock" bool_t;
  MFld "under_oom" (TInt IInt);
  MFld "swappiness" (TInt IInt);
  MFld "oom_kill_disable" (TInt IInt);
  MFld "events_file" cgroup_file;
  MFld "events_local_file" cgroup_file;
  MFld "swap_events_file" cgroup_file;
  MFld "thresholds_lock" mutex;
  MFld "thresholds" mem_cgroup_thresholds;
  MFld "memsw_thresholds" mem_cgroup_thresholds;
  MFld "oom_notify" list_head;
  MFld "move_charge_at_immigrate" (TInt IULong);
  MFld "move_lock" spinlock_t;
  MFld "move_lock_flags" (TInt IULong);
  MBits "" (TInt ILong) 64;
  MBits "" (TInt ILong) 64;
  MBits "" (TInt ILong) 64;
  MBits "" (TInt ILong) 64;
  MBits "" (TInt ILong) 64;
  MBits "" (TInt ILong) 64;
  MFld "_pad1_" cacheline_padding;
  MFld "vmstats" (TPtr "struct memcg_vmstats");
  MFld "memory_events" (TArr atomic_long_t 9);
  MFld "memory_events_local" (TArr atomic_long_t 9);
  MFld "socket_pressure" (TInt IULong);
  MFld "tcpmem_active" bool_t;
  MFld "tcpmem_pressure" (TInt IInt);
  MFld "kmemcg_id" (TInt IInt);
  MFld "objcg" (TPtr "struct obj_cgroup");
  MFld "orig_objcg" (TPtr "struct obj_cgroup");
  MFld "objcg_list" list_head;
  MBits "" (TInt ILong) 64;
  MBits "" (TInt ILong) 64;
  MBits "" (TInt ILong) 64;
  MBits "" (TInt ILong) 64;
  MBits "" (TInt ILong) 64;
  MBits "" (TInt ILong) 64;
  MFld "_pad2_" cacheline_padding;
  MFld "moving_account" atomic_t;
  MFld "move_lock_task" (TPtr "struct task_struct");
  MFld "vmstats_percpu" (TPtr "struct memcg_vmstats_percpu");
  MFld "cgwb_list" list_head;
  MFld "cgwb_domain" wb_domain;
  MFld "cgwb_frn" (TArr memcg_cgwb_frn 4);
  MFld "event_list" list_head;
  MFld "event_list_lock" spinlock_t;
  MFld "deferred_split_queue" deferred_split;
  MFld "mm_list" lru_gen_mm_list;
  MFld "nodeinfo" (TArr (TPtr "struct mem_cgroup_per_node") 0);
  MBits "" (TInt ILong) 64;
  MBits "" (TInt ILong) 64;
  MBits "" (TInt ILong) 64;
  MBits "" (TInt ILong) 64;
  MBits "" (TInt ILong) 64;
  MBits "" (TInt ILong) 64 }.

Definition kernfs_elem_dir : ctype :=
  TStruct "kernfs_elem_dir" members{
  MFld "subdirs" (TInt IULong);
  MFld "children" rb_root;
  MFld "root" (TPtr "struct kernfs_root");
  MFld "rev" (TInt IULong) }.

Definition kernfs_elem_symlink : ctype :=
  TStruct "kernfs_elem_symlink" members{
  MFld "target_kn" (TPtr "struct kernfs_node") }.

Definition __kernel_loff_t : ctype :=
  (TInt ILLong).

Definition loff_t : ctype :=
  __kernel_loff_t.

Definition kernfs_elem_attr : ctype :=
  TStruct "kernfs_elem_attr" members{
  MFld "ops" (TPtr "struct kernfs_ops");
  MFld "open" (TPtr "struct kernfs_open_node");
  MFld "size" loff_t;
  MFld "notify_next" (TPtr "struct kernfs_node") }.

Definition umode_t : ctype :=
  (TInt IUShort).

Definition kernfs_node : ctype :=
  TStruct "kernfs_node" members{
  MFld "count" atomic_t;
  MFld "active" atomic_t;
  MFld "parent" (TPtr "struct kernfs_node");
  MFld "name" (TPtr "char");
  MFld "rb" rb_node;
  MFld "ns" (TPtr "void");
  MFld "hash" (TInt IUInt);
  MFld "" (TUnion "" members{
    MFld "dir" kernfs_elem_dir;
    MFld "symlink" kernfs_elem_symlink;
    MFld "attr" kernfs_elem_attr });
  MFld "priv" (TPtr "void");
  MFld "id" u64;
  MFld "flags" (TInt IUShort);
  MFld "mode" umode_t;
  MFld "iattr" (TPtr "struct kernfs_iattrs");
  MFld "rcu" callback_head }.

Definition fred_cs : ctype :=
  TStruct "fred_cs" members{
  MBits "cs" u64 16;
  MBits "sl" u64 2;
  MBits "wfe" u64 1 }.

Definition fred_ss : ctype :=
  TStruct "fred_ss" members{
  MBits "ss" u64 16;
  MBits "sti" u64 1;
  MBits "swevent" u64 1;
  MBits "nmi" u64 1;
  MBits "" (TInt IInt) 13;
  MBits "vector" u64 8;
  MBits "" (TInt IShort) 8;
  MBits "type" u64 4;
  MBits "" (TInt IChar) 4;
  MBits "enclave" u64 1;
  MBits "lm" u64 1;
  MBits "nested" u64 1;
  MBits "" (TInt IChar) 1;
  MBits "insnlen" u64 4 }.

Definition pt_regs : ctype :=
  TStruct "pt_regs" members{
  MFld "r15" (TInt IULong);
  MFld "r14" (TInt IULong);
  MFld "r13" (TInt IULong);
  MFld "r12" (TInt IULong);
  MFld "bp" (TInt IULong);
  MFld "bx" (TInt IULong);
  MFld "r11" (TInt IULong);
  MFld "r10" (TInt IULong);
  MFld "r9" (TInt IULong);
  MFld "r8" (TInt IULong);
  MFld "ax" (TInt IULong);
  MFld "cx" (TInt IULong);
  MFld "dx" (TInt IULong);
  MFld "si" (TInt IULong);
  MFld "di" (TInt IULong);
  MFld "orig_ax" (TInt IULong);
  MFld "ip" (TInt IULong);
  MFld "" (TUnion "" members{
    MFld "cs" u16;
    MFld "csx" u64;
    MFld "fred_cs" fred_cs });
  MFld "flags" (TInt IULong);
  MFld "sp" (TInt IULong);
  MFld "" (TUnion "" members{
    MFld "ss" u16;
    MFld "ssx" u64;
    MFld "fred_ss" fred_ss }) }.

Definition bpf_map_type : ctype :=
  TEnum "bpf_map_type" [("BPF_MAP_TYPE_UNSPEC", 0); ("BPF_MAP_TYPE_HASH", 1); ("BPF_MAP_TYPE_ARRAY", 2); ("BPF_MAP_TYPE_PROG_ARRAY", 3); ("BPF_MAP_TYPE_PERF_EVENT_ARRAY", 4); ("BPF_MAP_TYPE_PERCPU_HASH", 5); ("BPF_MAP_TYPE_PERCPU_ARRAY", 6); ("BPF_MAP_TYPE_STACK_TRACE", 7); ("BPF_MAP_TYPE_CGROUP_ARRAY", 8); ("BPF_MAP_TYPE_LRU_HASH", 9); ("BPF_MAP_TYPE_LRU_PERCPU_HASH", 10); ("BPF_MAP_TYPE_LPM_TRIE", 11); ("BPF_MAP_TYPE_ARRAY_OF_MAPS", 12); ("BPF_MAP_TYPE_HASH_OF_MAPS", 13); ("BPF_MAP_TYPE_DEVMAP", 14); ("BPF_MAP_TYPE_SOCKMAP", 15); ("BPF_MAP_TYPE_CPUMAP", 16); ("BPF_MAP_TYPE_XSKMAP", 17); ("BPF_MAP_TYPE_SOCKHASH", 18); ("BPF_MAP_TYPE_CGROUP_STORAGE_DEPRECATED", 19); ("BPF_MAP_TYPE_CGROUP_STORAGE", 19); ("BPF_MAP_TYPE_REUSEPORT_SOCKARRAY", 20); ("BPF_MAP_TYPE_PERCPU_CGROUP_STORAGE_DEPRECATED", 21); ("BPF_MAP_TYPE_PERCPU_CGROUP_STORAGE", 21); ("BPF_MAP_TYPE_QUEUE", 22); ("BPF_MAP_TYPE_STACK", 23); ("BPF_MAP_TYPE_SK_STORAGE", 24); ("BPF_MAP_TYPE_DEVMAP_HASH", 25); ("BPF_MAP_TYPE_STRUCT_OPS", 26); ("BPF_MAP_TYPE_RINGBUF", 27); ("BPF_MAP_TYPE_INODE_STORAGE", 28); ("BPF_MAP_TYPE_TASK_STORAGE", 29); ("BPF_MAP_TYPE_BLOOM_FILTER", 30); ("BPF_MAP_TYPE_USER_RINGBUF", 31); ("BPF_MAP_TYPE_CGRP_STORAGE", 32)].

Definition zoneref : ctype :=
  TStruct "zoneref" members{
  MFld "zone" (TPtr "struct zone");
  MFld "zone_idx" (TInt IInt) }.

Definition zonelist : ctype :=
  TStruct "zonelist" members{
  MFld "_zonerefs" (TArr zoneref 5121) }.

Definition cfs_rq : ctype :=
  TStruct "cfs_rq" members{
  MFld "load" load_weight;
  MFld "nr_running" (TInt IUInt);
  MFld "h_nr_running" (TInt IUInt);
  MFld "idle_nr_running" (TInt IUInt);
  MFld "idle_h_nr_running" (TInt IUInt);
  MFld "avg_vruntime" s64;
  MFld "avg_load" u64;
  MFld "exec_clock" u64;
  MFld "min_vruntime" u64;
  MFld "forceidle_seq" (TInt IUInt);
  MFld "min_vruntime_fi" u64;
  MFld "tasks_timeline" rb_root_cached;
  MFld "curr" (TPtr "struct sched_entity");
  MFld "next" (TPtr "struct sched_entity");
  MFld "nr_spread_over" (TInt IUInt);
  MBits "" (TInt ILong) 64;
  MFld "avg" sched_avg;
  MFld "removed" (TStruct "" members{
    MFld "lock" raw_spinlock_t;
    MFld "nr" (TInt IInt);
    MFld "load_avg" (TInt IULong);
    MFld "util_avg" (TInt IULong);
    MFld "runnable_avg" (TInt IULong);
    MBits "" (TInt ILong) 64;
    MBits "" (TInt ILong) 64;
    MBits "" (TInt ILong) 64;
    MBits "" (TInt ILong) 64 });
  MFld "last_update_tg_load_avg" u64;
  MFld "tg_load_avg_contrib" (TInt IULong);
  MFld "propagate" (TInt ILong);
  MFld "prop_runnable_sum" (TInt ILong);
  MFld "h_load" (TInt IULong);
  MFld "last_h_load_update" u64;
  MFld "h_load_next" (TPtr "struct sched_entity");
  MFld "rq" (TPtr "struct rq");
  MFld "on_list" (TInt IInt);
  MFld "leaf_cfs_rq_list" list_head;
  MFld "tg" (TPtr "struct task_group");
  MFld "idle" (TInt IInt);
  MFld "runtime_enabled" (TInt IInt);
  MFld "runtime_remaining" s64;
  MFld "throttled_pelt_idle" u64;
  MFld "throttled_clock" u64;
  MFld "throttled_clock_pelt" u64;
  MFld "throttled_clock_pelt_time" u64;
  MFld "throttled_clock_self" u64;
  MFld "throttled_clock_self_time" u64;
  MFld "throttled" (TInt IInt);
  MFld "throttle_count" (TInt IInt);
  MFld "throttled_list" list_head;
  MFld "throttled_csd_list" list_head;
  MBits "" (TInt ILong) 64;
  MBits "" (TInt ILong) 64;
  MBits "" (TInt ILong) 64;
  MBits "" (TInt ILong) 64;
  MBits "" (TInt ILong) 64;
  MBits "" (TInt ILong) 64;
  MBits "" (TInt ILong) 64 }.

Definition seqcount_raw_spinlock : ctype :=
  TStruct "seqcount_raw_spinlock" members{
  MFld "seqcount" seqcount_t }.

Definition seqcount_raw_spinlock_t : ctype :=
  seqcount_raw_spinlock.

Definition hrtimer_clock_base : ctype :=
  TStruct "hrtimer_clock_base" members{
  MFld "cpu_base" (TPtr "struct hrtimer_cpu_base");
  MFld "index" (TInt IUInt);
  MFld "clockid" clockid_t;
  MFld "seq" seqcount_raw_spinlock_t;
  MFld "running" (TPtr "struct hrtimer");
  MFld "active" timerqueue_head;
  MFld "get_time" (TPtr "ktime_t (*)()");
  MFld "offset" ktime_t }.

Definition smp_call_func_t : ctype :=
  (TPtr "void (*)()").

Definition __call_single_data : ctype :=
  TStruct "__call_single_data" members{
  MFld "node" __call_single_node;
  MFld "func" smp_call_func_t;
  MFld "info" (TPtr "void") }.

Definition call_single_data_t : ctype :=
  __call_single_data.

Definition uclamp_bucket : ctype :=
  TStruct "uclamp_bucket" members{
  MBits "value" (TInt IULong) 11;
  MBits "tasks" (TInt IULong) 53 }.

Definition uclamp_rq : ctype :=
  TStruct "uclamp_rq" members{
  MFld "value" (TInt IUInt);
  MFld "bucket" (TArr uclamp_bucket 5) }.

Definition rt_prio_array : ctype :=
  TStruct "rt_prio_array" members{
  MFld "bitmap" (TArr (TInt IULong) 2);
  MFld "queue" (TArr list_head 100) }.

Definition plist_head : ctype :=
  TStruct "plist_head" members{
  MFld "node_list" list_head }.

Definition rt_rq : ctype :=
  TStruct "rt_rq" members{
  MFld "active" rt_prio_array;
  MFld "rt_nr_running" (TInt IUInt);
  MFld "rr_nr_running" (TInt IUInt);
  MFld "highest_prio" (TStruct "" members{
    MFld "curr" (TInt IInt);
    MFld "next" (TInt IInt) });
  MFld "overloaded" (TInt IInt);
  MFld "pushable_tasks" plist_head;
  MFld "rt_queued" (TInt IInt);
  MFld "rt_throttled" (TInt IInt);
  MFld "rt_time" u64;
  MFld "rt_runtime" u64;
  MFld "rt_runtime_lock" raw_spinlock_t }.

Definition dl_rq : ctype :=
  TStruct "dl_rq" members{
  MFld "root" rb_root_cached;
  MFld "dl_nr_running" (TInt IUInt);
  MFld "earliest_dl" (TStruct "" members{
    MFld "curr" u64;
    MFld "next" u64 });
  MFld "overloaded" (TInt IInt);
  MFld "pushable_dl_tasks_root" rb_root_cached;
  MFld "running_bw" u64;
  MFld "this_bw" u64;
  MFld "extra_bw" u64;
  MFld "max_bw" u64;
  MFld "bw_ratio" u64 }.

Definition cpu_stop_fn_t : ctype :=
  (TPtr "int (*)()").

Definition cpu_stop_work : ctype :=
  TStruct "cpu_stop_work" members{
  MFld "list" list_head;
  MFld "fn" cpu_stop_fn_t;
  MFld "caller" (TInt IULong);
  MFld "arg" (TPtr "void");
  MFld "done" (TPtr "struct cpu_stop_done") }.

Definition rcuwait : ctype :=
  TStruct "rcuwait" members{
  MFld "task" (TPtr "struct task_struct") }.

Definition cpumask_var_t : ctype :=
  (TPtr "struct cpumask").

Definition rq : ctype :=
  TStruct "rq" members{
  MFld "__lock" raw_spinlock_t;
  MFld "nr_running" (TInt IUInt);
  MFld "nr_numa_running" (TInt IUInt);
  MFld "nr_preferred_running" (TInt IUInt);
  MFld "numa_migrate_on" (TInt IUInt);
  MFld "last_blocked_load_update_tick" (TInt IULong);
  MFld "has_blocked_load" (TInt IUInt);
  MBits "" (TInt ILong) 64;
  MBits "" (TInt ILong) 64;
  MBits "" (TInt ILong) 64;
  MFld "nohz_csd" call_single_data_t;
  MFld "nohz_tick_stopped" (TInt IUInt);
  MFld "nohz_flags" atomic_t;
  MFld "ttwu_pending" (TInt IUInt);
  MFld "nr_switches" u64;
  MBits "" (TInt ILong) 64;
  MFld "uclamp" (TArr uclamp_rq 2);
  MFld "uclamp_flags" (TInt IUInt);
  MBits "" (TInt ILong) 64;
  MBits "" (TInt ILong) 64;
  MBits "" (TInt ILong) 64;
  MFld "cfs" cfs_rq;
  MFld "rt" rt_rq;
  MFld "dl" dl_rq;
  MFld "leaf_cfs_rq_list" list_head;
  MFld "tmp_alone_branch" (TPtr "struct list_head");
  MFld "nr_uninterruptible" (TInt IUInt);
  MFld "curr" (TPtr "struct task_struct");
  MFld "idle" (TPtr "struct task_struct");
  MFld "stop" (TPtr "struct task_struct");
  MFld "next_balance" (TInt IULong);
  MFld "prev_mm" (TPtr "struct mm_struct");
  MFld "clock_update_flags" (TInt IUInt);
  MFld "clock" u64;
  MBits "" (TInt ILong) 64;
  MBits "" (TInt ILong) 64;
  MBits "" (TInt ILong) 64;
  MBits "" (TInt ILong) 64;
  MBits "" (TInt ILong) 64;
  MFld "clock_task" u64;
  MFld "clock_pelt" u64;
  MFld "lost_idle_time" (TInt IULong);
  MFld "clock_pelt_idle" u64;
  MFld "clock_idle" u64;
  MFld "nr_iowait" atomic_t;
  MFld "last_seen_need_resched_ns" u64;
  MFld "ticks_without_resched" (TInt IInt);
  MFld "membarrier_state" (TInt IInt);
  MFld "rd" (TPtr "struct root_domain");
  MFld "sd" (TPtr "struct sched_domain");
  MFld "cpu_capacity" (TInt IULong);
  MFld "balance_callback" (TPtr "struct balance_callback");
  MFld "nohz_idle_balance" (TInt IUChar);
  MFld "idle_balance" (TInt IUChar);
  MFld "misfit_task_load" (TInt IULong);
  MFld "active_balance" (TInt IInt);
  MFld "push_cpu" (TInt IInt);
  MFld "active_balance_work" cpu_stop_work;
  MFld "cpu" (TInt IInt);
  MFld "online" (TInt IInt);
  MFld "cfs_tasks" list_head;
  MFld "avg_rt" sched_avg;
  MFld "avg_dl" sched_avg;
  MFld "idle_stamp" u64;
  MFld "avg_idle" u64;
  MFld "max_idle_balance_cost" u64;
  MFld "hotplug_wait" rcuwait;
  MFld "prev_steal_time" u64;
  MFld "calc_load_update" (TInt IULong);
  MFld "calc_load_active" (TInt ILong);
  MBits "" (TInt ILong) 64;
  MFld "hrtick_csd" call_single_data_t;
  MFld "hrtick_timer" hrtimer;
  MFld "hrtick_time" ktime_t;
  MFld "rq_sched_info" sched_info;
  MFld "rq_cpu_time" (TInt IULLong);
  MFld "yld_count" (TInt IUInt);
  MFld "sched_count" (TInt IUInt);
  MFld "sched_goidle" (TInt IUInt);
  MFld "ttwu_count" (TInt IUInt);
  MFld "ttwu_local" (TInt IUInt);
  MFld "idle_state" (TPtr "struct cpuidle_state");
  MFld "nr_pinned" (TInt IUInt);
  MFld "push_busy" (TInt IUInt);
  MFld "push_work" cpu_stop_work;
  MFld "core" (TPtr "struct rq");
  MFld "core_pick" (TPtr "struct task_struct");
  MFld "core_enabled" (TInt IUInt);
  MFld "core_sched_seq" (TInt IUInt);
  MFld "core_tree" rb_root;
  MFld "core_task_seq" (TInt IUInt);
  MFld "core_pick_seq" (TInt IUInt);
  MFld "core_cookie" (TInt IULong);
  MFld "core_forceidle_count" (TInt IUInt);
  MFld "core_forceidle_seq" (TInt IUInt);
  MFld "core_forceidle_occupation" (TInt IUInt);
  MFld "core_forceidle_start" u64;
  MFld "scratch_mask" cpumask_var_t;
  MBits "" (TInt ILong) 64;
  MFld "cfsb_csd" call_single_data_t;
  MFld "cfsb_csd_list" list_head;
  MBits "" (TInt ILong) 64;
  MBits "" (TInt ILong) 64 }.

Definition __kernel_time64_t : ctype :=
  (TInt ILLong).

Definition __kernel_timespec : ctype :=
  TStruct "__kernel_timespec" members{
  MFld "tv_sec" __kernel_time64_t;
  MFld "tv_nsec" (TInt ILLong) }.

Definition __s32 : ctype :=
  (TInt IInt).

Definition s32 : ctype :=
  __s32.

Definition old_time32_t : ctype :=
  s32.

Definition old_timespec32 : ctype :=
  TStruct "old_timespec32" members{
  MFld "tv_sec" old_time32_t;
  MFld "tv_nsec" s32 }.

Definition pollfd : ctype :=
  TStruct "pollfd" members{
  MFld "fd" (TInt IInt);
  MFld "events" (TInt IShort);
  MFld "revents" (TInt IShort) }.

Definition sem_undo_list : ctype :=
  TStruct "sem_undo_list" members{
  MFld "refcnt" refcount_t;
  MFld "lock" spinlock_t;
  MFld "list_proc" list_head }.

Definition action_cache : ctype :=
  TStruct "action_cache" members{
  MFld "allow_native" (TArr (TInt IULong) 8);
  MFld "allow_compat" (TArr (TInt IULong) 8) }.

Definition seccomp_filter : ctype :=
  TStruct "seccomp_filter" members{
  MFld "refs" refcount_t;
  MFld "users" refcount_t;
  MFld "log" bool_t;
  MFld "wait_killable_recv" bool_t;
  MFld "cache" action_cache;
  MFld "prev" (TPtr "struct seccomp_filter");
  MFld "prog" (TPtr "struct bpf_prog");
  MFld "notif" (TPtr "struct notification");
  MFld "notify_lock" mutex;
  MFld "wqh" wait_queue_head_t }.

Definition page : ctype :=
  TStruct "page" members{
  MFld "flags" (TInt IULong);
  MFld "" (TUnion "" members{
    MFld "" (TStruct "" members{
      MFld "" (TUnion "" members{
        MFld "lru" list_head;
        MFld "" (TStruct "" members{
          MFld "__filler" (TPtr "void");
          MFld "mlock_count" (TInt IUInt) });
        MFld "buddy_list" list_head;
        MFld "pcp_list" list_head });
      MFld "mapping" (TPtr "struct address_space");
      MFld "" (TUnion "" members{
        MFld "index" (TInt IULong);
        MFld "share" (TInt IULong) });
      MFld "private" (TInt IULong) });
    MFld "" (TStruct "" members{
      MFld "pp_magic" (TInt IULong);
      MFld "pp" (TPtr "struct page_pool");
      MFld "_pp_mapping_pad" (TInt IULong);
      MFld "dma_addr" (TInt IULong);
      MFld "pp_ref_count" atomic_long_t });
    MFld "" (TStruct "" members{
      MFld "compound_head" (TInt IULong) });
    MFld "" (TStruct "" members{
      MFld "pgmap" (TPtr "struct dev_pagemap");
      MFld "zone_device_data" (TPtr "void") });
    MFld "callback_head" callback_head });
  MFld "" (TUnion "" members{
    MFld "_mapcount" atomic_t;
    MFld "page_type" (TInt IUInt) });
  MFld "_refcount" atomic_t;
  MFld "memcg_data" (TInt IULong) }.

Definition math_emu_info : ctype :=
  TStruct "math_emu_info" members{
  MFld "___orig_eip" (TInt ILong);
  MFld "regs" (TPtr "struct pt_regs") }.

Definition perf_event_state : ctype :=
  TEnum "perf_event_state" [("PERF_EVENT_STATE_DEAD", -4); ("PERF_EVENT_STATE_EXIT", -3); ("PERF_EVENT_STATE_ERROR", -2); ("PERF_EVENT_STATE_OFF", -1); ("PERF_EVENT_STATE_INACTIVE", 0); ("PERF_EVENT_STATE_ACTIVE", 1)].

Definition local_t : ctype :=
  (TStruct "" members{
    MFld "a" atomic_long_t }).

Definition local64_t : ctype :=
  (TStruct "" members{
    MFld "a" local_t }).

Definition perf_event_attr : ctype :=
  TStruct "perf_event_attr" members{
  MFld "type" __u32;
  MFld "size" __u32;
  MFld "config" __u64;
  MFld "" (TUnion "" members{
    MFld "sample_period" __u64;
    MFld "sample_freq" __u64 });
  MFld "sample_type" __u64;
  MFld "read_format" __u64;
  MBits "disabled" __u64 1;
  MBits "inherit" __u64 1;
  MBits "pinned" __u64 1;
  MBits "exclusive" __u64 1;
  MBits "exclude_user" __u64 1;
  MBits "exclude_kernel" __u64 1;
  MBits "exclude_hv" __u64 1;
  MBits "exclude_idle" __u64 1;
  MBits "mmap" __u64 1;
  MBits "comm" __u64 1;
  MBits "freq" __u64 1;
  MBits "inherit_stat" __u64 1;
  MBits "enable_on_exec" __u64 1;
  MBits "task" __u64 1;
  MBits "watermark" __u64 1;
  MBits "precise_ip" __u64 2;
  MBits "mmap_data" __u64 1;
  MBits "sample_id_all" __u64 1;
  MBits "exclude_host" __u64 1;
  MBits "exclude_guest" __u64 1;
  MBits "exclude_callchain_kernel" __u64 1;
  MBits "exclude_callchain_user" __u64 1;
  MBits "mmap2" __u64 1;
  MBits "comm_exec" __u64 1;
  MBits "use_clockid" __u64 1;
  MBits "context_switch" __u64 1;
  MBits "write_backward" __u64 1;
  MBits "namespaces" __u64 1;
  MBits "ksymbol" __u64 1;
  MBits "bpf_event" __u64 1;
  MBits "aux_output" __u64 1;
  MBits "cgroup" __u64 1;
  MBits "text_poke" __u64 1;
  MBits "build_id" __u64 1;
  MBits "inherit_thread" __u64 1;
  MBits "remove_on_exec" __u64 1;
  MBits "sigtrap" __u64 1;
  MBits "__reserved_1" __u64 26;
  MFld "" (TUnion "" members{
    MFld "wakeup_events" __u32;
    MFld "wakeup_watermark" __u32 });
  MFld "bp_type" __u32;
  MFld "" (TUnion "" members{
    MFld "bp_addr" __u64;
    MFld "kprobe_func" __u64;
    MFld "uprobe_path" __u64;
    MFld "config1" __u64 });
  MFld "" (TUnion "" members{
    MFld "bp_len" __u64;
    MFld "kprobe_addr" __u64;
    MFld "probe_offset" __u64;
    MFld "config2" __u64 });
  MFld "branch_sample_type" __u64;
  MFld "sample_regs_user" __u64;
  MFld "sample_stack_user" __u32;
  MFld "clockid" __s32;
  MFld "sample_regs_intr" __u64;
  MFld "aux_watermark" __u32;
  MFld "sample_max_stack" __u16;
  MFld "__reserved_2" __u16;
  MFld "aux_sample_size" __u32;
  MFld "__reserved_3" __u32;
  MFld "sig_data" __u64;
  MFld "config3" __u64 }.

Definition hw_perf_event_extra : ctype :=
  TStruct "hw_perf_event_extra" members{
  MFld "config" u64;
  MFld "reg" (TInt IUInt);
  MFld "alloc" (TInt IInt);
  MFld "idx" (TInt IInt) }.

Definition arch_hw_breakpoint : ctype :=
  TStruct "arch_hw_breakpoint" members{
  MFld "address" (TInt IULong);
  MFld "mask" (TInt IULong);
  MFld "len" u8;
  MFld "type" u8 }.

Definition rhash_head : ctype :=
  TStruct "rhash_head" members{
  MFld "next" (TPtr "struct rhash_head") }.

Definition rhlist_head : ctype :=
  TStruct "rhlist_head" members{
  MFld "rhead" rhash_head;
  MFld "next" (TPtr "struct rhlist_head") }.

Definition hw_perf_event : ctype :=
  TStruct "hw_perf_event" members{
  MFld "" (TUnion "" members{
    MFld "" (TStruct "" members{
      MFld "config" u64;
      MFld "last_tag" u64;
      MFld "config_base" (TInt IULong);
      MFld "event_base" (TInt IULong);
      MFld "event_base_rdpmc" (TInt IInt);
      MFld "idx" (TInt IInt);
      MFld "last_cpu" (TInt IInt);
      MFld "flags" (TInt IInt);
      MFld "extra_reg" hw_perf_event_extra;
      MFld "branch_reg" hw_perf_event_extra });
    MFld "" (TStruct "" members{
      MFld "hrtimer" hrtimer });
    MFld "" (TStruct "" members{
      MFld "tp_list" list_head });
    MFld "" (TStruct "" members{
      MFld "pwr_acc" u64;
      MFld "ptsc" u64 });
    MFld "" (TStruct "" members{
      MFld "info" arch_hw_breakpoint;
      MFld "bp_list" rhlist_head });
    MFld "" (TStruct "" members{
      MFld "iommu_bank" u8;
      MFld "iommu_cntr" u8;
      MFld "padding" u16;
      MFld "conf" u64;
      MFld "conf1" u64 }) });
  MFld "target" (TPtr "struct task_struct");
  MFld "addr_filters" (TPtr "void");
  MFld "addr_filters_gen" (TInt IULong);
  MFld "state" (TInt IInt);
  MFld "prev_count" local64_t;
  MFld "sample_period" u64;
  MFld "" (TUnion "" members{
    MFld "" (TStruct "" members{
      MFld "last_period" u64;
      MFld "period_left" local64_t });
    MFld "" (TStruct "" members{
      MFld "saved_metric" u64;
      MFld "saved_slots" u64 }) });
  MFld "interrupts_seq" u64;
  MFld "interrupts" u64;
  MFld "freq_time_stamp" u64;
  MFld "freq_count_stamp" u64 }.

Definition irq_work : ctype :=
  TStruct "irq_work" members{
  MFld "node" __call_single_node;
  MFld "func" (TPtr "void (*)()");
  MFld "irqwait" rcuwait }.

Definition perf_addr_filters_head : ctype :=
  TStruct "perf_addr_filters_head" members{
  MFld "list" list_head;
  MFld "lock" raw_spinlock_t;
  MFld "nr_file_filters" (TInt IUInt) }.

Definition perf_overflow_handler_t : ctype :=
  (TPtr "void (*)()").

Definition ftrace_func_t : ctype :=
  (TPtr "void (*)()").

Definition ftrace_ops_hash : ctype :=
  TStruct "ftrace_ops_hash" members{
  MFld "notrace_hash" (TPtr "struct ftrace_hash");
  MFld "filter_hash" (TPtr "struct ftrace_hash");
  MFld "regex_lock" mutex }.

Definition ftrace_ops_func_t : ctype :=
  (TPtr "int (*)()").

Definition ftrace_ops : ctype :=
  TStruct "ftrace_ops" members{
  MFld "func" ftrace_func_t;
  MFld "next" (TPtr "struct ftrace_ops");
  MFld "flags" (TInt IULong);
  MFld "private" (TPtr "void");
  MFld "saved_func" ftrace_func_t;
  MFld "local_hash" ftrace_ops_hash;
  MFld "func_hash" (TPtr "struct ftrace_ops_hash");
  MFld "old_hash" ftrace_ops_hash;
  MFld "trampoline" (TInt IULong);
  MFld "trampoline_size" (TInt IULong);
  MFld "list" list_head;
  MFld "ops_func" ftrace_ops_func_t;
  MFld "direct_call" (TInt IULong) }.

Definition perf_event : ctype :=
  TStruct "perf_event" members{
  MFld "event_entry" list_head;
  MFld "sibling_list" list_head;
  MFld "active_list" list_head;
  MFld "group_node" rb_node;
  MFld "group_index" u64;
  MFld "migrate_entry" list_head;
  MFld "hlist_entry" hlist_node;
  MFld "active_entry" list_head;
  MFld "nr_siblings" (TInt IInt);
  MFld "event_caps" (TInt IInt);
  MFld "group_caps" (TInt IInt);
  MFld "group_generation" (TInt IUInt);
  MFld "group_leader" (TPtr "struct perf_event");
  MFld "pmu" (TPtr "struct pmu");
  MFld "pmu_private" (TPtr "void");
  MFld "state" perf_event_state;
  MFld "attach_state" (TInt IUInt);
  MFld "count" local64_t;
  MFld "child_count" atomic64_t;
  MFld "total_time_enabled" u64;
  MFld "total_time_running" u64;
  MFld "tstamp" u64;
  MFld "attr" perf_event_attr;
  MFld "header_size" u16;
  MFld "id_header_size" u16;
  MFld "read_size" u16;
  MFld "hw" hw_perf_event;
  MFld "ctx" (TPtr "struct perf_event_context");
  MFld "pmu_ctx" (TPtr "struct perf_event_pmu_context");
  MFld "refcount" atomic_long_t;
  MFld "child_total_time_enabled" atomic64_t;
  MFld "child_total_time_running" atomic64_t;
  MFld "child_mutex" mutex;
  MFld "child_list" list_head;
  MFld "parent" (TPtr "struct perf_event");
  MFld "oncpu" (TInt IInt);
  MFld "cpu" (TInt IInt);
  MFld "owner_entry" list_head;
  MFld "owner" (TPtr "struct task_struct");
  MFld "mmap_mutex" mutex;
  MFld "mmap_count" atomic_t;
  MFld "rb" (TPtr "struct perf_buffer");
  MFld "rb_entry" list_head;
  MFld "rcu_batches" (TInt IULong);
  MFld "rcu_pending" (TInt IInt);
  MFld "waitq" wait_queue_head_t;
  MFld "fasync" (TPtr "struct fasync_struct");
  MFld "pending_wakeup" (TInt IUInt);
  MFld "pending_kill" (TInt IUInt);
  MFld "pending_disable" (TInt IUInt);
  MFld "pending_sigtrap" (TInt IUInt);
  MFld "pending_addr" (TInt IULong);
  MFld "pending_irq" irq_work;
  MFld "pending_task" callback_head;
  MFld "pending_work" (TInt IUInt);
  MFld "pending_work_wait" rcuwait;
  MFld "event_limit" atomic_t;
  MFld "addr_filters" perf_addr_filters_head;
  MFld "addr_filter_ranges" (TPtr "struct perf_addr_filter_range");
  MFld "addr_filters_gen" (TInt IULong);
  MFld "aux_event" (TPtr "struct perf_event");
  MFld "destroy" (TPtr "void (*)()");
  MFld "callback_head" callback_head;
  MFld "ns" (TPtr "struct pid_namespace");
  MFld "id" u64;
  MFld "lost_samples" atomic64_t;
  MFld "clock" (TPtr "u64 (*)()");
  MFld "overflow_handler" perf_overflow_handler_t;
  MFld "overflow_handler_context" (TPtr "void");
  MFld "orig_overflow_handler" perf_overflow_handler_t;
  MFld "prog" (TPtr "struct bpf_prog");
  MFld "bpf_cookie" u64;
  MFld "tp_event" (TPtr "struct trace_event_call");
  MFld "filter" (TPtr "struct event_filter");
  MFld "ftrace_ops" ftrace_ops;
  MFld "cgrp" (TPtr "struct perf_cgroup");
  MFld "security" (TPtr "void");
  MFld "sb_list" list_head;
  MFld "orig_type" __u32 }.

Definition io_bitmap : ctype :=
  TStruct "io_bitmap" members{
  MFld "sequence" u64;
  MFld "refcnt" refcount_t;
  MFld "max" (TInt IUInt);
  MFld "bitmap" (TArr (TInt IULong) 1024) }.

Definition sched_class : ctype :=
  TStruct "sched_class" members{
  MFld "uclamp_enabled" (TInt IInt);
  MFld "enqueue_task" (TPtr "void (*)()");
  MFld "dequeue_task" (TPtr "void (*)()");
  MFld "yield_task" (TPtr "void (*)()");
  MFld "yield_to_task" (TPtr "bool (*)()");
  MFld "wakeup_preempt" (TPtr "void (*)()");
  MFld "pick_next_task" (TPtr "struct task_struct (*)()");
  MFld "put_prev_task" (TPtr "void (*)()");
  MFld "set_next_task" (TPtr "void (*)()");
  MFld "balance" (TPtr "int (*)()");
  MFld "select_task_rq" (TPtr "int (*)()");
  MFld "pick_task" (TPtr "struct task_struct (*)()");
  MFld "migrate_task_rq" (TPtr "void (*)()");
  MFld "task_woken" (TPtr "void (*)()");
  MFld "set_cpus_allowed" (TPtr "void (*)()");
  MFld "rq_online" (TPtr "void (*)()");
  MFld "rq_offline" (TPtr "void (*)()");
  MFld "find_lock_rq" (TPtr "struct rq (*)()");
  MFld "task_tick" (TPtr "void (*)()");
  MFld "task_fork" (TPtr "void (*)()");
  MFld "task_dead" (TPtr "void (*)()");
  MFld "switched_from" (TPtr "void (*)()");
  MFld "switched_to" (TPtr "void (*)()");
  MFld "prio_changed" (TPtr "void (*)()");
  MFld "get_rr_interval" (TPtr "unsigned int (*)()");
  MFld "update_curr" (TPtr "void (*)()");
  MFld "task_change_group" (TPtr "void (*)()");
  MFld "task_is_throttled" (TPtr "int (*)()") }.

Definition cfs_bandwidth : ctype :=
  TStruct "cfs_bandwidth" members{
  MFld "lock" raw_spinlock_t;
  MFld "period" ktime_t;
  MFld "quota" u64;
  MFld "runtime" u64;
  MFld "burst" u64;
  MFld "runtime_snap" u64;
  MFld "hierarchical_quota" s64;
  MFld "idle" u8;
  MFld "period_active" u8;
  MFld "slack_started" u8;
  MFld "period_timer" hrtimer;
  MFld "slack_timer" hrtimer;
  MFld "throttled_cfs_rq" list_head;
  MFld "nr_periods" (TInt IInt);
  MFld "nr_throttled" (TInt IInt);
  MFld "nr_burst" (TInt IInt);
  MFld "throttled_time" u64;
  MFld "burst_time" u64 }.

Definition task_group : ctype :=
  TStruct "task_group" members{
  MFld "css" cgroup_subsys_state;
  MFld "se" (TPtr "struct sched_entity*");
  MFld "cfs_rq" (TPtr "struct cfs_rq*");
  MFld "shares" (TInt IULong);
  MFld "idle" (TInt IInt);
  MBits "" (TInt ILong) 64;
  MBits "" (TInt ILong) 64;
  MBits "" (TInt ILong) 64;
  MFld "load_avg" atomic_long_t;
  MFld "rcu" callback_head;
  MFld "list" list_head;
  MFld "parent" (TPtr "struct task_group");
  MFld "siblings" list_head;
  MFld "children" list_head;
  MFld "autogroup" (TPtr "struct autogroup");
  MFld "cfs_bandwidth" cfs_bandwidth;
  MFld "uclamp_pct" (TArr (TInt IUInt) 2);
  MFld "uclamp_req" (TArr uclamp_se 2);
  MFld "uclamp" (TArr uclamp_se 2);
  MBits "" (TInt ILong) 64;
  MBits "" (TInt ILong) 64;
  MBits "" (TInt ILong) 64;
  MBits "" (TInt ILong) 64 }.

Definition rt_mutex_base : ctype :=
  TStruct "rt_mutex_base" members{
  MFld "wait_lock" raw_spinlock_t;
  MFld "waiters" rb_root_cached;
  MFld "owner" (TPtr "struct task_struct") }.

Definition rt_mutex : ctype :=
  TStruct "rt_mutex" members{
  MFld "rtmutex" rt_mutex_base }.

Definition swait_queue_head : ctype :=
  TStruct "swait_queue_head" members{
  MFld "lock" raw_spinlock_t;
  MFld "task_list" list_head }.

Definition rcu_exp_work : ctype :=
  TStruct "rcu_exp_work" members{
  MFld "rew_s" (TInt IULong);
  MFld "rew_work" work_struct }.

Definition rcu_node : ctype :=
  TStruct "rcu_node" members{
  MFld "lock" raw_spinlock_t;
  MFld "gp_seq" (TInt IULong);
  MFld "gp_seq_needed" (TInt IULong);
  MFld "completedqs" (TInt IULong);
  MFld "qsmask" (TInt IULong);
  MFld "rcu_gp_init_mask" (TInt IULong);
  MFld "qsmaskinit" (TInt IULong);
  MFld "qsmaskinitnext" (TInt IULong);
  MFld "expmask" (TInt IULong);
  MFld "expmaskinit" (TInt IULong);
  MFld "expmaskinitnext" (TInt IULong);
  MFld "cbovldmask" (TInt IULong);
  MFld "ffmask" (TInt IULong);
  MFld "grpmask" (TInt IULong);
  MFld "grplo" (TInt IInt);
  MFld "grphi" (TInt IInt);
  MFld "grpnum" u8;
  MFld "level" u8;
  MFld "wait_blkd_tasks" bool_t;
  MFld "parent" (TPtr "struct rcu_node");
  MFld "blkd_tasks" list_head;
  MFld "gp_tasks" (TPtr "struct list_head");
  MFld "exp_tasks" (TPtr "struct list_head");
  MFld "boost_tasks" (TPtr "struct list_head");
  MFld "boost_mtx" rt_mutex;
  MFld "boost_time" (TInt IULong);
  MFld "boost_kthread_mutex" mutex;
  MFld "boost_kthread_task" (TPtr "struct task_struct");
  MFld "boost_kthread_status" (TInt IUInt);
  MFld "n_boosts" (TInt IULong);
  MFld "nocb_gp_wq" (TArr swait_queue_head 2);
  MFld "fqslock" raw_spinlock_t;
  MBits "" (TInt ILong) 64;
  MBits "" (TInt ILong) 64;
  MBits "" (TInt ILong) 64;
  MBits "" (TInt ILong) 64;
  MBits "" (TInt ILong) 64;
  MBits "" (TInt ILong) 64;
  MBits "" (TInt ILong) 64;
  MFld "exp_lock" spinlock_t;
  MFld "exp_seq_rq" (TInt IULong);
  MFld "exp_wq" (TArr wait_queue_head_t 4);
  MFld "rew" rcu_exp_work;
  MFld "exp_need_flush" bool_t;
  MFld "exp_poll_lock" raw_spinlock_t;
  MFld "exp_seq_poll_rq" (TInt IULong);
  MFld "exp_poll_wq" work_struct;
  MBits "" (TInt ILong) 64;
  MBits "" (TInt ILong) 64;
  MBits "" (TInt ILong) 64;
  MBits "" (TInt ILong) 64;
  MBits "" (TInt ILong) 64;
  MBits "" (TInt ILong) 64;
  MBits "" (TInt ILong) 64 }.

Definition lockdep_map_p : ctype :=
  (TStruct "" MNil).

Definition maple_tree : ctype :=
  TStruct "maple_tree" members{
  MFld "" (TUnion "" members{
    MFld "ma_lock" spinlock_t;
    MFld "ma_external_lock" lockdep_map_p });
  MFld "ma_flags" (TInt IUInt);
  MFld "ma_root" (TPtr "void") }.

Definition rw_semaphore : ctype :=
  TStruct "rw_semaphore" members{
  MFld "count" atomic_long_t;
  MFld "owner" atomic_long_t;
  MFld "osq" optimistic_spin_queue;
  MFld "wait_lock" raw_spinlock_t;
  MFld "wait_list" list_head }.

Definition __s16 : ctype :=
  (TInt IShort).

Definition s16 : ctype :=
  __s16.

Definition mm_context_t : ctype :=
  (TStruct "" members{
    MFld "ctx_id" u64;
    MFld "tlb_gen" atomic64_t;
    MFld "next_trim_cpumask" (TInt IULong);
    MFld "ldt_usr_sem" rw_semaphore;
    MFld "ldt" (TPtr "struct ldt_struct");
    MFld "flags" (TInt IULong);
    MFld "lock" mutex;
    MFld "vdso" (TPtr "void");
    MFld "vdso_image" (TPtr "struct vdso_image");
    MFld "perf_rdpmc_allowed" atomic_t;
    MFld "pkey_allocation_map" u16;
    MFld "execute_only_pkey" s16 }).

Definition uprobes_state : ctype :=
  TStruct "uprobes_state" members{
  MFld "xol_area" (TPtr "struct xol_area") }.

Definition mm_struct : ctype :=
  TStruct "mm_struct" members{
  MFld "" (TStruct "" members{
    MFld "" (TStruct "" members{
      MFld "mm_count" atomic_t;
      MBits "" (TInt ILong) 64;
      MBits "" (TInt ILong) 64;
      MBits "" (TInt ILong) 64;
      MBits "" (TInt ILong) 64;
      MBits "" (TInt ILong) 64;
      MBits "" (TInt ILong) 64;
      MBits "" (TInt ILong) 64 });
    MFld "mm_mt" maple_tree;
    MFld "get_unmapped_area" (TPtr "long unsigned int (*)()");
    MFld "mmap_base" (TInt IULong);
    MFld "mmap_legacy_base" (TInt IULong);
    MFld "mmap_compat_base" (TInt IULong);
    MFld "mmap_compat_legacy_base" (TInt IULong);
    MFld "task_size" (TInt IULong);
    MFld "pgd" (TPtr "pgd_t");
    MFld "membarrier_state" atomic_t;
    MFld "mm_users" atomic_t;
    MFld "pcpu_cid" (TPtr "struct mm_cid");
    MFld "mm_cid_next_scan" (TInt IULong);
    MFld "pgtables_bytes" atomic_long_t;
    MFld "map_count" (TInt IInt);
    MFld "page_table_lock" spinlock_t;
    MFld "mmap_lock" rw_semaphore;
    MFld "mmlist" list_head;
    MFld "mm_lock_seq" (TInt IInt);
    MFld "hiwater_rss" (TInt IULong);
    MFld "hiwater_vm" (TInt IULong);
    MFld "total_vm" (TInt IULong);
    MFld "locked_vm" (TInt IULong);
    MFld "pinned_vm" atomic64_t;
    MFld "data_vm" (TInt IULong);
    MFld "exec_vm" (TInt IULong);
    MFld "stack_vm" (TInt IULong);
    MFld "def_flags" (TInt IULong);
    MFld "write_protect_seq" seqcount_t;
    MFld "arg_lock" spinlock_t;
    MFld "start_code" (TInt IULong);
    MFld "end_code" (TInt IULong);
    MFld "start_data" (TInt IULong);
    MFld "end_data" (TInt IULong);
    MFld "start_brk" (TInt IULong);
    MFld "brk" (TInt IULong);
    MFld "start_stack" (TInt IULong);
    MFld "arg_start" (TInt IULong);
    MFld "arg_end" (TInt IULong);
    MFld "env_start" (TInt IULong);
    MFld "env_end" (TInt IULong);
    MFld "saved_auxv" (TArr (TInt IULong) 52);
    MFld "rss_stat" (TArr percpu_counter 4);
    MFld "binfmt" (TPtr "struct linux_binfmt");
    MFld "context" mm_context_t;
    MFld "flags" (TInt IULong);
    MFld "ioctx_lock" spinlock_t;
    MFld "ioctx_table" (TPtr "struct kioctx_table");
    MFld "owner" (TPtr "struct task_struct");
    MFld "user_ns" (TPtr "struct user_namespace");
    MFld "exe_file" (TPtr "struct file");
    MFld "notifier_subscriptions" (TPtr "struct mmu_notifier_subscriptions");
    MFld "numa_next_scan" (TInt IULong);
    MFld "numa_scan_offset" (TInt IULong);
    MFld "numa_scan_seq" (TInt IInt);
    MFld "tlb_flush_pending" atomic_t;
    MFld "tlb_flush_batched" atomic_t;
    MFld "uprobes_state" uprobes_state;
    MFld "hugetlb_usage" atomic_long_t;
    MFld "async_put_work" work_struct;
    MFld "iommu_mm" (TPtr "struct iommu_mm_data");
    MFld "ksm_merging_pages" (TInt IULong);
    MFld "ksm_rmap_items" (TInt IULong);
    MFld "ksm_zero_pages" atomic_long_t;
    MFld "lru_gen" (TStruct "" members{
      MFld "list" list_head;
      MFld "bitmap" (TInt IULong);
      MFld "memcg" (TPtr "struct mem_cgroup") });
    MBits "" (TInt ILong) 64;
    MBits "" (TInt ILong) 64 });
  MFld "cpu_bitmap" (TArr (TInt IULong) 0) }.

Definition xarray : ctype :=
  TStruct "xarray" members{
  MFld "xa_lock" spinlock_t;
  MFld "xa_flags" gfp_t;
  MFld "xa_head" (TPtr "void") }.

Definition errseq_t : ctype :=
  u32.

Definition address_space : ctype :=
  TStruct "address_space" members{
  MFld "host" (TPtr "struct inode");
  MFld "i_pages" xarray;
  MFld "invalidate_lock" rw_semaphore;
  MFld "gfp_mask" gfp_t;
  MFld "i_mmap_writable" atomic_t;
  MFld "i_mmap" rb_root_cached;
  MFld "nrpages" (TInt IULong);
  MFld "writeback_index" (TInt IULong);
  MFld "a_ops" (TPtr "struct address_space_operations");
  MFld "flags" (TInt IULong);
  MFld "i_mmap_rwsem" rw_semaphore;
  MFld "wb_err" errseq_t;
  MFld "i_private_lock" spinlock_t;
  MFld "i_private_list" list_head;
  MFld "i_private_data" (TPtr "void") }.

Definition upid : ctype :=
  TStruct "upid" members{
  MFld "nr" (TInt IInt);
  MFld "ns" (TPtr "struct pid_namespace") }.

Definition pid : ctype :=
  TStruct "pid" members{
  MFld "count" refcount_t;
  MFld "level" (TInt IUInt);
  MFld "lock" spinlock_t;
  MFld "tasks" (TArr hlist_head 4);
  MFld "inodes" hlist_head;
  MFld "wait_pidfd" wait_queue_head_t;
  MFld "rcu" callback_head;
  MFld "numbers" (TArr upid 0) }.

Definition completion : ctype :=
  TStruct "completion" members{
  MFld "done" (TInt IUInt);
  MFld "wait" swait_queue_head }.

Definition __kernel_gid32_t : ctype :=
  (TInt IUInt).

Definition gid_t : ctype :=
  __kernel_gid32_t.

Definition kgid_t : ctype :=
  (TStruct "" members{
    MFld "val" gid_t }).

Definition kernel_cap_t : ctype :=
  (TStruct "" members{
    MFld "val" u64 }).

Definition cred : ctype :=
  TStruct "cred" members{
  MFld "usage" atomic_long_t;
  MFld "uid" kuid_t;
  MFld "gid" kgid_t;
  MFld "suid" kuid_t;
  MFld "sgid" kgid_t;
  MFld "euid" kuid_t;
  MFld "egid" kgid_t;
  MFld "fsuid" kuid_t;
  MFld "fsgid" kgid_t;
  MFld "securebits" (TInt IUInt);
  MFld "cap_inheritable" kernel_cap_t;
  MFld "cap_permitted" kernel_cap_t;
  MFld "cap_effective" kernel_cap_t;
  MFld "cap_bset" kernel_cap_t;
  MFld "cap_ambient" kernel_cap_t;
  MFld "jit_keyring" (TInt IUChar);
  MFld "session_keyring" (TPtr "struct key");
  MFld "process_keyring" (TPtr "struct key");
  MFld "thread_keyring" (TPtr "struct key");
  MFld "request_key_auth" (TPtr "struct key");
  MFld "security" (TPtr "void");
  MFld "user" (TPtr "struct user_struct");
  MFld "user_ns" (TPtr "struct user_namespace");
  MFld "ucounts" (TPtr "struct ucounts");
  MFld "group_info" (TPtr "struct group_info");
  MFld "" (TUnion "" members{
    MFld "non_rcu" (TInt IInt);
    MFld "rcu" callback_head }) }.

Definition int32_t : ctype :=
  s32.

Definition key_serial_t : ctype :=
  int32_t.

Definition time64_t : ctype :=
  __s64.

Definition uint32_t : ctype :=
  u32.

Definition key_perm_t : ctype :=
  uint32_t.

Definition keyring_index_key : ctype :=
  TStruct "keyring_index_key" members{
  MFld "hash" (TInt IULong);
  MFld "" (TUnion "" members{
    MFld "" (TStruct "" members{
      MFld "desc_len" u16;
      MFld "desc" (TArr (TInt IChar) 6) });
    MFld "x" (TInt IULong) });
  MFld "type" (TPtr "struct key_type");
  MFld "domain_tag" (TPtr "struct key_tag");
  MFld "description" (TPtr "char") }.

Definition key_payload : ctype :=
  TUnion "key_payload" members{
  MFld "rcu_data0" (TPtr "void");
  MFld "data" (TArr (TPtr "void") 4) }.

Definition assoc_array : ctype :=
  TStruct "assoc_array" members{
  MFld "root" (TPtr "struct assoc_array_ptr");
  MFld "nr_leaves_on_tree" (TInt IULong) }.

Definition key : ctype :=
  TStruct "key" members{
  MFld "usage" refcount_t;
  MFld "serial" key_serial_t;
  MFld "" (TUnion "" members{
    MFld "graveyard_link" list_head;
    MFld "serial_node" rb_node });
  MFld "watchers" (TPtr "struct watch_list");
  MFld "sem" rw_semaphore;
  MFld "user" (TPtr "struct key_user");
  MFld "security" (TPtr "void");
  MFld "" (TUnion "" members{
    MFld "expiry" time64_t;
    MFld "revoked_at" time64_t });
  MFld "last_used_at" time64_t;
  MFld "uid" kuid_t;
  MFld "gid" kgid_t;
  MFld "perm" key_perm_t;
  MFld "quotalen" (TInt IUShort);
  MFld "datalen" (TInt IUShort);
  MFld "state" (TInt IShort);
  MFld "flags" (TInt IULong);
  MFld "" (TUnion "" members{
    MFld "index_key" keyring_index_key;
    MFld "" (TStruct "" members{
      MFld "hash" (TInt IULong);
      MFld "len_desc" (TInt IULong);
      MFld "type" (TPtr "struct key_type");
      MFld "domain_tag" (TPtr "struct key_tag");
      MFld "description" (TPtr "char") }) });
  MFld "" (TUnion "" members{
    MFld "payload" key_payload;
    MFld "" (TStruct "" members{
      MFld "name_link" list_head;
      MFld "keys" assoc_array }) });
  MFld "restrict_link" (TPtr "struct key_restriction") }.

Definition path : ctype :=
  TStruct "path" members{
  MFld "mnt" (TPtr "struct vfsmount");
  MFld "dentry" (TPtr "struct dentry") }.

Definition qstr : ctype :=
  TStruct "qstr" members{
  MFld "" (TUnion "" members{
    MFld "" (TStruct "" members{
      MFld "hash" u32;
      MFld "len" u32 });
    MFld "hash_len" u64 });
  MFld "name" (TPtr "unsigned char") }.

Definition delayed_call : ctype :=
  TStruct "delayed_call" members{
  MFld "fn" (TPtr "void (*)()");
  MFld "arg" (TPtr "void") }.

Definition saved : ctype :=
  TStruct "saved" members{
  MFld "link" path;
  MFld "done" delayed_call;
  MFld "name" (TPtr "char");
  MFld "seq" (TInt IUInt) }.

Definition vfsuid_t : ctype :=
  (TStruct "" members{
    MFld "val" uid_t }).

Definition nameidata : ctype :=
  TStruct "nameidata" members{
  MFld "path" path;
  MFld "last" qstr;
  MFld "root" path;
  MFld "inode" (TPtr "struct inode");
  MFld "flags" (TInt IUInt);
  MFld "state" (TInt IUInt);
  MFld "seq" (TInt IUInt);
  MFld "next_seq" (TInt IUInt);
  MFld "m_seq" (TInt IUInt);
  MFld "r_seq" (TInt IUInt);
  MFld "last_type" (TInt IInt);
  MFld "depth" (TInt IUInt);
  MFld "total_link_count" (TInt IInt);
  MFld "stack" (TPtr "struct saved");
  MFld "internal" (TArr saved 2);
  MFld "name" (TPtr "struct filename");
  MFld "saved" (TPtr "struct nameidata");
  MFld "root_seq" (TInt IUInt);
  MFld "dfd" (TInt IInt);
  MFld "dir_vfsuid" vfsuid_t;
  MFld "dir_mode" umode_t }.

Definition fs_struct : ctype :=
  TStruct "fs_struct" members{
  MFld "users" (TInt IInt);
  MFld "lock" spinlock_t;
  MFld "seq" seqcount_spinlock_t;
  MFld "umask" (TInt IInt);
  MFld "in_exec" (TInt IInt);
  MFld "root" path;
  MFld "pwd" path }.

Definition fdtable : ctype :=
  TStruct "fdtable" members{
  MFld "max_fds" (TInt IUInt);
  MFld "fd" (TPtr "struct file*");
  MFld "close_on_exec" (TPtr "long unsigned int");
  MFld "open_fds" (TPtr "long unsigned int");
  MFld "full_fds_bits" (TPtr "long unsigned int");
  MFld "rcu" callback_head }.

Definition files_struct : ctype :=
  TStruct "files_struct" members{
  MFld "count" atomic_t;
  MFld "resize_in_progress" bool_t;
  MFld "resize_wait" wait_queue_head_t;
  MFld "fdt" (TPtr "struct fdtable");
  MFld "fdtab" fdtable;
  MBits "" (TInt ILong) 64;
  MBits "" (TInt ILong) 64;
  MBits "" (TInt ILong) 64;
  MBits "" (TInt ILong) 64;
  MFld "file_lock" spinlock_t;
  MFld "next_fd" (TInt IUInt);
  MFld "close_on_exec_init" (TArr (TInt IULong) 1);
  MFld "open_fds_init" (TArr (TInt IULong) 1);
  MFld "full_fds_bits_init" (TArr (TInt IULong) 1);
  MFld "fd_array" (TArr (TPtr "struct file") 64);
  MBits "" (TInt ILong) 64;
  MBits "" (TInt ILong) 64;
  MBits "" (TInt ILong) 64;
  MBits "" (TInt ILong) 64 }.

Definition io_uring_task : ctype :=
  TStruct "io_uring_task" members{
  MFld "cached_refs" (TInt IInt);
  MFld "last" (TPtr "struct io_ring_ctx");
  MFld "io_wq" (TPtr "struct io_wq");
  MFld "registered_rings" (TArr (TPtr "struct file") 16);
  MFld "xa" xarray;
  MFld "wait" wait_queue_head;
  MFld "in_cancel" atomic_t;
  MFld "inflight_tracked" atomic_t;
  MFld "inflight" percpu_counter;
  MBits "" (TInt ILong) 64;
  MBits "" (TInt ILong) 64;
  MFld "" (TStruct "" members{
    MFld "task_list" llist_head;
    MFld "task_work" callback_head;
    MBits "" (TInt ILong) 64;
    MBits "" (TInt ILong) 64;
    MBits "" (TInt ILong) 64;
    MBits "" (TInt ILong) 64;
    MBits "" (TInt ILong) 64 }) }.

Definition nsproxy : ctype :=
  TStruct "nsproxy" members{
  MFld "count" refcount_t;
  MFld "uts_ns" (TPtr "struct uts_namespace");
  MFld "ipc_ns" (TPtr "struct ipc_namespace");
  MFld "mnt_ns" (TPtr "struct mnt_namespace");
  MFld "pid_ns_for_children" (TPtr "struct pid_namespace");
  MFld "net_ns" (TPtr "struct net");
  MFld "time_ns" (TPtr "struct time_namespace");
  MFld "time_ns_for_children" (TPtr "struct time_namespace");
  MFld "cgroup_ns" (TPtr "struct cgroup_namespace") }.

Definition cpu_itimer : ctype :=
  TStruct "cpu_itimer" members{
  MFld "expires" u64;
  MFld "incr" u64 }.

Definition task_cputime_atomic : ctype :=
  TStruct "task_cputime_atomic" members{
  MFld "utime" atomic64_t;
  MFld "stime" atomic64_t;
  MFld "sum_exec_runtime" atomic64_t }.

Definition thread_group_cputimer : ctype :=
  TStruct "thread_group_cputimer" members{
  MFld "cputime_atomic" task_cputime_atomic }.

Definition seqlock_t : ctype :=
  (TStruct "" members{
    MFld "seqcount" seqcount_spinlock_t;
    MFld "lock" spinlock_t }).

Definition rlimit : ctype :=
  TStruct "rlimit" members{
  MFld "rlim_cur" __kernel_ulong_t;
  MFld "rlim_max" __kernel_ulong_t }.

Definition pacct_struct : ctype :=
  TStruct "pacct_struct" members{
  MFld "ac_flag" (TInt IInt);
  MFld "ac_exitcode" (TInt ILong);
  MFld "ac_mem" (TInt IULong);
  MFld "ac_utime" u64;
  MFld "ac_stime" u64;
  MFld "ac_minflt" (TInt IULong);
  MFld "ac_majflt" (TInt IULong) }.

Definition signal_struct : ctype :=
  TStruct "signal_struct" members{
  MFld "sigcnt" refcount_t;
  MFld "live" atomic_t;
  MFld "nr_threads" (TInt IInt);
  MFld "quick_threads" (TInt IInt);
  MFld "thread_head" list_head;
  MFld "wait_chldexit" wait_queue_head_t;
  MFld "curr_target" (TPtr "struct task_struct");
  MFld "shared_pending" sigpending;
  MFld "multiprocess" hlist_head;
  MFld "group_exit_code" (TInt IInt);
  MFld "notify_count" (TInt IInt);
  MFld "group_exec_task" (TPtr "struct task_struct");
  MFld "group_stop_count" (TInt IInt);
  MFld "flags" (TInt IUInt);
  MFld "core_state" (TPtr "struct core_state");
  MBits "is_child_subreaper" (TInt IUInt) 1;
  MBits "has_child_subreaper" (TInt IUInt) 1;
  MFld "next_posix_timer_id" (TInt IUInt);
  MFld "posix_timers" list_head;
  MFld "real_timer" hrtimer;
  MFld "it_real_incr" ktime_t;
  MFld "it" (TArr cpu_itimer 2);
  MFld "cputimer" thread_group_cputimer;
  MFld "posix_cputimers" posix_cputimers;
  MFld "pids" (TArr (TPtr "struct pid") 4);
  MFld "tick_dep_mask" atomic_t;
  MFld "tty_old_pgrp" (TPtr "struct pid");
  MFld "leader" (TInt IInt);
  MFld "tty" (TPtr "struct tty_struct");
  MFld "autogroup" (TPtr "struct autogroup");
  MFld "stats_lock" seqlock_t;
  MFld "utime" u64;
  MFld "stime" u64;
  MFld "cutime" u64;
  MFld "cstime" u64;
  MFld "gtime" u64;
  MFld "cgtime" u64;
  MFld "prev_cputime" prev_cputime;
  MFld "nvcsw" (TInt IULong);
  MFld "nivcsw" (TInt IULong);
  MFld "cnvcsw" (TInt IULong);
  MFld "cnivcsw" (TInt IULong);
  MFld "min_flt" (TInt IULong);
  MFld "maj_flt" (TInt IULong);
  MFld "cmin_flt" (TInt IULong);
  MFld "cmaj_flt" (TInt IULong);
  MFld "inblock" (TInt IULong);
  MFld "oublock" (TInt IULong);
  MFld "cinblock" (TInt IULong);
  MFld "coublock" (TInt IULong);
  MFld "maxrss" (TInt IULong);
  MFld "cmaxrss" (TInt IULong);
  MFld "ioac" task_io_accounting;
  MFld "sum_sched_runtime" (TInt IULLong);
  MFld "rlim" (TArr rlimit 16);
  MFld "pacct" pacct_struct;
  MFld "stats" (TPtr "struct taskstats");
  MFld "audit_tty" (TInt IUInt);
  MFld "tty_audit_buf" (TPtr "struct tty_audit_buf");
  MFld "oom_flag_origin" bool_t;
  MFld "oom_score_adj" (TInt IShort);
  MFld "oom_score_adj_min" (TInt IShort);
  MFld "oom_mm" (TPtr "struct mm_struct");
  MFld "cred_guard_mutex" mutex;
  MFld "exec_update_lock" rw_semaphore }.

Definition __sighandler_t : ctype :=
  (TPtr "__signalfn_t").

Definition __sigrestore_t : ctype :=
  (TPtr "__restorefn_t").

Definition sigaction : ctype :=
  TStruct "sigaction" members{
  MFld "sa_handler" __sighandler_t;
  MFld "sa_flags" (TInt IULong);
  MFld "sa_restorer" __sigrestore_t;
  MFld "sa_mask" sigset_t }.

Definition k_sigaction : ctype :=
  TStruct "k_sigaction" members{
  MFld "sa" sigaction }.

Definition sighand_struct : ctype :=
  TStruct "sighand_struct" members{
  MFld "siglock" spinlock_t;
  MFld "count" refcount_t;
  MFld "signalfd_wqh" wait_queue_head_t;
  MFld "action" (TArr k_sigaction 64) }.

Definition rt_waiter_node : ctype :=
  TStruct "rt_waiter_node" members{
  MFld "entry" rb_node;
  MFld "prio" (TInt IInt);
  MFld "deadline" u64 }.

Definition rt_mutex_waiter : ctype :=
  TStruct "rt_mutex_waiter" members{
  MFld "tree" rt_waiter_node;
  MFld "pi_tree" rt_waiter_node;
  MFld "task" (TPtr "struct task_struct");
  MFld "lock" (TPtr "struct rt_mutex_base");
  MFld "wake_state" (TInt IUInt);
  MFld "ww_ctx" (TPtr "struct ww_acquire_ctx") }.

Definition bio_list : ctype :=
  TStruct "bio_list" members{
  MFld "head" (TPtr "struct bio");
  MFld "tail" (TPtr "struct bio") }.

Definition blk_plug : ctype :=
  TStruct "blk_plug" members{
  MFld "mq_list" (TPtr "struct request");
  MFld "cached_rq" (TPtr "struct request");
  MFld "nr_ios" (TInt IUShort);
  MFld "rq_count" (TInt IUShort);
  MFld "multiple_queues" bool_t;
  MFld "has_elevator" bool_t;
  MFld "cb_list" list_head }.

Definition reclaim_state : ctype :=
  TStruct "reclaim_state" members{
  MFld "reclaimed" (TInt IULong);
  MFld "mm_walk" (TPtr "struct lru_gen_mm_walk") }.

Definition io_context : ctype :=
  TStruct "io_context" members{
  MFld "refcount" atomic_long_t;
  MFld "active_ref" atomic_t;
  MFld "ioprio" (TInt IUShort);
  MFld "lock" spinlock_t;
  MFld "icq_tree" xarray;
  MFld "icq_hint" (TPtr "struct io_cq");
  MFld "icq_list" hlist_head;
  MFld "release_work" work_struct }.

Definition capture_control : ctype :=
  TStruct "capture_control" members{
  MFld "cc" (TPtr "struct compact_control");
  MFld "page" (TPtr "struct page") }.

Definition robust_list : ctype :=
  TStruct "robust_list" members{
  MFld "next" (TPtr "struct robust_list") }.

Definition robust_list_head : ctype :=
  TStruct "robust_list_head" members{
  MFld "list" robust_list;
  MFld "futex_offset" (TInt ILong);
  MFld "list_op_pending" (TPtr "struct robust_list") }.

Definition compat_uptr_t : ctype :=
  u32.

Definition compat_robust_list : ctype :=
  TStruct "compat_robust_list" members{
  MFld "next" compat_uptr_t }.

Definition compat_long_t : ctype :=
  s32.

Definition compat_robust_list_head : ctype :=
  TStruct "compat_robust_list_head" members{
  MFld "list" compat_robust_list;
  MFld "futex_offset" compat_long_t;
  MFld "list_op_pending" compat_uptr_t }.

Definition futex_key : ctype :=
  TUnion "futex_key" members{
  MFld "shared" (TStruct "" members{
    MFld "i_seq" u64;
    MFld "pgoff" (TInt IULong);
    MFld "offset" (TInt IUInt) });
  MFld "private" (TStruct "" members{
    MFld "" (TUnion "" members{
      MFld "mm" (TPtr "struct mm_struct");
      MFld "__tmp" u64 });
    MFld "address" (TInt IULong);
    MFld "offset" (TInt IUInt) });
  MFld "both" (TStruct "" members{
    MFld "ptr" u64;
    MFld "word" (TInt IULong);
    MFld "offset" (TInt IUInt) }) }.

Definition futex_pi_state : ctype :=
  TStruct "futex_pi_state" members{
  MFld "list" list_head;
  MFld "pi_mutex" rt_mutex_base;
  MFld "owner" (TPtr "struct task_struct");
  MFld "refcount" refcount_t;
  MFld "key" futex_key }.

Definition perf_event_groups : ctype :=
  TStruct "perf_event_groups" members{
  MFld "tree" rb_root;
  MFld "index" u64 }.

Definition perf_event_context : ctype :=
  TStruct "perf_event_context" members{
  MFld "lock" raw_spinlock_t;
  MFld "mutex" mutex;
  MFld "pmu_ctx_list" list_head;
  MFld "pinned_groups" perf_event_groups;
  MFld "flexible_groups" perf_event_groups;
  MFld "event_list" list_head;
  MFld "nr_events" (TInt IInt);
  MFld "nr_user" (TInt IInt);
  MFld "is_active" (TInt IInt);
  MFld "nr_task_data" (TInt IInt);
  MFld "nr_stat" (TInt IInt);
  MFld "nr_freq" (TInt IInt);
  MFld "rotate_disable" (TInt IInt);
  MFld "refcount" refcount_t;
  MFld "task" (TPtr "struct task_struct");
  MFld "time" u64;
  MFld "timestamp" u64;
  MFld "timeoffset" u64;
  MFld "parent_ctx" (TPtr "struct perf_event_context");
  MFld "parent_gen" u64;
  MFld "generation" u64;
  MFld "pin_count" (TInt IInt);
  MFld "nr_cgroups" (TInt IInt);
  MFld "callback_head" callback_head;
  MFld "nr_pending" local_t }.

Definition mempolicy : ctype :=
  TStruct "mempolicy" members{
  MFld "refcnt" atomic_t;
  MFld "mode" (TInt IUShort);
  MFld "flags" (TInt IUShort);
  MFld "nodes" nodemask_t;
  MFld "home_node" (TInt IInt);
  MFld "w" (TUnion "" members{
    MFld "cpuset_mems_allowed" nodemask_t;
    MFld "user_nodemask" nodemask_t }) }.

Definition numa_group : ctype :=
  TStruct "numa_group" members{
  MFld "refcount" refcount_t;
  MFld "lock" spinlock_t;
  MFld "nr_tasks" (TInt IInt);
  MFld "gid" pid_t;
  MFld "active_nodes" (TInt IInt);
  MFld "rcu" callback_head;
  MFld "total_faults" (TInt IULong);
  MFld "max_faults_cpu" (TInt IULong);
  MFld "faults" (TArr (TInt IULong) 0) }.

Definition rseq : ctype :=
  TStruct "rseq" members{
  MFld "cpu_id_start" __u32;
  MFld "cpu_id" __u32;
  MFld "rseq_cs" __u64;
  MFld "flags" __u32;
  MFld "node_id" __u32;
  MFld "mm_cid" __u32;
  MFld "end" (TArr (TInt IChar) 0) }.

Definition pipe_inode_info : ctype :=
  TStruct "pipe_inode_info" members{
  MFld "mutex" mutex;
  MFld "rd_wait" wait_queue_head_t;
  MFld "wr_wait" wait_queue_head_t;
  MFld "head" (TInt IUInt);
  MFld "tail" (TInt IUInt);
  MFld "max_usage" (TInt IUInt);
  MFld "ring_size" (TInt IUInt);
  MFld "nr_accounted" (TInt IUInt);
  MFld "readers" (TInt IUInt);
  MFld "writers" (TInt IUInt);
  MFld "files" (TInt IUInt);
  MFld "r_counter" (TInt IUInt);
  MFld "w_counter" (TInt IUInt);
  MFld "poll_usage" bool_t;
  MFld "note_loss" bool_t;
  MFld "tmp_page" (TPtr "struct page");
  MFld "fasync_readers" (TPtr "struct fasync_struct");
  MFld "fasync_writers" (TPtr "struct fasync_struct");
  MFld "bufs" (TPtr "struct pipe_buffer");
  MFld "user" (TPtr "struct user_struct");
  MFld "watch_queue" (TPtr "struct watch_queue") }.

Definition task_delay_info : ctype :=
  TStruct "task_delay_info" members{
  MFld "lock" raw_spinlock_t;
  MFld "blkio_start" u64;
  MFld "blkio_delay" u64;
  MFld "swapin_start" u64;
  MFld "swapin_delay" u64;
  MFld "blkio_count" u32;
  MFld "swapin_count" u32;
  MFld "freepages_start" u64;
  MFld "freepages_delay" u64;
  MFld "thrashing_start" u64;
  MFld "thrashing_delay" u64;
  MFld "compact_start" u64;
  MFld "compact_delay" u64;
  MFld "wpcopy_start" u64;
  MFld "wpcopy_delay" u64;
  MFld "irq_delay" u64;
  MFld "freepages_count" u32;
  MFld "thrashing_count" u32;
  MFld "compact_count" u32;
  MFld "wpcopy_count" u32;
  MFld "irq_count" u32 }.

Definition ftrace_ret_stack : ctype :=
  TStruct "ftrace_ret_stack" members{
  MFld "ret" (TInt IULong);
  MFld "func" (TInt IULong);
  MFld "calltime" (TInt IULLong);
  MFld "subtime" (TInt IULLong);
  MFld "retp" (TPtr "long unsigned int") }.

Definition obj_cgroup : ctype :=
  TStruct "obj_cgroup" members{
  MFld "refcnt" percpu_ref;
  MFld "memcg" (TPtr "struct mem_cgroup");
  MFld "nr_charged_bytes" atomic_t;
  MFld "" (TUnion "" members{
    MFld "list" list_head;
    MFld "rcu" callback_head }) }.

Definition mempool_s : ctype :=
  TStruct "mempool_s" members{
  MFld "lock" spinlock_t;
  MFld "min_nr" (TInt IInt);
  MFld "curr_nr" (TInt IInt);
  MFld "elements" (TPtr "void*");
  MFld "pool_data" (TPtr "void");
  MFld "alloc" (TPtr "mempool_alloc_t");
  MFld "free" (TPtr "mempool_free_t");
  MFld "wait" wait_queue_head_t }.

Definition mempool_t : ctype :=
  mempool_s.

Definition bio_set : ctype :=
  TStruct "bio_set" members{
  MFld "bio_slab" (TPtr "struct kmem_cache");
  MFld "front_pad" (TInt IUInt);
  MFld "cache" (TPtr "struct bio_alloc_cache");
  MFld "bio_pool" mempool_t;
  MFld "bvec_pool" mempool_t;
  MFld "bio_integrity_pool" mempool_t;
  MFld "bvec_integrity_pool" mempool_t;
  MFld "back_pad" (TInt IUInt);
  MFld "rescue_lock" spinlock_t;
  MFld "rescue_list" bio_list;
  MFld "rescue_work" work_struct;
  MFld "rescue_workqueue" (TPtr "struct workqueue_struct");
  MFld "cpuhp_dead" hlist_node }.

Definition kref : ctype :=
  TStruct "kref" members{
  MFld "refcount" refcount_t }.

Definition kobject : ctype :=
  TStruct "kobject" members{
  MFld "name" (TPtr "char");
  MFld "entry" list_head;
  MFld "parent" (TPtr "struct kobject");
  MFld "kset" (TPtr "struct kset");
  MFld "ktype" (TPtr "struct kobj_type");
  MFld "sd" (TPtr "struct kernfs_node");
  MFld "kref" kref;
  MBits "state_initialized" (TInt IUInt) 1;
  MBits "state_in_sysfs" (TInt IUInt) 1;
  MBits "state_add_uevent_sent" (TInt IUInt) 1;
  MBits "state_remove_uevent_sent" (TInt IUInt) 1;
  MBits "uevent_suppress" (TInt IUInt) 1 }.

Definition lockdep_map : ctype :=
  TStruct "lockdep_map" MNil.

Definition blk_mode_t : ctype :=
  (TInt IUInt).

Definition gendisk : ctype :=
  TStruct "gendisk" members{
  MFld "major" (TInt IInt);
  MFld "first_minor" (TInt IInt);
  MFld "minors" (TInt IInt);
  MFld "disk_name" (TArr (TInt IChar) 32);
  MFld "events" (TInt IUShort);
  MFld "event_flags" (TInt IUShort);
  MFld "part_tbl" xarray;
  MFld "part0" (TPtr "struct block_device");
  MFld "fops" (TPtr "struct block_device_operations");
  MFld "queue" (TPtr "struct request_queue");
  MFld "private_data" (TPtr "void");
  MFld "bio_split" bio_set;
  MFld "flags" (TInt IInt);
  MFld "state" (TInt IULong);
  MFld "open_mutex" mutex;
  MFld "open_partitions" (TInt IUInt);
  MFld "bdi" (TPtr "struct backing_dev_info");
  MFld "queue_kobj" kobject;
  MFld "slave_dir" (TPtr "struct kobject");
  MFld "slave_bdevs" list_head;
  MFld "random" (TPtr "struct timer_rand_state");
  MFld "sync_io" atomic_t;
  MFld "ev" (TPtr "struct disk_events");
  MFld "nr_zones" (TInt IUInt);
  MFld "max_open_zones" (TInt IUInt);
  MFld "max_active_zones" (TInt IUInt);
  MFld "conv_zones_bitmap" (TPtr "long unsigned int");
  MFld "seq_zones_wlock" (TPtr "long unsigned int");
  MFld "cdi" (TPtr "struct cdrom_device_info");
  MFld "node_id" (TInt IInt);
  MFld "bb" (TPtr "struct badblocks");
  MFld "lockdep_map" lockdep_map;
  MFld "diskseq" u64;
  MFld "open_mode" blk_mode_t;
  MFld "ia_ranges" (TPtr "struct blk_independent_access_ranges") }.

Definition uprobe_task_state : ctype :=
  TEnum "uprobe_task_state" [("UTASK_RUNNING", 0); ("UTASK_SSTEP", 1); ("UTASK_SSTEP_ACK", 2); ("UTASK_SSTEP_TRAPPED", 3)].

Definition arch_uprobe_task : ctype :=
  TStruct "arch_uprobe_task" members{
  MFld "saved_scratch_register" (TInt IULong);
  MFld "saved_trap_nr" (TInt IUInt);
  MFld "saved_tf" (TInt IUInt) }.

Definition uprobe_task : ctype :=
  TStruct "uprobe_task" members{
  MFld "state" uprobe_task_state;
  MFld "" (TUnion "" members{
    MFld "" (TStruct "" members{
      MFld "autask" arch_uprobe_task;
      MFld "vaddr" (TInt IULong) });
    MFld "" (TStruct "" members{
      MFld "dup_xol_work" callback_head;
      MFld "dup_xol_addr" (TInt IULong) }) });
  MFld "active_uprobe" (TPtr "struct uprobe");
  MFld "xol_vaddr" (TInt IULong);
  MFld "auprobe" (TPtr "struct arch_uprobe");
  MFld "return_instances" (TPtr "struct return_instance");
  MFld "depth" (TInt IUInt) }.

Definition phys_addr_t : ctype :=
  u64.

Definition vm_struct : ctype :=
  TStruct "vm_struct" members{
  MFld "next" (TPtr "struct vm_struct");
  MFld "addr" (TPtr "void");
  MFld "size" (TInt IULong);
  MFld "flags" (TInt IULong);
  MFld "pages" (TPtr "struct page*");
  MFld "page_order" (TInt IUInt);
  MFld "nr_pages" (TInt IUInt);
  MFld "phys_addr" phys_addr_t;
  MFld "caller" (TPtr "void") }.

Definition bpf_local_storage : ctype :=
  TStruct "bpf_local_storage" members{
  MFld "cache" (TArr (TPtr "struct bpf_local_storage_data") 16);
  MFld "smap" (TPtr "struct bpf_local_storage_map");
  MFld "list" hlist_head;
  MFld "owner" (TPtr "void");
  MFld "rcu" callback_head;
  MFld "lock" raw_spinlock_t }.

Definition bpf_run_ctx : ctype :=
  TStruct "bpf_run_ctx" MNil.

Definition user_event_mm : ctype :=
  TStruct "user_event_mm" members{
  MFld "mms_link" list_head;
  MFld "enablers" list_head;
  MFld "mm" (TPtr "struct mm_struct");
  MFld "next" (TPtr "struct user_event_mm");
  MFld "refcnt" refcount_t;
  MFld "tasks" refcount_t;
  MFld "put_rwork" rcu_work }.

Definition percpu_ref_data : ctype :=
  TStruct "percpu_ref_data" members{
  MFld "count" atomic_long_t;
  MFld "release" (TPtr "percpu_ref_func_t");
  MFld "confirm_switch" (TPtr "percpu_ref_func_t");
  MBits "force_atomic" bool_t 1;
  MBits "allow_reinit" bool_t 1;
  MFld "rcu" callback_head;
  MFld "ref" (TPtr "struct percpu_ref") }.

Definition workqueue_struct : ctype :=
  TStruct "workqueue_struct" members{
  MFld "pwqs" list_head;
  MFld "list" list_head;
  MFld "mutex" mutex;
  MFld "work_color" (TInt IInt);
  MFld "flush_color" (TInt IInt);
  MFld "nr_pwqs_to_flush" atomic_t;
  MFld "first_flusher" (TPtr "struct wq_flusher");
  MFld "flusher_queue" list_head;
  MFld "flusher_overflow" list_head;
  MFld "maydays" list_head;
  MFld "rescuer" (TPtr "struct worker");
  MFld "nr_drainers" (TInt IInt);
  MFld "saved_max_active" (TInt IInt);
  MFld "unbound_attrs" (TPtr "struct workqueue_attrs");
  MFld "dfl_pwq" (TPtr "struct pool_workqueue");
  MFld "wq_dev" (TPtr "struct wq_device");
  MFld "name" (TArr (TInt IChar) 24);
  MFld "rcu" callback_head;
  MBits "" (TInt ILong) 64;
  MBits "" (TInt ILong) 64;
  MBits "" (TInt ILong) 64;
  MBits "" (TInt ILong) 64;
  MBits "" (TInt ILong) 64;
  MFld "flags" (TInt IUInt);
  MFld "cpu_pwq" (TPtr "struct pool_workqueue*");
  MBits "" (TInt ILong) 64;
  MBits "" (TInt ILong) 64;
  MBits "" (TInt ILong) 64;
  MBits "" (TInt ILong) 64;
  MBits "" (TInt ILong) 64;
  MBits "" (TInt ILong) 64 }.

Definition idr : ctype :=
  TStruct "idr" members{
  MFld "idr_rt" xarray;
  MFld "idr_base" (TInt IUInt);
  MFld "idr_next" (TInt IUInt) }.

Definition cgroup_subsys : ctype :=
  TStruct "cgroup_subsys" members{
  MFld "css_alloc" (TPtr "struct cgroup_subsys_state (*)()");
  MFld "css_online" (TPtr "int (*)()");
  MFld "css_offline" (TPtr "void (*)()");
  MFld "css_released" (TPtr "void (*)()");
  MFld "css_free" (TPtr "void (*)()");
  MFld "css_reset" (TPtr "void (*)()");
  MFld "css_rstat_flush" (TPtr "void (*)()");
  MFld "css_extra_stat_show" (TPtr "int (*)()");
  MFld "css_local_stat_show" (TPtr "int (*)()");
  MFld "can_attach" (TPtr "int (*)()");
  MFld "cancel_attach" (TPtr "void (*)()");
  MFld "attach" (TPtr "void (*)()");
  MFld "post_attach" (TPtr "void (*)()");
  MFld "can_fork" (TPtr "int (*)()");
  MFld "cancel_fork" (TPtr "void (*)()");
  MFld "fork" (TPtr "void (*)()");
  MFld "exit" (TPtr "void (*)()");
  MFld "release" (TPtr "void (*)()");
  MFld "bind" (TPtr "void (*)()");
  MBits "early_init" bool_t 1;
  MBits "implicit_on_dfl" bool_t 1;
  MBits "threaded" bool_t 1;
  MFld "id" (TInt IInt);
  MFld "name" (TPtr "char");
  MFld "legacy_name" (TPtr "char");
  MFld "root" (TPtr "struct cgroup_root");
  MFld "css_idr" idr;
  MFld "cfts" list_head;
  MFld "dfl_cftypes" (TPtr "struct cftype");
  MFld "legacy_cftypes" (TPtr "struct cftype");
  MFld "depends_on" (TInt IUInt) }.

Definition bpf_prog_array_item : ctype :=
  TStruct "bpf_prog_array_item" members{
  MFld "prog" (TPtr "struct bpf_prog");
  MFld "" (TUnion "" members{
    MFld "cgroup_storage" (TArr (TPtr "struct bpf_cgroup_storage") 2);
    MFld "bpf_cookie" u64 }) }.

Definition bpf_prog_array : ctype :=
  TStruct "bpf_prog_array" members{
  MFld "rcu" callback_head;
  MFld "items" (TArr bpf_prog_array_item 0) }.

Definition cgroup_root : ctype :=
  TStruct "cgroup_root" members{
  MFld "kf_root" (TPtr "struct kernfs_root");
  MFld "subsys_mask" (TInt IUInt);
  MFld "hierarchy_id" (TInt IInt);
  MFld "root_list" list_head;
  MFld "rcu" callback_head;
  MBits "" (TInt ILong) 64;
  MBits "" (TInt ILong) 64;
  MFld "cgrp" cgroup;
  MFld "cgrp_ancestor_storage" (TPtr "struct cgroup");
  MFld "nr_cgrps" atomic_t;
  MFld "flags" (TInt IUInt);
  MFld "release_agent_path" (TArr (TInt IChar) 4096);
  MFld "name" (TArr (TInt IChar) 64);
  MBits "" (TInt ILong) 64;
  MBits "" (TInt ILong) 64;
  MBits "" (TInt ILong) 64;
  MBits "" (TInt ILong) 64;
  MBits "" (TInt ILong) 64;
  MBits "" (TInt ILong) 64 }.

Definition u64_stats_sync : ctype :=
  TStruct "u64_stats_sync" MNil.

Definition cgroup_rstat_cpu : ctype :=
  TStruct "cgroup_rstat_cpu" members{
  MFld "bsync" u64_stats_sync;
  MFld "bstat" cgroup_base_stat;
  MFld "last_bstat" cgroup_base_stat;
  MFld "subtree_bstat" cgroup_base_stat;
  MFld "last_subtree_bstat" cgroup_base_stat;
  MFld "updated_children" (TPtr "struct cgroup");
  MFld "updated_next" (TPtr "struct cgroup") }.

Definition delayed_work : ctype :=
  TStruct "delayed_work" members{
  MFld "work" work_struct;
  MFld "timer" timer_list;
  MFld "wq" (TPtr "struct workqueue_struct");
  MFld "cpu" (TInt IInt) }.

Definition psi_group : ctype :=
  TStruct "psi_group" members{
  MFld "parent" (TPtr "struct psi_group");
  MFld "enabled" bool_t;
  MFld "avgs_lock" mutex;
  MFld "pcpu" (TPtr "struct psi_group_cpu");
  MFld "avg_total" (TArr u64 6);
  MFld "avg_last_update" u64;
  MFld "avg_next_update" u64;
  MFld "avgs_work" delayed_work;
  MFld "avg_triggers" list_head;
  MFld "avg_nr_triggers" (TArr u32 6);
  MFld "total" (TArr u64 12);
  MFld "avg" (TArr (TInt IULong) 18);
  MFld "rtpoll_task" (TPtr "struct task_struct");
  MFld "rtpoll_timer" timer_list;
  MFld "rtpoll_wait" wait_queue_head_t;
  MFld "rtpoll_wakeup" atomic_t;
  MFld "rtpoll_scheduled" atomic_t;
  MFld "rtpoll_trigger_lock" mutex;
  MFld "rtpoll_triggers" list_head;
  MFld "rtpoll_nr_triggers" (TArr u32 6);
  MFld "rtpoll_states" u32;
  MFld "rtpoll_min_period" u64;
  MFld "rtpoll_total" (TArr u64 6);
  MFld "rtpoll_next_update" u64;
  MFld "rtpoll_until" u64 }.

Definition mem_cgroup_threshold : ctype :=
  TStruct "mem_cgroup_threshold" members{
  MFld "eventfd" (TPtr "struct eventfd_ctx");
  MFld "threshold" (TInt IULong) }.

Definition mem_cgroup_threshold_ary : ctype :=
  TStruct "mem_cgroup_threshold_ary" members{
  MFld "current_threshold" (TInt IInt);
  MFld "size" (TInt IUInt);
  MFld "entries" (TArr mem_cgroup_threshold 0) }.

Definition memcg_vmstats : ctype :=
  TStruct "memcg_vmstats" members{
  MFld "state" (TArr (TInt ILong) 53);
  MFld "events" (TArr (TInt IULong) 22);
  MFld "state_local" (TArr (TInt ILong) 53);
  MFld "events_local" (TArr (TInt IULong) 22);
  MFld "state_pending" (TArr (TInt ILong) 53);
  MFld "events_pending" (TArr (TInt IULong) 22);
  MFld "stats_updates" atomic64_t }.

Definition memcg_vmstats_percpu : ctype :=
  TStruct "memcg_vmstats_percpu" members{
  MFld "stats_updates" (TInt IUInt);
  MFld "parent" (TPtr "struct memcg_vmstats_percpu");
  MFld "vmstats" (TPtr "struct memcg_vmstats");
  MFld "state" (TArr (TInt ILong) 53);
  MFld "events" (TArr (TInt IULong) 22);
  MFld "state_prev" (TArr (TInt ILong) 53);
  MFld "events_prev" (TArr (TInt IULong) 22);
  MFld "nr_page_events" (TInt IULong);
  MFld "targets" (TArr (TInt IULong) 2);
  MBits "" (TInt ILong) 64;
  MBits "" (TInt ILong) 64;
  MBits "" (TInt ILong) 64;
  MBits "" (TInt ILong) 64 }.

Definition hlist_nulls_node : ctype :=
  TStruct "hlist_nulls_node" members{
  MFld "next" (TPtr "struct hlist_nulls_node");
  MFld "pprev" (TPtr "struct hlist_nulls_node*") }.

Definition lru_gen_folio : ctype :=
  TStruct "lru_gen_folio" members{
  MFld "max_seq" (TInt IULong);
  MFld "min_seq" (TArr (TInt IULong) 2);
  MFld "timestamps" (TArr (TInt IULong) 4);
  MFld "folios" (TArr list_head 40);
  MFld "nr_pages" (TArr (TInt ILong) 40);
  MFld "avg_refaulted" (TArr (TInt IULong) 8);
  MFld "avg_total" (TArr (TInt IULong) 8);
  MFld "protected" (TArr (TInt IULong) 6);
  MFld "evicted" (TArr atomic_long_t 8);
  MFld "refaulted" (TArr atomic_long_t 8);
  MFld "enabled" bool_t;
  MFld "gen" u8;
  MFld "seg" u8;
  MFld "list" hlist_nulls_node }.

Definition lru_gen_mm_state : ctype :=
  TStruct "lru_gen_mm_state" members{
  MFld "seq" (TInt IULong);
  MFld "head" (TPtr "struct list_head");
  MFld "tail" (TPtr "struct list_head");
  MFld "filters" (TArr (TPtr "long unsigned int") 2);
  MFld "stats" (TArr (TInt IULong) 4) }.

Definition zswap_lruvec_state : ctype :=
  TStruct "zswap_lruvec_state" members{
  MFld "nr_zswap_protected" atomic_long_t }.

Definition lruvec : ctype :=
  TStruct "lruvec" members{
  MFld "lists" (TArr list_head 5);
  MFld "lru_lock" spinlock_t;
  MFld "anon_cost" (TInt IULong);
  MFld "file_cost" (TInt IULong);
  MFld "nonresident_age" atomic_long_t;
  MFld "refaults" (TArr (TInt IULong) 2);
  MFld "flags" (TInt IULong);
  MFld "lrugen" lru_gen_folio;
  MFld "mm_state" lru_gen_mm_state;
  MFld "pgdat" (TPtr "struct pglist_data");
  MFld "zswap_lruvec_state" zswap_lruvec_state }.

Definition lruvec_stats : ctype :=
  TStruct "lruvec_stats" members{
  MFld "state" (TArr (TInt ILong) 46);
  MFld "state_local" (TArr (TInt ILong) 46);
  MFld "state_pending" (TArr (TInt ILong) 46) }.

Definition mem_cgroup_reclaim_iter : ctype :=
  TStruct "mem_cgroup_reclaim_iter" members{
  MFld "position" (TPtr "struct mem_cgroup");
  MFld "generation" (TInt IUInt) }.

Definition mem_cgroup_per_node : ctype :=
  TStruct "mem_cgroup_per_node" members{
  MFld "lruvec" lruvec;
  MFld "lruvec_stats_percpu" (TPtr "struct lruvec_stats_percpu");
  MFld "lruvec_stats" lruvec_stats;
  MFld "lru_zone_size" (TArr (TInt IULong) 25);
  MFld "iter" mem_cgroup_reclaim_iter;
  MFld "shrinker_info" (TPtr "struct shrinker_info");
  MFld "tree_node" rb_node;
  MFld "usage_in_excess" (TInt IULong);
  MFld "on_tree" bool_t;
  MFld "memcg" (TPtr "struct mem_cgroup") }.

Definition kernfs_root : ctype :=
  TStruct "kernfs_root" members{
  MFld "kn" (TPtr "struct kernfs_node");
  MFld "flags" (TInt IUInt);
  MFld "ino_idr" idr;
  MFld "last_id_lowbits" u32;
  MFld "id_highbits" u32;
  MFld "syscall_ops" (TPtr "struct kernfs_syscall_ops");
  MFld "supers" list_head;
  MFld "deactivate_waitq" wait_queue_head_t;
  MFld "kernfs_rwsem" rw_semaphore;
  MFld "kernfs_iattr_rwsem" rw_semaphore;
  MFld "kernfs_supers_rwsem" rw_semaphore;
  MFld "rcu" callback_head }.

Definition kernfs_ops : ctype :=
  TStruct "kernfs_ops" members{
  MFld "open" (TPtr "int (*)()");
  MFld "release" (TPtr "void (*)()");
  MFld "seq_show" (TPtr "int (*)()");
  MFld "seq_start" (TPtr "void (*)()");
  MFld "seq_next" (TPtr "void (*)()");
  MFld "seq_stop" (TPtr "void (*)()");
  MFld "read" (TPtr "ssize_t (*)()");
  MFld "atomic_write_len" size_t;
  MFld "prealloc" bool_t;
  MFld "write" (TPtr "ssize_t (*)()");
  MFld "poll" (TPtr "__poll_t (*)()");
  MFld "mmap" (TPtr "int (*)()");
  MFld "llseek" (TPtr "loff_t (*)()") }.

Definition kernfs_open_node : ctype :=
  TStruct "kernfs_open_node" members{
  MFld "callback_head" callback_head;
  MFld "event" atomic_t;
  MFld "poll" wait_queue_head_t;
  MFld "files" list_head;
  MFld "nr_mmapped" (TInt IUInt);
  MFld "nr_to_release" (TInt IUInt) }.

Definition timespec64 : ctype :=
  TStruct "timespec64" members{
  MFld "tv_sec" time64_t;
  MFld "tv_nsec" (TInt ILong) }.

Definition qrwlock : ctype :=
  TStruct "qrwlock" members{
  MFld "" (TUnion "" members{
    MFld "cnts" atomic_t;
    MFld "" (TStruct "" members{
      MFld "wlocked" u8;
      MFld "__lstate" (TArr u8 3) }) });
  MFld "wait_lock" arch_spinlock_t }.

Definition arch_rwlock_t : ctype :=
  qrwlock.

Definition rwlock_t : ctype :=
  (TStruct "" members{
    MFld "raw_lock" arch_rwlock_t }).

Definition simple_xattrs : ctype :=
  TStruct "simple_xattrs" members{
  MFld "rb_root" rb_root;
  MFld "lock" rwlock_t }.

Definition kernfs_iattrs : ctype :=
  TStruct "kernfs_iattrs" members{
  MFld "ia_uid" kuid_t;
  MFld "ia_gid" kgid_t;
  MFld "ia_atime" timespec64;
  MFld "ia_mtime" timespec64;
  MFld "ia_ctime" timespec64;
  MFld "xattrs" simple_xattrs;
  MFld "nr_user_xattrs" atomic_t;
  MFld "user_xattr_size" atomic_t }.

(** The declarations behind these structs and unions, by their spelling. *)
Definition vmlinux : list (string * ctype) :=
  [("struct oom_control", oom_control);
   ("struct task_struct", task_struct);
   ("struct css_set", css_set);
   ("struct cgroup", cgroup);
   ("struct cgroup_subsys_state", cgroup_subsys_state);
   ("struct mem_cgroup", mem_cgroup);
   ("struct kernfs_node", kernfs_node);
   ("struct pt_regs", pt_regs);
   ("struct zonelist", zonelist);
   ("struct cfs_rq", cfs_rq);
   ("struct hrtimer_clock_base", hrtimer_clock_base);
   ("struct rq", rq);
   ("struct __kernel_timespec", __kernel_timespec);
   ("struct old_timespec32", old_timespec32);
   ("struct pollfd", pollfd);
   ("struct sem_undo_list", sem_undo_list);
   ("struct seccomp_filter", seccomp_filter);
   ("struct page", page);
   ("struct math_emu_info", math_emu_info);
   ("struct perf_event", perf_event);
   ("struct io_bitmap", io_bitmap);
   ("struct sched_class", sched_class);
   ("struct task_group", task_group);
   ("struct rcu_node", rcu_node);
   ("struct mm_struct", mm_struct);
   ("struct address_space", address_space);
   ("struct pid", pid);
   ("struct completion", completion);
   ("struct cred", cred);
   ("struct key", key);
   ("struct nameidata", nameidata);
   ("struct fs_struct", fs_struct);
   ("struct files_struct", files_struct);
   ("struct io_uring_task", io_uring_task);
   ("struct nsproxy", nsproxy);
   ("struct signal_struct", signal_struct);
   ("struct sighand_struct", sighand_struct);
   ("struct rt_mutex_waiter", rt_mutex_waiter);
   ("struct bio_list", bio_list);
   ("struct blk_plug", blk_plug);
   ("struct reclaim_state", reclaim_state);
   ("struct io_context", io_context);
   ("struct capture_control", capture_control);
   ("struct robust_list_head", robust_list_head);
   ("struct compat_robust_list_head", compat_robust_list_head);
   ("struct futex_pi_state", futex_pi_state);
   ("struct perf_event_context", perf_event_context);
   ("struct mempolicy", mempolicy);
   ("struct numa_group", numa_group);
   ("struct rseq", rseq);
   ("struct pipe_inode_info", pipe_inode_info);
   ("struct task_delay_info", task_delay_info);
   ("struct ftrace_ret_stack", ftrace_ret_stack);
   ("struct obj_cgroup", obj_cgroup);
   ("struct gendisk", gendisk);
   ("struct uprobe_task", uprobe_task);
   ("struct vm_struct", vm_struct);
   ("struct bpf_local_storage", bpf_local_storage);
   ("struct bpf_run_ctx", bpf_run_ctx);
   ("struct user_event_mm", user_event_mm);
   ("struct percpu_ref_data", percpu_ref_data);
   ("struct workqueue_struct", workqueue_struct);
   ("struct cgroup_subsys", cgroup_subsys);
   ("struct bpf_prog_array", bpf_prog_array);
   ("struct cgroup_root", cgroup_root);
   ("struct cgroup_rstat_cpu", cgroup_rstat_cpu);
   ("struct psi_group", psi_group);
   ("struct mem_cgroup_threshold_ary", mem_cgroup_threshold_ary);
   ("struct memcg_vmstats", memcg_vmstats);
   ("struct memcg_vmstats_percpu", memcg_vmstats_percpu);
   ("struct mem_cgroup_per_node", mem_cgroup_per_node);
   ("struct kernfs_root", kernfs_root);
   ("struct kernfs_ops", kernfs_ops);
   ("struct kernfs_open_node", kernfs_open_node);
   ("struct kernfs_iattrs", kernfs_iattrs)].
