(* ===== verification/VmlinuxBpfX86.v ===== *)
(** * The helpers of the kernel, x86-64 build

    From [vmlinux_generated_x86_64.h]: the numbers of the BPF helpers ([bpf_func_id]) and, for each
    helper function with a type of its own in the kernel's debug information, that
    type ([btf_bpf_...]).  [prototypes] lists them by the name of the helper. *)
From S2P Require Import Prelude CTypes.
From S2P Require Import VmlinuxX86.

Definition __be16 : ctype :=
  __u16.

Definition __wsum : ctype :=
  __u32.

Definition bpf_callback_t : ctype :=
  (TPtr "u64 (*)()").

Definition bpf_func_id : ctype :=
  TEnum "bpf_func_id" [("BPF_FUNC_unspec", 0); ("BPF_FUNC_map_lookup_elem", 1);
    ("BPF_FUNC_map_update_elem", 2); ("BPF_FUNC_map_delete_elem", 3);
    ("BPF_FUNC_probe_read", 4); ("BPF_FUNC_ktime_get_ns", 5);
    ("BPF_FUNC_trace_printk", 6); ("BPF_FUNC_get_prandom_u32", 7);
    ("BPF_FUNC_get_smp_processor_id", 8); ("BPF_FUNC_skb_store_bytes", 9);
    ("BPF_FUNC_l3_csum_replace", 10); ("BPF_FUNC_l4_csum_replace", 11);
    ("BPF_FUNC_tail_call", 12); ("BPF_FUNC_clone_redirect", 13);
    ("BPF_FUNC_get_current_pid_tgid", 14); ("BPF_FUNC_get_current_uid_gid", 15);
    ("BPF_FUNC_get_current_comm", 16); ("BPF_FUNC_get_cgroup_classid", 17);
    ("BPF_FUNC_skb_vlan_push", 18); ("BPF_FUNC_skb_vlan_pop", 19);
    ("BPF_FUNC_skb_get_tunnel_key", 20); ("BPF_FUNC_skb_set_tunnel_key", 21);
    ("BPF_FUNC_perf_event_read", 22); ("BPF_FUNC_redirect", 23);
    ("BPF_FUNC_get_route_realm", 24); ("BPF_FUNC_perf_event_output", 25);
    ("BPF_FUNC_skb_load_bytes", 26); ("BPF_FUNC_get_stackid", 27);
    ("BPF_FUNC_csum_diff", 28); ("BPF_FUNC_skb_get_tunnel_opt", 29);
    ("BPF_FUNC_skb_set_tunnel_opt", 30); ("BPF_FUNC_skb_change_proto", 31);
    ("BPF_FUNC_skb_change_type", 32); ("BPF_FUNC_skb_under_cgroup", 33);
    ("BPF_FUNC_get_hash_recalc", 34); ("BPF_FUNC_get_current_task", 35);
    ("BPF_FUNC_probe_write_user", 36); ("BPF_FUNC_current_task_under_cgroup", 37);
    ("BPF_FUNC_skb_change_tail", 38); ("BPF_FUNC_skb_pull_data", 39);
    ("BPF_FUNC_csum_update", 40); ("BPF_FUNC_set_hash_invalid", 41);
    ("BPF_FUNC_get_numa_node_id", 42); ("BPF_FUNC_skb_change_head", 43);
    ("BPF_FUNC_xdp_adjust_head", 44); ("BPF_FUNC_probe_read_str", 45);
    ("BPF_FUNC_get_socket_cookie", 46); ("BPF_FUNC_get_socket_uid", 47);
    ("BPF_FUNC_set_hash", 48); ("BPF_FUNC_setsockopt", 49);
    ("BPF_FUNC_skb_adjust_room", 50); ("BPF_FUNC_redirect_map", 51);
    ("BPF_FUNC_sk_redirect_map", 52); ("BPF_FUNC_sock_map_update", 53);
    ("BPF_FUNC_xdp_adjust_meta", 54); ("BPF_FUNC_perf_event_read_value", 55);
    ("BPF_FUNC_perf_prog_read_value", 56); ("BPF_FUNC_getsockopt", 57);
    ("BPF_FUNC_override_return", 58); ("BPF_FUNC_sock_ops_cb_flags_set", 59);
    ("BPF_FUNC_msg_redirect_map", 60); ("BPF_FUNC_msg_apply_bytes", 61);
    ("BPF_FUNC_msg_cork_bytes", 62); ("BPF_FUNC_msg_pull_data", 63);
    ("BPF_FUNC_bind", 64); ("BPF_FUNC_xdp_adjust_tail", 65);
    ("BPF_FUNC_skb_get_xfrm_state", 66); ("BPF_FUNC_get_stack", 67);
    ("BPF_FUNC_skb_load_bytes_relative", 68); ("BPF_FUNC_fib_lookup", 69);
    ("BPF_FUNC_sock_hash_update", 70); ("BPF_FUNC_msg_redirect_hash", 71);
    ("BPF_FUNC_sk_redirect_hash", 72); ("BPF_FUNC_lwt_push_encap", 73);
    ("BPF_FUNC_lwt_seg6_store_bytes", 74); ("BPF_FUNC_lwt_seg6_adjust_srh", 75);
    ("BPF_FUNC_lwt_seg6_action", 76); ("BPF_FUNC_rc_repeat", 77);
    ("BPF_FUNC_rc_keydown", 78); ("BPF_FUNC_skb_cgroup_id", 79);
    ("BPF_FUNC_get_current_cgroup_id", 80); ("BPF_FUNC_get_local_storage", 81);
    ("BPF_FUNC_sk_select_reuseport", 82); ("BPF_FUNC_skb_ancestor_cgroup_id", 83);
    ("BPF_FUNC_sk_lookup_tcp", 84); ("BPF_FUNC_sk_lookup_udp", 85);
    ("BPF_FUNC_sk_release", 86); ("BPF_FUNC_map_push_elem", 87);
    ("BPF_FUNC_map_pop_elem", 88); ("BPF_FUNC_map_peek_elem", 89);
    ("BPF_FUNC_msg_push_data", 90); ("BPF_FUNC_msg_pop_data", 91);
    ("BPF_FUNC_rc_pointer_rel", 92); ("BPF_FUNC_spin_lock", 93);
    ("BPF_FUNC_spin_unlock", 94); ("BPF_FUNC_sk_fullsock", 95);
    ("BPF_FUNC_tcp_sock", 96); ("BPF_FUNC_skb_ecn_set_ce", 97);
    ("BPF_FUNC_get_listener_sock", 98); ("BPF_FUNC_skc_lookup_tcp", 99);
    ("BPF_FUNC_tcp_check_syncookie", 100); ("BPF_FUNC_sysctl_get_name", 101);
    ("BPF_FUNC_sysctl_get_current_value", 102); ("BPF_FUNC_sysctl_get_new_value", 103);
    ("BPF_FUNC_sysctl_set_new_value", 104); ("BPF_FUNC_strtol", 105);
    ("BPF_FUNC_strtoul", 106); ("BPF_FUNC_sk_storage_get", 107);
    ("BPF_FUNC_sk_storage_delete", 108); ("BPF_FUNC_send_signal", 109);
    ("BPF_FUNC_tcp_gen_syncookie", 110); ("BPF_FUNC_skb_output", 111);
    ("BPF_FUNC_probe_read_user", 112); ("BPF_FUNC_probe_read_kernel", 113);
    ("BPF_FUNC_probe_read_user_str", 114); ("BPF_FUNC_probe_read_kernel_str", 115);
    ("BPF_FUNC_tcp_send_ack", 116); ("BPF_FUNC_send_signal_thread", 117);
    ("BPF_FUNC_jiffies64", 118); ("BPF_FUNC_read_branch_records", 119);
    ("BPF_FUNC_get_ns_current_pid_tgid", 120); ("BPF_FUNC_xdp_output", 121);
    ("BPF_FUNC_get_netns_cookie", 122); ("BPF_FUNC_get_current_ancestor_cgroup_id", 123);
    ("BPF_FUNC_sk_assign", 124); ("BPF_FUNC_ktime_get_boot_ns", 125);
    ("BPF_FUNC_seq_printf", 126); ("BPF_FUNC_seq_write", 127);
    ("BPF_FUNC_sk_cgroup_id", 128); ("BPF_FUNC_sk_ancestor_cgroup_id", 129);
    ("BPF_FUNC_ringbuf_output", 130); ("BPF_FUNC_ringbuf_reserve", 131);
    ("BPF_FUNC_ringbuf_submit", 132); ("BPF_FUNC_ringbuf_discard", 133);
    ("BPF_FUNC_ringbuf_query", 134); ("BPF_FUNC_csum_level", 135);
    ("BPF_FUNC_skc_to_tcp6_sock", 136); ("BPF_FUNC_skc_to_tcp_sock", 137);
    ("BPF_FUNC_skc_to_tcp_timewait_sock", 138); ("BPF_FUNC_skc_to_tcp_request_sock", 139);
    ("BPF_FUNC_skc_to_udp6_sock", 140); ("BPF_FUNC_get_task_stack", 141);
    ("BPF_FUNC_load_hdr_opt", 142); ("BPF_FUNC_store_hdr_opt", 143);
    ("BPF_FUNC_reserve_hdr_opt", 144); ("BPF_FUNC_inode_storage_get", 145);
    ("BPF_FUNC_inode_storage_delete", 146); ("BPF_FUNC_d_path", 147);
    ("BPF_FUNC_copy_from_user", 148); ("BPF_FUNC_snprintf_btf", 149);
    ("BPF_FUNC_seq_printf_btf", 150); ("BPF_FUNC_skb_cgroup_classid", 151);
    ("BPF_FUNC_redirect_neigh", 152); ("BPF_FUNC_per_cpu_ptr", 153);
    ("BPF_FUNC_this_cpu_ptr", 154); ("BPF_FUNC_redirect_peer", 155);
    ("BPF_FUNC_task_storage_get", 156); ("BPF_FUNC_task_storage_delete", 157);
    ("BPF_FUNC_get_current_task_btf", 158); ("BPF_FUNC_bprm_opts_set", 159);
    ("BPF_FUNC_ktime_get_coarse_ns", 160); ("BPF_FUNC_ima_inode_hash", 161);
    ("BPF_FUNC_sock_from_file", 162); ("BPF_FUNC_check_mtu", 163);
    ("BPF_FUNC_for_each_map_elem", 164); ("BPF_FUNC_snprintf", 165);
    ("BPF_FUNC_sys_bpf", 166); ("BPF_FUNC_btf_find_by_name_kind", 167);
    ("BPF_FUNC_sys_close", 168); ("BPF_FUNC_timer_init", 169);
    ("BPF_FUNC_timer_set_callback", 170); ("BPF_FUNC_timer_start", 171);
    ("BPF_FUNC_timer_cancel", 172); ("BPF_FUNC_get_func_ip", 173);
    ("BPF_FUNC_get_attach_cookie", 174); ("BPF_FUNC_task_pt_regs", 175);
    ("BPF_FUNC_get_branch_snapshot", 176); ("BPF_FUNC_trace_vprintk", 177);
    ("BPF_FUNC_skc_to_unix_sock", 178); ("BPF_FUNC_kallsyms_lookup_name", 179);
    ("BPF_FUNC_find_vma", 180); ("BPF_FUNC_loop", 181);
    ("BPF_FUNC_strncmp", 182); ("BPF_FUNC_get_func_arg", 183);
    ("BPF_FUNC_get_func_ret", 184); ("BPF_FUNC_get_func_arg_cnt", 185);
    ("BPF_FUNC_get_retval", 186); ("BPF_FUNC_set_retval", 187);
    ("BPF_FUNC_xdp_get_buff_len", 188); ("BPF_FUNC_xdp_load_bytes", 189);
    ("BPF_FUNC_xdp_store_bytes", 190); ("BPF_FUNC_copy_from_user_task", 191);
    ("BPF_FUNC_skb_set_tstamp", 192); ("BPF_FUNC_ima_file_hash", 193);
    ("BPF_FUNC_kptr_xchg", 194); ("BPF_FUNC_map_lookup_percpu_elem", 195);
    ("BPF_FUNC_skc_to_mptcp_sock", 196); ("BPF_FUNC_dynptr_from_mem", 197);
    ("BPF_FUNC_ringbuf_reserve_dynptr", 198); ("BPF_FUNC_ringbuf_submit_dynptr", 199);
    ("BPF_FUNC_ringbuf_discard_dynptr", 200); ("BPF_FUNC_dynptr_read", 201);
    ("BPF_FUNC_dynptr_write", 202); ("BPF_FUNC_dynptr_data", 203);
    ("BPF_FUNC_tcp_raw_gen_syncookie_ipv4", 204); ("BPF_FUNC_tcp_raw_gen_syncookie_ipv6", 205);
    ("BPF_FUNC_tcp_raw_check_syncookie_ipv4", 206); ("BPF_FUNC_tcp_raw_check_syncookie_ipv6", 207);
    ("BPF_FUNC_ktime_get_tai_ns", 208); ("BPF_FUNC_user_ringbuf_drain", 209);
    ("BPF_FUNC_cgrp_storage_get", 210); ("BPF_FUNC_cgrp_storage_delete", 211);
    ("__BPF_FUNC_MAX_ID", 212)].

Definition btf_bpf_get_local_storage : prototype :=
  {| p_ret := u64; p_args := [(TPtr "struct bpf_map"); u64] |}.

Definition btf_bpf_get_retval : prototype :=
  {| p_ret := u64; p_args := [] |}.

Definition btf_bpf_set_retval : prototype :=
  {| p_ret := u64; p_args := [(TInt IInt)] |}.

Definition btf_bpf_sysctl_get_name : prototype :=
  {| p_ret := u64; p_args := [(TPtr "struct bpf_sysctl_kern"); (TPtr "char"); size_t; u64] |}.

Definition btf_bpf_sysctl_get_current_value : prototype :=
  {| p_ret := u64; p_args := [(TPtr "struct bpf_sysctl_kern"); (TPtr "char"); size_t] |}.

Definition btf_bpf_sysctl_get_new_value : prototype :=
  {| p_ret := u64; p_args := [(TPtr "struct bpf_sysctl_kern"); (TPtr "char"); size_t] |}.

Definition btf_bpf_sysctl_set_new_value : prototype :=
  {| p_ret := u64; p_args := [(TPtr "struct bpf_sysctl_kern"); (TPtr "const char"); size_t] |}.

Definition btf_bpf_get_netns_cookie_sockopt : prototype :=
  {| p_ret := u64; p_args := [(TPtr "struct bpf_sockopt_kern")] |}.

Definition btf_bpf_skb_get_pay_offset : prototype :=
  {| p_ret := u64; p_args := [(TPtr "struct sk_buff")] |}.

Definition btf_bpf_skb_get_nlattr : prototype :=
  {| p_ret := u64; p_args := [(TPtr "struct sk_buff"); u32; u32] |}.

Definition btf_bpf_skb_get_nlattr_nest : prototype :=
  {| p_ret := u64; p_args := [(TPtr "struct sk_buff"); u32; u32] |}.

Definition btf_bpf_skb_load_helper_8 : prototype :=
  {| p_ret := u64; p_args := [(TPtr "const struct sk_buff"); (TPtr "const void"); (TInt IInt); (TInt IInt)] |}.

Definition btf_bpf_skb_load_helper_8_no_cache : prototype :=
  {| p_ret := u64; p_args := [(TPtr "const struct sk_buff"); (TInt IInt)] |}.

Definition btf_bpf_skb_load_helper_16 : prototype :=
  {| p_ret := u64; p_args := [(TPtr "const struct sk_buff"); (TPtr "const void"); (TInt IInt); (TInt IInt)] |}.

Definition btf_bpf_skb_load_helper_16_no_cache : prototype :=
  {| p_ret := u64; p_args := [(TPtr "const struct sk_buff"); (TInt IInt)] |}.

Definition btf_bpf_skb_load_helper_32 : prototype :=
  {| p_ret := u64; p_args := [(TPtr "const struct sk_buff"); (TPtr "const void"); (TInt IInt); (TInt IInt)] |}.

Definition btf_bpf_skb_load_helper_32_no_cache : prototype :=
  {| p_ret := u64; p_args := [(TPtr "const struct sk_buff"); (TInt IInt)] |}.

Definition btf_bpf_skb_store_bytes : prototype :=
  {| p_ret := u64; p_args := [(TPtr "struct sk_buff"); u32; (TPtr "const void"); u32; u64] |}.

Definition btf_bpf_skb_load_bytes : prototype :=
  {| p_ret := u64; p_args := [(TPtr "const struct sk_buff"); u32; (TPtr "void"); u32] |}.

Definition btf_bpf_flow_dissector_load_bytes : prototype :=
  {| p_ret := u64; p_args := [(TPtr "const struct bpf_flow_dissector"); u32; (TPtr "void"); u32] |}.

Definition btf_bpf_skb_load_bytes_relative : prototype :=
  {| p_ret := u64; p_args := [(TPtr "const struct sk_buff"); u32; (TPtr "void"); u32; u32] |}.

Definition btf_bpf_skb_pull_data : prototype :=
  {| p_ret := u64; p_args := [(TPtr "struct sk_buff"); u32] |}.

Definition btf_bpf_sk_fullsock : prototype :=
  {| p_ret := u64; p_args := [(TPtr "struct sock")] |}.

Definition btf_bpf_l3_csum_replace : prototype :=
  {| p_ret := u64; p_args := [(TPtr "struct sk_buff"); u32; u64; u64; u64] |}.

Definition btf_bpf_l4_csum_replace : prototype :=
  {| p_ret := u64; p_args := [(TPtr "struct sk_buff"); u32; u64; u64; u64] |}.

Definition btf_bpf_csum_diff : prototype :=
  {| p_ret := u64; p_args := [(TPtr "__be32"); u32; (TPtr "__be32"); u32; __wsum] |}.

Definition btf_bpf_csum_update : prototype :=
  {| p_ret := u64; p_args := [(TPtr "struct sk_buff"); __wsum] |}.

Definition btf_bpf_csum_level : prototype :=
  {| p_ret := u64; p_args := [(TPtr "struct sk_buff"); u64] |}.

Definition btf_bpf_clone_redirect : prototype :=
  {| p_ret := u64; p_args := [(TPtr "struct sk_buff"); u32; u64] |}.

Definition btf_bpf_redirect : prototype :=
  {| p_ret := u64; p_args := [u32; u64] |}.

Definition btf_bpf_redirect_peer : prototype :=
  {| p_ret := u64; p_args := [u32; u64] |}.

Definition btf_bpf_redirect_neigh : prototype :=
  {| p_ret := u64; p_args := [u32; (TPtr "struct bpf_redir_neigh"); (TInt IInt); u64] |}.

Definition btf_bpf_msg_apply_bytes : prototype :=
  {| p_ret := u64; p_args := [(TPtr "struct sk_msg"); u32] |}.

Definition btf_bpf_msg_cork_bytes : prototype :=
  {| p_ret := u64; p_args := [(TPtr "struct sk_msg"); u32] |}.

Definition btf_bpf_msg_pull_data : prototype :=
  {| p_ret := u64; p_args := [(TPtr "struct sk_msg"); u32; u32; u64] |}.

Definition btf_bpf_msg_push_data : prototype :=
  {| p_ret := u64; p_args := [(TPtr "struct sk_msg"); u32; u32; u64] |}.

Definition btf_bpf_msg_pop_data : prototype :=
  {| p_ret := u64; p_args := [(TPtr "struct sk_msg"); u32; u32; u64] |}.

Definition btf_bpf_get_cgroup_classid_curr : prototype :=
  {| p_ret := u64; p_args := [] |}.

Definition btf_bpf_skb_cgroup_classid : prototype :=
  {| p_ret := u64; p_args := [(TPtr "const struct sk_buff")] |}.

Definition btf_bpf_get_cgroup_classid : prototype :=
  {| p_ret := u64; p_args := [(TPtr "const struct sk_buff")] |}.

Definition btf_bpf_get_route_realm : prototype :=
  {| p_ret := u64; p_args := [(TPtr "const struct sk_buff")] |}.

Definition btf_bpf_get_hash_recalc : prototype :=
  {| p_ret := u64; p_args := [(TPtr "struct sk_buff")] |}.

Definition btf_bpf_set_hash_invalid : prototype :=
  {| p_ret := u64; p_args := [(TPtr "struct sk_buff")] |}.

Definition btf_bpf_set_hash : prototype :=
  {| p_ret := u64; p_args := [(TPtr "struct sk_buff"); u32] |}.

Definition btf_bpf_skb_vlan_push : prototype :=
  {| p_ret := u64; p_args := [(TPtr "struct sk_buff"); __be16; u16] |}.

Definition btf_bpf_skb_vlan_pop : prototype :=
  {| p_ret := u64; p_args := [(TPtr "struct sk_buff")] |}.

Definition btf_bpf_skb_change_proto : prototype :=
  {| p_ret := u64; p_args := [(TPtr "struct sk_buff"); __be16; u64] |}.

Definition btf_bpf_skb_change_type : prototype :=
  {| p_ret := u64; p_args := [(TPtr "struct sk_buff"); u32] |}.

Definition btf_bpf_skb_adjust_room : prototype :=
  {| p_ret := u64; p_args := [(TPtr "struct sk_buff"); s32; u32; u64] |}.

Definition btf_bpf_skb_change_tail : prototype :=
  {| p_ret := u64; p_args := [(TPtr "struct sk_buff"); u32; u64] |}.

Definition btf_bpf_skb_change_head : prototype :=
  {| p_ret := u64; p_args := [(TPtr "struct sk_buff"); u32; u64] |}.

Definition btf_bpf_xdp_get_buff_len : prototype :=
  {| p_ret := u64; p_args := [(TPtr "struct xdp_buff")] |}.

Definition btf_bpf_xdp_adjust_head : prototype :=
  {| p_ret := u64; p_args := [(TPtr "struct xdp_buff"); (TInt IInt)] |}.

Definition btf_bpf_xdp_load_bytes : prototype :=
  {| p_ret := u64; p_args := [(TPtr "struct xdp_buff"); u32; (TPtr "void"); u32] |}.

Definition btf_bpf_xdp_store_bytes : prototype :=
  {| p_ret := u64; p_args := [(TPtr "struct xdp_buff"); u32; (TPtr "void"); u32] |}.

Definition btf_bpf_xdp_adjust_tail : prototype :=
  {| p_ret := u64; p_args := [(TPtr "struct xdp_buff"); (TInt IInt)] |}.

Definition btf_bpf_xdp_adjust_meta : prototype :=
  {| p_ret := u64; p_args := [(TPtr "struct xdp_buff"); (TInt IInt)] |}.

Definition btf_bpf_xdp_redirect : prototype :=
  {| p_ret := u64; p_args := [u32; u64] |}.

Definition btf_bpf_xdp_redirect_map : prototype :=
  {| p_ret := u64; p_args := [(TPtr "struct bpf_map"); u64; u64] |}.

Definition btf_bpf_skb_event_output : prototype :=
  {| p_ret := u64; p_args := [(TPtr "struct sk_buff"); (TPtr "struct bpf_map"); u64; (TPtr "void"); u64] |}.

Definition btf_bpf_skb_get_tunnel_key : prototype :=
  {| p_ret := u64; p_args := [(TPtr "struct sk_buff"); (TPtr "struct bpf_tunnel_key"); u32; u64] |}.

Definition btf_bpf_skb_get_tunnel_opt : prototype :=
  {| p_ret := u64; p_args := [(TPtr "struct sk_buff"); (TPtr "u8"); u32] |}.

Definition btf_bpf_skb_set_tunnel_key : prototype :=
  {| p_ret := u64; p_args := [(TPtr "struct sk_buff"); (TPtr "const struct bpf_tunnel_key"); u32; u64] |}.

Definition btf_bpf_skb_set_tunnel_opt : prototype :=
  {| p_ret := u64; p_args := [(TPtr "struct sk_buff"); (TPtr "const u8"); u32] |}.

Definition btf_bpf_skb_under_cgroup : prototype :=
  {| p_ret := u64; p_args := [(TPtr "struct sk_buff"); (TPtr "struct bpf_map"); u32] |}.

Definition btf_bpf_skb_cgroup_id : prototype :=
  {| p_ret := u64; p_args := [(TPtr "const struct sk_buff")] |}.

Definition btf_bpf_skb_ancestor_cgroup_id : prototype :=
  {| p_ret := u64; p_args := [(TPtr "const struct sk_buff"); (TInt IInt)] |}.

Definition btf_bpf_sk_cgroup_id : prototype :=
  {| p_ret := u64; p_args := [(TPtr "struct sock")] |}.

Definition btf_bpf_sk_ancestor_cgroup_id : prototype :=
  {| p_ret := u64; p_args := [(TPtr "struct sock"); (TInt IInt)] |}.

Definition btf_bpf_xdp_event_output : prototype :=
  {| p_ret := u64; p_args := [(TPtr "struct xdp_buff"); (TPtr "struct bpf_map"); u64; (TPtr "void"); u64] |}.

Definition btf_bpf_get_socket_cookie : prototype :=
  {| p_ret := u64; p_args := [(TPtr "struct sk_buff")] |}.

Definition btf_bpf_get_socket_cookie_sock_addr : prototype :=
  {| p_ret := u64; p_args := [(TPtr "struct bpf_sock_addr_kern")] |}.

Definition btf_bpf_get_socket_cookie_sock : prototype :=
  {| p_ret := u64; p_args := [(TPtr "struct sock")] |}.

Definition btf_bpf_get_socket_ptr_cookie : prototype :=
  {| p_ret := u64; p_args := [(TPtr "struct sock")] |}.

Definition btf_bpf_get_socket_cookie_sock_ops : prototype :=
  {| p_ret := u64; p_args := [(TPtr "struct bpf_sock_ops_kern")] |}.

Definition btf_bpf_get_netns_cookie_sock : prototype :=
  {| p_ret := u64; p_args := [(TPtr "struct sock")] |}.

Definition btf_bpf_get_netns_cookie_sock_addr : prototype :=
  {| p_ret := u64; p_args := [(TPtr "struct bpf_sock_addr_kern")] |}.

Definition btf_bpf_get_netns_cookie_sock_ops : prototype :=
  {| p_ret := u64; p_args := [(TPtr "struct bpf_sock_ops_kern")] |}.

Definition btf_bpf_get_netns_cookie_sk_msg : prototype :=
  {| p_ret := u64; p_args := [(TPtr "struct sk_msg")] |}.

Definition btf_bpf_get_socket_uid : prototype :=
  {| p_ret := u64; p_args := [(TPtr "struct sk_buff")] |}.

Definition btf_bpf_sk_setsockopt : prototype :=
  {| p_ret := u64; p_args := [(TPtr "struct sock"); (TInt IInt); (TInt IInt); (TPtr "char"); (TInt IInt)] |}.

Definition btf_bpf_sk_getsockopt : prototype :=
  {| p_ret := u64; p_args := [(TPtr "struct sock"); (TInt IInt); (TInt IInt); (TPtr "char"); (TInt IInt)] |}.

Definition btf_bpf_unlocked_sk_setsockopt : prototype :=
  {| p_ret := u64; p_args := [(TPtr "struct sock"); (TInt IInt); (TInt IInt); (TPtr "char"); (TInt IInt)] |}.

Definition btf_bpf_unlocked_sk_getsockopt : prototype :=
  {| p_ret := u64; p_args := [(TPtr "struct sock"); (TInt IInt); (TInt IInt); (TPtr "char"); (TInt IInt)] |}.

Definition btf_bpf_sock_addr_setsockopt : prototype :=
  {| p_ret := u64; p_args := [(TPtr "struct bpf_sock_addr_kern"); (TInt IInt); (TInt IInt); (TPtr "char"); (TInt IInt)] |}.

Definition btf_bpf_sock_addr_getsockopt : prototype :=
  {| p_ret := u64; p_args := [(TPtr "struct bpf_sock_addr_kern"); (TInt IInt); (TInt IInt); (TPtr "char"); (TInt IInt)] |}.

Definition btf_bpf_sock_ops_setsockopt : prototype :=
  {| p_ret := u64; p_args := [(TPtr "struct bpf_sock_ops_kern"); (TInt IInt); (TInt IInt); (TPtr "char"); (TInt IInt)] |}.

Definition btf_bpf_sock_ops_getsockopt : prototype :=
  {| p_ret := u64; p_args := [(TPtr "struct bpf_sock_ops_kern"); (TInt IInt); (TInt IInt); (TPtr "char"); (TInt IInt)] |}.

Definition btf_bpf_sock_ops_cb_flags_set : prototype :=
  {| p_ret := u64; p_args := [(TPtr "struct bpf_sock_ops_kern"); (TInt IInt)] |}.

Definition btf_bpf_bind : prototype :=
  {| p_ret := u64; p_args := [(TPtr "struct bpf_sock_addr_kern"); (TPtr "struct sockaddr"); (TInt IInt)] |}.

Definition btf_bpf_skb_get_xfrm_state : prototype :=
  {| p_ret := u64; p_args := [(TPtr "struct sk_buff"); u32; (TPtr "struct bpf_xfrm_state"); u32; u64] |}.

Definition btf_bpf_xdp_fib_lookup : prototype :=
  {| p_ret := u64; p_args := [(TPtr "struct xdp_buff"); (TPtr "struct bpf_fib_lookup"); (TInt IInt); u32] |}.

Definition btf_bpf_skb_fib_lookup : prototype :=
  {| p_ret := u64; p_args := [(TPtr "struct sk_buff"); (TPtr "struct bpf_fib_lookup"); (TInt IInt); u32] |}.

Definition btf_bpf_skb_check_mtu : prototype :=
  {| p_ret := u64; p_args := [(TPtr "struct sk_buff"); u32; (TPtr "u32"); s32; u64] |}.

Definition btf_bpf_xdp_check_mtu : prototype :=
  {| p_ret := u64; p_args := [(TPtr "struct xdp_buff"); u32; (TPtr "u32"); s32; u64] |}.

Definition btf_bpf_lwt_in_push_encap : prototype :=
  {| p_ret := u64; p_args := [(TPtr "struct sk_buff"); u32; (TPtr "void"); u32] |}.

Definition btf_bpf_lwt_xmit_push_encap : prototype :=
  {| p_ret := u64; p_args := [(TPtr "struct sk_buff"); u32; (TPtr "void"); u32] |}.

Definition btf_bpf_lwt_seg6_store_bytes : prototype :=
  {| p_ret := u64; p_args := [(TPtr "struct sk_buff"); u32; (TPtr "const void"); u32] |}.

Definition btf_bpf_lwt_seg6_action : prototype :=
  {| p_ret := u64; p_args := [(TPtr "struct sk_buff"); u32; (TPtr "void"); u32] |}.

Definition btf_bpf_lwt_seg6_adjust_srh : prototype :=
  {| p_ret := u64; p_args := [(TPtr "struct sk_buff"); u32; s32] |}.

Definition btf_bpf_skc_lookup_tcp : prototype :=
  {| p_ret := u64; p_args := [(TPtr "struct sk_buff"); (TPtr "struct bpf_sock_tuple"); u32; u64; u64] |}.

Definition btf_bpf_sk_lookup_tcp : prototype :=
  {| p_ret := u64; p_args := [(TPtr "struct sk_buff"); (TPtr "struct bpf_sock_tuple"); u32; u64; u64] |}.

Definition btf_bpf_sk_lookup_udp : prototype :=
  {| p_ret := u64; p_args := [(TPtr "struct sk_buff"); (TPtr "struct bpf_sock_tuple"); u32; u64; u64] |}.

Definition btf_bpf_tc_skc_lookup_tcp : prototype :=
  {| p_ret := u64; p_args := [(TPtr "struct sk_buff"); (TPtr "struct bpf_sock_tuple"); u32; u64; u64] |}.

Definition btf_bpf_tc_sk_lookup_tcp : prototype :=
  {| p_ret := u64; p_args := [(TPtr "struct sk_buff"); (TPtr "struct bpf_sock_tuple"); u32; u64; u64] |}.

Definition btf_bpf_tc_sk_lookup_udp : prototype :=
  {| p_ret := u64; p_args := [(TPtr "struct sk_buff"); (TPtr "struct bpf_sock_tuple"); u32; u64; u64] |}.

Definition btf_bpf_sk_release : prototype :=
  {| p_ret := u64; p_args := [(TPtr "struct sock")] |}.

Definition btf_bpf_xdp_sk_lookup_udp : prototype :=
  {| p_ret := u64; p_args := [(TPtr "struct xdp_buff"); (TPtr "struct bpf_sock_tuple"); u32; u32; u64] |}.

Definition btf_bpf_xdp_skc_lookup_tcp : prototype :=
  {| p_ret := u64; p_args := [(TPtr "struct xdp_buff"); (TPtr "struct bpf_sock_tuple"); u32; u32; u64] |}.

Definition btf_bpf_xdp_sk_lookup_tcp : prototype :=
  {| p_ret := u64; p_args := [(TPtr "struct xdp_buff"); (TPtr "struct bpf_sock_tuple"); u32; u32; u64] |}.

Definition btf_bpf_sock_addr_skc_lookup_tcp : prototype :=
  {| p_ret := u64; p_args := [(TPtr "struct bpf_sock_addr_kern"); (TPtr "struct bpf_sock_tuple"); u32; u64; u64] |}.

Definition btf_bpf_sock_addr_sk_lookup_tcp : prototype :=
  {| p_ret := u64; p_args := [(TPtr "struct bpf_sock_addr_kern"); (TPtr "struct bpf_sock_tuple"); u32; u64; u64] |}.

Definition btf_bpf_sock_addr_sk_lookup_udp : prototype :=
  {| p_ret := u64; p_args := [(TPtr "struct bpf_sock_addr_kern"); (TPtr "struct bpf_sock_tuple"); u32; u64; u64] |}.

Definition btf_bpf_tcp_sock : prototype :=
  {| p_ret := u64; p_args := [(TPtr "struct sock")] |}.

Definition btf_bpf_get_listener_sock : prototype :=
  {| p_ret := u64; p_args := [(TPtr "struct sock")] |}.

Definition btf_bpf_skb_ecn_set_ce : prototype :=
  {| p_ret := u64; p_args := [(TPtr "struct sk_buff")] |}.

Definition btf_bpf_tcp_check_syncookie : prototype :=
  {| p_ret := u64; p_args := [(TPtr "struct sock"); (TPtr "void"); u32; (TPtr "struct tcphdr"); u32] |}.

Definition btf_bpf_tcp_gen_syncookie : prototype :=
  {| p_ret := u64; p_args := [(TPtr "struct sock"); (TPtr "void"); u32; (TPtr "struct tcphdr"); u32] |}.

Definition btf_bpf_sk_assign : prototype :=
  {| p_ret := u64; p_args := [(TPtr "struct sk_buff"); (TPtr "struct sock"); u64] |}.

Definition btf_bpf_sock_ops_load_hdr_opt : prototype :=
  {| p_ret := u64; p_args := [(TPtr "struct bpf_sock_ops_kern"); (TPtr "void"); u32; u64] |}.

Definition btf_bpf_sock_ops_store_hdr_opt : prototype :=
  {| p_ret := u64; p_args := [(TPtr "struct bpf_sock_ops_kern"); (TPtr "const void"); u32; u64] |}.

Definition btf_bpf_sock_ops_reserve_hdr_opt : prototype :=
  {| p_ret := u64; p_args := [(TPtr "struct bpf_sock_ops_kern"); u32; u64] |}.

Definition btf_bpf_skb_set_tstamp : prototype :=
  {| p_ret := u64; p_args := [(TPtr "struct sk_buff"); u64; u32] |}.

Definition btf_bpf_tcp_raw_gen_syncookie_ipv4 : prototype :=
  {| p_ret := u64; p_args := [(TPtr "struct iphdr"); (TPtr "struct tcphdr"); u32] |}.

Definition btf_bpf_tcp_raw_gen_syncookie_ipv6 : prototype :=
  {| p_ret := u64; p_args := [(TPtr "struct ipv6hdr"); (TPtr "struct tcphdr"); u32] |}.

Definition btf_bpf_tcp_raw_check_syncookie_ipv4 : prototype :=
  {| p_ret := u64; p_args := [(TPtr "struct iphdr"); (TPtr "struct tcphdr")] |}.

Definition btf_bpf_tcp_raw_check_syncookie_ipv6 : prototype :=
  {| p_ret := u64; p_args := [(TPtr "struct ipv6hdr"); (TPtr "struct tcphdr")] |}.

Definition btf_bpf_sk_lookup_assign : prototype :=
  {| p_ret := u64; p_args := [(TPtr "struct bpf_sk_lookup_kern"); (TPtr "struct sock"); u64] |}.

Definition btf_bpf_skc_to_tcp6_sock : prototype :=
  {| p_ret := u64; p_args := [(TPtr "struct sock")] |}.

Definition btf_bpf_skc_to_tcp_sock : prototype :=
  {| p_ret := u64; p_args := [(TPtr "struct sock")] |}.

Definition btf_bpf_skc_to_tcp_timewait_sock : prototype :=
  {| p_ret := u64; p_args := [(TPtr "struct sock")] |}.

Definition btf_bpf_skc_to_tcp_request_sock : prototype :=
  {| p_ret := u64; p_args := [(TPtr "struct sock")] |}.

Definition btf_bpf_skc_to_udp6_sock : prototype :=
  {| p_ret := u64; p_args := [(TPtr "struct sock")] |}.

Definition btf_bpf_skc_to_unix_sock : prototype :=
  {| p_ret := u64; p_args := [(TPtr "struct sock")] |}.

Definition btf_bpf_skc_to_mptcp_sock : prototype :=
  {| p_ret := u64; p_args := [(TPtr "struct sock")] |}.

Definition btf_bpf_sock_from_file : prototype :=
  {| p_ret := u64; p_args := [(TPtr "struct file")] |}.

Definition btf_bpf_sock_map_update : prototype :=
  {| p_ret := u64; p_args := [(TPtr "struct bpf_sock_ops_kern"); (TPtr "struct bpf_map"); (TPtr "void"); u64] |}.

Definition btf_bpf_sk_redirect_map : prototype :=
  {| p_ret := u64; p_args := [(TPtr "struct sk_buff"); (TPtr "struct bpf_map"); u32; u64] |}.

Definition btf_bpf_msg_redirect_map : prototype :=
  {| p_ret := u64; p_args := [(TPtr "struct sk_msg"); (TPtr "struct bpf_map"); u32; u64] |}.

Definition btf_bpf_sock_hash_update : prototype :=
  {| p_ret := u64; p_args := [(TPtr "struct bpf_sock_ops_kern"); (TPtr "struct bpf_map"); (TPtr "void"); u64] |}.

Definition btf_bpf_sk_redirect_hash : prototype :=
  {| p_ret := u64; p_args := [(TPtr "struct sk_buff"); (TPtr "struct bpf_map"); (TPtr "void"); u64] |}.

Definition btf_bpf_msg_redirect_hash : prototype :=
  {| p_ret := u64; p_args := [(TPtr "struct sk_msg"); (TPtr "struct bpf_map"); (TPtr "void"); u64] |}.

Definition btf_bpf_override_return : prototype :=
  {| p_ret := u64; p_args := [(TPtr "struct pt_regs"); (TInt IULong)] |}.

Definition btf_bpf_probe_read_user : prototype :=
  {| p_ret := u64; p_args := [(TPtr "void"); u32; (TPtr "const void")] |}.

Definition btf_bpf_probe_read_user_str : prototype :=
  {| p_ret := u64; p_args := [(TPtr "void"); u32; (TPtr "const void")] |}.

Definition btf_bpf_probe_read_kernel : prototype :=
  {| p_ret := u64; p_args := [(TPtr "void"); u32; (TPtr "const void")] |}.

Definition btf_bpf_probe_read_kernel_str : prototype :=
  {| p_ret := u64; p_args := [(TPtr "void"); u32; (TPtr "const void")] |}.

Definition btf_bpf_probe_read_compat : prototype :=
  {| p_ret := u64; p_args := [(TPtr "void"); u32; (TPtr "const void")] |}.

Definition btf_bpf_probe_read_compat_str : prototype :=
  {| p_ret := u64; p_args := [(TPtr "void"); u32; (TPtr "const void")] |}.

Definition btf_bpf_probe_write_user : prototype :=
  {| p_ret := u64; p_args := [(TPtr "void"); (TPtr "const void"); u32] |}.

Definition btf_bpf_trace_printk : prototype :=
  {| p_ret := u64; p_args := [(TPtr "char"); u32; u64; u64; u64] |}.

Definition btf_bpf_trace_vprintk : prototype :=
  {| p_ret := u64; p_args := [(TPtr "char"); u32; (TPtr "const void"); u32] |}.

Definition btf_bpf_seq_printf : prototype :=
  {| p_ret := u64; p_args := [(TPtr "struct seq_file"); (TPtr "char"); u32; (TPtr "const void"); u32] |}.

Definition btf_bpf_seq_write : prototype :=
  {| p_ret := u64; p_args := [(TPtr "struct seq_file"); (TPtr "const void"); u32] |}.

Definition btf_bpf_seq_printf_btf : prototype :=
  {| p_ret := u64; p_args := [(TPtr "struct seq_file"); (TPtr "struct btf_ptr"); u32; u64] |}.

Definition btf_bpf_perf_event_read : prototype :=
  {| p_ret := u64; p_args := [(TPtr "struct bpf_map"); u64] |}.

Definition btf_bpf_perf_event_read_value : prototype :=
  {| p_ret := u64; p_args := [(TPtr "struct bpf_map"); u64; (TPtr "struct bpf_perf_event_value"); u32] |}.

Definition btf_bpf_perf_event_output : prototype :=
  {| p_ret := u64; p_args := [(TPtr "struct pt_regs"); (TPtr "struct bpf_map"); u64; (TPtr "void"); u64] |}.

Definition btf_bpf_get_current_task : prototype :=
  {| p_ret := u64; p_args := [] |}.

Definition btf_bpf_get_current_task_btf : prototype :=
  {| p_ret := u64; p_args := [] |}.

Definition btf_bpf_task_pt_regs : prototype :=
  {| p_ret := u64; p_args := [(TPtr "struct task_struct")] |}.

Definition btf_bpf_current_task_under_cgroup : prototype :=
  {| p_ret := u64; p_args := [(TPtr "struct bpf_map"); u32] |}.

Definition btf_bpf_send_signal : prototype :=
  {| p_ret := u64; p_args := [u32] |}.

Definition btf_bpf_send_signal_thread : prototype :=
  {| p_ret := u64; p_args := [u32] |}.

Definition btf_bpf_d_path : prototype :=
  {| p_ret := u64; p_args := [(TPtr "struct path"); (TPtr "char"); u32] |}.

Definition btf_bpf_snprintf_btf : prototype :=
  {| p_ret := u64; p_args := [(TPtr "char"); u32; (TPtr "struct btf_ptr"); u32; u64] |}.

Definition btf_bpf_get_func_ip_tracing : prototype :=
  {| p_ret := u64; p_args := [(TPtr "void")] |}.

Definition btf_bpf_get_func_ip_kprobe : prototype :=
  {| p_ret := u64; p_args := [(TPtr "struct pt_regs")] |}.

Definition btf_bpf_get_func_ip_kprobe_multi : prototype :=
  {| p_ret := u64; p_args := [(TPtr "struct pt_regs")] |}.

Definition btf_bpf_get_attach_cookie_kprobe_multi : prototype :=
  {| p_ret := u64; p_args := [(TPtr "struct pt_regs")] |}.

Definition btf_bpf_get_func_ip_uprobe_multi : prototype :=
  {| p_ret := u64; p_args := [(TPtr "struct pt_regs")] |}.

Definition btf_bpf_get_attach_cookie_uprobe_multi : prototype :=
  {| p_ret := u64; p_args := [(TPtr "struct pt_regs")] |}.

Definition btf_bpf_get_attach_cookie_trace : prototype :=
  {| p_ret := u64; p_args := [(TPtr "void")] |}.

Definition btf_bpf_get_attach_cookie_pe : prototype :=
  {| p_ret := u64; p_args := [(TPtr "struct bpf_perf_event_data_kern")] |}.

Definition btf_bpf_get_attach_cookie_tracing : prototype :=
  {| p_ret := u64; p_args := [(TPtr "void")] |}.

Definition btf_bpf_get_branch_snapshot : prototype :=
  {| p_ret := u64; p_args := [(TPtr "void"); u32; u64] |}.

Definition btf_bpf_perf_event_output_tp : prototype :=
  {| p_ret := u64; p_args := [(TPtr "void"); (TPtr "struct bpf_map"); u64; (TPtr "void"); u64] |}.

Definition btf_bpf_get_stackid_tp : prototype :=
  {| p_ret := u64; p_args := [(TPtr "void"); (TPtr "struct bpf_map"); u64] |}.

Definition btf_bpf_get_stack_tp : prototype :=
  {| p_ret := u64; p_args := [(TPtr "void"); (TPtr "void"); u32; u64] |}.

Definition btf_bpf_perf_prog_read_value : prototype :=
  {| p_ret := u64; p_args := [(TPtr "struct bpf_perf_event_data_kern"); (TPtr "struct bpf_perf_event_value"); u32] |}.

Definition btf_bpf_read_branch_records : prototype :=
  {| p_ret := u64; p_args := [(TPtr "struct bpf_perf_event_data_kern"); (TPtr "void"); u32; u64] |}.

Definition btf_bpf_perf_event_output_raw_tp : prototype :=
  {| p_ret := u64; p_args := [(TPtr "struct bpf_raw_tracepoint_args"); (TPtr "struct bpf_map"); u64; (TPtr "void"); u64] |}.

Definition btf_bpf_get_stackid_raw_tp : prototype :=
  {| p_ret := u64; p_args := [(TPtr "struct bpf_raw_tracepoint_args"); (TPtr "struct bpf_map"); u64] |}.

Definition btf_bpf_get_stack_raw_tp : prototype :=
  {| p_ret := u64; p_args := [(TPtr "struct bpf_raw_tracepoint_args"); (TPtr "void"); u32; u64] |}.

Definition btf_bpf_user_rnd_u32 : prototype :=
  {| p_ret := u64; p_args := [] |}.

Definition btf_bpf_get_raw_cpu_id : prototype :=
  {| p_ret := u64; p_args := [] |}.

Definition btf_bpf_find_vma : prototype :=
  {| p_ret := u64; p_args := [(TPtr "struct task_struct"); u64; bpf_callback_t; (TPtr "void"); u64] |}.

Definition btf_bpf_inode_storage_get : prototype :=
  {| p_ret := u64; p_args := [(TPtr "struct bpf_map"); (TPtr "struct inode"); (TPtr "void"); u64; gfp_t] |}.

Definition btf_bpf_inode_storage_delete : prototype :=
  {| p_ret := u64; p_args := [(TPtr "struct bpf_map"); (TPtr "struct inode")] |}.

Definition btf_bpf_get_stackid : prototype :=
  {| p_ret := u64; p_args := [(TPtr "struct pt_regs"); (TPtr "struct bpf_map"); u64] |}.

Definition btf_bpf_get_stackid_pe : prototype :=
  {| p_ret := u64; p_args := [(TPtr "struct bpf_perf_event_data_kern"); (TPtr "struct bpf_map"); u64] |}.

Definition btf_bpf_get_stack : prototype :=
  {| p_ret := u64; p_args := [(TPtr "struct pt_regs"); (TPtr "void"); u32; u64] |}.

Definition btf_bpf_get_task_stack : prototype :=
  {| p_ret := u64; p_args := [(TPtr "struct task_struct"); (TPtr "void"); u32; u64] |}.

Definition btf_bpf_get_stack_pe : prototype :=
  {| p_ret := u64; p_args := [(TPtr "struct bpf_perf_event_data_kern"); (TPtr "void"); u32; u64] |}.

Definition btf_bpf_map_lookup_elem : prototype :=
  {| p_ret := u64; p_args := [(TPtr "struct bpf_map"); (TPtr "void")] |}.

Definition btf_bpf_map_update_elem : prototype :=
  {| p_ret := u64; p_args := [(TPtr "struct bpf_map"); (TPtr "void"); (TPtr "void"); u64] |}.

Definition btf_bpf_map_delete_elem : prototype :=
  {| p_ret := u64; p_args := [(TPtr "struct bpf_map"); (TPtr "void")] |}.

Definition btf_bpf_map_push_elem : prototype :=
  {| p_ret := u64; p_args := [(TPtr "struct bpf_map"); (TPtr "void"); u64] |}.

Definition btf_bpf_map_pop_elem : prototype :=
  {| p_ret := u64; p_args := [(TPtr "struct bpf_map"); (TPtr "void")] |}.

Definition btf_bpf_map_peek_elem : prototype :=
  {| p_ret := u64; p_args := [(TPtr "struct bpf_map"); (TPtr "void")] |}.

Definition btf_bpf_map_lookup_percpu_elem : prototype :=
  {| p_ret := u64; p_args := [(TPtr "struct bpf_map"); (TPtr "void"); u32] |}.

Definition btf_bpf_get_smp_processor_id : prototype :=
  {| p_ret := u64; p_args := [] |}.

Definition btf_bpf_get_numa_node_id : prototype :=
  {| p_ret := u64; p_args := [] |}.

Definition btf_bpf_ktime_get_ns : prototype :=
  {| p_ret := u64; p_args := [] |}.

Definition btf_bpf_ktime_get_boot_ns : prototype :=
  {| p_ret := u64; p_args := [] |}.

Definition btf_bpf_ktime_get_coarse_ns : prototype :=
  {| p_ret := u64; p_args := [] |}.

Definition btf_bpf_ktime_get_tai_ns : prototype :=
  {| p_ret := u64; p_args := [] |}.

Definition btf_bpf_get_current_pid_tgid : prototype :=
  {| p_ret := u64; p_args := [] |}.

Definition btf_bpf_get_current_uid_gid : prototype :=
  {| p_ret := u64; p_args := [] |}.

Definition btf_bpf_get_current_comm : prototype :=
  {| p_ret := u64; p_args := [(TPtr "char"); u32] |}.

Definition btf_bpf_spin_lock : prototype :=
  {| p_ret := u64; p_args := [(TPtr "struct bpf_spin_lock")] |}.

Definition btf_bpf_spin_unlock : prototype :=
  {| p_ret := u64; p_args := [(TPtr "struct bpf_spin_lock")] |}.

Definition btf_bpf_jiffies64 : prototype :=
  {| p_ret := u64; p_args := [] |}.

Definition btf_bpf_get_current_cgroup_id : prototype :=
  {| p_ret := u64; p_args := [] |}.

Definition btf_bpf_get_current_ancestor_cgroup_id : prototype :=
  {| p_ret := u64; p_args := [(TInt IInt)] |}.

Definition btf_bpf_strtol : prototype :=
  {| p_ret := u64; p_args := [(TPtr "const char"); size_t; u64; (TPtr "s64")] |}.

Definition btf_bpf_strtoul : prototype :=
  {| p_ret := u64; p_args := [(TPtr "const char"); size_t; u64; (TPtr "u64")] |}.

Definition btf_bpf_strncmp : prototype :=
  {| p_ret := u64; p_args := [(TPtr "const char"); u32; (TPtr "const char")] |}.

Definition btf_bpf_get_ns_current_pid_tgid : prototype :=
  {| p_ret := u64; p_args := [u64; u64; (TPtr "struct bpf_pidns_info"); u32] |}.

Definition btf_bpf_event_output_data : prototype :=
  {| p_ret := u64; p_args := [(TPtr "void"); (TPtr "struct bpf_map"); u64; (TPtr "void"); u64] |}.

Definition btf_bpf_copy_from_user : prototype :=
  {| p_ret := u64; p_args := [(TPtr "void"); u32; (TPtr "const void")] |}.

Definition btf_bpf_copy_from_user_task : prototype :=
  {| p_ret := u64; p_args := [(TPtr "void"); u32; (TPtr "const void"); (TPtr "struct task_struct"); u64] |}.

Definition btf_bpf_per_cpu_ptr : prototype :=
  {| p_ret := u64; p_args := [(TPtr "const void"); u32] |}.

Definition btf_bpf_this_cpu_ptr : prototype :=
  {| p_ret := u64; p_args := [(TPtr "const void")] |}.

Definition btf_bpf_snprintf : prototype :=
  {| p_ret := u64; p_args := [(TPtr "char"); u32; (TPtr "char"); (TPtr "const void"); u32] |}.

Definition btf_bpf_timer_init : prototype :=
  {| p_ret := u64; p_args := [(TPtr "struct bpf_async_kern"); (TPtr "struct bpf_map"); u64] |}.

Definition btf_bpf_timer_set_callback : prototype :=
  {| p_ret := u64; p_args := [(TPtr "struct bpf_async_kern"); (TPtr "void"); (TPtr "struct bpf_prog_aux")] |}.

Definition btf_bpf_timer_start : prototype :=
  {| p_ret := u64; p_args := [(TPtr "struct bpf_async_kern"); u64; u64] |}.

Definition btf_bpf_timer_cancel : prototype :=
  {| p_ret := u64; p_args := [(TPtr "struct bpf_async_kern")] |}.

Definition btf_bpf_kptr_xchg : prototype :=
  {| p_ret := u64; p_args := [(TPtr "void"); (TPtr "void")] |}.

Definition btf_bpf_dynptr_from_mem : prototype :=
  {| p_ret := u64; p_args := [(TPtr "void"); u32; u64; (TPtr "struct bpf_dynptr_kern")] |}.

Definition btf_bpf_dynptr_read : prototype :=
  {| p_ret := u64; p_args := [(TPtr "void"); u32; (TPtr "const struct bpf_dynptr_kern"); u32; u64] |}.

Definition btf_bpf_dynptr_write : prototype :=
  {| p_ret := u64; p_args := [(TPtr "const struct bpf_dynptr_kern"); u32; (TPtr "void"); u32; u64] |}.

Definition btf_bpf_dynptr_data : prototype :=
  {| p_ret := u64; p_args := [(TPtr "const struct bpf_dynptr_kern"); u32; u32] |}.

Definition btf_bpf_ringbuf_reserve : prototype :=
  {| p_ret := u64; p_args := [(TPtr "struct bpf_map"); u64; u64] |}.

Definition btf_bpf_ringbuf_submit : prototype :=
  {| p_ret := u64; p_args := [(TPtr "void"); u64] |}.

Definition btf_bpf_ringbuf_discard : prototype :=
  {| p_ret := u64; p_args := [(TPtr "void"); u64] |}.

Definition btf_bpf_ringbuf_output : prototype :=
  {| p_ret := u64; p_args := [(TPtr "struct bpf_map"); (TPtr "void"); u64; u64] |}.

Definition btf_bpf_ringbuf_query : prototype :=
  {| p_ret := u64; p_args := [(TPtr "struct bpf_map"); u64] |}.

Definition btf_bpf_ringbuf_reserve_dynptr : prototype :=
  {| p_ret := u64; p_args := [(TPtr "struct bpf_map"); u32; u64; (TPtr "struct bpf_dynptr_kern")] |}.

Definition btf_bpf_ringbuf_submit_dynptr : prototype :=
  {| p_ret := u64; p_args := [(TPtr "struct bpf_dynptr_kern"); u64] |}.

Definition btf_bpf_ringbuf_discard_dynptr : prototype :=
  {| p_ret := u64; p_args := [(TPtr "struct bpf_dynptr_kern"); u64] |}.

Definition btf_bpf_user_ringbuf_drain : prototype :=
  {| p_ret := u64; p_args := [(TPtr "struct bpf_map"); (TPtr "void"); (TPtr "void"); u64] |}.

Definition btf_bpf_bprm_opts_set : prototype :=
  {| p_ret := u64; p_args := [(TPtr "struct linux_binprm"); u64] |}.

Definition btf_bpf_ima_inode_hash : prototype :=
  {| p_ret := u64; p_args := [(TPtr "struct inode"); (TPtr "void"); u32] |}.

Definition btf_bpf_ima_file_hash : prototype :=
  {| p_ret := u64; p_args := [(TPtr "struct file"); (TPtr "void"); u32] |}.

Definition btf_bpf_get_attach_cookie : prototype :=
  {| p_ret := u64; p_args := [(TPtr "void")] |}.

Definition btf_bpf_sk_storage_get : prototype :=
  {| p_ret := u64; p_args := [(TPtr "struct bpf_map"); (TPtr "struct sock"); (TPtr "void"); u64; gfp_t] |}.

Definition btf_bpf_sk_storage_delete : prototype :=
  {| p_ret := u64; p_args := [(TPtr "struct bpf_map"); (TPtr "struct sock")] |}.

Definition btf_bpf_sk_storage_get_tracing : prototype :=
  {| p_ret := u64; p_args := [(TPtr "struct bpf_map"); (TPtr "struct sock"); (TPtr "void"); u64; gfp_t] |}.

Definition btf_bpf_sk_storage_delete_tracing : prototype :=
  {| p_ret := u64; p_args := [(TPtr "struct bpf_map"); (TPtr "struct sock")] |}.

Definition btf_bpf_tcp_send_ack : prototype :=
  {| p_ret := u64; p_args := [(TPtr "struct tcp_sock"); u32] |}.

Definition btf_bpf_sys_bpf : prototype :=
  {| p_ret := u64; p_args := [(TInt IInt); (TPtr "union bpf_attr"); u32] |}.

Definition btf_bpf_sys_close : prototype :=
  {| p_ret := u64; p_args := [u32] |}.

Definition btf_bpf_kallsyms_lookup_name : prototype :=
  {| p_ret := u64; p_args := [(TPtr "const char"); (TInt IInt); (TInt IInt); (TPtr "u64")] |}.

Definition btf_bpf_for_each_map_elem : prototype :=
  {| p_ret := u64; p_args := [(TPtr "struct bpf_map"); (TPtr "void"); (TPtr "void"); u64] |}.

Definition btf_bpf_loop : prototype :=
  {| p_ret := u64; p_args := [u32; (TPtr "void"); (TPtr "void"); u64] |}.

Definition btf_bpf_task_storage_get_recur : prototype :=
  {| p_ret := u64; p_args := [(TPtr "struct bpf_map"); (TPtr "struct task_struct"); (TPtr "void"); u64; gfp_t] |}.

Definition btf_bpf_task_storage_get : prototype :=
  {| p_ret := u64; p_args := [(TPtr "struct bpf_map"); (TPtr "struct task_struct"); (TPtr "void"); u64; gfp_t] |}.

Definition btf_bpf_task_storage_delete_recur : prototype :=
  {| p_ret := u64; p_args := [(TPtr "struct bpf_map"); (TPtr "struct task_struct")] |}.

Definition btf_bpf_task_storage_delete : prototype :=
  {| p_ret := u64; p_args := [(TPtr "struct bpf_map"); (TPtr "struct task_struct")] |}.

Definition btf_bpf_btf_find_by_name_kind : prototype :=
  {| p_ret := u64; p_args := [(TPtr "char"); (TInt IInt); u32; (TInt IInt)] |}.

Definition btf_bpf_cgrp_storage_get : prototype :=
  {| p_ret := u64; p_args := [(TPtr "struct bpf_map"); (TPtr "struct cgroup"); (TPtr "void"); u64; gfp_t] |}.

Definition btf_bpf_cgrp_storage_delete : prototype :=
  {| p_ret := u64; p_args := [(TPtr "struct bpf_map"); (TPtr "struct cgroup")] |}.

(** The types, by the names of the helpers. *)
Definition prototypes : list (string * prototype) :=
  [("bpf_get_local_storage", btf_bpf_get_local_storage);
   ("bpf_get_retval", btf_bpf_get_retval);
   ("bpf_set_retval", btf_bpf_set_retval);
   ("bpf_sysctl_get_name", btf_bpf_sysctl_get_name);
   ("bpf_sysctl_get_current_value", btf_bpf_sysctl_get_current_value);
   ("bpf_sysctl_get_new_value", btf_bpf_sysctl_get_new_value);
   ("bpf_sysctl_set_new_value", btf_bpf_sysctl_set_new_value);
   ("bpf_get_netns_cookie_sockopt", btf_bpf_get_netns_cookie_sockopt);
   ("bpf_skb_get_pay_offset", btf_bpf_skb_get_pay_offset);
   ("bpf_skb_get_nlattr", btf_bpf_skb_get_nlattr);
   ("bpf_skb_get_nlattr_nest", btf_bpf_skb_get_nlattr_nest);
   ("bpf_skb_load_helper_8", btf_bpf_skb_load_helper_8);
   ("bpf_skb_load_helper_8_no_cache", btf_bpf_skb_load_helper_8_no_cache);
   ("bpf_skb_load_helper_16", btf_bpf_skb_load_helper_16);
   ("bpf_skb_load_helper_16_no_cache", btf_bpf_skb_load_helper_16_no_cache);
   ("bpf_skb_load_helper_32", btf_bpf_skb_load_helper_32);
   ("bpf_skb_load_helper_32_no_cache", btf_bpf_skb_load_helper_32_no_cache);
   ("bpf_skb_store_bytes", btf_bpf_skb_store_bytes);
   ("bpf_skb_load_bytes", btf_bpf_skb_load_bytes);
   ("bpf_flow_dissector_load_bytes", btf_bpf_flow_dissector_load_bytes);
   ("bpf_skb_load_bytes_relative", btf_bpf_skb_load_bytes_relative);
   ("bpf_skb_pull_data", btf_bpf_skb_pull_data);
   ("bpf_sk_fullsock", btf_bpf_sk_fullsock);
   ("bpf_l3_csum_replace", btf_bpf_l3_csum_replace);
   ("bpf_l4_csum_replace", btf_bpf_l4_csum_replace);
   ("bpf_csum_diff", btf_bpf_csum_diff);
   ("bpf_csum_update", btf_bpf_csum_update);
   ("bpf_csum_level", btf_bpf_csum_level);
   ("bpf_clone_redirect", btf_bpf_clone_redirect);
   ("bpf_redirect", btf_bpf_redirect);
   ("bpf_redirect_peer", btf_bpf_redirect_peer);
   ("bpf_redirect_neigh", btf_bpf_redirect_neigh);
   ("bpf_msg_apply_bytes", btf_bpf_msg_apply_bytes);
   ("bpf_msg_cork_bytes", btf_bpf_msg_cork_bytes);
   ("bpf_msg_pull_data", btf_bpf_msg_pull_data);
   ("bpf_msg_push_data", btf_bpf_msg_push_data);
   ("bpf_msg_pop_data", btf_bpf_msg_pop_data);
   ("bpf_get_cgroup_classid_curr", btf_bpf_get_cgroup_classid_curr);
   ("bpf_skb_cgroup_classid", btf_bpf_skb_cgroup_classid);
   ("bpf_get_cgroup_classid", btf_bpf_get_cgroup_classid);
   ("bpf_get_route_realm", btf_bpf_get_route_realm);
   ("bpf_get_hash_recalc", btf_bpf_get_hash_recalc);
   ("bpf_set_hash_invalid", btf_bpf_set_hash_invalid);
   ("bpf_set_hash", btf_bpf_set_hash);
   ("bpf_skb_vlan_push", btf_bpf_skb_vlan_push);
   ("bpf_skb_vlan_pop", btf_bpf_skb_vlan_pop);
   ("bpf_skb_change_proto", btf_bpf_skb_change_proto);
   ("bpf_skb_change_type", btf_bpf_skb_change_type);
   ("bpf_skb_adjust_room", btf_bpf_skb_adjust_room);
   ("bpf_skb_change_tail", btf_bpf_skb_change_tail);
   ("bpf_skb_change_head", btf_bpf_skb_change_head);
   ("bpf_xdp_get_buff_len", btf_bpf_xdp_get_buff_len);
   ("bpf_xdp_adjust_head", btf_bpf_xdp_adjust_head);
   ("bpf_xdp_load_bytes", btf_bpf_xdp_load_bytes);
   ("bpf_xdp_store_bytes", btf_bpf_xdp_store_bytes);
   ("bpf_xdp_adjust_tail", btf_bpf_xdp_adjust_tail);
   ("bpf_xdp_adjust_meta", btf_bpf_xdp_adjust_meta);
   ("bpf_xdp_redirect", btf_bpf_xdp_redirect);
   ("bpf_xdp_redirect_map", btf_bpf_xdp_redirect_map);
   ("bpf_skb_event_output", btf_bpf_skb_event_output);
   ("bpf_skb_get_tunnel_key", btf_bpf_skb_get_tunnel_key);
   ("bpf_skb_get_tunnel_opt", btf_bpf_skb_get_tunnel_opt);
   ("bpf_skb_set_tunnel_key", btf_bpf_skb_set_tunnel_key);
   ("bpf_skb_set_tunnel_opt", btf_bpf_skb_set_tunnel_opt);
   ("bpf_skb_under_cgroup", btf_bpf_skb_under_cgroup);
   ("bpf_skb_cgroup_id", btf_bpf_skb_cgroup_id);
   ("bpf_skb_ancestor_cgroup_id", btf_bpf_skb_ancestor_cgroup_id);
   ("bpf_sk_cgroup_id", btf_bpf_sk_cgroup_id);
   ("bpf_sk_ancestor_cgroup_id", btf_bpf_sk_ancestor_cgroup_id);
   ("bpf_xdp_event_output", btf_bpf_xdp_event_output);
   ("bpf_get_socket_cookie", btf_bpf_get_socket_cookie);
   ("bpf_get_socket_cookie_sock_addr", btf_bpf_get_socket_cookie_sock_addr);
   ("bpf_get_socket_cookie_sock", btf_bpf_get_socket_cookie_sock);
   ("bpf_get_socket_ptr_cookie", btf_bpf_get_socket_ptr_cookie);
   ("bpf_get_socket_cookie_sock_ops", btf_bpf_get_socket_cookie_sock_ops);
   ("bpf_get_netns_cookie_sock", btf_bpf_get_netns_cookie_sock);
   ("bpf_get_netns_cookie_sock_addr", btf_bpf_get_netns_cookie_sock_addr);
   ("bpf_get_netns_cookie_sock_ops", btf_bpf_get_netns_cookie_sock_ops);
   ("bpf_get_netns_cookie_sk_msg", btf_bpf_get_netns_cookie_sk_msg);
   ("bpf_get_socket_uid", btf_bpf_get_socket_uid);
   ("bpf_sk_setsockopt", btf_bpf_sk_setsockopt);
   ("bpf_sk_getsockopt", btf_bpf_sk_getsockopt);
   ("bpf_unlocked_sk_setsockopt", btf_bpf_unlocked_sk_setsockopt);
   ("bpf_unlocked_sk_getsockopt", btf_bpf_unlocked_sk_getsockopt);
   ("bpf_sock_addr_setsockopt", btf_bpf_sock_addr_setsockopt);
   ("bpf_sock_addr_getsockopt", btf_bpf_sock_addr_getsockopt);
   ("bpf_sock_ops_setsockopt", btf_bpf_sock_ops_setsockopt);
   ("bpf_sock_ops_getsockopt", btf_bpf_sock_ops_getsockopt);
   ("bpf_sock_ops_cb_flags_set", btf_bpf_sock_ops_cb_flags_set);
   ("bpf_bind", btf_bpf_bind);
   ("bpf_skb_get_xfrm_state", btf_bpf_skb_get_xfrm_state);
   ("bpf_xdp_fib_lookup", btf_bpf_xdp_fib_lookup);
   ("bpf_skb_fib_lookup", btf_bpf_skb_fib_lookup);
   ("bpf_skb_check_mtu", btf_bpf_skb_check_mtu);
   ("bpf_xdp_check_mtu", btf_bpf_xdp_check_mtu);
   ("bpf_lwt_in_push_encap", btf_bpf_lwt_in_push_encap);
   ("bpf_lwt_xmit_push_encap", btf_bpf_lwt_xmit_push_encap);
   ("bpf_lwt_seg6_store_bytes", btf_bpf_lwt_seg6_store_bytes);
   ("bpf_lwt_seg6_action", btf_bpf_lwt_seg6_action);
   ("bpf_lwt_seg6_adjust_srh", btf_bpf_lwt_seg6_adjust_srh);
   ("bpf_skc_lookup_tcp", btf_bpf_skc_lookup_tcp);
   ("bpf_sk_lookup_tcp", btf_bpf_sk_lookup_tcp);
   ("bpf_sk_lookup_udp", btf_bpf_sk_lookup_udp);
   ("bpf_tc_skc_lookup_tcp", btf_bpf_tc_skc_lookup_tcp);
   ("bpf_tc_sk_lookup_tcp", btf_bpf_tc_sk_lookup_tcp);
   ("bpf_tc_sk_lookup_udp", btf_bpf_tc_sk_lookup_udp);
   ("bpf_sk_release", btf_bpf_sk_release);
   ("bpf_xdp_sk_lookup_udp", btf_bpf_xdp_sk_lookup_udp);
   ("bpf_xdp_skc_lookup_tcp", btf_bpf_xdp_skc_lookup_tcp);
   ("bpf_xdp_sk_lookup_tcp", btf_bpf_xdp_sk_lookup_tcp);
   ("bpf_sock_addr_skc_lookup_tcp", btf_bpf_sock_addr_skc_lookup_tcp);
   ("bpf_sock_addr_sk_lookup_tcp", btf_bpf_sock_addr_sk_lookup_tcp);
   ("bpf_sock_addr_sk_lookup_udp", btf_bpf_sock_addr_sk_lookup_udp);
   ("bpf_tcp_sock", btf_bpf_tcp_sock);
   ("bpf_get_listener_sock", btf_bpf_get_listener_sock);
   ("bpf_skb_ecn_set_ce", btf_bpf_skb_ecn_set_ce);
   ("bpf_tcp_check_syncookie", btf_bpf_tcp_check_syncookie);
   ("bpf_tcp_gen_syncookie", btf_bpf_tcp_gen_syncookie);
   ("bpf_sk_assign", btf_bpf_sk_assign);
   ("bpf_sock_ops_load_hdr_opt", btf_bpf_sock_ops_load_hdr_opt);
   ("bpf_sock_ops_store_hdr_opt", btf_bpf_sock_ops_store_hdr_opt);
   ("bpf_sock_ops_reserve_hdr_opt", btf_bpf_sock_ops_reserve_hdr_opt);
   ("bpf_skb_set_tstamp", btf_bpf_skb_set_tstamp);
   ("bpf_tcp_raw_gen_syncookie_ipv4", btf_bpf_tcp_raw_gen_syncookie_ipv4);
   ("bpf_tcp_raw_gen_syncookie_ipv6", btf_bpf_tcp_raw_gen_syncookie_ipv6);
   ("bpf_tcp_raw_check_syncookie_ipv4", btf_bpf_tcp_raw_check_syncookie_ipv4);
   ("bpf_tcp_raw_check_syncookie_ipv6", btf_bpf_tcp_raw_check_syncookie_ipv6);
   ("bpf_sk_lookup_assign", btf_bpf_sk_lookup_assign);
   ("bpf_skc_to_tcp6_sock", btf_bpf_skc_to_tcp6_sock);
   ("bpf_skc_to_tcp_sock", btf_bpf_skc_to_tcp_sock);
   ("bpf_skc_to_tcp_timewait_sock", btf_bpf_skc_to_tcp_timewait_sock);
   ("bpf_skc_to_tcp_request_sock", btf_bpf_skc_to_tcp_request_sock);
   ("bpf_skc_to_udp6_sock", btf_bpf_skc_to_udp6_sock);
   ("bpf_skc_to_unix_sock", btf_bpf_skc_to_unix_sock);
   ("bpf_skc_to_mptcp_sock", btf_bpf_skc_to_mptcp_sock);
   ("bpf_sock_from_file", btf_bpf_sock_from_file);
   ("bpf_sock_map_update", btf_bpf_sock_map_update);
   ("bpf_sk_redirect_map", btf_bpf_sk_redirect_map);
   ("bpf_msg_redirect_map", btf_bpf_msg_redirect_map);
   ("bpf_sock_hash_update", btf_bpf_sock_hash_update);
   ("bpf_sk_redirect_hash", btf_bpf_sk_redirect_hash);
   ("bpf_msg_redirect_hash", btf_bpf_msg_redirect_hash);
   ("bpf_override_return", btf_bpf_override_return);
   ("bpf_probe_read_user", btf_bpf_probe_read_user);
   ("bpf_probe_read_user_str", btf_bpf_probe_read_user_str);
   ("bpf_probe_read_kernel", btf_bpf_probe_read_kernel);
   ("bpf_probe_read_kernel_str", btf_bpf_probe_read_kernel_str);
   ("bpf_probe_read_compat", btf_bpf_probe_read_compat);
   ("bpf_probe_read_compat_str", btf_bpf_probe_read_compat_str);
   ("bpf_probe_write_user", btf_bpf_probe_write_user);
   ("bpf_trace_printk", btf_bpf_trace_printk);
   ("bpf_trace_vprintk", btf_bpf_trace_vprintk);
   ("bpf_seq_printf", btf_bpf_seq_printf);
   ("bpf_seq_write", btf_bpf_seq_write);
   ("bpf_seq_printf_btf", btf_bpf_seq_printf_btf);
   ("bpf_perf_event_read", btf_bpf_perf_event_read);
   ("bpf_perf_event_read_value", btf_bpf_perf_event_read_value);
   ("bpf_perf_event_output", btf_bpf_perf_event_output);
   ("bpf_get_current_task", btf_bpf_get_current_task);
   ("bpf_get_current_task_btf", btf_bpf_get_current_task_btf);
   ("bpf_task_pt_regs", btf_bpf_task_pt_regs);
   ("bpf_current_task_under_cgroup", btf_bpf_current_task_under_cgroup);
   ("bpf_send_signal", btf_bpf_send_signal);
   ("bpf_send_signal_thread", btf_bpf_send_signal_thread);
   ("bpf_d_path", btf_bpf_d_path);
   ("bpf_snprintf_btf", btf_bpf_snprintf_btf);
   ("bpf_get_func_ip_tracing", btf_bpf_get_func_ip_tracing);
   ("bpf_get_func_ip_kprobe", btf_bpf_get_func_ip_kprobe);
   ("bpf_get_func_ip_kprobe_multi", btf_bpf_get_func_ip_kprobe_multi);
   ("bpf_get_attach_cookie_kprobe_multi", btf_bpf_get_attach_cookie_kprobe_multi);
   ("bpf_get_func_ip_uprobe_multi", btf_bpf_get_func_ip_uprobe_multi);
   ("bpf_get_attach_cookie_uprobe_multi", btf_bpf_get_attach_cookie_uprobe_multi);
   ("bpf_get_attach_cookie_trace", btf_bpf_get_attach_cookie_trace);
   ("bpf_get_attach_cookie_pe", btf_bpf_get_attach_cookie_pe);
   ("bpf_get_attach_cookie_tracing", btf_bpf_get_attach_cookie_tracing);
   ("bpf_get_branch_snapshot", btf_bpf_get_branch_snapshot);
   ("bpf_perf_event_output_tp", btf_bpf_perf_event_output_tp);
   ("bpf_get_stackid_tp", btf_bpf_get_stackid_tp);
   ("bpf_get_stack_tp", btf_bpf_get_stack_tp);
   ("bpf_perf_prog_read_value", btf_bpf_perf_prog_read_value);
   ("bpf_read_branch_records", btf_bpf_read_branch_records);
   ("bpf_perf_event_output_raw_tp", btf_bpf_perf_event_output_raw_tp);
   ("bpf_get_stackid_raw_tp", btf_bpf_get_stackid_raw_tp);
   ("bpf_get_stack_raw_tp", btf_bpf_get_stack_raw_tp);
   ("bpf_user_rnd_u32", btf_bpf_user_rnd_u32);
   ("bpf_get_raw_cpu_id", btf_bpf_get_raw_cpu_id);
   ("bpf_find_vma", btf_bpf_find_vma);
   ("bpf_inode_storage_get", btf_bpf_inode_storage_get);
   ("bpf_inode_storage_delete", btf_bpf_inode_storage_delete);
   ("bpf_get_stackid", btf_bpf_get_stackid);
   ("bpf_get_stackid_pe", btf_bpf_get_stackid_pe);
   ("bpf_get_stack", btf_bpf_get_stack);
   ("bpf_get_task_stack", btf_bpf_get_task_stack);
   ("bpf_get_stack_pe", btf_bpf_get_stack_pe);
   ("bpf_map_lookup_elem", btf_bpf_map_lookup_elem);
   ("bpf_map_update_elem", btf_bpf_map_update_elem);
   ("bpf_map_delete_elem", btf_bpf_map_delete_elem);
   ("bpf_map_push_elem", btf_bpf_map_push_elem);
   ("bpf_map_pop_elem", btf_bpf_map_pop_elem);
   ("bpf_map_peek_elem", btf_bpf_map_peek_elem);
   ("bpf_map_lookup_percpu_elem", btf_bpf_map_lookup_percpu_elem);
   ("bpf_get_smp_processor_id", btf_bpf_get_smp_processor_id);
   ("bpf_get_numa_node_id", btf_bpf_get_numa_node_id);
   ("bpf_ktime_get_ns", btf_bpf_ktime_get_ns);
   ("bpf_ktime_get_boot_ns", btf_bpf_ktime_get_boot_ns);
   ("bpf_ktime_get_coarse_ns", btf_bpf_ktime_get_coarse_ns);
   ("bpf_ktime_get_tai_ns", btf_bpf_ktime_get_tai_ns);
   ("bpf_get_current_pid_tgid", btf_bpf_get_current_pid_tgid);
   ("bpf_get_current_uid_gid", btf_bpf_get_current_uid_gid);
   ("bpf_get_current_comm", btf_bpf_get_current_comm);
   ("bpf_spin_lock", btf_bpf_spin_lock);
   ("bpf_spin_unlock", btf_bpf_spin_unlock);
   ("bpf_jiffies64", btf_bpf_jiffies64);
   ("bpf_get_current_cgroup_id", btf_bpf_get_current_cgroup_id);
   ("bpf_get_current_ancestor_cgroup_id", btf_bpf_get_current_ancestor_cgroup_id);
   ("bpf_strtol", btf_bpf_strtol);
   ("bpf_strtoul", btf_bpf_strtoul);
   ("bpf_strncmp", btf_bpf_strncmp);
   ("bpf_get_ns_current_pid_tgid", btf_bpf_get_ns_current_pid_tgid);
   ("bpf_event_output_data", btf_bpf_event_output_data);
   ("bpf_copy_from_user", btf_bpf_copy_from_user);
   ("bpf_copy_from_user_task", btf_bpf_copy_from_user_task);
   ("bpf_per_cpu_ptr", btf_bpf_per_cpu_ptr);
   ("bpf_this_cpu_ptr", btf_bpf_this_cpu_ptr);
   ("bpf_snprintf", btf_bpf_snprintf);
   ("bpf_timer_init", btf_bpf_timer_init);
   ("bpf_timer_set_callback", btf_bpf_timer_set_callback);
   ("bpf_timer_start", btf_bpf_timer_start);
   ("bpf_timer_cancel", btf_bpf_timer_cancel);
   ("bpf_kptr_xchg", btf_bpf_kptr_xchg);
   ("bpf_dynptr_from_mem", btf_bpf_dynptr_from_mem);
   ("bpf_dynptr_read", btf_bpf_dynptr_read);
   ("bpf_dynptr_write", btf_bpf_dynptr_write);
   ("bpf_dynptr_data", btf_bpf_dynptr_data);
   ("bpf_ringbuf_reserve", btf_bpf_ringbuf_reserve);
   ("bpf_ringbuf_submit", btf_bpf_ringbuf_submit);
   ("bpf_ringbuf_discard", btf_bpf_ringbuf_discard);
   ("bpf_ringbuf_output", btf_bpf_ringbuf_output);
   ("bpf_ringbuf_query", btf_bpf_ringbuf_query);
   ("bpf_ringbuf_reserve_dynptr", btf_bpf_ringbuf_reserve_dynptr);
   ("bpf_ringbuf_submit_dynptr", btf_bpf_ringbuf_submit_dynptr);
   ("bpf_ringbuf_discard_dynptr", btf_bpf_ringbuf_discard_dynptr);
   ("bpf_user_ringbuf_drain", btf_bpf_user_ringbuf_drain);
   ("bpf_bprm_opts_set", btf_bpf_bprm_opts_set);
   ("bpf_ima_inode_hash", btf_bpf_ima_inode_hash);
   ("bpf_ima_file_hash", btf_bpf_ima_file_hash);
   ("bpf_get_attach_cookie", btf_bpf_get_attach_cookie);
   ("bpf_sk_storage_get", btf_bpf_sk_storage_get);
   ("bpf_sk_storage_delete", btf_bpf_sk_storage_delete);
   ("bpf_sk_storage_get_tracing", btf_bpf_sk_storage_get_tracing);
   ("bpf_sk_storage_delete_tracing", btf_bpf_sk_storage_delete_tracing);
   ("bpf_tcp_send_ack", btf_bpf_tcp_send_ack);
   ("bpf_sys_bpf", btf_bpf_sys_bpf);
   ("bpf_sys_close", btf_bpf_sys_close);
   ("bpf_kallsyms_lookup_name", btf_bpf_kallsyms_lookup_name);
   ("bpf_for_each_map_elem", btf_bpf_for_each_map_elem);
   ("bpf_loop", btf_bpf_loop);
   ("bpf_task_storage_get_recur", btf_bpf_task_storage_get_recur);
   ("bpf_task_storage_get", btf_bpf_task_storage_get);
   ("bpf_task_storage_delete_recur", btf_bpf_task_storage_delete_recur);
   ("bpf_task_storage_delete", btf_bpf_task_storage_delete);
   ("bpf_btf_find_by_name_kind", btf_bpf_btf_find_by_name_kind);
   ("bpf_cgrp_storage_get", btf_bpf_cgrp_storage_get);
   ("bpf_cgrp_storage_delete", btf_bpf_cgrp_storage_delete)].
