(* ===== verification/BpfHelperDefs.v ===== *)
(** * The BPF helper declarations

    [bpf_helper_defs.h]: each helper is a function pointer initialised with its
    call number, under a comment that
    states what the caller may rely on.  A definition here is one such
    declaration: the number, the C signature, and the documented class of the
    returned value.  [helper_table] is the header in its order; the number is
    what the compiled program's call instruction carries.  The kernel's own
    numbers and types for its helpers are those of [VmlinuxBpfX86] and
    [VmlinuxBpfArm64]. *)
From S2P Require Import Prelude CTypes.
From S2P Require VmlinuxBpfX86 VmlinuxBpfArm64.

(** Integer types named by the signatures. *)
Definition __u16 : ctype := TInt IUShort.
Definition __u32 : ctype := TInt IUInt.
Definition __u64 : ctype := TInt IULLong.
Definition __s32 : ctype := TInt IInt.
Definition __s64 : ctype := TInt ILLong.
Definition __be16 : ctype := __u16.
Definition __be32 : ctype := __u32.
Definition __wsum : ctype := __u32.

(** What the "Returns" paragraph of a helper promises about its value. *)
Inductive returns :=
  | RetNothing      (* no value *)
  | RetZero         (* always 0 *)
  | RetZeroOrNeg    (* 0 on success, a negative error otherwise *)
  | RetCountOrNeg   (* a number on success, a negative error otherwise *)
  | RetValue        (* a value, with no error reported *)
  | RetVerdict      (* a packet verdict *)
  | RetPtrOrNull    (* a pointer, or NULL *)
  | RetPtr.         (* a pointer *)

Record helper := {
  h_number : Z;
  h_name : string;
  h_ret : option ctype;
  h_args : list (string * ctype);
  h_variadic : bool;
  h_returns : returns;
}.

(** The values a class of return admits, read as signed 64-bit numbers
    (pointers as unsigned addresses). *)
Definition may_return (r : returns) (v : Z) : Prop :=
  match r with
  | RetNothing => True
  | RetZero => v = 0
  | RetZeroOrNeg => v <= 0
  | RetCountOrNeg | RetValue | RetVerdict => True
  | RetPtrOrNull => 0 <= v
  | RetPtr => 0 < v
  end.

(** ** The declarations *)

Definition bpf_map_lookup_elem : helper :=
  {| h_number := 1; h_name := "bpf_map_lookup_elem";
     h_ret := Some (TPtr "void"); h_args := [("map", (TPtr "void")); ("key", (TPtr "const void"))];
     h_variadic := false; h_returns := RetPtrOrNull |}.

Definition bpf_map_update_elem : helper :=
  {| h_number := 2; h_name := "bpf_map_update_elem";
     h_ret := Some (TInt ILong); h_args := [("map", (TPtr "void")); ("key", (TPtr "const void")); ("value", (TPtr "const void")); ("flags", __u64)];
     h_variadic := false; h_returns := RetZeroOrNeg |}.

Definition bpf_map_delete_elem : helper :=
  {| h_number := 3; h_name := "bpf_map_delete_elem";
     h_ret := Some (TInt ILong); h_args := [("map", (TPtr "void")); ("key", (TPtr "const void"))];
     h_variadic := false; h_returns := RetZeroOrNeg |}.

Definition bpf_probe_read : helper :=
  {| h_number := 4; h_name := "bpf_probe_read";
     h_ret := Some (TInt ILong); h_args := [("dst", (TPtr "void")); ("size", __u32); ("unsafe_ptr", (TPtr "const void"))];
     h_variadic := false; h_returns := RetZeroOrNeg |}.

Definition bpf_ktime_get_ns : helper :=
  {| h_number := 5; h_name := "bpf_ktime_get_ns";
     h_ret := Some __u64; h_args := [];
     h_variadic := false; h_returns := RetValue |}.

Definition bpf_trace_printk : helper :=
  {| h_number := 6; h_name := "bpf_trace_printk";
     h_ret := Some (TInt ILong); h_args := [("fmt", (TPtr "const char")); ("fmt_size", __u32)];
     h_variadic := true; h_returns := RetCountOrNeg |}.

Definition bpf_get_prandom_u32 : helper :=
  {| h_number := 7; h_name := "bpf_get_prandom_u32";
     h_ret := Some __u32; h_args := [];
     h_variadic := false; h_returns := RetValue |}.

Definition bpf_get_smp_processor_id : helper :=
  {| h_number := 8; h_name := "bpf_get_smp_processor_id";
     h_ret := Some __u32; h_args := [];
     h_variadic := false; h_returns := RetValue |}.

Definition bpf_skb_store_bytes : helper :=
  {| h_number := 9; h_name := "bpf_skb_store_bytes";
     h_ret := Some (TInt ILong); h_args := [("skb", (TPtr "struct __sk_buff")); ("offset", __u32); ("from", (TPtr "const void")); ("len", __u32); ("flags", __u64)];
     h_variadic := false; h_returns := RetZeroOrNeg |}.

Definition bpf_l3_csum_replace : helper :=
  {| h_number := 10; h_name := "bpf_l3_csum_replace";
     h_ret := Some (TInt ILong); h_args := [("skb", (TPtr "struct __sk_buff")); ("offset", __u32); ("from", __u64); ("to", __u64); ("size", __u64)];
     h_variadic := false; h_returns := RetZeroOrNeg |}.

Definition bpf_l4_csum_replace : helper :=
  {| h_number := 11; h_name := "bpf_l4_csum_replace";
     h_ret := Some (TInt ILong); h_args := [("skb", (TPtr "struct __sk_buff")); ("offset", __u32); ("from", __u64); ("to", __u64); ("flags", __u64)];
     h_variadic := false; h_returns := RetZeroOrNeg |}.

Definition bpf_tail_call : helper :=
  {| h_number := 12; h_name := "bpf_tail_call";
     h_ret := Some (TInt ILong); h_args := [("ctx", (TPtr "void")); ("prog_array_map", (TPtr "void")); ("index", __u32)];
     h_variadic := false; h_returns := RetZeroOrNeg |}.

Definition bpf_clone_redirect : helper :=
  {| h_number := 13; h_name := "bpf_clone_redirect";
     h_ret := Some (TInt ILong); h_args := [("skb", (TPtr "struct __sk_buff")); ("ifindex", __u32); ("flags", __u64)];
     h_variadic := false; h_returns := RetZeroOrNeg |}.

Definition bpf_get_current_pid_tgid : helper :=
  {| h_number := 14; h_name := "bpf_get_current_pid_tgid";
     h_ret := Some __u64; h_args := [];
     h_variadic := false; h_returns := RetValue |}.

Definition bpf_get_current_uid_gid : helper :=
  {| h_number := 15; h_name := "bpf_get_current_uid_gid";
     h_ret := Some __u64; h_args := [];
     h_variadic := false; h_returns := RetValue |}.

Definition bpf_get_current_comm : helper :=
  {| h_number := 16; h_name := "bpf_get_current_comm";
     h_ret := Some (TInt ILong); h_args := [("buf", (TPtr "void")); ("size_of_buf", __u32)];
     h_variadic := false; h_returns := RetZeroOrNeg |}.

Definition bpf_get_cgroup_classid : helper :=
  {| h_number := 17; h_name := "bpf_get_cgroup_classid";
     h_ret := Some __u32; h_args := [("skb", (TPtr "struct __sk_buff"))];
     h_variadic := false; h_returns := RetValue |}.

Definition bpf_skb_vlan_push : helper :=
  {| h_number := 18; h_name := "bpf_skb_vlan_push";
     h_ret := Some (TInt ILong); h_args := [("skb", (TPtr "struct __sk_buff")); ("vlan_proto", __be16); ("vlan_tci", __u16)];
     h_variadic := false; h_returns := RetZeroOrNeg |}.

Definition bpf_skb_vlan_pop : helper :=
  {| h_number := 19; h_name := "bpf_skb_vlan_pop";
     h_ret := Some (TInt ILong); h_args := [("skb", (TPtr "struct __sk_buff"))];
     h_variadic := false; h_returns := RetZeroOrNeg |}.

Definition bpf_skb_get_tunnel_key : helper :=
  {| h_number := 20; h_name := "bpf_skb_get_tunnel_key";
     h_ret := Some (TInt ILong); h_args := [("skb", (TPtr "struct __sk_buff")); ("key", (TPtr "struct bpf_tunnel_key")); ("size", __u32); ("flags", __u64)];
     h_variadic := false; h_returns := RetZeroOrNeg |}.

Definition bpf_skb_set_tunnel_key : helper :=
  {| h_number := 21; h_name := "bpf_skb_set_tunnel_key";
     h_ret := Some (TInt ILong); h_args := [("skb", (TPtr "struct __sk_buff")); ("key", (TPtr "struct bpf_tunnel_key")); ("size", __u32); ("flags", __u64)];
     h_variadic := false; h_returns := RetZeroOrNeg |}.

Definition bpf_perf_event_read : helper :=
  {| h_number := 22; h_name := "bpf_perf_event_read";
     h_ret := Some __u64; h_args := [("map", (TPtr "void")); ("flags", __u64)];
     h_variadic := false; h_returns := RetCountOrNeg |}.

Definition bpf_redirect : helper :=
  {| h_number := 23; h_name := "bpf_redirect";
     h_ret := Some (TInt ILong); h_args := [("ifindex", __u32); ("flags", __u64)];
     h_variadic := false; h_returns := RetVerdict |}.

Definition bpf_get_route_realm : helper :=
  {| h_number := 24; h_name := "bpf_get_route_realm";
     h_ret := Some __u32; h_args := [("skb", (TPtr "struct __sk_buff"))];
     h_variadic := false; h_returns := RetValue |}.

Definition bpf_perf_event_output : helper :=
  {| h_number := 25; h_name := "bpf_perf_event_output";
     h_ret := Some (TInt ILong); h_args := [("ctx", (TPtr "void")); ("map", (TPtr "void")); ("flags", __u64); ("data", (TPtr "void")); ("size", __u64)];
     h_variadic := false; h_returns := RetZeroOrNeg |}.

Definition bpf_skb_load_bytes : helper :=
  {| h_number := 26; h_name := "bpf_skb_load_bytes";
     h_ret := Some (TInt ILong); h_args := [("skb", (TPtr "const void")); ("offset", __u32); ("to", (TPtr "void")); ("len", __u32)];
     h_variadic := false; h_returns := RetZeroOrNeg |}.

Definition bpf_get_stackid : helper :=
  {| h_number := 27; h_name := "bpf_get_stackid";
     h_ret := Some (TInt ILong); h_args := [("ctx", (TPtr "void")); ("map", (TPtr "void")); ("flags", __u64)];
     h_variadic := false; h_returns := RetCountOrNeg |}.

Definition bpf_csum_diff : helper :=
  {| h_number := 28; h_name := "bpf_csum_diff";
     h_ret := Some __s64; h_args := [("from", (TPtr "__be32")); ("from_size", __u32); ("to", (TPtr "__be32")); ("to_size", __u32); ("seed", __wsum)];
     h_variadic := false; h_returns := RetCountOrNeg |}.

Definition bpf_skb_get_tunnel_opt : helper :=
  {| h_number := 29; h_name := "bpf_skb_get_tunnel_opt";
     h_ret := Some (TInt ILong); h_args := [("skb", (TPtr "struct __sk_buff")); ("opt", (TPtr "void")); ("size", __u32)];
     h_variadic := false; h_returns := RetValue |}.

Definition bpf_skb_set_tunnel_opt : helper :=
  {| h_number := 30; h_name := "bpf_skb_set_tunnel_opt";
     h_ret := Some (TInt ILong); h_args := [("skb", (TPtr "struct __sk_buff")); ("opt", (TPtr "void")); ("size", __u32)];
     h_variadic := false; h_returns := RetZeroOrNeg |}.

Definition bpf_skb_change_proto : helper :=
  {| h_number := 31; h_name := "bpf_skb_change_proto";
     h_ret := Some (TInt ILong); h_args := [("skb", (TPtr "struct __sk_buff")); ("proto", __be16); ("flags", __u64)];
     h_variadic := false; h_returns := RetZeroOrNeg |}.

Definition bpf_skb_change_type : helper :=
  {| h_number := 32; h_name := "bpf_skb_change_type";
     h_ret := Some (TInt ILong); h_args := [("skb", (TPtr "struct __sk_buff")); ("type", __u32)];
     h_variadic := false; h_returns := RetZeroOrNeg |}.

Definition bpf_skb_under_cgroup : helper :=
  {| h_number := 33; h_name := "bpf_skb_under_cgroup";
     h_ret := Some (TInt ILong); h_args := [("skb", (TPtr "struct __sk_buff")); ("map", (TPtr "void")); ("index", __u32)];
     h_variadic := false; h_returns := RetCountOrNeg |}.

Definition bpf_get_hash_recalc : helper :=
  {| h_number := 34; h_name := "bpf_get_hash_recalc";
     h_ret := Some __u32; h_args := [("skb", (TPtr "struct __sk_buff"))];
     h_variadic := false; h_returns := RetValue |}.

Definition bpf_get_current_task : helper :=
  {| h_number := 35; h_name := "bpf_get_current_task";
     h_ret := Some __u64; h_args := [];
     h_variadic := false; h_returns := RetValue |}.

Definition bpf_probe_write_user : helper :=
  {| h_number := 36; h_name := "bpf_probe_write_user";
     h_ret := Some (TInt ILong); h_args := [("dst", (TPtr "void")); ("src", (TPtr "const void")); ("len", __u32)];
     h_variadic := false; h_returns := RetZeroOrNeg |}.

Definition bpf_current_task_under_cgroup : helper :=
  {| h_number := 37; h_name := "bpf_current_task_under_cgroup";
     h_ret := Some (TInt ILong); h_args := [("map", (TPtr "void")); ("index", __u32)];
     h_variadic := false; h_returns := RetCountOrNeg |}.

Definition bpf_skb_change_tail : helper :=
  {| h_number := 38; h_name := "bpf_skb_change_tail";
     h_ret := Some (TInt ILong); h_args := [("skb", (TPtr "struct __sk_buff")); ("len", __u32); ("flags", __u64)];
     h_variadic := false; h_returns := RetZeroOrNeg |}.

Definition bpf_skb_pull_data : helper :=
  {| h_number := 39; h_name := "bpf_skb_pull_data";
     h_ret := Some (TInt ILong); h_args := [("skb", (TPtr "struct __sk_buff")); ("len", __u32)];
     h_variadic := false; h_returns := RetZeroOrNeg |}.

Definition bpf_csum_update : helper :=
  {| h_number := 40; h_name := "bpf_csum_update";
     h_ret := Some __s64; h_args := [("skb", (TPtr "struct __sk_buff")); ("csum", __wsum)];
     h_variadic := false; h_returns := RetCountOrNeg |}.

Definition bpf_set_hash_invalid : helper :=
  {| h_number := 41; h_name := "bpf_set_hash_invalid";
     h_ret := None; h_args := [("skb", (TPtr "struct __sk_buff"))];
     h_variadic := false; h_returns := RetNothing |}.

Definition bpf_get_numa_node_id : helper :=
  {| h_number := 42; h_name := "bpf_get_numa_node_id";
     h_ret := Some (TInt ILong); h_args := [];
     h_variadic := false; h_returns := RetValue |}.

Definition bpf_skb_change_head : helper :=
  {| h_number := 43; h_name := "bpf_skb_change_head";
     h_ret := Some (TInt ILong); h_args := [("skb", (TPtr "struct __sk_buff")); ("len", __u32); ("flags", __u64)];
     h_variadic := false; h_returns := RetZeroOrNeg |}.

Definition bpf_xdp_adjust_head : helper :=
  {| h_number := 44; h_name := "bpf_xdp_adjust_head";
     h_ret := Some (TInt ILong); h_args := [("xdp_md", (TPtr "struct xdp_md")); ("delta", (TInt IInt))];
     h_variadic := false; h_returns := RetZeroOrNeg |}.

Definition bpf_probe_read_str : helper :=
  {| h_number := 45; h_name := "bpf_probe_read_str";
     h_ret := Some (TInt ILong); h_args := [("dst", (TPtr "void")); ("size", __u32); ("unsafe_ptr", (TPtr "const void"))];
     h_variadic := false; h_returns := RetCountOrNeg |}.

Definition bpf_get_socket_cookie : helper :=
  {| h_number := 46; h_name := "bpf_get_socket_cookie";
     h_ret := Some __u64; h_args := [("ctx", (TPtr "void"))];
     h_variadic := false; h_returns := RetValue |}.

Definition bpf_get_socket_uid : helper :=
  {| h_number := 47; h_name := "bpf_get_socket_uid";
     h_ret := Some __u32; h_args := [("skb", (TPtr "struct __sk_buff"))];
     h_variadic := false; h_returns := RetValue |}.

Definition bpf_set_hash : helper :=
  {| h_number := 48; h_name := "bpf_set_hash";
     h_ret := Some (TInt ILong); h_args := [("skb", (TPtr "struct __sk_buff")); ("hash", __u32)];
     h_variadic := false; h_returns := RetZero |}.

Definition bpf_setsockopt : helper :=
  {| h_number := 49; h_name := "bpf_setsockopt";
     h_ret := Some (TInt ILong); h_args := [("bpf_socket", (TPtr "void")); ("level", (TInt IInt)); ("optname", (TInt IInt)); ("optval", (TPtr "void")); ("optlen", (TInt IInt))];
     h_variadic := false; h_returns := RetZeroOrNeg |}.

Definition bpf_skb_adjust_room : helper :=
  {| h_number := 50; h_name := "bpf_skb_adjust_room";
     h_ret := Some (TInt ILong); h_args := [("skb", (TPtr "struct __sk_buff")); ("len_diff", __s32); ("mode", __u32); ("flags", __u64)];
     h_variadic := false; h_returns := RetZeroOrNeg |}.

Definition bpf_redirect_map : helper :=
  {| h_number := 51; h_name := "bpf_redirect_map";
     h_ret := Some (TInt ILong); h_args := [("map", (TPtr "void")); ("key", __u32); ("flags", __u64)];
     h_variadic := false; h_returns := RetVerdict |}.

Definition bpf_sk_redirect_map : helper :=
  {| h_number := 52; h_name := "bpf_sk_redirect_map";
     h_ret := Some (TInt ILong); h_args := [("skb", (TPtr "struct __sk_buff")); ("map", (TPtr "void")); ("key", __u32); ("flags", __u64)];
     h_variadic := false; h_returns := RetVerdict |}.

Definition bpf_sock_map_update : helper :=
  {| h_number := 53; h_name := "bpf_sock_map_update";
     h_ret := Some (TInt ILong); h_args := [("skops", (TPtr "struct bpf_sock_ops")); ("map", (TPtr "void")); ("key", (TPtr "void")); ("flags", __u64)];
     h_variadic := false; h_returns := RetZeroOrNeg |}.

Definition bpf_xdp_adjust_meta : helper :=
  {| h_number := 54; h_name := "bpf_xdp_adjust_meta";
     h_ret := Some (TInt ILong); h_args := [("xdp_md", (TPtr "struct xdp_md")); ("delta", (TInt IInt))];
     h_variadic := false; h_returns := RetZeroOrNeg |}.

Definition bpf_perf_event_read_value : helper :=
  {| h_number := 55; h_name := "bpf_perf_event_read_value";
     h_ret := Some (TInt ILong); h_args := [("map", (TPtr "void")); ("flags", __u64); ("buf", (TPtr "struct bpf_perf_event_value")); ("buf_size", __u32)];
     h_variadic := false; h_returns := RetZeroOrNeg |}.

Definition bpf_perf_prog_read_value : helper :=
  {| h_number := 56; h_name := "bpf_perf_prog_read_value";
     h_ret := Some (TInt ILong); h_args := [("ctx", (TPtr "struct bpf_perf_event_data")); ("buf", (TPtr "struct bpf_perf_event_value")); ("buf_size", __u32)];
     h_variadic := false; h_returns := RetZeroOrNeg |}.

Definition bpf_getsockopt : helper :=
  {| h_number := 57; h_name := "bpf_getsockopt";
     h_ret := Some (TInt ILong); h_args := [("bpf_socket", (TPtr "void")); ("level", (TInt IInt)); ("optname", (TInt IInt)); ("optval", (TPtr "void")); ("optlen", (TInt IInt))];
     h_variadic := false; h_returns := RetZeroOrNeg |}.

Definition bpf_override_return : helper :=
  {| h_number := 58; h_name := "bpf_override_return";
     h_ret := Some (TInt ILong); h_args := [("regs", (TPtr "struct pt_regs")); ("rc", __u64)];
     h_variadic := false; h_returns := RetZero |}.

Definition bpf_sock_ops_cb_flags_set : helper :=
  {| h_number := 59; h_name := "bpf_sock_ops_cb_flags_set";
     h_ret := Some (TInt ILong); h_args := [("bpf_sock", (TPtr "struct bpf_sock_ops")); ("argval", (TInt IInt))];
     h_variadic := false; h_returns := RetCountOrNeg |}.

Definition bpf_msg_redirect_map : helper :=
  {| h_number := 60; h_name := "bpf_msg_redirect_map";
     h_ret := Some (TInt ILong); h_args := [("msg", (TPtr "struct sk_msg_md")); ("map", (TPtr "void")); ("key", __u32); ("flags", __u64)];
     h_variadic := false; h_returns := RetVerdict |}.

Definition bpf_msg_apply_bytes : helper :=
  {| h_number := 61; h_name := "bpf_msg_apply_bytes";
     h_ret := Some (TInt ILong); h_args := [("msg", (TPtr "struct sk_msg_md")); ("bytes", __u32)];
     h_variadic := false; h_returns := RetZero |}.

Definition bpf_msg_cork_bytes : helper :=
  {| h_number := 62; h_name := "bpf_msg_cork_bytes";
     h_ret := Some (TInt ILong); h_args := [("msg", (TPtr "struct sk_msg_md")); ("bytes", __u32)];
     h_variadic := false; h_returns := RetZero |}.

Definition bpf_msg_pull_data : helper :=
  {| h_number := 63; h_name := "bpf_msg_pull_data";
     h_ret := Some (TInt ILong); h_args := [("msg", (TPtr "struct sk_msg_md")); ("start", __u32); ("end", __u32); ("flags", __u64)];
     h_variadic := false; h_returns := RetZeroOrNeg |}.

Definition bpf_bind : helper :=
  {| h_number := 64; h_name := "bpf_bind";
     h_ret := Some (TInt ILong); h_args := [("ctx", (TPtr "struct bpf_sock_addr")); ("addr", (TPtr "struct sockaddr")); ("addr_len", (TInt IInt))];
     h_variadic := false; h_returns := RetZeroOrNeg |}.

Definition bpf_xdp_adjust_tail : helper :=
  {| h_number := 65; h_name := "bpf_xdp_adjust_tail";
     h_ret := Some (TInt ILong); h_args := [("xdp_md", (TPtr "struct xdp_md")); ("delta", (TInt IInt))];
     h_variadic := false; h_returns := RetZeroOrNeg |}.

Definition bpf_skb_get_xfrm_state : helper :=
  {| h_number := 66; h_name := "bpf_skb_get_xfrm_state";
     h_ret := Some (TInt ILong); h_args := [("skb", (TPtr "struct __sk_buff")); ("index", __u32); ("xfrm_state", (TPtr "struct bpf_xfrm_state")); ("size", __u32); ("flags", __u64)];
     h_variadic := false; h_returns := RetZeroOrNeg |}.

Definition bpf_get_stack : helper :=
  {| h_number := 67; h_name := "bpf_get_stack";
     h_ret := Some (TInt ILong); h_args := [("ctx", (TPtr "void")); ("buf", (TPtr "void")); ("size", __u32); ("flags", __u64)];
     h_variadic := false; h_returns := RetCountOrNeg |}.

Definition bpf_skb_load_bytes_relative : helper :=
  {| h_number := 68; h_name := "bpf_skb_load_bytes_relative";
     h_ret := Some (TInt ILong); h_args := [("skb", (TPtr "const void")); ("offset", __u32); ("to", (TPtr "void")); ("len", __u32); ("start_header", __u32)];
     h_variadic := false; h_returns := RetZeroOrNeg |}.

Definition bpf_fib_lookup : helper :=
  {| h_number := 69; h_name := "bpf_fib_lookup";
     h_ret := Some (TInt ILong); h_args := [("ctx", (TPtr "void")); ("params", (TPtr "struct bpf_fib_lookup")); ("plen", (TInt IInt)); ("flags", __u32)];
     h_variadic := false; h_returns := RetCountOrNeg |}.

Definition bpf_sock_hash_update : helper :=
  {| h_number := 70; h_name := "bpf_sock_hash_update";
     h_ret := Some (TInt ILong); h_args := [("skops", (TPtr "struct bpf_sock_ops")); ("map", (TPtr "void")); ("key", (TPtr "void")); ("flags", __u64)];
     h_variadic := false; h_returns := RetZeroOrNeg |}.

Definition bpf_msg_redirect_hash : helper :=
  {| h_number := 71; h_name := "bpf_msg_redirect_hash";
     h_ret := Some (TInt ILong); h_args := [("msg", (TPtr "struct sk_msg_md")); ("map", (TPtr "void")); ("key", (TPtr "void")); ("flags", __u64)];
     h_variadic := false; h_returns := RetVerdict |}.

Definition bpf_sk_redirect_hash : helper :=
  {| h_number := 72; h_name := "bpf_sk_redirect_hash";
     h_ret := Some (TInt ILong); h_args := [("skb", (TPtr "struct __sk_buff")); ("map", (TPtr "void")); ("key", (TPtr "void")); ("flags", __u64)];
     h_variadic := false; h_returns := RetVerdict |}.

Definition bpf_lwt_push_encap : helper :=
  {| h_number := 73; h_name := "bpf_lwt_push_encap";
     h_ret := Some (TInt ILong); h_args := [("skb", (TPtr "struct __sk_buff")); ("type", __u32); ("hdr", (TPtr "void")); ("len", __u32)];
     h_variadic := false; h_returns := RetZeroOrNeg |}.

Definition bpf_lwt_seg6_store_bytes : helper :=
  {| h_number := 74; h_name := "bpf_lwt_seg6_store_bytes";
     h_ret := Some (TInt ILong); h_args := [("skb", (TPtr "struct __sk_buff")); ("offset", __u32); ("from", (TPtr "const void")); ("len", __u32)];
     h_variadic := false; h_returns := RetZeroOrNeg |}.

Definition bpf_lwt_seg6_adjust_srh : helper :=
  {| h_number := 75; h_name := "bpf_lwt_seg6_adjust_srh";
     h_ret := Some (TInt ILong); h_args := [("skb", (TPtr "struct __sk_buff")); ("offset", __u32); ("delta", __s32)];
     h_variadic := false; h_returns := RetZeroOrNeg |}.

Definition bpf_lwt_seg6_action : helper :=
  {| h_number := 76; h_name := "bpf_lwt_seg6_action";
     h_ret := Some (TInt ILong); h_args := [("skb", (TPtr "struct __sk_buff")); ("action", __u32); ("param", (TPtr "void")); ("param_len", __u32)];
     h_variadic := false; h_returns := RetZeroOrNeg |}.

Definition bpf_rc_repeat : helper :=
  {| h_number := 77; h_name := "bpf_rc_repeat";
     h_ret := Some (TInt ILong); h_args := [("ctx", (TPtr "void"))];
     h_variadic := false; h_returns := RetZero |}.

Definition bpf_rc_keydown : helper :=
  {| h_number := 78; h_name := "bpf_rc_keydown";
     h_ret := Some (TInt ILong); h_args := [("ctx", (TPtr "void")); ("protocol", __u32); ("scancode", __u64); ("toggle", __u32)];
     h_variadic := false; h_returns := RetZero |}.

Definition bpf_skb_cgroup_id : helper :=
  {| h_number := 79; h_name := "bpf_skb_cgroup_id";
     h_ret := Some __u64; h_args := [("skb", (TPtr "struct __sk_buff"))];
     h_variadic := false; h_returns := RetValue |}.

Definition bpf_get_current_cgroup_id : helper :=
  {| h_number := 80; h_name := "bpf_get_current_cgroup_id";
     h_ret := Some __u64; h_args := [];
     h_variadic := false; h_returns := RetValue |}.

Definition bpf_get_local_storage : helper :=
  {| h_number := 81; h_name := "bpf_get_local_storage";
     h_ret := Some (TPtr "void"); h_args := [("map", (TPtr "void")); ("flags", __u64)];
     h_variadic := false; h_returns := RetPtr |}.

Definition bpf_sk_select_reuseport : helper :=
  {| h_number := 82; h_name := "bpf_sk_select_reuseport";
     h_ret := Some (TInt ILong); h_args := [("reuse", (TPtr "struct sk_reuseport_md")); ("map", (TPtr "void")); ("key", (TPtr "void")); ("flags", __u64)];
     h_variadic := false; h_returns := RetZeroOrNeg |}.

Definition bpf_skb_ancestor_cgroup_id : helper :=
  {| h_number := 83; h_name := "bpf_skb_ancestor_cgroup_id";
     h_ret := Some __u64; h_args := [("skb", (TPtr "struct __sk_buff")); ("ancestor_level", (TInt IInt))];
     h_variadic := false; h_returns := RetValue |}.

Definition bpf_sk_lookup_tcp : helper :=
  {| h_number := 84; h_name := "bpf_sk_lookup_tcp";
     h_ret := Some (TPtr "struct bpf_sock"); h_args := [("ctx", (TPtr "void")); ("tuple", (TPtr "struct bpf_sock_tuple")); ("tuple_size", __u32); ("netns", __u64); ("flags", __u64)];
     h_variadic := false; h_returns := RetPtrOrNull |}.

Definition bpf_sk_lookup_udp : helper :=
  {| h_number := 85; h_name := "bpf_sk_lookup_udp";
     h_ret := Some (TPtr "struct bpf_sock"); h_args := [("ctx", (TPtr "void")); ("tuple", (TPtr "struct bpf_sock_tuple")); ("tuple_size", __u32); ("netns", __u64); ("flags", __u64)];
     h_variadic := false; h_returns := RetPtrOrNull |}.

Definition bpf_sk_release : helper :=
  {| h_number := 86; h_name := "bpf_sk_release";
     h_ret := Some (TInt ILong); h_args := [("sock", (TPtr "void"))];
     h_variadic := false; h_returns := RetZeroOrNeg |}.

Definition bpf_map_push_elem : helper :=
  {| h_number := 87; h_name := "bpf_map_push_elem";
     h_ret := Some (TInt ILong); h_args := [("map", (TPtr "void")); ("value", (TPtr "const void")); ("flags", __u64)];
     h_variadic := false; h_returns := RetZeroOrNeg |}.

Definition bpf_map_pop_elem : helper :=
  {| h_number := 88; h_name := "bpf_map_pop_elem";
     h_ret := Some (TInt ILong); h_args := [("map", (TPtr "void")); ("value", (TPtr "void"))];
     h_variadic := false; h_returns := RetZeroOrNeg |}.

Definition bpf_map_peek_elem : helper :=
  {| h_number := 89; h_name := "bpf_map_peek_elem";
     h_ret := Some (TInt ILong); h_args := [("map", (TPtr "void")); ("value", (TPtr "void"))];
     h_variadic := false; h_returns := RetZeroOrNeg |}.

Definition bpf_msg_push_data : helper :=
  {| h_number := 90; h_name := "bpf_msg_push_data";
     h_ret := Some (TInt ILong); h_args := [("msg", (TPtr "struct sk_msg_md")); ("start", __u32); ("len", __u32); ("flags", __u64)];
     h_variadic := false; h_returns := RetZeroOrNeg |}.

Definition bpf_msg_pop_data : helper :=
  {| h_number := 91; h_name := "bpf_msg_pop_data";
     h_ret := Some (TInt ILong); h_args := [("msg", (TPtr "struct sk_msg_md")); ("start", __u32); ("len", __u32); ("flags", __u64)];
     h_variadic := false; h_returns := RetZeroOrNeg |}.

Definition bpf_rc_pointer_rel : helper :=
  {| h_number := 92; h_name := "bpf_rc_pointer_rel";
     h_ret := Some (TInt ILong); h_args := [("ctx", (TPtr "void")); ("rel_x", __s32); ("rel_y", __s32)];
     h_variadic := false; h_returns := RetZero |}.

Definition bpf_spin_lock : helper :=
  {| h_number := 93; h_name := "bpf_spin_lock";
     h_ret := Some (TInt ILong); h_args := [("lock", (TPtr "struct bpf_spin_lock"))];
     h_variadic := false; h_returns := RetZero |}.

Definition bpf_spin_unlock : helper :=
  {| h_number := 94; h_name := "bpf_spin_unlock";
     h_ret := Some (TInt ILong); h_args := [("lock", (TPtr "struct bpf_spin_lock"))];
     h_variadic := false; h_returns := RetZero |}.

Definition bpf_sk_fullsock : helper :=
  {| h_number := 95; h_name := "bpf_sk_fullsock";
     h_ret := Some (TPtr "struct bpf_sock"); h_args := [("sk", (TPtr "struct bpf_sock"))];
     h_variadic := false; h_returns := RetPtrOrNull |}.

Definition bpf_tcp_sock : helper :=
  {| h_number := 96; h_name := "bpf_tcp_sock";
     h_ret := Some (TPtr "struct bpf_tcp_sock"); h_args := [("sk", (TPtr "struct bpf_sock"))];
     h_variadic := false; h_returns := RetPtrOrNull |}.

Definition bpf_skb_ecn_set_ce : helper :=
  {| h_number := 97; h_name := "bpf_skb_ecn_set_ce";
     h_ret := Some (TInt ILong); h_args := [("skb", (TPtr "struct __sk_buff"))];
     h_variadic := false; h_returns := RetCountOrNeg |}.

Definition bpf_get_listener_sock : helper :=
  {| h_number := 98; h_name := "bpf_get_listener_sock";
     h_ret := Some (TPtr "struct bpf_sock"); h_args := [("sk", (TPtr "struct bpf_sock"))];
     h_variadic := false; h_returns := RetPtrOrNull |}.

Definition bpf_skc_lookup_tcp : helper :=
  {| h_number := 99; h_name := "bpf_skc_lookup_tcp";
     h_ret := Some (TPtr "struct bpf_sock"); h_args := [("ctx", (TPtr "void")); ("tuple", (TPtr "struct bpf_sock_tuple")); ("tuple_size", __u32); ("netns", __u64); ("flags", __u64)];
     h_variadic := false; h_returns := RetPtrOrNull |}.

Definition bpf_tcp_check_syncookie : helper :=
  {| h_number := 100; h_name := "bpf_tcp_check_syncookie";
     h_ret := Some (TInt ILong); h_args := [("sk", (TPtr "void")); ("iph", (TPtr "void")); ("iph_len", __u32); ("th", (TPtr "struct tcphdr")); ("th_len", __u32)];
     h_variadic := false; h_returns := RetZeroOrNeg |}.

Definition bpf_sysctl_get_name : helper :=
  {| h_number := 101; h_name := "bpf_sysctl_get_name";
     h_ret := Some (TInt ILong); h_args := [("ctx", (TPtr "struct bpf_sysctl")); ("buf", (TPtr "char")); ("buf_len", (TInt IULong)); ("flags", __u64)];
     h_variadic := false; h_returns := RetCountOrNeg |}.

Definition bpf_sysctl_get_current_value : helper :=
  {| h_number := 102; h_name := "bpf_sysctl_get_current_value";
     h_ret := Some (TInt ILong); h_args := [("ctx", (TPtr "struct bpf_sysctl")); ("buf", (TPtr "char")); ("buf_len", (TInt IULong))];
     h_variadic := false; h_returns := RetCountOrNeg |}.

Definition bpf_sysctl_get_new_value : helper :=
  {| h_number := 103; h_name := "bpf_sysctl_get_new_value";
     h_ret := Some (TInt ILong); h_args := [("ctx", (TPtr "struct bpf_sysctl")); ("buf", (TPtr "char")); ("buf_len", (TInt IULong))];
     h_variadic := false; h_returns := RetCountOrNeg |}.

Definition bpf_sysctl_set_new_value : helper :=
  {| h_number := 104; h_name := "bpf_sysctl_set_new_value";
     h_ret := Some (TInt ILong); h_args := [("ctx", (TPtr "struct bpf_sysctl")); ("buf", (TPtr "const char")); ("buf_len", (TInt IULong))];
     h_variadic := false; h_returns := RetZeroOrNeg |}.

Definition bpf_strtol : helper :=
  {| h_number := 105; h_name := "bpf_strtol";
     h_ret := Some (TInt ILong); h_args := [("buf", (TPtr "const char")); ("buf_len", (TInt IULong)); ("flags", __u64); ("res", (TPtr "long"))];
     h_variadic := false; h_returns := RetCountOrNeg |}.

Definition bpf_strtoul : helper :=
  {| h_number := 106; h_name := "bpf_strtoul";
     h_ret := Some (TInt ILong); h_args := [("buf", (TPtr "const char")); ("buf_len", (TInt IULong)); ("flags", __u64); ("res", (TPtr "unsigned long"))];
     h_variadic := false; h_returns := RetCountOrNeg |}.

Definition bpf_sk_storage_get : helper :=
  {| h_number := 107; h_name := "bpf_sk_storage_get";
     h_ret := Some (TPtr "void"); h_args := [("map", (TPtr "void")); ("sk", (TPtr "void")); ("value", (TPtr "void")); ("flags", __u64)];
     h_variadic := false; h_returns := RetPtrOrNull |}.

Definition bpf_sk_storage_delete : helper :=
  {| h_number := 108; h_name := "bpf_sk_storage_delete";
     h_ret := Some (TInt ILong); h_args := [("map", (TPtr "void")); ("sk", (TPtr "void"))];
     h_variadic := false; h_returns := RetZeroOrNeg |}.

Definition bpf_send_signal : helper :=
  {| h_number := 109; h_name := "bpf_send_signal";
     h_ret := Some (TInt ILong); h_args := [("sig", __u32)];
     h_variadic := false; h_returns := RetZeroOrNeg |}.

Definition bpf_tcp_gen_syncookie : helper :=
  {| h_number := 110; h_name := "bpf_tcp_gen_syncookie";
     h_ret := Some __s64; h_args := [("sk", (TPtr "void")); ("iph", (TPtr "void")); ("iph_len", __u32); ("th", (TPtr "struct tcphdr")); ("th_len", __u32)];
     h_variadic := false; h_returns := RetCountOrNeg |}.

Definition bpf_skb_output : helper :=
  {| h_number := 111; h_name := "bpf_skb_output";
     h_ret := Some (TInt ILong); h_args := [("ctx", (TPtr "void")); ("map", (TPtr "void")); ("flags", __u64); ("data", (TPtr "void")); ("size", __u64)];
     h_variadic := false; h_returns := RetZeroOrNeg |}.

Definition bpf_probe_read_user : helper :=
  {| h_number := 112; h_name := "bpf_probe_read_user";
     h_ret := Some (TInt ILong); h_args := [("dst", (TPtr "void")); ("size", __u32); ("unsafe_ptr", (TPtr "const void"))];
     h_variadic := false; h_returns := RetZeroOrNeg |}.

Definition bpf_probe_read_kernel : helper :=
  {| h_number := 113; h_name := "bpf_probe_read_kernel";
     h_ret := Some (TInt ILong); h_args := [("dst", (TPtr "void")); ("size", __u32); ("unsafe_ptr", (TPtr "const void"))];
     h_variadic := false; h_returns := RetZeroOrNeg |}.

Definition bpf_probe_read_user_str : helper :=
  {| h_number := 114; h_name := "bpf_probe_read_user_str";
     h_ret := Some (TInt ILong); h_args := [("dst", (TPtr "void")); ("size", __u32); ("unsafe_ptr", (TPtr "const void"))];
     h_variadic := false; h_returns := RetCountOrNeg |}.

Definition bpf_probe_read_kernel_str : helper :=
  {| h_number := 115; h_name := "bpf_probe_read_kernel_str";
     h_ret := Some (TInt ILong); h_args := [("dst", (TPtr "void")); ("size", __u32); ("unsafe_ptr", (TPtr "const void"))];
     h_variadic := false; h_returns := RetCountOrNeg |}.

Definition bpf_tcp_send_ack : helper :=
  {| h_number := 116; h_name := "bpf_tcp_send_ack";
     h_ret := Some (TInt ILong); h_args := [("tp", (TPtr "void")); ("rcv_nxt", __u32)];
     h_variadic := false; h_returns := RetZeroOrNeg |}.

Definition bpf_send_signal_thread : helper :=
  {| h_number := 117; h_name := "bpf_send_signal_thread";
     h_ret := Some (TInt ILong); h_args := [("sig", __u32)];
     h_variadic := false; h_returns := RetZeroOrNeg |}.

Definition bpf_jiffies64 : helper :=
  {| h_number := 118; h_name := "bpf_jiffies64";
     h_ret := Some __u64; h_args := [];
     h_variadic := false; h_returns := RetValue |}.

Definition bpf_read_branch_records : helper :=
  {| h_number := 119; h_name := "bpf_read_branch_records";
     h_ret := Some (TInt ILong); h_args := [("ctx", (TPtr "struct bpf_perf_event_data")); ("buf", (TPtr "void")); ("size", __u32); ("flags", __u64)];
     h_variadic := false; h_returns := RetCountOrNeg |}.

Definition bpf_get_ns_current_pid_tgid : helper :=
  {| h_number := 120; h_name := "bpf_get_ns_current_pid_tgid";
     h_ret := Some (TInt ILong); h_args := [("dev", __u64); ("ino", __u64); ("nsdata", (TPtr "struct bpf_pidns_info")); ("size", __u32)];
     h_variadic := false; h_returns := RetZeroOrNeg |}.

Definition bpf_xdp_output : helper :=
  {| h_number := 121; h_name := "bpf_xdp_output";
     h_ret := Some (TInt ILong); h_args := [("ctx", (TPtr "void")); ("map", (TPtr "void")); ("flags", __u64); ("data", (TPtr "void")); ("size", __u64)];
     h_variadic := false; h_returns := RetZeroOrNeg |}.

Definition bpf_get_netns_cookie : helper :=
  {| h_number := 122; h_name := "bpf_get_netns_cookie";
     h_ret := Some __u64; h_args := [("ctx", (TPtr "void"))];
     h_variadic := false; h_returns := RetValue |}.

Definition bpf_get_current_ancestor_cgroup_id : helper :=
  {| h_number := 123; h_name := "bpf_get_current_ancestor_cgroup_id";
     h_ret := Some __u64; h_args := [("ancestor_level", (TInt IInt))];
     h_variadic := false; h_returns := RetValue |}.

Definition bpf_sk_assign : helper :=
  {| h_number := 124; h_name := "bpf_sk_assign";
     h_ret := Some (TInt ILong); h_args := [("ctx", (TPtr "void")); ("sk", (TPtr "void")); ("flags", __u64)];
     h_variadic := false; h_returns := RetZeroOrNeg |}.

Definition bpf_ktime_get_boot_ns : helper :=
  {| h_number := 125; h_name := "bpf_ktime_get_boot_ns";
     h_ret := Some __u64; h_args := [];
     h_variadic := false; h_returns := RetValue |}.

Definition bpf_seq_printf : helper :=
  {| h_number := 126; h_name := "bpf_seq_printf";
     h_ret := Some (TInt ILong); h_args := [("m", (TPtr "struct seq_file")); ("fmt", (TPtr "const char")); ("fmt_size", __u32); ("data", (TPtr "const void")); ("data_len", __u32)];
     h_variadic := false; h_returns := RetZeroOrNeg |}.

Definition bpf_seq_write : helper :=
  {| h_number := 127; h_name := "bpf_seq_write";
     h_ret := Some (TInt ILong); h_args := [("m", (TPtr "struct seq_file")); ("data", (TPtr "const void")); ("len", __u32)];
     h_variadic := false; h_returns := RetZeroOrNeg |}.

Definition bpf_sk_cgroup_id : helper :=
  {| h_number := 128; h_name := "bpf_sk_cgroup_id";
     h_ret := Some __u64; h_args := [("sk", (TPtr "void"))];
     h_variadic := false; h_returns := RetValue |}.

Definition bpf_sk_ancestor_cgroup_id : helper :=
  {| h_number := 129; h_name := "bpf_sk_ancestor_cgroup_id";
     h_ret := Some __u64; h_args := [("sk", (TPtr "void")); ("ancestor_level", (TInt IInt))];
     h_variadic := false; h_returns := RetValue |}.

Definition bpf_ringbuf_output : helper :=
  {| h_number := 130; h_name := "bpf_ringbuf_output";
     h_ret := Some (TInt ILong); h_args := [("ringbuf", (TPtr "void")); ("data", (TPtr "void")); ("size", __u64); ("flags", __u64)];
     h_variadic := false; h_returns := RetZeroOrNeg |}.

Definition bpf_ringbuf_reserve : helper :=
  {| h_number := 131; h_name := "bpf_ringbuf_reserve";
     h_ret := Some (TPtr "void"); h_args := [("ringbuf", (TPtr "void")); ("size", __u64); ("flags", __u64)];
     h_variadic := false; h_returns := RetPtrOrNull |}.

Definition bpf_ringbuf_submit : helper :=
  {| h_number := 132; h_name := "bpf_ringbuf_submit";
     h_ret := None; h_args := [("data", (TPtr "void")); ("flags", __u64)];
     h_variadic := false; h_returns := RetNothing |}.

Definition bpf_ringbuf_discard : helper :=
  {| h_number := 133; h_name := "bpf_ringbuf_discard";
     h_ret := None; h_args := [("data", (TPtr "void")); ("flags", __u64)];
     h_variadic := false; h_returns := RetNothing |}.

Definition bpf_ringbuf_query : helper :=
  {| h_number := 134; h_name := "bpf_ringbuf_query";
     h_ret := Some __u64; h_args := [("ringbuf", (TPtr "void")); ("flags", __u64)];
     h_variadic := false; h_returns := RetValue |}.

Definition bpf_csum_level : helper :=
  {| h_number := 135; h_name := "bpf_csum_level";
     h_ret := Some (TInt ILong); h_args := [("skb", (TPtr "struct __sk_buff")); ("level", __u64)];
     h_variadic := false; h_returns := RetCountOrNeg |}.

Definition bpf_skc_to_tcp6_sock : helper :=
  {| h_number := 136; h_name := "bpf_skc_to_tcp6_sock";
     h_ret := Some (TPtr "struct tcp6_sock"); h_args := [("sk", (TPtr "void"))];
     h_variadic := false; h_returns := RetPtrOrNull |}.

Definition bpf_skc_to_tcp_sock : helper :=
  {| h_number := 137; h_name := "bpf_skc_to_tcp_sock";
     h_ret := Some (TPtr "struct tcp_sock"); h_args := [("sk", (TPtr "void"))];
     h_variadic := false; h_returns := RetPtrOrNull |}.

Definition bpf_skc_to_tcp_timewait_sock : helper :=
  {| h_number := 138; h_name := "bpf_skc_to_tcp_timewait_sock";
     h_ret := Some (TPtr "struct tcp_timewait_sock"); h_args := [("sk", (TPtr "void"))];
     h_variadic := false; h_returns := RetPtrOrNull |}.

Definition bpf_skc_to_tcp_request_sock : helper :=
  {| h_number := 139; h_name := "bpf_skc_to_tcp_request_sock";
     h_ret := Some (TPtr "struct tcp_request_sock"); h_args := [("sk", (TPtr "void"))];
     h_variadic := false; h_returns := RetPtrOrNull |}.

Definition bpf_skc_to_udp6_sock : helper :=
  {| h_number := 140; h_name := "bpf_skc_to_udp6_sock";
     h_ret := Some (TPtr "struct udp6_sock"); h_args := [("sk", (TPtr "void"))];
     h_variadic := false; h_returns := RetPtrOrNull |}.

Definition bpf_get_task_stack : helper :=
  {| h_number := 141; h_name := "bpf_get_task_stack";
     h_ret := Some (TInt ILong); h_args := [("task", (TPtr "struct task_struct")); ("buf", (TPtr "void")); ("size", __u32); ("flags", __u64)];
     h_variadic := false; h_returns := RetCountOrNeg |}.

Definition bpf_load_hdr_opt : helper :=
  {| h_number := 142; h_name := "bpf_load_hdr_opt";
     h_ret := Some (TInt ILong); h_args := [("skops", (TPtr "struct bpf_sock_ops")); ("searchby_res", (TPtr "void")); ("len", __u32); ("flags", __u64)];
     h_variadic := false; h_returns := RetCountOrNeg |}.

Definition bpf_store_hdr_opt : helper :=
  {| h_number := 143; h_name := "bpf_store_hdr_opt";
     h_ret := Some (TInt ILong); h_args := [("skops", (TPtr "struct bpf_sock_ops")); ("from", (TPtr "const void")); ("len", __u32); ("flags", __u64)];
     h_variadic := false; h_returns := RetZeroOrNeg |}.

Definition bpf_reserve_hdr_opt : helper :=
  {| h_number := 144; h_name := "bpf_reserve_hdr_opt";
     h_ret := Some (TInt ILong); h_args := [("skops", (TPtr "struct bpf_sock_ops")); ("len", __u32); ("flags", __u64)];
     h_variadic := false; h_returns := RetZeroOrNeg |}.

Definition bpf_inode_storage_get : helper :=
  {| h_number := 145; h_name := "bpf_inode_storage_get";
     h_ret := Some (TPtr "void"); h_args := [("map", (TPtr "void")); ("inode", (TPtr "void")); ("value", (TPtr "void")); ("flags", __u64)];
     h_variadic := false; h_returns := RetPtrOrNull |}.

Definition bpf_inode_storage_delete : helper :=
  {| h_number := 146; h_name := "bpf_inode_storage_delete";
     h_ret := Some (TInt IInt); h_args := [("map", (TPtr "void")); ("inode", (TPtr "void"))];
     h_variadic := false; h_returns := RetZeroOrNeg |}.

Definition bpf_d_path : helper :=
  {| h_number := 147; h_name := "bpf_d_path";
     h_ret := Some (TInt ILong); h_args := [("path", (TPtr "struct path")); ("buf", (TPtr "char")); ("sz", __u32)];
     h_variadic := false; h_returns := RetCountOrNeg |}.

Definition bpf_copy_from_user : helper :=
  {| h_number := 148; h_name := "bpf_copy_from_user";
     h_ret := Some (TInt ILong); h_args := [("dst", (TPtr "void")); ("size", __u32); ("user_ptr", (TPtr "const void"))];
     h_variadic := false; h_returns := RetZeroOrNeg |}.

Definition bpf_snprintf_btf : helper :=
  {| h_number := 149; h_name := "bpf_snprintf_btf";
     h_ret := Some (TInt ILong); h_args := [("str", (TPtr "char")); ("str_size", __u32); ("ptr", (TPtr "struct btf_ptr")); ("btf_ptr_size", __u32); ("flags", __u64)];
     h_variadic := false; h_returns := RetCountOrNeg |}.

Definition bpf_seq_printf_btf : helper :=
  {| h_number := 150; h_name := "bpf_seq_printf_btf";
     h_ret := Some (TInt ILong); h_args := [("m", (TPtr "struct seq_file")); ("ptr", (TPtr "struct btf_ptr")); ("ptr_size", __u32); ("flags", __u64)];
     h_variadic := false; h_returns := RetZeroOrNeg |}.

Definition bpf_skb_cgroup_classid : helper :=
  {| h_number := 151; h_name := "bpf_skb_cgroup_classid";
     h_ret := Some __u64; h_args := [("skb", (TPtr "struct __sk_buff"))];
     h_variadic := false; h_returns := RetValue |}.

Definition bpf_redirect_neigh : helper :=
  {| h_number := 152; h_name := "bpf_redirect_neigh";
     h_ret := Some (TInt ILong); h_args := [("ifindex", __u32); ("params", (TPtr "struct bpf_redir_neigh")); ("plen", (TInt IInt)); ("flags", __u64)];
     h_variadic := false; h_returns := RetVerdict |}.

Definition bpf_per_cpu_ptr : helper :=
  {| h_number := 153; h_name := "bpf_per_cpu_ptr";
     h_ret := Some (TPtr "void"); h_args := [("percpu_ptr", (TPtr "const void")); ("cpu", __u32)];
     h_variadic := false; h_returns := RetPtrOrNull |}.

Definition bpf_this_cpu_ptr : helper :=
  {| h_number := 154; h_name := "bpf_this_cpu_ptr";
     h_ret := Some (TPtr "void"); h_args := [("percpu_ptr", (TPtr "const void"))];
     h_variadic := false; h_returns := RetPtr |}.

Definition bpf_redirect_peer : helper :=
  {| h_number := 155; h_name := "bpf_redirect_peer";
     h_ret := Some (TInt ILong); h_args := [("ifindex", __u32); ("flags", __u64)];
     h_variadic := false; h_returns := RetVerdict |}.

Definition bpf_task_storage_get : helper :=
  {| h_number := 156; h_name := "bpf_task_storage_get";
     h_ret := Some (TPtr "void"); h_args := [("map", (TPtr "void")); ("task", (TPtr "struct task_struct")); ("value", (TPtr "void")); ("flags", __u64)];
     h_variadic := false; h_returns := RetPtrOrNull |}.

Definition bpf_task_storage_delete : helper :=
  {| h_number := 157; h_name := "bpf_task_storage_delete";
     h_ret := Some (TInt ILong); h_args := [("map", (TPtr "void")); ("task", (TPtr "struct task_struct"))];
     h_variadic := false; h_returns := RetZeroOrNeg |}.

Definition bpf_get_current_task_btf : helper :=
  {| h_number := 158; h_name := "bpf_get_current_task_btf";
     h_ret := Some (TPtr "struct task_struct"); h_args := [];
     h_variadic := false; h_returns := RetPtr |}.

Definition bpf_bprm_opts_set : helper :=
  {| h_number := 159; h_name := "bpf_bprm_opts_set";
     h_ret := Some (TInt ILong); h_args := [("bprm", (TPtr "struct linux_binprm")); ("flags", __u64)];
     h_variadic := false; h_returns := RetZeroOrNeg |}.

Definition bpf_ktime_get_coarse_ns : helper :=
  {| h_number := 160; h_name := "bpf_ktime_get_coarse_ns";
     h_ret := Some __u64; h_args := [];
     h_variadic := false; h_returns := RetValue |}.

Definition bpf_ima_inode_hash : helper :=
  {| h_number := 161; h_name := "bpf_ima_inode_hash";
     h_ret := Some (TInt ILong); h_args := [("inode", (TPtr "struct inode")); ("dst", (TPtr "void")); ("size", __u32)];
     h_variadic := false; h_returns := RetCountOrNeg |}.

Definition bpf_sock_from_file : helper :=
  {| h_number := 162; h_name := "bpf_sock_from_file";
     h_ret := Some (TPtr "struct socket"); h_args := [("file", (TPtr "struct file"))];
     h_variadic := false; h_returns := RetPtrOrNull |}.

Definition bpf_check_mtu : helper :=
  {| h_number := 163; h_name := "bpf_check_mtu";
     h_ret := Some (TInt ILong); h_args := [("ctx", (TPtr "void")); ("ifindex", __u32); ("mtu_len", (TPtr "__u32")); ("len_diff", __s32); ("flags", __u64)];
     h_variadic := false; h_returns := RetCountOrNeg |}.

Definition bpf_for_each_map_elem : helper :=
  {| h_number := 164; h_name := "bpf_for_each_map_elem";
     h_ret := Some (TInt ILong); h_args := [("map", (TPtr "void")); ("callback_fn", (TPtr "void")); ("callback_ctx", (TPtr "void")); ("flags", __u64)];
     h_variadic := false; h_returns := RetCountOrNeg |}.

Definition bpf_snprintf : helper :=
  {| h_number := 165; h_name := "bpf_snprintf";
     h_ret := Some (TInt ILong); h_args := [("str", (TPtr "char")); ("str_size", __u32); ("fmt", (TPtr "const char")); ("data", (TPtr "__u64")); ("data_len", __u32)];
     h_variadic := false; h_returns := RetCountOrNeg |}.

Definition bpf_sys_bpf : helper :=
  {| h_number := 166; h_name := "bpf_sys_bpf";
     h_ret := Some (TInt ILong); h_args := [("cmd", __u32); ("attr", (TPtr "void")); ("attr_size", __u32)];
     h_variadic := false; h_returns := RetCountOrNeg |}.

Definition bpf_btf_find_by_name_kind : helper :=
  {| h_number := 167; h_name := "bpf_btf_find_by_name_kind";
     h_ret := Some (TInt ILong); h_args := [("name", (TPtr "char")); ("name_sz", (TInt IInt)); ("kind", __u32); ("flags", (TInt IInt))];
     h_variadic := false; h_returns := RetCountOrNeg |}.

Definition bpf_sys_close : helper :=
  {| h_number := 168; h_name := "bpf_sys_close";
     h_ret := Some (TInt ILong); h_args := [("fd", __u32)];
     h_variadic := false; h_returns := RetCountOrNeg |}.

Definition bpf_timer_init : helper :=
  {| h_number := 169; h_name := "bpf_timer_init";
     h_ret := Some (TInt ILong); h_args := [("timer", (TPtr "struct bpf_timer")); ("map", (TPtr "void")); ("flags", __u64)];
     h_variadic := false; h_returns := RetZeroOrNeg |}.

Definition bpf_timer_set_callback : helper :=
  {| h_number := 170; h_name := "bpf_timer_set_callback";
     h_ret := Some (TInt ILong); h_args := [("timer", (TPtr "struct bpf_timer")); ("callback_fn", (TPtr "void"))];
     h_variadic := false; h_returns := RetZeroOrNeg |}.

Definition bpf_timer_start : helper :=
  {| h_number := 171; h_name := "bpf_timer_start";
     h_ret := Some (TInt ILong); h_args := [("timer", (TPtr "struct bpf_timer")); ("nsecs", __u64); ("flags", __u64)];
     h_variadic := false; h_returns := RetZeroOrNeg |}.

Definition bpf_timer_cancel : helper :=
  {| h_number := 172; h_name := "bpf_timer_cancel";
     h_ret := Some (TInt ILong); h_args := [("timer", (TPtr "struct bpf_timer"))];
     h_variadic := false; h_returns := RetCountOrNeg |}.

Definition bpf_get_func_ip : helper :=
  {| h_number := 173; h_name := "bpf_get_func_ip";
     h_ret := Some __u64; h_args := [("ctx", (TPtr "void"))];
     h_variadic := false; h_returns := RetValue |}.

Definition bpf_get_attach_cookie : helper :=
  {| h_number := 174; h_name := "bpf_get_attach_cookie";
     h_ret := Some __u64; h_args := [("ctx", (TPtr "void"))];
     h_variadic := false; h_returns := RetValue |}.

Definition bpf_task_pt_regs : helper :=
  {| h_number := 175; h_name := "bpf_task_pt_regs";
     h_ret := Some (TInt ILong); h_args := [("task", (TPtr "struct task_struct"))];
     h_variadic := false; h_returns := RetValue |}.

Definition bpf_get_branch_snapshot : helper :=
  {| h_number := 176; h_name := "bpf_get_branch_snapshot";
     h_ret := Some (TInt ILong); h_args := [("entries", (TPtr "void")); ("size", __u32); ("flags", __u64)];
     h_variadic := false; h_returns := RetCountOrNeg |}.

Definition bpf_trace_vprintk : helper :=
  {| h_number := 177; h_name := "bpf_trace_vprintk";
     h_ret := Some (TInt ILong); h_args := [("fmt", (TPtr "const char")); ("fmt_size", __u32); ("data", (TPtr "const void")); ("data_len", __u32)];
     h_variadic := false; h_returns := RetCountOrNeg |}.

Definition bpf_skc_to_unix_sock : helper :=
  {| h_number := 178; h_name := "bpf_skc_to_unix_sock";
     h_ret := Some (TPtr "struct unix_sock"); h_args := [("sk", (TPtr "void"))];
     h_variadic := false; h_returns := RetPtrOrNull |}.

Definition bpf_kallsyms_lookup_name : helper :=
  {| h_number := 179; h_name := "bpf_kallsyms_lookup_name";
     h_ret := Some (TInt ILong); h_args := [("name", (TPtr "const char")); ("name_sz", (TInt IInt)); ("flags", (TInt IInt)); ("res", (TPtr "__u64"))];
     h_variadic := false; h_returns := RetZeroOrNeg |}.

Definition bpf_find_vma : helper :=
  {| h_number := 180; h_name := "bpf_find_vma";
     h_ret := Some (TInt ILong); h_args := [("task", (TPtr "struct task_struct")); ("addr", __u64); ("callback_fn", (TPtr "void")); ("callback_ctx", (TPtr "void")); ("flags", __u64)];
     h_variadic := false; h_returns := RetZeroOrNeg |}.

(** The header, in its order. *)
Definition helper_table : list helper :=
  [ bpf_map_lookup_elem; bpf_map_update_elem; bpf_map_delete_elem
  ; bpf_probe_read; bpf_ktime_get_ns; bpf_trace_printk
  ; bpf_get_prandom_u32; bpf_get_smp_processor_id; bpf_skb_store_bytes
  ; bpf_l3_csum_replace; bpf_l4_csum_replace; bpf_tail_call
  ; bpf_clone_redirect; bpf_get_current_pid_tgid; bpf_get_current_uid_gid
  ; bpf_get_current_comm; bpf_get_cgroup_classid; bpf_skb_vlan_push
  ; bpf_skb_vlan_pop; bpf_skb_get_tunnel_key; bpf_skb_set_tunnel_key
  ; bpf_perf_event_read; bpf_redirect; bpf_get_route_realm
  ; bpf_perf_event_output; bpf_skb_load_bytes; bpf_get_stackid
  ; bpf_csum_diff; bpf_skb_get_tunnel_opt; bpf_skb_set_tunnel_opt
  ; bpf_skb_change_proto; bpf_skb_change_type; bpf_skb_under_cgroup
  ; bpf_get_hash_recalc; bpf_get_current_task; bpf_probe_write_user
  ; bpf_current_task_under_cgroup; bpf_skb_change_tail; bpf_skb_pull_data
  ; bpf_csum_update; bpf_set_hash_invalid; bpf_get_numa_node_id
  ; bpf_skb_change_head; bpf_xdp_adjust_head; bpf_probe_read_str
  ; bpf_get_socket_cookie; bpf_get_socket_uid; bpf_set_hash
  ; bpf_setsockopt; bpf_skb_adjust_room; bpf_redirect_map
  ; bpf_sk_redirect_map; bpf_sock_map_update; bpf_xdp_adjust_meta
  ; bpf_perf_event_read_value; bpf_perf_prog_read_value; bpf_getsockopt
  ; bpf_override_return; bpf_sock_ops_cb_flags_set; bpf_msg_redirect_map
  ; bpf_msg_apply_bytes; bpf_msg_cork_bytes; bpf_msg_pull_data
  ; bpf_bind; bpf_xdp_adjust_tail; bpf_skb_get_xfrm_state
  ; bpf_get_stack; bpf_skb_load_bytes_relative; bpf_fib_lookup
  ; bpf_sock_hash_update; bpf_msg_redirect_hash; bpf_sk_redirect_hash
  ; bpf_lwt_push_encap; bpf_lwt_seg6_store_bytes; bpf_lwt_seg6_adjust_srh
  ; bpf_lwt_seg6_action; bpf_rc_repeat; bpf_rc_keydown
  ; bpf_skb_cgroup_id; bpf_get_current_cgroup_id; bpf_get_local_storage
  ; bpf_sk_select_reuseport; bpf_skb_ancestor_cgroup_id; bpf_sk_lookup_tcp
  ; bpf_sk_lookup_udp; bpf_sk_release; bpf_map_push_elem
  ; bpf_map_pop_elem; bpf_map_peek_elem; bpf_msg_push_data
  ; bpf_msg_pop_data; bpf_rc_pointer_rel; bpf_spin_lock
  ; bpf_spin_unlock; bpf_sk_fullsock; bpf_tcp_sock
  ; bpf_skb_ecn_set_ce; bpf_get_listener_sock; bpf_skc_lookup_tcp
  ; bpf_tcp_check_syncookie; bpf_sysctl_get_name; bpf_sysctl_get_current_value
  ; bpf_sysctl_get_new_value; bpf_sysctl_set_new_value; bpf_strtol
  ; bpf_strtoul; bpf_sk_storage_get; bpf_sk_storage_delete
  ; bpf_send_signal; bpf_tcp_gen_syncookie; bpf_skb_output
  ; bpf_probe_read_user; bpf_probe_read_kernel; bpf_probe_read_user_str
  ; bpf_probe_read_kernel_str; bpf_tcp_send_ack; bpf_send_signal_thread
  ; bpf_jiffies64; bpf_read_branch_records; bpf_get_ns_current_pid_tgid
  ; bpf_xdp_output; bpf_get_netns_cookie; bpf_get_current_ancestor_cgroup_id
  ; bpf_sk_assign; bpf_ktime_get_boot_ns; bpf_seq_printf
  ; bpf_seq_write; bpf_sk_cgroup_id; bpf_sk_ancestor_cgroup_id
  ; bpf_ringbuf_output; bpf_ringbuf_reserve; bpf_ringbuf_submit
  ; bpf_ringbuf_discard; bpf_ringbuf_query; bpf_csum_level
  ; bpf_skc_to_tcp6_sock; bpf_skc_to_tcp_sock; bpf_skc_to_tcp_timewait_sock
  ; bpf_skc_to_tcp_request_sock; bpf_skc_to_udp6_sock; bpf_get_task_stack
  ; bpf_load_hdr_opt; bpf_store_hdr_opt; bpf_reserve_hdr_opt
  ; bpf_inode_storage_get; bpf_inode_storage_delete; bpf_d_path
  ; bpf_copy_from_user; bpf_snprintf_btf; bpf_seq_printf_btf
  ; bpf_skb_cgroup_classid; bpf_redirect_neigh; bpf_per_cpu_ptr
  ; bpf_this_cpu_ptr; bpf_redirect_peer; bpf_task_storage_get
  ; bpf_task_storage_delete; bpf_get_current_task_btf; bpf_bprm_opts_set
  ; bpf_ktime_get_coarse_ns; bpf_ima_inode_hash; bpf_sock_from_file
  ; bpf_check_mtu; bpf_for_each_map_elem; bpf_snprintf
  ; bpf_sys_bpf; bpf_btf_find_by_name_kind; bpf_sys_close
  ; bpf_timer_init; bpf_timer_set_callback; bpf_timer_start
  ; bpf_timer_cancel; bpf_get_func_ip; bpf_get_attach_cookie
  ; bpf_task_pt_regs; bpf_get_branch_snapshot; bpf_trace_vprintk
  ; bpf_skc_to_unix_sock; bpf_kallsyms_lookup_name; bpf_find_vma ].

(** ** The table as the call interface *)

(** The helper a call instruction with immediate [n] reaches. *)
Definition helper_by_number (n : Z) : option helper :=
  list_find (λ h, h_number h = n) helper_table ≫= λ r, Some r.2.

Definition helper_by_name (x : string) : option helper :=
  list_find (λ h, h_name h = x) helper_table ≫= λ r, Some r.2.

(** A helper fits the BPF calling convention: five argument registers of 64
    bits, and a result that fits one register. *)
Definition fits_registers (h : helper) : bool :=
  (Z.of_nat (length (h_args h)) <=? 5) &&
  forallb (λ a : string * ctype, (0 <? sizeof a.2) && (sizeof a.2 <=? 8)) (h_args h) &&
  match h_ret h with Some t => sizeof t <=? 8 | None => true end.

(** A declaration agrees with its documentation: a pointer type is returned
    exactly when a pointer is documented, nothing exactly when [void]. *)
Definition returns_agree (h : helper) : bool :=
  match h_ret h, h_returns h with
  | None, RetNothing => true
  | Some (TPtr _), (RetPtrOrNull | RetPtr) => true
  | Some (TInt _), (RetZero | RetZeroOrNeg | RetCountOrNeg | RetValue | RetVerdict) => true
  | _, _ => false
  end.

(** ** Against the kernel *)

(** The kernels whose headers are there, with what they say of their helpers. *)
Inductive kernel_headers := X86Headers | Arm64Headers.

Definition func_ids (b : kernel_headers) : list (string * Z) :=
  match match b with
        | X86Headers => VmlinuxBpfX86.bpf_func_id
        | Arm64Headers => VmlinuxBpfArm64.bpf_func_id
        end with
  | TEnum _ consts => consts
  | _ => []
  end.

Definition kernel_prototypes (b : kernel_headers) : list (string * prototype) :=
  match b with
  | X86Headers => VmlinuxBpfX86.prototypes
  | Arm64Headers => VmlinuxBpfArm64.prototypes
  end.

(** The type of the kernel's function of that name, if it has one of its own. *)
Fixpoint prototype_of (ps : list (string * prototype)) (x : string) : option prototype :=
  match ps with
  | [] => None
  | (y, p) :: ps => if String.eqb y x then Some p else prototype_of ps x
  end.

(** Two argument types are passed alike: both are pointers, or both are integers of one
    size. *)
Definition same_register (t u : ctype) : Prop :=
  match t, u with
  | TPtr _, TPtr _ => True
  | (TInt _ | TEnum _ _), (TInt _ | TEnum _ _) => sizeof t = sizeof u
  | _, _ => False
  end.

#[export] Instance same_register_dec t u : Decision (same_register t u).
Proof. destruct t, u; simpl; apply _. Defined.

(** Arguments of the kernel's function that the program does not pass: the verifier adds
    the allocation flags and the program.  The three dots stand for three numbers. *)
Definition hidden_args (h : helper) : list ctype :=
  if h_variadic h then [__u64; __u64; __u64]
  else if decide (h_name h ∈ ["bpf_sk_storage_get"; "bpf_inode_storage_get"; "bpf_task_storage_get"]%string)
  then [TInt IUInt]
  else if decide (h_name h = "bpf_timer_set_callback"%string) then [TPtr "struct bpf_prog_aux"]
  else [].

(** The kernel's function takes what the declaration makes a program pass, and gives its
    result in a whole register. *)
Definition serves (h : helper) (p : prototype) : Prop :=
  Forall2 same_register ((h_args h).*2 ++ hidden_args h) (p_args p) ∧ p_ret p = TInt IULLong.

#[export] Instance serves_dec h p : Decision (serves h p).
Proof.
  apply and_dec; [apply _|]. destruct (p_ret p) as [[]| | | | |]; first [by left|by right].
Defined.

(** Helpers whose functions have no type of their own in the debug information. *)
Definition untyped_helpers : list string :=
  ["bpf_probe_read"; "bpf_get_prandom_u32"; "bpf_tail_call"; "bpf_probe_read_str";
   "bpf_setsockopt"; "bpf_redirect_map"; "bpf_getsockopt"; "bpf_fib_lookup";
   "bpf_lwt_push_encap"; "bpf_rc_repeat"; "bpf_rc_keydown"; "bpf_sk_select_reuseport";
   "bpf_rc_pointer_rel"; "bpf_skb_output"; "bpf_xdp_output"; "bpf_get_netns_cookie";
   "bpf_load_hdr_opt"; "bpf_store_hdr_opt"; "bpf_reserve_hdr_opt"; "bpf_check_mtu";
   "bpf_get_func_ip"]%string.

(** The kernel knows the helper by its name and number, and by its type. *)
Definition known_to (b : kernel_headers) (h : helper) : Prop :=
  Exists (λ c : string * Z,
    c.1 = ("BPF_FUNC_" ++ String.substring 4 (String.length (h_name h) - 4) (h_name h))%string ∧
    c.2 = h_number h) (func_ids b) ∧
  String.prefix "bpf_" (h_name h) = true ∧
  match prototype_of (kernel_prototypes b) (h_name h) with
  | Some p => serves h p
  | None => h_name h ∈ untyped_helpers
  end.

#[export] Instance known_to_dec b h : Decision (known_to b h).
Proof.
  apply and_dec; [apply _|]. apply and_dec; [apply _|].
  destruct (prototype_of _ _); apply _.
Defined.

Lemma helper_table_numbers : h_number <$> helper_table = Z.of_nat <$> seq 1 180.
Proof. vm_compute. reflexivity. Qed.

Lemma helper_table_checked :
  forallb (λ h, fits_registers h && returns_agree h) helper_table = true.
Proof. vm_compute. reflexivity. Qed.

Lemma helper_table_known b : Forall (known_to b) helper_table.
Proof. apply (bool_decide_eq_true_1 _). destruct b; vm_compute; reflexivity. Qed.

Lemma helper_by_number_elem n h :
  helper_by_number n = Some h ↔ h ∈ helper_table ∧ h_number h = n.
Proof.
  unfold helper_by_number. rewrite bind_Some. split.
  - intros ([i h'] & (Hl & Hn & _)%list_find_Some & [= <-]). simpl.
    split; [by eapply list_elem_of_lookup_2|done].
  - intros [Hin Hn]. apply list_elem_of_lookup in Hin as [i Hi].
    exists (i, h). split; [|done]. apply list_find_Some. split_and!; [done|done|].
    intros j h' Hj Hlt Heq.
    assert (Hnum : ∀ k g, helper_table !! k = Some g → h_number g = Z.of_nat (S k)).
    { intros k g Hk.
      assert ((h_number <$> helper_table) !! k = Some (h_number g)) as E
        by (by rewrite list_lookup_fmap, Hk).
      rewrite helper_table_numbers, list_lookup_fmap in E.
      apply fmap_Some in E as (m & [-> _]%lookup_seq & ->). lia. }
    apply Hnum in Hi, Hj. lia.
Qed.

(** C35. The declarations are the kernel's call interface.  A call number reaches a helper
    exactly when it is one of 1 to 180, and then the one declared with that number.
    In the headers of both kernels this number is the one of the helper of just
    that name; and the function behind it, unless it is one of the 21 that have no
    type of their own there, takes one by one the arguments of the declaration, pointers
    where it has pointers and integers of the same size where it has integers,
    followed only by those the verifier adds, and returns a whole register.  The
    signature fits the five registers of a BPF call and agrees with its documented
    result. *)
Theorem helper_interface (b : kernel_headers) :
  (∀ n, is_Some (helper_by_number n) ↔ 1 <= n <= 180) ∧
  ∀ n h, helper_by_number n = Some h →
    h_number h = n ∧ known_to b h ∧ fits_registers h = true ∧ returns_agree h = true.
Proof.
  split.
  - intros n. split.
    + intros [h [Hin Hn]%helper_by_number_elem].
      assert (n ∈ (h_number <$> helper_table)) as E
        by (apply list_elem_of_fmap; eauto).
      rewrite helper_table_numbers in E.
      apply list_elem_of_fmap in E as (k & -> & [??]%elem_of_seq). lia.
    + intros Hn.
      assert (n ∈ (h_number <$> helper_table)) as E.
      { rewrite helper_table_numbers. apply list_elem_of_fmap.
        exists (Z.to_nat n). split; [lia|]. apply elem_of_seq. lia. }
      apply list_elem_of_fmap in E as (h & Hh & Hin).
      exists h. by apply helper_by_number_elem.
  - intros n h [Hin Hn]%helper_by_number_elem. split; [done|].
    pose proof (helper_table_known b) as Hk. rewrite Forall_forall in Hk.
    split; [by apply Hk|]. pose proof helper_table_checked as Hc. rewrite forallb_forall in Hc.
    apply list_elem_of_In, Hc in Hin. by apply andb_prop in Hin.
Qed.
