(* ===== verification/BpfTracing.v ===== *)
(** * Reading a probed function's arguments

    [bpf_tracing.h]: which target the header is compiled for, which saved
    register holds each function argument there, the [BPF_KPROBE], [BPF_PROG]
    and [BPF_KRETPROBE] wrappers that turn the raw context into typed arguments,
    and where the return address is read from.  The
    preprocessor's conditionals are functions of the macros that are defined;
    the variadic counting macros are functions on argument lists. *)
From S2P Require Import Prelude CTypes.

(** The macros defined when the header is read, with their values. *)
Definition cpp := string → option Z.

Definition defined (m : cpp) (x : string) : bool := bool_decide (is_Some (m x)).

(** ** Target selection *)

Inductive target :=
  | T_x86 | T_s390 | T_arm | T_arm64 | T_mips | T_powerpc | T_sparc | T_riscv.

#[global] Instance target_eq_dec : EqDecision target.
Proof. solve_decision. Defined.

(** The first macro of a chain of [#if defined ... #elif defined ...]. *)
Fixpoint cpp_chain {A} (m : cpp) (l : list (string * A)) : option A :=
  match l with
  | [] => None
  | (x, a) :: l => if defined m x then Some a else cpp_chain m l
  end.

(** [bpf_target_*]: the build's [__TARGET_ARCH_*] if there is one, otherwise
    what the compiler targets. *)
Definition bpf_target (m : cpp) : option target :=
  match cpp_chain m
    [ ("__TARGET_ARCH_x86", T_x86); ("__TARGET_ARCH_s390", T_s390);
      ("__TARGET_ARCH_arm", T_arm); ("__TARGET_ARCH_arm64", T_arm64);
      ("__TARGET_ARCH_mips", T_mips); ("__TARGET_ARCH_powerpc", T_powerpc);
      ("__TARGET_ARCH_sparc", T_sparc); ("__TARGET_ARCH_riscv", T_riscv) ] with
  | Some t => Some t
  | None =>
      match cpp_chain m
        [ ("__x86_64__", T_x86); ("__s390__", T_s390); ("__arm__", T_arm);
          ("__aarch64__", T_arm64); ("__mips__", T_mips); ("__powerpc__", T_powerpc);
          ("__sparc__", T_sparc) ] with
      | Some t => Some t
      | None =>
          if defined m "__riscv" && bool_decide (m "__riscv_xlen" = Some 64)
          then Some T_riscv else None
      end
  end.

(** ** The register accessors *)

(** The macro suffixes: [PT_REGS_PARM1], ..., [PT_REGS_IP]. *)
Inductive pt_reg := PARM1 | PARM2 | PARM3 | PARM4 | PARM5 | RET | FP | RC | SP | IP.

#[global] Instance pt_reg_eq_dec : EqDecision pt_reg.
Proof. solve_decision. Defined.

(** What an accessor expands to: a member of the register block, the block being
    cast to the named struct, if any; the constant 0; or nothing, when the macro
    is not defined for the target. *)
Inductive access :=
  | Member (cast : option string) (p : list step)
  | Zero
  | Undefined.

#[global] Instance step_eq_dec : EqDecision step.
Proof. solve_decision. Defined.

#[global] Instance access_eq_dec : EqDecision access.
Proof. solve_decision. Defined.

Definition member (x : string) : access := Member None (fld x).
Definition nth_of (a : string) (i : Z) : access := Member None [Dot a; Idx i].
Definition cast_nth (c a : string) (i : Z) : access := Member (Some c) [Dot a; Idx i].
Definition cast_fld (c x : string) : access := Member (Some c) (fld x).

(** [PT_REGS_*] for x86: the kernel's own names when [vmlinux.h] or the kernel
    headers are in use, the user-space names of the 32- or 64-bit ABI
    otherwise. *)
Definition x86_regs (m : cpp) (r : pt_reg) : access :=
  if defined m "__KERNEL__" || defined m "__VMLINUX_H__" then
    match r with
    | PARM1 => member "di" | PARM2 => member "si" | PARM3 => member "dx"
    | PARM4 => member "cx" | PARM5 => member "r8" | RET => member "sp"
    | FP => member "bp" | RC => member "ax" | SP => member "sp" | IP => member "ip"
    end
  else if defined m "__i386__" then
    match r with
    | PARM1 => member "eax" | PARM2 => member "edx" | PARM3 => member "ecx"
    | PARM4 => Zero | PARM5 => Zero | RET => member "esp"
    | FP => member "ebp" | RC => member "eax" | SP => member "esp" | IP => member "eip"
    end
  else
    match r with
    | PARM1 => member "rdi" | PARM2 => member "rsi" | PARM3 => member "rdx"
    | PARM4 => member "rcx" | PARM5 => member "r8" | RET => member "rsp"
    | FP => member "rbp" | RC => member "rax" | SP => member "rsp" | IP => member "rip"
    end.

Definition s390_regs (r : pt_reg) : access :=
  let g := cast_nth "user_pt_regs" "gprs" in
  match r with
  | PARM1 => g 2 | PARM2 => g 3 | PARM3 => g 4 | PARM4 => g 5 | PARM5 => g 6
  | RET => g 14 | FP => g 11 | RC => g 2 | SP => g 15
  | IP => Member (Some "user_pt_regs") [Dot "psw"; Dot "addr"]
  end.

Definition arm_regs (r : pt_reg) : access :=
  let g := nth_of "uregs" in
  match r with
  | PARM1 => g 0 | PARM2 => g 1 | PARM3 => g 2 | PARM4 => g 3 | PARM5 => g 4
  | RET => g 14 | FP => g 11 | RC => g 0 | SP => g 13 | IP => g 12
  end.

Definition arm64_regs (r : pt_reg) : access :=
  let g := cast_nth "struct user_pt_regs" "regs" in
  match r with
  | PARM1 => g 0 | PARM2 => g 1 | PARM3 => g 2 | PARM4 => g 3 | PARM5 => g 4
  | RET => g 30 | FP => g 29 | RC => g 0
  | SP => cast_fld "struct user_pt_regs" "sp"
  | IP => cast_fld "struct user_pt_regs" "pc"
  end.

Definition mips_regs (r : pt_reg) : access :=
  let g := nth_of "regs" in
  match r with
  | PARM1 => g 4 | PARM2 => g 5 | PARM3 => g 6 | PARM4 => g 7 | PARM5 => g 8
  | RET => g 31 | FP => g 30 | RC => g 2 | SP => g 29 | IP => member "cp0_epc"
  end.

Definition powerpc_regs (r : pt_reg) : access :=
  let g := nth_of "gpr" in
  match r with
  | PARM1 => g 3 | PARM2 => g 4 | PARM3 => g 5 | PARM4 => g 6 | PARM5 => g 7
  | RET => Undefined | FP => Undefined | RC => g 3
  | SP => member "sp" | IP => member "nip"
  end.

(** The register numbers of the SPARC window, which [u_regs] is indexed by, come
    from the target's own headers. *)
Record sparc_numbers := { UREG_I0 : Z; UREG_I1 : Z; UREG_I2 : Z; UREG_I3 : Z;
                          UREG_I4 : Z; UREG_I7 : Z; UREG_FP : Z }.

Definition sparc_regs (u : sparc_numbers) (m : cpp) (r : pt_reg) : access :=
  let g := nth_of "u_regs" in
  match r with
  | PARM1 => g (UREG_I0 u) | PARM2 => g (UREG_I1 u) | PARM3 => g (UREG_I2 u)
  | PARM4 => g (UREG_I3 u) | PARM5 => g (UREG_I4 u)
  | RET => g (UREG_I7 u) | FP => Undefined | RC => g (UREG_I0 u) | SP => g (UREG_FP u)
  | IP => if defined m "__arch64__" then member "tpc" else member "pc"
  end.

Definition riscv_regs (r : pt_reg) : access :=
  let g := cast_fld "struct user_regs_struct" in
  match r with
  | PARM1 => g "a0" | PARM2 => g "a1" | PARM3 => g "a2" | PARM4 => g "a3" | PARM5 => g "a4"
  | RET => g "ra" | FP => g "s5" | RC => g "a5" | SP => g "sp" | IP => g "epc"
  end.

(** [PT_REGS_x(ctx)] on a target. *)
Definition PT_REGS (u : sparc_numbers) (m : cpp) (t : target) (r : pt_reg) : access :=
  match t with
  | T_x86 => x86_regs m r
  | T_s390 => s390_regs r
  | T_arm => arm_regs r
  | T_arm64 => arm64_regs r
  | T_mips => mips_regs r
  | T_powerpc => powerpc_regs r
  | T_sparc => sparc_regs u m r
  | T_riscv => riscv_regs r
  end.

(** The [_CORE] variants spell their members a second time, for
    [BPF_CORE_READ]. *)
Definition x86_regs_core (m : cpp) (r : pt_reg) : access :=
  if defined m "__KERNEL__" || defined m "__VMLINUX_H__" then
    match r with
    | PARM1 => member "di" | PARM2 => member "si" | PARM3 => member "dx"
    | PARM4 => member "cx" | PARM5 => member "r8" | RET => member "sp"
    | FP => member "bp" | RC => member "ax" | SP => member "sp" | IP => member "ip"
    end
  else if defined m "__i386__" then
    match r with
    | PARM1 => member "eax" | PARM2 => member "edx" | PARM3 => member "ecx"
    | PARM4 => Zero | PARM5 => Zero | RET => member "esp"
    | FP => member "ebp" | RC => member "eax" | SP => member "esp" | IP => member "eip"
    end
  else
    match r with
    | PARM1 => member "rdi" | PARM2 => member "rsi" | PARM3 => member "rdx"
    | PARM4 => member "rcx" | PARM5 => member "r8" | RET => member "rsp"
    | FP => member "rbp" | RC => member "rax" | SP => member "rsp" | IP => member "rip"
    end.

Definition s390_regs_core (r : pt_reg) : access :=
  let g := cast_nth "user_pt_regs" "gprs" in
  match r with
  | PARM1 => g 2 | PARM2 => g 3 | PARM3 => g 4 | PARM4 => g 5 | PARM5 => g 6
  | RET => g 14 | FP => g 11 | RC => g 2 | SP => g 15
  | IP => Member (Some "user_pt_regs") [Dot "psw"; Dot "addr"]
  end.

Definition arm_regs_core (r : pt_reg) : access :=
  let g := nth_of "uregs" in
  match r with
  | PARM1 => g 0 | PARM2 => g 1 | PARM3 => g 2 | PARM4 => g 3 | PARM5 => g 4
  | RET => g 14 | FP => g 11 | RC => g 0 | SP => g 13 | IP => g 12
  end.

Definition arm64_regs_core (r : pt_reg) : access :=
  let g := cast_nth "struct user_pt_regs" "regs" in
  match r with
  | PARM1 => g 0 | PARM2 => g 1 | PARM3 => g 2 | PARM4 => g 3 | PARM5 => g 4
  | RET => g 30 | FP => g 29 | RC => g 0
  | SP => cast_fld "struct user_pt_regs" "sp"
  | IP => cast_fld "struct user_pt_regs" "pc"
  end.

Definition mips_regs_core (r : pt_reg) : access :=
  let g := nth_of "regs" in
  match r with
  | PARM1 => g 4 | PARM2 => g 5 | PARM3 => g 6 | PARM4 => g 7 | PARM5 => g 8
  | RET => g 31 | FP => g 30 | RC => g 2 | SP => g 29 | IP => member "cp0_epc"
  end.

Definition powerpc_regs_core (r : pt_reg) : access :=
  let g := nth_of "gpr" in
  match r with
  | PARM1 => g 3 | PARM2 => g 4 | PARM3 => g 5 | PARM4 => g 6 | PARM5 => g 7
  | RET => Undefined | FP => Undefined | RC => g 3
  | SP => member "sp" | IP => member "nip"
  end.

Definition sparc_regs_core (u : sparc_numbers) (m : cpp) (r : pt_reg) : access :=
  let g := nth_of "u_regs" in
  match r with
  | PARM1 => g (UREG_I0 u) | PARM2 => g (UREG_I1 u) | PARM3 => g (UREG_I2 u)
  | PARM4 => g (UREG_I3 u) | PARM5 => g (UREG_I4 u)
  | RET => g (UREG_I7 u) | FP => Undefined | RC => g (UREG_I0 u) | SP => g (UREG_FP u)
  | IP => if defined m "__arch64__" then member "tpc" else member "pc"
  end.

Definition riscv_regs_core (r : pt_reg) : access :=
  let g := cast_fld "struct user_regs_struct" in
  match r with
  | PARM1 => g "a0" | PARM2 => g "a1" | PARM3 => g "a2" | PARM4 => g "a3" | PARM5 => g "a4"
  | RET => g "ra" | FP => g "fp" | RC => g "a5" | SP => g "sp" | IP => g "epc"
  end.

Definition PT_REGS_CORE (u : sparc_numbers) (m : cpp) (t : target) (r : pt_reg) : access :=
  match t with
  | T_x86 => x86_regs_core m r
  | T_s390 => s390_regs_core r
  | T_arm => arm_regs_core r
  | T_arm64 => arm64_regs_core r
  | T_mips => mips_regs_core r
  | T_powerpc => powerpc_regs_core r
  | T_sparc => sparc_regs_core u m r
  | T_riscv => riscv_regs_core r
  end.

(** ** Variadic macros *)

(** [___bpf_nth(_, _1, ..., _9, _a, _b, _c, N, ...)] is its fourteenth argument. *)
Definition ___bpf_nth {A} (l : list A) : option A := l !! 13%nat.

(** [___bpf_narg(args)] is [___bpf_nth(_, ##args, 12, 11, ..., 0)]: the arguments
    push the descending counters to the right. The result is a counter, or one
    of the arguments when there are too many of them. *)
Definition ___bpf_narg {A} (args : list A) : option (A + nat) :=
  mjoin (___bpf_nth
    (None :: (Some ∘ inl <$> args) ++
     (Some ∘ inr <$> [12; 11; 10; 9; 8; 7; 6; 5; 4; 3; 2; 1; 0]%nat))).

(** An argument of the wrapped function: the context itself, a register of it,
    or a word of it. *)
Inductive ctx_arg := Ctx | Reg (r : pt_reg) | Word (i : nat).

Definition parm (n : nat) : option pt_reg :=
  match n with
  | 1 => Some PARM1 | 2 => Some PARM2 | 3 => Some PARM3 | 4 => Some PARM4 | 5 => Some PARM5
  | _ => None
  end%nat.

(** [___bpf_kprobe_args<n>]: [n] arguments from the first [n] argument registers,
    after the context; defined up to five. *)
Fixpoint ___bpf_kprobe_args (n : nat) : option (list ctx_arg) :=
  match n with
  | O => Some [Ctx]
  | S k =>
      match ___bpf_kprobe_args k, parm n with
      | Some l, Some r => Some (l ++ [Reg r])
      | _, _ => None
      end
  end.

(** [___bpf_ctx_cast<n>]: [n] arguments from the first [n] words of the context;
    defined up to twelve. *)
Fixpoint ___bpf_ctx_cast (n : nat) : option (list ctx_arg) :=
  match n with
  | O => Some [Ctx]
  | S k =>
      if (n <=? 12)%nat then
        match ___bpf_ctx_cast k with Some l => Some (l ++ [Word k]) | None => None end
      else None
  end.

(** [___bpf_kretprobe_args<n>]: at most the returned value. *)
Definition ___bpf_kretprobe_args (n : nat) : option (list ctx_arg) :=
  match n with
  | 0 => Some [Ctx]
  | 1 => Some [Ctx; Reg RC]
  | _ => None
  end%nat.

(** The argument list [BPF_KPROBE(name, args)] and [BPF_PROG(name, args)] call
    the body with. *)
Definition BPF_KPROBE {A} (args : list A) : option (list ctx_arg) :=
  match ___bpf_narg args with Some (inr n) => ___bpf_kprobe_args n | _ => None end.

Definition BPF_PROG {A} (args : list A) : option (list ctx_arg) :=
  match ___bpf_narg args with Some (inr n) => ___bpf_ctx_cast n | _ => None end.

Definition BPF_KRETPROBE {A} (args : list A) : option (list ctx_arg) :=
  match ___bpf_narg args with Some (inr n) => ___bpf_kretprobe_args n | _ => None end.

(** ** The return address *)

(** Where [ip] is taken from: a saved register, or the kernel memory at the address
    in one, plus an offset. *)
Inductive ip_source := IpReg (a : access) | IpMem (a : access) (off : Z).

Definition BPF_KPROBE_READ_RET_IP (u : sparc_numbers) (m : cpp) (t : target) : ip_source :=
  match t with
  | T_powerpc => IpReg (member "link")
  | T_sparc => IpReg (PT_REGS u m t RET)
  | _ => IpMem (PT_REGS u m t RET) 0
  end.

(** On the other targets past the saved frame pointer; [ip] is the type of the
    variable that receives the address. *)
Definition BPF_KRETPROBE_READ_RET_IP (ip : ctype) (u : sparc_numbers) (m : cpp) (t : target)
    : ip_source :=
  match t with
  | T_powerpc | T_sparc => BPF_KPROBE_READ_RET_IP u m t
  | _ => IpMem (PT_REGS u m t FP) (sizeof ip)
  end.

Definition ip_access (s : ip_source) : access :=
  match s with IpReg a | IpMem a _ => a end.

(** ** Properties *)

Lemma narg_counts {A} (args : list A) :
  (length args <= 12)%nat → ___bpf_narg args = Some (inr (length args)).
Proof.
  do 13 (destruct args as [|? args]; [done|]). simpl. lia.
Qed.

Lemma narg_too_many {A} (args : list A) :
  (12 < length args)%nat → ∃ a, ___bpf_narg args = Some (inl a).
Proof.
  do 12 (destruct args as [|? args]; [simpl; lia|]).
  destruct args as [|last args]; [simpl; lia|]. by exists last.
Qed.

Lemma kprobe_args_none n : (5 < n)%nat → ___bpf_kprobe_args n = None.
Proof.
  intros Hn. destruct n as [|n]; [lia|].
  do 5 (destruct n as [|n]; [lia|]). simpl. by case_match.
Qed.

Lemma kretprobe_args {A} (args : list A) :
  BPF_KRETPROBE args =
  match length args with
  | 0 => Some [Ctx]
  | 1 => Some [Ctx; Reg RC]
  | _ => None
  end%nat.
Proof.
  unfold BPF_KRETPROBE. destruct (decide (length args <= 12)%nat) as [H12|H12].
  - by rewrite narg_counts.
  - destruct (narg_too_many args) as [a ->]; [lia|].
    destruct args as [|a1 [|a2 args]]; [simpl in H12; lia..|done].
Qed.

(** C36. A kprobe body receives the context and then the probed function's
    arguments in order, the i-th one from the i-th argument register: for up to
    five declared arguments the wrapper passes exactly the first registers, and
    a body that declares more does not expand.  A return probe's body receives the
    context and, if it declares it, the register of the returned value. *)
Theorem kprobe_arguments {A} (args : list A) :
  BPF_KPROBE args = (
  if decide (length args <= 5)%nat
  then Some (Ctx :: (Reg <$> take (length args) [PARM1; PARM2; PARM3; PARM4; PARM5]))
  else None) ∧
  BPF_KRETPROBE args =
  match length args with
  | 0 => Some [Ctx]
  | 1 => Some [Ctx; Reg RC]
  | _ => None
  end%nat.
Proof.
  split; [|apply kretprobe_args].
  unfold BPF_KPROBE. case_decide as Hl.
  - rewrite narg_counts by lia.
    do 6 (destruct args as [|? args]; [done|]). simpl in Hl. lia.
  - destruct (decide (length args <= 12)%nat) as [H12|H12].
    + rewrite narg_counts by done. apply kprobe_args_none. lia.
    + destruct (narg_too_many args) as [a ->]; [lia|done].
Qed.

(** C39. Where the register macros read.  The two spellings of a register accessor
    designate the same register, on every target and under every configuration
    of the headers, except for the RISC-V frame pointer: the plain accessor reads
    [s5], the CO-RE one [fp].  The return-address macros expand on every target:
    powerpc and sparc, the special cases, are exactly the targets where the
    registers the general form uses are not both defined.  The general form, a
    read of memory, is also used on arm64, where the register it dereferences is
    the link register, which holds the return address itself. *)
Theorem register_sources ip u m t :
  (∀ r, PT_REGS_CORE u m t r = PT_REGS u m t r ↔ ¬ (t = T_riscv ∧ r = FP)) ∧
  ip_access (BPF_KPROBE_READ_RET_IP u m t) ≠ Undefined ∧
  ip_access (BPF_KRETPROBE_READ_RET_IP ip u m t) ≠ Undefined ∧
  ((t = T_powerpc ∨ t = T_sparc) ↔ (PT_REGS u m t RET = Undefined ∨ PT_REGS u m t FP = Undefined)) ∧
  BPF_KPROBE_READ_RET_IP u m T_arm64 = IpMem (cast_nth "struct user_pt_regs" "regs" 30) 0.
Proof.
  split.
  - intros r. split.
    + intros Heq [-> ->]. discriminate.
    + intros Hn. destruct t; try done. destruct r; try done. by destruct Hn.
  - split_and!; destruct t; try done; cbn; unfold x86_regs; repeat case_match; try done;
      split; intros [? | ?]; try done; auto.
Qed.
