(* ===== verification/BpfHelpers.v ===== *)
(** * Macros for BPF programs

    [bpf_helpers.h]: the members of map definitions, the macros that compute, namely
    the version number, the enclosing object of a member, and the formatting
    macros, which pack their arguments for the helpers of [BpfHelperDefs].  A use
    of these is the helper call it expands to. *)
From S2P Require Import Prelude CTypes BpfHelperDefs BpfTracing.

(** ** Map definitions *)

(** What a member of a map definition declares: a pointer to an object of a type, or an
    array of unknown length of such pointers.  The values are never used: the
    loader reads the types. *)
Inductive map_member := Pointer (t : ctype) | Pointers (t : ctype).

Definition __uint (name : string) (val : Z) : string * map_member :=
  (name, Pointer (TArr (TInt IInt) val)).
Definition __type (name : string) (val : ctype) : string * map_member := (name, Pointer val).
Definition __array (name : string) (val : ctype) : string * map_member := (name, Pointers val).

(** The older form of a definition, and constants of the newer one. *)
Definition bpf_map_def : ctype :=
  TStruct "bpf_map_def" members{
  MFld "type" (TInt IUInt);
  MFld "key_size" (TInt IUInt);
  MFld "value_size" (TInt IUInt);
  MFld "max_entries" (TInt IUInt);
  MFld "map_flags" (TInt IUInt) }.
Definition libbpf_pin_type : ctype :=
  TEnum "libbpf_pin_type" [("LIBBPF_PIN_NONE", 0); ("LIBBPF_PIN_BY_NAME", 1)].
Definition libbpf_tristate : ctype :=
  TEnum "libbpf_tristate" [("TRI_NO", 0); ("TRI_YES", 1); ("TRI_MODULE", 2)].

(** The number [__uint] encodes in the member [x], and the type [__type] does. *)
Definition map_uint (def : list (string * map_member)) (x : string) : option Z :=
  match List.find (λ m, String.eqb m.1 x) def with
  | Some (_, Pointer (TArr (TInt IInt) n)) => Some n
  | _ => None
  end.
Definition map_type (def : list (string * map_member)) (x : string) : option ctype :=
  match List.find (λ m, String.eqb m.1 x) def with
  | Some (_, Pointer t) => Some t
  | _ => None
  end.

(** ** Numbers and addresses *)

Definition KERNEL_VERSION (a b c : Z) : Z :=
  Z.shiftl a 16 + Z.shiftl b 8 + (if 255 <? c then 255 else c).

(** [container_of(ptr, type, member)]. *)
Definition container_of (ptr : Z) (type : ctype) (member : list step) : option Z :=
  match offsetof type member with
  | Some (o, _) => Some (wrap 64 (ptr - o))
  | None => None
  end.

(** ** Helper calls *)

(** An argument in a call: a value, a format string (with its terminator), or the
    array of packed parameters. *)
Inductive call_arg := AVal (v : Z) | AFmt (s : list byte) | AParams (ps : list Z).

Record call := { callee : helper; call_args : list call_arg }.

(** [static const char ___fmt[] = fmt], and its [sizeof]. *)
Definition fmt_array (fmt : list byte) : list byte := fmt ++ [x00].
Definition fmt_size (fmt : list byte) : Z := Z.of_nat (length (fmt_array fmt)).

(** [___bpf_fill<n>(arr, p, x, args...)]: [n] assignments from slot [p] on; defined up to
    twelve. *)
Fixpoint ___bpf_filln (n : nat) (arr : list Z) (p : nat) (args : list Z) : option (list Z) :=
  match n, args with
  | O, [] => Some arr
  | S n', x :: args =>
      if (n <=? 12)%nat then ___bpf_filln n' (<[p := wrap 64 x]> arr) (p + 1) args else None
  | _, _ => None
  end.

Definition ___bpf_fill (arr args : list Z) : option (list Z) :=
  match ___bpf_narg args with
  | Some (inr n) => ___bpf_filln n arr 0 args
  | _ => None
  end.

Section printing.
(** What the uninitialised array [___param[n]] holds. *)
Variable undef : nat → list Z.
Hypothesis undef_length : ∀ n, length (undef n) = n.

(** [unsigned long long ___param[___bpf_narg(args)]], filled. *)
Definition params (args : list Z) : option (list Z) :=
  match ___bpf_narg args with
  | Some (inr n) => ___bpf_fill (undef n) args
  | _ => None
  end.

Definition params_size (ps : list Z) : Z := 8 * Z.of_nat (length ps).

Definition BPF_SEQ_PRINTF (seq : Z) (fmt : list byte) (args : list Z) : option call :=
  match params args with
  | Some ps => Some {| callee := bpf_seq_printf; call_args :=
      [AVal seq; AFmt (fmt_array fmt); AVal (fmt_size fmt); AParams ps; AVal (params_size ps)] |}
  | None => None
  end.

Definition BPF_SNPRINTF (out out_size : Z) (fmt : list byte) (args : list Z) : option call :=
  match params args with
  | Some ps => Some {| callee := bpf_snprintf; call_args :=
      [AVal out; AVal out_size; AFmt (fmt_array fmt); AParams ps; AVal (params_size ps)] |}
  | None => None
  end.

Definition __bpf_printk (fmt : list byte) (args : list Z) : option call :=
  Some {| callee := bpf_trace_printk; call_args :=
    [AFmt (fmt_array fmt); AVal (fmt_size fmt)] ++ (AVal <$> args) |}.

Definition __bpf_vprintk (fmt : list byte) (args : list Z) : option call :=
  match params args with
  | Some ps => Some {| callee := bpf_trace_vprintk; call_args :=
      [AFmt (fmt_array fmt); AVal (fmt_size fmt); AParams ps; AVal (params_size ps)] |}
  | None => None
  end.

(** [___bpf_pick_printk(args)]: the arguments push the macros' names to the right of
    the fourteenth place. With too many of them an argument ends up there. *)
Definition ___bpf_pick_printk (args : list Z) : option (Z + (list byte → list Z → option call)) :=
  mjoin (___bpf_nth (None :: (Some ∘ inl <$> args) ++ (Some ∘ inr <$>
    [__bpf_vprintk; __bpf_vprintk; __bpf_vprintk; __bpf_vprintk; __bpf_vprintk;
     __bpf_vprintk; __bpf_vprintk; __bpf_vprintk; __bpf_vprintk;
     __bpf_printk; __bpf_printk; __bpf_printk; __bpf_printk]))).

Definition bpf_printk (fmt : list byte) (args : list Z) : option call :=
  match ___bpf_pick_printk args with
  | Some (inr printk) => printk fmt args
  | _ => None
  end.

(** [bpf_tail_call_static(ctx, map, slot)]: the call of helper 12 it assembles, with
    its operands in the first three argument registers; a slot that is not a
    compile-time constant does not build. *)
Definition bpf_tail_call_static (ctx map : Z) (slot : option Z) : option (Z * list Z) :=
  match slot with Some slot => Some (12, [ctx; map; slot]) | None => None end.

(** ** Packing *)

Lemma filln_spec done rest args :
  (length args <= 12)%nat → length rest = length args →
  ___bpf_filln (length args) (done ++ rest) (length done) args = Some (done ++ (wrap 64 <$> args)).
Proof using.
  revert done rest. induction args as [|x args IH]; intros done rest Hn Hl.
  - destruct rest; [|discriminate Hl]. reflexivity.
  - destruct rest as [|r rest]; [discriminate Hl|]. cbn [length ___bpf_filln] in *.
    rewrite (proj2 (Nat.leb_le _ _)) by lia.
    rewrite insert_app_r_alt, Nat.sub_diag by lia. cbn [insert list_insert].
    specialize (IH (done ++ [wrap 64 x]) rest ltac:(lia) ltac:(lia)).
    rewrite length_app, <- !app_assoc in IH. exact IH.
Qed.

Lemma params_spec args :
  (length args <= 12)%nat → params args = Some (wrap 64 <$> args).
Proof using undef_length.
  intros Hn. unfold params, ___bpf_fill. rewrite narg_counts by done.
  apply (filln_spec [] (undef (length args))); [done|apply undef_length].
Qed.

Lemma params_none args : (12 < length args)%nat → params args = None.
Proof using. intros Hn. unfold params. by destruct (narg_too_many args Hn) as [a ->]. Qed.

Lemma pick_spec args :
  ___bpf_pick_printk args =
  if decide (length args <= 3)%nat then Some (inr __bpf_printk)
  else if decide (length args <= 12)%nat then Some (inr __bpf_vprintk)
  else inl <$> args !! 12%nat.
Proof using.
  do 13 (destruct args as [|? args]; [done|]). repeat case_decide; simpl in *; try lia. done.
Qed.
End printing.

(** [bpf_printk] with up to three arguments is a call of [bpf_trace_printk] with
    the format, its size and the arguments themselves; with four to twelve it
    is a call of [bpf_trace_vprintk] with all of them, in order and as 64-bit
    words, in an array of exactly their size whatever the uninitialised array
    held; with more it does not expand. No expansion passes more than the five
    arguments a helper can take. *)
Lemma printk_call (undef : nat → list Z) fmt args :
  (∀ n, length (undef n) = n) →
  bpf_printk undef fmt args =
    (if decide (length args <= 3)%nat then
       Some {| callee := bpf_trace_printk; call_args :=
         AFmt (fmt ++ [x00]) :: AVal (fmt_size fmt) :: (AVal <$> args) |}
     else if decide (length args <= 12)%nat then
       Some {| callee := bpf_trace_vprintk; call_args :=
         [AFmt (fmt ++ [x00]); AVal (fmt_size fmt); AParams (wrap 64 <$> args);
          AVal (8 * Z.of_nat (length args))] |}
     else None) ∧
  match bpf_printk undef fmt args with
  | Some c => (length (call_args c) <= 5)%nat
  | None => True
  end.
Proof.
  intros Hu. unfold bpf_printk. rewrite pick_spec.
  case_decide as H3; [split; [done|simpl; len]|].
  case_decide as H12.
  - unfold __bpf_vprintk. rewrite (params_spec undef Hu) by done.
    unfold params_size. rewrite length_fmap. split; [done|simpl; lia].
  - by destruct (args !! 12%nat).
Qed.

(** [container_of] inverts taking the address of a member, for any member of any
    type, across the wrap-around of addresses. *)
Lemma container_of_member t acc o u p :
  offsetof t acc = Some (o, u) → 0 <= p < 2 ^ 64 →
  container_of (wrap 64 (p + o)) t acc = Some p.
Proof.
  intros Ho Hp. unfold container_of. rewrite Ho. f_equal. unfold wrap.
  rewrite Zminus_mod_idemp_l. replace (p + o - o) with p by lia. by apply Z.mod_small.
Qed.

(** Version numbers are ordered by their components, the last one cut at 255. *)
Lemma kernel_version_lt a b c a' b' c' :
  0 <= b < 256 → 0 <= b' < 256 → 0 <= c → 0 <= c' →
  KERNEL_VERSION a b c < KERNEL_VERSION a' b' c' ↔
  a < a' ∨ a = a' ∧ (b < b' ∨ b = b' ∧ Z.min c 255 < Z.min c' 255).
Proof.
  intros Hb Hb' Hc Hc'. unfold KERNEL_VERSION. rewrite !Z.shiftl_mul_pow2 by lia.
  destruct (Z.ltb_spec 255 c), (Z.ltb_spec 255 c'); lia.
Qed.

(** The tail call's number is that of the helper declaration. *)
Example tail_call_number :
  fst <$> bpf_tail_call_static 1 2 (Some 3) = Some (h_number bpf_tail_call).
Proof. reflexivity. Qed.

Lemma printk_call_witness :
  bpf_printk (λ n, replicate n 7) (bs "%d %d %d %d") [1; -1; 3; 4] =
  Some {| callee := bpf_trace_vprintk; call_args :=
    [AFmt (bs "%d %d %d %d" ++ [x00]); AVal 12; AParams [1; 2 ^ 64 - 1; 3; 4]; AVal 32] |}.
Proof.
  destruct (printk_call (λ n, replicate n 7) (bs "%d %d %d %d") [1; -1; 3; 4]) as [H _].
  - intros n. apply length_replicate.
  - rewrite H. vm_compute. reflexivity.
Defined.

Lemma container_of_member_witness :
  container_of (4096 + 24) example_struct [Dot "regs"; Idx 4] = Some 4096.
Proof.
  apply (container_of_member example_struct [Dot "regs"; Idx 4] 24 (TInt IUShort) 4096);
    [vm_compute; reflexivity|lia].
Defined.
