(* ===== verification/BpfCoreRead.v ===== *)
(** * Reading kernel memory from a BPF program

    [BpfKernel] is the interface between the probe and the kernel it runs in:
    the helpers [oomkill.c] and the reading macros call, as operations on an
    abstract kernel state, and the observations they are specified with.
    [BpfKernelLaws] states what [bpf_helper_defs.h] documents about them.  On top
    of it, the [BPF_CORE_READ] and [BPF_PROBE_READ] macros of [bpf_core_read.h]:
    pointer chasing through member accesses, relocated to the running kernel's
    types or not, in kernel or user memory.

    A helper acts on one kernel state; the kernel goes on between two calls, so that
    a macro that calls several is given the state of each. *)
From S2P Require Import Prelude CTypes.

(** ** The kernel interface *)

(** [n] bytes of a byte-addressed memory from address [a] on, addresses being 64
    bits wide; [None] if one of them cannot be read. *)
Fixpoint kread (mem : Z → option byte) (a : Z) (n : nat) : option (list byte) :=
  match n with
  | O => Some []
  | S n =>
      match mem (wrap 64 a), kread mem (a + 1) n with
      | Some c, Some l => Some ((c :: l))
      | _, _ => None
      end
  end.

(** A NUL-terminated string at an address. *)
Definition c_string (mem : Z → option byte) (a : Z) (s : list byte) : Prop :=
  (x00 ∉ s) ∧ kread mem a (S (length s)) = Some (s ++ [x00]).

(** The contents of a [char] field of [n] bytes that holds the string [s]: the
    string, cut to leave room for its terminator, and zeros. *)
Definition cfield (n : nat) (s : list byte) : list byte :=
  let s' := take (n - 1) s in s' ++ replicate (n - length s') x00.

Class BpfKernel (K : Type) := {
  (** observations: kernel memory, the current task's user memory, the task, and
      the ring buffer *)
  kmem : K → Z → option byte;
  umem : K → Z → option byte;
  current_comm : K → list byte;
  current_tgid : K → Z;
  current_pid : K → Z;
  submitted : K → list (list byte);
  outstanding : K → nat;
  (** helpers; a destination buffer is passed with its contents and returned
      with the new ones, next to the helper's return value *)
  ringbuf_reserve : K → Z → Z → option (list byte) * K;
  ringbuf_submit : K → list byte → Z → K;
  get_current_pid_tgid : K → Z;
  get_current_comm : K → list byte → Z → Z * list byte;
  probe_read_kernel : K → list byte → Z → Z → Z * list byte;
  probe_read_kernel_str : K → list byte → Z → Z → Z * list byte;
  probe_read_user : K → list byte → Z → Z → Z * list byte;
  probe_read_user_str : K → list byte → Z → Z → Z * list byte;
  (** what an uninitialised local variable holds *)
  undef : K → nat → list byte;
}.

(** Nothing but the ring buffer differs. *)
Definition same_but_ringbuf {K} `{BpfKernel K} (k k' : K) : Prop :=
  kmem k' = kmem k ∧ current_comm k' = current_comm k ∧
  current_tgid k' = current_tgid k ∧ current_pid k' = current_pid k.

(** A helper that reads bytes of [mem]: readable ones are copied, a failure is
    negative, and nothing outside the buffer is written. *)
Record reads (mem : Z → option byte) (rd : list byte → Z → Z → Z * list byte) : Prop := {
  reads_ok dst a l :
    kread mem a (length dst) = Some l → rd dst (Z.of_nat (length dst)) a = (0, l);
  reads_error dst a :
    kread mem a (length dst) = None → (rd dst (Z.of_nat (length dst)) a).1 < 0;
  reads_length dst a : length (rd dst (Z.of_nat (length dst)) a).2 = length dst;
}.

(** A helper that reads a string of [mem]: one that fits is copied with its
    terminator and the rest of the buffer is left alone; a longer one is cut. *)
Record reads_string (mem : Z → option byte) (rd : list byte → Z → Z → Z * list byte)
    : Prop := {
  string_fits dst a s :
    c_string mem a s → (length s < length dst)%nat →
    rd dst (Z.of_nat (length dst)) a =
      (Z.of_nat (S (length s)), s ++ x00 :: drop (S (length s)) dst);
  string_cut dst a s :
    c_string mem a s → (length dst <= length s)%nat → (0 < length dst)%nat →
    rd dst (Z.of_nat (length dst)) a =
      (Z.of_nat (length dst), take (length dst - 1) s ++ [x00]);
  string_length dst a : length (rd dst (Z.of_nat (length dst)) a).2 = length dst;
}.

Class BpfKernelLaws (K : Type) `{BpfKernel K} : Prop := {
  (** a reservation is NULL or [size] bytes of payload; nothing is visible to the
      reader before it is submitted *)
  reserve_some k size flags e k' :
    ringbuf_reserve k size flags = (Some e, k') →
    Z.of_nat (length e) = size ∧ same_but_ringbuf k k' ∧
    submitted k' = submitted k ∧ outstanding k' = S (outstanding k);
  reserve_null k size flags k' :
    ringbuf_reserve k size flags = (None, k') →
    same_but_ringbuf k k' ∧ submitted k' = submitted k ∧
    outstanding k' = outstanding k;
  (** submitting always succeeds and hands the sample to the reader, in order *)
  submit_spec k e flags :
    same_but_ringbuf k (ringbuf_submit k e flags) ∧
    submitted (ringbuf_submit k e flags) = submitted k ++ [e] ∧
    outstanding (ringbuf_submit k e flags) = pred (outstanding k);
  (** tgid << 32 | pid, both 32 bits wide *)
  pid_tgid_spec k :
    get_current_pid_tgid k = Z.lor (Z.shiftl (current_tgid k) 32) (current_pid k) ∧
    0 <= current_tgid k < 2 ^ 32 ∧ 0 <= current_pid k < 2 ^ 32;
  (** a zeroed buffer ends up with the NUL-terminated name *)
  get_current_comm_spec k n :
    (0 < n)%nat →
    get_current_comm k (replicate n x00) (Z.of_nat n) = (0, cfield n (current_comm k));
  get_current_comm_length k dst :
    length (get_current_comm k dst (Z.of_nat (length dst))).2 = length dst;
  reads_kernel k : reads (kmem k) (probe_read_kernel k);
  reads_user k : reads (umem k) (probe_read_user k);
  reads_kernel_str k : reads_string (kmem k) (probe_read_kernel_str k);
  reads_user_str k : reads_string (umem k) (probe_read_user_str k);
  undef_length k n : length (undef k n) = n;
}.

(** What a faulting read leaves in the destination is not part of the helper's
    documentation in the header; the kernel's implementation clears it. *)
Class ZeroesOnFault (K : Type) `{BpfKernel K} : Prop :=
  probe_read_fault k dst a :
    kread (kmem k) a (length dst) = None →
    (probe_read_kernel k dst (Z.of_nat (length dst)) a).2 = replicate (length dst) x00.

(** ** Relocation *)

(** The spelling of a struct or union type in a declaration. *)
Definition spelling (t : ctype) : option string :=
  match t with
  | TStruct tag _ => Some ("struct " ++ tag)%string
  | TUnion tag _ => Some ("union " ++ tag)%string
  | _ => None
  end.

(** [__builtin_preserve_access_index(&p->acc)]: the offset is that of the member
    with the same name in the running kernel's type [kenv] of the same name, the
    member's type (and so the size read) the one compiled with. [None] without
    such a member: the loader refuses the program. *)
Definition relocate (kenv : list (string * ctype)) (t : ctype) (acc : list step)
    : option (Z * ctype) :=
  match offsetof t acc, spelling t with
  | Some (_, u), Some s =>
      match pointee_in kenv s with
      | Some kt => match offsetof kt acc with Some (o, _) => Some (o, u) | None => None end
      | None => None
      end
  | _, _ => None
  end.

Lemma relocate_local kenv t acc o u :
  relocate kenv t acc = Some (o, u) → ∃ o', offsetof t acc = Some (o', u).
Proof. unfold relocate. intros Hr. crush_match. eauto. Qed.

(** A type relocated against headers that declare it is where it is. *)
Lemma relocate_same kenv t acc s :
  spelling t = Some s → pointee_in kenv s = Some t → relocate kenv t acc = offsetof t acc.
Proof.
  intros Hs Ht. unfold relocate. rewrite Hs, Ht. by destruct (offsetof t acc) as [[??]|].
Qed.

(** ** Argument lists of the accessor macros *)

(** [___last(...)] and [___nolast(...)]. *)
Definition ___last {A} (l : list A) : option A := last l.
Definition ___nolast {A} (l : list A) : list A := take (pred (length l)) l.

(** ** The read functions *)

(** The address space a helper reads. *)
Inductive space := Kernel | User.

(** The functions the macros are given: whether the address argument is relocated,
    and the helper called. *)
Record read_fn (K : Type) := {
  rf_reloc : bool;
  rf_call : K → list byte → Z → Z → Z * list byte;
}.
Arguments rf_reloc {K}.
Arguments rf_call {K}.

Section read_fns.
Context {K : Type} `{BpfKernel K}.

Definition bpf_probe_read (sp : space) : read_fn K := {|
  rf_reloc := false;
  rf_call := match sp with Kernel => probe_read_kernel | User => probe_read_user end |}.
Definition bpf_probe_read_str (sp : space) : read_fn K := {|
  rf_reloc := false;
  rf_call := match sp with Kernel => probe_read_kernel_str | User => probe_read_user_str end |}.

(** [bpf_core_read], [bpf_core_read_user], [bpf_core_read_str] and
    [bpf_core_read_user_str]: the helper on a relocated address. *)
Definition bpf_core_read (sp : space) : read_fn K := {|
  rf_reloc := true; rf_call := rf_call (bpf_probe_read sp) |}.
Definition bpf_core_read_str (sp : space) : read_fn K := {|
  rf_reloc := true; rf_call := rf_call (bpf_probe_read_str sp) |}.

Definition memory (sp : space) (k : K) : Z → option byte :=
  match sp with Kernel => kmem k | User => umem k end.
End read_fns.

(** ** The accessor macros *)

Section core_read.
Context {K : Type} `{BpfKernel K}.

(** The declarations of the kernel headers the program is compiled with, and the
    types of the kernel it is loaded into. *)
Variables env kenv : list (string * ctype).

(** The kernel goes on between two calls of a helper: where a macro calls several, [ks i]
    is the state of the [i]-th call. *)

(** The member [acc] of [t]: its offset, relocated or as compiled, and its type. *)
Definition place (reloc : bool) (t : ctype) (acc : list step) : option (Z * ctype) :=
  if reloc then relocate kenv t acc else offsetof t acc.

(** [&((src_type)(src))->accessor], with the type of the member. *)
Definition member_addr (reloc : bool) (t : ctype) (src : Z) (acc : list step)
    : option (Z * ctype) :=
  match place reloc t acc with
  | Some (o, u) => Some (wrap 64 (src + o), u)
  | None => None
  end.

(** [___read(read_fn, dst, src_type, src, accessor)]: the value of the call and the
    new contents of the destination. *)
Definition ___read (read_fn : read_fn K) (k : K) (dst : list byte) (t : ctype) (src : Z)
    (acc : list step) : option (Z * list byte) :=
  match member_addr (rf_reloc read_fn) t src acc with
  | Some (a, _) => Some (rf_call read_fn k dst (Z.of_nat (length dst)) a)
  | None => None
  end.

(** The struct the pointer member [acc] of [t] refers to, by [___type]. *)
Definition ___type (t : ctype) (acc : list step) : option ctype :=
  match offsetof t acc with
  | Some (_, TPtr s) => pointee_in env s
  | _ => None
  end.

(** [___rd_first], [___rd_last]: one pointer is read into [__t], a [const void *]
    that starts uninitialised; the type it is seen at next comes with it. The
    value of the call is dropped. *)
Definition ___rd (fn : read_fn K) (k : K) (t : ctype) (src : Z) (acc : list step)
    (tmp : list byte) : option (ctype * list byte) :=
  match ___read fn k tmp t src acc, ___type t acc with
  | Some (_, tmp'), Some t' => Some (t', tmp')
  | _, _ => None
  end.

(** [___read_ptrs(fn, src, a, ...)]: the first accessor applies to [src], each
    further one to the pointer just read. *)
Fixpoint ___rd_rest (fn : read_fn K) (ks : nat → K) (accs : list (list step))
    (s : ctype * list byte) : option (ctype * list byte) :=
  match accs with
  | [] => Some s
  | a :: accs =>
      match ___rd fn (ks 0%nat) s.1 (le_Z s.2) a s.2 with
      | Some s' => ___rd_rest fn (λ i, ks (S i)) accs s'
      | None => None
      end
  end.

Definition ___read_ptrs (fn : read_fn K) (ks : nat → K) (t : ctype) (src : Z)
    (accs : list (list step)) : option (ctype * list byte) :=
  match accs with
  | [] => None
  | a :: accs =>
      match ___rd fn (ks 0%nat) t src a (undef (ks 0%nat) 8) with
      | Some s => ___rd_rest fn (λ i, ks (S i)) accs s
      | None => None
      end
  end.

(** [___core_read0] for one accessor, [___core_readN] for more: the pointers are
    read with [fn_ptr], the last member with [fn]. *)
Definition ___core_read (fn fn_ptr : read_fn K) (ks : nat → K) (dst : list byte) (t : ctype)
    (src : Z) (a : list step) (rest : list (list step)) : option (Z * list byte) :=
  match rest with
  | [] => ___read fn (ks 0%nat) dst t src a
  | _ =>
      match ___last (a :: rest), ___read_ptrs fn_ptr ks t src (___nolast (a :: rest)) with
      | Some z, Some (t', tmp) => ___read fn (ks (length rest)) dst t' (le_Z tmp) z
      | _, _ => None
      end
  end.

(** The type of the whole access path, [___type((src), a, ...)]. *)
Fixpoint core_type (t : ctype) (a : list step) (rest : list (list step)) : option ctype :=
  match rest with
  | [] => match offsetof t a with Some (_, u) => Some u | None => None end
  | a' :: rest =>
      match ___type t a with Some t' => core_type t' a' rest | None => None end
  end.

(** [___narg] counts up to ten arguments, and [___last], [___nolast] and [___arrow]
    are defined for as many. *)
Definition narg_ok (n : nat) : bool := (n <=? 10)%nat.

(** The [_INTO] macros, for [bpf_core_read] and [bpf_probe_read] and by the address
    space: [BPF_CORE_READ_INTO], [BPF_CORE_READ_USER_INTO], [BPF_PROBE_READ_INTO]
    and [BPF_PROBE_READ_USER_INTO]. *)
Definition READ_INTO (core : bool) (sp : space) (ks : nat → K) (dst : list byte) (t : ctype)
    (src : Z) (a : list step) (rest : list (list step)) : option (Z * list byte) :=
  let fn := if core then bpf_core_read sp else bpf_probe_read sp in
  if narg_ok (length (a :: rest)) then ___core_read fn fn ks dst t src a rest else None.

(** [BPF_CORE_READ_STR_INTO], [BPF_CORE_READ_USER_STR_INTO],
    [BPF_PROBE_READ_STR_INTO] and [BPF_PROBE_READ_USER_STR_INTO]. *)
Definition READ_STR_INTO (core : bool) (sp : space) (ks : nat → K) (dst : list byte) (t : ctype)
    (src : Z) (a : list step) (rest : list (list step)) : option (Z * list byte) :=
  let fn := if core then bpf_core_read_str sp else bpf_probe_read_str sp in
  let fn_ptr := if core then bpf_core_read sp else bpf_probe_read sp in
  if narg_ok (length (a :: rest)) then ___core_read fn fn_ptr ks dst t src a rest else None.

(** The value of an object from its bytes: signed for the signed types. *)
Definition load (t : ctype) (l : list byte) : Z :=
  match t with
  | TInt (IChar | IShort | IInt | ILong | ILLong | IInt128) =>
      swrap (8 * sizeof t) (le_Z l)
  | _ => le_Z l
  end.

(** [BPF_CORE_READ], [BPF_CORE_READ_USER], [BPF_PROBE_READ] and
    [BPF_PROBE_READ_USER]: an uninitialised [__r] of the type of the path is
    filled and is the value, whatever the call returned. [___type] counts the
    source as well as the accessors. *)
Definition READ (core : bool) (sp : space) (ks : nat → K) (t : ctype) (src : Z)
    (a : list step) (rest : list (list step)) : option Z :=
  match if narg_ok (S (length (a :: rest))) then core_type t a rest else None with
  | Some u =>
      match READ_INTO core sp ks (undef (ks 0%nat) (Z.to_nat (sizeof u))) t src a rest with
      | Some (_, l) => Some (load u l)
      | None => None
      end
  | None => None
  end.

Definition BPF_CORE_READ_INTO := READ_INTO true Kernel.
Definition BPF_CORE_READ_STR_INTO := READ_STR_INTO true Kernel.
Definition BPF_CORE_READ := READ true Kernel.
Definition BPF_CORE_READ_USER_INTO := READ_INTO true User.
Definition BPF_CORE_READ_USER_STR_INTO := READ_STR_INTO true User.
Definition BPF_CORE_READ_USER := READ true User.
Definition BPF_PROBE_READ_INTO := READ_INTO false Kernel.
Definition BPF_PROBE_READ_STR_INTO := READ_STR_INTO false Kernel.
Definition BPF_PROBE_READ := READ false Kernel.
Definition BPF_PROBE_READ_USER_INTO := READ_INTO false User.
Definition BPF_PROBE_READ_USER_STR_INTO := READ_STR_INTO false User.
Definition BPF_PROBE_READ_USER := READ false User.
End core_read.

(** ** Following pointers *)

(** The object [src->a->b->c], with the members where [at_] has them: a pointer is loaded
    at each member but the last, the [i]-th one from the memory [mems i]. *)
Fixpoint chase_addr (env : list (string * ctype)) (at_ : ctype → list step → option (Z * ctype))
    (mems : nat → Z → option byte) (t : ctype) (src : Z) (a : list step)
    (rest : list (list step)) : option (Z * ctype) :=
  match rest with
  | [] =>
      match at_ t a with Some (o, u) => Some (src + o, u) | None => None end
  | a' :: rest =>
      match at_ t a with
      | Some (o, TPtr s) =>
          match pointee_in env s, kread (mems 0%nat) (src + o) 8 with
          | Some t', Some l => chase_addr env at_ (λ i, mems (S i)) t' (le_Z l) a' rest
          | _, _ => None
          end
      | _ => None
      end
  end.

Lemma wrap_wrap_add w a c : 0 <= w → wrap w (wrap w a + c) = wrap w (a + c).
Proof. intros. unfold wrap. apply Zplus_mod_idemp_l. Qed.

Lemma kread_wrap mem a n : kread mem (wrap 64 a) n = kread mem a n.
Proof.
  destruct n as [|n]; [done|]. cbn [kread].
  replace (wrap 64 (wrap 64 a)) with (wrap 64 a)
    by (symmetry; apply wrap_small, wrap_range; lia).
  enough (kread mem (wrap 64 a + 1) n = kread mem (a + 1) n) as -> by done.
  clear. assert (∀ c, 0 <= c → kread mem (wrap 64 a + c) n = kread mem (a + c) n) as Hg;
    [|by apply Hg].
  induction n as [|n IH]; intros c Hc; [done|]. cbn [kread].
  rewrite wrap_wrap_add by lia.
  by rewrite <- !Z.add_assoc, IH by lia.
Qed.

Lemma c_string_wrap mem a s : c_string mem (wrap 64 a) s ↔ c_string mem a s.
Proof. unfold c_string. by rewrite kread_wrap. Qed.

Lemma kread_length mem a n l : kread mem a n = Some l → length l = n.
Proof.
  revert a l. induction n as [|n IH]; intros a l Hr; simpl in Hr; [by simplify_eq|].
  crush_match. f_equal. eauto.
Qed.

Lemma kread_app mem a n m l1 l2 :
  kread mem a n = Some l1 → kread mem (a + Z.of_nat n) m = Some l2 →
  kread mem a (n + m) = Some (l1 ++ l2).
Proof.
  revert a l1. induction n as [|n IH]; intros a l1 H1 H2; simpl in H1.
  - simplify_eq. by rewrite Z.add_0_r in H2.
  - crush_match. simpl. case_match; simplify_eq.
    erewrite IH; eauto. by replace (a + 1 + Z.of_nat n) with (a + Z.of_nat (S n)) by lia.
Qed.

Lemma length_cfield n s : length (cfield n s) = n.
Proof. unfold cfield. len. Qed.
#[export] Hint Rewrite length_cfield : otlen.

Section chasing.
Context {K : Type} `{HK : BpfKernel K, HL : !BpfKernelLaws K}.
Variables env kenv : list (string * ctype).

Lemma place_local reloc t a o u :
  place kenv reloc t a = Some (o, u) → ∃ o', offsetof t a = Some (o', u).
Proof using. destruct reloc; simpl; [apply relocate_local|eauto]. Qed.

Lemma reads_memory sp (k : K) : reads (memory sp k) (rf_call (bpf_probe_read sp) k).
Proof using HL. destruct sp; apply HL. Qed.

Lemma reads_string_memory sp (k : K) :
  reads_string (memory sp k) (rf_call (bpf_probe_read_str sp) k).
Proof using HL. destruct sp; apply HL. Qed.

(** The accessors applied from the left. *)
Fixpoint read_left (fn fn_ptr : read_fn K) (ks : nat → K) (dst tmp : list byte) (t : ctype)
    (src : Z) (a : list step) (rest : list (list step)) : option (Z * list byte) :=
  match rest with
  | [] => ___read kenv fn (ks 0%nat) dst t src a
  | a' :: rest =>
      match ___rd env kenv fn_ptr (ks 0%nat) t src a tmp with
      | Some s => read_left fn fn_ptr (λ i, ks (S i)) dst s.2 s.1 (le_Z s.2) a' rest
      | None => None
      end
  end.

Lemma rd_rest_left fn fn_ptr ks dst a rest s :
  match ___last (a :: rest), ___rd_rest env kenv fn_ptr ks (___nolast (a :: rest)) s with
  | Some z, Some (t', tmp) => ___read kenv fn (ks (length rest)) dst t' (le_Z tmp) z
  | _, _ => None
  end = read_left fn fn_ptr ks dst s.2 s.1 (le_Z s.2) a rest.
Proof using.
  revert ks a s. induction rest as [|a' rest IH]; intros ks a [t tmp]; [done|].
  change (___last (a :: a' :: rest)) with (___last (a' :: rest)).
  change (___nolast (a :: a' :: rest)) with (a :: ___nolast (a' :: rest)).
  cbn [___rd_rest read_left fst snd length].
  destruct (___rd env kenv fn_ptr (ks 0%nat) t (le_Z tmp) a tmp) as [s'|];
    [apply (IH (λ i, ks (S i)))|by case_match].
Qed.

Lemma core_read_left fn fn_ptr ks dst t src a rest :
  ___core_read env kenv fn fn_ptr ks dst t src a rest =
  read_left fn fn_ptr ks dst (undef (ks 0%nat) 8) t src a rest.
Proof using.
  destruct rest as [|a' rest]; [done|].
  unfold ___core_read. change (___last (a :: a' :: rest)) with (___last (a' :: rest)).
  change (___nolast (a :: a' :: rest)) with (a :: ___nolast (a' :: rest)).
  cbn [___read_ptrs read_left length].
  destruct (___rd env kenv fn_ptr (ks 0%nat) t src a (undef (ks 0%nat) 8)) as [s|];
    [apply (rd_rest_left fn fn_ptr (λ i, ks (S i)))|by case_match].
Qed.

Lemma read_at (fn : read_fn K) k dst t src a o u :
  place kenv (rf_reloc fn) t a = Some (o, u) →
  ___read kenv fn k dst t src a =
    Some (rf_call fn k dst (Z.of_nat (length dst)) (wrap 64 (src + o))).
Proof using. intros Ho. unfold ___read, member_addr. by rewrite Ho. Qed.

(** The pointers on the path lead the last call to the object's address. *)
Lemma read_left_chase core sp (fn fn_ptr : read_fn K) ks dst t src a rest tmp addr u :
  rf_reloc fn = core → rf_reloc fn_ptr = core →
  rf_call fn_ptr = rf_call (K := K) (bpf_probe_read sp) → length tmp = 8%nat →
  chase_addr env (place kenv core) (λ i, memory sp (ks i)) t src a rest = Some (addr, u) →
  core_type env t a rest = Some u ∧
  read_left fn fn_ptr ks dst tmp t src a rest =
    Some (rf_call fn (ks (length rest)) dst (Z.of_nat (length dst)) (wrap 64 addr)).
Proof using HL.
  intros Hf Hp Hc. revert ks t src a tmp.
  induction rest as [|a' rest IH]; intros ks t src a tmp Ht Ha;
    cbn [core_type chase_addr read_left length] in *.
  - destruct (place kenv core t a) as [[o w]|] eqn:Ho; [|done].
    destruct (place_local _ _ _ _ _ Ho) as [o' ->]. simplify_eq. split; [done|].
    by eapply read_at.
  - unfold ___rd. destruct (place kenv core t a) as [[o [| |s| | |]]|] eqn:Ho; try done.
    destruct (place_local _ _ _ _ _ Ho) as [o' Hl].
    unfold ___type in *. rewrite Hl.
    destruct (pointee_in env s) as [t'|] eqn:Hs; [|done].
    destruct (kread (memory sp (ks 0%nat)) (src + o) 8) as [l|] eqn:Hr; [|done].
    erewrite read_at by (by rewrite Hp). rewrite Hc.
    erewrite (reads_ok _ _ (reads_memory sp _)) by (by rewrite kread_wrap, Ht).
    apply (IH (λ i, ks (S i))); [by eapply kread_length|done].
Qed.

(** A string read, whether it fits the buffer or is cut. *)
Lemma reads_string_spec mem rd dst a s :
  reads_string mem rd → c_string mem a s → (0 < length dst)%nat →
  ∃ n dst', rd dst (Z.of_nat (length dst)) a = (n, dst') ∧
    n = Z.of_nat (S (Nat.min (length s) (length dst - 1))) ∧
    take (Z.to_nat n) dst' = take (length dst - 1) s ++ [x00].
Proof using.
  intros [Hfit Hcut _] Hs Hd. destruct (decide (length s < length dst)%nat) as [Hl|Hl].
  - rewrite (Hfit dst a s Hs Hl). do 2 eexists. split; [done|].
    rewrite Nat.min_l, Nat2Z.id, (take_ge s) by lia. split; [done|].
    rewrite take_app_ge by lia. by replace (S (length s) - length s)%nat with 1%nat by lia.
  - rewrite (Hcut dst a s Hs) by lia. do 2 eexists. split; [done|].
    rewrite Nat.min_r, Nat2Z.id by lia. split; [lia|]. apply take_ge. len.
Qed.

Lemma read_into_addr core sp (ks : nat → K) dst t src a rest addr u :
  (length rest <= 9)%nat →
  chase_addr env (place kenv core) (λ i, memory sp (ks i)) t src a rest = Some (addr, u) →
  core_type env t a rest = Some u ∧
  READ_INTO env kenv core sp ks dst t src a rest =
    Some (rf_call (bpf_probe_read sp) (ks (length rest)) dst (Z.of_nat (length dst)) (wrap 64 addr)).
Proof using HL.
  intros Hr%Nat.leb_le Hc. unfold READ_INTO, narg_ok. cbn [length Nat.leb]. rewrite Hr, core_read_left.
  destruct (read_left_chase core sp (if core then bpf_core_read sp else bpf_probe_read sp)
    (if core then bpf_core_read sp else bpf_probe_read sp) ks dst t src a rest (undef (ks 0%nat) 8)
    addr u) as [Ht ->]; try by destruct core.
  by apply undef_length.
Qed.

Lemma read_str_into_addr core sp (ks : nat → K) dst t src a rest addr u :
  (length rest <= 9)%nat →
  chase_addr env (place kenv core) (λ i, memory sp (ks i)) t src a rest = Some (addr, u) →
  READ_STR_INTO env kenv core sp ks dst t src a rest =
    Some (rf_call (bpf_probe_read_str sp) (ks (length rest)) dst (Z.of_nat (length dst)) (wrap 64 addr)).
Proof using HL.
  intros Hr%Nat.leb_le Hc. unfold READ_STR_INTO, narg_ok. cbn [length Nat.leb]. rewrite Hr, core_read_left.
  destruct (read_left_chase core sp (if core then bpf_core_read_str sp else bpf_probe_read_str sp)
    (if core then bpf_core_read sp else bpf_probe_read sp) ks dst t src a rest (undef (ks 0%nat) 8)
    addr u) as [_ ->]; try by destruct core.
  by apply undef_length.
Qed.

Lemma read_value core sp (ks : nat → K) t src a rest addr u l :
  (length rest <= 8)%nat →
  chase_addr env (place kenv core) (λ i, memory sp (ks i)) t src a rest = Some (addr, u) →
  kread (memory sp (ks (length rest))) addr (Z.to_nat (sizeof u)) = Some l →
  READ env kenv core sp ks t src a rest = Some (load u l).
Proof using HL.
  intros Hr Hc Hl. unfold READ, narg_ok. cbn [length Nat.leb].
  rewrite (proj2 (Nat.leb_le _ _) Hr).
  destruct (read_into_addr core sp ks (undef (ks 0%nat) (Z.to_nat (sizeof u))) t src a rest addr u)
    as [-> ->]; [lia|done|].
  by erewrite (reads_ok _ _ (reads_memory sp _)) by (by rewrite kread_wrap, undef_length).
Qed.
End chasing.

(** C25. The reading macros, CO-RE or not, from kernel or user memory: wherever
    the pointers of [src->a->...->z] can be followed (each one in the memory of its
    turn, and each member at its place in the running kernel's types for the CO-RE
    macros, in the program's headers for the others), [READ] is the value of the object found there in the end,
    [READ_INTO] on a destination of its size copies its bytes and returns 0, or
    returns a negative error if it cannot be read, and [READ_STR_INTO] copies
    the string there, cut to the destination. This holds for up to ten
    accessors ([READ], which also names the type of the path, takes nine); with
    more the macros do not expand. *)
Theorem core_read_chase {K} `{HK : BpfKernel K, HL : !BpfKernelLaws K}
    env kenv core sp (ks : nat → K) t src a rest :
  if decide (length rest <= 9)%nat then
    ∀ addr u,
    chase_addr env (place kenv core) (λ i, memory sp (ks i)) t src a rest = Some (addr, u) →
    match kread (memory sp (ks (length rest))) addr (Z.to_nat (sizeof u)) with
    | Some l =>
        READ env kenv core sp ks t src a rest =
          (if decide (length rest <= 8)%nat then Some (load u l) else None) ∧
        ∀ dst, length dst = Z.to_nat (sizeof u) →
          READ_INTO env kenv core sp ks dst t src a rest = Some (0, l)
    | None =>
        ∀ dst, length dst = Z.to_nat (sizeof u) →
          ∃ err dst', READ_INTO env kenv core sp ks dst t src a rest = Some (err, dst') ∧
            err < 0 ∧ length dst' = length dst
    end ∧
    ∀ s dst, c_string (memory sp (ks (length rest))) addr s → (0 < length dst)%nat →
      ∃ n dst', READ_STR_INTO env kenv core sp ks dst t src a rest = Some (n, dst') ∧
        n = Z.of_nat (S (Nat.min (length s) (length dst - 1))) ∧
        take (Z.to_nat n) dst' = take (length dst - 1) s ++ [x00]
  else
    READ env kenv core sp ks t src a rest = None ∧
    ∀ dst, READ_INTO env kenv core sp ks dst t src a rest = None ∧
      READ_STR_INTO env kenv core sp ks dst t src a rest = None.
Proof.
  case_decide as Hr.
  - intros addr u Hc. split.
    + pose proof (reads_memory sp (ks (length rest))) as [Hok Herr Hlen].
      destruct (kread (memory sp (ks (length rest))) addr _) as [l|] eqn:Hl; [split|];
        [|intros dst Hd; destruct (read_into_addr env kenv core sp ks dst
          t src a rest addr u Hr Hc) as [_ ->]..].
      * case_decide; [by eapply read_value|]. unfold READ, narg_ok. cbn [length].
        by rewrite (proj2 (Nat.leb_gt _ _)) by lia.
      * by rewrite (Hok dst _ l) by (by rewrite kread_wrap, Hd).
      * do 2 eexists. split; [f_equal; apply surjective_pairing|].
        split; [apply Herr; by rewrite kread_wrap, Hd|apply Hlen].
    + intros s dst Hs Hd. rewrite (read_str_into_addr _ _ _ _ _ _ _ _ _ _ addr u) by done.
      destruct (reads_string_spec (memory sp (ks (length rest))) (rf_call (bpf_probe_read_str sp) (ks (length rest))) dst
        (wrap 64 addr) s (reads_string_memory sp (ks (length rest)))) as (n & dst' & -> & ?); eauto.
      by apply c_string_wrap.
  - unfold READ, READ_INTO, READ_STR_INTO, narg_ok. cbn [length].
    by rewrite !(proj2 (Nat.leb_gt _ _)) by lia.
Qed.
