(* ===== verification/BpfCoreQuery.v ===== *)
(** * Asking about the running kernel's types

    The queries of [bpf_core_read.h]: whether a field, a type or an enumerator
    exists in the running kernel, and how large it is, where, or with which
    value.  Each is a compiler builtin with a kind; the loader answers it from
    the types of the running kernel, [kenv], where it looks for the type of the
    same name.  [BTF] ids are numbers the kernel and the compiler give out. *)
From S2P Require Import Prelude CTypes BpfCoreRead.

(** ** The kinds *)

Inductive bpf_field_info_kind :=
  | BPF_FIELD_BYTE_OFFSET | BPF_FIELD_BYTE_SIZE | BPF_FIELD_EXISTS
  | BPF_FIELD_SIGNED | BPF_FIELD_LSHIFT_U64 | BPF_FIELD_RSHIFT_U64.

Inductive bpf_type_id_kind := BPF_TYPE_ID_LOCAL | BPF_TYPE_ID_TARGET.

Inductive bpf_type_info_kind := BPF_TYPE_EXISTS | BPF_TYPE_SIZE | BPF_TYPE_MATCHES.

Inductive bpf_enum_value_kind := BPF_ENUMVAL_EXISTS | BPF_ENUMVAL_VALUE.

(** ** The builtins *)

(** The name of a type in the headers' declarations, enumerations included. *)
Definition type_name (t : ctype) : option string :=
  match t with
  | TEnum tag _ => Some ("enum " ++ tag)%string
  | _ => spelling t
  end.

(** The running kernel's type for a type the program was compiled with. *)
Definition target_type (kenv : list (string * ctype)) (t : ctype) : option ctype :=
  match type_name t with Some s => pointee_in kenv s | None => None end.

(** The field of the running kernel for one of the program's. *)
Definition target_field (kenv : list (string * ctype)) (t : ctype) (acc : list step)
    : option (Z * ctype) :=
  match target_type kenv t with Some kt => offsetof kt acc | None => None end.

(** Whether values of a type are signed, as the loader sees it; a plain [char] is
    unsigned in kernels since 6.2. *)
Definition signed_type (t : ctype) : bool :=
  match t with
  | TInt (IShort | IInt | ILong | ILLong | IInt128) => true
  | TEnum _ consts => existsb (λ c, c.2 <? 0) consts
  | _ => false
  end.

(** [__builtin_preserve_field_info(t->acc, kind)], for a field that is no bit-field: a
    program that asks for more than the existence of a field the kernel lacks is
    refused, [None], as is one that names a field its own headers lack. *)
Definition preserve_field_info (kenv : list (string * ctype)) (t : ctype) (acc : list step)
    (kind : bpf_field_info_kind) : option Z :=
  match offsetof t acc, kind, target_field kenv t acc with
  | None, _, _ => None
  | Some _, BPF_FIELD_EXISTS, Some _ => Some 1
  | Some _, BPF_FIELD_EXISTS, None => Some 0
  | Some _, _, None => None
  | Some _, BPF_FIELD_BYTE_OFFSET, Some (o, _) => Some o
  | Some _, BPF_FIELD_BYTE_SIZE, Some (_, u) => Some (sizeof u)
  | Some _, BPF_FIELD_SIGNED, Some (_, u) => Some (if signed_type u then 1 else 0)
  | Some _, (BPF_FIELD_LSHIFT_U64 | BPF_FIELD_RSHIFT_U64), Some (_, u) =>
      Some (64 - 8 * sizeof u)
  end.

(** Whether the kernel's type matches the program's is the loader's judgement. *)
Class Loader := {
  type_matches : ctype → ctype → bool;
  local_id : ctype → Z;
  kernel_id : string → Z;
}.

Section queries.
Context `{Loader}.

(** [__builtin_preserve_type_info( *t, kind)] *)
Definition preserve_type_info (kenv : list (string * ctype)) (t : ctype)
    (kind : bpf_type_info_kind) : Z :=
  match target_type kenv t, kind with
  | None, _ => 0
  | Some _, BPF_TYPE_EXISTS => 1
  | Some kt, BPF_TYPE_SIZE => sizeof kt
  | Some kt, BPF_TYPE_MATCHES => if type_matches t kt then 1 else 0
  end.

(** [__builtin_btf_type_id( *t, kind)] *)
Definition btf_type_id (kenv : list (string * ctype)) (t : ctype) (kind : bpf_type_id_kind) : Z :=
  match kind with
  | BPF_TYPE_ID_LOCAL => local_id t
  | BPF_TYPE_ID_TARGET =>
      match type_name t, target_type kenv t with
      | Some s, Some _ => kernel_id s
      | _, _ => 0
      end
  end.

(** The constants of an enumeration. *)
Definition enumerator (t : ctype) (x : string) : option Z :=
  match t with
  | TEnum _ consts => snd <$> List.find (λ c, String.eqb c.1 x) consts
  | _ => None
  end.

(** [__builtin_preserve_enum_value( *(typeof(t) * )x, kind)]; [None] if the program's own
    headers do not have the enumerator. *)
Definition preserve_enum_value (kenv : list (string * ctype)) (t : ctype) (x : string)
    (kind : bpf_enum_value_kind) : option Z :=
  match enumerator t x with
  | None => None
  | Some _ =>
      match (kt ← target_type kenv t; enumerator kt x), kind with
      | Some _, BPF_ENUMVAL_EXISTS => Some 1
      | Some v, BPF_ENUMVAL_VALUE => Some (wrap 64 v)
      | None, _ => Some 0
      end
  end.

(** ** The macros *)

(** A field reference: [___bpf_field_ref1], an lvalue, whose struct type and designator
    the compiler sees, or [___bpf_field_ref2], a type and a designator. *)
Definition bpf_core_field_exists kenv t acc := preserve_field_info kenv t acc BPF_FIELD_EXISTS.
Definition bpf_core_field_size kenv t acc := preserve_field_info kenv t acc BPF_FIELD_BYTE_SIZE.
Definition bpf_core_field_offset kenv t acc :=
  preserve_field_info kenv t acc BPF_FIELD_BYTE_OFFSET.

Definition bpf_core_type_id_local kenv t := btf_type_id kenv t BPF_TYPE_ID_LOCAL.
Definition bpf_core_type_id_kernel kenv t := btf_type_id kenv t BPF_TYPE_ID_TARGET.
Definition bpf_core_type_exists kenv t := preserve_type_info kenv t BPF_TYPE_EXISTS.
Definition bpf_core_type_matches kenv t := preserve_type_info kenv t BPF_TYPE_MATCHES.
Definition bpf_core_type_size kenv t := preserve_type_info kenv t BPF_TYPE_SIZE.

Definition bpf_core_enum_value_exists kenv t x := preserve_enum_value kenv t x BPF_ENUMVAL_EXISTS.
Definition bpf_core_enum_value kenv t x := preserve_enum_value kenv t x BPF_ENUMVAL_VALUE.
End queries.

(** ** Properties *)

Lemma target_struct kenv t s :
  spelling t = Some s → target_type kenv t = pointee_in kenv s.
Proof. intros Hs. unfold target_type. by destruct t; simpl in *; simplify_eq. Qed.

(** Relocating a field is finding it in the kernel's type. *)
Lemma relocate_target kenv t acc s o u :
  spelling t = Some s → offsetof t acc = Some (o, u) →
  relocate kenv t acc = (λ f, (f.1, u)) <$> target_field kenv t acc.
Proof.
  intros Hs Ho. unfold relocate, target_field. rewrite Ho, Hs, (target_struct _ _ _ Hs).
  destruct (pointee_in kenv s) as [kt|]; [|done]. by destruct (offsetof kt acc) as [[o' u']|].
Qed.

(** C26. Asking before reading.  For a field of a struct the program knows, the question
    for its existence has an answer on every kernel, 1 or 0, and it is the right
    one: a CO-RE read of the field loads exactly on the kernels where the answer
    is 1, and then reads at the offset, and the kernel's field has the size, that
    the other questions answer; where it is 0 these are refused like the read.
    On a kernel with the type the program was compiled with, size and offset are
    the compiler's, and the type exists with its size; without a type of that name
    all questions about it, and about the enumerators of an enumeration that is
    missing, are answered 0. *)
Theorem core_queries {K} `{HK : BpfKernel K} `{Loader} env kenv t acc s o u :
  spelling t = Some s → offsetof t acc = Some (o, u) →
  (∃ x, bpf_core_field_exists kenv t acc = Some x ∧ (x = 1 ∨ x = 0) ∧
    ∀ (ks : nat → K) dst src,
      match BPF_CORE_READ_INTO env kenv ks dst t src acc [] with
      | Some r => x = 1 ∧ ∃ o' n, bpf_core_field_offset kenv t acc = Some o' ∧
          bpf_core_field_size kenv t acc = Some n ∧
          r = probe_read_kernel (ks 0%nat) dst (Z.of_nat (length dst)) (wrap 64 (src + o'))
      | None => x = 0 ∧ bpf_core_field_offset kenv t acc = None ∧
          bpf_core_field_size kenv t acc = None
      end) ∧
  (pointee_in kenv s = Some t →
    bpf_core_field_offset kenv t acc = Some o ∧ bpf_core_field_size kenv t acc = Some (sizeof u) ∧
    bpf_core_type_exists kenv t = 1 ∧ bpf_core_type_size kenv t = sizeof t) ∧
  (pointee_in kenv s = None →
    bpf_core_field_exists kenv t acc = Some 0 ∧ bpf_core_type_exists kenv t = 0 ∧
    bpf_core_type_size kenv t = 0 ∧ bpf_core_type_matches kenv t = 0 ∧
    bpf_core_type_id_kernel kenv t = 0) ∧
  ∀ tag consts x v, In (x, v) consts → pointee_in kenv ("enum " ++ tag) = None →
    bpf_core_enum_value_exists kenv (TEnum tag consts) x = Some 0 ∧
    bpf_core_enum_value kenv (TEnum tag consts) x = Some 0.
Proof.
  intros Hs Ho.
  unfold bpf_core_field_exists, bpf_core_field_offset, bpf_core_field_size, preserve_field_info.
  rewrite Ho. split_and!.
  - destruct (target_field kenv t acc) as [[o' u']|] eqn:Ht; (eexists; split; [done|]);
      (split; [by eauto|]); intros ks dst src;
      unfold BPF_CORE_READ_INTO, READ_INTO; cbn [narg_ok length Nat.leb ___core_read];
      unfold ___read, member_addr, place; simpl rf_reloc; cbv iota;
      rewrite (relocate_target kenv t acc s o u Hs Ho), Ht; simpl; eauto 6.
  - intros Hk. unfold target_field, bpf_core_type_exists, bpf_core_type_size, preserve_type_info.
    by rewrite (target_struct _ _ _ Hs), Hk, Ho.
  - intros Hk. unfold target_field, bpf_core_type_exists, bpf_core_type_size,
      bpf_core_type_matches, bpf_core_type_id_kernel, preserve_type_info, btf_type_id.
    rewrite (target_struct _ _ _ Hs), Hk. split_and!; try done. by destruct (type_name t).
  - intros tag consts x v Hin Hk.
    unfold bpf_core_enum_value_exists, bpf_core_enum_value, preserve_enum_value, target_type.
    cbn [type_name]. rewrite Hk. unfold enumerator.
    destruct (List.find _ consts) as [c|] eqn:Hf; [done|].
    pose proof (List.find_none _ _ Hf _ Hin) as Hn. simpl in Hn. by rewrite String.eqb_refl in Hn.
Qed.
