(* ===== verification/RingBuffer.v ===== *)
(** * The ring buffer

    The map [events] of [oomkill.c] and what its definition means for the kernel: the
    class [RingBuffer] adds to [BpfKernel] how much of what was submitted the
    reader has released, and [RingBufferLaws] when a reservation finds room, as
    the kernel's documentation of the ring buffer has it.  From that follows how
    many events the agent may be behind before the probe drops one. *)
From S2P Require Import Prelude CTypes BpfHelpers BpfCoreRead BpfCoreQuery.
From S2P Require VmlinuxX86 VmlinuxArm64.

(** ** The map *)

(** [struct { __uint(type, BPF_MAP_TYPE_RINGBUF); __uint(max_entries, 1 << 24); } events],
    against the header's [enum bpf_map_type]; [None] does not compile. *)
Definition events (map_types : ctype) : option (list (string * map_member)) :=
  t ← enumerator map_types "BPF_MAP_TYPE_RINGBUF";
  Some [__uint "type" t; __uint "max_entries" (Z.shiftl 1 24)].

(** The size in bytes. *)
Definition ring_size : Z :=
  default 0 (def ← events VmlinuxX86.bpf_map_type; map_uint def "max_entries").

(** Both builds declare the same ring buffer. *)
Lemma events_builds map_types :
  map_types = VmlinuxX86.bpf_map_type ∨ map_types = VmlinuxArm64.bpf_map_type →
  ∃ def, events map_types = Some def ∧ map_uint def "type" = Some 27 ∧
    map_uint def "max_entries" = Some ring_size.
Proof. intros [-> | ->]; (eexists; split; [reflexivity|by split]). Qed.

(** The size is one the kernel accepts: a power of two, and whole pages of any size up
    to 64 KiB. *)
Lemma ring_size_valid : pow2 ring_size ∧ ∀ page, 0 <= page <= 16 → ring_size mod 2 ^ page = 0.
Proof.
  split; [by exists 24|]. intros page Hp. change ring_size with (2 ^ 24).
  replace (2 ^ 24) with (2 ^ (24 - page) * 2 ^ page); [apply Z_mod_mult|].
  rewrite <- Z.pow_add_r by lia. f_equal. lia.
Qed.

(** ** Room *)

(** The header of a record, and the space a record with [n] bytes of payload takes. *)
Definition BPF_RINGBUF_HDR_SZ : Z := 8.
Definition record_space (n : Z) : Z := align_up (n + BPF_RINGBUF_HDR_SZ) 8.

Definition space (samples : list (list byte)) : Z :=
  foldr (λ s acc, record_space (Z.of_nat (length s)) + acc) 0 samples.

Class RingBuffer (K : Type) `{BpfKernel K} := {
  (** how many of the submitted samples the reader is done with *)
  released : K → nat;
  (** the reader is done with the next one *)
  ringbuf_consume : K → K;
}.

(** What is submitted and not yet released, and its space. *)
Definition unread {K} `{RingBuffer K} (k : K) : list (list byte) :=
  drop (released k) (submitted k).
Definition in_use {K} `{RingBuffer K} (k : K) : Z := space (unread k).

Class RingBufferLaws (K : Type) `{RingBuffer K} : Prop := {
  (** probes release nothing *)
  released_reserve k n flags : released (ringbuf_reserve k n flags).2 = released k;
  released_submit k e flags : released (ringbuf_submit k e flags) = released k;
  consume_spec k :
    submitted (ringbuf_consume k) = submitted k ∧
    outstanding (ringbuf_consume k) = outstanding k ∧
    released (ringbuf_consume k) = S (released k);
  (** a reservation fails only for lack of room: the producer never gets a whole
      ring ahead of the reader *)
  reserve_room k n :
    outstanding k = 0%nat → 0 <= n →
    is_Some (ringbuf_reserve k n 0).1 ↔ in_use k + record_space n < ring_size;
}.

Lemma space_records n samples :
  Forall (λ s, Z.of_nat (length s) = n) samples →
  space samples = Z.of_nat (length samples) * record_space n.
Proof.
  induction 1 as [|s samples Hs _ IH]; [done|]. simpl space. rewrite Hs, IH. simpl length. lia.
Qed.

(** How many records of [n] bytes the ring buffer holds. *)
Definition ring_capacity (n : Z) : nat := Z.to_nat ((ring_size - 1) / record_space n).

(** With unread records of that size only, there is room below the capacity and none
    at it. *)
Lemma room_below_capacity {K} `{HR : RingBufferLaws K} (k : K) n :
  outstanding k = 0%nat → 0 <= n → Forall (λ s, Z.of_nat (length s) = n) (unread k) →
  is_Some (ringbuf_reserve k n 0).1 ↔ (length (unread k) < ring_capacity n)%nat.
Proof.
  intros Ho Hn Hu. rewrite reserve_room by done. unfold in_use, ring_capacity.
  rewrite (space_records n) by done.
  assert (0 < record_space n) as Hp.
  { unfold record_space, align_up, BPF_RINGBUF_HDR_SZ.
    pose proof (Z.div_le_mono 15 (n + 8 + 8 - 1) 8). change (15 / 8) with 1 in *. lia. }
  change ring_size with 16777216. set (u := Z.of_nat (length (unread k))).
  assert (u * record_space n + record_space n < 16777216 ↔
    u < (16777216 - 1) / record_space n) as ->.
  { split; intros Hx.
    - assert (u + 1 <= (16777216 - 1) / record_space n); [|lia]. apply Z.div_le_lower_bound; lia.
    - pose proof (Z.mul_div_le (16777216 - 1) (record_space n) Hp). nia. }
  unfold u. lia.
Qed.
