(* ===== verification/SimKernel.v ===== *)
(** * A concrete kernel

    An instance of the [BpfKernel] and [RingBuffer] interfaces: memory as a list of
    segments, and a ring buffer of the size the program declares.  It satisfies
    [BpfKernelLaws], [RingBufferLaws] and [ZeroesOnFault], so the documented
    behaviour the probe's theorems assume can hold, and it runs the probe on
    concrete inputs. *)
From S2P Require Import Prelude CTypes BpfCoreRead RingBuffer.

Record sim := {
  sim_mem : list (Z * list byte);
  sim_umem : list (Z * list byte);
  sim_comm : list byte;
  sim_tgid : Z;
  sim_pid : Z;
  sim_ring : list (list byte);
  sim_outstanding : nat;
  sim_released : nat;
}.

Fixpoint segment_byte (segs : list (Z * list byte)) (a : Z) : option byte :=
  match segs with
  | [] => None
  | (base, l) :: segs =>
      if (base <=? a) && (a <? base + Z.of_nat (length l)) then l !! Z.to_nat (a - base)
      else segment_byte segs a
  end.

(** The string at [a], cut at [n] bytes. *)
Fixpoint strn (mem : Z → option byte) (a : Z) (n : nat) : option (list byte) :=
  match n with
  | O => Some []
  | S n =>
      match mem (wrap 64 a) with
      | Some c =>
          if decide (c = x00) then Some []
          else match strn mem (a + 1) n with Some l => Some (c :: l) | None => None end
      | None => None
      end
  end.

Definition sim_ringbuf (ring : list (list byte)) (out rel : nat) (k : sim) : sim := {|
  sim_mem := sim_mem k; sim_umem := sim_umem k; sim_comm := sim_comm k; sim_tgid := sim_tgid k;
  sim_pid := sim_pid k; sim_ring := ring; sim_outstanding := out; sim_released := rel |}.

Definition sim_with_memory (mem : list (Z * list byte)) (k : sim) : sim := {|
  sim_mem := mem; sim_umem := sim_umem k; sim_comm := sim_comm k; sim_tgid := sim_tgid k;
  sim_pid := sim_pid k; sim_ring := sim_ring k; sim_outstanding := sim_outstanding k;
  sim_released := sim_released k |}.

(** Another processor that counts the probe's helper calls in memory of its own. *)
Definition busy (i : nat) (k : sim) : sim :=
  sim_with_memory (sim_mem k ++ [(2 ^ 32, le_bytes 8 (Z.of_nat i))]) k.

(** What uninitialised memory happens to hold here. *)
Definition junk (n : nat) : list byte := replicate n x5a.

(** The reading helpers, on some memory. *)
Definition sim_read (mem : Z → option byte) (dst : list byte) (size a : Z) : Z * list byte :=
  match kread mem a (Z.to_nat size) with
  | Some l => (0, l)
  | None => (-14, replicate (Z.to_nat size) x00)
  end.

Definition sim_read_str (mem : Z → option byte) (dst : list byte) (size a : Z) : Z * list byte :=
  match strn mem a (Z.to_nat size - 1), dst with
  | Some s, _ :: _ => (Z.of_nat (S (length s)), s ++ x00 :: drop (S (length s)) dst)
  | _, _ => (-14, replicate (Z.to_nat size) x00)
  end.

(** Room for one more record of some size than are reserved already. *)
Definition sim_fits (k : sim) (size : Z) : bool :=
  (0 <=? size) &&
  (space (drop (sim_released k) (sim_ring k)) +
   Z.of_nat (S (sim_outstanding k)) * record_space size <? ring_size).

#[global] Instance sim_kernel : BpfKernel sim := {|
  kmem k := segment_byte (sim_mem k);
  umem k := segment_byte (sim_umem k);
  current_comm := sim_comm;
  current_tgid k := wrap 32 (sim_tgid k);
  current_pid k := wrap 32 (sim_pid k);
  submitted := sim_ring;
  outstanding := sim_outstanding;
  ringbuf_reserve k size _ :=
    if sim_fits k size then
      (Some (junk (Z.to_nat size)),
       sim_ringbuf (sim_ring k) (S (sim_outstanding k)) (sim_released k) k)
    else (None, k);
  ringbuf_submit k e _ :=
    sim_ringbuf (sim_ring k ++ [e]) (pred (sim_outstanding k)) (sim_released k) k;
  get_current_pid_tgid k := Z.lor (Z.shiftl (wrap 32 (sim_tgid k)) 32) (wrap 32 (sim_pid k));
  get_current_comm k _ size := (0, cfield (Z.to_nat size) (sim_comm k));
  probe_read_kernel k := sim_read (segment_byte (sim_mem k));
  probe_read_kernel_str k := sim_read_str (segment_byte (sim_mem k));
  probe_read_user k := sim_read (segment_byte (sim_umem k));
  probe_read_user_str k := sim_read_str (segment_byte (sim_umem k));
  undef _ n := junk n;
|}.

Lemma kread_S_inv mem a n c l :
  kread mem a (S n) = Some (c :: l) →
  mem (wrap 64 a) = Some c ∧ kread mem (a + 1) n = Some l.
Proof. cbn [kread]. intros Hr. crush_match. done. Qed.

Lemma strn_take mem a s n :
  c_string mem a s → strn mem a n = Some (take n s).
Proof.
  intros [Hnul Hr]. revert a n Hr. induction s as [|c s IH]; intros a [|n] Hr; try done;
    apply kread_S_inv in Hr as [Hc Hr]; cbn [strn take]; rewrite Hc.
  - done.
  - apply not_elem_of_cons in Hnul as [Hn Hnul].
    rewrite decide_False by congruence. by rewrite IH.
Qed.

Lemma strn_length mem a n l : strn mem a n = Some l → (length l <= n)%nat.
Proof.
  revert a l. induction n as [|n IH]; intros a l Hs; simpl in Hs; [by simplify_eq|].
  crush_match; [lia|].
  match goal with H : strn _ _ _ = Some _ |- _ => apply IH in H end. lia.
Qed.

Lemma segment_byte_app segs more a b :
  segment_byte segs a = Some b → segment_byte (segs ++ more) a = Some b.
Proof.
  induction segs as [|[base l] segs IH]; simpl; [done|]. case_match; [done|apply IH].
Qed.

(** Addresses below all segments are not mapped. *)
Lemma segment_byte_below segs lim a :
  Forall (λ s : Z * list byte, lim <= s.1) segs → a < lim → segment_byte segs a = None.
Proof.
  induction 1 as [|[base l] segs Hb _ IH]; intros Ha; simpl in *; [done|].
  by rewrite (proj2 (Z.leb_gt base a)), IH by lia.
Qed.

Lemma sim_reads mem : reads mem (sim_read mem).
Proof.
  constructor; unfold sim_read; intros dst a; rewrite Nat2Z.id.
  - by intros l ->.
  - by intros ->.
  - destruct (kread _ _ _) eqn:E; simpl; [by eapply kread_length|len].
Qed.

Lemma sim_reads_string mem : reads_string mem (sim_read_str mem).
Proof.
  constructor; unfold sim_read_str; intros dst a; rewrite Nat2Z.id.
  - intros s Hs Hl. rewrite (strn_take _ _ s) by done.
    destruct dst as [|d dst]; [simpl in *; lia|]. by rewrite take_ge by (simpl in *; lia).
  - intros s Hs Hl Hd. rewrite (strn_take _ _ s) by done.
    destruct dst as [|d dst]; [simpl in *; lia|].
    simpl in *. rewrite Nat.sub_0_r in *. rewrite length_take, Nat.min_l by lia.
    by rewrite drop_ge by lia.
  - destruct (strn _ _ _) as [s|] eqn:E; [|simpl; len].
    destruct dst as [|d dst]; [done|]. apply strn_length in E. simpl in *. len.
Qed.

#[global] Instance sim_laws : BpfKernelLaws sim.
Proof.
  constructor.
  - intros k size flags e k' Hr. simpl in Hr. destruct (sim_fits k size) eqn:E; simplify_eq.
    unfold sim_fits in E. bsimp. split; [unfold junk; len|done].
  - intros k size flags k' Hr. simpl in Hr. destruct (sim_fits k size); by simplify_eq.
  - done.
  - intros k. simpl. split_and!; try done; apply wrap_range; lia.
  - intros k n Hn. simpl. by rewrite Nat2Z.id.
  - intros k dst. simpl. by rewrite length_cfield, Nat2Z.id.
  - intros k. apply sim_reads.
  - intros k. apply sim_reads.
  - intros k. apply sim_reads_string.
  - intros k. apply sim_reads_string.
  - intros k n. simpl. unfold junk. len.
Qed.

#[global] Instance sim_zeroes : ZeroesOnFault sim.
Proof. intros k dst a Hf. simpl in *. unfold sim_read. by rewrite Nat2Z.id, Hf. Qed.

#[global] Instance sim_ringbuffer : RingBuffer sim := {|
  released := sim_released;
  ringbuf_consume k := sim_ringbuf (sim_ring k) (sim_outstanding k) (S (sim_released k)) k;
|}.

#[global] Instance sim_ringbuffer_laws : RingBufferLaws sim.
Proof.
  constructor; try done.
  - intros k size flags. simpl. by destruct (sim_fits k size).
  - intros k size Ho Hs. rewrite <- Z.ltb_lt. simpl in Ho. cbn [ringbuf_reserve sim_kernel].
    assert (sim_fits k size = (in_use k + record_space size <? ring_size)) as <-.
    { unfold sim_fits, in_use, unread. cbn [released submitted sim_ringbuffer sim_kernel].
      rewrite Ho, (proj2 (Z.leb_le _ _)) by lia. change (Z.of_nat 1) with 1.
      by rewrite Z.mul_1_l. }
    destruct (sim_fits k size); split; eauto; [by intros [??]|done].
Qed.
