(* ===== verification/BpfBitfield.v ===== *)
(** * Bit-fields of kernel structs

    The bit-field macros of [bpf_core_read.h]: [BPF_CORE_READ_BITFIELD] and its
    probed variant, and [BPF_CORE_WRITE_BITFIELD].  A bit-field has no address;
    the loader describes it to the program by five numbers ([field_info],
    [__CORE_RELO]), with which the macros move it to the top of a 64-bit word
    and back.  The theorems state the result bit by bit of the struct in
    memory, independently of the storage unit. *)
From S2P Require Import Prelude CTypes BpfCoreRead SimKernel.

(** ** The macros *)

(** What [__CORE_RELO(s, field, ...)] evaluates to, by the last argument. *)
Record field_info := {
  BYTE_OFFSET : Z;
  BYTE_SIZE : Z;
  SIGNED : Z;
  LSHIFT_U64 : Z;
  RSHIFT_U64 : Z;
}.

(** [*(const unsigned ... * )p], of [n] bytes. *)
Definition load_uint (mem : Z → option byte) (p : Z) (n : nat) : option Z :=
  match kread mem p n with Some l => Some (le_Z l) | None => None end.

(** [val <<= LSHIFT_U64], then [val >> RSHIFT_U64], arithmetically if the field is
    signed; [val] is an [unsigned long long]. *)
Definition extract (f : field_info) (val : Z) : Z :=
  let val := wrap 64 (Z.shiftl val (LSHIFT_U64 f)) in
  if negb (SIGNED f =? 0) then wrap 64 (Z.shiftr (swrap 64 val) (RSHIFT_U64 f))
  else Z.shiftr val (RSHIFT_U64 f).

(** [BPF_CORE_READ_BITFIELD(s, field)]. *)
Definition BPF_CORE_READ_BITFIELD (f : field_info) (mem : Z → option byte) (s : Z) : option Z :=
  let p := wrap 64 (s + BYTE_OFFSET f) in
  let val :=
    if BYTE_SIZE f =? 1 then load_uint mem p 1
    else if BYTE_SIZE f =? 2 then load_uint mem p 2
    else if BYTE_SIZE f =? 4 then load_uint mem p 4
    else if BYTE_SIZE f =? 8 then load_uint mem p 8
    else Some 0 in
  match val with Some val => Some (extract f val) | None => None end.

(** [__CORE_BITFIELD_PROBE_READ(dst, src, fld)] on a little-endian target: the value
    of the call and the low bytes of [*dst] replaced by what was read. *)
Definition __CORE_BITFIELD_PROBE_READ {K} `{BpfKernel K} (f : field_info) (k : K)
    (dst : list byte) (src : Z) : Z * list byte :=
  let n := Z.to_nat (BYTE_SIZE f) in
  let '(err, low) :=
    probe_read_kernel k (take n dst) (BYTE_SIZE f) (wrap 64 (src + BYTE_OFFSET f)) in
  (err, low ++ drop n dst).

(** [BPF_CORE_READ_BITFIELD_PROBED(s, field)]. *)
Definition BPF_CORE_READ_BITFIELD_PROBED {K} `{BpfKernel K} (f : field_info) (k : K) (s : Z) : Z :=
  let val := le_bytes 8 0 in
  let '(_, val) := __CORE_BITFIELD_PROBE_READ f k val s in
  extract f (le_Z val).

(** Memory after [l] has been stored at [p]. *)
Definition kwrite (mem : Z → option byte) (p : Z) (l : list byte) : Z → option byte :=
  λ a, let i := wrap 64 (a - p) in
    if i <? Z.of_nat (length l) then l !! Z.to_nat i else mem a.

(** [*(unsigned ... * )p = val], of [n] bytes. *)
Definition store_uint (mem : Z → option byte) (p : Z) (n : nat) (val : Z) : Z → option byte :=
  kwrite mem p (le_bytes n val).

(** The word with the field's bits replaced by those of [nval]. *)
Definition insert_bits (f : field_info) (val nval : Z) : Z :=
  let rpad := RSHIFT_U64 f - LSHIFT_U64 f in
  let mask := Z.shiftr (wrap 64 (Z.shiftl (wrap 64 (Z.lnot 0)) (RSHIFT_U64 f))) (LSHIFT_U64 f) in
  Z.lor (Z.land val (wrap 64 (Z.lnot mask))) (Z.land (wrap 64 (Z.shiftl nval rpad)) mask).

(** [BPF_CORE_WRITE_BITFIELD(s, field, new_val)]: memory afterwards. A size that is
    none of the four is loaded and stored by no case. *)
Definition BPF_CORE_WRITE_BITFIELD (f : field_info) (mem : Z → option byte) (s new_val : Z)
    : option (Z → option byte) :=
  let p := wrap 64 (s + BYTE_OFFSET f) in
  let nval := wrap 64 new_val in
  let access n :=
    match load_uint mem p n with
    | Some val => Some (store_uint mem p n (insert_bits f val nval))
    | None => None
    end in
  if BYTE_SIZE f =? 1 then access 1%nat
  else if BYTE_SIZE f =? 2 then access 2%nat
  else if BYTE_SIZE f =? 4 then access 4%nat
  else if BYTE_SIZE f =? 8 then access 8%nat
  else Some mem.

(** ** What the numbers describe *)

(** Bit [i] of the object at [a], least significant bit of each byte first. *)
Definition bit_at (mem : Z → option byte) (a i : Z) : option bool :=
  match mem (wrap 64 (a + i / 8)) with
  | Some c => Some (Z.testbit (byte_to_Z c) (i mod 8))
  | None => None
  end.

(** [f] describes the field of [w] bits from bit [pos] of the struct on: the field
    lies in the storage unit named by size and offset, and the shifts take it
    from there to the top of a 64-bit word and down to its bottom. *)
Record describes (f : field_info) (pos w : Z) (sg : bool) : Prop := {
  d_size : BYTE_SIZE f = 1 ∨ BYTE_SIZE f = 2 ∨ BYTE_SIZE f = 4 ∨ BYTE_SIZE f = 8;
  d_offset : 0 <= BYTE_OFFSET f < 2 ^ 32;
  d_width : 0 < w;
  d_start : 8 * BYTE_OFFSET f <= pos;
  d_end : pos + w <= 8 * (BYTE_OFFSET f + BYTE_SIZE f);
  d_lshift : LSHIFT_U64 f = 64 - (pos - 8 * BYTE_OFFSET f + w);
  d_rshift : RSHIFT_U64 f = 64 - w;
  d_signed : SIGNED f = if sg then 1 else 0;
}.

(** The storage unit of [size] bytes a bit-field at [pos] is declared in. *)
Definition unit_info (size pos w : Z) (sg : bool) : field_info :=
  let off := pos / (8 * size) * size in {|
  BYTE_OFFSET := off; BYTE_SIZE := size; SIGNED := if sg then 1 else 0;
  LSHIFT_U64 := 64 - (pos - 8 * off + w); RSHIFT_U64 := 64 - w |}.

(** The value of a field from its bits. *)
Definition field_value (w : Z) (sg : bool) (v : Z) : Z :=
  wrap 64 (if sg then swrap w v else v).

(** ** Bits of words and bytes *)

Lemma testbit_wrap z i : 0 <= i → Z.testbit (wrap 64 z) i = (i <? 64) && Z.testbit z i.
Proof.
  intros Hi. unfold wrap. destruct (Z.ltb_spec i 64).
  - by rewrite Z.mod_pow2_bits_low.
  - by rewrite Z.mod_pow2_bits_high by lia.
Qed.

Lemma testbit_byte_cons c z i :
  0 <= i → Z.testbit (byte_to_Z c + 256 * z) i =
    if i <? 8 then Z.testbit (byte_to_Z c) i else Z.testbit z (i - 8).
Proof.
  intros Hi. pose proof (byte_to_Z_range c) as Hc.
  replace (byte_to_Z c + 256 * z) with (byte_to_Z c + z * 2 ^ 8) by lia.
  destruct (Z.ltb_spec i 8).
  - rewrite <- (Z.mod_pow2_bits_low _ 8), Z.mod_add by lia. by rewrite Z.mod_small by lia.
  - replace i with (i - 8 + 8) at 1 by lia.
    rewrite <- Z.div_pow2_bits, Z.div_add, Z.div_small by lia. done.
Qed.

Lemma testbit_le_Z l i :
  0 <= i → Z.testbit (le_Z l) i =
    match l !! Z.to_nat (i / 8) with
    | Some c => Z.testbit (byte_to_Z c) (i mod 8)
    | None => false
    end.
Proof.
  revert i. induction l as [|c l IH]; intros i Hi; [by rewrite Z.testbit_0_l|].
  change (le_Z (c :: l)) with (byte_to_Z c + 256 * le_Z l). rewrite testbit_byte_cons by done.
  destruct (Z.ltb_spec i 8).
  - rewrite Z.div_small, Z.mod_small by lia. done.
  - rewrite IH by lia.
    assert (i / 8 = (i - 8) / 8 + 1) as -> by (rewrite <- Z.div_add by lia; f_equal; lia).
    assert (i mod 8 = (i - 8) mod 8) as ->
      by (rewrite <- (Z.mod_add (i - 8) 1 8) by lia; f_equal; lia).
    assert (0 <= (i - 8) / 8) by (apply Z.div_pos; lia).
    by replace (Z.to_nat ((i - 8) / 8 + 1)) with (S (Z.to_nat ((i - 8) / 8))) by lia.
Qed.

Lemma testbit_le_bytes n z i c :
  0 <= i → le_bytes n z !! Z.to_nat (i / 8) = Some c →
  Z.testbit (byte_to_Z c) (i mod 8) = Z.testbit z i.
Proof.
  intros Hi Hc. pose proof (testbit_le_Z (le_bytes n z) i Hi) as Ht.
  rewrite Hc, le_Z_le_bytes in Ht. rewrite <- Ht.
  apply lookup_lt_Some in Hc. rewrite length_le_bytes in Hc.
  change 256 with (2 ^ 8). rewrite <- Z.pow_mul_r by lia. rewrite Z.mod_pow2_bits_low; [done|].
  pose proof (Z.div_mod i 8). pose proof (Z.mod_pos_bound i 8). lia.
Qed.

Lemma kread_lookup mem a n l i :
  kread mem a n = Some l → (i < n)%nat → mem (wrap 64 (a + Z.of_nat i)) = l !! i.
Proof.
  revert a l i. induction n as [|n IH]; intros a l i Hr Hi; [lia|].
  cbn [kread] in Hr. destruct (mem (wrap 64 a)) as [c|] eqn:Hc; [|done].
  destruct (kread mem (a + 1) n) as [l'|] eqn:Hl; [|done]. simplify_eq.
  destruct i as [|i]; [by rewrite Z.add_0_r|].
  replace (a + Z.of_nat (S i)) with (a + 1 + Z.of_nat i) by lia.
  rewrite (IH _ _ _ Hl) by lia. done.
Qed.

(** The bits of an object are those of the number read from it. *)
Lemma kread_bits mem a n l i :
  kread mem a n = Some l → 0 <= i < 8 * Z.of_nat n →
  bit_at mem a i = Some (Z.testbit (le_Z l) i).
Proof.
  intros Hr Hi. unfold bit_at. rewrite testbit_le_Z by lia.
  assert (0 <= i / 8 < Z.of_nat n) as Hd
    by (split; [apply Z.div_pos; lia|apply Z.div_lt_upper_bound; lia]).
  rewrite <- (kread_lookup _ _ _ _ (Z.to_nat (i / 8)) Hr) by lia.
  rewrite Z2Nat.id by lia. destruct (mem (wrap 64 (a + i / 8))) eqn:E; [done|].
  rewrite <- (Z2Nat.id (i / 8)), (kread_lookup _ _ _ _ _ Hr) in E by lia.
  apply lookup_ge_None in E. apply kread_length in Hr. lia.
Qed.

Lemma bit_at_shift mem s o i :
  0 <= i → bit_at mem (wrap 64 (s + o)) i = bit_at mem s (8 * o + i).
Proof.
  intros Hi. unfold bit_at. rewrite wrap_wrap_add by lia.
  replace (8 * o + i) with (i + o * 8) by lia. rewrite Z.div_add, Z.mod_add by lia.
  by replace (s + o + i / 8) with (s + (i / 8 + o)) by lia.
Qed.

(** ** Extraction *)

(** Halving commutes with the two readings of a word's top bits. *)
Lemma swrap_shiftr x w :
  0 < w <= 64 → 0 <= x < 2 ^ 64 →
  Z.shiftr (swrap 64 x) (64 - w) = swrap w (Z.shiftr x (64 - w)).
Proof.
  intros Hw Hx. rewrite !Z.shiftr_div_pow2 by lia. unfold swrap.
  set (m := 2 ^ (64 - w)). assert (0 < m) by (apply Z.pow_pos_nonneg; lia).
  assert (2 ^ 64 = 2 ^ w * m) as E64 by (unfold m; rewrite <- Z.pow_add_r by lia; f_equal; lia).
  assert (2 ^ (64 - 1) = 2 ^ (w - 1) * m) as E63
    by (unfold m; rewrite <- Z.pow_add_r by lia; f_equal; lia).
  assert (0 < 2 ^ w) by (apply Z.pow_pos_nonneg; lia).
  rewrite E63, E64.
  replace ((x + 2 ^ (w - 1) * m) mod (2 ^ w * m) - 2 ^ (w - 1) * m)
    with ((x + 2 ^ (w - 1) * m) mod (2 ^ w * m) + - 2 ^ (w - 1) * m) by lia.
  rewrite Z.div_add by lia. rewrite (Z.mul_comm (2 ^ w)), Z.rem_mul_r by lia.
  rewrite (Z.mul_comm m), Z.div_add by lia.
  rewrite Z.div_add by lia.
  rewrite (Z.div_small (_ mod m)) by (apply Z.mod_pos_bound; lia). lia.
Qed.

Section field.
Variables (f : field_info) (pos w : Z) (sg : bool).
Hypothesis (Hd : describes f pos w sg).

(** Where the field starts in its storage unit. *)
Abbreviation start := (pos - 8 * BYTE_OFFSET f).

Lemma field_fits : 0 <= start ∧ start + w <= 8 * BYTE_SIZE f ∧ 0 < w <= 64 ∧
  0 < BYTE_SIZE f <= 8 ∧ RSHIFT_U64 f - LSHIFT_U64 f = start.
Proof using Hd.
  destruct Hd as [Hs Ho Hw Hb He Hl Hr _]. rewrite Hl, Hr. lia.
Qed.

Lemma extract_spec val :
  ∃ v, extract f val = field_value w sg v ∧ 0 <= v < 2 ^ w ∧
    ∀ i, 0 <= i < w → Z.testbit v i = Z.testbit val (start + i).
Proof using Hd.
  pose proof field_fits as (H0 & H1 & Hw & Hs & _). destruct Hd as [_ _ _ _ _ Hl Hr Hsg].
  unfold extract, field_value. rewrite Hl, Hr, Hsg.
  set (x := wrap 64 (Z.shiftl val (64 - (start + w)))).
  assert (Hx : 0 <= x < 2 ^ 64) by (apply wrap_range; lia).
  assert (Hv : 0 <= Z.shiftr x (64 - w) < 2 ^ w).
  { rewrite Z.shiftr_div_pow2 by lia. split; [apply Z.div_pos; [lia|apply Z.pow_pos_nonneg; lia]|].
    apply Z.div_lt_upper_bound; [apply Z.pow_pos_nonneg; lia|].
    rewrite <- Z.pow_add_r by lia. replace (64 - w + w) with 64 by lia. lia. }
  exists (Z.shiftr x (64 - w)). split; [|split; [done|]].
  - destruct sg; cbn [Z.eqb negb]; [by rewrite swrap_shiftr|].
    symmetry. apply wrap_small. split; [lia|].
    eapply Z.lt_le_trans; [apply Hv|]. apply Z.pow_le_mono_r; lia.
  - intros i Hi. rewrite Z.shiftr_spec by lia. subst x. rewrite testbit_wrap by lia.
    rewrite (proj2 (Z.ltb_lt _ _)), Z.shiftl_spec by lia. cbn [andb]. f_equal. lia.
Qed.

(** The direct read loads the storage unit. *)
Lemma read_bitfield_load mem s :
  BPF_CORE_READ_BITFIELD f mem s =
  match kread mem (s + BYTE_OFFSET f) (Z.to_nat (BYTE_SIZE f)) with
  | Some l => Some (extract f (le_Z l))
  | None => None
  end.
Proof using Hd.
  unfold BPF_CORE_READ_BITFIELD, load_uint. rewrite !kread_wrap.
  destruct (d_size _ _ _ _ Hd) as [-> |[-> |[-> | ->]]]; cbn [Z.eqb Pos.eqb];
    by destruct (kread _ _ _).
Qed.

Lemma write_bitfield_store mem s nval :
  BPF_CORE_WRITE_BITFIELD f mem s nval =
  match kread mem (s + BYTE_OFFSET f) (Z.to_nat (BYTE_SIZE f)) with
  | Some l => Some (store_uint mem (wrap 64 (s + BYTE_OFFSET f)) (Z.to_nat (BYTE_SIZE f))
      (insert_bits f (le_Z l) (wrap 64 nval)))
  | None => None
  end.
Proof using Hd.
  unfold BPF_CORE_WRITE_BITFIELD, load_uint. rewrite !kread_wrap.
  destruct (d_size _ _ _ _ Hd) as [-> |[-> |[-> | ->]]]; cbn [Z.eqb Pos.eqb];
    by destruct (kread _ _ _).
Qed.

(** ** Insertion *)

Lemma testbit_insert val nval i :
  0 <= i < 64 →
  Z.testbit (insert_bits f val nval) i =
    if (start <=? i) && (i <? start + w) then Z.testbit nval (i - start) else Z.testbit val i.
Proof using Hd.
  intros Hi. pose proof field_fits as (H0 & H1 & Hw & Hs & Hpad).
  destruct Hd as [_ _ _ _ _ Hl Hr _]. unfold insert_bits. rewrite Hpad, Hl, Hr.
  assert (Hm : ∀ j, 0 <= j →
    Z.testbit (Z.shiftr (wrap 64 (Z.shiftl (wrap 64 (Z.lnot 0)) (64 - w)))
      (64 - (start + w))) j = (start <=? j) && (j <? start + w)).
  { intros j Hj. rewrite Z.shiftr_spec, testbit_wrap, Z.shiftl_spec by lia.
    destruct (Z.leb_spec start j) as [Hsj|Hsj].
    - rewrite testbit_wrap, Z.lnot_spec, Z.testbit_0_l by lia.
      destruct (Z.ltb_spec j (start + w)); lia.
    - rewrite Z.testbit_neg_r by lia. by rewrite andb_false_r. }
  rewrite Z.lor_spec, !Z.land_spec, Hm by lia.
  rewrite !testbit_wrap by lia. rewrite (proj2 (Z.ltb_lt _ _)) by lia. cbn [andb].
  rewrite Z.lnot_spec, Hm, Z.shiftl_spec by lia.
  destruct ((start <=? i) && (i <? start + w));
    by destruct (Z.testbit val i), (Z.testbit nval _).
Qed.
End field.

(** ** Memory *)

Lemma wrap_sub w a b : 0 <= w → wrap w (wrap w a - wrap w b) = wrap w (a - b).
Proof. intros. unfold wrap. by rewrite <- Zminus_mod. Qed.

(** The bits of memory after a store at [s + o]. *)
Lemma store_bits mem s o n val j :
  0 <= o → o + Z.of_nat n <= 2 ^ 63 → 0 <= j < 2 ^ 67 →
  bit_at (store_uint mem (wrap 64 (s + o)) n val) s j =
    if (8 * o <=? j) && (j <? 8 * (o + Z.of_nat n)) then Some (Z.testbit val (j - 8 * o))
    else bit_at mem s j.
Proof.
  intros Ho Hn Hj. unfold bit_at, store_uint, kwrite. rewrite length_le_bytes, wrap_sub by lia.
  replace (s + j / 8 - (s + o)) with (j / 8 - o) by lia.
  pose proof (Z.div_mod j 8 ltac:(lia)) as Hdm. pose proof (Z.mod_pos_bound j 8 ltac:(lia)).
  destruct (Z.leb_spec (8 * o) j); cbn [andb]; [destruct (Z.ltb_spec j (8 * (o + Z.of_nat n)))|].
  - rewrite wrap_small by lia. rewrite (proj2 (Z.ltb_lt _ _)) by lia.
    assert ((j - 8 * o) / 8 = j / 8 - o) as Hdiv
      by (replace (j - 8 * o) with (j + - o * 8) by lia; rewrite Z.div_add; lia).
    assert ((j - 8 * o) mod 8 = j mod 8) as Hmod
      by (replace (j - 8 * o) with (j + - o * 8) by lia; by rewrite Z.mod_add).
    destruct (le_bytes n val !! Z.to_nat (j / 8 - o)) as [c|] eqn:E.
    + rewrite <- Hdiv in E. rewrite <- Hmod. f_equal. eapply testbit_le_bytes; [lia|done].
    + apply lookup_ge_None in E. rewrite length_le_bytes in E. lia.
  - rewrite wrap_small by lia. by rewrite (proj2 (Z.ltb_ge _ _)) by lia.
  - assert (wrap 64 (j / 8 - o) = 2 ^ 64 + (j / 8 - o)) as ->.
    { unfold wrap. rewrite <- (Z.mod_add _ 1), Z.mod_small; lia. }
    by rewrite (proj2 (Z.ltb_ge _ _)) by lia.
Qed.

Lemma kread_store mem p n val :
  Z.of_nat n <= 2 ^ 64 →
  kread (store_uint mem p n val) p n = Some (le_bytes n val).
Proof.
  intros Hn. pose proof (length_le_bytes n val) as Hl.
  unfold store_uint. set (l := le_bytes n val) in *. clearbody l.
  enough (∀ m i, (i + m = n)%nat →
    kread (kwrite mem p l) (p + Z.of_nat i) m = Some (drop i l)) as Hg.
  { specialize (Hg n 0%nat eq_refl). by rewrite Z.add_0_r, drop_0 in Hg. }
  induction m as [|m IH]; intros i Hi; cbn [kread].
  - by rewrite drop_ge by lia.
  - assert (kwrite mem p l (wrap 64 (p + Z.of_nat i)) = l !! i) as ->.
    { unfold kwrite. replace (wrap 64 (wrap 64 (p + Z.of_nat i) - p)) with (Z.of_nat i).
      - by rewrite Hl, (proj2 (Z.ltb_lt _ _)), Nat2Z.id by lia.
      - rewrite <- (wrap_small 64 (Z.of_nat i)) at 1 by lia. unfold wrap.
        rewrite Zminus_mod_idemp_l. f_equal. lia. }
    replace (p + Z.of_nat i + 1) with (p + Z.of_nat (S i)) by lia. rewrite IH by lia.
    destruct (lookup_lt_is_Some_2 l i ltac:(lia)) as [c Hc]. rewrite Hc.
    by rewrite (drop_S l c i Hc).
Qed.

(** A field's bits determine its value. *)
Lemma bits_eq_mod v z w :
  0 <= w → 0 <= v < 2 ^ w → (∀ i, 0 <= i < w → Z.testbit v i = Z.testbit z i) →
  v = z mod 2 ^ w.
Proof.
  intros Hw Hv Hb. rewrite <- (Z.mod_small v (2 ^ w)) by done.
  apply Z.bits_inj'. intros i Hi. destruct (Z.lt_ge_cases i w).
  - rewrite !Z.mod_pow2_bits_low by done. auto.
  - by rewrite !Z.mod_pow2_bits_high by lia.
Qed.

(** ** The bit-field macros *)

(** C27. Reading a bit-field: when its storage unit can be read, the value's bits
    are the field's [w] bits of the struct, at [pos] in it whatever unit, offset
    and shifts the loader chose, sign-extended to 64 bits if the field is
    signed; and the probed variant computes the same value. *)
Theorem bitfield_read {K} `{HK : BpfKernel K, HL : !BpfKernelLaws K} f pos w sg (k : K) s l :
  describes f pos w sg →
  kread (kmem k) (s + BYTE_OFFSET f) (Z.to_nat (BYTE_SIZE f)) = Some l →
  ∃ v, 0 <= v < 2 ^ w ∧
    (∀ i, 0 <= i < w → bit_at (kmem k) s (pos + i) = Some (Z.testbit v i)) ∧
    BPF_CORE_READ_BITFIELD f (kmem k) s = Some (field_value w sg v) ∧
    BPF_CORE_READ_BITFIELD_PROBED f k s = field_value w sg v.
Proof.
  intros Hd Hl. pose proof (field_fits f pos w sg Hd) as (H0 & H1 & Hw & Hs & _).
  destruct (extract_spec f pos w sg Hd (le_Z l)) as (v & He & Hv & Hb).
  exists v. split_and!; [lia..| | |].
  - intros i Hi. rewrite Hb by done.
    rewrite <- (kread_bits (kmem k) (wrap 64 (s + BYTE_OFFSET f)) (Z.to_nat (BYTE_SIZE f)))
      by (rewrite ?kread_wrap; done || lia).
    rewrite bit_at_shift by lia. f_equal. lia.
  - by rewrite (read_bitfield_load f pos w sg Hd), Hl, He.
  - unfold BPF_CORE_READ_BITFIELD_PROBED, __CORE_BITFIELD_PROBE_READ.
    set (n := Z.to_nat (BYTE_SIZE f)).
    assert (length (take n (le_bytes 8 0)) = n) as Hn by (unfold n; len).
    pose proof (reads_ok _ _ (reads_kernel k) (take n (le_bytes 8 0))
      (wrap 64 (s + BYTE_OFFSET f)) l) as Hr.
    rewrite kread_wrap, Hn in Hr. specialize (Hr Hl). unfold n in Hr at 2.
    rewrite Z2Nat.id in Hr by lia. rewrite Hr, <- He. f_equal.
    apply Z.bits_inj'. intros i Hi. rewrite !testbit_le_Z by done.
    pose proof (kread_length _ _ _ _ Hl) as Hll. fold n in Hll.
    destruct (decide (Z.to_nat (i / 8) < n)%nat).
    + by rewrite lookup_app_l by lia.
    + rewrite lookup_app_r, lookup_drop, (lookup_ge_None_2 l) by lia.
      change (le_bytes 8 0) with (replicate 8 x00).
      destruct (replicate 8 x00 !! _) eqn:E; [|done].
      apply lookup_replicate in E as [-> _]. apply Z.testbit_0_l.
Qed.

(** C28. Writing a bit-field: when its storage unit can be accessed, the write sets
    the field's bits to the low bits of the new value and leaves every other
    bit of the struct, neighbours in the unit included, as it was; reading the
    field afterwards gives the new value truncated to the field's width. *)
Theorem bitfield_write f pos w sg mem s nval l :
  describes f pos w sg →
  kread mem (s + BYTE_OFFSET f) (Z.to_nat (BYTE_SIZE f)) = Some l →
  ∃ mem', BPF_CORE_WRITE_BITFIELD f mem s nval = Some mem' ∧
    (∀ j, 0 <= j < 2 ^ 67 →
      bit_at mem' s j =
        if (pos <=? j) && (j <? pos + w) then Some (Z.testbit nval (j - pos))
        else bit_at mem s j) ∧
    BPF_CORE_READ_BITFIELD f mem' s = Some (field_value w sg (wrap w nval)).
Proof.
  intros Hd Hl. pose proof (field_fits f pos w sg Hd) as (H0 & H1 & Hw & Hs & _).
  pose proof (d_offset _ _ _ _ Hd) as Ho.
  rewrite (write_bitfield_store f pos w sg Hd), Hl. eexists. split; [done|].
  set (new := insert_bits f (le_Z l) (wrap 64 nval)).
  assert (Hnew : ∀ i, 0 <= i < 64 → Z.testbit new i =
    if (pos - 8 * BYTE_OFFSET f <=? i) && (i <? pos - 8 * BYTE_OFFSET f + w)
    then Z.testbit nval (i - (pos - 8 * BYTE_OFFSET f)) else Z.testbit (le_Z l) i).
  { intros i Hi. unfold new. rewrite (testbit_insert f pos w sg Hd) by done.
    destruct (_ && _) eqn:E; [|done]. bsimp.
    rewrite testbit_wrap, (proj2 (Z.ltb_lt _ _)) by lia. done. }
  split.
  - intros j Hj. rewrite store_bits by lia. rewrite Z2Nat.id by lia.
    destruct ((8 * BYTE_OFFSET f <=? j) && _) eqn:E; bsimp.
    + rewrite Hnew by lia.
      replace (pos - 8 * BYTE_OFFSET f <=? j - 8 * BYTE_OFFSET f) with (pos <=? j) by lia.
      replace (j - 8 * BYTE_OFFSET f <? pos - 8 * BYTE_OFFSET f + w) with (j <? pos + w) by lia.
      destruct (_ && _); [do 2 f_equal; lia|].
      rewrite <- (kread_bits mem (wrap 64 (s + BYTE_OFFSET f)) (Z.to_nat (BYTE_SIZE f)))
        by (rewrite ?kread_wrap; done || lia).
      rewrite bit_at_shift by lia. f_equal. lia.
    + destruct ((pos <=? j) && _) eqn:E2; [|done]. bsimp.
      destruct (Z.leb_spec (8 * BYTE_OFFSET f) j); destruct (Z.ltb_spec j
        (8 * (BYTE_OFFSET f + BYTE_SIZE f))); cbn in E; lia.
  - rewrite (read_bitfield_load f pos w sg Hd), <- kread_wrap, kread_store by lia.
    destruct (extract_spec f pos w sg Hd (le_Z (le_bytes (Z.to_nat (BYTE_SIZE f)) new)))
      as (v & -> & Hv & Hb).
    do 2 f_equal. apply bits_eq_mod; [lia|done|]. intros i Hi. rewrite Hb by done.
    rewrite le_Z_le_bytes. change 256 with (2 ^ 8). rewrite <- Z.pow_mul_r by lia.
    rewrite Z.mod_pow2_bits_low, Hnew by lia.
    rewrite (proj2 (Z.leb_le _ _)), (proj2 (Z.ltb_lt _ _)) by lia. cbn [andb]. f_equal. lia.
Qed.

(** Every bit-field the compiler places is described by its storage unit. *)
Lemma unit_describes size pos w sg :
  size = 1 ∨ size = 2 ∨ size = 4 ∨ size = 8 →
  0 <= pos < 2 ^ 32 → 0 < w → pos mod (8 * size) + w <= 8 * size →
  describes (unit_info size pos w sg) pos w sg.
Proof.
  intros Hs Hp Hw Hfit. assert (0 < size) by lia.
  pose proof (Z.div_mod pos (8 * size) ltac:(lia)).
  pose proof (Z.mod_pos_bound pos (8 * size) ltac:(lia)).
  assert (0 <= pos / (8 * size)) by (apply Z.div_pos; lia).
  constructor; cbn [unit_info BYTE_OFFSET BYTE_SIZE SIGNED LSHIFT_U64 RSHIFT_U64]; try done; nia.
Qed.

(** ** An example

    A struct at address 4096 with a signed field of five bits from bit 38 on,
    declared as an [int]: the compiler's unit is the second word. *)
Definition example_bits : sim := {|
  sim_mem := [(4096, [x01; x02; x03; x04; xc0; xff; x07; x08])]; sim_umem := [];
  sim_comm := bs "bits"; sim_tgid := 1; sim_pid := 1;
  sim_ring := []; sim_outstanding := 0; sim_released := 0 |}.

Definition example_field : field_info := unit_info 4 38 5 true.

Lemma example_described : describes example_field 38 5 true.
Proof. apply unit_describes; [tauto|lia|lia|vm_compute; discriminate]. Defined.

Example example_field_unit :
  BYTE_OFFSET example_field = 4 ∧ LSHIFT_U64 example_field = 53 ∧ RSHIFT_U64 example_field = 59.
Proof. by split_and!. Qed.

(** The five bits are all set: the field is -1. *)
Lemma bitfield_read_witness :
  BPF_CORE_READ_BITFIELD example_field (kmem example_bits) 4096 = Some (2 ^ 64 - 1) ∧
  BPF_CORE_READ_BITFIELD_PROBED example_field example_bits 4096 = 2 ^ 64 - 1.
Proof.
  destruct (bitfield_read example_field 38 5 true example_bits 4096 [xc0; xff; x07; x08]
    example_described) as (v & Hv & Hb & Hr & Hp); [vm_compute; reflexivity|].
  assert (Some (field_value 5 true v) = Some (2 ^ 64 - 1)) as E
    by (rewrite <- Hr; vm_compute; reflexivity).
  rewrite Hr, Hp. split; [exact E|]. injection E as E. exact E.
Defined.

(** Writing nine, which five signed bits can hold. *)
Lemma bitfield_write_witness :
  ∃ mem', BPF_CORE_WRITE_BITFIELD example_field (kmem example_bits) 4096 9 = Some mem' ∧
    BPF_CORE_READ_BITFIELD example_field mem' 4096 = Some 9 ∧
    bit_at mem' 4096 37 = bit_at (kmem example_bits) 4096 37.
Proof.
  destruct (bitfield_write example_field 38 5 true (kmem example_bits) 4096 9
    [xc0; xff; x07; x08] example_described) as (mem' & Hw & Hb & Hr);
    [vm_compute; reflexivity|].
  exists mem'. split; [exact Hw|]. split; [exact Hr|]. apply (Hb 37). lia.
Defined.
