(* ===== verification/OomKill.v ===== *)
(** * The OOM probe

    [oomkill.c]: the BPF program attached to [oom_kill_process].  It reserves a
    ring buffer record, fills a [struct event] in it from the kernel's
    [oom_control], and submits it.  The program is written over the kernel
    interface of [BpfCoreRead] as the C code is, byte buffer and all, with the rest
    of the kernel going on between any two helper calls;
    [spec_event] is the event the OOM situation describes, and [probe_refines]
    relates the two. *)
From S2P Require Import Prelude CTypes BpfTracing BpfCoreRead.
From S2P Require VmlinuxX86 VmlinuxArm64.

(** ** Data *)

(** [struct event], the record format. *)
Definition TASK_COMM_LEN : Z := 16.

Definition event_t : ctype :=
  TStruct "event" members{
    MFld "victim_pid" (TInt IUInt);
    MFld "trigger_pid" (TInt IUInt);
    MFld "victim_comm" (TArr (TInt IChar) TASK_COMM_LEN);
    MFld "trigger_comm" (TArr (TInt IChar) TASK_COMM_LEN);
    MFld "totalpages" (TInt IULLong);
    MFld "global_oom" (TInt IBool);
    MFld "names" (TArr (TArr (TInt IChar) 128) 4) }.

(** [(unsigned long)-1], the victim pointer of an aborted OOM scan. *)
Definition minus_one : Z := 2 ^ 64 - 1.

(** ** The program *)

(** The body runs on the contents of the reserved record. [None] is a program
    that does not compile or load: a member the headers, or the running kernel,
    do not have. *)
Definition M (A : Type) : Type := list byte → option (A * list byte).

#[global] Instance M_ret : MRet M := λ A a e, Some (a, e).
#[global] Instance M_bind : MBind M := λ A B f m e,
  match m e with Some (a, e') => f a e' | None => None end.

(** A value the headers determine, such as an address. *)
Definition lift {A} (o : option A) : M A := λ e,
  match o with Some a => Some (a, e) | None => None end.

(** The bytes of [e->acc] are passed to [f] and replaced by what it returns. *)
Definition into (acc : list step) (f : list byte → list byte) : M unit := λ e,
  match offsetof event_t acc with
  | Some (o, t) =>
      let dst := slice (Z.to_nat o) (Z.to_nat (sizeof t)) e in
      Some ((), write_at (Z.to_nat o) (f dst) e)
  | None => None
  end.

(** [e->acc = v], stored as the member's bytes. *)
Definition store (acc : list step) (v : Z) : M unit := λ e,
  match offsetof event_t acc with
  | Some (o, t) => Some ((), write_at (Z.to_nat o) (le_bytes (Z.to_nat (sizeof t)) v) e)
  | None => None
  end.

(** [memset(e, 0, n)]. *)
Definition memset0 (n : Z) : M unit := λ e,
  Some ((), write_at 0 (replicate (Z.to_nat n) x00) e).

Definition when (c : bool) (m : M unit) : M unit := if c then m else mret ().

Section program.
Context {K : Type} `{BpfKernel K}.

(** The kernel headers of the build, and the types of the running kernel, which the
    loader relocates the program to. *)
Variables env kenv : list (string * ctype).

(** The rest of the kernel goes on while the program runs: [ks i] is the state in which
    the program calls a helper for the [i]-th time, where the calls are numbered
    in the order of the program text, rounds of the loop one after the other. *)
Variable ks : nat → K.

Abbreviation core_read i t p a rest :=
  (lift (BPF_CORE_READ env kenv (λ j, ks (i + j)%nat) t p a rest)).
Abbreviation type_of s := (lift (pointee_in env s)).

(** [bpf_core_read_str(&e->acc, sizeof(e->acc), src)]. *)
Definition read_str (i : nat) (acc : list step) (src : Z) : M unit :=
  into acc (λ dst, (rf_call (bpf_core_read_str Kernel) (ks i) dst (Z.of_nat (length dst)) src).2).

(** The number of the [j]-th call in round [i] of the loop, after the calls before it. *)
Definition call_in_round (i : Z) (j : nat) : nat := (12 + 3 * Z.to_nat i + j)%nat.

(** The loop over the cgroup's ancestors, [n] rounds from slot [i] on. *)
Fixpoint walk (n : nat) (i : Z) (kn : Z) : M unit :=
  match n with
  | O => mret ()
  | S n =>
      if kn =? 0 then mret () else
      knT ← type_of "struct kernfs_node";
      nm ← core_read (call_in_round i 0) knT kn (fld "name") [];
      when (negb (nm =? 0)) (read_str (call_in_round i 1) [Dot "names"; Idx i] nm);;
      kn' ← core_read (call_in_round i 2) knT kn (fld "parent") [];
      walk n (i + 1) kn'
  end.

(** The body of [kprobe__oom_kill_process] once the record is reserved. The one
    address that is not relocated is [&oc->totalpages]. *)
Definition fill_event (oc : Z) : M unit :=
  ocT ← type_of "struct oom_control";
  taskT ← type_of "struct task_struct";
  cgroupT ← type_of "struct cgroup";
  memcgT ← type_of "struct mem_cgroup";
  memset0 (sizeof event_t);;
  store (fld "trigger_pid") (Z.shiftr (get_current_pid_tgid (ks 0)) 32);;
  into (fld "trigger_comm")
    (λ dst, (get_current_comm (ks 1) dst (Z.of_nat (length dst))).2);;
  totalpages ← lift (member_addr kenv false ocT oc (fld "totalpages"));
  into (fld "totalpages")
    (λ dst, (probe_read_kernel (ks 2) dst (Z.of_nat (length dst)) totalpages.1).2);;
  victim ← core_read 3 ocT oc (fld "chosen") [];
  when (negb (victim =? 0) && negb (victim =? minus_one))
    (pid ← core_read 4 taskT victim (fld "pid") [];
     store (fld "victim_pid") pid;;
     comm ← lift (member_addr kenv true taskT victim (fld "comm"));
     read_str 5 (fld "victim_comm") comm.1);;
  memcg ← core_read 6 ocT oc (fld "memcg") [];
  store (fld "global_oom") (if memcg =? 0 then 1 else 0);;
  kn ← (if negb (victim =? 0) then
          dcg ← core_read 7 taskT victim (fld "cgroups") [fld "dfl_cgrp"];
          if negb (dcg =? 0) then core_read 9 cgroupT dcg (fld "kn") [] else mret 0
        else if negb (memcg =? 0) then
          cg ← core_read 10 memcgT memcg [Dot "css"; Dot "cgroup"] [];
          if negb (cg =? 0) then core_read 11 cgroupT cg (fld "kn") [] else mret 0
        else mret 0);
  walk 4 0 kn.

End program.

(** Submitting the record, after the four rounds of the loop. *)
Definition last_call : nat := 24.

(** [kprobe__oom_kill_process(oc)]: the returned value and the kernel after it.
    [meantime i] is all that the rest of the kernel does between the reservation and
    the program's [i]-th call of a helper. *)
Definition oom_kill_process {K} `{BpfKernel K} (env kenv : list (string * ctype))
    (meantime : nat → K → K) (k : K) (oc : Z) : option (Z * K) :=
  match ringbuf_reserve k (sizeof event_t) 0 with
  | (None, k1) => Some (0, k1)
  | (Some e, k1) =>
      match fill_event env kenv (λ i, meantime i k1) oc e with
      | Some (_, e') => Some (0, ringbuf_submit (meantime last_call k1) e' 0)
      | None => None
      end
  end.

(** ** The two builds *)

(** The targets [go generate] builds the program for, [-target amd64,arm64]. *)
Inductive arch := amd64 | arm64.

(** The macros that are defined when the program's headers are read: the target
    macro bpf2go passes, and the guard of [vmlinux.h], which comes first. *)
Definition build_macros (a : arch) : cpp := λ x,
  if String.eqb x "__VMLINUX_H__" then Some 1
  else if String.eqb x (match a with amd64 => "__TARGET_ARCH_x86" | arm64 => "__TARGET_ARCH_arm64" end)
  then Some 1 else None.

(** [vmlinux.h]: the kernel headers of the target. *)
Definition vmlinux_h (m : cpp) : list (string * ctype) :=
  if defined m "__TARGET_ARCH_x86" then VmlinuxX86.vmlinux
  else if defined m "__TARGET_ARCH_arm64" then VmlinuxArm64.vmlinux
  else [].

(** What a build of the program is compiled with. *)
Record build := {
  b_macros : cpp;
  b_headers : list (string * ctype);
}.

Definition shipped (a : arch) : build := {|
  b_macros := build_macros a; b_headers := vmlinux_h (build_macros a) |}.

(** An argument of the probed function, from the saved registers [ctx]:
    [(void * )PT_REGS_PARM1(ctx)] for the first, as [BPF_KPROBE] passes it. The
    context is a [struct pt_regs] unless the accessor casts it. *)
Definition kprobe_arg (u : sparc_numbers) (b : build) (r : pt_reg) (ctx : list byte)
    : option Z :=
  t ← bpf_target (b_macros b);
  match PT_REGS u (b_macros b) t r with
  | Member c p =>
      regs ← pointee_in (b_headers b) (default "struct pt_regs" c);
      match offsetof regs p with
      | Some (o, t) => Some (le_Z (slice (Z.to_nat o) (Z.to_nat (sizeof t)) ctx))
      | None => None
      end
  | Zero => Some 0
  | Undefined => None
  end.

(** The program as attached, [BPF_KPROBE(kprobe__oom_kill_process, oc)], in a
    kernel with the types [kenv]. *)
Definition kprobe__oom_kill_process {K} `{BpfKernel K} (u : sparc_numbers) (b : build)
    (kenv : list (string * ctype)) (meantime : nat → K → K) (k : K) (ctx : list byte)
    : option (Z * K) :=
  match BPF_KPROBE ["oc"] with
  | Some [Ctx; Reg r] =>
      match kprobe_arg u b r ctx with
      | Some oc => oom_kill_process (b_headers b) kenv meantime k oc
      | None => None
      end
  | _ => None
  end.

(** ** Where the probe looks *)

(** The offsets of the members the probe reads. *)
Record layout := {
  oc_totalpages : Z; oc_chosen : Z; oc_memcg : Z;
  task_pid : Z; task_comm : Z; task_cgroups : Z;
  css_dfl_cgrp : Z; cgroup_kn : Z; memcg_cgroup : Z;
  kn_name : Z; kn_parent : Z;
}.

(** The headers [env] declare the members the probe reads with the types it relies
    on, and the running kernel [kenv] has them at the offsets of [lo]. The
    address of [totalpages] is compiled in. *)
Class HasLayout (env kenv : list (string * ctype)) (lo : layout) := {
  ty_oc : ctype; ty_task : ctype; ty_css : ctype;
  ty_cgroup : ctype; ty_memcg : ctype; ty_kn : ctype;
  built_totalpages : Z;
  decl_oc : pointee_in env "struct oom_control" = Some ty_oc;
  decl_task : pointee_in env "struct task_struct" = Some ty_task;
  decl_css : pointee_in env "struct css_set" = Some ty_css;
  decl_cgroup : pointee_in env "struct cgroup" = Some ty_cgroup;
  decl_memcg : pointee_in env "struct mem_cgroup" = Some ty_memcg;
  decl_kn : pointee_in env "struct kernfs_node" = Some ty_kn;
  off_built : offsetof ty_oc (fld "totalpages") = Some (built_totalpages, TInt IULong);
  off_totalpages : relocate kenv ty_oc (fld "totalpages") = Some (oc_totalpages lo, TInt IULong);
  off_chosen : relocate kenv ty_oc (fld "chosen") = Some (oc_chosen lo, TPtr "struct task_struct");
  off_memcg : relocate kenv ty_oc (fld "memcg") = Some (oc_memcg lo, TPtr "struct mem_cgroup");
  off_pid : relocate kenv ty_task (fld "pid") = Some (task_pid lo, TInt IInt);
  off_comm :
    relocate kenv ty_task (fld "comm") = Some (task_comm lo, TArr (TInt IChar) TASK_COMM_LEN);
  off_cgroups : relocate kenv ty_task (fld "cgroups") = Some (task_cgroups lo, TPtr "struct css_set");
  off_dfl_cgrp : relocate kenv ty_css (fld "dfl_cgrp") = Some (css_dfl_cgrp lo, TPtr "struct cgroup");
  off_kn : relocate kenv ty_cgroup (fld "kn") = Some (cgroup_kn lo, TPtr "struct kernfs_node");
  off_cgroup :
    relocate kenv ty_memcg [Dot "css"; Dot "cgroup"] = Some (memcg_cgroup lo, TPtr "struct cgroup");
  off_name : relocate kenv ty_kn (fld "name") = Some (kn_name lo, TPtr "char");
  off_parent : relocate kenv ty_kn (fld "parent") = Some (kn_parent lo, TPtr "struct kernfs_node");
}.

Definition x86_layout : layout := {|
  oc_totalpages := 32; oc_chosen := 40; oc_memcg := 16;
  task_pid := 2488; task_comm := 3032; task_cgroups := 3656;
  css_dfl_cgrp := 128; cgroup_kn := 248; memcg_cgroup := 0;
  kn_name := 16; kn_parent := 8;
|}.

Definition arm64_layout : layout := {|
  oc_totalpages := 32; oc_chosen := 40; oc_memcg := 16;
  task_pid := 1592; task_comm := 2136; task_cgroups := 2608;
  css_dfl_cgrp := 128; cgroup_kn := 248; memcg_cgroup := 0;
  kn_name := 16; kn_parent := 8;
|}.

#[global] Instance x86_has_layout : HasLayout VmlinuxX86.vmlinux VmlinuxX86.vmlinux x86_layout.
Proof.
  unshelve refine {|
    ty_oc := VmlinuxX86.oom_control; ty_task := VmlinuxX86.task_struct;
    ty_css := VmlinuxX86.css_set; ty_cgroup := VmlinuxX86.cgroup;
    ty_memcg := VmlinuxX86.mem_cgroup; ty_kn := VmlinuxX86.kernfs_node;
    built_totalpages := 32 |};
    vm_compute; reflexivity.
Defined.

#[global] Instance arm64_has_layout : HasLayout VmlinuxArm64.vmlinux VmlinuxArm64.vmlinux arm64_layout.
Proof.
  unshelve refine {|
    ty_oc := VmlinuxArm64.oom_control; ty_task := VmlinuxArm64.task_struct;
    ty_css := VmlinuxArm64.css_set; ty_cgroup := VmlinuxArm64.cgroup;
    ty_memcg := VmlinuxArm64.mem_cgroup; ty_kn := VmlinuxArm64.kernfs_node;
    built_totalpages := 32 |};
    vm_compute; reflexivity.
Defined.

Definition layout_of (a : arch) : layout :=
  match a with amd64 => x86_layout | arm64 => arm64_layout end.

(** A program on the kernel it was built against. *)
#[global] Instance shipped_has_layout a :
  HasLayout (b_headers (shipped a)) (b_headers (shipped a)) (layout_of a).
Proof. destruct a; [exact x86_has_layout|exact arm64_has_layout]. Defined.

(** ** The event an OOM situation describes *)

(** A task as the event shows it: its id, its name, and the names of its cgroup
    and the cgroup's ancestors, leaf first; a node may have no name. *)
Record task_view := {
  tv_pid : Z;
  tv_comm : list byte;
  tv_path : list (option (list byte));
}.

(** An OOM kill: the limit, the chosen victim if there is one, and the memory
    cgroup whose limit was hit, by its path, unless the whole system ran out. *)
Record oom_view := {
  v_totalpages : Z;
  v_victim : option task_view;
  v_memcg : option (list (option (list byte)));
}.

Definition u64_at (mem : Z → option byte) (a v : Z) : Prop :=
  ∃ l, kread mem a 8 = Some l ∧ le_Z l = v.

(** The chain of kernfs nodes from [kn] up to the root. *)
Inductive kn_path (lo : layout) (mem : Z → option byte) :
    Z → list (option (list byte)) → Prop :=
  | kn_root : kn_path lo mem 0 []
  | kn_anonymous kn up path :
      kn ≠ 0 → u64_at mem (kn + kn_name lo) 0 →
      u64_at mem (kn + kn_parent lo) up → kn_path lo mem up path →
      kn_path lo mem kn (None :: path)
  | kn_named kn nm s up path :
      kn ≠ 0 → u64_at mem (kn + kn_name lo) nm → nm ≠ 0 → c_string mem nm s →
      u64_at mem (kn + kn_parent lo) up → kn_path lo mem up path →
      kn_path lo mem kn (Some s :: path).

Inductive cgroup_path (lo : layout) (mem : Z → option byte) :
    Z → list (option (list byte)) → Prop :=
  | cgroup_none : cgroup_path lo mem 0 []
  | cgroup_some cg kn path :
      cg ≠ 0 → u64_at mem (cg + cgroup_kn lo) kn → kn_path lo mem kn path →
      cgroup_path lo mem cg path.

Record task_at (lo : layout) (mem : Z → option byte) (a : Z) (tv : task_view) : Prop := {
  ta_pid : ∃ l, kread mem (a + task_pid lo) 4 = Some l ∧ swrap 32 (le_Z l) = tv_pid tv;
  ta_comm : c_string mem (a + task_comm lo) (tv_comm tv);
  ta_cgroup : ∃ css cg,
    u64_at mem (a + task_cgroups lo) css ∧ u64_at mem (css + css_dfl_cgrp lo) cg ∧
    cgroup_path lo mem cg (tv_path tv);
}.

(** Kernel memory holds the OOM situation [v] in the [oom_control] at [oc]. *)
Record oom_at (lo : layout) (mem : Z → option byte) (oc : Z) (v : oom_view) : Prop := {
  oa_totalpages : u64_at mem (oc + oc_totalpages lo) (v_totalpages v);
  oa_victim : ∃ p, u64_at mem (oc + oc_chosen lo) p ∧
    match v_victim v with
    | Some tv => p ≠ 0 ∧ p ≠ minus_one ∧ task_at lo mem p tv
    | None => p = 0
    end;
  oa_memcg : ∃ p, u64_at mem (oc + oc_memcg lo) p ∧
    match v_memcg v with
    | Some path => p ≠ 0 ∧
        ∃ cg, u64_at mem (p + memcg_cgroup lo) cg ∧ cgroup_path lo mem cg path
    | None => p = 0
    end;
}.

(** Memory [mem] has the bytes that [m] has. *)
Definition holds (m mem : Z → option byte) : Prop := ∀ a b, m a = Some b → mem a = Some b.

(** The kernel with the reservation made. *)
Definition reserved {K} `{BpfKernel K} (k : K) : K := (ringbuf_reserve k (sizeof event_t) 0).2.

(** A run from [k] on during which nobody else uses the ring buffer, the current task
    remains the same, and the bytes of [m] stay in memory. *)
Record undisturbed {K} `{BpfKernel K} (m : Z → option byte) (meantime : nat → K → K) (k : K)
    : Prop := {
  un_start : holds m (kmem k);
  un_mem i : holds m (kmem (meantime i (reserved k)));
  un_comm i : current_comm (meantime i (reserved k)) = current_comm k;
  un_tgid i : current_tgid (meantime i (reserved k)) = current_tgid k;
  un_submitted i : submitted (meantime i (reserved k)) = submitted (reserved k);
  un_outstanding i : outstanding (meantime i (reserved k)) = outstanding (reserved k);
}.

(** The record, field by field; [char] arrays with all their bytes. *)
Record event := {
  victim_pid : Z;
  trigger_pid : Z;
  victim_comm : list byte;
  trigger_comm : list byte;
  totalpages : Z;
  global_oom : bool;
  names : list (list byte);
}.

(** The bytes of a [struct event]: fields in order, then tail padding. *)
Definition encode_event (e : event) : list byte :=
  le_bytes 4 (victim_pid e) ++ le_bytes 4 (trigger_pid e) ++
  victim_comm e ++ trigger_comm e ++ le_bytes 8 (totalpages e) ++
  [if global_oom e then x01 else x00] ++ concat (names e) ++ replicate 7 x00.

Record wf_event (e : event) : Prop := {
  we_victim_pid : 0 <= victim_pid e < 2 ^ 32;
  we_trigger_pid : 0 <= trigger_pid e < 2 ^ 32;
  we_victim_comm : length (victim_comm e) = 16%nat;
  we_trigger_comm : length (trigger_comm e) = 16%nat;
  we_totalpages : 0 <= totalpages e < 2 ^ 64;
  we_names : length (names e) = 4%nat;
  we_name : Forall (λ n, length n = 128%nat) (names e);
}.

(** The name slots of a path: the first [n] names, absent ones empty. *)
Fixpoint name_slots (n : nat) (path : list (option (list byte))) : list (list byte) :=
  match n with
  | O => []
  | S n =>
      match path with
      | [] => cfield 128 [] :: name_slots n []
      | o :: path => cfield 128 (default [] o) :: name_slots n path
      end
  end.

(** The path the names come from: the victim's cgroup; without a victim, the
    cgroup that hit its limit. *)
Definition view_path (v : oom_view) : list (option (list byte)) :=
  match v_victim v with
  | Some tv => tv_path tv
  | None => default [] (v_memcg v)
  end.

Definition spec_event {K} `{BpfKernel K} (k : K) (v : oom_view) : event := {|
  victim_pid := match v_victim v with Some tv => wrap 32 (tv_pid tv) | None => 0 end;
  trigger_pid := current_tgid k;
  victim_comm := cfield 16 (match v_victim v with Some tv => tv_comm tv | None => [] end);
  trigger_comm := cfield 16 (current_comm k);
  totalpages := v_totalpages v;
  global_oom := bool_decide (v_memcg v = None);
  names := name_slots 4 (view_path v);
|}.
