(* ===== verification/OomKillCorrect.v ===== *)
(** * Correctness of the OOM probe

    The byte-level program of [OomKill] against [spec_event]: every store of
    the C code is a field update of the record, so the submitted bytes are the
    encoding of the event the OOM situation describes ([probe_refines]); the
    probe is total and keeps the ring buffer discipline on any kernel memory,
    whatever happens to it meanwhile ([probe_total]); and an aborted scan loses the cgroup names
    ([aborted_scan_names]). *)
From S2P Require Import Prelude CTypes BpfTracing BpfCoreRead OomKill.

(** ** Field updates on encoded records *)

Definition set_victim_pid v e := {| victim_pid := v; trigger_pid := trigger_pid e;
  victim_comm := victim_comm e; trigger_comm := trigger_comm e; totalpages := totalpages e;
  global_oom := global_oom e; names := names e |}.
Definition set_trigger_pid v e := {| victim_pid := victim_pid e; trigger_pid := v;
  victim_comm := victim_comm e; trigger_comm := trigger_comm e; totalpages := totalpages e;
  global_oom := global_oom e; names := names e |}.
Definition set_victim_comm v e := {| victim_pid := victim_pid e; trigger_pid := trigger_pid e;
  victim_comm := v; trigger_comm := trigger_comm e; totalpages := totalpages e;
  global_oom := global_oom e; names := names e |}.
Definition set_trigger_comm v e := {| victim_pid := victim_pid e; trigger_pid := trigger_pid e;
  victim_comm := victim_comm e; trigger_comm := v; totalpages := totalpages e;
  global_oom := global_oom e; names := names e |}.
Definition set_totalpages v e := {| victim_pid := victim_pid e; trigger_pid := trigger_pid e;
  victim_comm := victim_comm e; trigger_comm := trigger_comm e; totalpages := v;
  global_oom := global_oom e; names := names e |}.
Definition set_global_oom v e := {| victim_pid := victim_pid e; trigger_pid := trigger_pid e;
  victim_comm := victim_comm e; trigger_comm := trigger_comm e; totalpages := totalpages e;
  global_oom := v; names := names e |}.
Definition set_names v e := {| victim_pid := victim_pid e; trigger_pid := trigger_pid e;
  victim_comm := victim_comm e; trigger_comm := trigger_comm e; totalpages := totalpages e;
  global_oom := global_oom e; names := v |}.

(** The lengths of the variable parts of a record. *)
Record shaped (e : event) : Prop := {
  sh_victim_comm : length (victim_comm e) = 16%nat;
  sh_trigger_comm : length (trigger_comm e) = 16%nat;
  sh_names : length (names e) = 4%nat;
  sh_name : Forall (λ n, length n = 128%nat) (names e);
}.

Lemma wf_shaped e : wf_event e → shaped e.
Proof. intros []. by constructor. Qed.
#[export] Hint Resolve wf_shaped : otdb.

Lemma length_encode e : shaped e → length (encode_event e) = 568%nat.
Proof.
  intros [H1 H2 H3 H4]. unfold encode_event. apply length_concat_const in H4. len.
Qed.

Lemma sizeof_event : sizeof event_t = 568.
Proof. reflexivity. Qed.

(** An access to a field of a record cut into prefix, field and rest. *)
Lemma into_at acc f rec o t p x r :
  rec = p ++ x ++ r → offsetof event_t acc = Some (o, t) →
  length p = Z.to_nat o → length x = Z.to_nat (sizeof t) → length (f x) = length x →
  into acc f rec = Some ((), p ++ f x ++ r).
Proof.
  intros -> Ho Hp Hx Hf. unfold into. rewrite Ho, (slice_app _ _ p x r) by done.
  by rewrite write_at_app.
Qed.

Lemma store_at acc v rec o t p x r :
  rec = p ++ x ++ r → offsetof event_t acc = Some (o, t) →
  length p = Z.to_nat o → length x = Z.to_nat (sizeof t) →
  store acc v rec = Some ((), p ++ le_bytes (Z.to_nat (sizeof t)) v ++ r).
Proof.
  intros -> Ho Hp Hx. unfold store. rewrite Ho, write_at_app; [done..|]. by rewrite length_le_bytes.
Qed.

Lemma le_bytes_mod n z : le_bytes n (z mod 256 ^ Z.of_nat n) = le_bytes n z.
Proof.
  rewrite <- le_Z_le_bytes. rewrite <- (length_le_bytes n z) at 1. apply le_bytes_le_Z.
Qed.

Lemma le_bytes_wrap n z : le_bytes n (wrap (8 * Z.of_nat n) z) = le_bytes n z.
Proof.
  unfold wrap. rewrite Z.pow_mul_r by lia. apply le_bytes_mod.
Qed.

Lemma le_bytes_wrap32 z : le_bytes 4 (wrap 32 z) = le_bytes 4 z.
Proof. apply (le_bytes_wrap 4). Qed.

(** Lengths of fields, against the computed offsets and sizes. *)
Ltac field_len := repeat rewrite ?length_app, ?length_le_bytes; simpl; lia.

(** Apply an access lemma [L] at the cut [p], [x] of the record: the goals left are
    the record after the access and what the lemma needs beyond lengths. *)
Ltac access L p x :=
  etransitivity;
  [ eapply (L _ _ _ _ _ p x _);
    [ unfold encode_event; rewrite <- ?app_assoc; reflexivity
    | vm_compute; reflexivity
    | field_len
    | field_len
    | first [congruence | rewrite length_le_bytes; done] .. ]
  | unfold encode_event; rewrite <- ?app_assoc;
    cbn [victim_pid trigger_pid victim_comm trigger_comm totalpages
      global_oom names set_victim_pid set_trigger_pid set_victim_comm set_trigger_comm
      set_totalpages set_global_oom set_names] ].

Ltac name_access q x :=
  etransitivity;
  [ eapply (into_at _ _ _ _ _ q x _);
    [ rewrite <- ?app_assoc; reflexivity | vm_compute; reflexivity | field_len .. ]
  | rewrite <- ?app_assoc; reflexivity ].

Section fields.
Variables (e : event) (Hs : shaped e).

Abbreviation prefix1 := (le_bytes 4 (victim_pid e)).
Abbreviation prefix2 := (prefix1 ++ le_bytes 4 (trigger_pid e)).
Abbreviation prefix3 := (prefix2 ++ victim_comm e).
Abbreviation prefix4 := (prefix3 ++ trigger_comm e).
Abbreviation prefix5 := (prefix4 ++ le_bytes 8 (totalpages e)).

Lemma store_victim_pid v :
  store (fld "victim_pid") v (encode_event e) =
  Some ((), encode_event (set_victim_pid (wrap 32 v) e)).
Proof using.
  access store_at (@nil byte) (le_bytes 4 (victim_pid e)).
  by rewrite le_bytes_wrap32.
Qed.

Lemma store_trigger_pid v :
  store (fld "trigger_pid") v (encode_event e) =
  Some ((), encode_event (set_trigger_pid (wrap 32 v) e)).
Proof using.
  access store_at constr:(prefix1) (le_bytes 4 (trigger_pid e)).
  by rewrite le_bytes_wrap32.
Qed.

Lemma into_victim_comm f :
  length (f (victim_comm e)) = 16%nat →
  into (fld "victim_comm") f (encode_event e) =
  Some ((), encode_event (set_victim_comm (f (victim_comm e)) e)).
Proof using Hs.
  intros Hf. destruct Hs as [H1 H2 _ _].
  access into_at constr:(prefix2) (victim_comm e). done.
Qed.

Lemma into_trigger_comm f :
  length (f (trigger_comm e)) = 16%nat →
  into (fld "trigger_comm") f (encode_event e) =
  Some ((), encode_event (set_trigger_comm (f (trigger_comm e)) e)).
Proof using Hs.
  intros Hf. destruct Hs as [H1 H2 _ _].
  access into_at constr:(prefix3) (trigger_comm e). done.
Qed.

Lemma into_totalpages f l :
  f (le_bytes 8 (totalpages e)) = l → length l = 8%nat →
  into (fld "totalpages") f (encode_event e) =
  Some ((), encode_event (set_totalpages (le_Z l) e)).
Proof using Hs.
  intros <- Hf. destruct Hs as [H1 H2 _ _].
  access into_at constr:(prefix4) (le_bytes 8 (totalpages e)).
  pose proof (le_bytes_le_Z (f (le_bytes 8 (totalpages e)))) as E.
  rewrite Hf in E. by rewrite E.
Qed.

Lemma store_global_oom (g : bool) :
  store (fld "global_oom") (if g then 1 else 0) (encode_event e) =
  Some ((), encode_event (set_global_oom g e)).
Proof using Hs.
  destruct Hs as [H1 H2 _ _].
  access store_at constr:(prefix5) [if global_oom e then x01 else x00]. by destruct g.
Qed.

(** A name slot: the names before it, the slot, the names after it. *)
Lemma into_name f i n :
  names e !! i = Some n → length (f n) = 128%nat →
  into [Dot "names"; Idx (Z.of_nat i)] f (encode_event e) =
  Some ((), encode_event (set_names (<[i := f n]> (names e)) e)).
Proof using Hs.
  intros Hi Hf. destruct Hs as [H1 H2 H3 H4].
  destruct (names e) as [|n0 [|n1 [|n2 [|n3 [|]]]]] eqn:En; try done.
  rewrite !Forall_cons in H4. destruct H4 as (L0 & L1 & L2 & L3 & _).
  unfold encode_event. rewrite En.
  cbn [victim_pid trigger_pid victim_comm trigger_comm totalpages global_oom names set_names].
  set (h := if global_oom e then x01 else x00).
  destruct i as [|[|[|[|i]]]]; simplify_eq/=; rewrite ?app_nil_r.
  - name_access (prefix5 ++ [h]) n.
  - name_access (prefix5 ++ [h] ++ n0) n.
  - name_access (prefix5 ++ [h] ++ n0 ++ n1) n.
  - name_access (prefix5 ++ [h] ++ n0 ++ n1 ++ n2) n.
Qed.
End fields.

(** ** Names and strings *)

Lemma take_cfield n s : (length s < n)%nat → cfield n s = s ++ replicate (n - length s) x00.
Proof. intros. unfold cfield. by rewrite take_ge by lia. Qed.

Lemma replicate_S_drop n m :
  (m < n)%nat → x00 :: drop (S m) (replicate n x00) = replicate (n - m) x00.
Proof.
  intros. rewrite drop_replicate. by replace (n - m)%nat with (S (n - S m)) by lia.
Qed.

Section helpers.
Context {K : Type} `{HK : BpfKernel K, HL : !BpfKernelLaws K}.

(** A string read into a zeroed field leaves the field holding the string. *)
Lemma probe_str_field k n a s :
  (0 < n)%nat → c_string (kmem k) a s →
  (rf_call (bpf_core_read_str Kernel) k (replicate n x00) (Z.of_nat (length (replicate n x00))) a).2
  = cfield n s.
Proof using HL.
  intros Hn Hs. cbn [rf_call bpf_core_read_str bpf_probe_read_str].
  destruct (decide (length s < n)%nat) as [Hl|Hl].
  - rewrite (string_fits _ _ (reads_kernel_str k) _ a s) by (auto; len). simpl.
    by rewrite replicate_S_drop, take_cfield by done.
  - rewrite (string_cut _ _ (reads_kernel_str k) _ a s) by (auto; len). simpl.
    unfold cfield. rewrite length_replicate, length_take.
    by replace (n - (n - 1) `min` length s)%nat with 1%nat by lia.
Qed.

Lemma pid_tgid_shift k : Z.shiftr (get_current_pid_tgid k) 32 = current_tgid k.
Proof using HL.
  destruct (pid_tgid_spec k) as (-> & Ht & Hp).
  rewrite Z.shiftr_lor, Z.shiftr_shiftl_l, Z.sub_diag, Z.shiftl_0_r by lia.
  rewrite (Z.shiftr_div_pow2 (current_pid k)), Z.div_small by lia. apply Z.lor_0_r.
Qed.

Variables (env kenv : list (string * ctype)) (lo : layout).
Context {HO : HasLayout env kenv lo}.
(** The states of the helper calls of a macro. *)
Variable ks : nat → K.

Lemma core_type_one t a o u :
  relocate kenv t a = Some (o, u) → core_type env t a [] = Some u.
Proof using. intros [o' Ho]%relocate_local. simpl. by rewrite Ho. Qed.

Lemma type_step t a o s :
  relocate kenv t a = Some (o, TPtr s) → ___type env t a = pointee_in env s.
Proof using. intros [o' Ho]%relocate_local. unfold ___type. by rewrite Ho. Qed.

Lemma read_core (k : K) dst t src a o u :
  relocate kenv t a = Some (o, u) →
  ___read kenv (bpf_core_read Kernel) k dst t src a =
    Some (probe_read_kernel k dst (Z.of_nat (length dst)) (wrap 64 (src + o))).
Proof using. intros Ho. exact (read_at kenv (bpf_core_read Kernel) k dst t src a o u Ho). Qed.

(** One member. *)
Lemma core_read_one t src a o u l :
  relocate kenv t a = Some (o, u) →
  kread (kmem (ks 0)) (src + o) (Z.to_nat (sizeof u)) = Some l →
  BPF_CORE_READ env kenv ks t src a [] = Some (load u l).
Proof using HL.
  intros Ho Hl. apply (read_value env kenv true Kernel ks t src a [] (src + o) u l);
    [simpl; lia| |done].
  cbn [chase_addr place]. by rewrite Ho.
Qed.

Lemma core_read_ptr t src a o s v :
  relocate kenv t a = Some (o, TPtr s) → u64_at (kmem (ks 0)) (src + o) v →
  BPF_CORE_READ env kenv ks t src a [] = Some v.
Proof using HL. intros Ho (l & Hl & <-). by rewrite (core_read_one t src a o (TPtr s) l). Qed.

(** [victim->cgroups->dfl_cgrp]. *)
Lemma dfl_cgrp_type :
  core_type env ty_task (fld "cgroups") [fld "dfl_cgrp"] = Some (TPtr "struct cgroup").
Proof using.
  change (match ___type env ty_task (fld "cgroups") with
    | Some t' => core_type env t' (fld "dfl_cgrp") [] | None => None end =
    Some (TPtr "struct cgroup")).
  rewrite (type_step _ _ _ _ off_cgroups), decl_css. exact (core_type_one _ _ _ _ off_dfl_cgrp).
Qed.

Lemma core_read_dfl_cgrp a css cg :
  u64_at (kmem (ks 0)) (a + task_cgroups lo) css →
  u64_at (kmem (ks 1)) (css + css_dfl_cgrp lo) cg →
  BPF_CORE_READ env kenv ks ty_task a (fld "cgroups") [fld "dfl_cgrp"] = Some cg.
Proof using HL.
  intros (l1 & H1 & <-) (l2 & H2 & <-).
  apply (read_value env kenv true Kernel ks ty_task a (fld "cgroups") [fld "dfl_cgrp"]
    (le_Z l1 + css_dfl_cgrp lo) (TPtr "struct cgroup") l2); [simpl; lia| |done].
  cbn [chase_addr place memory]. by rewrite off_cgroups, decl_css, H1, off_dfl_cgrp.
Qed.

(** [victim->pid]. *)
Lemma core_read_pid a l :
  kread (kmem (ks 0)) (a + task_pid lo) 4 = Some l →
  BPF_CORE_READ env kenv ks ty_task a (fld "pid") [] = Some (swrap 32 (le_Z l)).
Proof using HL. intros Hl. exact (core_read_one _ _ _ _ _ l off_pid Hl). Qed.

Lemma member_addr_spec reloc t src a o u :
  place kenv reloc t a = Some (o, u) →
  member_addr kenv reloc t src a = Some (wrap 64 (src + o), u).
Proof using. intros Ho. unfold member_addr. by rewrite Ho. Qed.

End helpers.

(** ** Memory that stays *)

Section holding.
Variables (m mem : Z → option byte).
Hypothesis Hm : holds m mem.

Lemma kread_holds a n l : kread m a n = Some l → kread mem a n = Some l.
Proof using Hm.
  revert a l. induction n as [|n IH]; intros a l; [done|]. cbn [kread]. intros Hr.
  destruct (m (wrap 64 a)) as [c|] eqn:Ec; [|done]. rewrite (Hm _ _ Ec).
  destruct (kread m (a + 1) n) as [l'|] eqn:El; [|done]. by rewrite (IH _ _ El).
Qed.

Lemma u64_holds a v : u64_at m a v → u64_at mem a v.
Proof using Hm. intros (l & Hl & Hv). exists l. split; [by apply kread_holds|done]. Qed.

Lemma c_string_holds a s : c_string m a s → c_string mem a s.
Proof using Hm. intros [Hs Hr]. split; [done|by apply kread_holds]. Qed.

Lemma kn_path_holds lo kn path : kn_path lo m kn path → kn_path lo mem kn path.
Proof using Hm.
  induction 1; [constructor|econstructor|econstructor];
    eauto using u64_holds, c_string_holds.
Qed.

Lemma cgroup_path_holds lo cg path : cgroup_path lo m cg path → cgroup_path lo mem cg path.
Proof using Hm. destruct 1; econstructor; eauto using u64_holds, kn_path_holds. Qed.

Lemma task_at_holds lo a tv : task_at lo m a tv → task_at lo mem a tv.
Proof using Hm.
  intros [(l & Hl & Hp) Hc (css & cg & H1 & H2 & H3)]. constructor.
  - exists l. split; [by apply kread_holds|done].
  - by apply c_string_holds.
  - exists css, cg. split_and!; [by apply u64_holds..|by apply cgroup_path_holds].
Qed.

Lemma oom_at_holds lo oc v : oom_at lo m oc v → oom_at lo mem oc v.
Proof using Hm.
  intros [Ht (p & Hp & Hv) (g & Hg & Hmg)]. constructor; [by apply u64_holds| |].
  - exists p. split; [by apply u64_holds|].
    destruct (v_victim v); [|done]. destruct Hv as (? & ? & ?). split_and!; [done..|].
    by apply task_at_holds.
  - exists g. split; [by apply u64_holds|]. destruct (v_memcg v); [|done].
    destruct Hmg as (? & cg & ? & ?). split; [done|]. exists cg.
    split; [by apply u64_holds|by apply cgroup_path_holds].
Qed.
End holding.

(** ** The ancestor walk *)

Section walking.
Context {K : Type} `{HK : BpfKernel K, HL : !BpfKernelLaws K}.
Variables (env kenv : list (string * ctype)) (lo : layout).
Context {HO : HasLayout env kenv lo}.

(** The states the program sees, and memory that all of them have. *)
Variables (ks : nat → K) (mem : Z → option byte).
Hypothesis Hmem : ∀ i, holds mem (kmem (ks i)).

Lemma seen_ptr i t src a o s v :
  relocate kenv t a = Some (o, TPtr s) → u64_at mem (src + o) v →
  BPF_CORE_READ env kenv (λ j, ks (i + j)%nat) t src a [] = Some v.
Proof using HL Hmem. intros Ho Hv. eapply core_read_ptr; [done|]. by eapply u64_holds. Qed.

Lemma bind_some {A B} (m : M A) (f : A → M B) e a e' :
  m e = Some (a, e') → (m ≫= f) e = f a e'.
Proof using. intros Hm. unfold mbind, M_bind. by rewrite Hm. Qed.

Lemma lift_some {A B} (o : option A) (f : A → M B) a e :
  o = Some a → (lift o ≫= f) e = f a e.
Proof using. by intros ->. Qed.

Lemma name_slots_nil n : name_slots n [] = replicate n (cfield 128 []).
Proof using. induction n; simpl; congruence. Qed.

Lemma walk_spec n i kn path e :
  shaped e → (n + i = 4)%nat → kn_path lo mem kn path →
  drop i (names e) = replicate n (cfield 128 []) →
  walk env kenv ks n (Z.of_nat i) kn (encode_event e) =
  Some ((), encode_event (set_names (take i (names e) ++ name_slots n path) e)).
Proof using HL HO Hmem.
  revert i kn path e. induction n as [|n IH]; intros i kn path e He Hn Hp Hd.
  - simpl. rewrite app_nil_r, take_ge by (destruct He; lia). by destruct e.
  - destruct Hp as [|kn up path Hkn Hnm Hup Hp|kn nm s up path Hkn Hnm Hnz Hstr Hup Hp];
      cbn [walk].
    + rewrite Z.eqb_refl, name_slots_nil, <- Hd, take_drop. by destruct e.
    + rewrite (proj2 (Z.eqb_neq _ _)) by done.
      erewrite lift_some by apply decl_kn.
      erewrite lift_some by (eapply seen_ptr; [apply off_name|done]).
      cbn [negb Z.eqb when]. erewrite bind_some by done.
      erewrite lift_some by (eapply seen_ptr; [apply off_parent|done]).
      replace (Z.of_nat i + 1) with (Z.of_nat (S i)) by lia.
      assert (Hi : names e !! i = Some (cfield 128 [])).
      { rewrite <- (Nat.add_0_r i), <- lookup_drop, Hd. done. }
      rewrite (IH (S i) up path);
        [|done|lia|done|by rewrite <- Nat.add_1_r, <- drop_drop, Hd].
      erewrite take_S_r by done. by rewrite <- app_assoc.
    + rewrite (proj2 (Z.eqb_neq _ _)) by done.
      erewrite lift_some by apply decl_kn.
      erewrite lift_some by (eapply seen_ptr; [apply off_name|done]).
      rewrite (proj2 (Z.eqb_neq nm _)) by done. cbn [negb when].
      assert (Hi : names e !! i = Some (cfield 128 [])).
      { rewrite <- (Nat.add_0_r i), <- lookup_drop, Hd. done. }
      assert (Hlt : (i < length (names e))%nat) by (by eapply lookup_lt_Some).
      assert (Hw : (rf_call (bpf_core_read_str Kernel) (ks (call_in_round (Z.of_nat i) 1)) (cfield 128 [])
                      (Z.of_nat (length (cfield 128 []))) nm).2 = cfield 128 s).
      { apply (probe_str_field _ 128); [lia|by eapply c_string_holds]. }
      erewrite bind_some by (apply into_name; [done|exact Hi|by rewrite Hw, length_cfield]).
      cbv beta. rewrite Hw. set (e1 := set_names _ e).
      erewrite lift_some by (eapply seen_ptr; [apply off_parent|done]).
      replace (Z.of_nat i + 1) with (Z.of_nat (S i)) by lia.
      assert (He1 : shaped e1).
      { destruct He as [? ? Hl Hf]. constructor; simpl; [done|done|by rewrite length_insert|].
        apply Forall_insert; [done|]. by rewrite length_cfield. }
      rewrite (IH (S i) up path); [|done|lia|done|subst e1; simpl;
        by rewrite drop_insert_lt, <- Nat.add_1_r, <- drop_drop, Hd by lia].
      subst e1. simpl. erewrite take_S_r by (by apply list_lookup_insert_eq).
      rewrite take_insert_ge by lia. by rewrite <- app_assoc.
Qed.
End walking.

(** ** The whole probe *)

Definition zero_event : event := {|
  victim_pid := 0; trigger_pid := 0; victim_comm := replicate 16 x00;
  trigger_comm := replicate 16 x00; totalpages := 0; global_oom := false;
  names := replicate 4 (cfield 128 []) |}.

Lemma memset_zero rec :
  length rec = 568%nat →
  memset0 (sizeof event_t) rec = Some ((), encode_event zero_event).
Proof.
  intros Hl. unfold memset0, write_at. rewrite sizeof_event.
  rewrite drop_ge by (rewrite length_replicate, Hl; lia).
  rewrite app_nil_r, take_0. vm_compute. reflexivity.
Qed.

Lemma shaped_zero : shaped zero_event.
Proof. constructor; try done. by apply Forall_replicate. Qed.

#[export] Hint Resolve shaped_zero : otdb.

Lemma shaped_set_victim_pid v e : shaped e → shaped (set_victim_pid v e).
Proof. intros []. by constructor. Qed.
Lemma shaped_set_trigger_pid v e : shaped e → shaped (set_trigger_pid v e).
Proof. intros []. by constructor. Qed.
Lemma shaped_set_totalpages v e : shaped e → shaped (set_totalpages v e).
Proof. intros []. by constructor. Qed.
Lemma shaped_set_global_oom v e : shaped e → shaped (set_global_oom v e).
Proof. intros []. by constructor. Qed.
Lemma shaped_set_victim_comm s e : shaped e → shaped (set_victim_comm (cfield 16 s) e).
Proof. intros []. constructor; [apply length_cfield|done..]. Qed.
Lemma shaped_set_trigger_comm s e : shaped e → shaped (set_trigger_comm (cfield 16 s) e).
Proof. intros []. constructor; [done|apply length_cfield|done..]. Qed.

#[export] Hint Resolve shaped_set_victim_pid shaped_set_trigger_pid shaped_set_totalpages
  shaped_set_global_oom shaped_set_victim_comm shaped_set_trigger_comm : otdb.

Section filling.
Context {K : Type} `{HK : BpfKernel K, HL : !BpfKernelLaws K}.
Variables (env kenv : list (string * ctype)) (lo : layout).
Context {HO : HasLayout env kenv lo}.

(** The states the program sees, all with memory [m] and the task of [k]. *)
Variables (ks : nat → K) (mem : Z → option byte) (k : K).
Hypothesis Hmem : ∀ i, holds mem (kmem (ks i)).
Hypothesis Hcomm : ∀ i, current_comm (ks i) = current_comm k.
Hypothesis Htgid : ∀ i, current_tgid (ks i) = current_tgid k.

(** The part of the body that reads the victim. *)
Lemma fill_victim p e (ov : option task_view) :
  shaped e → victim_comm e = replicate 16 x00 → victim_pid e = 0 →
  match ov with
  | Some tv => p ≠ 0 ∧ p ≠ minus_one ∧ task_at lo mem p tv
  | None => p = 0
  end →
  when (negb (p =? 0) && negb (p =? minus_one))
    (pid ← lift (BPF_CORE_READ env kenv (λ j, ks (4 + j)%nat) ty_task p (fld "pid") []);
     store (fld "victim_pid") pid;;
     comm ← lift (member_addr kenv true ty_task p (fld "comm"));
     read_str ks 5 (fld "victim_comm") comm.1) (encode_event e) =
  Some ((), encode_event
    (set_victim_comm (cfield 16 (match ov with Some tv => tv_comm tv | None => [] end))
      (set_victim_pid (match ov with Some tv => wrap 32 (tv_pid tv) | None => 0 end) e))).
Proof using HL HO Hmem.
  intros He Hc Hp Hv. destruct ov as [tv|].
  - destruct Hv as (H0 & H1 & [[l [Hl Hpid]] Hname _]).
    rewrite !(proj2 (Z.eqb_neq _ _)) by done. cbn [negb andb when].
    erewrite lift_some by (by eapply core_read_pid, kread_holds).
    erewrite bind_some by (by apply store_victim_pid).
    erewrite lift_some by (eapply (member_addr_spec _ true), off_comm).
    rewrite Hpid. set (e1 := set_victim_pid _ e).
    assert (Hw : (rf_call (bpf_core_read_str Kernel) (ks 5) (victim_comm e1)
                    (Z.of_nat (length (victim_comm e1)))
                    (wrap 64 (p + task_comm lo))).2 = cfield 16 (tv_comm tv)).
    { subst e1. simpl. rewrite Hc. apply probe_str_field; [lia|].
      by eapply c_string_wrap, c_string_holds. }
    unfold read_str. rewrite into_victim_comm.
    + cbn [fst]. by rewrite Hw.
    + by destruct He.
    + cbn [fst]. by rewrite Hw, length_cfield.
  - subst p. simpl. unfold mret, M_ret. destruct e; simpl in *. by subst.
Qed.

(** The part of the body that finds the cgroup node to start from. *)
Lemma start_node p m (v : oom_view) rec :
  match v_victim v with
  | Some tv => p ≠ 0 ∧ p ≠ minus_one ∧ task_at lo mem p tv
  | None => p = 0
  end →
  match v_memcg v with
  | Some path => m ≠ 0 ∧
      ∃ cg, u64_at mem (m + memcg_cgroup lo) cg ∧ cgroup_path lo mem cg path
  | None => m = 0
  end →
  ∃ kn, kn_path lo mem kn (view_path v) ∧
  (if negb (p =? 0) then
     dcg ← lift (BPF_CORE_READ env kenv (λ j, ks (7 + j)%nat) ty_task p (fld "cgroups") [fld "dfl_cgrp"]);
     if negb (dcg =? 0) then lift (BPF_CORE_READ env kenv (λ j, ks (9 + j)%nat) ty_cgroup dcg (fld "kn") [])
     else mret 0
   else if negb (m =? 0) then
     cg ← lift (BPF_CORE_READ env kenv (λ j, ks (10 + j)%nat) ty_memcg m [Dot "css"; Dot "cgroup"] []);
     if negb (cg =? 0) then lift (BPF_CORE_READ env kenv (λ j, ks (11 + j)%nat) ty_cgroup cg (fld "kn") [])
     else mret 0
   else mret 0) rec = Some (kn, rec).
Proof using HL HO Hmem.
  assert (Hcg : ∀ i cg path, cgroup_path lo mem cg path →
    ∃ kn, kn_path lo mem kn path ∧
      (if negb (cg =? 0) then lift (BPF_CORE_READ env kenv (λ j, ks (i + j)%nat) ty_cgroup cg (fld "kn") [])
       else mret 0) rec = Some (kn, rec)).
  { intros i cg path [|cg' kn path' Hnz Hkn Hp]; [exists 0; by split; [constructor|]|].
    exists kn. split; [done|]. rewrite (proj2 (Z.eqb_neq _ _)) by done. cbn [negb].
    unfold lift. by rewrite (seen_ptr env kenv ks mem Hmem i _ _ _ _ _ kn off_kn Hkn). }
  unfold view_path. intros Hv Hm. destruct (v_victim v) as [tv|].
  - destruct Hv as (H0 & _ & [_ _ (css & cg & Hcss & Hdfl & Hpath)]).
    destruct (Hcg 9%nat cg (tv_path tv) Hpath) as (kn & Hkn & Hrun). exists kn. split; [done|].
    rewrite (proj2 (Z.eqb_neq p _)) by done. cbn [negb].
    by erewrite lift_some by (by eapply core_read_dfl_cgrp; apply (u64_holds mem)).
  - subst p. cbn [Z.eqb negb]. destruct (v_memcg v) as [path|].
    + destruct Hm as (H0 & cg & Hc & Hpath).
      destruct (Hcg 11%nat cg path Hpath) as (kn & Hkn & Hrun). exists kn. split; [done|].
      rewrite (proj2 (Z.eqb_neq m _)) by done. cbn [negb].
      by erewrite lift_some by (eapply (seen_ptr _ _ _ _ Hmem); [apply off_cgroup|done]).
    + subst m. exists 0. by split; [constructor|].
Qed.

(** The body from the victim pointer on. *)
Definition after_totalpages (oc p : Z) : M unit :=
  when (negb (p =? 0) && negb (p =? minus_one))
    (pid ← lift (BPF_CORE_READ env kenv (λ j, ks (4 + j)%nat) ty_task p (fld "pid") []);
     store (fld "victim_pid") pid;;
     comm ← lift (member_addr kenv true ty_task p (fld "comm"));
     read_str ks 5 (fld "victim_comm") comm.1);;
  m ← lift (BPF_CORE_READ env kenv (λ j, ks (6 + j)%nat) ty_oc oc (fld "memcg") []);
  store (fld "global_oom") (if m =? 0 then 1 else 0);;
  kn ← (if negb (p =? 0) then
          dcg ← lift (BPF_CORE_READ env kenv (λ j, ks (7 + j)%nat) ty_task p (fld "cgroups") [fld "dfl_cgrp"]);
          if negb (dcg =? 0) then lift (BPF_CORE_READ env kenv (λ j, ks (9 + j)%nat) ty_cgroup dcg (fld "kn") [])
          else mret 0
        else if negb (m =? 0) then
          cg ← lift (BPF_CORE_READ env kenv (λ j, ks (10 + j)%nat) ty_memcg m [Dot "css"; Dot "cgroup"] []);
          if negb (cg =? 0) then lift (BPF_CORE_READ env kenv (λ j, ks (11 + j)%nat) ty_cgroup cg (fld "kn") [])
          else mret 0
        else mret 0);
  walk env kenv ks 4 0 kn.

(** The record when the victim is looked at. *)
Definition trigger_event (tot : Z) : event :=
  set_totalpages tot (set_trigger_comm (cfield 16 (current_comm k))
    (set_trigger_pid (current_tgid k) zero_event)).

Lemma shaped_trigger_event tot : shaped (trigger_event tot).
Proof using. unfold trigger_event. eauto with otdb. Qed.
Hint Resolve shaped_trigger_event : otdb.

Lemma fill_event_start oc tot p rec :
  length rec = 568%nat →
  u64_at mem (oc + built_totalpages) tot →
  u64_at mem (oc + oc_chosen lo) p →
  fill_event env kenv ks oc rec = after_totalpages oc p (encode_event (trigger_event tot)).
Proof using HL Hmem Hcomm Htgid.
  intros Hrec (lt & Hlt & Htot) Hp. unfold fill_event.
  erewrite lift_some by apply decl_oc. erewrite lift_some by apply decl_task.
  erewrite lift_some by apply decl_cgroup. erewrite lift_some by apply decl_memcg.
  erewrite bind_some by (by apply memset_zero).
  erewrite bind_some by apply store_trigger_pid.
  erewrite bind_some by (apply into_trigger_comm;
    [eauto with otdb|by rewrite get_current_comm_length]).
  rewrite pid_tgid_shift, (wrap_small 32) by apply (pid_tgid_spec (ks 0)).
  rewrite Htgid. change (trigger_comm (set_trigger_pid _ _)) with (replicate 16 x00).
  rewrite length_replicate, get_current_comm_spec, Hcomm by lia. cbn [snd].
  erewrite lift_some by (eapply (member_addr_spec _ false), off_built).
  erewrite bind_some by (apply into_totalpages with (l := lt);
    [eauto with otdb
    |cbn [fst]; erewrite (reads_ok _ _ (reads_kernel (ks 2)));
      [done|rewrite kread_wrap; by eapply kread_holds]
    |by eapply kread_length]).
  rewrite Htot.
  by erewrite lift_some by (eapply (seen_ptr _ _ _ _ Hmem); [apply off_chosen|done]).
Qed.

Lemma fill_event_spec oc v tot rec :
  length rec = 568%nat → oom_at lo mem oc v →
  u64_at mem (oc + built_totalpages) tot →
  fill_event env kenv ks oc rec =
    Some ((), encode_event (set_totalpages tot (spec_event k v))).
Proof using HL HO Hmem Hcomm Htgid.
  intros Hrec [_ (p & Hp & Hv) (m & Hm & Hmv)] Htot.
  rewrite (fill_event_start oc tot p) by done. unfold after_totalpages.
  erewrite bind_some by (apply (fill_victim p _ (v_victim v)); eauto with otdb).
  erewrite lift_some by (eapply (seen_ptr _ _ _ _ Hmem); [apply off_memcg|done]).
  assert ((m =? 0) = bool_decide (v_memcg v = None)) as Hb.
  { destruct (v_memcg v); [destruct Hmv as [Hnz _]; by apply Z.eqb_neq|by subst m]. }
  erewrite bind_some by (apply store_global_oom; eauto with otdb).
  set (e := set_global_oom _ _).
  destruct (start_node p m v (encode_event e) Hv Hmv) as (kn & Hkn & Hrun).
  erewrite bind_some by exact Hrun.
  rewrite (walk_spec env kenv lo ks mem Hmem 4 0 kn (view_path v)); [subst e; by rewrite Hb| |done..].
  subst e. eauto with otdb.
Qed.

(** A read in the unmapped page yields a null pointer. *)
Lemma core_read_dfl_cgrp_aborted `{!ZeroesOnFault K} (ks1 : nat → K) :
  (∀ i a, 0 <= a < 4096 → kmem (ks1 i) a = None) →
  0 < task_cgroups lo <= 4096 → 0 <= css_dfl_cgrp lo < 4096 →
  BPF_CORE_READ env kenv ks1 ty_task minus_one (fld "cgroups") [fld "dfl_cgrp"] = Some 0.
Proof using HL HO.
  clear Hmem Hcomm Htgid.
  intros Hpage Hc Hd.
  assert (Hfault : ∀ i n a, 0 <= wrap 64 a < 4096 →
    kread (kmem (ks1 i)) (wrap 64 a) (S n) = None).
  { intros i n a Ha. rewrite kread_wrap. simpl. by rewrite Hpage. }
  assert (Hw : wrap 64 (minus_one + task_cgroups lo) = task_cgroups lo - 1).
  { unfold wrap, minus_one.
    replace (2 ^ 64 - 1 + task_cgroups lo) with (task_cgroups lo - 1 + 1 * 2 ^ 64) by lia.
    rewrite Z.mod_add by lia. apply Z.mod_small. lia. }
  unfold BPF_CORE_READ, READ, READ_INTO. cbn [narg_ok length Nat.leb].
  rewrite (dfl_cgrp_type env kenv lo). cbv zeta. rewrite core_read_left.
  cbn [read_left]. unfold ___rd. rewrite (type_step _ _ _ _ _ _ off_cgroups), decl_css.
  rewrite (read_core _ _ _ _ _ _ _ _ off_cgroups).
  destruct (probe_read_kernel (ks1 0%nat) (undef (ks1 0%nat) 8) _ _) as [r1 l1] eqn:E1. cbn [fst snd].
  apply (f_equal snd) in E1. cbn [snd] in E1.
  rewrite (probe_read_fault (ks1 0%nat) (undef (ks1 0%nat) 8)) in E1 by (rewrite undef_length; apply Hfault; lia).
  rewrite (read_core _ _ _ _ _ _ _ _ off_dfl_cgrp).
  destruct (probe_read_kernel (ks1 1%nat) (undef (ks1 0%nat) _) _ _) as [r2 l2] eqn:E2.
  apply (f_equal snd) in E2. cbn [snd] in E2. subst l1.
  rewrite probe_read_fault in E2; [by rewrite <- E2, undef_length|].
  rewrite !undef_length. apply Hfault. change (le_Z (replicate 8 x00)) with 0.
  rewrite wrap_small by lia. lia.
Qed.

(** An aborted scan: the victim pointer is -1 and the page at address 0 is not
    mapped. *)
Lemma fill_event_aborted `{!ZeroesOnFault K} oc tot m rec :
  length rec = 568%nat →
  (∀ i a, 0 <= a < 4096 → kmem (ks i) a = None) →
  0 < task_cgroups lo <= 4096 → 0 <= css_dfl_cgrp lo < 4096 →
  u64_at mem (oc + built_totalpages) tot →
  u64_at mem (oc + oc_chosen lo) minus_one →
  u64_at mem (oc + oc_memcg lo) m →
  fill_event env kenv ks oc rec =
    Some ((), encode_event (set_global_oom (m =? 0) (trigger_event tot))).
Proof using HL HO Hmem Hcomm Htgid.
  intros Hrec Hpage Hc Hd Htot Hp Hm.
  rewrite (fill_event_start oc tot minus_one) by done. unfold after_totalpages.
  rewrite Z.eqb_refl, andb_false_r. cbn [when].
  erewrite bind_some by reflexivity.
  erewrite lift_some by (eapply (seen_ptr _ _ _ _ Hmem); [apply off_memcg|done]).
  erewrite bind_some by (apply store_global_oom; eauto with otdb).
  change (negb (minus_one =? 0)) with true. cbv iota.
  erewrite bind_some by (by erewrite lift_some by
    (apply core_read_dfl_cgrp_aborted; [intros i; apply Hpage|done|done])).
  done.
Qed.
End filling.

(** ** Totality *)

Section total.
Context {K : Type} `{HK : BpfKernel K, HL : !BpfKernelLaws K}.
Variables (env kenv : list (string * ctype)) (lo : layout).
Context {HO : HasLayout env kenv lo}.
Variable ks : nat → K.

(** The command succeeds on any record and keeps its size. *)
Definition keeps {A} (m : M A) : Prop :=
  ∀ e, length e = 568%nat → ∃ a e', m e = Some (a, e') ∧ length e' = 568%nat.

Lemma keeps_ret {A} (a : A) : keeps (mret a).
Proof using. intros e He. by exists a, e. Qed.

Lemma keeps_bind {A B} (m : M A) (f : A → M B) :
  keeps m → (∀ a, keeps (f a)) → keeps (m ≫= f).
Proof using.
  intros Hm Hf e He. destruct (Hm e He) as (a & e' & Hr & He').
  rewrite (bind_some m f e a e') by done. by apply Hf.
Qed.

Lemma keeps_lift {A} (o : option A) : is_Some o → keeps (lift o).
Proof using. intros [a ->] e He. by exists a, e. Qed.

Lemma keeps_when c m : keeps m → keeps (when c m).
Proof using. intros. destruct c; [done|apply keeps_ret]. Qed.

(** A field access stays inside the record, by the layout of [struct event]. *)
Lemma keeps_field acc o t (d : list byte → list byte) :
  offsetof event_t acc = Some (o, t) →
  (∀ dst, length dst = Z.to_nat (sizeof t) → length (d dst) = Z.to_nat (sizeof t)) →
  ∀ e, length e = 568%nat →
  length (write_at (Z.to_nat o) (d (slice (Z.to_nat o) (Z.to_nat (sizeof t)) e)) e) = 568%nat.
Proof using.
  intros Ho Hd e He. destruct (offsetof_placed event_t acc o t eq_refl Ho) as (H0 & Hn & H1 & _).
  rewrite sizeof_event in H1.
  assert (length (slice (Z.to_nat o) (Z.to_nat (sizeof t)) e) = Z.to_nat (sizeof t)) as Hs
    by (unfold slice; len).
  rewrite length_write_at; rewrite ?(Hd _ Hs); lia.
Qed.

Lemma keeps_into acc f :
  is_Some (offsetof event_t acc) → (∀ dst, length (f dst) = length dst) →
  keeps (into acc f).
Proof using.
  intros [[o t] Ho] Hf e He. unfold into. rewrite Ho. do 2 eexists. split; [done|].
  apply (keeps_field acc o t f); try done. intros dst <-. apply Hf.
Qed.

Lemma keeps_store acc v : is_Some (offsetof event_t acc) → keeps (store acc v).
Proof using.
  intros [[o t] Ho] e He. unfold store. rewrite Ho. do 2 eexists. split; [done|].
  apply (keeps_field acc o t (λ _, le_bytes (Z.to_nat (sizeof t)) v)); try done.
  intros. by rewrite length_le_bytes.
Qed.

Lemma keeps_memset : keeps (memset0 (sizeof event_t)).
Proof using.
  intros e He. rewrite (memset_zero e He). do 2 eexists. split; [done|].
  apply length_encode, shaped_zero.
Qed.

Lemma core_read_total1 (ks1 : nat → K) t src a :
  is_Some (relocate kenv t a) → is_Some (BPF_CORE_READ env kenv ks1 t src a []).
Proof using.
  intros [[o u] Ho]. unfold BPF_CORE_READ, READ, narg_ok. cbn [length Nat.leb]. rewrite (core_type_one _ _ _ _ _ _ Ho).
  unfold READ_INTO, narg_ok. cbn [length Nat.leb ___core_read]. cbv zeta.
  rewrite (read_core _ _ _ _ _ _ _ _ Ho). case_match. eauto.
Qed.

Lemma core_read_total_dfl (ks1 : nat → K) src :
  is_Some (BPF_CORE_READ env kenv ks1 ty_task src (fld "cgroups") [fld "dfl_cgrp"]).
Proof using HO.
  unfold BPF_CORE_READ, READ, READ_INTO. cbn [narg_ok length Nat.leb].
  rewrite (dfl_cgrp_type env kenv lo). cbv zeta. rewrite core_read_left.
  cbn [read_left]. unfold ___rd. rewrite (type_step _ _ _ _ _ _ off_cgroups), decl_css.
  rewrite (read_core _ _ _ _ _ _ _ _ off_cgroups). destruct (probe_read_kernel _ _ _ _).
  cbn [read_left fst snd]. rewrite (read_core _ _ _ _ _ _ _ _ off_dfl_cgrp). case_match. eauto.
Qed.

Hint Resolve keeps_ret keeps_bind keeps_lift keeps_when keeps_into keeps_store
  keeps_memset core_read_total1 core_read_total_dfl : otdb.

Lemma keeps_walk n i kn : (n + i <= 4)%nat → keeps (walk env kenv ks n (Z.of_nat i) kn).
Proof using HL HO.
  revert i kn. induction n as [|n IH]; intros i kn Hn; cbn [walk]; [apply keeps_ret|].
  destruct (kn =? 0); [apply keeps_ret|].
  intros e He. erewrite lift_some by apply decl_kn. revert e He.
  apply keeps_bind; [apply keeps_lift, core_read_total1; rewrite off_name; eauto|intros nm].
  apply keeps_bind.
  { apply keeps_when, keeps_into; [|intros; apply (string_length _ _ (reads_kernel_str _))].
    destruct i as [|[|[|[|i]]]]; [vm_compute; eauto..|lia]. }
  intros _. apply keeps_bind;
    [apply keeps_lift, core_read_total1; rewrite off_parent; eauto|intros up].
  replace (Z.of_nat i + 1) with (Z.of_nat (S i)) by lia. apply IH. lia.
Qed.

Lemma keeps_fill_event oc : keeps (fill_event env kenv ks oc).
Proof using HL HO.
  intros e He. unfold fill_event.
  erewrite lift_some by apply decl_oc. erewrite lift_some by apply decl_task.
  erewrite lift_some by apply decl_cgroup. erewrite lift_some by apply decl_memcg.
  revert e He.
  apply keeps_bind; [apply keeps_memset|intros _].
  apply keeps_bind; [by apply keeps_store|intros _].
  apply keeps_bind; [apply keeps_into; [done|intros; apply get_current_comm_length]|intros _].
  apply keeps_bind; [apply keeps_lift; unfold member_addr, place; rewrite off_built; eauto|].
  intros tot. apply keeps_bind; [apply keeps_into; [done|intros; apply (reads_length _ _ (reads_kernel _))]|intros _].
  apply keeps_bind; [apply keeps_lift, core_read_total1; rewrite off_chosen; eauto|intros p].
  apply keeps_bind.
  { apply keeps_when, keeps_bind;
      [apply keeps_lift, core_read_total1; rewrite off_pid; eauto|intros pid].
    apply keeps_bind; [by apply keeps_store|intros _].
    apply keeps_bind; [apply keeps_lift; unfold member_addr, place; rewrite off_comm; eauto|intros cm].
    apply keeps_into; [done|intros; apply (string_length _ _ (reads_kernel_str _))]. }
  intros _.
  apply keeps_bind; [apply keeps_lift, core_read_total1; rewrite off_memcg; eauto|intros m].
  apply keeps_bind; [by apply keeps_store|intros _].
  assert (Hkn : ∀ i cg, keeps (if negb (cg =? 0)
    then lift (BPF_CORE_READ env kenv (λ j, ks (i + j)%nat) ty_cgroup cg (fld "kn") []) else mret 0)).
  { intros i cg. destruct (negb (cg =? 0)); [|apply keeps_ret].
    apply keeps_lift, core_read_total1. rewrite off_kn. eauto. }
  apply keeps_bind; [|intros kn; by apply (keeps_walk 4 0)].
  destruct (negb (p =? 0)); [|destruct (negb (m =? 0)); [|apply keeps_ret]].
  - apply keeps_bind; [apply keeps_lift, core_read_total_dfl|apply Hkn].
  - apply keeps_bind; [|apply Hkn]. apply keeps_lift, core_read_total1.
    rewrite off_cgroup. eauto.
Qed.
End total.
