(* ===== verification/OomKillProps.v ===== *)
(** * What the OOM probe promises

    The theorems about [oomkill.c] as the two shipped programs run it: the
    submitted record is the encoding of the event that the OOM situation in
    kernel memory describes ([probe_refines]), on any kernel memory, changing or not, the program
    terminates, returns 0 and leaves no reservation behind ([probe_total]), the
    records' fields are where the C declaration puts them ([event_layout]), the
    page limit is not relocated ([totalpages_not_relocated]), and an aborted
    scan loses the cgroup names ([aborted_scan_names]).  The theorems hold on
    any kernel with the members the programs read; the witnesses apply them to
    the kernel of [SimKernel], with the types of the builds or of a later kernel. *)
From S2P Require Import Prelude CTypes BpfTracing BpfCoreRead BpfCoreQuery SimKernel OomKill OomKillCorrect.

(** ** The record format *)

(** The members of [struct event] by name, with the bytes that represent each one. *)
Definition event_fields (e : event) : list (string * list byte) := [
  ("victim_pid", le_bytes 4 (victim_pid e));
  ("trigger_pid", le_bytes 4 (trigger_pid e));
  ("victim_comm", victim_comm e);
  ("trigger_comm", trigger_comm e);
  ("totalpages", le_bytes 8 (totalpages e));
  ("global_oom", [if global_oom e then x01 else x00]);
  ("names", concat (names e)) ]%string.

Ltac field_slice p x :=
  match goal with |- ∃ o t, offsetof ?u ?a = _ ∧ _ =>
    let r := eval vm_compute in (offsetof u a) in
    match r with Some (?o, ?t) => exists o, t; split; [reflexivity|] end
  end;
  match goal with |- slice ?o ?n ?l = _ =>
    let E := fresh in
    eassert (l = p ++ x ++ _) as E by (rewrite <- ?app_assoc; reflexivity);
    etransitivity; [exact (f_equal (slice o n) E)|apply slice_app; field_len]
  end.

(** C24. The bytes of a record are those of the C struct: [encode_event] has the
    size of [struct event], and the compiler's layout finds in it, at each
    member's offset and over the member's size, exactly the member's bytes. *)
Theorem event_layout e x bytes :
  wf_event e → (x, bytes) ∈ event_fields e →
  Z.of_nat (length (encode_event e)) = sizeof event_t ∧
  ∃ o t, offsetof event_t (fld x) = Some (o, t) ∧
    slice (Z.to_nat o) (Z.to_nat (sizeof t)) (encode_event e) = bytes.
Proof.
  intros Hw Hin. split; [by rewrite length_encode by eauto with otdb|].
  destruct Hw as [_ _ H1 H2 _ H3 H4%length_concat_const]. rewrite H3 in H4.
  unfold encode_event, event_fields in *.
  set (p1 := le_bytes 4 (victim_pid e)). set (p2 := le_bytes 4 (trigger_pid e)).
  set (p5 := le_bytes 8 (totalpages e)). set (p6 := [if global_oom e then x01 else x00]).
  assert (length p1 = 4 ∧ length p2 = 4 ∧ length p5 = 8 ∧ length p6 = 1)%nat as (?&?&?&?)
    by (repeat split; apply length_le_bytes).
  set_unfold in Hin.
  destruct Hin as [?|[?|[?|[?|[?|[?|[?|[]]]]]]]]; simplify_eq.
  - field_slice (@nil byte) p1.
  - field_slice p1 p2.
  - field_slice (p1 ++ p2) (victim_comm e).
  - field_slice (p1 ++ p2 ++ victim_comm e) (trigger_comm e).
  - field_slice (p1 ++ p2 ++ victim_comm e ++ trigger_comm e) p5.
  - field_slice (p1 ++ p2 ++ victim_comm e ++ trigger_comm e ++ p5) p6.
  - field_slice (p1 ++ p2 ++ victim_comm e ++ trigger_comm e ++ p5 ++ p6) (concat (names e)).
Qed.

(** ** Attachment: the probed function's argument *)

(** Where the first argument register is saved in the probe's context. *)
Definition arg_offset (a : arch) : nat := match a with amd64 => 112 | arm64 => 0 end.

Definition oc_arg (a : arch) (ctx : list byte) : Z := le_Z (slice (arg_offset a) 8 ctx).

Lemma probe_runs {K} `{HK : BpfKernel K} u a kenv meantime (k : K) ctx :
  kprobe__oom_kill_process u (shipped a) kenv meantime k ctx =
  oom_kill_process (b_headers (shipped a)) kenv meantime k (oc_arg a ctx).
Proof.
  unfold kprobe__oom_kill_process. change (BPF_KPROBE ["oc"%string]) with (Some [Ctx; Reg PARM1]).
  cbv iota. unfold oc_arg, arg_offset. by destruct a.
Qed.

(** The members the probe reads, with their offsets and types. *)
Definition probe_members (lo : layout) : list (string * list step * Z * ctype) := [
  ("struct oom_control", fld "totalpages", oc_totalpages lo, TInt IULong);
  ("struct oom_control", fld "chosen", oc_chosen lo, TPtr "struct task_struct");
  ("struct oom_control", fld "memcg", oc_memcg lo, TPtr "struct mem_cgroup");
  ("struct task_struct", fld "pid", task_pid lo, TInt IInt);
  ("struct task_struct", fld "comm", task_comm lo, TArr (TInt IChar) TASK_COMM_LEN);
  ("struct task_struct", fld "cgroups", task_cgroups lo, TPtr "struct css_set");
  ("struct css_set", fld "dfl_cgrp", css_dfl_cgrp lo, TPtr "struct cgroup");
  ("struct cgroup", fld "kn", cgroup_kn lo, TPtr "struct kernfs_node");
  ("struct mem_cgroup", [Dot "css"; Dot "cgroup"], memcg_cgroup lo, TPtr "struct cgroup");
  ("struct kernfs_node", fld "name", kn_name lo, TPtr "char");
  ("struct kernfs_node", fld "parent", kn_parent lo, TPtr "struct kernfs_node") ]%string.

(** The headers [env] have the member at its place. *)
Definition has_member (env : list (string * ctype)) (m : string * list step * Z * ctype) : Prop :=
  let '(s, p, o, t) := m in
  ∃ ct, pointee_in env s = Some ct ∧ wf_ctype ct = true ∧ offsetof ct p = Some (o, t) ∧
    o + sizeof t <= sizeof ct.

Ltac member_placed :=
  eexists; split; [reflexivity|];
  split; [vm_compute; reflexivity|split; [vm_compute; reflexivity|vm_compute; discriminate]].

Lemma shipped_members a : Forall (has_member (b_headers (shipped a))) (probe_members (layout_of a)).
Proof. destruct a; repeat (constructor; [member_placed|]); constructor. Qed.

(** C33. What the shipped programs take from their headers.  The probe's [oc] is the
    saved first argument register of the probed function: on x86-64 the eight
    bytes of [di] at offset 112 of the kernel's [pt_regs], on arm64 those of
    [regs[0]] at the start of [user_pt_regs], read as a little-endian 64-bit
    number.  And the kernel headers each program is built with put the members
    the probe reads at the offsets of its layout (those of the shipped object
    files: the task's name at 3032 on x86-64 and at 2136 on arm64, say), with the
    types the program relies on, inside the structs they are members of. *)
Theorem shipped_offsets sp a :
  (∀ ctx, kprobe_arg sp (shipped a) PARM1 ctx = Some (oc_arg a ctx)) ∧
  ∀ s p o t, (s, p, o, t) ∈ probe_members (layout_of a) →
    ∃ ct, pointee_in (b_headers (shipped a)) s = Some ct ∧ wf_ctype ct = true ∧
      offsetof ct p = Some (o, t) ∧ o + sizeof t <= sizeof ct.
Proof.
  split; [by destruct a|]. intros s p o t Hin.
  pose proof (shipped_members a) as H. rewrite Forall_forall in H. apply (H _ Hin).
Qed.

(** ** The submitted record *)

Section probe.
Context {K : Type} `{HK : BpfKernel K, HL : !BpfKernelLaws K}.

Lemma reserve_event k e k1 :
  ringbuf_reserve k (sizeof event_t) 0 = (Some e, k1) →
  length e = 568%nat ∧ same_but_ringbuf k k1 ∧
  submitted k1 = submitted k ∧ outstanding k1 = S (outstanding k).
Proof using HL.
  intros (He & Hrest)%reserve_some. rewrite sizeof_event in He. split; [lia|done].
Qed.

(** A run whose body succeeds on the reserved record. *)
Lemma run_reserved env kenv meantime k e k1 oc e' :
  ringbuf_reserve k (sizeof event_t) 0 = (Some e, k1) →
  fill_event env kenv (λ i, meantime i k1) oc e = Some ((), e') →
  let k2 := meantime last_call k1 in
  ∃ k', oom_kill_process env kenv meantime k oc = Some (0, k') ∧
    submitted k' = submitted k2 ++ [e'] ∧ outstanding k' = pred (outstanding k2) ∧
    same_but_ringbuf k2 k'.
Proof using HL.
  intros Hr Hf k2. destruct (submit_spec k2 e' 0) as (Hs & Hsub & Hout).
  exists (ringbuf_submit k2 e' 0). unfold oom_kill_process. by rewrite Hr, Hf.
Qed.

(** An undisturbed one. *)
Lemma run_undisturbed env kenv mem meantime k e k1 oc e' :
  undisturbed mem meantime k →
  ringbuf_reserve k (sizeof event_t) 0 = (Some e, k1) →
  fill_event env kenv (λ i, meantime i k1) oc e = Some ((), e') →
  ∃ k', oom_kill_process env kenv meantime k oc = Some (0, k') ∧
    submitted k' = submitted k ++ [e'] ∧ outstanding k' = outstanding k ∧
    same_but_ringbuf (meantime last_call k1) k'.
Proof using HL.
  intros Hu Hr Hf. destruct (reserve_event k e k1 Hr) as (_ & _ & Hsub & Hout).
  destruct (run_reserved env kenv meantime k e k1 oc e' Hr Hf) as (k' & ? & Hs' & Ho' & ?).
  pose proof (un_submitted _ _ _ Hu last_call) as Hs.
  pose proof (un_outstanding _ _ _ Hu last_call) as Ho.
  unfold reserved in Hs, Ho. rewrite Hr in Hs, Ho. cbn [snd] in Hs, Ho.
  exists k'. split_and!; [done|by rewrite Hs', Hs, Hsub|by rewrite Ho', Ho, Hout|done].
Qed.
End probe.

Lemma length_name_slots n path : length (name_slots n path) = n.
Proof. revert path. induction n; intros [|]; simpl; auto. Qed.

Lemma name_slots_length n path :
  Forall (λ s, length s = 128%nat) (name_slots n path).
Proof.
  revert path. induction n as [|n IH]; intros [|o path]; simpl;
    constructor; try apply length_cfield; apply IH.
Qed.

Lemma wf_spec_event {K} `{HK : BpfKernel K, HL : !BpfKernelLaws K} lo mem (k : K) oc v :
  oom_at lo mem oc v → wf_event (spec_event k v).
Proof.
  intros [(l & Hl & Htot) _ _]. constructor; unfold spec_event; cbn [victim_pid trigger_pid victim_comm trigger_comm totalpages names].
  - destruct (v_victim v); [apply wrap_range|]; lia.
  - apply (pid_tgid_spec k).
  - apply length_cfield.
  - apply length_cfield.
  - apply kread_length in Hl. rewrite <- Htot.
    pose proof (le_Z_bound l) as Hb. by rewrite Hl in Hb.
  - apply length_name_slots.
  - apply name_slots_length.
Qed.

(** The offset of [totalpages] that is compiled into the programs. *)
Lemma built_shipped a kenv lo (HO : HasLayout (b_headers (shipped a)) kenv lo) :
  built_totalpages = oc_totalpages (layout_of a).
Proof.
  pose proof (@decl_oc _ _ _ HO) as Hd. pose proof (@off_built _ _ _ HO) as Ho.
  set (built := @built_totalpages _ _ _ HO) in *. clearbody built.
  destruct a; apply (inj Some) in Hd; rewrite <- Hd in Ho; vm_compute in Ho;
    by injection Ho as <-.
Qed.

(** A run of a shipped program on any kernel it can be relocated to. *)
Lemma probe_run {K} `{HK : BpfKernel K, HL : !BpfKernelLaws K} u a kenv lo
    {HO : HasLayout (b_headers (shipped a)) kenv lo} mem meantime (k : K) ctx v tot e k1 :
  undisturbed mem meantime k → oom_at lo mem (oc_arg a ctx) v →
  u64_at mem (oc_arg a ctx + oc_totalpages (layout_of a)) tot →
  ringbuf_reserve k (sizeof event_t) 0 = (Some e, k1) →
  ∃ k', kprobe__oom_kill_process u (shipped a) kenv meantime k ctx = Some (0, k') ∧
    submitted k' = submitted k ++ [encode_event (set_totalpages tot (spec_event k v))] ∧
    outstanding k' = outstanding k ∧ same_but_ringbuf (meantime last_call k1) k'.
Proof.
  intros Hu Hv Ht Hr. rewrite probe_runs.
  eapply run_undisturbed; [done..|]. rewrite <- (built_shipped a kenv lo HO) in Ht.
  destruct (reserve_event k e k1 Hr) as (He & _). destruct Hu as [_ Hm Hc Hg _ _].
  unfold reserved in *. rewrite Hr in *.
  by apply (fill_event_spec _ _ lo) with (mem := mem).
Qed.

(** C5. Refinement of the event specification by both shipped programs, on every
    kernel that has the members they read, wherever its structs place them
    ([totalpages] excepted), which goes on while they run: when memory that stays
    for the run holds an OOM situation at the probed function's argument, the
    current task remains the same and the ring buffer has room, the program
    returns 0 and appends one record to what the reader sees, the encoding of
    the well-formed event that describes the situation (victim, trigger, page
    limit, scope and the first four cgroup names leaf first), and changes
    nothing else.  What the kernel does elsewhere between any two reads does not
    matter. *)
Theorem probe_refines {K} `{HK : BpfKernel K, HL : !BpfKernelLaws K} u a kenv lo
    {HO : HasLayout (b_headers (shipped a)) kenv lo} mem meantime (k : K) ctx v e k1 :
  oc_totalpages lo = oc_totalpages (layout_of a) →
  undisturbed mem meantime k → oom_at lo mem (oc_arg a ctx) v →
  ringbuf_reserve k (sizeof event_t) 0 = (Some e, k1) →
  wf_event (spec_event k v) ∧
  ∃ k', kprobe__oom_kill_process u (shipped a) kenv meantime k ctx = Some (0, k') ∧
    submitted k' = submitted k ++ [encode_event (spec_event k v)] ∧
    outstanding k' = outstanding k ∧ same_but_ringbuf (meantime last_call k1) k'.
Proof.
  intros Hlo Hu Hv Hr. split; [by eapply wf_spec_event|].
  apply (probe_run u a kenv lo mem meantime k ctx v (v_totalpages v) e k1); [done..| |done].
  rewrite <- Hlo. by destruct Hv.
Qed.

(** C37. The page limit is read at the offset the program was compiled with, while
    every other member is found where the running kernel has it: on a kernel
    that moved [totalpages] within [oom_control], the record is the event's but
    for [totalpages], which is whatever eight bytes lie at the old offset. *)
Theorem totalpages_not_relocated {K} `{HK : BpfKernel K, HL : !BpfKernelLaws K} u a kenv lo
    {HO : HasLayout (b_headers (shipped a)) kenv lo} mem meantime (k : K) ctx v tot e k1 :
  undisturbed mem meantime k → oom_at lo mem (oc_arg a ctx) v →
  u64_at mem (oc_arg a ctx + oc_totalpages (layout_of a)) tot →
  ringbuf_reserve k (sizeof event_t) 0 = (Some e, k1) →
  ∃ k' ev, kprobe__oom_kill_process u (shipped a) kenv meantime k ctx = Some (0, k') ∧
    submitted k' = submitted k ++ [encode_event ev] ∧
    totalpages ev = tot ∧ set_totalpages (v_totalpages v) ev = spec_event k v.
Proof.
  intros Hu Hv Ht Hr.
  destruct (probe_run u a kenv lo mem meantime k ctx v tot e k1 Hu Hv Ht Hr)
    as (k' & Hrun & Hsub & _).
  exists k'. eexists. by split_and!.
Qed.

(** The kernel after a complete run, against [k2], the one in which the program submits its
    record, if there was room for one: the record, of the size of [struct event],
    is submitted, the reservation closed, and nothing else different; without
    room nothing is, from the start of the run. *)
Definition completed {K} `{BpfKernel K} (k k2 k' : K) (room : bool) : Prop :=
  if room then
    same_but_ringbuf k2 k' ∧
    outstanding (reserved k) = S (outstanding k) ∧ outstanding k' = pred (outstanding k2) ∧
    ∃ r, submitted k' = submitted k2 ++ [r] ∧ Z.of_nat (length r) = sizeof event_t
  else same_but_ringbuf k k' ∧ outstanding k' = outstanding k ∧ submitted k' = submitted k.

(** The program runs to its end, with or without room for its record. *)
Lemma probe_completes {K} `{HK : BpfKernel K, HL : !BpfKernelLaws K} u a kenv lo
    {HO : HasLayout (b_headers (shipped a)) kenv lo} meantime (k : K) ctx :
  ∃ k', kprobe__oom_kill_process u (shipped a) kenv meantime k ctx = Some (0, k') ∧
    completed k (meantime last_call (reserved k)) k'
      (bool_decide (is_Some (ringbuf_reserve k (sizeof event_t) 0).1)).
Proof.
  rewrite probe_runs. unfold completed, reserved.
  destruct (ringbuf_reserve k (sizeof event_t) 0) as [[e|] k1] eqn:Hr; cbn [fst snd].
  - destruct (reserve_event k e k1 Hr) as (He & _ & _ & Hout).
    destruct (keeps_fill_event _ kenv lo (λ i, meantime i k1) (oc_arg a ctx) e He)
      as ([] & e' & Hf & He').
    destruct (run_reserved _ kenv meantime k e k1 _ e' Hr Hf) as (k' & ? & ? & ? & ?).
    exists k'. rewrite bool_decide_eq_true_2 by eauto. split_and!; [done..|].
    exists e'. by rewrite He'.
  - exists k1. unfold oom_kill_process. rewrite Hr. apply reserve_null in Hr as (?&?&?).
    rewrite bool_decide_eq_false_2 by (by intros [??]). done.
Qed.

(** C6. Totality on every kernel that has the members the program reads, whatever
    its memory holds, readable or not, and however all of it changes while the
    program runs: the program returns 0; without room in the ring buffer nothing
    is submitted, with room exactly one record of the size of [struct event] is,
    and in both cases it leaves no reservation open and changes nothing else. *)
Theorem probe_total {K} `{HK : BpfKernel K, HL : !BpfKernelLaws K} u a kenv lo
    {HO : HasLayout (b_headers (shipped a)) kenv lo} meantime (k : K) ctx :
  ∃ k', kprobe__oom_kill_process u (shipped a) kenv meantime k ctx = Some (0, k') ∧
    completed k (meantime last_call (reserved k)) k'
      (bool_decide (is_Some (ringbuf_reserve k (sizeof event_t) 0).1)).
Proof.
  apply (probe_completes u a kenv lo).
Qed.

(** C38. An aborted scan: when the victim pointer is -1 (which the program checks
    for before it reads the pid and name) and the first page is not mapped, the
    record has neither victim nor cgroup names, even if the OOM has a memory
    cgroup with a path: the name walk starts from the victim whenever the
    pointer is not NULL. The kernel's [task_struct] and [css_set] have to keep
    the two members followed within their first page, as both builds' do. *)
Theorem aborted_scan_names {K} `{HK : BpfKernel K, HL : !BpfKernelLaws K,
    HZ : !ZeroesOnFault K} u a kenv lo {HO : HasLayout (b_headers (shipped a)) kenv lo}
    mem meantime (k : K) ctx tot m e k1 :
  0 < task_cgroups lo <= 4096 → 0 <= css_dfl_cgrp lo < 4096 →
  undisturbed mem meantime k →
  (∀ i p, 0 <= p < 4096 → kmem (meantime i (reserved k)) p = None) →
  u64_at mem (oc_arg a ctx + oc_totalpages (layout_of a)) tot →
  u64_at mem (oc_arg a ctx + oc_chosen lo) minus_one →
  u64_at mem (oc_arg a ctx + oc_memcg lo) m →
  ringbuf_reserve k (sizeof event_t) 0 = (Some e, k1) →
  ∃ k' ev, kprobe__oom_kill_process u (shipped a) kenv meantime k ctx = Some (0, k') ∧
    submitted k' = submitted k ++ [encode_event ev] ∧
    victim_pid ev = 0 ∧ victim_comm ev = cfield 16 [] ∧
    global_oom ev = (m =? 0) ∧ totalpages ev = tot ∧
    names ev = replicate 4 (cfield 128 []).
Proof.
  intros Hc Hd Hu Hpage Ht Hp Hm Hr. rewrite probe_runs.
  destruct (reserve_event k e k1 Hr) as (He & _).
  rewrite <- (built_shipped a kenv lo HO) in Ht.
  edestruct (run_undisturbed (b_headers (shipped a)) kenv mem meantime k e k1 (oc_arg a ctx))
    as (k' & Hrun & Hsub & _).
  - done.
  - done.
  - destruct Hu as [_ Hmem Hcomm Htgid _ _]. unfold reserved in *. rewrite Hr in *.
    apply (fill_event_aborted _ _ lo) with (mem := mem) (k := k) (tot := tot) (m := m); done.
  - exists k'. eexists. by split_and!.
Qed.

(** ** Kernels the probe is loaded into *)

(** A later kernel: structs reordered and grown, [totalpages] at its old offset or not. *)
Definition next_oom_control (tp : bool) : ctype :=
  TStruct "oom_control" members{
    MFld "memcg" (TPtr "struct mem_cgroup");
    MFld "zonelist" (TPtr "struct zonelist");
    MFld "nodemask" (TPtr "void");
    MFld "gfp_mask" (TInt IUInt);
    MFld "order" (TInt IInt);
    MFld (if tp then "totalpages" else "flags") (TInt IULong);
    MFld "chosen" (TPtr "struct task_struct");
    MFld (if tp then "flags" else "totalpages") (TInt IULong) }.

Definition next_kernel (tp : bool) : list (string * ctype) := [
  ("struct oom_control", next_oom_control tp);
  ("struct task_struct", TStruct "task_struct" members{
    MFld "scheduling" (TArr (TInt ILong) 100);
    MFld "cgroups" (TPtr "struct css_set");
    MFld "comm" (TArr (TInt IChar) 16);
    MFld "pid" (TInt IInt);
    MFld "tgid" (TInt IInt) });
  ("struct css_set", TStruct "css_set" members{
    MFld "refcount" (TInt ILong);
    MFld "dfl_cgrp" (TPtr "struct cgroup") });
  ("struct cgroup", TStruct "cgroup" members{
    MFld "level" (TInt IInt);
    MFld "kn" (TPtr "struct kernfs_node") });
  ("struct mem_cgroup", TStruct "mem_cgroup" members{
    MFld "id" (TInt ILong);
    MFld "css" (TStruct "cgroup_subsys_state" members{
      MFld "ss" (TPtr "void");
      MFld "cgroup" (TPtr "struct cgroup") }) });
  ("struct kernfs_node", TStruct "kernfs_node" members{
    MFld "name" (TPtr "char");
    MFld "parent" (TPtr "struct kernfs_node") }) ]%string.

Definition next_layout (tp : bool) : layout := {|
  oc_totalpages := if tp then 32 else 48; oc_chosen := 40; oc_memcg := 0;
  task_pid := 824; task_comm := 808; task_cgroups := 800;
  css_dfl_cgrp := 8; cgroup_kn := 8; memcg_cgroup := 16;
  kn_name := 0; kn_parent := 8 |}.

#[global] Instance next_has_layout a tp :
  HasLayout (b_headers (shipped a)) (next_kernel tp) (next_layout tp).
Proof.
  destruct a.
  - unshelve refine {|
      ty_oc := VmlinuxX86.oom_control; ty_task := VmlinuxX86.task_struct;
      ty_css := VmlinuxX86.css_set; ty_cgroup := VmlinuxX86.cgroup;
      ty_memcg := VmlinuxX86.mem_cgroup; ty_kn := VmlinuxX86.kernfs_node;
      built_totalpages := 32 |}; destruct tp; vm_compute; reflexivity.
  - unshelve refine {|
      ty_oc := VmlinuxArm64.oom_control; ty_task := VmlinuxArm64.task_struct;
      ty_css := VmlinuxArm64.css_set; ty_cgroup := VmlinuxArm64.cgroup;
      ty_memcg := VmlinuxArm64.mem_cgroup; ty_kn := VmlinuxArm64.kernfs_node;
      built_totalpages := 32 |}; destruct tp; vm_compute; reflexivity.
Defined.

(** A kernel that renames a member the probe reads: the relocation has no target. *)
Example renamed_member :
  relocate [("struct kernfs_node", TStruct "kernfs_node" members{
      MFld "name" (TPtr "char"); MFld "__parent" (TPtr "struct kernfs_node") })]%string
    VmlinuxX86.kernfs_node (fld "parent") = None.
Proof. reflexivity. Qed.

(** ** A concrete OOM kill

    A container of a pod under [kubepods.slice] is killed on its memory limit.
    Memory holds just the members the probe reads, at the offsets of a layout, and
    something at the offset of [totalpages] in the shipped programs. *)

Definition example_path : list (option (list byte)) := [
  Some (bs "cri-containerd-0123456789abcdef0123456789abcdef0123456789abcdef0123456789abcdef.scope");
  Some (bs "kubepods-burstable-pod2f4c9a1e_77aa_4f0b_9d3c_5b8f1f0c2d11.slice");
  Some (bs "kubepods.slice"); Some (bs "") ].

Definition example_victim : task_view := {|
  tv_pid := 4242; tv_comm := bs "stress"; tv_path := example_path |}.

Definition example_view : oom_view := {|
  v_totalpages := 65536; v_victim := Some example_victim; v_memcg := Some example_path |}.

(** A chain of nodes from address [kn] on, names apart from nodes. *)
Fixpoint node_segments (lo : layout) (kn : Z) (path : list (option (list byte)))
    : list (Z * list byte) :=
  match path with
  | [] => []
  | o :: path =>
      [(kn + kn_name lo, le_bytes 8 (match o with Some _ => kn + 4096 | None => 0 end));
       (kn + kn_parent lo, le_bytes 8 (match path with [] => 0 | _ => kn + 8192 end));
       (kn + 4096, default [] o ++ [x00])] ++ node_segments lo (kn + 8192) path
  end.

Definition example_oc : Z := 65536.

Definition example_segments (lo : layout) (chosen : Z) : list (Z * list byte) := [
  (example_oc + oc_memcg lo, le_bytes 8 196608);
  (example_oc + oc_totalpages lo, le_bytes 8 65536);
  (example_oc + oc_chosen lo, le_bytes 8 chosen);
  (131072 + task_pid lo, le_bytes 4 4242);
  (131072 + task_comm lo, bs "stress" ++ [x00]);
  (131072 + task_cgroups lo, le_bytes 8 262144);
  (262144 + css_dfl_cgrp lo, le_bytes 8 327680);
  (327680 + cgroup_kn lo, le_bytes 8 1048576);
  (196608 + memcg_cgroup lo, le_bytes 8 327680) ] ++
  node_segments lo 1048576 example_path ++ [(example_oc + 32, le_bytes 8 7)].

Definition example_kernel (lo : layout) (chosen : Z) : sim := {|
  sim_mem := example_segments lo chosen; sim_umem := [];
  sim_comm := bs "kworker/u8:3"; sim_tgid := 77; sim_pid := 78;
  sim_ring := []; sim_outstanding := 0; sim_released := 0 |}.

(** The example kernel goes on in memory of its own. *)
Lemma busy_undisturbed (k : sim) : undisturbed (kmem k) busy k.
Proof.
  assert (kmem (reserved k) = kmem k ∧ current_comm (reserved k) = current_comm k ∧
    current_tgid (reserved k) = current_tgid k) as (Hm & Hc & Ht).
  { unfold reserved. cbn [ringbuf_reserve sim_kernel]. by destruct (sim_fits k _). }
  constructor; [by intros x b| |intros i..]; [|exact Hc|exact Ht|done..].
  intros i x b Hx. rewrite <- Hm in Hx. by apply segment_byte_app.
Qed.

Definition example_ctx (a : arch) : list byte :=
  replicate (arg_offset a) x00 ++ le_bytes 8 example_oc ++ replicate 48 x00.

Ltac at_address := eexists; split; [vm_compute; reflexivity|vm_compute; reflexivity].
Ltac a_string := split; [by apply (bool_decide_eq_true_1 _)|vm_compute; reflexivity].

(** The kernels of the builds, and the later ones. *)
Inductive kernel := Native (a : arch) | Next (tp : bool).

Definition kernel_layout (n : kernel) : layout :=
  match n with Native a => layout_of a | Next tp => next_layout tp end.

Ltac each_kernel n := destruct n as [[]|[]].

Lemma example_path_at n :
  kn_path (kernel_layout n) (segment_byte (example_segments (kernel_layout n) 131072))
    1048576 example_path.
Proof.
  unfold example_path.
  eapply (kn_named _ _ _ (1048576 + 4096) _ (1048576 + 8192)); try done;
    [each_kernel n; at_address|each_kernel n; a_string|each_kernel n; at_address|].
  eapply (kn_named _ _ _ (1048576 + 8192 + 4096) _ (1048576 + 2 * 8192)); try done;
    [each_kernel n; at_address|each_kernel n; a_string|each_kernel n; at_address|].
  eapply (kn_named _ _ _ (1048576 + 2 * 8192 + 4096) _ (1048576 + 3 * 8192)); try done;
    [each_kernel n; at_address|each_kernel n; a_string|each_kernel n; at_address|].
  eapply (kn_named _ _ _ (1048576 + 3 * 8192 + 4096) _ 0); try done;
    [each_kernel n; at_address|each_kernel n; a_string|each_kernel n; at_address|].
  constructor.
Defined.

Lemma example_cgroup_at n :
  cgroup_path (kernel_layout n) (segment_byte (example_segments (kernel_layout n) 131072))
    327680 example_path.
Proof. apply (cgroup_some _ _ _ 1048576); [done|each_kernel n; at_address|apply example_path_at]. Defined.

Lemma example_oom_at n a :
  oom_at (kernel_layout n) (kmem (example_kernel (kernel_layout n) 131072)) (oc_arg a (example_ctx a)) example_view.
Proof.
  assert (oc_arg a (example_ctx a) = example_oc) as -> by (by destruct a).
  change (kmem (example_kernel (kernel_layout n) 131072))
    with (segment_byte (example_segments (kernel_layout n) 131072)).
  constructor.
  - each_kernel n; at_address.
  - exists 131072. split; [each_kernel n; at_address|]. split_and!; [done..|].
    constructor; [each_kernel n; at_address|each_kernel n; a_string|].
    exists 262144, 327680. split; [each_kernel n; at_address|].
    split; [each_kernel n; at_address|apply example_cgroup_at].
  - exists 196608. split; [each_kernel n; at_address|]. split; [done|].
    exists 327680. split; [each_kernel n; at_address|apply example_cgroup_at].
Defined.

(** Register numbers for the other targets; the shipped programs do not use them. *)
Definition example_sparc : sparc_numbers := {|
  UREG_I0 := 8; UREG_I1 := 9; UREG_I2 := 10; UREG_I3 := 11; UREG_I4 := 12;
  UREG_I7 := 15; UREG_FP := 14 |}.

Definition example_event : event := spec_event (example_kernel x86_layout 131072) example_view.

(** ** The theorems on the example *)

(** The victim's node on a later kernel, and the node's name into a small buffer. *)
Lemma core_read_chase_witness :
  BPF_CORE_READ VmlinuxX86.vmlinux (next_kernel true) (λ i, busy i (example_kernel (next_layout true) 131072))
    VmlinuxX86.task_struct 131072 (fld "cgroups") [fld "dfl_cgrp"; fld "kn"] = Some 1048576 ∧
  ∃ n dst', BPF_CORE_READ_STR_INTO VmlinuxX86.vmlinux (next_kernel true)
      (λ i, busy i (example_kernel (next_layout true) 131072)) (junk 4) VmlinuxX86.task_struct 131072
      (fld "comm") [] = Some (n, dst') ∧
    n = 4 ∧ take (Z.to_nat n) dst' = bs "str" ++ [x00].
Proof.
  split.
  - pose proof (core_read_chase VmlinuxX86.vmlinux (next_kernel true) true Kernel
      (λ i, busy i (example_kernel (next_layout true) 131072)) VmlinuxX86.task_struct 131072
      (fld "cgroups") [fld "dfl_cgrp"; fld "kn"]) as H.
    cbn [length] in H. rewrite decide_True in H by lia.
    destruct (H (327680 + 8) (TPtr "struct kernfs_node")) as [Hr _];
      [vm_compute; reflexivity|].
    assert (kread (memory Kernel (busy 2 (example_kernel (next_layout true) 131072))) (327680 + 8)
      (Z.to_nat (sizeof (TPtr "struct kernfs_node"))) = Some (le_bytes 8 1048576)) as E
      by (vm_compute; reflexivity).
    rewrite E in Hr. destruct Hr as [Hr _]. rewrite decide_True in Hr by lia. exact Hr.
  - pose proof (core_read_chase VmlinuxX86.vmlinux (next_kernel true) true Kernel
      (λ i, busy i (example_kernel (next_layout true) 131072)) VmlinuxX86.task_struct 131072
      (fld "comm") []) as H.
    cbn [length] in H. rewrite decide_True in H by lia.
    destruct (H (131072 + 808) (TArr (TInt IChar) 16)) as [_ Hs]; [vm_compute; reflexivity|].
    destruct (Hs (bs "stress") (junk 4)) as (n & dst' & Hr & Hn & Ht);
      [a_string|vm_compute; lia|].
    exists n, dst'. split; [exact Hr|]. split; [exact Hn|exact Ht].
Defined.

Lemma shipped_offsets_witness :
  offsetof VmlinuxX86.task_struct (fld "comm") = Some (3032, TArr (TInt IChar) 16) ∧
  3032 + 16 <= sizeof VmlinuxX86.task_struct.
Proof.
  destruct (shipped_offsets example_sparc amd64) as [_ H].
  destruct (H "struct task_struct"%string (fld "comm") 3032 (TArr (TInt IChar) 16))
    as (ct & Hct & _ & Ho & Hb).
  - do 4 right. left.
  - change (pointee_in (b_headers (shipped amd64)) "struct task_struct")
      with (Some VmlinuxX86.task_struct) in Hct. injection Hct as <-.
    split; [exact Ho|exact Hb].
Defined.

Lemma event_layout_witness :
  slice 24 16 (encode_event example_event) = bs "kworker/u8:3" ++ replicate 4 x00.
Proof.
  destruct (event_layout example_event "trigger_comm" (trigger_comm example_event))
    as (_ & o & t & Ho & Hs).
  - constructor; try (vm_compute; reflexivity); try (split; vm_compute; done).
    by repeat constructor.
  - do 3 right. left.
  - vm_compute in Ho. injection Ho as <- <-. exact Hs.
Defined.

(** The arm64 program on a later kernel. *)
Lemma probe_refines_witness :
  ∃ k', kprobe__oom_kill_process example_sparc (shipped arm64) (next_kernel true) busy
          (example_kernel (next_layout true) 131072) (example_ctx arm64) = Some (0, k') ∧
    sim_ring k' =
      [encode_event (spec_event (example_kernel (next_layout true) 131072) example_view)].
Proof.
  destruct (probe_refines example_sparc arm64 (next_kernel true) (next_layout true)
    (kmem (example_kernel (next_layout true) 131072)) busy
    (example_kernel (next_layout true) 131072) (example_ctx arm64) example_view (junk 568)
    (sim_ringbuf [] 1 0 (example_kernel (next_layout true) 131072))) as (_ & k' & Hr & Hs & _).
  - reflexivity.
  - apply busy_undisturbed.
  - apply (example_oom_at (Next true)).
  - reflexivity.
  - exists k'. by split.
Defined.

(** The limit of 65536 pages is reported as 7. *)
Lemma totalpages_not_relocated_witness :
  ∃ k' ev, kprobe__oom_kill_process example_sparc (shipped amd64) (next_kernel false) busy
             (example_kernel (next_layout false) 131072) (example_ctx amd64) = Some (0, k') ∧
    sim_ring k' = [encode_event ev] ∧ totalpages ev = 7 ∧ v_totalpages example_view = 65536.
Proof.
  destruct (totalpages_not_relocated example_sparc amd64 (next_kernel false) (next_layout false)
    (kmem (example_kernel (next_layout false) 131072)) busy
    (example_kernel (next_layout false) 131072) (example_ctx amd64) example_view 7 (junk 568)
    (sim_ringbuf [] 1 0 (example_kernel (next_layout false) 131072)))
    as (k' & ev & Hr & Hs & Ht & _).
  - apply busy_undisturbed.
  - apply (example_oom_at (Next false)).
  - at_address.
  - reflexivity.
  - exists k', ev. by split_and!.
Defined.

(** A context full of [0xff]: the argument is not mapped. *)
Lemma probe_total_witness :
  ∃ k', kprobe__oom_kill_process example_sparc (shipped amd64)
          VmlinuxX86.vmlinux busy (example_kernel x86_layout 131072) (replicate 168 xff) = Some (0, k') ∧
    sim_outstanding k' = 0%nat ∧
    ∃ r, sim_ring k' = [r] ∧ length r = 568%nat.
Proof.
  destruct (probe_total example_sparc amd64 VmlinuxX86.vmlinux x86_layout busy (example_kernel x86_layout 131072) (replicate 168 xff))
    as (k' & Hr & _ & _ & Ho & r & Hs & Hl).
  exists k'. split; [exact Hr|]. split; [exact Ho|]. exists r. split; [exact Hs|].
  change (sizeof event_t) with 568 in Hl. lia.
Defined.

Lemma aborted_scan_names_witness :
  ∃ k' ev, kprobe__oom_kill_process example_sparc (shipped amd64)
             VmlinuxX86.vmlinux busy (example_kernel x86_layout minus_one) (example_ctx amd64) = Some (0, k') ∧
    sim_ring k' = [encode_event ev] ∧ global_oom ev = false ∧
    names ev = replicate 4 (cfield 128 []).
Proof.
  destruct (aborted_scan_names example_sparc amd64 VmlinuxX86.vmlinux x86_layout
    (kmem (example_kernel x86_layout minus_one)) busy
    (example_kernel x86_layout minus_one) (example_ctx amd64) 65536 196608 (junk 568)
    (sim_ringbuf [] 1 0 (example_kernel x86_layout minus_one)))
    as (k' & ev & Hr & Hs & _ & _ & Hg & _ & Hn).
  - split; reflexivity || discriminate.
  - split; reflexivity || discriminate.
  - apply busy_undisturbed.
  - intros i p Hp.
    change (kmem (busy i (reserved (example_kernel x86_layout minus_one))))
      with (segment_byte (example_segments x86_layout minus_one ++
        [(2 ^ 32, le_bytes 8 (Z.of_nat i))])).
    apply (segment_byte_below _ 4096); [by apply (bool_decide_eq_true_1 _)|apply Hp].
  - at_address.
  - at_address.
  - at_address.
  - reflexivity.
  - exists k', ev. by split_and!.
Defined.

(** The victim exits after its pid was read, and its memory is unmapped: the record has
    the pid, but neither the name nor the cgroup names. *)
Definition exits (i : nat) (k : sim) : sim :=
  if (i <? 5)%nat then k
  else sim_with_memory (take 3 (sim_mem k)) k.

Example torn_record :
  (r ← kprobe__oom_kill_process example_sparc (shipped amd64) VmlinuxX86.vmlinux exits
      (example_kernel x86_layout 131072) (example_ctx amd64); Some (r.1, sim_ring r.2)) =
  Some (0, [encode_event {| victim_pid := 4242; trigger_pid := 77;
    victim_comm := cfield 16 []; trigger_comm := cfield 16 (bs "kworker/u8:3");
    totalpages := 65536; global_oom := false; names := replicate 4 (cfield 128 []) |}]).
Proof. vm_compute. reflexivity. Qed.

(** ** Asking the kernel *)

#[global] Instance example_loader : Loader := {|
  type_matches t kt := bool_decide (sizeof t = sizeof kt); local_id _ := 1; kernel_id _ := 2 |}.

(** The x86-64 headers ask the next kernel, whose [oom_control] has another layout, and the
    read finds [chosen] where the answer says. *)
Lemma core_queries_witness :
  ∃ o, bpf_core_field_offset (next_kernel true) VmlinuxX86.oom_control (fld "chosen") = Some o ∧
    BPF_CORE_READ_INTO VmlinuxX86.vmlinux (next_kernel true) (λ i, busy i (example_kernel x86_layout 131072))
      (junk 8) VmlinuxX86.oom_control 4096 (fld "chosen") [] =
    Some (probe_read_kernel (busy 0 (example_kernel x86_layout 131072)) (junk 8) 8 (wrap 64 (4096 + o))).
Proof.
  destruct (core_queries VmlinuxX86.vmlinux (next_kernel true) VmlinuxX86.oom_control (fld "chosen")
    "struct oom_control" 40 (TPtr "struct task_struct")) as [(x & Hx & _ & Hr) _];
    [reflexivity|vm_compute; reflexivity|].
  assert (bpf_core_field_exists (next_kernel true) VmlinuxX86.oom_control (fld "chosen") = Some 1)
    as E by (vm_compute; reflexivity).
  rewrite E in Hx. injection Hx as <-.
  specialize (Hr (λ i, busy i (example_kernel x86_layout 131072)) (junk 8) 4096).
  destruct (BPF_CORE_READ_INTO _ _ _ _ _ _ _ _) as [r|]; [|by destruct Hr].
  destruct Hr as (_ & o & n & Ho & _ & ->). exists o. split; [exact Ho|reflexivity].
Defined.
