(* ===== verification/GoStrings.v ===== *)
(** * Go strings and the string functions the agent uses

    A Go string is a byte string.  [strings.TrimSpace], [strings.SplitN],
    [strings.Split], [strings.Trim] and [strings.ReplaceAll] are modelled on bytes: white space is the list of the
    UTF-8 encodings of the runes [unicode.IsSpace] accepts, and because no
    encoding is part of another one, cutting an encoding off either end of a
    byte string is what decoding its first or last rune does. *)
From S2P Require Import Prelude.

Abbreviation gostring := (list byte).

(** ** Prefixes *)

(** What follows the prefix [p] of [s]. *)
Fixpoint strip_prefix (p s : gostring) : option gostring :=
  match p, s with
  | [], _ => Some s
  | c :: p, d :: s => if decide (c = d) then strip_prefix p s else None
  | _ :: _, [] => None
  end.

Lemma strip_prefix_Some p s t : strip_prefix p s = Some t ↔ s = p ++ t.
Proof.
  revert s. induction p as [|c p IH]; intros s; simpl; [split; congruence|].
  destruct s as [|d s]; [done|]. case_decide as Hc; [|split; congruence].
  rewrite IH. split; congruence.
Qed.

Lemma strip_prefix_None p s : strip_prefix p s = None ↔ ∀ t, s ≠ p ++ t.
Proof.
  rewrite eq_None_not_Some. split.
  - intros Hn t Ht. apply Hn. exists t. by apply strip_prefix_Some.
  - intros Ht [t ?%strip_prefix_Some]. by apply (Ht t).
Qed.

(** ** White space *)

(** UTF-8 encodings of the runes [unicode.IsSpace] accepts: the ASCII ones, U+0085,
    U+00A0, U+1680, U+2000 to U+200A, U+2028, U+2029, U+202F, U+205F, U+3000. *)
Definition spaces : list gostring := [
  [x09]; [x0a]; [x0b]; [x0c]; [x0d]; [x20];
  [xc2; x85]; [xc2; xa0]; [xe1; x9a; x80];
  [xe2; x80; x80]; [xe2; x80; x81]; [xe2; x80; x82]; [xe2; x80; x83];
  [xe2; x80; x84]; [xe2; x80; x85]; [xe2; x80; x86]; [xe2; x80; x87];
  [xe2; x80; x88]; [xe2; x80; x89]; [xe2; x80; x8a];
  [xe2; x80; xa8]; [xe2; x80; xa9]; [xe2; x80; xaf];
  [xe2; x81; x9f]; [xe3; x80; x80] ].

(** The first element of [l] that is a prefix of [s] is cut off. *)
Fixpoint strip_any (l : list gostring) (s : gostring) : option gostring :=
  match l with
  | [] => None
  | p :: l => match strip_prefix p s with Some t => Some t | None => strip_any l s end
  end.

(** Prefixes of [l] are cut off for as long as there is one; each round removes a
    byte at least, so the length of [s] rounds are enough. *)
Fixpoint strip_all (l : list gostring) (fuel : nat) (s : gostring) : gostring :=
  match fuel with
  | O => s
  | S fuel => match strip_any l s with Some t => strip_all l fuel t | None => s end
  end.

Definition trim_left (l : list gostring) (s : gostring) : gostring :=
  strip_all l (length s) s.

Definition trim_right (l : list gostring) (s : gostring) : gostring :=
  reverse (trim_left (reverse <$> l) (reverse s)).

(** [strings.TrimSpace]. *)
Definition TrimSpace (s : gostring) : gostring := trim_right spaces (trim_left spaces s).

(** ** Splitting and replacing *)

(** [s] around the first occurrence of [sep]. *)
Fixpoint cut (sep s : gostring) : option (gostring * gostring) :=
  match strip_prefix sep s with
  | Some t => Some ([], t)
  | None =>
      match s with
      | [] => None
      | c :: s => match cut sep s with Some (a, t) => Some (c :: a, t) | None => None end
      end
  end.

(** [strings.SplitN(s, sep, n)] for a non-empty separator and [n] >= 0. *)
Fixpoint SplitN (s sep : gostring) (n : nat) : list gostring :=
  match n with
  | O => []
  | S O => [s]
  | S n => match cut sep s with Some (a, t) => a :: SplitN t sep n | None => [s] end
  end.

(** [strings.Split(s, sep)] for a non-empty separator: no more pieces than bytes and
    one. *)
Definition Split (s sep : gostring) : list gostring := SplitN s sep (S (length s)).

(** [strings.Trim(s, cutset)] for an ASCII cut set. *)
Definition Trim (s : gostring) (cutset : list byte) : gostring :=
  let l := (λ c, [c]) <$> cutset in trim_right l (trim_left l s).

(** [strings.ReplaceAll(s, old, new)] for a non-empty [old]; each round consumes
    one occurrence, so the length of [s] rounds are enough. *)
Fixpoint replace_rounds (fuel : nat) (s old new : gostring) : gostring :=
  match fuel with
  | O => s
  | S fuel =>
      match cut old s with
      | Some (a, t) => a ++ new ++ replace_rounds fuel t old new
      | None => s
      end
  end.

Definition ReplaceAll (s old new : gostring) : gostring :=
  replace_rounds (length s) s old new.

(** ** Cutting *)

Lemma cut_None_byte c s : cut [c] s = None ↔ c ∉ s.
Proof.
  induction s as [|d s IH]; simpl; [split; [set_solver|done]|].
  case_decide; [subst; split; [done|set_solver]|].
  destruct (cut [c] s) as [[a t]|] eqn:E.
  - split; [done|]. intros Hn. assert (c ∉ s) as ?%IH by set_solver. done.
  - rewrite not_elem_of_cons, <- IH. naive_solver.
Qed.

Lemma cut_Some_byte c s a t : cut [c] s = Some (a, t) ↔ s = a ++ c :: t ∧ c ∉ a.
Proof.
  revert a t. induction s as [|d s IH]; intros a t; simpl.
  - split; [done|]. intros [Hs _]. by destruct a.
  - case_decide as Hc.
    + subst d. split; [intros [= <- <-]; split; [done|set_solver]|].
      intros [Hs Ha]. destruct a as [|d a]; simplify_eq/=; [done|set_solver].
    + destruct (cut [c] s) as [[a' t']|] eqn:E.
      * destruct (proj1 (IH a' t') eq_refl) as [-> Ha']. split.
        { intros [= <- <-]. split; [done|]. rewrite not_elem_of_cons. naive_solver. }
        intros [Hs Ha]. destruct a as [|d' a]; simplify_eq/=.
        rewrite not_elem_of_cons in Ha.
        assert (Some (a', t') = Some (a, t)) as [= -> ->] by (apply IH; naive_solver). done.
      * split; [done|]. intros [Hs Ha]. destruct a as [|d' a]; simplify_eq/=.
        rewrite not_elem_of_cons in Ha.
        assert (None = Some (a, t)) by (apply IH; naive_solver). done.
Qed.

(** Replacing one byte by another is done byte by byte. *)
Lemma ReplaceAll_byte c d s :
  ReplaceAll s [c] [d] = (λ x, if decide (x = c) then d else x) <$> s.
Proof.
  unfold ReplaceAll. generalize (Nat.le_refl (length s)).
  generalize (length s) at 2 3 as n. intros n. revert s.
  assert (Hid : ∀ s : gostring, c ∉ s → (λ x, if decide (x = c) then d else x) <$> s = s).
  { induction s as [|x s IH]; intros Hs; [done|]. rewrite fmap_cons, IH by set_solver.
    rewrite decide_False by set_solver. done. }
  induction n as [|n IH]; intros s Hn; simpl.
  - by destruct s; [|simpl in Hn; lia].
  - destruct (cut [c] s) as [[a t]|] eqn:E.
    + apply cut_Some_byte in E as [-> Ha].
      rewrite fmap_app, Hid by done. f_equal. rewrite fmap_cons, decide_True by done.
      simpl. f_equal. apply IH. rewrite length_app in Hn. simpl in Hn. lia.
    + apply cut_None_byte in E. by rewrite Hid.
Qed.

(** ** Trimming *)

(** [s] is a sequence of elements of [l]. *)
Definition made_of (l : list gostring) (s : gostring) : Prop :=
  ∃ ps, Forall (.∈ l) ps ∧ s = concat ps.

(** No element of [l] is empty or starts another one. *)
Definition prefix_code (l : list gostring) : Prop :=
  Forall (λ p, p ≠ [] ∧ Forall (λ q, strip_prefix q p = None ∨ p = q) l) l.

Lemma prefix_code_spec l p q t :
  prefix_code l → p ∈ l → q ∈ l → p ≠ [] ∧ (p = q ++ t → t = []).
Proof.
  unfold prefix_code. rewrite Forall_forall. intros H Hp Hq.
  destruct (H p Hp) as [Hne Hf]. split; [done|].
  rewrite Forall_forall in Hf. intros ->. destruct (Hf q Hq) as [Hn|Heq].
  - rewrite strip_prefix_None in Hn. by destruct (Hn t).
  - apply (f_equal length) in Heq. rewrite length_app in Heq. by destruct t; [|simpl in Heq; lia].
Qed.

Section trimming.
Variable l : list gostring.
Hypothesis pcode : prefix_code l.

Lemma code p q t : p ∈ l → q ∈ l → p ≠ [] ∧ (p = q ++ t → t = []).
Proof using pcode. by apply prefix_code_spec. Qed.

Lemma strip_any_Some s t : strip_any l s = Some t → ∃ p, p ∈ l ∧ s = p ++ t.
Proof using.
  clear pcode. induction l as [|p ps IH]; simpl; [done|].
  destruct (strip_prefix p s) as [u|] eqn:E.
  - intros [= ->]. exists p. apply strip_prefix_Some in E. split; [left|done].
  - intros (q & Hq & ->)%IH. exists q. split; [by right|done].
Qed.

Lemma strip_any_None s : strip_any l s = None ↔ ∀ p t, p ∈ l → s ≠ p ++ t.
Proof using.
  clear pcode. induction l as [|p ps IH]; simpl; [split; [set_solver|done]|].
  destruct (strip_prefix p s) as [u|] eqn:E.
  - apply strip_prefix_Some in E as ->. split; [done|]. intros Hn.
    exfalso. apply (Hn p u); [left|done].
  - rewrite IH. rewrite strip_prefix_None in E. split.
    + intros Hn q t [->|Hq]%elem_of_cons; [apply E|by apply Hn].
    + intros Hn q t Hq. apply Hn. by right.
Qed.

Lemma strip_any_app p t : p ∈ l → strip_any l (p ++ t) = Some t.
Proof using pcode.
  intros Hp. destruct (strip_any l (p ++ t)) as [u|] eqn:E.
  - apply strip_any_Some in E as (q & Hq & Heq).
    apply app_eq_inv in Heq as [(k & -> & ->)|(k & -> & ->)].
    + destruct (code (q ++ k) q k Hp Hq) as [_ ->]; done.
    + destruct (code (p ++ k) p k Hq Hp) as [_ ->]; done.
  - rewrite strip_any_None in E. by destruct (E p t).
Qed.

Lemma strip_any_shorter s t : strip_any l s = Some t → (length t < length s)%nat.
Proof using pcode.
  intros (p & Hp & ->)%strip_any_Some. destruct (code p p [] Hp Hp) as [Hne _].
  destruct p; [done|]. simpl. rewrite length_app. lia.
Qed.

Lemma strip_all_fuel n m s :
  (length s <= n)%nat → (length s <= m)%nat → strip_all l n s = strip_all l m s.
Proof using pcode.
  revert m s. induction n as [|n IH]; intros [|m] s Hn Hm; [done|..]; simpl;
    destruct (strip_any l s) as [t|] eqn:E; try done;
    apply strip_any_shorter in E; [lia|lia|apply IH; lia].
Qed.

Lemma trim_left_clean s : strip_any l s = None → trim_left l s = s.
Proof using. intros Hs. unfold trim_left. destruct s; simpl; [done|by rewrite Hs]. Qed.

Lemma trim_left_step s t : strip_any l s = Some t → trim_left l s = trim_left l t.
Proof using pcode.
  intros Hs. pose proof (strip_any_shorter s t Hs) as Hl. unfold trim_left at 1.
  destruct s as [|c s]; [simpl in Hl; lia|]. simpl. rewrite Hs.
  simpl in Hl. apply strip_all_fuel; lia.
Qed.

Lemma trim_left_made_of s t : made_of l s → trim_left l (s ++ t) = trim_left l t.
Proof using pcode.
  intros (ps & Hps & ->). induction Hps as [|p ps Hp _ IH]; [done|]. simpl.
  rewrite <- app_assoc. rewrite <- IH. by apply trim_left_step, strip_any_app.
Qed.

Lemma trim_left_spec s :
  ∃ t, made_of l t ∧ s = t ++ trim_left l s ∧ strip_any l (trim_left l s) = None.
Proof using pcode.
  remember (length s) as n eqn:Hn. revert s Hn.
  induction n as [n IH] using lt_wf_ind. intros s ->.
  destruct (strip_any l s) as [u|] eqn:E.
  - rewrite (trim_left_step s u) by done.
    destruct (IH (length u) (strip_any_shorter s u E) u eq_refl)
      as (t & (ps & Hps & ->) & Hu & Hc).
    apply strip_any_Some in E as (p & Hp & ->). exists (p ++ concat ps).
    split; [by exists (p :: ps); split; [constructor|]|].
    split; [rewrite <- app_assoc; congruence|done].
  - exists []. split; [by exists []|]. by rewrite trim_left_clean.
Qed.
End trimming.

(** A continuation byte of UTF-8, which starts no encoding. *)
Definition continuation (c : byte) : Prop := 128 <= byte_to_Z c < 192.
#[global] Instance continuation_dec c : Decision (continuation c) := _.

(** [s] does not start inside an encoding. *)
Definition rune_start (s : gostring) : Prop :=
  match s with [] => True | c :: _ => ¬ continuation c end.
#[global] Instance rune_start_dec s : Decision (rune_start s).
Proof. destruct s; apply _. Defined.

Lemma spaces_shape :
  Forall (λ p, match p with [] => False | c :: q => ¬ continuation c ∧ Forall continuation q end)
    spaces.
Proof.
  assert (Forall (λ p, p ≠ [] ∧ rune_start p ∧ Forall continuation (tail p)) spaces) as H
    by (by apply (bool_decide_eq_true_1 _)).
  eapply Forall_impl; [exact H|]. by intros [|c q] (? & ? & ?).
Qed.

Lemma spaces_code : prefix_code spaces.
Proof. by apply (bool_decide_eq_true_1 _). Qed.

Lemma rspaces_code : prefix_code (reverse <$> spaces).
Proof. by apply (bool_decide_eq_true_1 _). Qed.

#[export] Hint Resolve spaces_code rspaces_code : otdb.

Lemma made_of_reverse l s : made_of l s → made_of (reverse <$> l) (reverse s).
Proof.
  intros (ps & Hps & ->). exists (reverse (reverse <$> ps)). split.
  - apply Forall_reverse, Forall_fmap. eapply Forall_impl; [exact Hps|].
    intros p Hp. simpl. by apply list_elem_of_fmap_2.
  - clear Hps. induction ps as [|p ps IH]; [done|]. cbn [concat].
    rewrite reverse_app, fmap_cons, reverse_cons, concat_app, IH. cbn [concat].
    by rewrite app_nil_r.
Qed.

(** Neither starts nor ends with white space. *)
Definition trimmed (s : gostring) : Prop :=
  strip_any spaces s = None ∧ strip_any (reverse <$> spaces) (reverse s) = None.

#[global] Instance trimmed_dec s : Decision (trimmed s) := _.

Lemma trimmed_nil : trimmed [].
Proof. by apply (bool_decide_eq_true_1 _). Qed.
#[export] Hint Resolve trimmed_nil : otdb.

(** ** [TrimSpace] *)

(** White space does not reach over the end of [s] into what starts a rune. *)
Lemma clean_app s t :
  s ≠ [] → strip_any spaces s = None → rune_start t → strip_any spaces (s ++ t) = None.
Proof.
  rewrite !strip_any_None. intros Hne Hs Ht p u Hp Heq.
  pose proof spaces_shape as Hshape. rewrite Forall_forall in Hshape. specialize (Hshape p Hp).
  apply app_eq_inv in Heq as [(k & -> & ->)|(k & -> & ->)]; [by eapply Hs|].
  destruct k as [|c k]; [apply (Hs _ [] Hp); by rewrite !app_nil_r|].
  destruct s as [|d s]; [done|]. destruct Hshape as [_ Hc].
  apply Forall_app in Hc as [_ Hc]. inversion Hc. by subst.
Qed.

Lemma rclean_app t s :
  s ≠ [] → strip_any (reverse <$> spaces) (reverse s) = None → rune_start s →
  strip_any (reverse <$> spaces) (reverse (t ++ s)) = None.
Proof.
  rewrite !strip_any_None. intros Hne Hs Ht q u Hq Heq.
  apply list_elem_of_fmap in Hq as (p & -> & Hp).
  pose proof spaces_shape as Hshape. rewrite Forall_forall in Hshape. specialize (Hshape p Hp).
  apply (f_equal reverse) in Heq.
  rewrite reverse_involutive, reverse_app, reverse_involutive in Heq.
  apply app_eq_inv in Heq as [(k & -> & ->)|(k & Heq & ->)].
  - destruct k as [|c k].
    + apply (Hs (reverse s) []); [by apply list_elem_of_fmap_2|by rewrite app_nil_r].
    + destruct Hshape as [_ [_ Hc]%Forall_app]. destruct s as [|d s]; [done|].
      inversion Hc. by subst.
  - apply (Hs (reverse p) (reverse k)); [by apply list_elem_of_fmap_2|].
    by rewrite reverse_app.
Qed.

(** What is cut off is white space, and nothing is left to cut. *)
Lemma TrimSpace_spec s :
  ∃ l r, made_of spaces l ∧ made_of spaces r ∧ s = l ++ TrimSpace s ++ r ∧ trimmed (TrimSpace s).
Proof.
  unfold TrimSpace, trim_right.
  destruct (trim_left_spec spaces spaces_code s) as (l & Hl & Hs & Hc).
  set (s1 := trim_left spaces s) in *.
  destruct (trim_left_spec _ rspaces_code (reverse s1)) as (r & Hr & Hs1 & Hc1).
  set (s2 := trim_left (reverse <$> spaces) (reverse s1)) in *.
  apply (f_equal reverse) in Hs1. rewrite reverse_involutive, reverse_app in Hs1.
  exists l, (reverse r). split_and!; [done| |by rewrite <- Hs1|].
  - apply made_of_reverse in Hr. rewrite <- list_fmap_compose in Hr.
    rewrite (list_fmap_ext _ id) in Hr by (intros; apply reverse_involutive).
    by rewrite list_fmap_id in Hr.
  - split; [|by rewrite reverse_involutive]. rewrite strip_any_None in *.
    intros p t Hp Heq. apply (Hc p (t ++ reverse r) Hp). by rewrite Hs1, Heq, <- app_assoc.
Qed.

(** White space around a trimmed string is cut off, all of it. *)
Lemma TrimSpace_pad l s r :
  made_of spaces l → made_of spaces r → trimmed s → TrimSpace (l ++ s ++ r) = s.
Proof.
  intros Hl Hr [Hs1 Hs2]. unfold TrimSpace, trim_right.
  rewrite trim_left_made_of by eauto with otdb.
  destruct (decide (s = [])) as [->|Hne].
  - simpl. rewrite <- (app_nil_r r), trim_left_made_of by eauto with otdb. done.
  - rewrite (trim_left_clean spaces).
    + rewrite reverse_app, trim_left_made_of by eauto using made_of_reverse with otdb.
      by rewrite trim_left_clean, reverse_involutive.
    + apply clean_app; [done..|]. destruct Hr as (ps & Hps & ->).
      destruct Hps as [|p ps Hp _]; [done|].
      pose proof spaces_shape as Hshape. rewrite Forall_forall in Hshape.
      specialize (Hshape p Hp). destruct p; [done|]. apply Hshape.
Qed.

Lemma TrimSpace_trimmed s : trimmed (TrimSpace s).
Proof. by destruct (TrimSpace_spec s) as (? & ? & _ & _ & _ & ?). Qed.
#[export] Hint Resolve TrimSpace_trimmed : otdb.

Lemma made_of_nil l : made_of l [].
Proof. by exists []. Qed.
#[export] Hint Resolve made_of_nil : otdb.

Lemma TrimSpace_id s : trimmed s → TrimSpace s = s.
Proof.
  intros Hs. rewrite <- (TrimSpace_pad [] s []) at 2 by eauto with otdb.
  by rewrite app_nil_r.
Qed.

Arguments spaces : simpl never.

(** ** Splitting and trimming at a byte *)

Lemma SplitN_None s c n : c ∉ s → SplitN s [c] (S n) = [s].
Proof. intros Hs%cut_None_byte. destruct n; simpl; [done|by rewrite Hs]. Qed.

Lemma SplitN_app a t c n :
  c ∉ a → SplitN (a ++ c :: t) [c] (S (S n)) = a :: SplitN t [c] (S n).
Proof.
  intros Ha. assert (cut [c] (a ++ c :: t) = Some (a, t)) as Hc by (by apply cut_Some_byte).
  change (SplitN (a ++ c :: t) [c] (S (S n))) with
    (match cut [c] (a ++ c :: t) with
     | Some (a, t) => a :: SplitN t [c] (S n) | None => [a ++ c :: t] end).
  by rewrite Hc.
Qed.

(** Nothing but the leading byte is cut off. *)
Lemma Trim_leading c s :
  c ∉ s → Trim (c :: s) [c] = s.
Proof.
  intros Hs.
  assert (Hclean : ∀ t : gostring, c ∉ t → strip_any [[c]] t = None).
  { intros [|d t] Ht; simpl; [done|]. rewrite decide_False; [done|]. set_solver. }
  assert (prefix_code [[c]]) as Hcode.
  { apply Forall_singleton. split; [done|]. apply Forall_singleton. by right. }
  unfold Trim, trim_right. cbn [fmap list_fmap]. change (reverse [c]) with [c].
  rewrite (trim_left_step [[c]] Hcode (c :: s) s) by (simpl; by rewrite decide_True).
  rewrite (trim_left_clean [[c]] s) by auto.
  rewrite trim_left_clean; [by rewrite reverse_involutive|].
  apply Hclean. by rewrite elem_of_reverse.
Qed.
