(* ===== verification/GoFlag.v ===== *)
(** * Go's [flag] and the parts of [strconv] it uses

    A flag set is the list of its flags; a flag has a name, whether it is boolean,
    and the [Set] method of its value, which changes the state the values live
    in.  [parseOne] and [Parse] are those of the package, for the error handling
    [ExitOnError] of the command line.  [flag_syntax] characterises the
    command lines that parse. *)
From S2P Require Import Prelude GoStrings.

(** ** [strconv] *)

(** [c | ('x' - 'X')] *)
Definition lower (c : byte) : Z := Z.lor (byte_to_Z c) 32.

(** A digit of [ParseUint], in any base. *)
Definition digit_value (c : byte) : option Z :=
  let z := byte_to_Z c in
  if (48 <=? z) && (z <=? 57) then Some (z - 48)
  else if (97 <=? lower c) && (lower c <=? 122) then Some (lower c - 97 + 10)
  else None.

(** The digits of a number, with underscores between them, from [n] on. *)
Fixpoint digits_value (base n : Z) (s : gostring) : option Z :=
  match s with
  | [] => Some n
  | c :: s =>
      if decide (c = x5f) then digits_value base n s
      else
        match digit_value c with
        | Some d => if d <? base then digits_value base (n * base + d) s else None
        | None => None
        end
  end.

(** What the previous character was, in [underscoreOK]. *)
Inductive seen := Start | Digit | Underscore | Neither.

Fixpoint underscores_ok (hex : bool) (i : seen) (s : gostring) : bool :=
  match s with
  | [] => match i with Underscore => false | _ => true end
  | c :: s =>
      let z := byte_to_Z c in
      if ((48 <=? z) && (z <=? 57)) || (hex && (97 <=? lower c) && (lower c <=? 102))
      then underscores_ok hex Digit s
      else if decide (c = x5f) then
        match i with Digit => underscores_ok hex Underscore s | _ => false end
      else match i with Underscore => false | _ => underscores_ok hex Neither s end
  end.

(** The prefix of a base, for base 0, and what follows it. *)
Definition base_prefix (s : gostring) : option (Z * gostring) :=
  match s with
  | x30 :: c :: rest =>
      if lower c =? 98 then Some (2, rest)
      else if lower c =? 111 then Some (8, rest)
      else if lower c =? 120 then Some (16, rest) else None
  | _ => None
  end.

Definition underscoreOK (s : gostring) : bool :=
  match base_prefix s with
  | Some (base, rest) => underscores_ok (base =? 16) Digit rest
  | None => underscores_ok false Start s
  end.

(** [strconv.ParseUint(s, 0, 64)]: [None] for either error. The prefix counts only if
    something follows it. *)
Definition ParseUint (s : gostring) : option Z :=
  match s with
  | [] => None
  | c :: s' =>
      let '(base, digits) :=
        match base_prefix s with
        | Some (base, d :: rest) => (base, d :: rest)
        | _ => if decide (c = x30) then (8, s') else (10, s)
        end in
      match digits_value base 0 digits with
      | Some n =>
          if bool_decide (x5f ∈ digits) && negb (underscoreOK s) then None
          else if n <? 2 ^ 64 then Some n else None
      | None => None
      end
  end.

(** [strconv.ParseInt(s, 0, 64)] *)
Definition ParseInt (s : gostring) : option Z :=
  let '(neg, digits) :=
    match s with
    | x2b :: rest => (false, rest)
    | x2d :: rest => (true, rest)
    | _ => (false, s)
    end in
  match ParseUint digits with
  | Some n =>
      if neg then if n <=? 2 ^ 63 then Some (- n) else None
      else if n <? 2 ^ 63 then Some n else None
  | None => None
  end.

(** [strconv.ParseBool] *)
Definition ParseBool (s : gostring) : option bool :=
  if decide (s ∈ [bs "1"; bs "t"; bs "T"; bs "true"; bs "TRUE"; bs "True"]) then Some true
  else if decide (s ∈ [bs "0"; bs "f"; bs "F"; bs "false"; bs "FALSE"; bs "False"])
  then Some false else None.

(** ** [flag] *)

Record Flag (T : Type) := {
  flag_name : gostring;
  IsBoolFlag : bool;
  Set_ : gostring → T → option T;
}.
Arguments flag_name {T}. Arguments IsBoolFlag {T}. Arguments Set_ {T}.

(** What [parseOne] comes to: the flags end, with the remaining arguments; an error; or
    a flag has been set. *)
Inductive parsed_one (T : Type) :=
  | FlagsEnd (rest : list gostring)
  | ErrHelp
  | Failed
  | Seen (args : list gostring) (s : T).
Arguments FlagsEnd {T}. Arguments ErrHelp {T}. Arguments Failed {T}. Arguments Seen {T}.

(** What [Parse] comes to: the values and the remaining arguments, or the exit of the
    process. *)
Inductive parsed (T : Type) :=
  | Parsed (s : T) (rest : list gostring)
  | Exit (code : Z).
Arguments Parsed {T}. Arguments Exit {T}.

Section flags.
Context {T : Type}.
Variable formal : list (Flag T).

Definition lookup_flag (name : gostring) : option (Flag T) :=
  List.find (λ f, bool_decide (flag_name f = name)) formal.

(** A name and, after an equals sign that is not its first character, a value. *)
Definition split_value (name : gostring) : gostring * option gostring :=
  match name with
  | [] => ([], None)
  | c :: rest =>
      match cut [x3d] rest with
      | Some (n, v) => (c :: n, Some v)
      | None => (name, None)
      end
  end.

(** The second half of [parseOne]: the argument without its dashes is a name, maybe with
    a value. *)
Definition parse_flag (name : gostring) (args : list gostring) (s : T) : parsed_one T :=
  let '(name, value) := split_value name in
  match lookup_flag name with
  | None => if decide (name ∈ [bs "help"; bs "h"]) then ErrHelp else Failed
  | Some flag =>
      if IsBoolFlag flag then
        match Set_ flag (default (bs "true") value) s with
        | Some s => Seen args s
        | None => Failed
        end
      else
        match value, args with
        | Some value, args | None, value :: args =>
            match Set_ flag value s with
            | Some s => Seen args s
            | None => Failed
            end
        | None, [] => Failed
        end
  end.

Definition parseOne (args : list gostring) (s : T) : parsed_one T :=
  match args with
  | [] => FlagsEnd []
  | arg :: args' =>
      match arg with
      | x2d :: c :: rest =>
          if decide (c = x2d ∧ rest = []) then FlagsEnd args'
          else
            let name := if decide (c = x2d) then rest else c :: rest in
            match name with
            | [] | x2d :: _ | x3d :: _ => Failed
            | _ => parse_flag name args' s
            end
      | _ => FlagsEnd args
      end
  end.

(** Each round consumes an argument, so there are at most as many as arguments. *)
Fixpoint parse_rounds (fuel : nat) (args : list gostring) (s : T) : parsed T :=
  match fuel with
  | O => Parsed s args
  | S fuel =>
      match parseOne args s with
      | Seen args s => parse_rounds fuel args s
      | FlagsEnd rest => Parsed s rest
      | ErrHelp => Exit 0
      | Failed => Exit 2
      end
  end.

Definition Parse (args : list gostring) (s : T) : parsed T :=
  parse_rounds (S (length args)) args s.
End flags.

Example parse_ints :
  ParseInt <$> [bs "100"; bs "-5"; bs "+7"; bs "0x_fF"; bs "0b101"; bs "017"; bs "0"; bs "1_000";
                bs "9223372036854775807"; bs "9223372036854775808"; bs "-9223372036854775808";
                bs "_1"; bs "1__0"; bs ""; bs "0x"; bs "08"; bs "1e3"] =
  [Some 100; Some (-5); Some 7; Some 255; Some 5; Some 15; Some 0; Some 1000;
   Some (2 ^ 63 - 1); None; Some (- 2 ^ 63); None; None; None; None; None; None].
Proof. vm_compute. reflexivity. Qed.

(** ** Command lines *)

(** The ways to write a flag: [-n=v], [-n v] and [-n], all with one or two dashes. *)
Inductive form := Attached | Separate | Bare.

Record setting := { two_dashes : bool; how : form; name_of : gostring; value_of : gostring }.

Definition dashes (two : bool) : gostring := if two then [x2d; x2d] else [x2d].

Definition spell (x : setting) : list gostring :=
  let flag := dashes (two_dashes x) ++ name_of x in
  match how x with
  | Attached => [flag ++ x3d :: value_of x]
  | Separate => [flag; value_of x]
  | Bare => [flag]
  end.

(** Names [flag.Var] accepts. *)
Definition flag_ok (name : gostring) : Prop :=
  (x3d ∉ name) ∧ match name with [] => False | c :: _ => c ≠ x2d end.

(** The end of the flags: a double dash, or an argument that is not a flag. *)
Definition flags_end (tail rest : list gostring) : Prop :=
  tail = [x2d; x2d] :: rest ∨
  tail = rest ∧ match tail with (x2d :: _ :: _) :: _ => False | _ => True end.

(** A request for help: a flag [-help] or [-h], maybe with a value, that is not defined. *)
Definition asks_help (defined : gostring → Prop) (tail : list gostring) : Prop :=
  ∃ two name value args, name ∈ [bs "help"; bs "h"] ∧ ¬ defined name ∧
    (value = [] ∨ ∃ v, value = x3d :: v) ∧ tail = (dashes two ++ name ++ value) :: args.

Section syntax.
Context {T : Type}.
Variable formal : list (Flag T).
Hypothesis formal_ok : Forall (λ f, flag_ok (flag_name f)) formal.

(** A setting of a defined flag in a form its kind allows. *)
Definition sets (x : setting) (s s' : T) : Prop :=
  ∃ f, lookup_flag formal (name_of x) = Some f ∧ Set_ f (value_of x) s = Some s' ∧
    match how x with
    | Attached => True
    | Separate => IsBoolFlag f = false
    | Bare => IsBoolFlag f = true ∧ value_of x = bs "true"
    end.

Fixpoint sets_all (l : list setting) (s s' : T) : Prop :=
  match l with
  | [] => s' = s
  | x :: l => ∃ s1, sets x s s1 ∧ sets_all l s1 s'
  end.

Lemma lookup_flag_name name f :
  lookup_flag formal name = Some f → flag_name f = name ∧ flag_ok name.
Proof using formal_ok.
  unfold lookup_flag. intros [Hin Hn]%List.find_some. apply bool_decide_eq_true in Hn.
  split; [done|]. subst. rewrite Forall_forall in formal_ok.
  apply formal_ok. by apply list_elem_of_In.
Qed.

(** Splitting off the value, for a name that is one. *)
Lemma split_value_attached n v : flag_ok n → split_value (n ++ x3d :: v) = (n, Some v).
Proof using.
  clear. intros [Hn Hh]. destruct n as [|c n]; [done|]. simpl.
  assert (cut [x3d] (n ++ x3d :: v) = Some (n, v)) as ->; [|done].
  apply cut_Some_byte. split; [done|]. set_solver.
Qed.

Lemma split_value_bare n : flag_ok n → split_value n = (n, None).
Proof using.
  clear. intros [Hn Hh]. destruct n as [|c n]; [done|]. unfold split_value.
  assert (cut [x3d] n = None) as ->; [|done]. apply cut_None_byte. set_solver.
Qed.

Lemma split_value_inv name n v :
  split_value name = (n, v) →
  match v with Some v => name = n ++ x3d :: v | None => name = n end.
Proof using.
  clear. destruct name as [|c name]; simpl; [by intros [= <- <-]|].
  destruct (cut [x3d] name) as [[n' v']|] eqn:E; intros [= <- <-]; [|done].
  apply cut_Some_byte in E as [-> _]. done.
Qed.

Lemma parse_flag_sets x s s' args :
  sets x s s' →
  ∃ arg args', spell x ++ args = (dashes (two_dashes x) ++ arg) :: args' ∧
    parse_flag formal arg args' s = Seen args s' ∧
    match arg with c :: _ => c ≠ x2d ∧ c ≠ x3d | [] => False end.
Proof using formal_ok.
  intros (f & Hf & Hs & Hh). pose proof (lookup_flag_name _ _ Hf) as [_ Hok].
  assert (∀ t, match name_of x ++ t with c :: _ => c ≠ x2d ∧ c ≠ x3d | [] => False end) as Hc.
  { intros t. destruct Hok as [He Hd]. destruct (name_of x) as [|c n]; [done|]. simpl.
    split; [done|]. intros ->. set_solver. }
  unfold spell. destruct (how x).
  - exists (name_of x ++ x3d :: value_of x), args. rewrite <- app_assoc. split; [done|].
    split; [|apply Hc]. unfold parse_flag. rewrite split_value_attached by done.
    rewrite Hf. simpl. destruct (IsBoolFlag f); by rewrite Hs.
  - exists (name_of x), (value_of x :: args). split; [done|].
    split; [|by specialize (Hc []); rewrite app_nil_r in Hc]. unfold parse_flag.
    rewrite split_value_bare by done. by rewrite Hf, Hh, Hs.
  - destruct Hh as [Hb Hv]. exists (name_of x), args. split; [done|].
    split; [|by specialize (Hc []); rewrite app_nil_r in Hc]. unfold parse_flag.
    rewrite split_value_bare by done. rewrite Hf, Hb. simpl. by rewrite <- Hv, Hs.
Qed.

Lemma parse_flag_seen arg args0 s args s' two :
  parse_flag formal arg args0 s = Seen args s' →
  ∃ x, two_dashes x = two ∧ sets x s s' ∧ (dashes two ++ arg) :: args0 = spell x ++ args.
Proof using.
  clear formal_ok. unfold parse_flag. destruct (split_value arg) as [n v] eqn:Hv.
  apply split_value_inv in Hv.
  destruct (lookup_flag formal n) as [f|] eqn:Hf; [|by case_decide].
  destruct (IsBoolFlag f) eqn:Hb.
  - destruct (Set_ f (default (bs "true") v) s) as [s1|] eqn:Hs; intros [= <- <-].
    destruct v as [v|]; subst arg.
    + exists (Build_setting two Attached n v). split; [done|]. split; [by exists f|].
      unfold spell. simpl. by rewrite <- app_assoc.
    + exists (Build_setting two Bare n (bs "true")). split; [done|]. split; [by exists f|done].
  - destruct v as [v|]; [|destruct args0 as [|v args0]; [done|]];
      destruct (Set_ f v s) as [s1|] eqn:Hs; intros [= <- <-]; subst arg.
    + exists (Build_setting two Attached n v). split; [done|]. split; [by exists f|].
      unfold spell. simpl. by rewrite <- app_assoc.
    + exists (Build_setting two Separate n v). split; [done|]. split; [by exists f|done].
Qed.

Lemma parseOne_seen args s args' s' :
  parseOne formal args s = Seen args' s' ↔
  ∃ x, sets x s s' ∧ args = spell x ++ args'.
Proof using formal_ok.
  split.
  - unfold parseOne. intros Hp.
    destruct args as [|[|[] [|c rest]] args0]; try discriminate Hp.
    case_decide as Hd; [done|]. revert Hp. set (name := if decide (c = x2d) then _ else _).
    intros Hp. assert (parse_flag formal name args0 s = Seen args' s') as Hf
      by (destruct name as [|[]]; done).
    apply (parse_flag_seen _ _ _ _ _ (bool_decide (c = x2d))) in Hf as (x & _ & Hx & He).
    exists x. split; [done|]. rewrite <- He. subst name.
    case_decide as Hc; [subst; by rewrite bool_decide_eq_true_2|].
    by rewrite bool_decide_eq_false_2.
  - intros (x & Hx & ->). destruct (parse_flag_sets x s s' args' Hx) as (arg & args0 & -> & Hp & Hc).
    destruct arg as [|c arg]; [done|]. destruct Hc as [H1 H2].
    destruct (two_dashes x); cbn [dashes app parseOne].
    + rewrite decide_False by naive_solver. rewrite decide_True by done.
      by destruct c.
    + rewrite decide_False by naive_solver. rewrite decide_False by done. by destruct c.
Qed.

Lemma parseOne_end args s rest : parseOne formal args s = FlagsEnd rest ↔ flags_end args rest.
Proof using.
  clear. unfold flags_end. destruct args as [|arg args]; [cbn; naive_solver|].
  assert ((∃ c t, arg = x2d :: c :: t) ∨
    parseOne formal (arg :: args) s = FlagsEnd (arg :: args) ∧
    match arg :: args with (x2d :: _ :: _) :: _ => False | _ => True end) as Hc.
  { destruct arg as [|[] [|c t]]; eauto. }
  destruct Hc as [(c & t & ->)|[-> Hm]].
  - cbn [parseOne]. case_decide as Hd.
    + destruct Hd as [-> ->]. naive_solver.
    + set (name := if decide (c = x2d) then _ else _).
      assert (∀ x, parse_flag formal name args s ≠ FlagsEnd x) as Hn.
      { intros x. unfold parse_flag. repeat case_match; done. }
      split; [intros Hp; exfalso; destruct name as [|[]]; first [done|by eapply Hn]|]. naive_solver.
  - split; [intros [= ->]; by right|]. intros [[= -> ->]|[-> _]]; done.
Qed.

Lemma parseOne_help args s :
  parseOne formal args s = ErrHelp ↔ asks_help (λ name, is_Some (lookup_flag formal name)) args.
Proof using.
  clear formal_ok. split.
  - unfold parseOne. intros Hp. destruct args as [|[|[] [|c rest]] args0]; try discriminate Hp.
    case_decide as Hd; [done|]. revert Hp. set (name := if decide (c = x2d) then _ else _).
    intros Hp. assert (parse_flag formal name args0 s = ErrHelp) as Hf
      by (destruct name as [|[]]; done).
    revert Hf. unfold parse_flag. destruct (split_value name) as [n v] eqn:Hv.
    destruct (lookup_flag formal n) as [f|] eqn:Hl; [by repeat case_match|].
    case_decide as Hn; [|done]. intros _. apply split_value_inv in Hv.
    exists (bool_decide (c = x2d)), n, (match v with Some v => x3d :: v | None => [] end), args0.
    split; [done|]. rewrite Hl. split; [by intros [??]|]. split; [destruct v; eauto|].
    assert (n ++ match v with Some v => x3d :: v | None => [] end = name) as ->
      by (destruct v; by rewrite ?app_nil_r).
    subst name. case_decide as Hc; [subst; by rewrite bool_decide_eq_true_2|].
    by rewrite bool_decide_eq_false_2.
  - intros (two & name & value & args0 & Hn & Hd & Hv & ->).
    assert (lookup_flag formal name = None) as Hl by (by apply eq_None_not_Some).
    assert (∃ c t, name = c :: t ∧ c ≠ x2d ∧ c ≠ x3d ∧ flag_ok name) as (c & t & -> & H2 & H3 & Hok).
    { rewrite !elem_of_cons in Hn. destruct Hn as [->|[->|[]%not_elem_of_nil]];
        (eexists _, _; split; [reflexivity|]); split_and!; try done; by apply (bool_decide_eq_true_1 _). }
    assert (parse_flag formal ((c :: t) ++ value) args0 s = ErrHelp) as Hp.
    { unfold parse_flag. destruct Hv as [->|[v ->]].
      - rewrite app_nil_r, split_value_bare by done. by rewrite Hl, decide_True.
      - rewrite split_value_attached by done. by rewrite Hl, decide_True. }
    destruct two; cbn [dashes app parseOne].
    + rewrite decide_False by naive_solver. rewrite decide_True by done. by destruct c.
    + rewrite decide_False by naive_solver. rewrite decide_False by done. by destruct c.
Qed.

Lemma parseOne_seen_shorter args s args' s' :
  parseOne formal args s = Seen args' s' → (length args' < length args)%nat.
Proof using formal_ok.
  intros (x & _ & ->)%parseOne_seen. rewrite length_app. unfold spell. destruct (how x); simpl; lia.
Qed.

Lemma parse_rounds_spec fuel args s s' rest :
  (length args < fuel)%nat →
  parse_rounds formal fuel args s = Parsed s' rest ↔
  ∃ l tail, args = concat (spell <$> l) ++ tail ∧ sets_all l s s' ∧ flags_end tail rest.
Proof using formal_ok.
  revert args s. induction fuel as [|fuel IH]; intros args s Hf; [lia|]. cbn [parse_rounds].
  split.
  - destruct (parseOne formal args s) as [rest'| | |args1 s1] eqn:Ep; try done.
    + intros [= <- <-]. exists [], args. split; [done|]. split; [done|].
      by eapply parseOne_end.
    + intros Hr. apply IH in Hr as (l & tail & -> & Hl & Ht);
        [|apply parseOne_seen_shorter in Ep; lia].
      apply parseOne_seen in Ep as (x & Hx & ->).
      exists (x :: l), tail. simpl. rewrite <- app_assoc. eauto.
  - intros ([|x l] & tail & -> & Hl & Ht).
    + cbn [fmap list_fmap concat app]. simpl in Hl. subst.
      by rewrite (proj2 (parseOne_end tail s rest) Ht).
    + destruct Hl as (s1 & Hx & Hl). cbn [fmap list_fmap concat] in *.
      rewrite <- app_assoc in *.
      assert (parseOne formal (spell x ++ concat (spell <$> l) ++ tail) s =
        Seen (concat (spell <$> l) ++ tail) s1) as E by (apply parseOne_seen; eauto).
      rewrite E. apply IH; [apply parseOne_seen_shorter in E; lia|]. eauto.
Qed.

Lemma parse_rounds_help fuel args s :
  (length args < fuel)%nat →
  parse_rounds formal fuel args s = Exit 0 ↔
  ∃ l tail s', args = concat (spell <$> l) ++ tail ∧ sets_all l s s' ∧
    asks_help (λ name, is_Some (lookup_flag formal name)) tail.
Proof using formal_ok.
  revert args s. induction fuel as [|fuel IH]; intros args s Hf; [lia|]. cbn [parse_rounds].
  split.
  - destruct (parseOne formal args s) as [rest'| | |args1 s1] eqn:Ep; try done.
    + intros _. exists [], args, s. split; [done|]. split; [done|]. by eapply parseOne_help.
    + intros Hr. apply IH in Hr as (l & tail & s' & -> & Hl & Ht);
        [|apply parseOne_seen_shorter in Ep; lia].
      apply parseOne_seen in Ep as (x & Hx & ->).
      exists (x :: l), tail, s'. simpl. rewrite <- app_assoc. eauto.
  - intros ([|x l] & tail & s' & -> & Hl & Ht).
    + cbn [fmap list_fmap concat app]. by rewrite (proj2 (parseOne_help tail s) Ht).
    + destruct Hl as (s1 & Hx & Hl). cbn [fmap list_fmap concat] in *.
      rewrite <- app_assoc in *.
      assert (parseOne formal (spell x ++ concat (spell <$> l) ++ tail) s =
        Seen (concat (spell <$> l) ++ tail) s1) as E by (apply parseOne_seen; eauto).
      rewrite E. apply IH; [apply parseOne_seen_shorter in E; lia|]. eauto 10.
Qed.

Lemma parse_rounds_exit fuel args s code :
  parse_rounds formal fuel args s = Exit code → code = 0 ∨ code = 2.
Proof using.
  clear formal_ok. revert args s. induction fuel as [|fuel IH]; intros args s; [done|].
  cbn [parse_rounds]. destruct (parseOne formal args s); intros Hr; simplify_eq; eauto.
Qed.
End syntax.

(** Command lines.  For names the package accepts, parsing succeeds exactly on the
    arguments that are a sequence of settings of defined flags, each written with
    one dash or two, and with its value attached, separate (for a flag that is
    not boolean) or left out (for one that is), followed by an end of the flags: a
    double dash, or the first argument that is none.  The values are then those
    of the settings, made in order, and the rest is what follows.  All other
    command lines make the program exit: with status 0 if after such settings help
    is asked for, with status 2 otherwise. *)
Lemma flag_syntax {T} (formal : list (Flag T)) args s :
  Forall (λ f, flag_ok (flag_name f)) formal →
  (∀ s' rest, Parse formal args s = Parsed s' rest ↔
    ∃ l tail, args = concat (spell <$> l) ++ tail ∧ sets_all formal l s s' ∧
      flags_end tail rest) ∧
  (Parse formal args s = Exit 0 ↔
    ∃ l tail s', args = concat (spell <$> l) ++ tail ∧ sets_all formal l s s' ∧
      asks_help (λ name, is_Some (lookup_flag formal name)) tail) ∧
  (∀ code, Parse formal args s = Exit code → code = 0 ∨ code = 2).
Proof.
  intros Hok. split_and!.
  - intros s' rest. apply parse_rounds_spec; [done|lia].
  - apply parse_rounds_help; [done|lia].
  - intros code. apply parse_rounds_exit.
Qed.

(** ** Numbers in decimal *)

(** [strconv.Itoa], for the command lines a program is given; the fuel is the number of
    digits. *)
Fixpoint decimal (fuel : nat) (n : Z) (acc : gostring) : gostring :=
  match fuel with
  | O => acc
  | S fuel =>
      let acc := byte_of_Z (48 + n mod 10) :: acc in
      if n <? 10 then acc else decimal fuel (n / 10) acc
  end.

Definition Itoa (z : Z) : gostring :=
  if z <? 0 then x2d :: decimal 20 (- z) [] else decimal 20 z [].

Lemma digit_value_decimal d :
  0 <= d < 10 → digit_value (byte_of_Z (48 + d)) = Some d ∧ byte_of_Z (48 + d) ≠ x5f ∧
    byte_of_Z (48 + d) ≠ x2b ∧ byte_of_Z (48 + d) ≠ x2d ∧ (byte_of_Z (48 + d) = x30 → d = 0).
Proof.
  intros Hd. assert (d ∈ seqZ 0 10) as Hin by (apply elem_of_seqZ; lia). clear Hd.
  revert d Hin. apply Forall_forall.
  repeat (constructor; [vm_compute; split_and!; congruence|]). constructor.
Qed.

Lemma digits_value_decimal fuel n acc m :
  0 <= n < 10 ^ Z.of_nat fuel → (0 < fuel)%nat →
  ∃ k, 0 <= k ∧ digits_value 10 m (decimal fuel n acc) = digits_value 10 (m * 10 ^ k + n) acc.
Proof.
  revert n acc. induction fuel as [|fuel IH]; intros n acc Hn Hf; [lia|]. cbn [decimal].
  assert (0 <= n mod 10 < 10) as Hd by (apply Z.mod_pos_bound; lia).
  destruct (digit_value_decimal _ Hd) as (Hv & Hu & _).
  case_match eqn:Hlt; bsimp.
  - exists 1. split; [lia|]. cbn [digits_value]. rewrite decide_False by done. rewrite Hv.
    rewrite (proj2 (Z.ltb_lt _ _)) by lia. f_equal. rewrite Z.mod_small by lia. lia.
  - assert (fuel ≠ 0%nat) as Hf0.
    { intros ->. change (10 ^ Z.of_nat 1) with 10 in Hn. lia. }
    destruct (IH (n / 10) (byte_of_Z (48 + n mod 10) :: acc)) as (k & Hk & ->); [|lia|].
    { rewrite Nat2Z.inj_succ, Z.pow_succ_r in Hn by lia. split; [apply Z.div_pos; lia|].
      apply Z.div_lt_upper_bound; lia. }
    exists (k + 1). split; [lia|]. cbn [digits_value]. rewrite decide_False by done. rewrite Hv.
    rewrite (proj2 (Z.ltb_lt _ _)) by lia. f_equal. rewrite Z.pow_add_r by lia.
    pose proof (Z.div_mod n 10 ltac:(lia)). lia.
Qed.

(** The first digit is no sign, and no zero unless the number is. *)
Lemma decimal_shape fuel n acc :
  0 <= n < 10 ^ Z.of_nat fuel → (0 < fuel)%nat →
  ∃ c t, decimal fuel n acc = c :: t ++ acc ∧ (x5f ∉ c :: t) ∧ c ≠ x2b ∧ c ≠ x2d ∧
    (c = x30 → n = 0 ∧ t = []).
Proof.
  revert n acc. induction fuel as [|fuel IH]; intros n acc Hn Hf; [lia|]. cbn [decimal].
  assert (0 <= n mod 10 < 10) as Hd by (apply Z.mod_pos_bound; lia).
  destruct (digit_value_decimal _ Hd) as (Hv & Hu & H1 & H2 & H0).
  case_match eqn:Hlt; bsimp.
  - exists (byte_of_Z (48 + n mod 10)), []. split; [done|]. split; [set_solver|].
    rewrite Z.mod_small in * by lia. split_and!; [congruence..|]. auto.
  - assert (fuel ≠ 0%nat) as Hf0.
    { intros ->. change (10 ^ Z.of_nat 1) with 10 in Hn. lia. }
    destruct (IH (n / 10) (byte_of_Z (48 + n mod 10) :: acc)) as (c & t & -> & Hc & Hp & Hm & Hz);
      [|lia|].
    { rewrite Nat2Z.inj_succ, Z.pow_succ_r in Hn by lia. split; [apply Z.div_pos; lia|].
      apply Z.div_lt_upper_bound; lia. }
    exists c, (t ++ [byte_of_Z (48 + n mod 10)]). rewrite <- app_assoc. split; [done|].
    split; [set_solver|]. split_and!; [done..|]. intros Hc0. destruct (Hz Hc0) as [Hq _].
    apply Z.div_small_iff in Hq; lia.
Qed.

(** Parsing reads back what [Itoa] writes. *)
Lemma ParseUint_decimal n :
  0 <= n < 2 ^ 64 → ParseUint (decimal 20 n []) = Some n.
Proof.
  intros Hn. assert (0 <= n < 10 ^ Z.of_nat 20) as Hb by (change (10 ^ Z.of_nat 20) with (10 ^ 20); lia).
  destruct (decimal_shape 20 n [] Hb ltac:(lia)) as (c & t & Hd & Hu & Hp & Hm & Hz).
  destruct (digits_value_decimal 20 n [] 0 Hb ltac:(lia)) as (k & Hk & Hv).
  rewrite app_nil_r in Hd. rewrite Hd in *.
  destruct (decide (c = x30)) as [->|Hc].
  - by destruct (Hz eq_refl) as [-> ->].
  - unfold ParseUint.
    replace (base_prefix (c :: t)) with (@None (Z * gostring)) by (by destruct c).
    rewrite decide_False by done. rewrite Hv, Z.mul_0_l, Z.add_0_l. cbn [digits_value].
    rewrite bool_decide_eq_false_2 by done. simpl. by rewrite (proj2 (Z.ltb_lt _ _)) by lia.
Qed.

Lemma ParseInt_Itoa z : - 2 ^ 63 <= z < 2 ^ 63 → ParseInt (Itoa z) = Some z.
Proof.
  intros Hz. unfold Itoa. case_match eqn:Hs; bsimp.
  - unfold ParseInt. rewrite ParseUint_decimal by lia.
    rewrite (proj2 (Z.leb_le _ _)) by lia. f_equal. lia.
  - assert (0 <= z < 10 ^ Z.of_nat 20) as Hb by (change (10 ^ Z.of_nat 20) with (10 ^ 20); lia).
    destruct (decimal_shape 20 z [] Hb ltac:(lia)) as (c & t & Hd & _ & Hp & Hm & _).
    pose proof (ParseUint_decimal z ltac:(lia)) as Hu. rewrite Hd in *.
    unfold ParseInt. replace (match c :: t ++ [] with _ => _ end) with (false, c :: t ++ [])
      by (by destruct c). rewrite Hu. by rewrite (proj2 (Z.ltb_lt _ _)) by lia.
Qed.
