(* ===== verification/Annotation.v ===== *)
(** * The victim annotation option

    [parseAnnotation] of [oomtracer.go]: the value of the [victim_annotation]
    flag, [key=value] with white space around either part ignored.  The empty
    key stands for observation-only mode. *)
From S2P Require Import Prelude GoStrings.

Inductive annotation_error :=
  | InvalidAnnotation (raw : gostring)
  | EmptyAnnotationKey.

Definition equals : byte := x3d.

Definition parseAnnotation (raw : gostring) : (gostring * gostring) + annotation_error :=
  let value := TrimSpace raw in
  if decide (value = []) then inl ([], [])
  else
    match SplitN value [equals] 2 with
    | [p0; p1] =>
        let key := TrimSpace p0 in
        let val := TrimSpace p1 in
        if decide (key = []) then inr EmptyAnnotationKey else inl (key, val)
    | _ => inr (InvalidAnnotation raw)
    end.

(** ** Properties *)

Lemma SplitN_2 s c :
  SplitN s [c] 2 = match cut [c] s with Some (a, t) => [a; t] | None => [s] end.
Proof. reflexivity. Qed.

Lemma equals_not_space s : made_of spaces s → equals ∉ s.
Proof.
  intros (ps & Hps & ->) Hin. apply list_elem_of_In, in_concat in Hin as (p & Hp & Hin).
  apply list_elem_of_In in Hp. rewrite Forall_forall in Hps. specialize (Hps p Hp).
  assert (Forall (λ p, equals ∉ p) spaces) as H by (by apply (bool_decide_eq_true_1 _)).
  rewrite Forall_forall in H. by apply (H p Hps), list_elem_of_In.
Qed.

Lemma made_of_app l s t : made_of l s → made_of l t → made_of l (s ++ t).
Proof.
  intros (ps & Hp & ->) (qs & Hq & ->). exists (ps ++ qs).
  by rewrite Forall_app, concat_app.
Qed.
#[export] Hint Resolve made_of_app : otdb.

(** The form of an annotation option with key [k] and value [v]. *)
Definition annotation_text (k v raw : gostring) : Prop :=
  ∃ s1 s2 s3 s4, made_of spaces s1 ∧ made_of spaces s2 ∧ made_of spaces s3 ∧
    made_of spaces s4 ∧ raw = s1 ++ k ++ s2 ++ [equals] ++ s3 ++ v ++ s4.

Lemma parse_cut raw p0 p1 :
  cut [equals] (TrimSpace raw) = Some (p0, p1) →
  (equals ∉ TrimSpace p0) ∧ annotation_text (TrimSpace p0) (TrimSpace p1) raw.
Proof.
  intros [Heq Hn]%cut_Some_byte.
  destruct (TrimSpace_spec raw) as (l & r & Hl & Hr & Hraw & _).
  destruct (TrimSpace_spec p0) as (l0 & r0 & Hl0 & Hr0 & Hp0 & _).
  destruct (TrimSpace_spec p1) as (l1 & r1 & Hl1 & Hr1 & Hp1 & _).
  split.
  - intros Hin. apply Hn. rewrite Hp0. apply elem_of_app. right. apply elem_of_app. by left.
  - exists (l ++ l0), r0, l1, (r1 ++ r). split_and!; eauto with otdb.
    rewrite Hraw, Heq, Hp0, Hp1 at 1. rewrite <- !app_assoc. simpl. by rewrite <- !app_assoc.
Qed.

(** C20. Every outcome of the annotation option: blank text selects observation-only
    mode; a result with a key comes from text of the form [key=value] with only
    white space around the parts, the key not empty and without an equals sign;
    text is rejected as malformed exactly when it is not blank and has no equals
    sign, and for its key when only white space precedes the first one. *)
Theorem parse_annotation_spec raw :
  match parseAnnotation raw with
  | inl (k, v) =>
      (k = [] ∧ v = [] ∧ made_of spaces raw) ∨
      (k ≠ [] ∧ (equals ∉ k) ∧ trimmed k ∧ trimmed v ∧ annotation_text k v raw)
  | inr (InvalidAnnotation r) => r = raw ∧ (equals ∉ raw) ∧ ¬ made_of spaces raw
  | inr EmptyAnnotationKey => ∃ s t, made_of spaces s ∧ raw = s ++ [equals] ++ t
  end.
Proof.
  destruct (TrimSpace_spec raw) as (l & r & Hl & Hr & Hraw & _).
  unfold parseAnnotation. rewrite SplitN_2. case_decide as Hv.
  - left. split_and!; [done..|]. rewrite Hraw, Hv. eauto with otdb.
  - destruct (cut [equals] (TrimSpace raw)) as [[p0 p1]|] eqn:E.
    + destruct (parse_cut raw p0 p1 E) as [Hk Ht]. case_decide as H0.
      * destruct Ht as (s1 & s2 & s3 & s4 & H1 & H2 & _ & _ & Heq). rewrite H0 in Heq.
        exists (s1 ++ s2), (s3 ++ TrimSpace p1 ++ s4). split; [eauto with otdb|].
        by rewrite Heq, <- !app_assoc.
      * right. split_and!; eauto with otdb.
    + apply cut_None_byte in E. split_and!; [done| |].
      * rewrite Hraw, !elem_of_app. apply equals_not_space in Hl, Hr. naive_solver.
      * intros Hb. apply Hv. pose proof (TrimSpace_pad raw [] []) as H.
        rewrite !app_nil_r in H. eauto with otdb.
Qed.

Lemma rune_start_made_of s t : made_of spaces s → rune_start t → rune_start (s ++ t).
Proof.
  intros (ps & Hps & ->) Ht. destruct Hps as [|p ps Hp _]; [done|].
  pose proof spaces_shape as Hs. rewrite Forall_forall in Hs. specialize (Hs p Hp).
  destruct p; [done|]. apply Hs.
Qed.

Lemma equals_starts t : rune_start (equals :: t).
Proof. by apply (bool_decide_eq_true_1 _). Qed.

(** The text between the outer white space. *)
Lemma annotation_middle k s2 t :
  k ≠ [] → trimmed k → made_of spaces s2 → t = [] ∨ trimmed t → rune_start t →
  ∀ s3, made_of spaces s3 → (t = [] → s3 = []) →
  trimmed (k ++ s2 ++ [equals] ++ s3 ++ t).
Proof.
  intros Hk [Hk1 _] H2 Ht Hst s3 H3 Hs3. split.
  - apply clean_app; [done..|]. apply rune_start_made_of; [done|]. apply equals_starts.
  - destruct (decide (t = [])) as [->|Hne].
    + rewrite (Hs3 eq_refl). rewrite (app_assoc k). apply (rclean_app (k ++ s2) [equals]);
        [done|by apply (bool_decide_eq_true_1 _)|by apply equals_starts].
    + rewrite !app_assoc. apply rclean_app; [done| |done]. destruct Ht as [?|[_ ?]]; done.
Qed.

(** C34. Round trip: for any key and value that could come out of the option (no
    white space at the ends, the key not empty and without an equals sign, the
    value starting a rune), however much white space is put around them, the
    option parses to exactly that key and value; further equals signs belong to
    the value. *)
Theorem parse_annotation_roundtrip k v raw :
  k ≠ [] → equals ∉ k → trimmed k → trimmed v → rune_start v → annotation_text k v raw →
  parseAnnotation raw = inl (k, v).
Proof.
  intros Hk Hn Hkt Hvt Hv (s1 & s2 & s3 & s4 & H1 & H2 & H3 & H4 & ->).
  assert (∃ s, made_of spaces s ∧
    TrimSpace (s1 ++ k ++ s2 ++ [equals] ++ s3 ++ v ++ s4) = (k ++ s2) ++ equals :: s ++ v)
    as (s & Hs & Htrim).
  { destruct (decide (v = [])) as [->|Hne].
    - exists []. split; [eauto with otdb|].
      replace (s1 ++ _) with (s1 ++ (k ++ s2 ++ [equals] ++ [] ++ []) ++ s3 ++ s4)
        by (rewrite <- !app_assoc; done).
      rewrite TrimSpace_pad by (eauto using annotation_middle with otdb).
      by rewrite <- !app_assoc.
    - exists s3. split; [done|].
      replace (s1 ++ _) with (s1 ++ (k ++ s2 ++ [equals] ++ s3 ++ v) ++ s4)
        by (rewrite <- !app_assoc; done).
      rewrite TrimSpace_pad; [by rewrite <- !app_assoc|done|done|].
      by apply annotation_middle; auto. }
  unfold parseAnnotation. rewrite Htrim, SplitN_2.
  rewrite decide_False by (by destruct k).
  assert (cut [equals] ((k ++ s2) ++ equals :: s ++ v) = Some (k ++ s2, s ++ v)) as ->.
  { apply cut_Some_byte. split; [done|]. rewrite elem_of_app.
    apply equals_not_space in H2. naive_solver. }
  pose proof (TrimSpace_pad [] k s2) as Ek. pose proof (TrimSpace_pad s v []) as Ev.
  rewrite app_nil_r in Ev. simpl in Ek.
  rewrite Ek, Ev, decide_False by eauto with otdb. done.
Qed.

(** ** Examples *)

Lemma parse_annotation_roundtrip_witness :
  parseAnnotation (bs "  evict-me = yes=1 ") = inl (bs "evict-me", bs "yes=1").
Proof.
  apply parse_annotation_roundtrip; try by apply (bool_decide_eq_true_1 _).
  exists (bs "  "), (bs " "), (bs " "), (bs " ").
  split_and!; [exists [[x20]; [x20]]|exists [[x20]]..|done];
    (split; [by apply (bool_decide_eq_true_1 _)|done]).
Defined.

(** What the chart passes for a dry run: two quotation marks are not blank text. *)
Example dry_run_chart : parseAnnotation [x22; x22] = inr (InvalidAnnotation [x22; x22]).
Proof. reflexivity. Qed.

Example blank_option : parseAnnotation [x20; xc2; xa0; x09] = inl ([], []).
Proof. reflexivity. Qed.
