(* ===== verification/GoRegexp.v ===== *)
(** * Regular expressions

    Go's [regexp] as the agent uses it: patterns over ASCII classes, matched
    leftmost-first with greedy repetition and numbered groups.  A byte above
    127 is in none of the classes, so matching byte by byte is matching rune by
    rune.  [find] is the matcher, a backtracking one; [lang] is the set of
    strings a pattern denotes, and [find_leftmost] relates the two; [match_whole]
    is a match anchored at both ends. *)
From S2P Require Import Prelude GoStrings.

(** ** Patterns *)

Inductive re :=
  | Empty
  | Class (p : byte → bool)
  | Cat (r1 r2 : re)
  | Star (r : re)
  | Group (n : nat) (r : re).

(** [r+] and [r{n}]. *)
Definition Plus (r : re) : re := Cat r (Star r).

Fixpoint Repeat (n : nat) (r : re) : re :=
  match n with O => Empty | S n => Cat r (Repeat n r) end.

(** A literal. *)
Fixpoint Lit (s : gostring) : re :=
  match s with [] => Empty | c :: s => Cat (Class (λ d, bool_decide (d = c))) (Lit s) end.

(** The strings a pattern denotes. *)
Inductive lang : re → gostring → Prop :=
  | lang_empty : lang Empty []
  | lang_class (p : byte → bool) c : p c = true → lang (Class p) [c]
  | lang_cat r1 r2 s1 s2 : lang r1 s1 → lang r2 s2 → lang (Cat r1 r2) (s1 ++ s2)
  | lang_star_nil r : lang (Star r) []
  | lang_star_cons r s1 s2 : lang r s1 → lang (Star r) s2 → lang (Star r) (s1 ++ s2)
  | lang_group n r s : lang r s → lang (Group n r) s.

(** ** Matching *)

Abbreviation captures := (list (nat * gostring)).

(** [match_here r s cs k]: match [r] at the start of [s], then go on with [k] on the
    rest; alternatives are tried in order of preference. A repetition stops when
    an iteration consumes nothing, so the length of [s] iterations are enough. *)
Fixpoint match_here {R} (r : re) (s : gostring) (cs : captures)
    (k : gostring → captures → option R) : option R :=
  match r with
  | Empty => k s cs
  | Class p =>
      match s with
      | c :: t => if p c then k t cs else None
      | [] => None
      end
  | Cat r1 r2 => match_here r1 s cs (λ t cs', match_here r2 t cs' k)
  | Star r =>
      (fix loop (n : nat) (s : gostring) (cs : captures) : option R :=
         match n with
         | O => k s cs
         | S n =>
             match match_here r s cs (λ t cs',
               if (length t <? length s)%nat then loop n t cs' else None) with
             | Some x => Some x
             | None => k s cs
             end
         end) (length s) s cs
  | Group n r =>
      match_here r s cs (λ t cs', k t ((n, take (length s - length t) s) :: cs'))
  end.

(** The leftmost match: the matched text and the captures, last one first. *)
Fixpoint find (r : re) (s : gostring) : option (gostring * captures) :=
  match match_here r s [] (λ t cs, Some (t, cs)) with
  | Some (t, cs) => Some (take (length s - length t) s, cs)
  | None => match s with [] => None | _ :: s => find r s end
  end.

(** The capture of group [n], empty if it did not take part. *)
Fixpoint capture (n : nat) (cs : captures) : gostring :=
  match cs with
  | [] => []
  | (m, w) :: cs => if decide (n = m) then w else capture n cs
  end.

(** [r.FindStringSubmatch(s)] for a pattern with [groups] groups, nil for no match. *)
Definition FindStringSubmatch (r : re) (groups : nat) (s : gostring) : option (list gostring) :=
  match find r s with
  | Some (w, cs) => Some (w :: ((λ n, capture n cs) <$> seq 1 groups))
  | None => None
  end.

(** [r.FindString(s)], empty for no match. *)
Definition FindString (r : re) (s : gostring) : gostring :=
  match find r s with Some (w, _) => w | None => [] end.

(** [regexp.MatchString(`^r$`, s)]: the text anchors admit only a match of the whole
    string. *)
Definition match_whole (r : re) (s : gostring) : bool :=
  match match_here r s [] (λ t _, if decide (t = []) then Some () else None) with
  | Some _ => true
  | None => false
  end.

(** ** Correctness of the matcher *)

(** The loop of a repetition, named. *)
Definition star_loop {R} (r : re) (k : gostring → captures → option R) :
    nat → gostring → captures → option R :=
  fix loop n s cs :=
    match n with
    | O => k s cs
    | S n =>
        match match_here r s cs (λ t cs',
          if (length t <? length s)%nat then loop n t cs' else None) with
        | Some x => Some x
        | None => k s cs
        end
    end.

Lemma match_star {R} r s cs (k : gostring → captures → option R) :
  match_here (Star r) s cs k = star_loop r k (length s) s cs.
Proof. reflexivity. Qed.

Lemma match_sound {R} r s cs (k : gostring → captures → option R) x :
  match_here r s cs k = Some x →
  ∃ w t cs', s = w ++ t ∧ lang r w ∧ k t cs' = Some x.
Proof.
  revert s cs k. induction r as [|p|r1 IH1 r2 IH2|r IH|n r IH]; intros s cs k Hm.
  - exists [], s, cs. split_and!; [done|constructor|done].
  - simpl in Hm. destruct s as [|c t]; [done|]. destruct (p c) eqn:Hp; [|done].
    exists [c], t, cs. split_and!; [done|by constructor|done].
  - simpl in Hm. apply IH1 in Hm as (w1 & t1 & cs1 & -> & H1 & Hm).
    apply IH2 in Hm as (w2 & t2 & cs2 & -> & H2 & Hk).
    exists (w1 ++ w2), t2, cs2. split_and!; [by rewrite app_assoc|by constructor|done].
  - rewrite match_star in Hm. revert Hm. generalize (length s) as n. intros n.
    revert s cs. induction n as [|n IHn]; intros s cs Hm; simpl in Hm.
    + exists [], s, cs. split_and!; [done|constructor|done].
    + destruct (match_here r s cs _) as [y|] eqn:E.
      * simplify_eq. apply IH in E as (w & t & cs' & -> & Hw & Hk).
        destruct (_ <? _)%nat; [|done].
        apply IHn in Hk as (w2 & t2 & cs2 & -> & H2 & Hk).
        exists (w ++ w2), t2, cs2. split_and!; [by rewrite app_assoc|by constructor|done].
      * exists [], s, cs. split_and!; [done|constructor|done].
  - simpl in Hm. apply IH in Hm as (w & t & cs' & -> & Hw & Hk).
    do 3 eexists. split_and!; [done|by constructor|done].
Qed.

(** A repetition can be matched by non-empty pieces. *)
Lemma lang_star_inv r w :
  lang (Star r) w → w = [] ∨ ∃ w1 w2, w = w1 ++ w2 ∧ w1 ≠ [] ∧ lang r w1 ∧ lang (Star r) w2.
Proof.
  intros Hw. remember (Star r) as r' eqn:Hr. induction Hw; simplify_eq; [by left|].
  destruct (decide (s1 = [])) as [->|Hne]; [by apply IHHw2|].
  right. eauto 10.
Qed.

Lemma match_complete {R} r w t cs (k : gostring → captures → option R) :
  lang r w → (∀ cs', is_Some (k t cs')) → is_Some (match_here r (w ++ t) cs k).
Proof.
  revert w t cs k. induction r as [|p|r1 IH1 r2 IH2|r IH|n r IH]; intros w t cs k Hw Hk.
  - inversion Hw. subst. apply Hk.
  - inversion Hw as [|? ? Hp| | | |]. subst. simpl. rewrite Hp. apply Hk.
  - inversion Hw as [| |? ? s1 s2 H1 H2| | |]. subst. simpl. rewrite <- app_assoc.
    apply IH1; [done|]. intros. by apply IH2.
  - rewrite match_star.
    enough (∀ n, (length (w ++ t) <= n)%nat → is_Some (star_loop r k n (w ++ t) cs)) by eauto.
    intros n. revert w t cs Hw Hk. induction n as [|n IHn]; intros w t cs Hw Hk Hn; simpl.
    + destruct w; [apply Hk|by apply Nat.nle_succ_0 in Hn].
    + destruct (lang_star_inv r w Hw) as [->|(w1 & w2 & -> & Hne & H1 & H2)].
      { destruct (match_here r _ cs _); [done|apply Hk]. }
      rewrite <- app_assoc in *.
      destruct (IH w1 (w2 ++ t) cs (λ t' cs',
        if (length t' <? length (w1 ++ w2 ++ t))%nat then star_loop r k n t' cs' else None) H1)
        as [y ->]; [|done].
      intros cs'. rewrite !length_app in *. destruct w1 as [|c w1]; [done|]. simpl in *.
      rewrite (proj2 (Nat.ltb_lt _ _)) by lia. apply IHn; [done|done|rewrite length_app; lia].
  - inversion Hw. subst. simpl. apply IH; [done|]. intros. apply Hk.
Qed.

(** An anchored match is membership. *)
Lemma match_whole_lang r s : match_whole r s = true ↔ lang r s.
Proof.
  unfold match_whole. split.
  - destruct (match_here r s [] _) as [x|] eqn:E; [intros _|done].
    apply match_sound in E as (w & t & cs & -> & Hw & Ht).
    case_decide as H; [|done]. by rewrite H, app_nil_r.
  - intros Hs. destruct (match_complete r s [] []
      (λ t _, if decide (t = []) then Some () else None) Hs) as [x Hx].
    + intros _. by rewrite decide_True.
    + rewrite app_nil_r in Hx. by rewrite Hx.
Qed.

(** Repetitions of a class are the strings of its bytes. *)
Lemma lang_class_inv p w : lang (Class p) w → ∃ c, w = [c] ∧ p c = true.
Proof. intros H. inversion H. eauto. Qed.

Lemma lang_star_class p w : lang (Star (Class p)) w ↔ Forall (λ c, p c = true) w.
Proof.
  split.
  - intros Hw. remember (Star (Class p)) as r eqn:Hr. induction Hw; simplify_eq; [constructor|].
    apply lang_class_inv in Hw1 as (c & -> & Hc). constructor; auto.
  - induction 1 as [|c w Hc _ IH]; [constructor|].
    apply (lang_star_cons _ [c] w); [by constructor|done].
Qed.

Lemma lang_plus_class p w : lang (Plus (Class p)) w ↔ w ≠ [] ∧ Forall (λ c, p c = true) w.
Proof.
  split.
  - intros Hw. inversion Hw as [| |? ? s1 s2 H1 H2| | |]; subst.
    apply lang_class_inv in H1 as (c & -> & Hc). apply lang_star_class in H2.
    split; [done|]. by constructor.
  - intros [Hne Hw]. destruct Hw as [|c w Hc Hw]; [done|].
    apply (lang_cat _ _ [c] w); [by constructor|by apply lang_star_class].
Qed.

Lemma lang_lit_cat a r w : lang (Cat (Lit a) r) w ↔ ∃ t, w = a ++ t ∧ lang r t.
Proof.
  assert (Hl : ∀ w, lang (Lit a) w ↔ w = a).
  { clear w. induction a as [|c a IH]; intros w; cbn [Lit].
    - split; [intros H; by inversion H|intros ->; constructor].
    - split.
      + intros H. inversion H as [| |? ? s1 s2 H1 H2| | |]; subst.
        apply lang_class_inv in H1 as (d & -> & Hd%bool_decide_eq_true). apply IH in H2. by subst.
      + intros ->. apply (lang_cat _ _ [c] a); [constructor; by apply bool_decide_eq_true|by apply IH]. }
  split.
  - intros H. inversion H as [| |? ? s1 s2 H1 H2| | |]; subst. apply Hl in H1 as ->. eauto.
  - intros (t & -> & Ht). constructor; [by apply Hl|done].
Qed.

Lemma lang_cat_inv r1 r2 w : lang (Cat r1 r2) w ↔ ∃ w1 w2, w = w1 ++ w2 ∧ lang r1 w1 ∧ lang r2 w2.
Proof.
  split; [intros H; inversion H; subst; eauto|intros (w1 & w2 & -> & ? & ?); by constructor].
Qed.

(** The matcher is right and leftmost: the text it reports is denoted by the
    pattern and found in the string, no match starts further left, and when it
    reports none the string contains no match at all. *)
Lemma find_leftmost r s :
  match find r s with
  | Some (w, _) => ∃ pre post, s = pre ++ w ++ post ∧ lang r w ∧
      ∀ pre1 pre2 w' post', pre = pre1 ++ pre2 → pre2 ≠ [] → lang r w' →
        pre2 ++ w ++ post ≠ w' ++ post'
  | None => ∀ pre w post, lang r w → s ≠ pre ++ w ++ post
  end.
Proof.
  induction s as [|c s IH]; cbn [find].
  - destruct (match_here r [] [] _) as [[t cs]|] eqn:E.
    + apply match_sound in E as (w & t' & cs' & Heq & Hw & [= -> ->]).
      symmetry in Heq. apply app_eq_nil in Heq as [-> ->]. exists [], []. split_and!; [done..|].
      intros [|] [|]; done.
    + intros pre w post Hw Heq. symmetry in Heq. apply app_eq_nil in Heq as [-> Heq].
      destruct (match_complete r w post [] (λ t cs, Some (t, cs)) Hw) as [x Hx]; [eauto|].
      by rewrite Heq, E in Hx.
  - destruct (match_here r (c :: s) [] _) as [[t cs]|] eqn:E.
    + apply match_sound in E as (w & t' & cs' & -> & Hw & [= -> ->]).
      exists [], t. rewrite length_app, Nat.add_sub, take_app_length.
      split_and!; [done..|]. intros [|] [|]; done.
    + assert (Hnone : ∀ w' post', lang r w' → c :: s ≠ w' ++ post').
      { intros w' post' Hw' Heq.
        destruct (match_complete r w' post' [] (λ t cs, Some (t, cs)) Hw') as [x Hx]; [eauto|].
        by rewrite <- Heq, E in Hx. }
      destruct (find r s) as [[w cs]|].
      * destruct IH as (pre & post & -> & Hw & Hmin). exists (c :: pre), post.
        split_and!; [done..|]. intros [|d pre1] pre2 w' post' Hp Hne Hw'; simplify_eq/=.
        { by apply Hnone. } by eapply Hmin.
      * intros [|d pre] w post Hw Heq; simplify_eq/=; [by eapply Hnone|by eapply IH].
Qed.
