(* ===== verification/Lookup.v ===== *)
(** * Finding the pod of a cgroup name

    [LookupPod] of [oomtracer.go] with its two patterns.  A cgroup name stands
    for a pod by the pod's UID, which systemd spells with underscores, or by
    the id of one of its containers.  [pod_id] and [container_id] are direct
    descriptions of what the patterns extract, [lookup_pod_spec] states what
    the lookup finds in terms of them. *)
From S2P Require Import Prelude GoStrings GoRegexp.

(** ** Pods *)

Record ContainerStatus := { ContainerID : gostring }.

(** The parts of [corev1.Pod] the agent reads. *)
Record Pod := {
  Namespace : gostring;
  Name : gostring;
  UID : gostring;
  Annotations : gmap gostring gostring;
  ContainerStatuses : list ContainerStatus;
  InitContainerStatuses : list ContainerStatus;
  EphemeralContainerStatuses : list ContainerStatus;
}.

(** [ID], the identity of a victim pod. *)
Record ID := {
  id_Namespace : gostring;
  id_Name : gostring;
  id_UID : gostring;
  id_Annotations : gmap gostring gostring;
}.

Definition pod_ID (p : Pod) : ID := {|
  id_Namespace := Namespace p; id_Name := Name p; id_UID := UID p;
  id_Annotations := Annotations p |}.

(** ** The patterns *)

Definition in_range (lo hi c : byte) : bool :=
  (byte_to_Z lo <=? byte_to_Z c) && (byte_to_Z c <=? byte_to_Z hi).

(** [[a-f0-9]] and [[a-f0-9_-]]. *)
Definition hex_char (c : byte) : bool := in_range x61 x66 c || in_range x30 x39 c.

Definition uid_char (c : byte) : bool :=
  in_range x61 x66 c || in_range x30 x39 c || bool_decide (c = x5f) || bool_decide (c = x2d).

(** [pod([a-f0-9_-]+)] *)
Definition podPattern : re := Cat (Lit (bs "pod")) (Group 1 (Plus (Class uid_char))).

(** [[a-f0-9]{64}] *)
Definition cidPattern : re := Repeat 64 (Class hex_char).

(** ** The lookup *)

(** One of the three loops over container statuses. *)
Fixpoint status_match (target : gostring) (l : list ContainerStatus) : bool :=
  match l with
  | [] => false
  | status :: l =>
      let live := FindString cidPattern (ContainerID status) in
      if negb (bool_decide (live = [])) && bool_decide (live = target) then true
      else status_match target l
  end.

Definition LookupPod (pcid : gostring) (pods : list Pod) : option ID :=
  let podUIDMatch := FindStringSubmatch podPattern 1 pcid in
  let containerIDMatch := FindStringSubmatch cidPattern 0 pcid in
  match podUIDMatch, containerIDMatch with
  | None, None => None
  | _, _ =>
      (fix loop (pods : list Pod) : option ID :=
         match pods with
         | [] => None
         | pod :: pods =>
             match podUIDMatch, containerIDMatch with
             | Some m, _ =>
                 let podUID := ReplaceAll (nth 1 m []) [x5f] [x2d] in
                 if decide (UID pod = podUID) then Some (pod_ID pod) else loop pods
             | None, Some m =>
                 let target := nth 0 m [] in
                 if status_match target (ContainerStatuses pod) then Some (pod_ID pod)
                 else if status_match target (InitContainerStatuses pod) then Some (pod_ID pod)
                 else if status_match target (EphemeralContainerStatuses pod)
                 then Some (pod_ID pod)
                 else loop pods
             | None, None => loop pods
             end
         end) pods
  end.

(** ** What the patterns extract *)

(** The longest prefix of [s] whose bytes satisfy [p], and the rest. *)
Fixpoint span (p : byte → bool) (s : gostring) : gostring * gostring :=
  match s with
  | [] => ([], [])
  | c :: t => if p c then let '(a, r) := span p t in (c :: a, r) else ([], s)
  end.

(** The first [f] that is defined at a suffix of [s]. *)
Fixpoint first_suffix {A} (f : gostring → option A) (s : gostring) : option A :=
  match f s with
  | Some x => Some x
  | None => match s with [] => None | _ :: s => first_suffix f s end
  end.

(** The UID characters after a [pod] at the start of [s], as many as there are. *)
Definition pod_here (s : gostring) : option gostring :=
  match strip_prefix (bs "pod") s with
  | Some t => match span uid_char t with ([], _) => None | (g, _) => Some g end
  | None => None
  end.

Definition cid_here (s : gostring) : option gostring :=
  if (64 <=? length s)%nat && forallb hex_char (take 64 s) then Some (take 64 s) else None.

Definition pod_id : gostring → option gostring := first_suffix pod_here.
Definition container_id : gostring → option gostring := first_suffix cid_here.

Lemma match_class_star {R} p s cs (k : gostring → captures → option R) :
  (∀ t cs, is_Some (k t cs)) → match_here (Star (Class p)) s cs k = k (span p s).2 cs.
Proof.
  intros Hk. rewrite match_star.
  enough (∀ n, (length s <= n)%nat → star_loop (Class p) k n s cs = k (span p s).2 cs) by eauto.
  intros n. revert s. induction n as [|n IH]; intros [|c t] Hn; simpl in *; try done; [lia|].
  destruct (p c); [|done]. rewrite (proj2 (Nat.ltb_lt _ _)) by lia.
  rewrite IH by lia. destruct (span p t) as [a r]. simpl. by destruct (Hk r cs) as [x ->].
Qed.

Lemma match_repeat {R} n p s cs (k : gostring → captures → option R) :
  match_here (Repeat n (Class p)) s cs k =
  if (n <=? length s)%nat && forallb p (take n s) then k (drop n s) cs else None.
Proof.
  revert s. induction n as [|n IH]; intros [|c t]; simpl; try done.
  destruct (p c); simpl; [apply IH|by rewrite andb_false_r].
Qed.

Lemma match_lit {R} l s cs (k : gostring → captures → option R) :
  match_here (Lit l) s cs k =
  match strip_prefix l s with Some t => k t cs | None => None end.
Proof.
  revert s. induction l as [|c l IH]; intros s; simpl; [done|].
  destruct s as [|d s]; [done|]. case_bool_decide; case_decide; try congruence; apply IH.
Qed.

Lemma span_app p s : s = (span p s).1 ++ (span p s).2.
Proof.
  induction s as [|c s IH]; simpl; [done|]. destruct (p c); [|done].
  destruct (span p s). simpl in *. congruence.
Qed.

Lemma match_plus_class {R} p s cs (k : gostring → captures → option R) :
  (∀ t cs, is_Some (k t cs)) →
  match_here (Plus (Class p)) s cs k =
  match span p s with ([], _) => None | (_, r) => k r cs end.
Proof.
  intros Hk. unfold Plus. cbn [match_here]. destruct s as [|c t]; [done|]. simpl span.
  destruct (p c); [|done].
  etransitivity; [apply (match_class_star p t cs k Hk)|]. by destruct (span p t).
Qed.

Abbreviation accept := (λ (t : gostring) (cs : captures), Some (t, cs)).

Lemma accept_some t cs : is_Some (accept t cs).
Proof. eauto. Qed.

(** Text that a suffix search splits off the front. *)
Definition matched (s t : gostring) : gostring := take (length s - length t) s.

Lemma matched_app w t : matched (w ++ t) t = w.
Proof. unfold matched. by rewrite length_app, Nat.add_sub, take_app_length. Qed.

Lemma match_pod s :
  match_here podPattern s [] accept =
  match pod_here s with
  | Some g => Some (drop (3 + length g) s, [(1%nat, g)])
  | None => None
  end.
Proof.
  unfold podPattern, pod_here. cbn [match_here]. rewrite match_lit.
  destruct (strip_prefix (bs "pod") s) as [t|] eqn:E; [|done].
  apply strip_prefix_Some in E as ->.
  rewrite match_plus_class by eauto. pose proof (span_app uid_char t) as Ht.
  destruct (span uid_char t) as [[|c g] r]; [done|]. simpl in Ht. subst t.
  fold (matched (c :: g ++ r) r). rewrite app_comm_cons, matched_app.
  change (3 + length (c :: g))%nat with (length (bs "pod") + length (c :: g))%nat.
  by rewrite <- length_app, app_assoc, drop_app_length.
Qed.

Lemma pod_here_Some s g :
  pod_here s = Some g → ∃ r, s = bs "pod" ++ g ++ r ∧ g ≠ [].
Proof.
  unfold pod_here. destruct (strip_prefix (bs "pod") s) as [t|] eqn:E; [|done].
  apply strip_prefix_Some in E as ->. pose proof (span_app uid_char t) as Ht.
  destruct (span uid_char t) as [[|c g'] r]; [done|]. intros [= <-].
  exists r. simpl in Ht. by rewrite Ht.
Qed.

Lemma find_pod s :
  find podPattern s = (λ g, (bs "pod" ++ g, [(1%nat, g)])) <$> pod_id s.
Proof.
  unfold pod_id.
  induction s as [|c s IH]; cbn [find first_suffix]; rewrite match_pod; [done|].
  destruct (pod_here (c :: s)) as [g|] eqn:E; [|done].
  apply pod_here_Some in E as (r & -> & _). rewrite app_assoc.
  change (3 + length g)%nat with (length (bs "pod") + length g)%nat.
  rewrite <- length_app, drop_app_length. by rewrite length_app, Nat.add_sub, take_app_length.
Qed.

Lemma cid_here_Some s w : cid_here s = Some w → ∃ r, s = w ++ r ∧ length w = 64%nat.
Proof.
  unfold cid_here. destruct (_ && _) eqn:E; [|done]. intros [= <-].
  apply andb_prop in E as [E%Nat.leb_le _]. exists (drop 64 s).
  rewrite take_drop, length_take. split; [done|lia].
Qed.

Lemma find_cid s : find cidPattern s = (λ w, (w, [])) <$> container_id s.
Proof.
  unfold container_id, cidPattern.
  induction s as [|c s IH]; cbn [find first_suffix]; rewrite match_repeat; [done|].
  unfold cid_here at 1. destruct (_ && _) eqn:E; [|done]. simpl fmap.
  apply andb_prop in E as [E%Nat.leb_le _]. rewrite length_drop.
  by replace (length (c :: s) - (length (c :: s) - 64))%nat with 64%nat by lia.
Qed.

(** ** What the lookup finds *)

(** The spelling of a UID in cgroup names: systemd escapes the dashes. *)
Definition unescape (s : gostring) : gostring :=
  (λ c, if decide (c = x5f) then x2d else c) <$> s.

(** A container id reported in a pod's status, in any of the three lists. *)
Definition reports (pod : Pod) (w : gostring) : bool :=
  existsb (λ st, bool_decide (container_id (ContainerID st) = Some w))
    (ContainerStatuses pod ++ InitContainerStatuses pod ++ EphemeralContainerStatuses pod).

(** The name [s] stands for the pod [p]. *)
Definition stands_for (s : gostring) (p : Pod) : bool :=
  match pod_id s, container_id s with
  | Some g, _ => bool_decide (UID p = unescape g)
  | None, Some w => reports p w
  | None, None => false
  end.

Lemma first_suffix_here {A} (f : gostring → option A) s x :
  f s = Some x → first_suffix f s = Some x.
Proof. destruct s; cbn [first_suffix]; by intros ->. Qed.

Lemma status_match_reports w l :
  w ≠ [] → status_match w l =
  existsb (λ st, bool_decide (container_id (ContainerID st) = Some w)) l.
Proof.
  intros Hw. induction l as [|st l IH]; [done|]. cbn [status_match existsb].
  unfold FindString. rewrite find_cid.
  destruct (container_id (ContainerID st)) as [v|] eqn:E; simpl.
  - assert (v ≠ []) as Hv.
    { clear -E. unfold container_id in E.
      induction (ContainerID st) as [|c s IHs]; cbn [first_suffix] in E.
      - by vm_compute in E.
      - destruct (cid_here (c :: s)) as [u|] eqn:Eu; [|by apply IHs].
        simplify_eq. apply cid_here_Some in Eu as (_ & _ & Hl). by destruct v. }
    rewrite (bool_decide_eq_false_2 (v = [])) by done. simpl.
    do 2 case_bool_decide; simplify_eq; try done.
  - done.
Qed.

Lemma container_id_length s w : container_id s = Some w → length w = 64%nat.
Proof.
  unfold container_id. induction s as [|c s IH]; cbn [first_suffix]; [done|].
  destruct (cid_here (c :: s)) as [u|] eqn:Eu; [|done].
  intros [= <-]. by apply cid_here_Some in Eu as (_ & _ & ?).
Qed.

Lemma lookup_pod_found s pods :
  LookupPod s pods = pod_ID <$> List.find (stands_for s) pods.
Proof.
  unfold LookupPod, FindStringSubmatch. rewrite find_pod, find_cid. unfold stands_for.
  destruct (pod_id s) as [g|].
  - simpl. rewrite ReplaceAll_byte. fold (unescape g).
    induction pods as [|p pods IH]; [done|]. simpl.
    case_bool_decide; case_decide; done.
  - destruct (container_id s) as [w|] eqn:Ew; simpl.
    + apply container_id_length in Ew.
      induction pods as [|p pods IH]; [done|]. simpl.
      rewrite !status_match_reports by (by destruct w).
      unfold reports. rewrite !existsb_app.
      by repeat (destruct (existsb _ _); simpl; try done).
    + by induction pods.
Qed.

(** C15. The lookup returns the identity of the first listed pod the name stands
    for: by UID when the name contains [pod] followed by UID characters, of
    which the leftmost maximal run counts and underscores are read as dashes;
    only otherwise by its leftmost run of 64 hexadecimal digits, which must be
    the container id of one of the pod's containers, init containers or
    ephemeral containers.  It returns nothing exactly when no pod is such. *)
Theorem lookup_pod_spec s pods :
  match LookupPod s pods with
  | Some id => ∃ before p after, pods = before ++ p :: after ∧ id = pod_ID p ∧
      stands_for s p = true ∧ Forall (λ q, stands_for s q = false) before
  | None => Forall (λ p, stands_for s p = false) pods
  end.
Proof.
  rewrite lookup_pod_found. induction pods as [|p pods IH]; [constructor|]. simpl.
  destruct (stands_for s p) eqn:E; simpl.
  - exists [], p, pods. split_and!; [done..|constructor].
  - destruct (pod_ID <$> List.find (stands_for s) pods) as [id|].
    + destruct IH as (before & q & after & -> & -> & Hq & Hb).
      exists (p :: before), q, after. split_and!; [done..|by constructor].
    + by constructor.
Qed.

(** ** Names the kubelet and the container runtimes give *)

Definition starts_with (p : byte → bool) (s : gostring) : bool :=
  match s with [] => false | c :: _ => p c end.

Lemma span_all p g post :
  forallb p g = true → starts_with p post = false → span p (g ++ post) = (g, post).
Proof.
  intros Hg Hpost. induction g as [|c g IH]; simpl in *.
  - destruct post as [|d post]; [done|]. simpl in *. by rewrite Hpost.
  - apply andb_prop in Hg as [-> Hg]. by rewrite IH.
Qed.

Lemma pod_here_app g post :
  g ≠ [] → forallb uid_char g = true → starts_with uid_char post = false →
  pod_here (bs "pod" ++ g ++ post) = Some g.
Proof.
  intros Hne Hg Hpost. unfold pod_here.
  rewrite (proj2 (strip_prefix_Some _ _ (g ++ post))) by done.
  rewrite span_all by done. by destruct g.
Qed.

(** The name of a pod's cgroup: with systemd, a slice whose name repeats the quality
    of service class; without, the bare name. *)
Inductive qos := Guaranteed | Burstable | BestEffort.

Definition escape (uid : gostring) : gostring :=
  (λ c, if decide (c = x2d) then x5f else c) <$> uid.

Definition slice_name (q : qos) (uid : gostring) : gostring :=
  bs match q with
     | Guaranteed => "kubepods-" | Burstable => "kubepods-burstable-"
     | BestEffort => "kubepods-besteffort-"
     end ++ bs "pod" ++ escape uid ++ bs ".slice".

Definition cgroupfs_name (uid : gostring) : gostring := bs "pod" ++ uid.

(** A UID: lower-case hexadecimal digits and dashes. *)
Definition is_uid (s : gostring) : bool :=
  negb (bool_decide (s = [])) && forallb (λ c, hex_char c || bool_decide (c = x2d)) s.

Lemma hex_uid_char c : hex_char c = true → uid_char c = true.
Proof. unfold hex_char, uid_char. by intros ->. Qed.

Lemma escape_uid_chars s :
  forallb (λ c, hex_char c || bool_decide (c = x2d)) s = true →
  forallb uid_char (escape s) = true ∧ forallb uid_char s = true ∧
  unescape (escape s) = s ∧ unescape s = s.
Proof.
  induction s as [|c s IH]; simpl; [done|]. intros [Hc Hs]%andb_prop.
  destruct (IH Hs) as (-> & -> & -> & ->).
  assert (c ≠ x5f) as Hne by (by intros ->).
  apply orb_prop in Hc as [Hc|Hc%bool_decide_eq_true]; [|by subst c].
  assert (c ≠ x2d) as Hnd by (by intros ->).
  rewrite !(decide_False (P := c = x2d)), (decide_False (P := c = x5f)) by done.
  by rewrite (hex_uid_char c).
Qed.

Lemma pod_id_slice q uid :
  is_uid uid = true → pod_id (slice_name q uid) = Some (escape uid).
Proof.
  intros [Hne Hu]%andb_prop. apply escape_uid_chars in Hu as (Hu & _).
  apply negb_true_iff, bool_decide_eq_false in Hne.
  unfold slice_name. set (rest := bs "pod" ++ escape uid ++ bs ".slice").
  transitivity (pod_id rest).
  - destruct q; reflexivity.
  - apply first_suffix_here, pod_here_app; [by destruct uid|done|done].
Qed.

Lemma pod_id_cgroupfs uid :
  is_uid uid = true → pod_id (cgroupfs_name uid) = Some uid.
Proof.
  intros [Hne Hu]%andb_prop. apply escape_uid_chars in Hu as (_ & Hu & _).
  apply negb_true_iff, bool_decide_eq_false in Hne.
  apply first_suffix_here. unfold cgroupfs_name.
  pose proof (pod_here_app uid []) as H. rewrite app_nil_r in H. by apply H.
Qed.

Lemma find_ext {A} (f g : A → bool) l : (∀ x, f x = g x) → List.find f l = List.find g l.
Proof. intros Hfg. induction l as [|x l IH]; simpl; [done|]. by rewrite Hfg, IH. Qed.

(** C16. Pods are found by the names of their cgroups: for the slice systemd has for
    a pod of any quality of service class, and for the directory the cgroupfs
    driver has, the lookup returns the first listed pod with exactly that
    UID. *)
Theorem lookup_pod_cgroup q uid pods :
  is_uid uid = true →
  let found := pod_ID <$> List.find (λ p, bool_decide (UID p = uid)) pods in
  LookupPod (slice_name q uid) pods = found ∧ LookupPod (cgroupfs_name uid) pods = found.
Proof.
  intros Hu. cbv zeta.
  pose proof (pod_id_slice q uid Hu) as Hs. pose proof (pod_id_cgroupfs uid Hu) as Hc.
  apply andb_prop in Hu as [_ Hu]. apply escape_uid_chars in Hu as (_ & _ & H1 & H2).
  split; rewrite lookup_pod_found; f_equal; apply find_ext; intros p; unfold stands_for;
    [by rewrite Hs, H1|by rewrite Hc, H2].
Qed.

(** ** Container scopes *)

Inductive runtime := Containerd | Crio | Docker.

(** The cgroup of a container with id [w]. *)
Definition scope_name (r : runtime) (w : gostring) : gostring :=
  bs match r with
     | Containerd => "cri-containerd-" | Crio => "crio-" | Docker => "docker-"
     end ++ w ++ bs ".scope".

(** The container id as it is reported in the pod's status. *)
Definition status_id (r : runtime) (w : gostring) : gostring :=
  bs match r with
     | Containerd => "containerd://" | Crio => "cri-o://" | Docker => "docker://"
     end ++ w.

Lemma cid_here_bad u c t :
  (length u < 64)%nat → hex_char c = false → cid_here (u ++ c :: t) = None.
Proof.
  intros Hu Hc. unfold cid_here. rewrite take_app_ge by lia.
  replace (64 - length u)%nat with (S (63 - length u)) by lia. cbn [take].
  rewrite forallb_app. simpl. by rewrite Hc, !andb_false_r.
Qed.

(** Text that ends in no hexadecimal digit is skipped. *)
Lemma container_id_skip u c t :
  (length u < 64)%nat → hex_char c = false →
  container_id (u ++ c :: t) = container_id t.
Proof.
  intros Hu Hc. induction u as [|d u IH].
  - unfold container_id. cbn [app first_suffix]. 
    pose proof (cid_here_bad [] c t Hu Hc) as H. simpl in H. by rewrite H.
  - unfold container_id in *. cbn [app first_suffix]. rewrite app_comm_cons, cid_here_bad by done.
    apply IH. simpl in Hu. lia.
Qed.

Lemma container_id_here w t :
  length w = 64%nat → forallb hex_char w = true → container_id (w ++ t) = Some w.
Proof.
  intros Hl Hw. apply first_suffix_here. unfold cid_here.
  rewrite <- Hl, take_app_length, length_app, Hw.
  by rewrite (proj2 (Nat.leb_le _ _)) by lia.
Qed.

(** No [pod] starts inside hexadecimal digits. *)
Lemma pod_id_hex w t : forallb hex_char w = true → pod_id (w ++ t) = pod_id t.
Proof.
  induction w as [|c w IH]; [done|]. simpl. intros [Hc Hw]%andb_prop.
  unfold pod_id in *. cbn [first_suffix].
  assert (pod_here (c :: w ++ t) = None) as ->.
  { unfold pod_here. destruct (strip_prefix (bs "pod") (c :: w ++ t)) as [u|] eqn:E; [|done].
    apply strip_prefix_Some in E. simplify_eq/=. }
  by apply IH.
Qed.

(** C17. Pods are found by their containers: for the scope that containerd, CRI-O or
    Docker has for a container, the lookup returns the first listed pod that
    reports the container's id, and a pod reports it when it is the id in the
    status of any of its containers, of whichever kind. *)
Theorem lookup_container_scope r w pods :
  length w = 64%nat → forallb hex_char w = true →
  LookupPod (scope_name r w) pods = pod_ID <$> List.find (λ p, reports p w) pods ∧
  ∀ p st, ContainerID st = status_id r w →
    st ∈ ContainerStatuses p ++ InitContainerStatuses p ++ EphemeralContainerStatuses p →
    reports p w = true.
Proof.
  intros Hl Hw. split.
  - rewrite lookup_pod_found. f_equal. apply find_ext. intros p. unfold stands_for.
    assert (pod_id (scope_name r w) = None) as ->.
    { unfold scope_name. transitivity (pod_id (w ++ bs ".scope")); [by destruct r|].
      by rewrite pod_id_hex. }
    assert (container_id (scope_name r w) = Some w) as ->; [|done].
    transitivity (container_id (w ++ bs ".scope")); [|by apply container_id_here].
    destruct r; [apply (container_id_skip (bs "cri-containerd"))
                |apply (container_id_skip (bs "crio"))
                |apply (container_id_skip (bs "docker"))]; (simpl; lia || done).
  - intros p st Hst Hin. unfold reports. apply existsb_exists.
    exists st. split; [by apply list_elem_of_In|]. apply bool_decide_eq_true.
    rewrite Hst. unfold status_id. rewrite <- (app_nil_r w) at 1.
    transitivity (container_id (w ++ [])); [|by apply container_id_here].
    destruct r; [apply (container_id_skip (bs "containerd:/"))
                |apply (container_id_skip (bs "cri-o:/"))
                |apply (container_id_skip (bs "docker:/"))]; (simpl; lia || done).
Qed.
