(* ===== verification/GoBinary.v ===== *)
(** * Decoding ring buffer samples

    [binary.Read] of Go's [encoding/binary] on the struct types bpf2go generates
    ([bpfEvent] in [bpf_x86_bpfel.go] and [bpf_arm64_bpfel.go], embedded in
    [BpfEvent] of [ebpf.go]), and the conversion of the C strings in the event
    to Go strings ([Int8SliceToString], [Int8SliceToStringSlice] of
    [oomtracer.go]).  Types are data, so the decoder is the library's: it walks
    the type, reads little-endian values without padding and skips blank
    fields. *)
From S2P Require Import Prelude CTypes BpfCoreRead OomKill GoStrings.

(** ** Go types and their encoding *)

Inductive gotype :=
  | GUint (size : nat)
  | GInt (size : nat)
  | GBool
  | GArray (len : nat) (elt : gotype)
  | GStruct (fs : gofields)
with gofields :=
  | GNil
  | GField (name : string) (t : gotype) (fs : gofields).

Inductive goval :=
  | VInt (z : Z)
  | VBool (b : bool)
  | VArray (l : list goval)
  | VStruct (l : list (string * goval)).

(** [dataSize]: the size of the encoding, without padding. *)
Fixpoint dataSize (t : gotype) : nat :=
  match t with
  | GUint n | GInt n => n
  | GBool => 1
  | GArray n t => n * dataSize t
  | GStruct fs => fields_size fs
  end
with fields_size (fs : gofields) : nat :=
  match fs with
  | GNil => 0
  | GField _ t fs => dataSize t + fields_size fs
  end.

Section repeated.
Context {A : Type} (dec : list byte → A * list byte).
Fixpoint repeated (n : nat) (buf : list byte) : list A * list byte :=
  match n with
  | O => ([], buf)
  | S n => let '(v, buf) := dec buf in let '(l, buf) := repeated n buf in (v :: l, buf)
  end.
End repeated.

(** The decoder's [value]: the decoded value and what is left of the buffer; the
    fields named [_] are skipped. *)
Fixpoint value (t : gotype) (buf : list byte) : goval * list byte :=
  match t with
  | GUint n => (VInt (le_Z (take n buf)), drop n buf)
  | GInt n => (VInt (swrap (8 * Z.of_nat n) (le_Z (take n buf))), drop n buf)
  | GBool => (VBool (negb (le_Z (take 1 buf) =? 0)), drop 1 buf)
  | GArray n t => let '(l, buf) := repeated (value t) n buf in (VArray l, buf)
  | GStruct fs => let '(l, buf) := fields_value fs buf in (VStruct l, buf)
  end
with fields_value (fs : gofields) (buf : list byte) : list (string * goval) * list byte :=
  match fs with
  | GNil => ([], buf)
  | GField x t fs =>
      if String.eqb x "_" then fields_value fs (drop (dataSize t) buf)
      else
        let '(v, buf) := value t buf in
        let '(l, buf) := fields_value fs buf in ((x, v) :: l, buf)
  end.

Inductive read_error := EOF | ErrUnexpectedEOF.

(** [binary.Read(bytes.NewBuffer(raw), binary.LittleEndian, &v)]; [raw] may be
    longer than the value. *)
Definition binary_Read (t : gotype) (raw : list byte) : goval + read_error :=
  if (dataSize t <=? length raw)%nat then inl (value t (take (dataSize t) raw)).1
  else if (length raw =? 0)%nat then inr EOF
  else inr ErrUnexpectedEOF.

(** ** The event type *)

(** [structs.HostLayout], a struct without data. *)
Definition HostLayout : gotype := GStruct (GField "_" (GStruct GNil) GNil).

(** [bpfEvent]; [BpfEvent] embeds it. *)
Definition bpfEvent_t : gotype := GStruct (
  GField "_" HostLayout (
  GField "VictimPid" (GUint 4) (
  GField "TriggerPid" (GUint 4) (
  GField "VictimComm" (GArray 16 (GInt 1)) (
  GField "TriggerComm" (GArray 16 (GInt 1)) (
  GField "Totalpages" (GUint 8) (
  GField "GlobalOom" GBool (
  GField "Names" (GArray 4 (GArray 128 (GInt 1))) (
  GField "_" (GArray 7 (GUint 1)) GNil))))))))).

Definition BpfEvent_t : gotype := GStruct (GField "bpfEvent" bpfEvent_t GNil).

Record BpfEvent := {
  VictimPid : Z;
  TriggerPid : Z;
  VictimComm : list Z;
  TriggerComm : list Z;
  Totalpages : Z;
  GlobalOom : bool;
  Names : list (list Z);
}.

(** The promoted field [x] of a [BpfEvent]. *)
Fixpoint field (x : string) (l : list (string * goval)) : option goval :=
  match l with
  | [] => None
  | (y, v) :: l => if String.eqb x y then Some v else field x l
  end.

Definition as_int (v : goval) : option Z := match v with VInt z => Some z | _ => None end.
Definition as_bool (v : goval) : option bool := match v with VBool b => Some b | _ => None end.
Definition as_array {A} (f : goval → option A) (v : goval) : option (list A) :=
  match v with VArray l => mapM f l | _ => None end.

Definition event_fields_of (v : goval) : option (list (string * goval)) :=
  match v with
  | VStruct l => match field "bpfEvent" l with Some (VStruct fs) => Some fs | _ => None end
  | _ => None
  end.

Definition event_of (v : goval) : option BpfEvent :=
  fs ← event_fields_of v;
  vp ← field "VictimPid" fs ≫= as_int;
  tp ← field "TriggerPid" fs ≫= as_int;
  vc ← field "VictimComm" fs ≫= as_array as_int;
  tc ← field "TriggerComm" fs ≫= as_array as_int;
  pages ← field "Totalpages" fs ≫= as_int;
  g ← field "GlobalOom" fs ≫= as_bool;
  ns ← field "Names" fs ≫= as_array (as_array as_int);
  Some {| VictimPid := vp; TriggerPid := tp; VictimComm := vc; TriggerComm := tc;
          Totalpages := pages; GlobalOom := g; Names := ns |}.

(** Reading an event: [binary.Read] into a variable of type [BpfEvent]. *)
Definition read_event (raw : list byte) : option BpfEvent + read_error :=
  match binary_Read BpfEvent_t raw with
  | inl v => inl (event_of v)
  | inr err => inr err
  end.

(** ** C strings to Go strings *)

(** [unix.ByteSliceToString] of [golang.org/x/sys/unix]: its documentation promises
    the text represented by the slice, without a terminating NUL and anything
    after it. *)
Class Unix := {
  ByteSliceToString : list byte → gostring;
  ByteSliceToString_nul s rest :
    x00 ∉ s → ByteSliceToString (s ++ x00 :: rest) = s;
  ByteSliceToString_no_nul s : x00 ∉ s → ByteSliceToString s = s;
}.

Section strings.
Context {U : Unix}.

Definition Int8SliceToString (src : list Z) : gostring :=
  ByteSliceToString (byte_of_Z <$> src).

(** The result is made with [make], so it is never nil; [Some] is a non-nil
    slice. *)
Definition Int8SliceToStringSlice (src : list (list Z)) : option (list gostring) :=
  Some ((λ x, ByteSliceToString (byte_of_Z <$> x)) <$> src).
End strings.

(** ** Decoding, piece by piece *)

(** A [char] as Go's [int8]. *)
Definition int8 (c : byte) : Z := swrap 8 (byte_to_Z c).

Definition int8s (l : list byte) : list Z := int8 <$> l.

Lemma byte_of_int8 c : byte_of_Z (int8 c) = c.
Proof.
  apply byte_to_Z_inj. rewrite byte_to_of_Z.
  pose proof (wrap_swrap 8 (byte_to_Z c) ltac:(lia)) as H. unfold wrap in H.
  change (2 ^ 8) with 256 in H. unfold int8. rewrite H.
  apply Z.mod_small, byte_to_Z_range.
Qed.

Lemma bytes_of_int8s (l : list byte) : byte_of_Z <$> int8s l = l.
Proof.
  unfold int8s. induction l as [|c l IH]; [done|]. rewrite !fmap_cons, byte_of_int8. by f_equal.
Qed.

Lemma take_app_exact {A} (l k : list A) n : length l = n → take n (l ++ k) = l.
Proof. intros <-. apply take_app_length. Qed.

Lemma drop_app_exact {A} (l k : list A) n : length l = n → drop n (l ++ k) = k.
Proof. intros <-. apply drop_app_length. Qed.

Lemma value_uint n p rest : length p = n → value (GUint n) (p ++ rest) = (VInt (le_Z p), rest).
Proof. intros Hl. simpl. by rewrite take_app_exact, drop_app_exact. Qed.

Lemma le_Z_byte c : le_Z [c] = byte_to_Z c.
Proof. unfold le_Z. lia. Qed.

Lemma value_bool c rest :
  value GBool (c :: rest) = (VBool (negb (byte_to_Z c =? 0)), rest).
Proof.
  change (value GBool (c :: rest)) with (VBool (negb (le_Z [c] =? 0)), rest).
  by rewrite le_Z_byte.
Qed.

Lemma value_int8s n p rest :
  length p = n →
  value (GArray n (GInt 1)) (p ++ rest) = (VArray ((VInt ∘ int8) <$> p), rest).
Proof.
  intros <-. cbn [value].
  assert (repeated (value (GInt 1)) (length p) (p ++ rest) = ((VInt ∘ int8) <$> p, rest)) as H;
    [|by cbn [value] in H; rewrite H].
  induction p as [|c p IH]; [done|]. cbn [length repeated value app take drop] in *.
  change (take 0 (p ++ rest)) with (@nil byte). change (drop 0 (p ++ rest)) with (p ++ rest).
  by rewrite IH, le_Z_byte.
Qed.

Lemma value_names n m ps rest :
  length ps = n → Forall (λ p, length p = m) ps →
  value (GArray n (GArray m (GInt 1))) (concat ps ++ rest) =
    (VArray ((λ p, VArray ((VInt ∘ int8) <$> p)) <$> ps), rest).
Proof.
  intros <- Hps.
  assert (repeated (value (GArray m (GInt 1))) (length ps) (concat ps ++ rest) =
    ((λ p, VArray ((VInt ∘ int8) <$> p)) <$> ps, rest)) as H.
  { induction Hps as [|p ps Hp _ IH]; [done|]. cbn [length repeated concat].
    rewrite <- app_assoc, value_int8s by done. by rewrite IH. }
  change (value (GArray (length ps) (GArray m (GInt 1))) (concat ps ++ rest))
    with (let '(l, buf) := repeated (value (GArray m (GInt 1))) (length ps) (concat ps ++ rest)
          in (VArray l, buf)).
  by rewrite H.
Qed.

Lemma as_array_ints l : as_array as_int (VArray ((VInt ∘ int8) <$> l)) = Some (int8s l).
Proof. by apply mapM_Some, Forall2_fmap, Forall_Forall2_diag, Forall_true. Qed.

Lemma as_array_names ps :
  as_array (as_array as_int) (VArray ((λ p, VArray ((VInt ∘ int8) <$> p)) <$> ps)) =
  Some (int8s <$> ps).
Proof.
  apply mapM_Some, Forall2_fmap, Forall_Forall2_diag, Forall_true. intros p.
  apply as_array_ints.
Qed.

Lemma slice_drop o n (l : list byte) : slice o n l ++ drop (o + n) l = drop o l.
Proof. unfold slice. rewrite <- drop_drop. apply take_drop. Qed.

(** The bytes of an event, cut at its fields. *)
Record pieces := {
  p_victim_pid : list byte; p_trigger_pid : list byte;
  p_victim_comm : list byte; p_trigger_comm : list byte;
  p_totalpages : list byte; p_global_oom : byte; p_names : list (list byte);
  p_pad : list byte;
}.

Definition pieces_bytes (p : pieces) : list byte :=
  p_victim_pid p ++ p_trigger_pid p ++ p_victim_comm p ++ p_trigger_comm p ++
  p_totalpages p ++ p_global_oom p :: concat (p_names p) ++ p_pad p.

Record pieces_fit (p : pieces) : Prop := {
  pf_victim_pid : length (p_victim_pid p) = 4%nat;
  pf_trigger_pid : length (p_trigger_pid p) = 4%nat;
  pf_victim_comm : length (p_victim_comm p) = 16%nat;
  pf_trigger_comm : length (p_trigger_comm p) = 16%nat;
  pf_totalpages : length (p_totalpages p) = 8%nat;
  pf_names : length (p_names p) = 4%nat;
  pf_name : Forall (λ n, length n = 128%nat) (p_names p);
  pf_pad : length (p_pad p) = 7%nat;
}.

Definition pieces_event (p : pieces) : BpfEvent := {|
  VictimPid := le_Z (p_victim_pid p); TriggerPid := le_Z (p_trigger_pid p);
  VictimComm := int8s (p_victim_comm p); TriggerComm := int8s (p_trigger_comm p);
  Totalpages := le_Z (p_totalpages p); GlobalOom := negb (byte_to_Z (p_global_oom p) =? 0);
  Names := int8s <$> p_names p |}.

Lemma fields_step x t fs buf v rest l rest' :
  String.eqb x "_" = false → value t buf = (v, rest) → fields_value fs rest = (l, rest') →
  fields_value (GField x t fs) buf = ((x, v) :: l, rest').
Proof. intros Hx Hv Hl. cbn [fields_value]. by rewrite Hx, Hv, Hl. Qed.

Lemma value_pieces p :
  pieces_fit p → event_of (value BpfEvent_t (pieces_bytes p)).1 = Some (pieces_event p).
Proof.
  intros []. eassert (value BpfEvent_t (pieces_bytes p) = (VStruct _, _)) as ->.
  { unfold BpfEvent_t. cbn [value]. erewrite fields_step; [reflexivity|done| |reflexivity].
    unfold bpfEvent_t. cbn [value].
    match goal with |- context [GField "_" HostLayout ?fs] =>
      change (fields_value (GField "_" HostLayout fs)) with (fields_value fs) end.
    unfold pieces_bytes.
    erewrite fields_step; [reflexivity|done|by apply value_uint|].
    eapply fields_step; [done|by apply value_uint|].
    eapply fields_step; [done|by apply value_int8s|].
    eapply fields_step; [done|by apply value_int8s|].
    eapply fields_step; [done|by apply value_uint|].
    eapply fields_step; [done|apply value_bool|].
    eapply fields_step; [done|by apply value_names|].
    reflexivity. }
  cbn [fst]. unfold event_of.
  cbn [event_fields_of field String.eqb Ascii.eqb Bool.eqb mbind option_bind as_int as_bool].
  by rewrite !as_array_ints, as_array_names.
Qed.

(** Any byte string of the right length is cut that way. *)
Lemma pieces_exist raw :
  length raw = 568%nat → ∃ p, pieces_fit p ∧ raw = pieces_bytes p.
Proof.
  intros Hl.
  assert (∃ c, slice 48 1 raw = [c]) as [c Hc].
  { assert (length (slice 48 1 raw) = 1%nat) as H by (unfold slice; len).
    destruct (slice 48 1 raw) as [|c [|]]; try done. by exists c. }
  exists {|
    p_victim_pid := slice 0 4 raw; p_trigger_pid := slice 4 4 raw;
    p_victim_comm := slice 8 16 raw; p_trigger_comm := slice 24 16 raw;
    p_totalpages := slice 40 8 raw; p_global_oom := c;
    p_names := [slice 49 128 raw; slice 177 128 raw; slice 305 128 raw; slice 433 128 raw];
    p_pad := slice 561 7 raw |}.
  split.
  - constructor; simpl; try (unfold slice; len). repeat constructor; unfold slice; len.
  - unfold pieces_bytes. cbn [p_victim_pid p_trigger_pid p_victim_comm p_trigger_comm
      p_totalpages p_global_oom p_names p_pad concat].
    rewrite app_nil_r. change (c :: ?l) with ([c] ++ l). rewrite <- Hc, <- !app_assoc.
    replace (slice 561 7 raw) with (drop 561 raw)
      by (unfold slice; rewrite take_ge; [done|len]).
    by rewrite (slice_drop 433), (slice_drop 305), (slice_drop 177), (slice_drop 49),
      (slice_drop 48), (slice_drop 40), (slice_drop 24), (slice_drop 8), (slice_drop 4),
      (slice_drop 0).
Qed.

(** ** Decoding events *)

(** A sample that is long enough decodes, by its first bytes. *)
Lemma read_event_long raw :
  (568 <= length raw)%nat →
  ∃ ev, ∀ more, read_event (take 568 raw ++ more) = inl (Some ev).
Proof.
  intros Hl. destruct (pieces_exist (take 568 raw)) as (p & Hp & Heq); [len|].
  exists (pieces_event p). intros more. unfold read_event, binary_Read.
  change (dataSize BpfEvent_t) with 568%nat. rewrite (proj2 (Nat.leb_le 568 _)) by len.
  rewrite take_app_exact by len. by rewrite Heq, value_pieces.
Qed.

(** C19. Decoding a sample never gets stuck: every sample of at least the size of the
    event, which is the size of the C struct, decodes to an event that depends on
    those first bytes only, an empty one reports the end of the input and any
    other shorter one an unexpected end. *)
Theorem read_event_total raw :
  Z.of_nat (dataSize BpfEvent_t) = sizeof event_t ∧
  if decide (sizeof event_t <= Z.of_nat (length raw)) then
    ∃ ev, read_event raw = inl (Some ev) ∧
      ∀ more, read_event (take 568 raw ++ more) = inl (Some ev)
  else read_event raw = inr (if decide (raw = []) then EOF else ErrUnexpectedEOF).
Proof.
  split; [reflexivity|].
  change (sizeof event_t) with 568. case_decide as Hl.
  - destruct (read_event_long raw) as [ev Hr]; [lia|]. exists ev. split; [|done].
    by rewrite <- (take_drop 568 raw).
  - unfold read_event, binary_Read. change (dataSize BpfEvent_t) with 568%nat.
    rewrite (proj2 (Nat.leb_gt 568 _)) by lia.
    destruct raw as [|c raw]; [by rewrite decide_True|by rewrite decide_False].
Qed.

(** The event a record of the probe describes, as Go sees it. *)
Definition go_event (e : event) : BpfEvent := {|
  VictimPid := victim_pid e; TriggerPid := trigger_pid e;
  VictimComm := int8s (victim_comm e); TriggerComm := int8s (trigger_comm e);
  Totalpages := totalpages e; GlobalOom := global_oom e;
  Names := int8s <$> names e |}.

Definition event_pieces (e : event) : pieces := {|
  p_victim_pid := le_bytes 4 (victim_pid e); p_trigger_pid := le_bytes 4 (trigger_pid e);
  p_victim_comm := victim_comm e; p_trigger_comm := trigger_comm e;
  p_totalpages := le_bytes 8 (totalpages e);
  p_global_oom := if global_oom e then x01 else x00; p_names := names e;
  p_pad := replicate 7 x00 |}.

Lemma event_pieces_spec e :
  wf_event e → pieces_fit (event_pieces e) ∧ encode_event e = pieces_bytes (event_pieces e) ∧
  pieces_event (event_pieces e) = go_event e.
Proof.
  intros []. split_and!.
  - by constructor; simpl; rewrite ?length_le_bytes.
  - reflexivity.
  - unfold pieces_event, go_event. simpl. rewrite !le_roundtrip by (simpl; lia).
    f_equal. by destruct (global_oom e).
Qed.

Lemma read_event_encoded e more :
  wf_event e → read_event (encode_event e ++ more) = inl (Some (go_event e)).
Proof.
  intros (Hf & He & Hg)%event_pieces_spec.
  assert (length (encode_event e) = 568%nat) as Hl.
  { rewrite He. destruct Hf. unfold pieces_bytes.
    match goal with H : Forall _ (p_names _) |- _ => apply length_concat_const in H end. len. }
  unfold read_event, binary_Read. change (dataSize BpfEvent_t) with 568%nat.
  rewrite (proj2 (Nat.leb_le 568 _)) by len. rewrite take_app_exact by done.
  by rewrite He, value_pieces, Hg.
Qed.

Section round_trip.
Context {U : Unix}.

(** The text of a C string field. *)
Lemma ByteSliceToString_cfield n s :
  (0 < n)%nat → x00 ∉ s → ByteSliceToString (cfield n s) = take (n - 1) s.
Proof using.
  intros Hn Hs. unfold cfield.
  replace (n - length (take (n - 1) s))%nat with (S (n - 1 - length (take (n - 1) s)))
    by (rewrite length_take; lia).
  apply ByteSliceToString_nul. intros Hin. apply Hs. by eapply subseteq_take.
Qed.

Lemma Int8SliceToString_cfield n s :
  (0 < n)%nat → x00 ∉ s → Int8SliceToString (int8s (cfield n s)) = take (n - 1) s.
Proof using.
  intros. unfold Int8SliceToString. rewrite bytes_of_int8s.
  by apply ByteSliceToString_cfield.
Qed.

Lemma Int8SliceToStringSlice_names (ns : list (list byte)) :
  Int8SliceToStringSlice (int8s <$> ns) = Some (ByteSliceToString <$> ns).
Proof using.
  unfold Int8SliceToStringSlice. rewrite <- list_fmap_compose. f_equal.
  apply list_fmap_ext. intros i x _. simpl. by rewrite bytes_of_int8s.
Qed.
End round_trip.

(** C18. Round trip from the kernel to the agent: the bytes the probe writes for an
    event decode to the same event whatever follows them in the sample, numbers
    and flag unchanged, and every C string in it, command name or cgroup name,
    is the Go string of its text (cut to leave room for the terminator). *)
Theorem read_event_roundtrip {U : Unix} e more vc tc ns :
  wf_event e → victim_comm e = cfield 16 vc → trigger_comm e = cfield 16 tc →
  names e = cfield 128 <$> ns → x00 ∉ vc → x00 ∉ tc → Forall (λ s, x00 ∉ s) ns →
  ∃ ev, read_event (encode_event e ++ more) = inl (Some ev) ∧
    VictimPid ev = victim_pid e ∧ TriggerPid ev = trigger_pid e ∧
    Totalpages ev = totalpages e ∧ GlobalOom ev = global_oom e ∧
    Int8SliceToString (VictimComm ev) = take 15 vc ∧
    Int8SliceToString (TriggerComm ev) = take 15 tc ∧
    Int8SliceToStringSlice (Names ev) = Some (take 127 <$> ns).
Proof.
  intros Hw Hvc Htc Hns Hv Ht Hn. exists (go_event e).
  rewrite read_event_encoded by done. split_and!; [done..| | |].
  - simpl. rewrite Hvc. by apply Int8SliceToString_cfield; [lia|].
  - simpl. rewrite Htc. by apply Int8SliceToString_cfield; [lia|].
  - simpl. rewrite Int8SliceToStringSlice_names, Hns, <- list_fmap_compose. f_equal.
    apply list_fmap_ext. intros i s Hi. simpl.
    apply ByteSliceToString_cfield; [lia|]. by eapply Forall_lookup_1 in Hn.
Qed.
