(* ===== verification/Version.v ===== *)
(** * Version information

    [version.go]: what a binary says it was built from, and the label
    [metrics.go] makes of it.  The three strings are set by the linker; the rest
    comes from the Go runtime. *)
From S2P Require Import Prelude GoStrings GoRegexp.

(** ** The program *)

(** [\d] and [\w]. *)
Definition digit (c : byte) : bool := (48 <=? byte_to_Z c) && (byte_to_Z c <=? 57).
Definition word_char (c : byte) : bool :=
  digit c || ((65 <=? byte_to_Z c) && (byte_to_Z c <=? 90)) ||
  ((97 <=? byte_to_Z c) && (byte_to_Z c <=? 122)) || bool_decide (c = x5f).

Definition dot : byte := x2e.
Definition dash : byte := x2d.
Definition vee : byte := x76.

(** [v\d+\.\d+\.\d+] and what may follow it. *)
Definition number (rest : re) : re := Cat (Plus (Class digit)) rest.
Definition word (rest : re) : re := Cat (Plus (Class word_char)) rest.

Definition release_pattern (rest : re) : re :=
  Cat (Lit [vee]) (number (Cat (Lit [dot]) (number (Cat (Lit [dot]) (number rest))))).

Definition m1_pattern : re := release_pattern Empty.
Definition m2_pattern : re :=
  release_pattern (Cat (Lit [dash]) (word (Cat (Lit [dash]) (word Empty)))).

(** [splitVersion]; [None] is an index out of range. *)
Definition splitVersion (version : gostring) : option (gostring * gostring) :=
  if decide (version = []) then Some ([], [])
  else
    let m1 := match_whole m1_pattern version in
    let m2 := match_whole m2_pattern version in
    if m1 || m2 then
      p0 ← Split version [dot] !! 0%nat;
      p1 ← Split version [dot] !! 1%nat;
      p2 ← Split version [dot] !! 2%nat;
      Some (Trim p0 [vee], p1 ++ [dot] ++ p2)
    else Some ([], []).

Record Info := {
  Major : gostring; Minor : gostring; GitVersion : gostring; GitSha1 : gostring;
  BuildDate : gostring; GoVersion : gostring; Compiler : gostring; Platform : gostring;
}.

(** What [-ldflags] sets, and the constants of the runtime. *)
Record build_vars := { version : gostring; buildDate : gostring; gitsha1 : gostring }.
Record runtime_vars := {
  rt_version : gostring; rt_compiler : gostring; rt_goos : gostring; rt_goarch : gostring }.

Definition Get (b : build_vars) (r : runtime_vars) : option Info :=
  match splitVersion (version b) with
  | Some (majorVersion, minorVersion) => Some {|
      Major := majorVersion; Minor := minorVersion; GitVersion := version b;
      GitSha1 := gitsha1 b; BuildDate := buildDate b; GoVersion := rt_version r;
      Compiler := rt_compiler r; Platform := rt_goos r ++ [x2f] ++ rt_goarch r |}
  | None => None
  end.

(** The constant labels of the build information gauge. *)
Definition build_labels (i : Info) : list (gostring * gostring) := [
  (bs "GoVersion", GoVersion i); (bs "AppVersion", Major i ++ [dot] ++ Minor i);
  (bs "OOMTracerVersion", GitVersion i); (bs "GitSha1", GitSha1 i) ].

(** ** Properties *)

(** A string of [p], not empty. *)
Definition some_of (p : byte → bool) (s : gostring) : Prop := s ≠ [] ∧ Forall (λ c, p c = true) s.

(** A release tag, possibly with the commits since the tag and the last one's hash:
    [v<a>.<b>.<c>] or [v<a>.<b>.<c>-<n>-<hash>]. *)
Definition released (v a b c suffix : gostring) : Prop :=
  v = [vee] ++ a ++ [dot] ++ b ++ [dot] ++ c ++ suffix ∧
  some_of digit a ∧ some_of digit b ∧ some_of digit c ∧
  (suffix = [] ∨ ∃ n h, suffix = [dash] ++ n ++ [dash] ++ h ∧
    some_of word_char n ∧ some_of word_char h).

Lemma class_cat_lang p rest s :
  lang (Cat (Plus (Class p)) rest) s ↔ ∃ a t, s = a ++ t ∧ some_of p a ∧ lang rest t.
Proof. rewrite lang_cat_inv. unfold some_of. by setoid_rewrite lang_plus_class. Qed.

Lemma empty_lang s : lang Empty s ↔ s = [].
Proof. split; [intros H; by inversion H|intros ->; constructor]. Qed.

Lemma release_lang rest v :
  lang (release_pattern rest) v ↔
  ∃ a b c t, v = [vee] ++ a ++ [dot] ++ b ++ [dot] ++ c ++ t ∧
    some_of digit a ∧ some_of digit b ∧ some_of digit c ∧ lang rest t.
Proof.
  unfold release_pattern, number. split.
  - intros (t1 & -> & Ht)%lang_lit_cat. apply class_cat_lang in Ht as (a & t2 & -> & Ha & Ht).
    apply lang_lit_cat in Ht as (t3 & -> & Ht). apply class_cat_lang in Ht as (b & t4 & -> & Hb & Ht).
    apply lang_lit_cat in Ht as (t5 & -> & Ht). apply class_cat_lang in Ht as (c & t6 & -> & Hc & Ht).
    by exists a, b, c, t6.
  - intros (a & b & c & t & -> & Ha & Hb & Hc & Ht).
    apply lang_lit_cat. eexists. split; [done|]. apply class_cat_lang. do 2 eexists. split; [done|].
    split; [done|]. apply lang_lit_cat. eexists. split; [done|]. apply class_cat_lang.
    do 2 eexists. split; [done|]. split; [done|]. apply lang_lit_cat. eexists. split; [done|].
    apply class_cat_lang. by do 2 eexists.
Qed.

Lemma suffix_lang s :
  lang (Cat (Lit [dash]) (word (Cat (Lit [dash]) (word Empty)))) s ↔
  ∃ n h, s = [dash] ++ n ++ [dash] ++ h ∧ some_of word_char n ∧ some_of word_char h.
Proof.
  unfold word. split.
  - intros (t1 & -> & Ht)%lang_lit_cat. apply class_cat_lang in Ht as (n & t2 & -> & Hn & Ht).
    apply lang_lit_cat in Ht as (t3 & -> & Ht). apply class_cat_lang in Ht as (h & t4 & -> & Hh & Ht).
    apply empty_lang in Ht as ->. exists n, h. by rewrite app_nil_r.
  - intros (n & h & -> & Hn & Hh). apply lang_lit_cat. eexists. split; [done|].
    apply class_cat_lang. do 2 eexists. split; [done|]. split; [done|].
    apply lang_lit_cat. eexists. split; [done|]. apply class_cat_lang. exists h, [].
    by rewrite app_nil_r, empty_lang.
Qed.

(** Together the two patterns accept the released versions. *)
Lemma patterns_released v :
  match_whole m1_pattern v || match_whole m2_pattern v = true ↔ ∃ a b c t, released v a b c t.
Proof.
  rewrite orb_true_iff, !match_whole_lang. unfold m1_pattern, m2_pattern, released.
  rewrite !release_lang. setoid_rewrite suffix_lang. setoid_rewrite empty_lang. naive_solver.
Qed.

Lemma digits_not_in d s : digit d = false → some_of digit s → d ∉ s.
Proof. intros Hd [_ Hs] Hin. rewrite Forall_forall in Hs. rewrite (Hs d Hin) in Hd. done. Qed.

Lemma words_not_in d s : word_char d = false → some_of word_char s → d ∉ s.
Proof. intros Hd [_ Hs] Hin. rewrite Forall_forall in Hs. rewrite (Hs d Hin) in Hd. done. Qed.

Lemma suffix_no_dot s n h :
  s = [dash] ++ n ++ [dash] ++ h → some_of word_char n → some_of word_char h → dot ∉ s.
Proof.
  intros -> Hn Hh. apply (words_not_in dot) in Hn, Hh; [|done..].
  rewrite !elem_of_app, !list_elem_of_singleton. naive_solver.
Qed.

(** The pieces of a released version. *)
Lemma split_released v a b c t :
  released v a b c t → Split v [dot] = [vee :: a; b; c ++ t].
Proof.
  intros (-> & Ha & Hb & Hc & Ht). unfold Split.
  apply (digits_not_in dot) in Ha, Hb, Hc; [|done..].
  assert (dot ∉ t) as Htd by (destruct Ht as [->|(n & h & ? & ? & ?)];
    [by apply not_elem_of_nil|by eapply suffix_no_dot]).
  replace ([vee] ++ a ++ [dot] ++ b ++ [dot] ++ c ++ t)
    with ((vee :: a) ++ dot :: b ++ dot :: c ++ t) by done.
  rewrite length_app. cbn [length]. rewrite length_app. cbn [length].
  rewrite !Nat.add_succ_r, SplitN_app by set_solver.
  rewrite SplitN_app by done. by rewrite SplitN_None by (rewrite elem_of_app; naive_solver).
Qed.

(** C40. The version shown is never an error: [splitVersion] stays in range on every
    string; a released version [v<a>.<b>.<c>], with or without the suffix of a
    build after the tag, gives [a] as major and the rest after the first dot
    as minor version, and any other string two empty ones. *)
Theorem split_version_spec v :
  ∃ major minor, splitVersion v = Some (major, minor) ∧
    ((∃ a b c t, released v a b c t ∧ major = a ∧ minor = b ++ [dot] ++ c ++ t) ∨
     ((∀ a b c t, ¬ released v a b c t) ∧ major = [] ∧ minor = [])).
Proof.
  unfold splitVersion. case_decide as Hv.
  - exists [], []. split; [done|]. right. split; [|done]. intros a b c t (Heq & _). by subst.
  - destruct (match_whole m1_pattern v || match_whole m2_pattern v) eqn:E.
    + apply patterns_released in E as (a & b & c & t & Hr).
      rewrite (split_released v a b c t Hr). simpl.
      assert (vee ∉ a) as Ha by (apply digits_not_in; [done|apply Hr]).
      rewrite (Trim_leading vee a Ha). do 2 eexists. split; [done|]. left. by exists a, b, c, t.
    + exists [], []. split; [done|]. right. split; [|done]. intros a b c t Hr.
      apply not_true_iff_false in E. apply E, patterns_released. eauto.
Qed.

(** The label of a release is its version without the [v]. *)
Lemma app_version_released b r a m p t i :
  released (version b) a m p t → Get b r = Some i →
  (bs "AppVersion", a ++ [dot] ++ m ++ [dot] ++ p ++ t) ∈ build_labels i.
Proof.
  intros Hr. unfold Get, splitVersion. rewrite decide_False by (by intros Hv; destruct Hr as [Hx _]; rewrite Hv in Hx).
  rewrite (proj2 (patterns_released _)) by eauto. rewrite (split_released _ _ _ _ _ Hr). simpl.
  rewrite Trim_leading by (apply digits_not_in; [done|apply Hr]).
  intros [= <-]. right. left.
Qed.

Example tagged : splitVersion (bs "v0.18.0") = Some (bs "0", bs "18.0").
Proof. reflexivity. Qed.
Example after_tag : splitVersion (bs "v0.18.0-46-g939c1c0") = Some (bs "0", bs "18.0-46-g939c1c0").
Proof. reflexivity. Qed.

(** A prerelease tag is not one of the forms. *)
Example prerelease : splitVersion (bs "v0.18.0-rc.1") = Some ([], []).
Proof. reflexivity. Qed.
