(* ===== verification/Metrics.v ===== *)
(** * Metrics

    [metrics.go]: two counters, each a family indexed by a stage and a reason.
    The Prometheus client library is the interface [Prometheus]; a nil
    [*Metrics] is [None], on which every method does nothing. *)
From S2P Require Import Prelude GoStrings.

(** ** The client library *)

(** A counter vector, by what it was created with. *)
Record CounterVec := {
  Subsystem : gostring;
  CounterName : gostring;
  Labels : list gostring;
}.

#[global] Instance CounterVec_eq_dec : EqDecision CounterVec.
Proof. solve_decision. Defined.

(** What can be registered: a counter vector or the build information gauge. *)
Inductive collector := CounterCollector (v : CounterVec) | BuildInfo.

Class Prometheus (W : Type) := {
  (** the value of a counter for label values *)
  count : W → CounterVec → list gostring → nat;
  (** [v.WithLabelValues(ls...).Inc()] *)
  Inc : CounterVec → list gostring → W → W;
  (** [prometheus.MustRegister]; [None] is a panic *)
  MustRegister : list collector → W → option W;
  (** one counter goes up by one *)
  count_Inc w v ls v' ls' :
    length ls = length (Labels v) →
    count (Inc v ls w) v' ls' =
      (if decide (v = v' ∧ ls = ls') then S (count w v' ls') else count w v' ls');
  (** registration leaves the counters alone *)
  count_MustRegister cs w w' v ls :
    MustRegister cs w = Some w' → count w' v ls = count w v ls;
}.

(** ** The bundle *)

Definition MetricsSubsystem : gostring := bs "oom_tracer".

Record Metrics := {
  events : CounterVec;
  markedVictims : CounterVec;
  bindAddr : gostring;
}.

Definition events_vec : CounterVec := {|
  Subsystem := MetricsSubsystem; CounterName := bs "events_total";
  Labels := [bs "stage"; bs "reason"] |}.

Definition marked_vec : CounterVec := {|
  Subsystem := MetricsSubsystem; CounterName := bs "marked_victims_total";
  Labels := [bs "stage"; bs "reason"] |}.

Section metrics.
Context {W : Type} `{Prometheus W}.

(** The metrics and the state after it, or a panic. *)
Definition NewMetrics (addr : gostring) (w : W) : option (option Metrics * W) :=
  let addr := TrimSpace addr in
  if decide (addr = []) then Some (None, w)
  else
    let m := {| events := events_vec; markedVictims := marked_vec; bindAddr := addr |} in
    match MustRegister [CounterCollector (events m); CounterCollector (markedVictims m);
                        BuildInfo] w with
    | Some w' => Some (Some m, w')
    | None => None
    end.

Definition increment (v : CounterVec) (stage reason : gostring) (w : W) : W :=
  let stage := if decide (stage = []) then bs "unknown" else stage in
  let reason := if decide (reason = []) then bs "none" else reason in
  Inc v [stage; reason] w.

Definition IncEvent (m : option Metrics) (stage reason : gostring) (w : W) : W :=
  match m with None => w | Some m => increment (events m) stage reason w end.

Definition IncMarkedVictim (m : option Metrics) (stage reason : gostring) (w : W) : W :=
  match m with None => w | Some m => increment (markedVictims m) stage reason w end.
End metrics.

(** [ServeMux]: the address on which the metrics are served from then on. The server
    runs by itself; an error of it is only logged. *)
Definition ServeMux (m : option Metrics) : option gostring :=
  match m with None => None | Some m => Some (bindAddr m) end.

(** ** Properties *)

(** A bundle as [NewMetrics] makes it. *)
Definition wf_metrics (m : Metrics) : Prop :=
  events m = events_vec ∧ markedVictims m = marked_vec ∧ bindAddr m ≠ [].

(** The label value a method argument is counted under. *)
Definition label (fallback s : gostring) : gostring := if decide (s = []) then fallback else s.

Lemma label_nonempty fallback s : s ≠ [] → label fallback s = s.
Proof. intros. unfold label. by rewrite decide_False. Qed.

Section counting.
Context {W : Type} `{HP : Prometheus W}.

Lemma count_increment v stage reason (w : W) v' ls :
  length (Labels v) = 2%nat →
  count (increment v stage reason w) v' ls =
  (if decide (v = v' ∧ [label (bs "unknown") stage; label (bs "none") reason] = ls)
   then S (count w v' ls) else count w v' ls).
Proof using. intros Hl. unfold increment. by rewrite count_Inc by (by rewrite Hl). Qed.

Lemma count_IncEvent m stage reason (w : W) v ls :
  wf_metrics m →
  count (IncEvent (Some m) stage reason w) v ls =
  (if decide (events_vec = v ∧ [label (bs "unknown") stage; label (bs "none") reason] = ls)
   then S (count w v ls) else count w v ls).
Proof using. intros (He & _ & _). simpl. rewrite He. by apply count_increment. Qed.

Lemma count_IncMarkedVictim m stage reason (w : W) v ls :
  wf_metrics m →
  count (IncMarkedVictim (Some m) stage reason w) v ls =
  (if decide (marked_vec = v ∧ [label (bs "unknown") stage; label (bs "none") reason] = ls)
   then S (count w v ls) else count w v ls).
Proof using. intros (_ & Hm & _). simpl. rewrite Hm. by apply count_increment. Qed.
End counting.

(** C23. Creating and using the metrics: a blank address gives no metrics, whose
    methods change nothing; any other address gives, unless registration
    panics, a bundle on the trimmed address that starts with the counters as
    they were, and from then on a counted event raises exactly one counter by
    exactly one, the one of its family under its stage and reason, with
    [unknown] and [none] in place of empty ones. *)
Theorem metrics_spec {W} `{HP : Prometheus W} addr (w : W) :
  match NewMetrics addr w with
  | None => TrimSpace addr ≠ []
  | Some (None, w') => w' = w ∧ TrimSpace addr = [] ∧
      ∀ s r w1, IncEvent None s r w1 = w1 ∧ IncMarkedVictim None s r w1 = w1
  | Some (Some m, w') => wf_metrics m ∧ bindAddr m = TrimSpace addr ∧
      (∀ v ls, count w' v ls = count w v ls) ∧
      ∀ s r w1 v ls,
        count (IncEvent (Some m) s r w1) v ls =
          (count w1 v ls + (if decide (v = events_vec ∧
             ls = [label (bs "unknown") s; label (bs "none") r]) then 1 else 0))%nat ∧
        count (IncMarkedVictim (Some m) s r w1) v ls =
          (count w1 v ls + (if decide (v = marked_vec ∧
             ls = [label (bs "unknown") s; label (bs "none") r]) then 1 else 0))%nat
  end.
Proof.
  unfold NewMetrics. case_decide as Ha; [done|].
  destruct (MustRegister _ w) as [w'|] eqn:Hr; [|done].
  set (m := {| events := _ |}). assert (wf_metrics m) as Hm by done.
  split_and!; [done..|by intros; eapply count_MustRegister|].
  intros s r w1 v ls. rewrite count_IncEvent, count_IncMarkedVictim by done.
  split; repeat case_decide; naive_solver lia.
Qed.
