(* ===== verification/GoJson.v ===== *)
(** * JSON text

    [json.Marshal] of Go's [encoding/json] on what the agent marshals: maps with
    string keys, nested, with strings at the leaves.  Keys come out in byte
    order; strings are quoted with HTML-sensitive characters escaped, and bytes
    that are not UTF-8 replaced by U+FFFD.  [unquote] reads such a string
    back; on UTF-8 text it inverts the quoting ([unquote_quote]). *)
From S2P Require Import Prelude GoStrings.

(** ** UTF-8 *)

Definition between (lo hi : Z) (c : byte) : bool :=
  (lo <=? byte_to_Z c) && (byte_to_Z c <=? hi).

(** The length of the encoding at the start of [s], [None] if there is no valid one
    ([utf8.DecodeRune] returns [RuneError] with size 1). *)
Definition rune_size (s : gostring) : option nat :=
  match s with
  | [] => None
  | c0 :: s =>
      let tail1 lo hi :=
        match s with c1 :: _ => between lo hi c1 | _ => false end in
      let tail2 lo hi :=
        match s with c1 :: c2 :: _ => between lo hi c1 && between 128 191 c2 | _ => false end in
      let tail3 lo hi :=
        match s with
        | c1 :: c2 :: c3 :: _ => between lo hi c1 && between 128 191 c2 && between 128 191 c3
        | _ => false
        end in
      if between 0 127 c0 then Some 1%nat
      else if between 194 223 c0 then if tail1 128 191 then Some 2%nat else None
      else if between 224 224 c0 then if tail2 160 191 then Some 3%nat else None
      else if between 225 236 c0 || between 238 239 c0
        then if tail2 128 191 then Some 3%nat else None
      else if between 237 237 c0 then if tail2 128 159 then Some 3%nat else None
      else if between 240 240 c0 then if tail3 144 191 then Some 4%nat else None
      else if between 241 243 c0 then if tail3 128 191 then Some 4%nat else None
      else if between 244 244 c0 then if tail3 128 143 then Some 4%nat else None
      else None
  end.

(** ** Quoting *)

Definition hex_digit (n : Z) : byte := byte_of_Z (if n <? 10 then 48 + n else 87 + n).

(** The escape of an ASCII character, [None] if it stands for itself. *)
Definition escape_ascii (c : byte) : option gostring :=
  let n := byte_to_Z c in
  if (n =? 34) || (n =? 92) then Some [x5c; c]
  else if n =? 8 then Some (bs "\b")
  else if n =? 12 then Some (bs "\f")
  else if n =? 10 then Some (bs "\n")
  else if n =? 13 then Some (bs "\r")
  else if n =? 9 then Some (bs "\t")
  else if (n <? 32) || (n =? 60) || (n =? 62) || (n =? 38)
  then Some (bs "\u00" ++ [hex_digit (n / 16); hex_digit (n mod 16)])
  else None.

(** U+2028 and U+2029. *)
Definition separator (s : gostring) : option gostring :=
  match strip_prefix [xe2; x80; xa8] s with
  | Some _ => Some (bs "\u2028")
  | None =>
      match strip_prefix [xe2; x80; xa9] s with
      | Some _ => Some (bs "\u2029")
      | None => None
      end
  end.

(** The text of the rune at the start of [s], and the bytes it takes from [s]. *)
Definition quote_rune (s : gostring) : gostring * nat :=
  match s with
  | [] => ([], 1%nat)
  | c :: _ =>
      if byte_to_Z c <? 128 then (default [c] (escape_ascii c), 1%nat)
      else
        match rune_size s with
        | None => (bs "\ufffd", 1%nat)
        | Some n => (default (take n s) (separator s), n)
        end
  end.

(** Each round consumes a byte at least. *)
Fixpoint quote_rounds (fuel : nat) (s : gostring) : gostring :=
  match fuel, s with
  | S fuel, _ :: _ => let '(q, n) := quote_rune s in q ++ quote_rounds fuel (drop n s)
  | _, _ => []
  end.

(** [appendString(dst, s, escapeHTML)]. *)
Definition quote (s : gostring) : gostring := [x22] ++ quote_rounds (length s) s ++ [x22].

(** ** Marshalling *)

Inductive json :=
  | JString (s : gostring)
  | JMap (m : list (gostring * json)).

(** Byte order on strings. *)
Fixpoint string_le (s t : gostring) : bool :=
  match s, t with
  | [], _ => true
  | _ :: _, [] => false
  | c :: s, d :: t =>
      (byte_to_Z c <? byte_to_Z d) || ((byte_to_Z c =? byte_to_Z d) && string_le s t)
  end.

Fixpoint insert_key {A} (x : gostring * A) (l : list (gostring * A)) : list (gostring * A) :=
  match l with
  | [] => [x]
  | y :: l => if string_le x.1 y.1 then x :: y :: l else y :: insert_key x l
  end.

Definition sort_keys {A} (l : list (gostring * A)) : list (gostring * A) :=
  foldr insert_key [] l.

Fixpoint join_comma (l : list gostring) : gostring :=
  match l with
  | [] => []
  | [s] => s
  | s :: l => s ++ [x2c] ++ join_comma l
  end.

(** The encoding of a value: maps print their entries in key order. *)
Fixpoint Marshal (j : json) : gostring :=
  match j with
  | JString s => quote s
  | JMap m =>
      [x7b] ++
      join_comma ((λ e : gostring * gostring, quote e.1 ++ [x3a] ++ e.2) <$>
        sort_keys (map (λ e : gostring * json, (e.1, Marshal e.2)) m)) ++
      [x7d]
  end.

Example marshal_patch :
  Marshal (JMap [(bs "metadata", JMap [(bs "annotations",
    JMap [(bs "b", JString (bs "<yes>")); (bs "a", JString [x0a; xe2; x80; xa9; xff; x41])])])])
  = bs "{" ++ quote (bs "metadata") ++ bs ":{" ++ quote (bs "annotations") ++ bs ":{" ++
    quote (bs "a") ++ [x3a; x22] ++ bs "\n\u2029\ufffdA" ++ [x22; x2c] ++
    quote (bs "b") ++ [x3a; x22] ++ bs "\u003cyes\u003e" ++ [x22] ++ bs "}}}".
Proof. vm_compute. reflexivity. Qed.

(** ** Reading strings back *)

Definition hex_value (c : byte) : option Z :=
  let n := byte_to_Z c in
  if between 48 57 c then Some (n - 48)
  else if between 97 102 c then Some (n - 87)
  else if between 65 70 c then Some (n - 55)
  else None.

(** The UTF-8 encoding of a code unit of the basic plane that is no surrogate. *)
Definition encode_unit (u : Z) : option gostring :=
  if u <? 128 then Some [byte_of_Z u]
  else if u <? 2048 then Some [byte_of_Z (192 + u / 64); byte_of_Z (128 + u mod 64)]
  else if (55296 <=? u) && (u <? 57344) then None
  else Some [byte_of_Z (224 + u / 4096); byte_of_Z (128 + u / 64 mod 64);
             byte_of_Z (128 + u mod 64)].

Definition unit_of (h1 h2 h3 h4 : byte) : option gostring :=
  a ← hex_value h1; b ← hex_value h2; c ← hex_value h3; d ← hex_value h4;
  encode_unit (4096 * a + 256 * b + 16 * c + d).

(** What a one-letter escape stands for. *)
Definition escaped (c : byte) : option byte :=
  let n := byte_to_Z c in
  if (n =? 34) || (n =? 92) || (n =? 47) then Some c
  else if n =? 98 then Some x08
  else if n =? 102 then Some x0c
  else if n =? 110 then Some x0a
  else if n =? 114 then Some x0d
  else if n =? 116 then Some x09
  else None.

Definition prepend (u : gostring) (r : option (gostring * gostring)) :
    option (gostring * gostring) :=
  match r with Some (s, rest) => Some (u ++ s, rest) | None => None end.

(** The text of a JSON string after its opening quotation mark, and what follows the
    closing one. *)
Fixpoint unquote_text (s : gostring) : option (gostring * gostring) :=
  match s with
  | [] => None
  | c :: t =>
      if decide (c = x22) then Some ([], t)
      else if decide (c = x5c) then
        match t with
        | [] => None
        | e :: t1 =>
            match escaped e with
            | Some d => prepend [d] (unquote_text t1)
            | None =>
                if decide (e = x75) then
                  match t1 with
                  | h1 :: h2 :: h3 :: h4 :: t2 =>
                      match unit_of h1 h2 h3 h4 with
                      | Some u => prepend u (unquote_text t2)
                      | None => None
                      end
                  | _ => None
                  end
                else None
            end
        end
      else if byte_to_Z c <? 32 then None
      else prepend [c] (unquote_text t)
  end.

Definition unquote (s : gostring) : option (gostring * gostring) :=
  match s with c :: t => if decide (c = x22) then unquote_text t else None | [] => None end.

(** Text that is UTF-8 throughout. *)
Inductive utf8 : gostring → Prop :=
  | utf8_nil : utf8 []
  | utf8_rune s n : rune_size s = Some n → utf8 (drop n s) → utf8 s.

Lemma prepend_app u v r : prepend u (prepend v r) = prepend (u ++ v) r.
Proof. destruct r as [[s rest]|]; [|done]. simpl. by rewrite app_assoc. Qed.

Lemma unquote_ascii c t :
  byte_to_Z c < 128 →
  unquote_text (default [c] (escape_ascii c) ++ t) = prepend [c] (unquote_text t).
Proof. intros Hc. destruct c; try reflexivity; by vm_compute in Hc. Qed.

Lemma unquote_high c t :
  128 <= byte_to_Z c → unquote_text (c :: t) = prepend [c] (unquote_text t).
Proof.
  intros Hc. cbn [unquote_text].
  rewrite !decide_False by (intros ->; by vm_compute in Hc).
  by rewrite (proj2 (Z.ltb_ge _ _)) by lia.
Qed.

Lemma unquote_highs u t :
  Forall (λ c, 128 <= byte_to_Z c) u → unquote_text (u ++ t) = prepend u (unquote_text t).
Proof.
  induction 1 as [|c u Hc _ IH]; simpl app.
  - by destruct (unquote_text t) as [[? ?]|].
  - by rewrite unquote_high, IH, prepend_app.
Qed.

(** The bytes of a longer encoding are all above 127. *)
Lemma rune_size_high c s n :
  rune_size (c :: s) = Some n → 128 <= byte_to_Z c →
  (1 <= n)%nat ∧ Forall (λ c, 128 <= byte_to_Z c) (take n (c :: s)).
Proof.
  intros Hr Hc. cbn [rune_size] in Hr. unfold between in Hr.
  rewrite (proj2 (Z.leb_gt (byte_to_Z c) 127)), andb_false_r in Hr by lia.
  destruct s as [|c1 [|c2 [|c3 s]]]; crush_match; bsimp; (split; [lia|]);
    repeat constructor; lia.
Qed.

Lemma separator_spec s e :
  separator s = Some e →
  rune_size s = Some 3%nat ∧ ∀ t, unquote_text (e ++ t) = prepend (take 3 s) (unquote_text t).
Proof.
  unfold separator. intros He.
  destruct (strip_prefix [xe2; x80; xa8] s) as [u|] eqn:E1;
    [|destruct (strip_prefix [xe2; x80; xa9] s) as [u|] eqn:E2; [|done]];
    simplify_eq; [apply strip_prefix_Some in E1 as ->|apply strip_prefix_Some in E2 as ->];
    (split; reflexivity).
Qed.

Lemma quote_rune_spec s n t :
  rune_size s = Some n →
  (1 <= n)%nat ∧ (quote_rune s).2 = n ∧
  unquote_text ((quote_rune s).1 ++ t) = prepend (take n s) (unquote_text t).
Proof.
  destruct s as [|c s]; [done|]. intros Hr. unfold quote_rune.
  destruct (byte_to_Z c <? 128) eqn:Hc; bsimp.
  - assert (n = 1%nat) as ->.
    { cbn [rune_size] in Hr. unfold between in Hr at 1. pose proof (byte_to_Z_range c).
      rewrite !(proj2 (Z.leb_le _ _)) in Hr by lia. by injection Hr. }
    split_and!; [lia|done|]. simpl. by apply unquote_ascii.
  - rewrite Hr. destruct (rune_size_high c s n Hr) as [Hn Hhigh]; [lia|].
    split_and!; [done|done|]. cbn [fst].
    destruct (separator (c :: s)) as [e|] eqn:E.
    + apply separator_spec in E as [Hr' He]. rewrite Hr in Hr'. simplify_eq. apply He.
    + by apply unquote_highs.
Qed.

(** JSON strings carry their text: whatever UTF-8 text is marshalled, control
    characters, quotation marks and markup included, reading the result back
    gives exactly that text and leaves what follows it. *)
Lemma unquote_quote s rest : utf8 s → unquote (quote s ++ rest) = Some (s, rest).
Proof.
  intros Hs. unfold quote, unquote. rewrite <- !app_assoc. simpl.
  enough (∀ n, (length s <= n)%nat →
    unquote_text (quote_rounds n s ++ x22 :: rest) = Some (s, rest)) by eauto.
  intros n. revert n. induction Hs as [|s k Hk _ IH]; intros n Hn.
  - by destruct n.
  - destruct s as [|c s]; [done|]. destruct n as [|n]; [simpl in Hn; lia|].
    cbn [quote_rounds].
    destruct (quote_rune_spec (c :: s) k (quote_rounds n (drop k (c :: s)) ++ x22 :: rest) Hk)
      as (Hk1 & Hk2 & Hq).
    destruct (quote_rune (c :: s)) as [q k'] eqn:Eq. simpl in Hk2, Hq. subst k'.
    rewrite <- app_assoc. etransitivity; [exact Hq|].
    rewrite IH by (rewrite length_drop; simpl in *; lia).
    simpl prepend. by rewrite take_drop.
Qed.

(** ** Reading flat objects back *)

(** The entries of an object whose values are strings, after its opening brace. *)
Fixpoint read_entries (fuel : nat) (s : gostring) : option (list (gostring * gostring) * gostring) :=
  match fuel with
  | O => None
  | S fuel =>
      match unquote s with
      | Some (k, c :: s1) =>
          if decide (c = x3a) then
            match unquote s1 with
            | Some (v, d :: s2) =>
                if decide (d = x2c) then
                  match read_entries fuel s2 with
                  | Some (l, rest) => Some ((k, v) :: l, rest)
                  | None => None
                  end
                else if decide (d = x7d) then Some ([(k, v)], s2)
                else None
            | _ => None
            end
          else None
      | _ => None
      end
  end.

Definition read_object (s : gostring) : option (list (gostring * gostring) * gostring) :=
  match s with
  | c :: t =>
      if decide (c = x7b) then
        match t with
        | d :: rest => if decide (d = x7d) then Some ([], rest) else read_entries (length t) t
        | [] => None
        end
      else None
  | [] => None
  end.

Definition entry_text (e : gostring * gostring) : gostring := quote e.1 ++ [x3a] ++ quote e.2.

Definition utf8_entry (e : gostring * gostring) : Prop := utf8 e.1 ∧ utf8 e.2.

Lemma read_entries_text e l fuel rest :
  utf8_entry e → Forall utf8_entry l → (length l < fuel)%nat →
  read_entries fuel (join_comma (entry_text <$> e :: l) ++ [x7d] ++ rest) = Some (e :: l, rest).
Proof.
  revert e fuel. induction l as [|e' l IH]; intros [k v] [|fuel] [Hk Hv] Hl Hf; try (simpl in Hf; lia).
  - cbn [fmap list_fmap join_comma]. unfold entry_text. cbn [fst snd read_entries].
    rewrite <- !app_assoc, unquote_quote by done. cbn [app]. rewrite decide_True by done.
    by rewrite unquote_quote by done.
  - rewrite Forall_cons in Hl. destruct Hl as [He' Hl].
    change (join_comma (entry_text <$> (k, v) :: e' :: l))
      with (entry_text (k, v) ++ [x2c] ++ join_comma (entry_text <$> e' :: l)).
    unfold entry_text at 1. cbn [fst snd read_entries].
    rewrite <- !app_assoc, unquote_quote by done. cbn [app]. rewrite decide_True by done.
    rewrite unquote_quote by done. rewrite decide_True by done.
    assert (length l < fuel)%nat as Hf' by (simpl in Hf; lia).
    pose proof (IH e' fuel He' Hl Hf') as Hr. cbn [app] in Hr. by rewrite Hr.
Qed.

Lemma insert_key_map {A B} (f : A → B) x l :
  insert_key (prod_map id f x) (map (prod_map id f) l) = map (prod_map id f) (insert_key x l).
Proof.
  induction l as [|y l IH]; [done|]. simpl. destruct (string_le x.1 y.1); simpl; [done|].
  by rewrite IH.
Qed.

Lemma sort_keys_map {A B} (f : A → B) l :
  sort_keys (map (prod_map id f) l) = map (prod_map id f) (sort_keys l).
Proof.
  unfold sort_keys. induction l as [|x l IH]; [done|]. simpl. by rewrite IH, insert_key_map.
Qed.

Lemma insert_key_perm {A} (x : gostring * A) l : insert_key x l ≡ₚ x :: l.
Proof.
  induction l as [|y l IH]; [done|]. simpl. destruct (string_le x.1 y.1); [done|].
  rewrite IH. apply Permutation_swap.
Qed.

Lemma sort_keys_perm {A} (l : list (gostring * A)) : sort_keys l ≡ₚ l.
Proof.
  unfold sort_keys. induction l as [|x l IH]; [done|]. simpl. by rewrite insert_key_perm, IH.
Qed.

(** A map of strings marshals to its entries in key order. *)
Lemma Marshal_strings l :
  Marshal (JMap (map (prod_map id JString) l)) =
  [x7b] ++ join_comma (entry_text <$> sort_keys l) ++ [x7d].
Proof.
  cbn [Marshal]. f_equal. f_equal. f_equal.
  replace (map _ (map (prod_map id JString) l)) with (map (prod_map id quote) l)
    by (rewrite map_map; by apply map_ext).
  rewrite sort_keys_map, <- list_fmap_compose. reflexivity.
Qed.

Lemma read_object_strings l rest :
  Forall utf8_entry l →
  read_object (Marshal (JMap (map (prod_map id JString) l)) ++ rest) = Some (sort_keys l, rest).
Proof.
  intros Hl. rewrite Marshal_strings.
  assert (Forall utf8_entry (sort_keys l)) as Hs by (by rewrite sort_keys_perm).
  destruct (sort_keys l) as [|e l'] eqn:E; [done|].
  rewrite Forall_cons in Hs. destruct Hs as [He Hs].
  rewrite <- !app_assoc.
  pose proof (read_entries_text e l' (length (join_comma (entry_text <$> e :: l') ++ [x7d] ++ rest))
    rest He Hs) as Hr.
  set (t := join_comma (entry_text <$> e :: l') ++ [x7d] ++ rest) in *.
  assert (∃ t', t = x22 :: t') as [t' Ht].
  { subst t. destruct l'; simpl; eauto. }
  cbn [app read_object]. rewrite decide_True by done.
  transitivity (read_entries (length t) t); [by rewrite Ht|]. apply Hr.
  subst t. rewrite length_app. simpl length at 3.
  enough (length l' <= length (join_comma (entry_text <$> e :: l')))%nat by lia.
  clear. revert e. induction l' as [|e' l' IH]; intros e; [simpl; lia|].
  change (join_comma (entry_text <$> e :: e' :: l'))
    with (entry_text e ++ [x2c] ++ join_comma (entry_text <$> e' :: l')).
  rewrite !length_app. specialize (IH e'). cbn [length] in *. lia.
Qed.
