(* ===== verification/K8s.v ===== *)
(** * The Kubernetes client

    [k8s.go]: connecting, listing the pods of a node and annotating a pod by a JSON merge
    patch.  The API server and the pod informer behind client-go and the
    descheduler's [podutil] are the interface [Cluster]. *)
From S2P Require Import Prelude GoStrings GoJson Lookup.

Inductive patch_type := JSONPatchType | MergePatchType | StrategicMergePatchType.

(** A patch request as it goes to the API server. *)
Record patch_request := {
  rq_namespace : gostring;
  rq_name : gostring;
  rq_type : patch_type;
  rq_data : gostring;
}.

(** The document that sets annotations in an object's metadata. *)
Definition annotations_patch (m : gmap gostring gostring) : json :=
  JMap [(bs "metadata", JMap [(bs "annotations",
    JMap ((λ e, (e.1, JString e.2)) <$> map_to_list m))])].

(** Keys and values are UTF-8, which is what a JSON document can carry. *)
Definition utf8_map (m : gmap gostring gostring) : Prop :=
  map_Forall (λ k v, utf8 k ∧ utf8 v) m.

(** What the agent relies on of the cluster: a list of the node's pods from the
    informer's store, and patches, which are sent one at a time. *)
Class Cluster (W error : Type) := {
  (** [podutil.ListPodsOnANode(nodeName, getPodsAssignedToNode, nil)] *)
  list_pods : gostring → W → list Pod + error;
  (** [client.CoreV1().Pods(ns).Patch(ctx, name, type, data, PatchOptions{})] *)
  Patch : patch_request → W → option error * W;
  (** the patches sent so far *)
  patches : W → list patch_request;
  (** the annotations the API server has for the pod of a namespace and name *)
  stored : W → gostring → gostring → option (gmap gostring gostring);
  patches_Patch rq w : patches (Patch rq w).2 = patches w ++ [rq];
  (** a merge patch that succeeds overwrites the annotations it names, keeps the
      others, and touches no other pod *)
  stored_Patch rq m w :
    utf8_map m → rq_type rq = MergePatchType → rq_data rq = Marshal (annotations_patch m) →
    (Patch rq w).1 = None →
    ∃ old, stored w (rq_namespace rq) (rq_name rq) = Some old ∧
      ∀ ns n, stored (Patch rq w).2 ns n =
        (if decide (ns = rq_namespace rq ∧ n = rq_name rq) then Some (m ∪ old)
         else stored w ns n);
}.

Section k8s.
Context {W error : Type} `{Cluster W error}.

Definition ListPodsOnANode (nodeName : gostring) (w : W) : list Pod + error :=
  list_pods nodeName w.

(** The error carries the pod it is about, as the wrapped one does. *)
Inductive annotate_error := PatchFailed (namespace name : gostring) (err : error).

(** Marshalling strings and maps of strings has no error case. *)
Definition AnnotatePod (namespace name : gostring) (annotations : gmap gostring gostring)
    (w : W) : option annotate_error * W :=
  if decide (size annotations = 0%nat) then (None, w)
  else
    let data := Marshal (annotations_patch annotations) in
    match Patch {| rq_namespace := namespace; rq_name := name;
                   rq_type := MergePatchType; rq_data := data |} w with
    | (Some err, w') => (Some (PatchFailed namespace name err), w')
    | (None, w') => (None, w')
    end.
End k8s.
Arguments annotate_error : clear implicits.

(** ** Connecting *)

(** client-go's configuration as far as the agent sets it; the rest, the connection
    itself and 32-bit floats are the library's. *)
Class ClientLib (error : Type) := {
  rest_base : Type;
  client : Type;
  float32 : Type;
  (** [clientcmd.BuildConfigFromFlags(masterUrl, kubeconfigPath)] *)
  BuildConfigFromFlags : gostring → gostring → rest_base + error;
  (** [kubernetes.NewForConfig(config)], for a configuration with burst and rate *)
  NewForConfig : rest_base → Z → float32 → client + error;
  (** [podutil.BuildGetPodsAssignedToNodeFunc] on the client's pod informer *)
  BuildGetPodsAssignedToNodeFunc : client → option error;
  (** whether [sharedInformerFactory.WaitForCacheSync(ctx.Done())] comes back: the caches
      are filled at some time, or the context is cancelled *)
  WaitForCacheSync : client → bool;
}.

(** [ClientConnection], by the fields in use. *)
Record ClientConnection (F : Type) := { Kubeconfig : gostring; QPS : F; Burst : Z }.
Arguments Kubeconfig {F}. Arguments QPS {F}. Arguments Burst {F}.

(** [CreateClients]: starting the informers and waiting for their caches has no error, but
    the wait need not end ([None]): it is for the API server to fill the caches.  The
    burst is an [int32] that becomes an [int]. *)
Definition CreateClients {error} `{ClientLib error} (c : ClientConnection float32)
    : option (client + error) :=
  match BuildConfigFromFlags [] (Kubeconfig c) with
  | inr err => Some (inr err)
  | inl config =>
      match NewForConfig config (Burst c) (QPS c) with
      | inr err => Some (inr err)
      | inl cl =>
          match BuildGetPodsAssignedToNodeFunc cl with
          | Some err => Some (inr err)
          | None => if WaitForCacheSync cl then Some (inl cl) else None
          end
      end
  end.

(** ** Properties *)

(** The request that annotates a pod. *)
Definition annotate_request (ns n : gostring) (m : gmap gostring gostring) : patch_request := {|
  rq_namespace := ns; rq_name := n; rq_type := MergePatchType;
  rq_data := Marshal (annotations_patch m) |}.

Lemma AnnotatePod_nonempty {W error} `{Cluster W error} ns n m (w : W) :
  m ≠ ∅ →
  AnnotatePod ns n m w =
    ((λ e, PatchFailed ns n e) <$> (Patch (annotate_request ns n m) w).1,
     (Patch (annotate_request ns n m) w).2).
Proof.
  intros Hm. unfold AnnotatePod. rewrite decide_False by (by rewrite map_size_empty_iff).
  fold (annotate_request ns n m). by destruct (Patch _ w) as [[e|] w'].
Qed.

(** Reading a patch document back. *)
Definition patch_prefix : gostring :=
  bs "{" ++ quote (bs "metadata") ++ bs ":{" ++ quote (bs "annotations") ++ bs ":".

Definition read_annotations (s : gostring) : option (gmap gostring gostring) :=
  match strip_prefix patch_prefix s with
  | Some t =>
      match read_object t with
      | Some (l, rest) => if decide (rest = bs "}}") then Some (list_to_map l) else None
      | None => None
      end
  | None => None
  end.

Lemma annotations_patch_text m :
  Marshal (annotations_patch m) =
  patch_prefix ++ Marshal (JMap (map (prod_map id JString) (map_to_list m))) ++ bs "}}".
Proof.
  unfold annotations_patch. set (inner := Marshal (JMap (map _ _))).
  change (Marshal (JMap [(bs "metadata", JMap [(bs "annotations",
    JMap (map (prod_map id JString) (map_to_list m)))])]) = patch_prefix ++ inner ++ bs "}}").
  transitivity ([x7b] ++ (quote (bs "metadata") ++ [x3a] ++ ([x7b] ++
    (quote (bs "annotations") ++ [x3a] ++ inner) ++ [x7d])) ++ [x7d]); [reflexivity|].
  unfold patch_prefix. by rewrite <- !app_assoc.
Qed.

Lemma read_annotations_patch m :
  utf8_map m → read_annotations (Marshal (annotations_patch m)) = Some m.
Proof.
  intros Hm. rewrite annotations_patch_text. unfold read_annotations.
  rewrite (proj2 (strip_prefix_Some _ _ _) eq_refl).
  rewrite read_object_strings; [|].
  - rewrite decide_True by done. f_equal. transitivity (list_to_map (map_to_list m) : gmap _ _).
    + apply list_to_map_proper; [|apply sort_keys_perm].
      rewrite sort_keys_perm. apply NoDup_fst_map_to_list.
    + apply list_to_map_to_list.
  - apply Forall_forall. intros [k v] Hkv%elem_of_map_to_list. by apply Hm in Hkv.
Qed.

(** C22. The patch document carries the annotations: for any UTF-8 keys and values,
    reading back the request the agent sends for a set of annotations gives
    exactly that set, whatever characters they contain, so nothing in an
    annotation can change another part of the document. *)
Theorem patch_carries_annotations ns n m :
  utf8_map m →
  rq_type (annotate_request ns n m) = MergePatchType ∧
  read_annotations (rq_data (annotate_request ns n m)) = Some m.
Proof. intros Hm. split; [done|by apply read_annotations_patch]. Qed.

(** C21. Annotating a pod: no annotations means no request; otherwise exactly one
    merge patch goes to the pod of that namespace and name; when it succeeds and
    the annotations are UTF-8, the pod has them on top of the ones it had and no
    other pod's changed; when it fails the error is reported with the pod it is about. *)
Theorem annotate_pod_spec {W error} `{Cluster W error} ns n m (w : W) :
  match AnnotatePod ns n m w with
  | (None, w') =>
      (m = ∅ ∧ w' = w) ∨
      (m ≠ ∅ ∧ patches w' = patches w ++ [annotate_request ns n m] ∧
       (utf8_map m → ∃ old, stored w ns n = Some old ∧
          ∀ ns' n', stored w' ns' n' =
            (if decide (ns' = ns ∧ n' = n) then Some (m ∪ old) else stored w ns' n')))
  | (Some (PatchFailed ns' n' err), w') =>
      m ≠ ∅ ∧ ns' = ns ∧ n' = n ∧ patches w' = patches w ++ [annotate_request ns n m] ∧
      (Patch (annotate_request ns n m) w).1 = Some err
  end.
Proof.
  destruct (decide (m = ∅)) as [->|Hm].
  - unfold AnnotatePod. rewrite decide_True by apply map_size_empty. by left.
  - rewrite AnnotatePod_nonempty by done.
    destruct (Patch (annotate_request ns n m) w).1 as [err|] eqn:E; simpl.
    + split_and!; [done..|apply patches_Patch|done].
    + right. split_and!; [done|apply patches_Patch|]. intros Hu.
      by apply (stored_Patch (annotate_request ns n m) m w).
Qed.
