(* ===== verification/GoErrors.v ===== *)
(** * Go errors

    The error values that pass from the eBPF library and the context through
    the agent to [main]: an error a library made, the cancellation of a context,
    and one wrapped by [fmt.Errorf] with the verb [%w].  [Is] is [errors.Is] for
    the target [context.Canceled], which looks through the wrapping. *)
From S2P Require Import Prelude GoStrings.

Inductive goerror (E : Type) :=
  | Other (e : E)
  | Canceled
  | Wrapped (prefix : gostring) (err : goerror E).
Arguments Other {E}. Arguments Canceled {E}. Arguments Wrapped {E}.

(** [fmt.Errorf(prefix + "%w", err)] *)
Definition Errorf {E} (prefix : gostring) (err : goerror E) : goerror E := Wrapped prefix err.

(** [errors.Is(err, context.Canceled)] *)
Fixpoint is_canceled {E} (err : goerror E) : bool :=
  match err with
  | Other _ => false
  | Canceled => true
  | Wrapped _ err => is_canceled err
  end.

(** [err.Error()], given that of the libraries' errors. *)
Fixpoint Error {E} (text : E → gostring) (err : goerror E) : gostring :=
  match err with
  | Other e => text e
  | Canceled => bs "context canceled"
  | Wrapped prefix err => prefix ++ Error text err
  end.
