(* ===== verification/Loading.v ===== *)
(** * Loading the BPF program

    [LoadBPF] of [ebpf.go] and the part of the generated bindings
    ([bpf_x86_bpfel.go], [bpf_arm64_bpfel.go]) it goes through: loading the embedded
    object, assigning its program and map to a struct, closing them.  The
    cilium/ebpf library is the class [Ebpf]; what it gives out are resources, and
    [EbpfLaws] says which of them are open after each of its functions.  The
    point is which resources [LoadBPF] leaves open, and which its [Close] function
    closes. *)
From S2P Require Import Prelude GoStrings GoErrors.
From stdpp Require Import fin_sets.

(** ** The library *)

(** A program, map, link or ring buffer reader. *)
Abbreviation resource := positive.

Class Ebpf (L E : Type) := {
  CollectionSpec : Type;
  (** the resources that are open *)
  opened : L → gset resource;
  (** [rlimit.RemoveMemlock()] *)
  RemoveMemlock : L → option (goerror E) * L;
  (** [ebpf.LoadCollectionSpecFromReader(bytes.NewReader(data))] *)
  LoadCollectionSpecFromReader : list byte → CollectionSpec + goerror E;
  (** [spec.LoadAndAssign(obj, nil)], for a struct with one program and one map,
      by the names their tags ask for *)
  LoadAndAssign : CollectionSpec → gostring → gostring → L →
    ((resource * resource) + goerror E) * L;
  (** [link.Kprobe(symbol, prog, nil)] *)
  Kprobe : gostring → resource → L → (resource + goerror E) * L;
  (** [ringbuf.NewReader(map)] *)
  NewReader : resource → L → (resource + goerror E) * L;
  (** the [Close] method of any of them *)
  Close : resource → L → option (goerror E) * L;
}.

(** What is opened is new, a failed call opens nothing, and closing affects no other
    resource, closed ones included. *)
Class EbpfLaws (L E : Type) `{Ebpf L E} : Prop := {
  opened_RemoveMemlock s : opened (RemoveMemlock s).2 = opened s;
  opened_LoadAndAssign spec p m s :
    match LoadAndAssign spec p m s with
    | (inl (prog, map), s') =>
        prog ≠ map ∧ (prog ∉ opened s) ∧ (map ∉ opened s) ∧ opened s' = {[prog; map]} ∪ opened s
    | (inr _, s') => opened s' = opened s
    end;
  opened_Kprobe fn prog s :
    match Kprobe fn prog s with
    | (inl kp, s') => (kp ∉ opened s) ∧ opened s' = {[kp]} ∪ opened s
    | (inr _, s') => opened s' = opened s
    end;
  opened_NewReader m s :
    match NewReader m s with
    | (inl rd, s') => (rd ∉ opened s) ∧ opened s' = {[rd]} ∪ opened s
    | (inr _, s') => opened s' = opened s
    end;
  opened_Close h s :
    match Close h s with
    | (None, s') => opened s' = opened s ∖ {[h]}
    | (Some _, s') => opened s ∖ {[h]} ⊆ opened s' ⊆ opened s
    end;
}.

(** ** The bindings *)

(** [bpfObjects], with the one field of [bpfPrograms] and the one of [bpfMaps] in it. *)
Record bpfObjects := {
  KprobeOomKillProcess : resource;
  Events : resource;
}.

Section bindings.
Context {L E : Type} `{Ebpf L E}.

(** The object file of the build. *)
Variable _BpfBytes : list byte.

(** A [Close] method, as [io.Closer] has it. *)
Abbreviation closer := (L → option (goerror E) * L).

Fixpoint _BpfClose (closers : list closer) (s : L) : option (goerror E) * L :=
  match closers with
  | [] => (None, s)
  | closer :: closers =>
      match closer s with
      | (Some err, s) => (Some err, s)
      | (None, s) => _BpfClose closers s
      end
  end.

Definition bpfPrograms_Close (o : bpfObjects) : closer :=
  _BpfClose [Close (KprobeOomKillProcess o)].

Definition bpfMaps_Close (o : bpfObjects) : closer :=
  _BpfClose [Close (Events o)].

Definition bpfObjects_Close (o : bpfObjects) : closer :=
  _BpfClose [bpfPrograms_Close o; bpfMaps_Close o].

Definition loadBpf : CollectionSpec + goerror E :=
  match LoadCollectionSpecFromReader _BpfBytes with
  | inr err => inr (Errorf (bs "can't load bpf: ") err)
  | inl spec => inl spec
  end.

(** [loadBpfObjects(&objs, nil)], with the tags of [bpfPrograms] and [bpfMaps]. *)
Definition loadBpfObjects (s : L) : (bpfObjects + goerror E) * L :=
  match loadBpf with
  | inr err => (inr err, s)
  | inl spec =>
      match LoadAndAssign spec (bs "kprobe__oom_kill_process") (bs "events") s with
      | (inr err, s) => (inr err, s)
      | (inl (prog, map), s) =>
          (inl {| KprobeOomKillProcess := prog; Events := map |}, s)
      end
  end.

(** ** [ebpf.go] *)

(** The function [LoadBPF] returns to release what it opened; errors are dropped. *)
Definition closeFn (objs : bpfObjects) (kp rd : resource) (s : L) : L :=
  let s := (bpfObjects_Close objs s).2 in
  let s := (Close kp s).2 in
  (Close rd s).2.

(** The reader and the function that closes everything, or an error. *)
Definition LoadBPF (fn : gostring) (s : L) : ((resource * (L → L)) + goerror E) * L :=
  match RemoveMemlock s with
  | (Some err, s) => (inr (Errorf (bs "remove memlock: ") err), s)
  | (None, s) =>
      match loadBpfObjects s with
      | (inr err, s) => (inr (Errorf (bs "load bpf objects: ") err), s)
      | (inl objs, s) =>
          match Kprobe fn (KprobeOomKillProcess objs) s with
          | (inr err, s) => (inr (Errorf (bs "open kprobe on " ++ fn ++ bs ": ") err), s)
          | (inl kp, s) =>
              match NewReader (Events objs) s with
              | (inr err, s) => (inr (Errorf (bs "open ring buffer: ") err), s)
              | (inl rd, s) => (inl (rd, closeFn objs kp rd), s)
              end
          end
      end
  end.
End bindings.

(** ** Properties *)

(** All resources of a load. *)
Definition resources (objs : bpfObjects) (kp rd : resource) : gset resource :=
  {[KprobeOomKillProcess objs; Events objs; kp; rd]}.

(** The probe's link and the reader are not the same, of four resources. *)
Lemma resources_apart objs kp rd : size (resources objs kp rd) = 4%nat → kp ≠ rd.
Proof.
  intros Hs ->. unfold resources in Hs.
  rewrite <- (union_assoc_L _ {[rd]} {[rd]}), union_idemp_L, size_union_alt, size_union_alt in Hs.
  pose proof (subseteq_size ({[Events objs]} ∖ {[KprobeOomKillProcess objs]})
    ({[Events objs]} : gset resource) ltac:(set_solver)) as H1.
  pose proof (subseteq_size ({[rd]} ∖ {[KprobeOomKillProcess objs; Events objs]})
    ({[rd]} : gset resource) ltac:(set_solver)) as H2.
  rewrite !size_singleton in *. lia.
Qed.

Section properties.
Context {L E : Type} `{EL : EbpfLaws L E}.

(** Closing a resource leaves the others as they are. *)
Lemma Close_frame h (s : L) : opened s ∖ {[h]} ⊆ opened (Close h s).2 ⊆ opened s.
Proof using EL.
  pose proof (opened_Close h s) as Hc. destruct (Close h s) as [[err|] s']; [done|].
  simpl. rewrite Hc. set_solver.
Qed.

Lemma Close_closed h (s : L) : (Close h s).1 = None → opened (Close h s).2 = opened s ∖ {[h]}.
Proof using EL.
  intros Hn. pose proof (opened_Close h s) as Hc. by destruct (Close h s) as [[err|] s'].
Qed.

(** [_BpfClose] stops at the first error; [t] is what is left open. *)
Lemma BpfClose_frame (hs : list resource) (s : L) :
  opened s ∖ list_to_set hs ⊆ opened (_BpfClose (Close <$> hs) s).2 ⊆ opened s.
Proof using EL.
  revert s. induction hs as [|h hs IH]; intros s; [set_solver|]. cbn [fmap list_fmap _BpfClose].
  pose proof (Close_frame h s) as Hc. destruct (Close h s) as [[err|] s1]; [set_solver|].
  specialize (IH s1). set_solver.
Qed.

Lemma bpfObjects_Close_flat o (s : L) :
  bpfObjects_Close o s = _BpfClose (Close <$> [KprobeOomKillProcess o; Events o]) s.
Proof using.
  unfold bpfObjects_Close, bpfPrograms_Close, bpfMaps_Close. simpl.
  destruct (Close (KprobeOomKillProcess o) s) as [[err|] s1]; [done|].
  by destruct (Close (Events o) s1) as [[err|] s2].
Qed.

Lemma frame_trans (X Y Z A B : gset resource) :
  X ∖ A ⊆ Y ⊆ X → Y ∖ B ⊆ Z ⊆ Y → X ∖ (A ∪ B) ⊆ Z ⊆ X.
Proof using. clear. set_solver. Qed.

(** The closing function closes its four resources and nothing else, provided that none
    of them fails to close. *)
Lemma closeFn_frame objs kp rd (s : L) :
  opened s ∖ resources objs kp rd ⊆ opened (closeFn objs kp rd s) ⊆ opened s.
Proof using EL.
  unfold closeFn. cbv zeta. rewrite bpfObjects_Close_flat.
  replace (resources objs kp rd)
    with (list_to_set [KprobeOomKillProcess objs; Events objs] ∪ {[kp]} ∪ {[rd]} : gset resource)
    by (unfold resources; simpl; rewrite (right_id_L ∅ (∪)); done).
  eapply frame_trans; [eapply frame_trans; [apply BpfClose_frame|apply Close_frame]|].
  apply Close_frame.
Qed.

(** None of some resources fails to close. *)
Definition closable (hs : gset resource) : Prop :=
  ∀ h (s : L), h ∈ hs → (Close (E := E) h s).1 = None.

Lemma closeFn_closes objs kp rd (s : L) :
  closable (resources objs kp rd) →
  opened (closeFn objs kp rd s) = opened s ∖ resources objs kp rd.
Proof using EL.
  intros Hc. unfold closeFn, resources in *. cbv zeta. rewrite bpfObjects_Close_flat.
  cbn [fmap list_fmap _BpfClose].
  pose proof (λ h s Hh, Close_closed h s (Hc h s Hh)) as Ho.
  rewrite !Ho by set_solver.
  pose proof (Hc (KprobeOomKillProcess objs) s ltac:(set_solver)) as H1.
  pose proof (Ho (KprobeOomKillProcess objs) s ltac:(set_solver)) as O1.
  destruct (Close _ s) as [? s1]. simpl in H1, O1. subst.
  pose proof (Hc (Events objs) s1 ltac:(set_solver)) as H2.
  pose proof (Ho (Events objs) s1 ltac:(set_solver)) as O2.
  destruct (Close _ s1) as [? s2]. simpl in H2, O2. subst. simpl. rewrite O2, O1. set_solver.
Qed.
End properties.

(** Four new resources are open after a successful load. *)
Lemma LoadBPF_opened {L E} `{EL : EbpfLaws L E} _BpfBytes fn (s s' : L) rd close :
  LoadBPF _BpfBytes fn s = (inl (rd, close), s') →
  ∃ objs kp, close = closeFn objs kp rd ∧ size (resources objs kp rd) = 4%nat ∧
    resources objs kp rd ## opened s ∧ opened s' = resources objs kp rd ∪ opened s.
Proof.
  unfold LoadBPF, loadBpfObjects.
  pose proof (opened_RemoveMemlock s) as Hm. destruct (RemoveMemlock s) as [[err|] s1]; [done|].
  simpl in Hm. destruct (loadBpf _BpfBytes) as [spec|err]; [|done].
  pose proof (opened_LoadAndAssign spec (bs "kprobe__oom_kill_process") (bs "events") s1) as Ha.
  destruct (LoadAndAssign _ _ _ s1) as [[[prog map]|err] s2]; [|done].
  destruct Ha as (Hpm & Hp & Hmap & Ha). rewrite Hm in *.
  cbn [KprobeOomKillProcess Events].
  pose proof (opened_Kprobe fn prog s2) as Hk.
  destruct (Kprobe fn prog s2) as [[kp|err] s3]; [|done]. destruct Hk as (Hkp & Hk).
  pose proof (opened_NewReader map s3) as Hr.
  destruct (NewReader map s3) as [[rd'|err] s4]; [|done]. destruct Hr as (Hrd & Hr).
  intros [= <- <- <-]. rewrite Hk, Ha in Hrd. rewrite Ha in Hkp.
  exists {| KprobeOomKillProcess := prog; Events := map |}, kp. unfold resources.
  cbn [KprobeOomKillProcess Events]. split_and!; [done| |set_solver|by rewrite Hr, Hk, Ha; set_solver].
  rewrite !size_union, !size_singleton by set_solver. done.
Qed.

(** C14. What [LoadBPF] leaves open.  When it succeeds, exactly four new resources are
    open, the program, the map, the probe and the reader it returns; the function
    it returns with the reader closes none but those, at any later time, and all
    of them unless one fails to close.  When it fails, the error says at which
    stage, and nothing has been opened if that was the memory limit or the
    object; but the program and the map stay open when the probe cannot be
    attached, and the probe too when the reader cannot be opened, and no one is
    left who could close them. *)
Theorem load_bpf_spec {L E} `{EL : EbpfLaws L E} _BpfBytes fn (s : L) :
  match LoadBPF _BpfBytes fn s with
  | (inl (rd, close), s') =>
      ∃ objs kp, size (resources objs kp rd) = 4%nat ∧ resources objs kp rd ## opened s ∧
        opened s' = resources objs kp rd ∪ opened s ∧
        (∀ s1, opened s1 ∖ resources objs kp rd ⊆ opened (close s1) ⊆ opened s1) ∧
        (closable (L := L) (E := E) (resources objs kp rd) →
          ∀ s1, opened (close s1) = opened s1 ∖ resources objs kp rd)
  | (inr err, s') =>
      ∃ e leaked, leaked ## opened s ∧ opened s' = leaked ∪ opened s ∧
        (err = Wrapped (bs "remove memlock: ") e ∧ leaked = ∅ ∨
         err = Wrapped (bs "load bpf objects: ") e ∧ leaked = ∅ ∨
         err = Wrapped (bs "open kprobe on " ++ fn ++ bs ": ") e ∧ size leaked = 2%nat ∨
         err = Wrapped (bs "open ring buffer: ") e ∧ size leaked = 3%nat)
  end.
Proof.
  destruct (LoadBPF _BpfBytes fn s) as [[[rd close]|err] s'] eqn:El.
  { destruct (LoadBPF_opened _ _ _ _ _ _ El) as (objs & kp & -> & Hsz & Hd & Ho).
    exists objs, kp. split_and!; [done..| |].
    - intros s1. apply closeFn_frame.
    - intros Hc s1. by apply closeFn_closes. }
  revert El. unfold LoadBPF, loadBpfObjects, Errorf.
  pose proof (opened_RemoveMemlock s) as Hm. destruct (RemoveMemlock s) as [[e|] s1].
  { intros [= <- <-]. exists e, ∅. simpl in Hm. rewrite Hm. set_solver. }
  simpl in Hm. destruct (loadBpf _BpfBytes) as [spec|e].
  2: { intros [= <- <-]. exists e, ∅. rewrite Hm. set_solver. }
  pose proof (opened_LoadAndAssign spec (bs "kprobe__oom_kill_process") (bs "events") s1) as Ha.
  destruct (LoadAndAssign _ _ _ s1) as [[[prog map]|e] s2].
  2: { intros [= <- <-]. exists e, ∅. rewrite Ha, Hm. set_solver. }
  destruct Ha as (Hpm & Hp & Hmap & Ha). rewrite Hm in *.
  cbn [KprobeOomKillProcess Events].
  pose proof (opened_Kprobe fn prog s2) as Hk. destruct (Kprobe fn prog s2) as [[kp|e] s3].
  2: { intros [= <- <-]. exists e, {[prog; map]}. rewrite Hk, Ha.
       split_and!; [set_solver|done|]. do 2 right; left. split; [done|].
       rewrite size_union, !size_singleton by set_solver. done. }
  destruct Hk as (Hkp & Hk).
  pose proof (opened_NewReader map s3) as Hr. destruct (NewReader map s3) as [[rd|e] s4]; [done|].
  intros [= <- <-]. exists e, {[prog; map; kp]}. rewrite Hr, Hk, Ha. rewrite Ha in Hkp.
  split_and!; [set_solver|set_solver|]. do 3 right. split; [done|].
  rewrite !size_union, !size_singleton by set_solver. done.
Qed.

(** ** An example library *)

(** It keeps the set of open resources, and can be told which functions fail. *)
Record simlib := { lib_opened : gset resource; lib_fails : list string }.

Definition lib_open (s : simlib) : resource * simlib :=
  let h := fresh (lib_opened s) in
  (h, {| lib_opened := {[h]} ∪ lib_opened s; lib_fails := lib_fails s |}).

(** A call that fails if it is told to. *)
Definition lib_call {A} (name : string) (s : simlib) (ok : A * simlib)
    : (A + goerror string) * simlib :=
  if bool_decide (name ∈ lib_fails s) then (inr (Other name), s) else (inl ok.1, ok.2).

#[global] Instance sim_ebpf : Ebpf simlib string := {|
  CollectionSpec := unit;
  opened := lib_opened;
  RemoveMemlock s := (None, s);
  LoadCollectionSpecFromReader _ := inl tt;
  LoadAndAssign _ _ _ s :=
    lib_call "load" s
      (let '(p, s1) := lib_open s in let '(m, s2) := lib_open s1 in ((p, m), s2));
  Kprobe _ _ s := lib_call "kprobe" s (lib_open s);
  NewReader _ s := lib_call "reader" s (lib_open s);
  Close h s := (None, {| lib_opened := lib_opened s ∖ {[h]}; lib_fails := lib_fails s |});
|}.

Lemma lib_open_spec s :
  ((lib_open s).1 ∉ lib_opened s) ∧
  lib_opened (lib_open s).2 = {[(lib_open s).1]} ∪ lib_opened s.
Proof. split; [apply is_fresh|done]. Qed.

#[global] Instance sim_ebpf_laws : EbpfLaws simlib string.
Proof.
  split.
  - done.
  - intros spec p m s. cbn [LoadAndAssign sim_ebpf]. unfold lib_call. case_bool_decide; [done|].
    pose proof (lib_open_spec s) as [H1 O1]. destruct (lib_open s) as [h1 s1].
    pose proof (lib_open_spec s1) as [H2 O2]. destruct (lib_open s1) as [h2 s2].
    cbn [fst snd opened sim_ebpf] in *. rewrite O1 in H2, O2. rewrite O2. clear O1 O2.
    revert H1 H2. generalize (lib_opened s). clear. intros X H1 H2. set_solver.
  - intros fn p s. cbn [Kprobe sim_ebpf]. unfold lib_call. case_bool_decide; [done|].
    apply lib_open_spec.
  - intros m s. cbn [NewReader sim_ebpf]. unfold lib_call. case_bool_decide; [done|].
    apply lib_open_spec.
  - done.
Qed.

Definition example_lib (fails : list string) : simlib := {|
  lib_opened := {[7%positive]}; lib_fails := fails |}.

(** A probe that cannot be attached leaves the program and the map open. *)
Lemma load_bpf_spec_witness :
  ∃ leaked, (LoadBPF [] (bs "oom_kill_process") (example_lib ["kprobe"%string])).1 =
      inr (Wrapped (bs "open kprobe on oom_kill_process: ") (Other "kprobe"%string)) ∧
    opened (LoadBPF [] (bs "oom_kill_process") (example_lib ["kprobe"%string])).2 =
      leaked ∪ {[7%positive]} ∧ size leaked = 2%nat.
Proof.
  pose proof (load_bpf_spec (L := simlib) (E := string) [] (bs "oom_kill_process")
    (example_lib ["kprobe"%string])) as H.
  assert ((LoadBPF [] (bs "oom_kill_process") (example_lib ["kprobe"%string])).1 =
    inr (Wrapped (bs "open kprobe on oom_kill_process: ") (Other "kprobe"%string))) as E
    by (vm_compute; reflexivity).
  destruct (LoadBPF _ _ _) as [[[rd close]|err] s']; [discriminate E|].
  simpl in E. injection E as ->.
  destruct H as (e & leaked & _ & Ho & Hs). exists leaked. split; [reflexivity|].
  split; [exact Ho|].
  destruct Hs as [[Hw _]|[[Hw _]|[[_ Hz]|[Hw _]]]]; [discriminate Hw|discriminate Hw|exact Hz|].
  discriminate Hw.
Defined.

(** Loading and closing leaves what was open before. *)
Example load_and_close :
  match LoadBPF [] (bs "oom_kill_process") (example_lib []) with
  | (inl (rd, close), s') =>
      bool_decide (opened (close s') = {[7%positive]}) && (size (opened s') =? 5)%nat
  | _ => false
  end = true.
Proof. vm_compute. reflexivity. Qed.
