(* ===== verification/Tracer.v ===== *)
(** * The tracer

    [oomtracer.go]: the loop that reads samples, decides what each event means
    and acts on it.  [World] is everything the loop acts on (the metrics
    library and the cluster), with the fact that the two do not interfere.
    [handle_event] is the body of the loop for a decoded event,
    [verdict] the decision it should make, and [trace] the loop over a finite
    prefix of what the reader returns, undisturbed; [step] is an iteration during
    which others may change the cluster.  Log output is not modelled. *)
From S2P Require Import Prelude GoStrings Annotation GoRegexp Lookup GoBinary Metrics GoJson K8s.

(** ** Configuration *)

Record OOMTracer := {
  nodeName : gostring;
  metrics : option Metrics;
  victimAnnotationKey : gostring;
  victimAnnotationVal : gostring;
  ignoreGlobalOOM : bool;
}.

Definition NewOOMTracer (nodeName : gostring) (metrics : option Metrics)
    (victimAnnotation : gostring) (ignoreGlobalOOM : bool) : OOMTracer + annotation_error :=
  match parseAnnotation victimAnnotation with
  | inr err => inr err
  | inl (key, val) => inl {|
      nodeName := nodeName; metrics := metrics;
      victimAnnotationKey := key; victimAnnotationVal := val;
      ignoreGlobalOOM := ignoreGlobalOOM |}
  end.

(** ** What the loop acts on *)

Class World (W error : Type) := {
  world_prometheus :: Prometheus W;
  world_cluster :: Cluster W error;
  (** counting does not touch the cluster, patching does not touch the counters *)
  list_pods_Inc node v ls w : list_pods node (Inc v ls w) = list_pods node w;
  patches_Inc v ls w : patches (Inc v ls w) = patches w;
  Patch_Inc rq v ls w : (Patch rq (Inc v ls w)).1 = (Patch rq w).1;
  count_Patch rq w v ls : count (Patch rq w).2 v ls = count w v ls;
  patches_MustRegister cs w w' : MustRegister cs w = Some w' → patches w' = patches w;
}.

(** What [rd.Read()] returns; with [ringbuf.ErrClosed] comes the value [ctx.Err()]
    has then. *)
Inductive read_result (error : Type) :=
  | Sample (raw : list byte)
  | ErrClosed (ctx_err : option error)
  | ErrRead (err : error).
Arguments Sample {error}. Arguments ErrClosed {error}. Arguments ErrRead {error}.

(** Whether the loop goes on or the function has returned. *)
Inductive outcome (error : Type) :=
  | Running
  | Returned (err : option error).
Arguments Running {error}. Arguments Returned {error}.

Definition eventStageObserved : gostring := bs "observed".
Definition eventStageIdentified : gostring := bs "identified".
Definition eventStageSkipped : gostring := bs "skipped".
Definition eventStageError : gostring := bs "error".
Definition victimStageMarked : gostring := bs "marked".
Definition victimStageSkipped : gostring := bs "skipped".

Section tracer.
Context {W error : Type} `{World W error} {U : Unix}.

(** The loop over the candidates. *)
Fixpoint find_pod_for (candidates : list gostring) (pods : list Pod) : option ID :=
  match candidates with
  | [] => None
  | s :: candidates =>
      if decide (s = []) then find_pod_for candidates pods
      else
        match LookupPod s pods with
        | Some id => Some id
        | None => find_pod_for candidates pods
        end
  end.

(** The loop's body once the sample is decoded.  Between the listing of the pods and the
    patch others may change the cluster: [meanwhile] is what they do. *)
Definition handle_event_meanwhile (meanwhile : W → W) (o : OOMTracer) (event : BpfEvent)
    (w : W) : outcome error * W :=
  let w := IncEvent (metrics o) eventStageObserved (bs "ebpf_capture") w in
  let candidates := Int8SliceToStringSlice (Names event) in
  if negb (ignoreGlobalOOM o) && negb (GlobalOom event) then
    (Running, IncEvent (metrics o) eventStageSkipped (bs "non_or_ignored_global_oom") w)
  else
    match candidates with
    | None => (Running, w)
    | Some candidates =>
        match ListPodsOnANode (nodeName o) w with
        | inr err => (Returned (Some err), w)
        | inl pods =>
            match find_pod_for candidates pods with
            | None => (Running, IncEvent (metrics o) eventStageSkipped (bs "no_pod_match") w)
            | Some id =>
                let w := IncEvent (metrics o) eventStageIdentified (bs "pod_identified") w in
                if decide (victimAnnotationKey o = []) then (Running, w)
                else
                  match id_Annotations id !! victimAnnotationKey o with
                  | Some _ =>
                      (Running,
                       IncMarkedVictim (metrics o) victimStageSkipped
                         (bs "annotation_exists") w)
                  | None =>
                      let annotations :=
                        {[ victimAnnotationKey o := victimAnnotationVal o ]} in
                      match AnnotatePod (id_Namespace id) (id_Name id) annotations
                              (meanwhile w) with
                      | (Some err, w) =>
                          (Running,
                           IncEvent (metrics o) eventStageError (bs "annotation_failed") w)
                      | (None, w) =>
                          (Running,
                           IncMarkedVictim (metrics o) victimStageMarked
                             (bs "annotation_applied") w)
                      end
                  end
            end
        end
    end.

(** One iteration of the loop. A sample that decodes to no event of the declared
    type does not exist ([read_event_total]). *)
Definition handle_meanwhile (meanwhile : W → W) (o : OOMTracer) (r : read_result error)
    (w : W) : outcome error * W :=
  match r with
  | ErrClosed ctx_err => (Returned ctx_err, w)
  | ErrRead _ => (Running, w)
  | Sample raw =>
      match read_event raw with
      | inl (Some event) => handle_event_meanwhile meanwhile o event w
      | inl None | inr _ => (Running, w)
      end
  end.

(** Undisturbed. *)
Definition handle_event : OOMTracer → BpfEvent → W → outcome error * W :=
  handle_event_meanwhile id.
Definition handle : OOMTracer → read_result error → W → outcome error * W :=
  handle_meanwhile id.

(** The loop over the results of the reader so far. *)
Fixpoint trace (o : OOMTracer) (rs : list (read_result error)) (w : W) : outcome error * W :=
  match rs with
  | [] => (Running, w)
  | r :: rs =>
      match handle o r w with
      | (Running, w) => trace o rs w
      | (Returned err, w) => (Returned err, w)
      end
  end.

(** [TraceKernelOOMKills], with what loading the BPF program returns. *)
Definition TraceKernelOOMKills (o : OOMTracer) (load : option error)
    (rs : list (read_result error)) (w : W) : outcome error * W :=
  match load with
  | Some err => (Returned (Some err), w)
  | None => trace o rs w
  end.
End tracer.

(** ** What an event should lead to *)

Inductive verdict :=
  | Ignored
  | NoPod
  | Observed (id : ID)
  | AlreadyMarked (id : ID)
  | ToMark (id : ID).

(** The pod of a list of names: the first name that is not empty and stands for a
    listed pod counts. *)
Definition named (candidates : list gostring) (pods : list Pod) : option Pod :=
  s ← List.find (λ s, negb (bool_decide (s = [])) && existsb (stands_for s) pods) candidates;
  List.find (stands_for s) pods.

(** The cgroup names of an event. *)
Definition candidates_of {U : Unix} (event : BpfEvent) : list gostring :=
  (λ x, ByteSliceToString (byte_of_Z <$> x)) <$> Names event.

Definition verdict_for (o : OOMTracer) (global : bool) (candidates : list gostring)
    (pods : list Pod) : verdict :=
  if ignoreGlobalOOM o || global then
    match named candidates pods with
    | None => NoPod
    | Some p =>
        if decide (victimAnnotationKey o = []) then Observed (pod_ID p)
        else if decide (is_Some (Annotations p !! victimAnnotationKey o))
        then AlreadyMarked (pod_ID p) else ToMark (pod_ID p)
    end
  else Ignored.

(** The patch request of a verdict. *)
Definition mark_request (o : OOMTracer) (id : ID) : patch_request :=
  annotate_request (id_Namespace id) (id_Name id)
    {[ victimAnnotationKey o := victimAnnotationVal o ]}.

Definition requests_for (o : OOMTracer) (d : verdict) : list patch_request :=
  match d with ToMark id => [mark_request o id] | _ => [] end.

(** The counters of a verdict, the latest first; for a pod to mark, [ok] is whether
    the patch succeeds. *)
Abbreviation entry := (CounterVec * list gostring)%type.

Definition captured : entry := (events_vec, [bs "observed"; bs "ebpf_capture"]).
Definition ignored : entry := (events_vec, [bs "skipped"; bs "non_or_ignored_global_oom"]).
Definition unmatched : entry := (events_vec, [bs "skipped"; bs "no_pod_match"]).
Definition identified : entry := (events_vec, [bs "identified"; bs "pod_identified"]).
Definition failed : entry := (events_vec, [bs "error"; bs "annotation_failed"]).
Definition applied : entry := (marked_vec, [bs "marked"; bs "annotation_applied"]).
Definition existing : entry := (marked_vec, [bs "skipped"; bs "annotation_exists"]).

Definition tally (d : verdict) (ok : bool) : list entry :=
  match d with
  | Ignored => [ignored]
  | NoPod => [unmatched]
  | Observed _ => [identified]
  | AlreadyMarked _ => [existing; identified]
  | ToMark _ => [if ok then applied else failed; identified]
  end ++ [captured].

Fixpoint occurrences (e : entry) (t : list entry) : nat :=
  match t with
  | [] => 0
  | x :: t => (if decide (x = e) then 1 else 0) + occurrences e t
  end.

(** How much a list of increments adds to a counter; nothing without metrics. *)
Definition noted (m : option Metrics) (t : list entry) (v : CounterVec) (ls : list gostring)
    : nat :=
  match m with Some _ => occurrences (v, ls) t | None => 0 end.

Definition wf_tracer (o : OOMTracer) : Prop :=
  match metrics o with Some m => wf_metrics m | None => True end.

(** ** The loop body implements the verdict *)

Lemma noted_cons m x t v ls : noted m (x :: t) v ls = (noted m [x] v ls + noted m t v ls)%nat.
Proof. destruct m; simpl; lia. Qed.

Section counters.
Context {W error : Type} `{HW : World W error}.

Lemma count_event_noted m s r (w : W) v ls :
  match m with Some m => wf_metrics m | None => True end → s ≠ [] → r ≠ [] →
  count (IncEvent m s r w) v ls = (count w v ls + noted m [(events_vec, [s; r])] v ls)%nat.
Proof using.
  intros Hm Hs Hr. destruct m as [m|]; [|simpl; lia].
  rewrite count_IncEvent by done. rewrite !label_nonempty by done.
  simpl. repeat case_decide; naive_solver lia.
Qed.

Lemma count_marked_noted m s r (w : W) v ls :
  match m with Some m => wf_metrics m | None => True end → s ≠ [] → r ≠ [] →
  count (IncMarkedVictim m s r w) v ls =
    (count w v ls + noted m [(marked_vec, [s; r])] v ls)%nat.
Proof using.
  intros Hm Hs Hr. destruct m as [m|]; [|simpl; lia].
  rewrite count_IncMarkedVictim by done. rewrite !label_nonempty by done.
  simpl. repeat case_decide; naive_solver lia.
Qed.

Lemma patches_IncEvent m s r (w : W) : patches (IncEvent m s r w) = patches w.
Proof using. destruct m; [apply patches_Inc|done]. Qed.
Lemma patches_IncMarkedVictim m s r (w : W) : patches (IncMarkedVictim m s r w) = patches w.
Proof using. destruct m; [apply patches_Inc|done]. Qed.
Lemma list_pods_IncEvent m s r node (w : W) :
  list_pods node (IncEvent m s r w) = list_pods node w.
Proof using. destruct m; [apply list_pods_Inc|done]. Qed.
Lemma Patch_IncEvent m s r rq (w : W) : (Patch rq (IncEvent m s r w)).1 = (Patch rq w).1.
Proof using. destruct m; [apply Patch_Inc|done]. Qed.
End counters.

#[export] Hint Rewrite @patches_IncEvent @patches_IncMarkedVictim @list_pods_IncEvent
  @Patch_IncEvent @patches_Patch @count_Patch : otworld.

Lemma find_pod_for_named candidates pods :
  find_pod_for candidates pods = pod_ID <$> named candidates pods.
Proof.
  induction candidates as [|s candidates IH]; [done|].
  cbn [find_pod_for]. unfold named in *. cbn [List.find].
  case_decide as Hs; [rewrite bool_decide_eq_true_2 by done; apply IH|].
  rewrite bool_decide_eq_false_2 by done. rewrite lookup_pod_found. simpl.
  destruct (List.find (stands_for s) pods) as [p|] eqn:E; simpl.
  - pose proof (List.find_some _ _ E) as [Hin Hp].
    rewrite (proj2 (existsb_exists _ _)) by eauto. simpl. by rewrite E.
  - assert (existsb (stands_for s) pods = false) as ->; [|done].
    apply not_true_iff_false. rewrite existsb_exists. intros (p & Hin & Hp).
    by rewrite (List.find_none _ _ E p) in Hp.
Qed.

(** What a run adds to the counters and to the requests. *)
Definition adds {W error} `{World W error} (m : option Metrics) (w w' : W)
    (t : list entry) (rqs : list patch_request) : Prop :=
  patches w' = patches w ++ rqs ∧
  ∀ v ls, count w' v ls = (count w v ls + noted m t v ls)%nat.

Section adding.
Context {W error : Type} `{HW : World W error}.
Variables (m : option Metrics) (w : W).
Hypothesis wf : match m with Some m => wf_metrics m | None => True end.

Lemma adds_nothing : adds m w w [] [].
Proof using. clear wf. split; [by rewrite app_nil_r|]. intros. destruct m; simpl; lia. Qed.

Lemma adds_event w' t rqs s r :
  adds m w w' t rqs → s ≠ [] → r ≠ [] →
  adds m w (IncEvent m s r w') ((events_vec, [s; r]) :: t) rqs.
Proof using wf.
  intros [Hp Hc] Hs Hr. split; [by rewrite patches_IncEvent|]. intros v ls.
  rewrite count_event_noted, Hc, (noted_cons _ _ t) by done. lia.
Qed.

Lemma adds_marked w' t rqs s r :
  adds m w w' t rqs → s ≠ [] → r ≠ [] →
  adds m w (IncMarkedVictim m s r w') ((marked_vec, [s; r]) :: t) rqs.
Proof using wf.
  intros [Hp Hc] Hs Hr. split; [by rewrite patches_IncMarkedVictim|]. intros v ls.
  rewrite count_marked_noted, Hc, (noted_cons _ _ t) by done. lia.
Qed.

Lemma adds_patch w' t rq :
  adds m w w' t [] → adds m w (Patch rq w').2 t [rq].
Proof using.
  intros [Hp Hc]. split; [by rewrite patches_Patch, Hp, app_nil_r|]. intros v ls.
  by rewrite count_Patch.
Qed.
End adding.

(** A sequence of increments and requests, accounted for. *)
Ltac adding :=
  split; [done|]; cbn [snd tally requests_for app bool_decide];
  repeat first [ apply adds_event | apply adds_marked | apply adds_patch
               | apply adds_nothing | done ].

Lemma occurrences_app e t1 t2 :
  occurrences e (t1 ++ t2) = (occurrences e t1 + occurrences e t2)%nat.
Proof. induction t1; simpl; lia. Qed.

Section handling.
Context {W error : Type} `{HW : World W error} {U : Unix}.
Variable o : OOMTracer.
Hypothesis wf : wf_tracer o.

(** Whether the API server accepts the patch of a verdict. *)
Definition accepted (d : verdict) (w : W) : bool :=
  match d with
  | ToMark id => bool_decide ((Patch (mark_request o id) w).1 = None)
  | _ => false
  end.

Lemma singleton_nonempty (k v : gostring) : ({[ k := v ]} : gmap gostring gostring) ≠ ∅.
Proof using. apply map_non_empty_singleton. Qed.

(** The changes of others leave the agent's counters and requests alone. *)
Definition frames (meanwhile : W → W) : Prop :=
  ∀ w, patches (meanwhile w) = patches w ∧ ∀ v ls, count (meanwhile w) v ls = count w v ls.

Lemma adds_meanwhile meanwhile w w' t rqs :
  frames meanwhile → adds (metrics o) w w' t rqs → adds (metrics o) w (meanwhile w') t rqs.
Proof using.
  clear wf. intros Hf [Hp Hc]. destruct (Hf w') as [Hp' Hc']. split; [congruence|].
  intros. by rewrite Hc', Hc.
Qed.

(** The world the patch of a verdict meets. *)
Definition patch_world (meanwhile : W → W) (w : W) : W :=
  meanwhile (IncEvent (metrics o) eventStageIdentified (bs "pod_identified")
    (IncEvent (metrics o) eventStageObserved (bs "ebpf_capture") w)).

Lemma handle_event_verdict meanwhile event pods (w : W) :
  frames meanwhile →
  list_pods (nodeName o) w = inl pods →
  let d := verdict_for o (GlobalOom event) (candidates_of event) pods in
  (handle_event_meanwhile meanwhile o event w).1 = Running ∧
  adds (metrics o) w (handle_event_meanwhile meanwhile o event w).2
    (tally d (accepted d (patch_world meanwhile w))) (requests_for o d).
Proof using wf.
  intros Hf Hpods. cbv zeta. unfold handle_event_meanwhile, verdict_for, ListPodsOnANode.
  rewrite <- negb_orb. destruct (ignoreGlobalOOM o || GlobalOom event); cbn [negb].
  2: { adding. }
  rewrite list_pods_IncEvent, Hpods. unfold Int8SliceToStringSlice.
  fold (candidates_of event). rewrite find_pod_for_named.
  destruct (named (candidates_of event) pods) as [p|]; cbn [fmap option_fmap option_map];
    [|adding].
  destruct (decide (victimAnnotationKey o = [])) as [Hk|Hk]; [adding|].
  cbn [id_Annotations pod_ID].
  destruct (Annotations p !! victimAnnotationKey o) as [a|] eqn:Ea.
  { rewrite decide_True by eauto. adding. }
  rewrite decide_False by (by intros [? ?]).
  rewrite AnnotatePod_nonempty by apply singleton_nonempty.
  fold (mark_request o (pod_ID p)). unfold accepted. fold (patch_world meanwhile w).
  assert (adds (metrics o) w (Patch (mark_request o (pod_ID p)) (patch_world meanwhile w)).2
    [identified; captured] [mark_request o (pod_ID p)]) as Ha.
  { unfold patch_world. apply adds_patch, (adds_meanwhile meanwhile); [done|].
    repeat first [apply adds_event|apply adds_nothing|done]. }
  destruct (Patch (mark_request o (pod_ID p)) (patch_world meanwhile w)).1 as [err|];
    cbn [fmap option_fmap option_map]; (split; [done|]; cbn [snd tally requests_for app bool_decide]);
    [by apply adds_event|by apply adds_marked].
Qed.

(** Either the event gets its verdict, on the listing of the pods if it needs one, or
    that listing fails. *)
Lemma handle_event_cases meanwhile event (w : W) :
  frames meanwhile →
  (∃ d pods, d = verdict_for o (GlobalOom event) (candidates_of event) pods ∧
    (d = Ignored ∨ list_pods (nodeName o) w = inl pods) ∧
    (handle_event_meanwhile meanwhile o event w).1 = Running ∧
    adds (metrics o) w (handle_event_meanwhile meanwhile o event w).2
      (tally d (accepted d (patch_world meanwhile w))) (requests_for o d)) ∨
  ∃ err, list_pods (nodeName o) w = inr err ∧ ignoreGlobalOOM o || GlobalOom event = true ∧
    (handle_event_meanwhile meanwhile o event w).1 = Returned (Some err) ∧
    adds (metrics o) w (handle_event_meanwhile meanwhile o event w).2 [captured] [].
Proof using wf.
  intros Hf. destruct (list_pods (nodeName o) w) as [pods|err] eqn:Hpods.
  - left. exists (verdict_for o (GlobalOom event) (candidates_of event) pods), pods.
    pose proof (handle_event_verdict meanwhile event pods w Hf Hpods) as [Hr Ha]. eauto.
  - unfold handle_event_meanwhile. rewrite <- negb_orb.
    destruct (ignoreGlobalOOM o || GlobalOom event) eqn:Hm; cbn [negb].
    + right. exists err. unfold ListPodsOnANode. rewrite list_pods_IncEvent, Hpods.
      unfold Int8SliceToStringSlice. split; [done|]. split; [done|]. adding.
    + left. exists Ignored, []. unfold verdict_for. rewrite Hm. split; [done|].
      split; [by left|]. adding.
Qed.

Lemma frames_id : frames id.
Proof using. done. Qed.

(** Undisturbed, the patch is accepted as it would have been from the start. *)
Lemma accepted_undisturbed d (w : W) : accepted d (patch_world id w) = accepted d w.
Proof using. destruct d; try done. unfold accepted, patch_world, Datatypes.id. by rewrite !Patch_IncEvent. Qed.
End handling.

(** C7. The loop body implements the verdict: with global-only mode on and an event
    that is not global it counts the event as ignored; otherwise it looks the
    pods of its node up, returns their error, or does what the verdict for the
    event's cgroup names says (nothing, count, or send the one request that marks
    the pod) and goes on; in every case exactly the counters of the verdict are
    raised, by one each, and no other request is sent.  That holds whatever others
    do to the cluster between the listing and the patch; whether the patch is
    accepted is up to the cluster as it then is. *)
Theorem handle_event_refines {W error} `{HW : World W error} {U : Unix} meanwhile o event
    (w : W) :
  wf_tracer o → frames meanwhile →
  let '(out, w') := handle_event_meanwhile meanwhile o event w in
  match list_pods (nodeName o) w with
  | inr err =>
      if ignoreGlobalOOM o || GlobalOom event
      then out = Returned (Some err) ∧ adds (metrics o) w w' [captured] []
      else out = Running ∧ adds (metrics o) w w' (tally Ignored false) []
  | inl pods =>
      let d := verdict_for o (GlobalOom event) (candidates_of event) pods in
      out = Running ∧
      adds (metrics o) w w' (tally d (accepted o d (patch_world o meanwhile w)))
        (requests_for o d)
  end.
Proof.
  intros wf Hf. pose proof (handle_event_verdict o wf meanwhile event) as Hv.
  destruct (handle_event_cases o wf meanwhile event w Hf)
    as [(d & pods & Hd & Hp & Hr & Ha)|(err & He & Hm & Hr & Ha)].
  - destruct (list_pods (nodeName o) w) as [pods'|err] eqn:Hl.
    + specialize (Hv pods' w Hf Hl). by destruct (handle_event_meanwhile meanwhile o event w).
    + destruct Hp as [Hp|Hp]; [|done]. rewrite Hp in *. unfold verdict_for in Hd.
      destruct (handle_event_meanwhile meanwhile o event w).
      destruct (ignoreGlobalOOM o || GlobalOom event).
      * by repeat case_match.
      * by split.
  - rewrite He, Hm. by destruct (handle_event_meanwhile meanwhile o event w).
Qed.

(** ** Runs *)

Section runs.
Context {W error : Type} `{HW : World W error} {U : Unix}.
Variable o : OOMTracer.
Hypothesis wf : wf_tracer o.

(** A verdict the configuration allows. *)
Definition possible (d : verdict) : Prop :=
  match d with
  | Ignored => ignoreGlobalOOM o = false
  | NoPod => True
  | Observed _ => victimAnnotationKey o = []
  | AlreadyMarked _ | ToMark _ => victimAnnotationKey o ≠ []
  end.

(** What was read, in the world it was handled in: the handler lists the pods there. *)
Abbreviation handled := (read_result error * W)%type.

(** What a read asks for: its sample is an event the mode acts on, and one of the
    event's cgroup names stands for a pod that the node's listing has, there and
    then, without the configured annotation; the request marks that pod with it. *)
Definition justified_by (h : handled) (rq : patch_request) : Prop :=
  victimAnnotationKey o ≠ [] ∧
  ∃ raw event s pods p,
    h.1 = Sample raw ∧ read_event raw = inl (Some event) ∧
    ignoreGlobalOOM o || GlobalOom event = true ∧
    s ∈ candidates_of event ∧ s ≠ [] ∧
    list_pods (nodeName o) h.2 = inl pods ∧ p ∈ pods ∧ stands_for s p = true ∧
    Annotations p !! victimAnnotationKey o = None ∧
    rq = mark_request o (pod_ID p).

(** Each request has a read of its own, in order, that asks for it. *)
Definition origins (hd : list handled) (rqs : list patch_request) : Prop :=
  ∃ src, src `sublist_of` hd ∧ Forall2 justified_by src rqs.

(** The requests of a read, by the verdict for its event. *)
Definition asks (h : handled) : list patch_request :=
  match h.1 with
  | Sample raw =>
      match read_event raw with
      | inl (Some event) =>
          match list_pods (nodeName o) h.2 with
          | inl pods =>
              requests_for o (verdict_for o (GlobalOom event) (candidates_of event) pods)
          | inr _ => []
          end
      | _ => []
      end
  | _ => []
  end.

Lemma named_spec candidates pods p :
  named candidates pods = Some p →
  ∃ s, s ∈ candidates ∧ s ≠ [] ∧ stands_for s p = true ∧ p ∈ pods.
Proof using.
  clear. unfold named. intros (s & Hs & Hp)%bind_Some.
  apply List.find_some in Hs as [Hin Hs]. apply List.find_some in Hp as [Hpin Hp].
  apply andb_prop in Hs as [Hs _]. apply negb_true_iff, bool_decide_eq_false in Hs.
  exists s. by rewrite !list_elem_of_In.
Qed.

Lemma verdict_possible global candidates pods :
  possible (verdict_for o global candidates pods).
Proof using.
  clear. unfold verdict_for. destruct (ignoreGlobalOOM o) eqn:Hi, global; simpl; try done;
    destruct (named candidates pods); simpl; try done;
    repeat case_decide; simpl; done.
Qed.

Lemma asks_justified h : Forall2 justified_by (const h <$> asks h) (asks h).
Proof using.
  clear wf. unfold asks. destruct h as [[raw|ctx|err] w]; cbn [fst snd]; [|constructor..].
  destruct (read_event raw) as [[event|]|] eqn:He; [|constructor..].
  destruct (list_pods (nodeName o) w) as [pods|] eqn:Hpods; [|constructor].
  unfold verdict_for.
  destruct (ignoreGlobalOOM o || GlobalOom event) eqn:Hm; [|constructor].
  destruct (named _ pods) as [p|] eqn:Hn; [|constructor].
  case_decide as Hk; [constructor|]. case_decide as Ha; [constructor|].
  constructor; [|constructor]. apply named_spec in Hn as (s & Hin & Hs & Hst & Hp).
  split; [done|]. exists raw, event, s, pods, p. split_and!; try done.
  destruct (Annotations p !! _); [by destruct Ha|done].
Qed.

(** A read asks for one request at most. *)
Lemma asks_once h : (length (asks h) <= 1)%nat.
Proof using.
  unfold asks. repeat case_match; simpl; try lia.
  unfold requests_for. repeat case_match; simpl; lia.
Qed.

Lemma asks_origins hd : origins hd (concat (asks <$> hd)).
Proof using.
  clear wf. exists (concat ((λ h, const h <$> asks h) <$> hd)). split.
  - induction hd as [|h hd IH]; [constructor|]. cbn [fmap list_fmap concat].
    pose proof (asks_once h) as Hl.
    destruct (asks h) as [|rq [|]]; cbn in *; [by constructor..|lia].
  - induction hd as [|h hd IH]; [constructor|]. cbn [fmap list_fmap concat].
    apply Forall2_app; [apply asks_justified|exact IH].
Qed.

Lemma asks_observing hd : victimAnnotationKey o = [] → concat (asks <$> hd) = [].
Proof using.
  clear wf. intros Hk. destruct (asks_origins hd) as (src & _ & Hj).
  destruct Hj as [|h rq src rqs [Hk' _]]; [done|by destruct Hk'].
Qed.

Lemma handle_asks meanwhile r (w : W) :
  frames meanwhile → patches (handle_meanwhile meanwhile o r w).2 = patches w ++ asks (r, w).
Proof using wf.
  intros Hf. unfold asks. cbn [fst snd].
  destruct r as [raw|ctx|err]; cbn [handle_meanwhile]; [|by rewrite app_nil_r..].
  destruct (read_event raw) as [[event|]|]; [|by rewrite app_nil_r..].
  destruct (list_pods (nodeName o) w) as [pods|err] eqn:Hl.
  - by destruct (handle_event_verdict o wf meanwhile event pods w Hf Hl) as [_ [? _]].
  - destruct (handle_event_cases o wf meanwhile event w Hf)
      as [(d & pods & _ & [->|Hp] & _ & [Ha _])|(_ & _ & _ & _ & Ha & _)];
      [exact Ha|by rewrite Hp in Hl|exact Ha].
Qed.
(** What happens to the world between two iterations: pods come and go, others
    patch them; the agent's counters and requests are its own. *)
Variable others : W → W → Prop.
Hypothesis others_frame : ∀ w w', others w w' →
  patches w' = patches w ∧ ∀ v ls, count w' v ls = count w v ls.

(** What others may do while an event is handled. *)
Definition permitted (meanwhile : W → W) : Prop := ∀ w, rtc others w (meanwhile w).

Lemma permitted_id : permitted id.
Proof using. intros w. apply rtc_refl. Qed.

Lemma permitted_frames meanwhile : permitted meanwhile → frames meanwhile.
Proof using others_frame.
  intros Hm w. specialize (Hm w). induction Hm as [|w1 w2 w3 Hs _ [IHp IHc]]; [done|].
  destruct (others_frame _ _ Hs) as [Hp Hc]. split; [congruence|]. intros. by rewrite IHc, Hc.
Qed.

Inductive step : outcome error * W → outcome error * W → Prop :=
  | step_read meanwhile r w :
      permitted meanwhile → step (Running, w) (handle_meanwhile meanwhile o r w)
  | step_others out w w' : others w w' → step (out, w) (out, w').

Abbreviation reachable w0 c := (rtc step (Running, w0) c).

(** The same runs, with what was read on the way and where it was handled. *)
Inductive handled_run (c0 : outcome error * W) : list handled → outcome error * W → Prop :=
  | handled_start : handled_run c0 [] c0
  | handled_read hd meanwhile r w :
      handled_run c0 hd (Running, w) → permitted meanwhile →
      handled_run c0 (hd ++ [(r, w)]) (handle_meanwhile meanwhile o r w)
  | handled_others hd out w w' :
      handled_run c0 hd (out, w) → others w w' → handled_run c0 hd (out, w').

Lemma handled_run_steps c0 hd c : handled_run c0 hd c → rtc step c0 c.
Proof using.
  clear. induction 1 as [|hd meanwhile r w _ IH Hm|hd out w w' _ IH Ho]; [done|..];
    (eapply rtc_r; [exact IH|]); by constructor.
Qed.

Lemma steps_handled_run c0 c : rtc step c0 c → ∃ hd, handled_run c0 hd c.
Proof using.
  clear. revert c. apply rtc_ind_r; [exists []; constructor|].
  intros c1 c2 _ Hs [hd IH]. destruct Hs as [meanwhile r w Hm|out w w' Ho].
  - exists (hd ++ [(r, w)]). by apply handled_read.
  - exists hd. by eapply handled_others.
Qed.

(** The requests of a run are those its reads ask for. *)
Lemma handled_run_requests c0 hd c :
  handled_run c0 hd c → patches c.2 = patches c0.2 ++ concat (asks <$> hd).
Proof using wf others_frame.
  induction 1 as [|hd meanwhile r w _ IH Hm|hd out w w' _ IH Ho]; cbn [snd] in *.
  - by rewrite app_nil_r.
  - rewrite (handle_asks meanwhile r w (permitted_frames _ Hm)), IH, fmap_app, concat_app, <- app_assoc.
    cbn [fmap list_fmap concat]. by rewrite app_nil_r.
  - by destruct (others_frame _ _ Ho) as [-> _].
Qed.

(** The samples among the reads. *)
Definition samples_of (hd : list handled) : list (list byte) :=
  omap (λ h, match h.1 with Sample raw => Some raw | _ => None end) hd.

(** What a history of verdicts, each with the fate of its patch, leaves. *)
Definition tallies (hs : list (verdict * bool)) : list entry :=
  concat ((λ h, tally h.1 h.2) <$> hs).

Definition requests_of (hs : list (verdict * bool)) : list patch_request :=
  concat ((λ h, requests_for o h.1) <$> hs).

Lemma adds_trans (w1 w2 w3 : W) t1 t2 r1 r2 :
  adds (metrics o) w1 w2 t1 r1 → adds (metrics o) w2 w3 t2 r2 →
  adds (metrics o) w1 w3 (t1 ++ t2) (r1 ++ r2).
Proof using.
  clear. intros [Hp1 Hc1] [Hp2 Hc2]. split; [by rewrite Hp2, Hp1, app_assoc|].
  intros v ls. rewrite Hc2, Hc1. destruct (metrics o); simpl; [|lia].
  rewrite occurrences_app. lia.
Qed.

(** The way from [w] to [c] is that of a history of possible verdicts, and maybe one
    more captured event whose pods could not be listed. *)
Definition accounted (w : W) (c : outcome error * W) : Prop :=
  ∃ hs last, adds (metrics o) w c.2 (tallies hs ++ last) (requests_of hs) ∧
    Forall (λ h, possible h.1) hs ∧ (last = [] ∨ last = [captured]) ∧
    (c.1 = Running → last = []).

Lemma accounted_refl out (w : W) : accounted w (out, w).
Proof using.
  clear. exists [], []. split_and!; [apply adds_nothing|constructor|by left|done].
Qed.

Lemma accounted_trans (w w1 : W) c :
  accounted w (Running, w1) → accounted w1 c → accounted w c.
Proof using.
  clear. intros (hs1 & last1 & Ha1 & Hp1 & _ & Hr1) (hs2 & last2 & Ha2 & Hp2 & Hl2 & Hr2).
  rewrite (Hr1 eq_refl), app_nil_r in Ha1. exists (hs1 ++ hs2), last2.
  unfold tallies, requests_of in *. rewrite !fmap_app, !concat_app, <- app_assoc.
  split_and!; [by eapply adds_trans|by apply Forall_app|done|done].
Qed.

Lemma accounted_one d ok (w w' : W) :
  adds (metrics o) w w' (tally d ok) (requests_for o d) → possible d →
  accounted w (Running, w').
Proof using.
  clear. intros Ha Hp. exists [(d, ok)], []. unfold tallies, requests_of. simpl.
  rewrite !app_nil_r. split_and!; [done|by constructor|by left|done].
Qed.

Lemma handle_accounted meanwhile r (w : W) :
  frames meanwhile → accounted w (handle_meanwhile meanwhile o r w).
Proof using wf.
  clear others others_frame. intros Hf.
  destruct r as [raw|ctx|err]; cbn [handle_meanwhile]; [|apply accounted_refl..].
  destruct (read_event raw) as [[event|]|]; [|apply accounted_refl..].
  destruct (handle_event_cases o wf meanwhile event w Hf)
    as [(d & pods & Hd & _ & Hr & Ha)|(err & He & Hm & Hr & Ha)];
    destruct (handle_event_meanwhile meanwhile o event w) as [out w']; cbn [fst snd] in *;
    subst out.
  - eapply accounted_one; [exact Ha|rewrite Hd; apply verdict_possible].
  - exists [], [captured]. split_and!; [done|constructor|by right|done].
Qed.

Lemma accounted_others out (w w1 w2 : W) :
  accounted w (out, w1) → others w1 w2 → accounted w (out, w2).
Proof using others_frame.
  intros (hs & last & [Hp Hc] & Hrest) [Hp' Hc']%others_frame.
  exists hs, last. split; [|done]. split; simpl in *; [congruence|].
  intros. by rewrite Hc', Hc.
Qed.

Lemma reachable_accounted (w0 : W) c : reachable w0 c → accounted w0 c.
Proof using wf others_frame.
  revert c. apply rtc_ind_r; [apply accounted_refl|].
  intros c1 c2 _ Hs IH. destruct Hs as [meanwhile r w Hm|out w w' Ho].
  - eapply accounted_trans; [done|]. by apply handle_accounted, permitted_frames.
  - by eapply accounted_others.
Qed.
End runs.

(** ** What a history counts *)

Definition all_entries : list entry :=
  [captured; ignored; unmatched; identified; failed; applied; existing].

(** Counters that add up: every captured event is ignored, unmatched or identified;
    every identified one, unless in observation-only mode, is marked, found
    marked or failed; a request is sent for the marked and the failed ones. *)
Definition balanced (o : OOMTracer) (n : entry → nat) (requests : nat) : Prop :=
  (n captured = n ignored + n unmatched + n identified ∧
   (ignoreGlobalOOM o = true → n ignored = 0) ∧
   (victimAnnotationKey o ≠ [] → n identified = n applied + n existing + n failed) ∧
   (victimAnnotationKey o = [] → n applied + n existing + n failed = 0) ∧
   requests = n applied + n failed)%nat.

Lemma balanced_sum o n1 n2 k1 k2 :
  balanced o n1 k1 → balanced o n2 k2 → balanced o (λ e, n1 e + n2 e)%nat (k1 + k2).
Proof. unfold balanced. intros (?&?&?&?&?) (?&?&?&?&?). intuition lia. Qed.

Lemma balanced_tally o d ok :
  possible o d →
  balanced o (λ e, occurrences e (tally d ok)) (length (requests_for o d)).
Proof.
  intros Hp. unfold balanced. destruct d as [| |id|id|id], ok; simpl in Hp; split_and!;
    try (intros; congruence); try (intros; vm_compute; reflexivity).
Qed.

Lemma balanced_tallies o hs :
  Forall (λ h, possible o h.1) hs →
  balanced o (λ e, occurrences e (tallies hs)) (length (requests_of o hs)).
Proof.
  induction 1 as [|[d ok] hs Hd _ IH]; [by unfold balanced|].
  pose proof (balanced_sum _ _ _ _ _ (balanced_tally o d ok Hd) IH) as Hb.
  unfold tallies, requests_of in *. cbn [fmap list_fmap concat fst snd].
  rewrite length_app. unfold balanced in *. by rewrite !occurrences_app.
Qed.

Lemma occurrences_none e t : e ∉ t → occurrences e t = 0%nat.
Proof.
  induction t as [|x t IH]; [done|]. intros Hn. simpl.
  rewrite decide_False by set_solver. apply IH. set_solver.
Qed.

Lemma tally_entries d ok : Forall (.∈ all_entries) (tally d ok).
Proof. by destruct d, ok; apply (bool_decide_eq_true_1 _). Qed.

Lemma tallies_entries hs : Forall (.∈ all_entries) (tallies hs).
Proof.
  unfold tallies. induction hs as [|h hs IH]; [constructor|]. cbn [fmap list_fmap concat].
  apply Forall_app. split; [apply tally_entries|done].
Qed.

(** C8. The metrics add up in every state a run can reach, however events, failures
    and changes of the cluster interleave.  Starting from fresh counters, every
    captured event is counted once more as ignored, as unmatched or as
    identified (the last one may be missing when the function has returned
    because pods could not be listed); nothing is ignored in the mode that acts
    on all events; with an annotation configured every identified event is
    counted as marked, as already marked or as failed, without one as none of
    them; the requests sent are as many as the marked and the failed; and no
    other counter moves. *)
Theorem metrics_account {W error} `{HW : World W error} {U : Unix} o m others (w0 w : W) out :
  metrics o = Some m → wf_metrics m →
  (∀ w1 w2, others w1 w2 → patches w2 = patches w1 ∧ ∀ v ls, count w2 v ls = count w1 v ls) →
  (∀ v ls, count w0 v ls = 0%nat) → patches w0 = [] →
  rtc (step o others) (Running, w0) (out, w) →
  let n (e : entry) := count w e.1 e.2 in
  ∃ pending : nat, (pending <= 1)%nat ∧ (out = Running → pending = 0%nat) ∧
    balanced o (λ e, if decide (e = captured) then n e - pending else n e)%nat
      (length (patches w)) ∧
    (pending <= n captured)%nat ∧ ∀ e, e ∉ all_entries → n e = 0%nat.
Proof.
  intros Hm Hwf Hothers H0 Hp0 Hr. cbv zeta.
  assert (wf : wf_tracer o) by (unfold wf_tracer; by rewrite Hm).
  destruct (reachable_accounted o wf others Hothers w0 (out, w) Hr)
    as (hs & last & [Hp Hc] & Hposs & Hlast & Hrun).
  simpl in Hp, Hc, Hrun. rewrite Hp0 in Hp. simpl in Hp.
  assert (Hn : ∀ e, count w e.1 e.2 = (occurrences e (tallies hs) + occurrences e last)%nat).
  { intros [v ls]. rewrite Hc, H0, Hm. simpl. by rewrite occurrences_app. }
  exists (length last).
  assert (Hcap : occurrences captured last = length last)
    by (destruct Hlast as [->| ->]; reflexivity).
  assert (Hother : ∀ e, e ≠ captured → occurrences e last = 0%nat).
  { intros e He. apply occurrences_none. destruct Hlast as [->| ->]; set_solver. }
  split_and!.
  - destruct Hlast as [->| ->]; simpl; lia.
  - intros ->. by rewrite (Hrun eq_refl).
  - rewrite Hp. pose proof (balanced_tallies o hs Hposs) as Hb. unfold balanced in *.
    rewrite !Hn. rewrite !(Hother ignored), !(Hother unmatched), !(Hother identified),
      !(Hother applied), !(Hother existing), !(Hother failed) by done.
    rewrite Hcap. rewrite decide_True by done. rewrite !decide_False by done.
    rewrite !Nat.add_0_r, Nat.add_sub. exact Hb.
  - rewrite Hn, Hcap. lia.
  - intros e He. rewrite Hn, occurrences_none, Hother; [done| |].
    + intros ->. apply He. by left.
    + intros Hin. pose proof (tallies_entries hs) as Ht. rewrite Forall_forall in Ht. by apply He, Ht.
Qed.

(** C9. Safety of marking.  Take any run of the loop, with what it has read so far and the
    world each read was handled in.  The requests sent beyond those it started
    with are exactly what those reads ask for by their verdicts, in order.  And
    each of them has a read of its own: its sample decodes to an event the mode
    acts on (global, unless it acts on all), a cgroup name of that event stands
    for a pod of the node's listing of that moment that lacks the annotation, and
    the request marks this pod with exactly the configured annotation.  In
    observation-only mode there are none.  Every run has such a record of its
    reads. *)
Theorem requests_justified {W error} `{HW : World W error} {U : Unix} o others (w0 w : W) out :
  wf_tracer o →
  (∀ w1 w2, others w1 w2 → patches w2 = patches w1 ∧ ∀ v ls, count w2 v ls = count w1 v ls) →
  (∀ hd, handled_run o others (Running, w0) hd (out, w) →
    ∃ rqs, patches w = patches w0 ++ rqs ∧ rqs = concat (asks o <$> hd) ∧
      origins o hd rqs ∧ (victimAnnotationKey o = [] → rqs = [])) ∧
  (rtc (step o others) (Running, w0) (out, w) ↔ ∃ hd, handled_run o others (Running, w0) hd (out, w)).
Proof.
  intros wf Hothers. split.
  - intros hd Hh. exists (concat (asks o <$> hd)). split_and!; [|done|apply asks_origins|apply asks_observing].
    apply (handled_run_requests o wf others Hothers _ _ _ Hh).
  - split; [apply steps_handled_run|]. intros [hd Hh]. by eapply handled_run_steps.
Qed.

(** ** The loop *)

Section looping.
Context {W error : Type} `{HW : World W error} {U : Unix}.
Variable o : OOMTracer.

Lemma trace_app rs1 rs2 (w : W) :
  trace o (rs1 ++ rs2) w =
  match trace o rs1 w with
  | (Running, w1) => trace o rs2 w1
  | c => c
  end.
Proof using.
  revert w. induction rs1 as [|r rs1 IH]; intros w; [done|]. cbn [app trace].
  destruct (handle o r w) as [[|err] w1]; [apply IH|done].
Qed.

Lemma handle_event_returned meanwhile event (w w' : W) err :
  handle_event_meanwhile meanwhile o event w = (Returned err, w') →
  ∃ e, err = Some e ∧ list_pods (nodeName o) w = inr e.
Proof using.
  unfold handle_event_meanwhile, ListPodsOnANode. rewrite list_pods_IncEvent. intros Hh.
  destruct (list_pods (nodeName o) w) as [pods|e]; [|crush_match; eauto].
  crush_match.
Qed.

Lemma handle_returned meanwhile r (w w' : W) err :
  handle_meanwhile meanwhile o r w = (Returned err, w') →
  r = ErrClosed err ∨ ∃ e, err = Some e ∧ list_pods (nodeName o) w = inr e.
Proof using.
  destruct r as [raw|ctx|e]; cbn [handle_meanwhile]; intros Hh; simplify_eq; [|by left].
  right. destruct (read_event raw) as [[event|]|]; simplify_eq.
  by eapply handle_event_returned.
Qed.

Lemma trace_returned rs (w w' : W) err :
  trace o rs w = (Returned err, w') →
  ErrClosed err ∈ rs ∨ ∃ e w1, err = Some e ∧ list_pods (nodeName o) w1 = inr e.
Proof using.
  revert w. induction rs as [|r rs IH]; intros w; [done|]. cbn [trace].
  destruct (handle o r w) as [[|err1] w1] eqn:E; intros Ht.
  - destruct (IH w1 Ht) as [?|?]; [left; by right|by right].
  - simplify_eq. apply handle_returned in E as [->|(e & -> & He)]; [left; by left|eauto].
Qed.

Lemma trace_steps others rs (w : W) : rtc (step o others) (Running, w) (trace o rs w).
Proof using.
  revert w. induction rs as [|r rs IH]; intros w; [apply rtc_refl|]. cbn [trace].
  pose proof (step_read o others id r w (permitted_id others)) as Hs.
  fold (handle o r w) in Hs.
  destruct (handle o r w) as [[|err] w1]; (eapply rtc_l; [exact Hs|]);
    [apply IH|apply rtc_refl].
Qed.

(** The loop has handled a prefix of the results, all of them while it is running. *)
Lemma trace_handled_run others rs (w : W) :
  ∃ hd, handled_run o others (Running, w) hd (trace o rs w) ∧ hd.*1 `prefix_of` rs ∧
    ((trace o rs w).1 = Running → hd.*1 = rs).
Proof using.
  induction rs as [|r rs IH] using rev_ind.
  { exists []. split; [constructor|]. by split. }
  destruct IH as (hd & Hh & Hpre & Hall). rewrite trace_app.
  destruct (trace o rs w) as [[|err] w1] eqn:E; cbn [fst] in *.
  - exists (hd ++ [(r, w1)]). rewrite fmap_app, (Hall eq_refl). cbn [fmap list_fmap fst].
    split; [|done]. cbn [trace].
    pose proof (handled_read o others _ hd id r w1 Hh (permitted_id others)) as Hr.
    fold (handle o r w1) in Hr. by destruct (handle o r w1) as [[|err] w2].
  - exists hd. split; [exact Hh|]. split; [by apply prefix_app_r|done].
Qed.
End looping.

(** C10. When the tracing function returns.  If loading the BPF program fails it
    returns that error and has done nothing.  Otherwise it processes what the
    reader returns in order, as a run of the step relation, and returns only
    because the reader was closed, with the context's error, or because the
    node's pods could not be listed, with that error: failed reads and samples
    that do not decode never end it.  A closed reader does end it, whatever was
    read before. *)
Theorem trace_returns {W error} `{HW : World W error} {U : Unix} o load rs (w : W) :
  let '(out, w') := TraceKernelOOMKills o load rs w in
  match load with
  | Some err => out = Returned (Some err) ∧ w' = w
  | None =>
      (∀ others, rtc (step o others) (Running, w) (out, w')) ∧
      (∀ err, out = Returned err →
        ErrClosed err ∈ rs ∨ ∃ e w1, err = Some e ∧ list_pods (nodeName o) w1 = inr e) ∧
      (∀ err, ErrClosed err ∈ rs → ∃ err', out = Returned err')
  end.
Proof.
  unfold TraceKernelOOMKills. destruct load as [err|]; [done|].
  destruct (trace o rs w) as [out w'] eqn:Et. split_and!.
  - intros others. rewrite <- Et. apply trace_steps.
  - intros err ->. by eapply trace_returned.
  - intros err (rs1 & rs2 & ->)%list_elem_of_split. rewrite trace_app in Et.
    destruct (trace o rs1 w) as [[|err1] w1]; simplify_eq; [|by eexists].
    cbn [trace] in Et. unfold handle in Et. cbn [handle_meanwhile] in Et. simplify_eq. by eexists.
Qed.
