(* ===== verification/Command.v ===== *)
(** * The command

    [main.go]: from parsed options to the exit of the process.  Where the options come
    from, the flags and the environment, is in [CommandLine]. *)
From S2P Require Import Prelude GoStrings Annotation GoBinary Metrics K8s Tracer.

(** ** Options *)

(** The flags, parsed. [F] is [float64]; an [int] has 64 bits. *)
Record options (F : Type) := {
  kube_config : gostring;
  kube_client_qps : F;
  kube_client_burst : Z;
  node_name : gostring;
  print_version : bool;
  metrics_bind_address : gostring;
  victim_annotation : gostring;
  ignore_global_oom : bool;
}.
Arguments kube_config {F}. Arguments kube_client_qps {F}. Arguments kube_client_burst {F}.
Arguments node_name {F}. Arguments print_version {F}. Arguments metrics_bind_address {F}.
Arguments victim_annotation {F}. Arguments ignore_global_oom {F}.

(** Without flags: [home] is the kubeconfig path if that file exists, [node] the
    value of [K8S_NODENAME]. *)
Definition default_options {F} (fifty : F) (home node : gostring) : options F := {|
  kube_config := home; kube_client_qps := fifty; kube_client_burst := 100;
  node_name := node; print_version := false; metrics_bind_address := bs ":8080";
  victim_annotation := []; ignore_global_oom := false |}.

(** ** The run *)

(** Why the process ends, if it does: [klog.Fatal] on any of four occasions, a
    panic of the metrics library, or the end of [main].  It has not ended while it waits
    for the informers' caches or traces. *)
Inductive fatal (error : Type) :=
  | NoNodeName
  | NoClient (err : error)
  | BadAnnotation (err : annotation_error)
  | TracerFailed (err : error).
Arguments NoNodeName {error}. Arguments NoClient {error}.
Arguments BadAnnotation {error}. Arguments TracerFailed {error}.

Inductive ending (error : Type) :=
  | Finished
  | Fatal (why : fatal error)
  | Panicked
  | Connecting
  | Tracing.
Arguments Finished {error}. Arguments Fatal {error}.
Arguments Panicked {error}. Arguments Connecting {error}. Arguments Tracing {error}.

Section main.
Context {W error : Type} `{World W error} {U : Unix} `{ClientLib error}.

(** [float32(...)], and [errors.Is(err, context.Canceled)]. *)
Context {F : Type} (to_float32 : F → float32) (canceled : error → bool).

(** The connection the client is configured with: the burst is cut to 32 bits. *)
Definition connection (opts : options F) : ClientConnection float32 := {|
  Kubeconfig := kube_config opts; QPS := to_float32 (kube_client_qps opts);
  Burst := swrap 32 (kube_client_burst opts) |}.

(** How [main] ends after the tracing function. *)
Definition finish (out : outcome error) : ending error :=
  match out with
  | Running => Tracing
  | Returned (Some err) => if canceled err then Finished else Fatal (TracerFailed err)
  | Returned None => Finished
  end.

(** [main] up to the tracing function: how it ends before, or the tracer; the address
    metrics are served on, if any; and the world. *)
Definition start_up (opts : options F) (w : W)
    : (ending error + OOMTracer) * option gostring * W :=
  if print_version opts then (inl Finished, None, w)
  else if decide (node_name opts = []) then (inl (Fatal NoNodeName), None, w)
  else
    match CreateClients (connection opts) with
    | None => (inl Connecting, None, w)
    | Some (inr err) => (inl (Fatal (NoClient err)), None, w)
    | Some (inl _) =>
        match NewMetrics (metrics_bind_address opts) w with
        | None => (inl Panicked, None, w)
        | Some (metrics, w) =>
            let served := ServeMux metrics in
            match NewOOMTracer (node_name opts) metrics (victim_annotation opts)
                    (ignore_global_oom opts) with
            | inr err => (inl (Fatal (BadAnnotation err)), served, w)
            | inl oomTracer => (inr oomTracer, served, w)
            end
        end
    end.

(** [main], with what loading the BPF program and reading the ring buffer give: the
    ending, the address metrics are served on, if any, and the world. *)
Definition main (opts : options F) (load : option error) (rs : list (read_result error))
    (w : W) : ending error * option gostring * W :=
  match start_up opts w with
  | (inl e, served, w) => (e, served, w)
  | (inr oomTracer, served, w) =>
      match TraceKernelOOMKills oomTracer load rs w with
      | (out, w) => (finish out, served, w)
      end
  end.
End main.

(** ** Properties *)

(** What the options ask of the tracer. *)
Definition asked {F} (opts : options F) (o : OOMTracer) : Prop :=
  nodeName o = node_name opts ∧ ignoreGlobalOOM o = ignore_global_oom opts ∧
  parseAnnotation (victim_annotation opts) = inl (victimAnnotationKey o, victimAnnotationVal o).

(** The address metrics are asked to be served on. *)
Definition asked_address {F} (opts : options F) : option gostring :=
  let addr := TrimSpace (metrics_bind_address opts) in
  if decide (addr = []) then None else Some addr.

Section specification.
Context {W error : Type} `{HW : World W error} {U : Unix} `{CL : ClientLib error} {F : Type}.
Variables (to_float32 : F → float32) (opts : options F) (w : W).

(** The options are for a run, and the client is connected. *)
Definition to_run : Prop := print_version opts = false ∧ node_name opts ≠ [].
Definition connected : Prop :=
  to_run ∧ ∃ cl, CreateClients (connection to_float32 opts) = Some (inl cl).

(** The metrics of the options are registered. *)
Definition registered (m : option Metrics) (w1 : W) : Prop :=
  connected ∧ NewMetrics (metrics_bind_address opts) w = Some (m, w1).

(** The tracer is the one of the options and runs from [w1]. *)
Definition tracer_of (o : OOMTracer) (w1 : W) : Prop :=
  registered (metrics o) w1 ∧ asked opts o ∧ patches w1 = patches w.

(** The ending before it traces, the address served on and the world; or the tracer. *)
Definition start_spec (r : ending error + OOMTracer) (served : option gostring) (w1 : W) : Prop :=
  match r with
  | inl Finished => print_version opts = true ∧ served = None ∧ w1 = w
  | inl (Fatal NoNodeName) =>
      print_version opts = false ∧ node_name opts = [] ∧ served = None ∧ w1 = w
  | inl Connecting =>
      to_run ∧ CreateClients (connection to_float32 opts) = None ∧ served = None ∧ w1 = w
  | inl (Fatal (NoClient err)) =>
      to_run ∧ CreateClients (connection to_float32 opts) = Some (inr err) ∧
      served = None ∧ w1 = w
  | inl Panicked =>
      connected ∧ NewMetrics (metrics_bind_address opts) w = None ∧ served = None ∧ w1 = w
  | inl (Fatal (BadAnnotation err)) =>
      (∃ m, registered m w1) ∧ parseAnnotation (victim_annotation opts) = inr err ∧
      served = asked_address opts ∧ patches w1 = patches w
  | inl (Fatal (TracerFailed _)) | inl Tracing => False
  | inr o => tracer_of o w1 ∧ served = asked_address opts
  end.

Lemma NewMetrics_wf addr (w2 w' : W) m :
  NewMetrics addr w2 = Some (m, w') →
  match m with Some m => wf_metrics m | None => True end ∧ patches w' = patches w2 ∧
  ServeMux m = (if decide (TrimSpace addr = []) then None else Some (TrimSpace addr)).
Proof using.
  unfold NewMetrics. case_decide as Ha; [by intros [= <- <-]|].
  destruct (MustRegister _ w2) as [w1|] eqn:E; intros [= <- <-].
  split_and!; [done|by eapply patches_MustRegister|done].
Qed.

Lemma tracer_of_wf o w1 : tracer_of o w1 → wf_tracer o.
Proof using. intros ((_ & Hm) & _). by destruct (NewMetrics_wf _ _ _ _ Hm). Qed.

Lemma start_up_spec :
  let '(r, served, w1) := start_up to_float32 opts w in start_spec r served w1.
Proof using.
  unfold start_up. destruct (print_version opts) eqn:Hv; [by split_and!|].
  case_decide as Hn; [by split_and!|].
  destruct (CreateClients _) as [[cl|err]|] eqn:Hc; [|by split_and!..].
  assert connected as Hcon by (split; [by split|by exists cl]).
  destruct (NewMetrics _ w) as [[m w1]|] eqn:Hm; [|by split_and!].
  destruct (NewMetrics_wf _ w w1 m Hm) as (Hwf & Hp & ->). unfold NewOOMTracer.
  destruct (parseAnnotation _) as [[key val]|err] eqn:Ha.
  - split; [|done]. by split_and!.
  - split_and!; [|done..]. exists m. by split.
Qed.

(** The requests of a run of the tracing function: those its reads have asked for. *)
Definition requested o (hd : list (read_result error * W)) (w2 : W) : Prop :=
  ∃ rqs, patches w2 = patches w ++ rqs ∧ rqs = concat (asks o <$> hd) ∧ origins o hd rqs.

Lemma requested_run o w1 out0 (others : W → W → Prop) hd out (w2 : W) :
  tracer_of o w1 →
  (∀ w w', others w w' → patches w' = patches w ∧ ∀ v ls, count w' v ls = count w v ls) →
  handled_run o others (out0, w1) hd (out, w2) → requested o hd w2.
Proof using.
  intros Ht Hothers Hh. exists (concat (asks o <$> hd)).
  pose proof (handled_run_requests o (tracer_of_wf _ _ Ht) others Hothers _ _ _ Hh) as Hp.
  destruct Ht as (_ & _ & <-). split_and!; [exact Hp|done|apply asks_origins].
Qed.

(** The tracing function, from what it is given to where it is. *)
Definition traced_by o w1 load rs (out : outcome error) (w2 : W) : Prop :=
  tracer_of o w1 ∧ TraceKernelOOMKills o load rs w1 = (out, w2) ∧
  ∃ hd, hd.*1 `prefix_of` rs ∧ (load ≠ None → hd = []) ∧ requested o hd w2.

Lemma traced_by_run o w1 load rs out (w2 : W) :
  tracer_of o w1 → TraceKernelOOMKills o load rs w1 = (out, w2) →
  traced_by o w1 load rs out w2.
Proof using.
  intros Ht He. split; [done|]. split; [done|]. revert He. unfold TraceKernelOOMKills.
  destruct load as [err|].
  - intros [= <- <-]. exists []. split; [apply prefix_nil|]. split; [done|].
    by eapply (requested_run _ w1 (Returned (Some err)) (λ _ _, False)); [done..|constructor].
  - destruct (trace_handled_run o (λ _ _, False) rs w1) as (hd & Hh & Hpre & _). intros He.
    rewrite He in Hh. exists hd. split; [done|]. split; [done|].
    by apply (requested_run o w1 Running (λ _ _, False) hd out w2 Ht ltac:(done)).
Qed.
End specification.

(** C29. How the process ends, and what it has done by then.  Each end has its own
    conditions, which exclude those of the others, so that they decide it: asking
    for the version ends it well; a missing node name, a client that cannot be made
    or whose caches are never filled stop it before anything else happened, and so
    does a collector that cannot be registered; with the client connected and the
    metrics of the options registered a bad annotation ends it, and otherwise it
    traces with the node, mode and annotation the options give, well ended only
    when tracing ended without an error or was cancelled.  Metrics are served, from
    when they are registered on, exactly on the trimmed address, or not at all if it is
    blank.  And where it has traced, the requests it has sent are exactly those that
    the reads it has handled, the first of what the reader gave, asked for, each
    justified by its own read; otherwise there are none. *)
Theorem main_spec {W error} `{HW : World W error} {U : Unix} `{CL : ClientLib error} {F}
    (to_float32 : F → float32) canceled (opts : options F) load rs (w : W) :
  let '(e, served, w') := main to_float32 canceled opts load rs w in
  let traced_to out := ∃ o w1, traced_by to_float32 opts w o w1 load rs out w' ∧
    served = asked_address opts in
  match e with
  | Finished =>
      print_version opts = true ∧ served = None ∧ w' = w ∨
      ∃ err, traced_to (Returned err) ∧ from_option canceled true err = true
  | Fatal NoNodeName =>
      print_version opts = false ∧ node_name opts = [] ∧ served = None ∧ w' = w
  | Fatal (NoClient err) =>
      to_run opts ∧ CreateClients (connection to_float32 opts) = Some (inr err) ∧
      served = None ∧ w' = w
  | Connecting =>
      to_run opts ∧ CreateClients (connection to_float32 opts) = None ∧ served = None ∧ w' = w
  | Panicked =>
      connected to_float32 opts ∧ NewMetrics (metrics_bind_address opts) w = None ∧
      served = None ∧ w' = w
  | Fatal (BadAnnotation err) =>
      (∃ m, registered to_float32 opts w m w') ∧
      parseAnnotation (victim_annotation opts) = inr err ∧ served = asked_address opts ∧
      patches w' = patches w
  | Fatal (TracerFailed err) => traced_to (Returned (Some err)) ∧ canceled err = false
  | Tracing => traced_to Running
  end.
Proof.
  pose proof (start_up_spec to_float32 opts w) as Hs. unfold main.
  destruct (start_up to_float32 opts w) as [[[e|o] served] w1].
  - cbv zeta. destruct e as [|[]| | |]; try exact Hs; [by left|done..].
  - destruct Hs as [Ht ->].
    destruct (TraceKernelOOMKills o load rs w1) as [out w2] eqn:He.
    assert (∃ o0 w0, traced_by to_float32 opts w o0 w0 load rs out w2 ∧
      asked_address opts = asked_address opts) as Hrun.
    { exists o, w1. split; [|done]. by apply traced_by_run. }
    destruct out as [|[err|]]; cbn [finish]; [exact Hrun| |].
    + destruct (canceled err) eqn:Hc; [right; by exists (Some err)|by split].
    + right. by exists None.
Qed.

(** The burst the client is configured with is the option's only within 32 bits. *)
Lemma connection_burst {error} `{ClientLib error} {F} (to_float32 : F → float32)
    (opts : options F) :
  Burst (connection to_float32 opts) = kube_client_burst opts ↔
  - 2 ^ 31 <= kube_client_burst opts < 2 ^ 31.
Proof.
  unfold connection. simpl. unfold swrap.
  pose proof (Z.mod_pos_bound (kube_client_burst opts + 2 ^ (32 - 1)) (2 ^ 32) ltac:(lia)) as Hb.
  split; intros Hx; [lia|]. rewrite Z.mod_small by lia. lia.
Qed.
