(* ===== verification/CommandLine.v ===== *)
(** * The command line

    [main.go] from the start of [main] to the parsed options: the default of the
    kubeconfig path, the flags, and parsing them; [oom_tracer] is the whole
    program.  The flags klog adds are a parameter ([Klog]), as are the parser of
    floating-point numbers, the home directory and the environment.  What the flags
    mean is stated next to it without the flag set ([assigns], [settings]). *)
From S2P Require Import Prelude GoStrings GoFlag Annotation GoBinary Metrics K8s Tracer Command.

(** ** [path/filepath] on Unix *)

(** The elements of a path that is being cleaned, the last one first. *)
Fixpoint clean_elements (rooted : bool) (out elems : list gostring) : list gostring :=
  match elems with
  | [] => out
  | e :: elems =>
      if decide (e = [] ∨ e = bs ".") then clean_elements rooted out elems
      else if decide (e = bs "..") then
        match out with
        | [] => clean_elements rooted (if rooted then [] else [e]) elems
        | last :: out' =>
            if decide (last = bs "..") then clean_elements rooted (e :: out) elems
            else clean_elements rooted out' elems
        end
      else clean_elements rooted (e :: out) elems
  end.

(** [strings.Join(elems, "/")] *)
Fixpoint join_slash (elems : list gostring) : gostring :=
  match elems with
  | [] => []
  | [e] => e
  | e :: elems => e ++ x2f :: join_slash elems
  end.

(** [filepath.Clean] *)
Definition Clean (path : gostring) : gostring :=
  match path with
  | [] => bs "."
  | c :: _ =>
      let rooted := bool_decide (c = x2f) in
      match reverse (clean_elements rooted [] (Split path [x2f])) with
      | [] => if rooted then [x2f] else bs "."
      | out => if rooted then x2f :: join_slash out else join_slash out
      end
  end.

(** [filepath.Join]: empty elements up to the first other one are left out. *)
Fixpoint Join (elem : list gostring) : gostring :=
  match elem with
  | [] => []
  | e :: elem' => if decide (e = []) then Join elem' else Clean (join_slash elem)
  end.

(** ** The flags *)

(** [ParseFloat s] is [strconv.ParseFloat(s, 64)]. *)
Class Float64 (F : Type) := {
  ParseFloat : gostring → option F;
  fifty : F;
}.

(** What [klog.InitFlags(nil)] adds to the command line, and where it keeps the values. *)
Class Klog (S : Type) := {
  klog_flags : list (Flag S);
  klog_defaults : S;
}.

(** klog's flags have names the flag package accepts. *)
Class KlogLaws (S : Type) `{Klog S} : Prop :=
  klog_names : Forall (λ f, flag_ok (flag_name f)) klog_flags.

Section command_line.
Context {F S : Type} `{Float64 F} `{Klog S}.

(** [home], as [main] computes it; [stat path] is whether [os.Stat(path)] succeeds. *)
Definition kube_config_default (HomeDir : gostring) (stat : gostring → bool) : gostring :=
  if decide (HomeDir = []) then []
  else
    let home := Join [HomeDir; bs ".kube"; bs "config"] in
    if stat home then home else [].

(** A setter of one option. *)
Definition set_kube_config (v : gostring) (o : options F) : options F := {|
  kube_config := v; kube_client_qps := kube_client_qps o;
  kube_client_burst := kube_client_burst o; node_name := node_name o;
  print_version := print_version o; metrics_bind_address := metrics_bind_address o;
  victim_annotation := victim_annotation o; ignore_global_oom := ignore_global_oom o |}.
Definition set_kube_client_qps (v : F) (o : options F) : options F := {|
  kube_config := kube_config o; kube_client_qps := v;
  kube_client_burst := kube_client_burst o; node_name := node_name o;
  print_version := print_version o; metrics_bind_address := metrics_bind_address o;
  victim_annotation := victim_annotation o; ignore_global_oom := ignore_global_oom o |}.
Definition set_kube_client_burst (v : Z) (o : options F) : options F := {|
  kube_config := kube_config o; kube_client_qps := kube_client_qps o;
  kube_client_burst := v; node_name := node_name o;
  print_version := print_version o; metrics_bind_address := metrics_bind_address o;
  victim_annotation := victim_annotation o; ignore_global_oom := ignore_global_oom o |}.
Definition set_node_name (v : gostring) (o : options F) : options F := {|
  kube_config := kube_config o; kube_client_qps := kube_client_qps o;
  kube_client_burst := kube_client_burst o; node_name := v;
  print_version := print_version o; metrics_bind_address := metrics_bind_address o;
  victim_annotation := victim_annotation o; ignore_global_oom := ignore_global_oom o |}.
Definition set_print_version (v : bool) (o : options F) : options F := {|
  kube_config := kube_config o; kube_client_qps := kube_client_qps o;
  kube_client_burst := kube_client_burst o; node_name := node_name o;
  print_version := v; metrics_bind_address := metrics_bind_address o;
  victim_annotation := victim_annotation o; ignore_global_oom := ignore_global_oom o |}.
Definition set_metrics_bind_address (v : gostring) (o : options F) : options F := {|
  kube_config := kube_config o; kube_client_qps := kube_client_qps o;
  kube_client_burst := kube_client_burst o; node_name := node_name o;
  print_version := print_version o; metrics_bind_address := v;
  victim_annotation := victim_annotation o; ignore_global_oom := ignore_global_oom o |}.
Definition set_victim_annotation (v : gostring) (o : options F) : options F := {|
  kube_config := kube_config o; kube_client_qps := kube_client_qps o;
  kube_client_burst := kube_client_burst o; node_name := node_name o;
  print_version := print_version o; metrics_bind_address := metrics_bind_address o;
  victim_annotation := v; ignore_global_oom := ignore_global_oom o |}.
Definition set_ignore_global_oom (v : bool) (o : options F) : options F := {|
  kube_config := kube_config o; kube_client_qps := kube_client_qps o;
  kube_client_burst := kube_client_burst o; node_name := node_name o;
  print_version := print_version o; metrics_bind_address := metrics_bind_address o;
  victim_annotation := victim_annotation o; ignore_global_oom := v |}.

(** A flag of [main], next to klog's values: [flag.String], [flag.Bool], [flag.Int] and
    [flag.Float64], by how they parse. *)
Definition main_flag {A} (is_bool : bool) (name : gostring) (parse : gostring → option A)
    (set : A → options F → options F) : Flag (options F * S) := {|
  flag_name := name; IsBoolFlag := is_bool;
  Set_ v s := (λ x, (set x s.1, s.2)) <$> parse v |}.

(** A flag of klog, next to the options. *)
Definition klog_flag (f : Flag S) : Flag (options F * S) := {|
  flag_name := flag_name f; IsBoolFlag := IsBoolFlag f;
  Set_ v s := (λ x, (s.1, x)) <$> Set_ f v s.2 |}.

(** [flag.CommandLine] when [flag.Parse()] is called. *)
Definition formal : list (Flag (options F * S)) := [
  main_flag false (bs "kube_config") Some set_kube_config;
  main_flag false (bs "kube_client_qps") ParseFloat set_kube_client_qps;
  main_flag false (bs "kube_client_burst") ParseInt set_kube_client_burst;
  main_flag false (bs "node_name") Some set_node_name;
  main_flag true (bs "version") ParseBool set_print_version;
  main_flag false (bs "metrics_bind_address") Some set_metrics_bind_address;
  main_flag false (bs "victim_annotation") Some set_victim_annotation;
  main_flag true (bs "ignore_global_oom") ParseBool set_ignore_global_oom
] ++ (klog_flag <$> klog_flags).

(** What the program finds around it. *)
Record environment := {
  HomeDir : gostring;
  Stat : gostring → bool;
  K8S_NODENAME : gostring;
}.

(** The options of a command line [os.Args[1:]]. *)
Definition parse_command_line (env : environment) (args : list gostring)
    : parsed (options F * S) :=
  Parse formal args
    (default_options fifty (kube_config_default (HomeDir env) (Stat env)) (K8S_NODENAME env),
     klog_defaults).

(** [main] from its first line: an exit of the flag package with its status, or the run
    with the options. *)
Definition oom_tracer {W error} `{World W error} {U : Unix} `{ClientLib error}
    (to_float32 : F → float32) (canceled : error → bool) (env : environment)
    (args : list gostring) (load : option error) (rs : list (read_result error)) (w : W)
    : Z + ending error * option gostring * W :=
  match parse_command_line env args with
  | Exit code => inl code
  | Parsed (opts, _) _ => inr (main to_float32 canceled opts load rs w)
  end.
End command_line.

(** ** The kubeconfig file *)

(** An element of a path that [Clean] keeps. *)
Definition proper (e : gostring) : Prop := e ≠ [] ∧ e ≠ bs "." ∧ e ≠ bs ".." ∧ x2f ∉ e.

Lemma clean_elements_proper rooted out elems :
  Forall proper elems → clean_elements rooted out elems = reverse elems ++ out.
Proof.
  revert out. induction elems as [|e elems IH]; intros out He; [done|].
  inversion He as [|? ? (H1 & H2 & H3 & _) He']; subst. cbn [clean_elements].
  rewrite decide_False by naive_solver. rewrite decide_False by done. rewrite IH by done.
  by rewrite reverse_cons, <- app_assoc.
Qed.

Lemma length_join_slash elems : (length elems <= S (length (join_slash elems)))%nat.
Proof.
  induction elems as [|e [|e' elems] IH]; cbn [join_slash length] in *; [lia..|].
  rewrite length_app. cbn [length]. lia.
Qed.

Lemma SplitN_join elems n :
  elems ≠ [] → Forall (λ e, x2f ∉ e) elems → (length elems <= n)%nat →
  SplitN (join_slash elems) [x2f] n = elems.
Proof.
  revert n. induction elems as [|e [|e' elems] IH]; intros n Hn He Hl; [done| |].
  - destruct n as [|n]; [simpl in Hl; lia|]. inversion He; subst. by apply SplitN_None.
  - destruct n as [|[|n]]; [simpl in Hl; lia..|]. inversion He; subst.
    change (join_slash (e :: e' :: elems)) with (e ++ x2f :: join_slash (e' :: elems)).
    rewrite SplitN_app by done. f_equal. apply IH; [done|done|simpl in *; lia].
Qed.

Lemma join_slash_cons e l : l ≠ [] → join_slash (e :: l) = e ++ x2f :: join_slash l.
Proof. by destruct l. Qed.

Lemma join_slash_app l1 l2 :
  l1 ≠ [] → l2 ≠ [] → join_slash (l1 ++ l2) = join_slash l1 ++ x2f :: join_slash l2.
Proof.
  intros H1 H2. induction l1 as [|e l1 IH]; [done|]. cbn [app].
  destruct l1 as [|e' l1]; [by apply join_slash_cons|].
  rewrite !join_slash_cons, IH by done. by rewrite <- app_assoc.
Qed.

(** For a clean absolute home directory the path is that of its [.kube/config]. *)
Lemma Join_home elems :
  elems ≠ [] → Forall proper elems →
  Join [x2f :: join_slash elems; bs ".kube"; bs "config"] =
    (x2f :: join_slash elems) ++ bs "/.kube/config".
Proof.
  intros Hn He.
  set (l := elems ++ [bs ".kube"; bs "config"]).
  assert (Forall proper l) as Hl.
  { apply Forall_app. split; [done|].
    repeat (constructor; [split_and!; try done; by apply (bool_decide_eq_true_1 _)|]). constructor. }
  change (Join _) with (Clean ((x2f :: join_slash elems) ++ bs "/.kube/config")).
  assert ((x2f :: join_slash elems) ++ bs "/.kube/config" = x2f :: join_slash l) as ->.
  { unfold l. rewrite join_slash_app by done. done. }
  unfold Clean. rewrite bool_decide_eq_true_2 by done.
  assert (Split (x2f :: join_slash l) [x2f] = [] :: l) as ->.
  { unfold Split. change (x2f :: join_slash l) with ([] ++ x2f :: join_slash l).
    cbn [app length]. change (x2f :: join_slash l) with ([] ++ x2f :: join_slash l).
    rewrite SplitN_app by set_solver. f_equal. apply SplitN_join.
    - by destruct elems.
    - eapply Forall_impl; [exact Hl|]. by intros ? (_ & _ & _ & ?).
    - apply length_join_slash. }
  cbn [clean_elements]. rewrite decide_True by (by left).
  rewrite clean_elements_proper, app_nil_r, reverse_involutive by done.
  by destruct elems.
Qed.

(** ** Properties *)

Section properties.
Context {F S : Type} `{FL : Float64 F} `{KL : KlogLaws S}.

Lemma formal_ok : Forall (λ f : Flag (options F * S), flag_ok (flag_name f)) formal.
Proof using KL.
  unfold formal. apply Forall_app. split.
  - repeat (constructor; [split; [by apply (bool_decide_eq_true_1 _)|done]|]). constructor.
  - rewrite Forall_fmap. eapply Forall_impl; [apply klog_names|done].
Qed.

(** A command line that sets every option. *)
Definition option_setting (name : string) (v : gostring) : setting := {|
  two_dashes := true; how := Attached; name_of := bs name; value_of := v |}.

Definition bool_text (b : bool) : gostring := if b then bs "true" else bs "false".

Definition option_settings (FormatFloat : F → gostring) (o : options F) : list setting := [
  option_setting "kube_config" (kube_config o);
  option_setting "kube_client_qps" (FormatFloat (kube_client_qps o));
  option_setting "kube_client_burst" (Itoa (kube_client_burst o));
  option_setting "node_name" (node_name o);
  option_setting "version" (bool_text (print_version o));
  option_setting "metrics_bind_address" (metrics_bind_address o);
  option_setting "victim_annotation" (victim_annotation o);
  option_setting "ignore_global_oom" (bool_text (ignore_global_oom o))].

Definition render (FormatFloat : F → gostring) (o : options F) : list gostring :=
  concat (spell <$> option_settings FormatFloat o).

Lemma sets_main {A} is_bool name (parse : gostring → option A) set v x (s : options F * S) :
  lookup_flag formal (bs name) = Some (main_flag is_bool (bs name) parse set) →
  parse v = Some x → sets formal (option_setting name v) s (set x s.1, s.2).
Proof using. intros Hf Hv. eexists. split; [exact Hf|]. simpl. by rewrite Hv. Qed.

Lemma ParseBool_text b : ParseBool (bool_text b) = Some b.
Proof using. by destruct b. Qed.

Lemma sets_all_options FormatFloat (o : options F) (s : options F * S) :
  ParseFloat (FormatFloat (kube_client_qps o)) = Some (kube_client_qps o) →
  - 2 ^ 63 <= kube_client_burst o < 2 ^ 63 →
  sets_all formal (option_settings FormatFloat o) s (o, s.2).
Proof using.
  intros Hq Hb. unfold option_settings. destruct s as [o0 k].
  repeat (eexists; split;
    [eapply sets_main; [reflexivity|first [reflexivity|exact Hq|apply ParseInt_Itoa, Hb
      |apply ParseBool_text]]|]).
  by destruct o.
Qed.
End properties.

(** ** What the flags mean *)

(** The path of the kubeconfig file without a flag. *)
Definition kubeconfig_at (env : environment) (path : gostring) : Prop :=
  let file := Join [HomeDir env; bs ".kube"; bs "config"] in
  HomeDir env = [] ∧ path = [] ∨
  HomeDir env ≠ [] ∧ (Stat env file = true ∧ path = file ∨ Stat env file = false ∧ path = []).

Section meaning.
Context {F S : Type} `{FL : Float64 F} `{KL : KlogLaws S}.

Abbreviation Opts := (Build_options F).

(** What a flag of that name, boolean or not, makes of the options and of klog's values
    when it is given that value. *)
Inductive assigns : gostring → bool → gostring → options F * S → options F * S → Prop :=
  | assigns_kube_config v a b c d e f g h k :
      assigns (bs "kube_config") false v (Opts a b c d e f g h, k) (Opts v b c d e f g h, k)
  | assigns_kube_client_qps v q a b c d e f g h k :
      ParseFloat v = Some q →
      assigns (bs "kube_client_qps") false v (Opts a b c d e f g h, k) (Opts a q c d e f g h, k)
  | assigns_kube_client_burst v n a b c d e f g h k :
      ParseInt v = Some n →
      assigns (bs "kube_client_burst") false v (Opts a b c d e f g h, k) (Opts a b n d e f g h, k)
  | assigns_node_name v a b c d e f g h k :
      assigns (bs "node_name") false v (Opts a b c d e f g h, k) (Opts a b c v e f g h, k)
  | assigns_version v t a b c d e f g h k :
      ParseBool v = Some t →
      assigns (bs "version") true v (Opts a b c d e f g h, k) (Opts a b c d t f g h, k)
  | assigns_metrics_bind_address v a b c d e f g h k :
      assigns (bs "metrics_bind_address") false v (Opts a b c d e f g h, k) (Opts a b c d e v g h, k)
  | assigns_victim_annotation v a b c d e f g h k :
      assigns (bs "victim_annotation") false v (Opts a b c d e f g h, k) (Opts a b c d e f v h, k)
  | assigns_ignore_global_oom v t a b c d e f g h k :
      ParseBool v = Some t →
      assigns (bs "ignore_global_oom") true v (Opts a b c d e f g h, k) (Opts a b c d e f g t, k)
  | assigns_klog name fl v o k k' :
      name ∉ [bs "kube_config"; bs "kube_client_qps"; bs "kube_client_burst"; bs "node_name";
              bs "version"; bs "metrics_bind_address"; bs "victim_annotation";
              bs "ignore_global_oom"] →
      lookup_flag klog_flags name = Some fl → Set_ fl v k = Some k' →
      assigns name (IsBoolFlag fl) v (o, k) (o, k').

(** The forms a flag may be written in. *)
Definition allowed (boolean : bool) (x : setting) : Prop :=
  match how x with
  | Attached => True
  | Separate => boolean = false
  | Bare => boolean = true ∧ value_of x = bs "true"
  end.

(** Settings at the start of the arguments, what they make of the values, and what
    follows them. *)
Inductive settings : list gostring → options F * S → list gostring → options F * S → Prop :=
  | settings_none tail s : settings tail s tail s
  | settings_one x boolean args s s1 tail s2 :
      assigns (name_of x) boolean (value_of x) s s1 → allowed boolean x →
      settings args s1 tail s2 → settings (spell x ++ args) s tail s2.

Lemma lookup_flag_cons {T} (f : Flag T) l name :
  lookup_flag (f :: l) name =
    if bool_decide (flag_name f = name) then Some f else lookup_flag l name.
Proof using. done. Qed.

Lemma lookup_flag_klog name :
  lookup_flag (klog_flag (F := F) <$> klog_flags) name = klog_flag <$> lookup_flag klog_flags name.
Proof using.
  clear KL. induction klog_flags as [|f l IH]; [done|]. cbn [fmap list_fmap].
  rewrite !lookup_flag_cons, IH. cbn [klog_flag flag_name]. by case_bool_decide.
Qed.

(** The flag set gives the flags this meaning. *)
Lemma formal_assigns name boolean v s s' :
  assigns name boolean v s s' ↔
  ∃ f, lookup_flag formal name = Some f ∧ IsBoolFlag f = boolean ∧ Set_ f v s = Some s'.
Proof using.
  clear KL. split.
  - intros Ha. destruct Ha as [| ?? ????????? Hv|?? ????????? Hv| |?? ????????? Hv| | |?? ????????? Hv
      |name fl v o k k' Hn Hl Hs];
      try (eexists; split; [reflexivity|]; split; [reflexivity|]; cbn [main_flag Set_ fst snd];
        rewrite ?Hv; reflexivity).
    exists (klog_flag fl). split; [|split; [done|]; cbn [klog_flag Set_ snd]; by rewrite Hs].
    unfold formal. cbn [app]. rewrite !lookup_flag_cons. cbn [main_flag flag_name].
    rewrite !bool_decide_eq_false_2 by (intros <-; apply Hn; apply (bool_decide_eq_true_1 _); reflexivity).
    by rewrite lookup_flag_klog, Hl.
  - intros (f & Hl & <- & Hs). destruct s as [[a b c d e f1 g h] k]. revert Hl.
    unfold formal. cbn [app]. rewrite !lookup_flag_cons. cbn [main_flag flag_name].
    repeat (let Hn := fresh "Hn" in case_bool_decide as Hn;
      [subst name; intros [= <-]; revert Hs; cbn [main_flag Set_ IsBoolFlag fst snd]; intros Hs;
       first [injection Hs as <-
             |apply fmap_Some in Hs as (x & Hv & ->)]; by constructor|]).
    rewrite lookup_flag_klog. intros (fl & Hl & ->)%fmap_Some.
    cbn [klog_flag Set_ IsBoolFlag fst snd] in *.
    destruct (Set_ fl v k) as [k'|] eqn:Hk; [|discriminate Hs]. injection Hs as <-.
    apply assigns_klog; [|done..]. rewrite !elem_of_cons, elem_of_nil. naive_solver.
Qed.

Lemma settings_sets_all args s tail s' :
  settings args s tail s' ↔
  ∃ l, args = concat (spell <$> l) ++ tail ∧ sets_all formal l s s'.
Proof using.
  clear KL. split.
  - induction 1 as [tail s|x boolean args s s1 tail s2 Ha Hf _ (l & -> & Hl)]; [by exists []|].
    exists (x :: l). split; [simpl; by rewrite app_assoc|]. exists s1. split; [|done].
    apply formal_assigns in Ha as (f & Hn & <- & Hs). by exists f.
  - intros (l & -> & Hl). revert s Hl. induction l as [|x l IH]; intros s Hl.
    + cbn in *. subst. constructor.
    + destruct Hl as (s1 & (f & Hn & Hs & Hf) & Hl). cbn [fmap list_fmap concat].
      rewrite <- app_assoc. apply (settings_one x (IsBoolFlag f) _ s s1); [|done|by apply IH].
      apply formal_assigns. by exists f.
Qed.

(** A flag that is asked for help by name is none of the program's. *)
Lemma defined_lookup name :
  name ∈ [bs "help"; bs "h"] →
  is_Some (lookup_flag (formal (F := F) (S := S)) name) ↔
  is_Some (lookup_flag (klog_flags (S := S)) name).
Proof using.
  clear KL. intros Hn. unfold formal. cbn [app]. rewrite !lookup_flag_cons.
  cbn [main_flag flag_name].
  rewrite !bool_decide_eq_false_2 by (intros <-; revert Hn; apply (bool_decide_eq_false_1 _); reflexivity).
  by rewrite lookup_flag_klog, fmap_is_Some.
Qed.
End meaning.

(** C30. The command line.  The options without flags are: the kubeconfig in the home
    directory if there is a home directory and the file exists, 50 queries a second
    and a burst of 100, the node name of the environment, metrics on port 8080, no
    annotation, and acting on global kills only.  The command line parses exactly if
    it is a sequence of settings, followed by a double dash, an argument that is no
    flag, or nothing, and the options are then those changed by the settings in
    order, each flag changing the one option it is named for (or klog's values): the
    paths, names and addresses to the value as it is, the rate, the burst and the
    two booleans to what the value parses to, which it has to.  A setting has one
    dash or two and its value attached, separate (not for booleans) or left out (only
    for those, and meaning true).  It ends with status 0 exactly if after such
    settings help is asked for, and with status 2 in all other cases; and [main] runs
    with just these options. *)
Theorem command_line_spec {F S W error} `{FL : Float64 F} `{KL : KlogLaws S} `{HW : World W error}
    {U : Unix} `{CL : ClientLib error} to_float32 canceled env args load rs (w : W) :
  let parse := parse_command_line (F := F) (S := S) env args in
  (∃ path, kubeconfig_at env path ∧
    let start : options F * S := ({|
      kube_config := path; kube_client_qps := fifty; kube_client_burst := 100;
      node_name := K8S_NODENAME env; print_version := false;
      metrics_bind_address := bs ":8080"; victim_annotation := [];
      ignore_global_oom := false |}, klog_defaults) in
    (∀ s rest, parse = Parsed s rest ↔
      ∃ tail, settings args start tail s ∧ flags_end tail rest) ∧
    (parse = Exit 0 ↔ ∃ tail s, settings args start tail s ∧
      asks_help (λ name, is_Some (lookup_flag (klog_flags (S := S)) name)) tail) ∧
    (∀ code, parse = Exit code → code = 0 ∨ code = 2)) ∧
  (∀ elems, elems ≠ [] → Forall proper elems →
    Join [x2f :: join_slash elems; bs ".kube"; bs "config"] =
      (x2f :: join_slash elems) ++ bs "/.kube/config") ∧
  match oom_tracer (S := S) (F := F) to_float32 canceled env args load rs w with
  | inl code => parse = Exit code
  | inr result => ∃ opts (ks : S) rest, parse = Parsed (opts, ks) rest ∧
      result = main to_float32 canceled opts load rs w
  end.
Proof.
  intros parse. split; [|split; [apply Join_home|]].
  - exists (kube_config_default (HomeDir env) (Stat env)). split.
    { unfold kubeconfig_at, kube_config_default. cbv zeta.
      case_decide; [by left|]. right. split; [done|]. destruct (Stat env _); [by left|by right]. }
    intros start. destruct (flag_syntax (formal (F := F) (S := S)) args start formal_ok)
      as (Hp & Hh & He). change (Parse formal args start) with parse in *.
    split_and!; [| |exact He].
    + intros s rest. rewrite Hp. setoid_rewrite settings_sets_all. naive_solver.
    + rewrite Hh. setoid_rewrite settings_sets_all. unfold asks_help. split.
      * intros (l & tail & s' & -> & Hl & two & name & value & args0 & Hn & Hd & Hrest).
        rewrite defined_lookup in Hd by done. eauto 20.
      * intros (tail & s' & (l & -> & Hl) & two & name & value & args0 & Hn & Hd & Hrest).
        rewrite <- (defined_lookup (F := F)) in Hd by done. eauto 20.
  - unfold oom_tracer. fold parse. destruct parse as [[opts ks] rest|code]; [|done].
    by exists opts, ks, rest.
Qed.

(** C32. Every configuration can be asked for: the command line that sets each option to
    its value, with decimal numbers, is parsed to just these options, whatever the
    defaults, and what follows it is left over.  A burst has to be a 64-bit
    integer, and the rate to be written so that it reads back. *)
Theorem options_roundtrip {F S} `{FL : Float64 F} `{KL : KlogLaws S} FormatFloat
    (o : options F) (s : options F * S) tail rest :
  ParseFloat (FormatFloat (kube_client_qps o)) = Some (kube_client_qps o) →
  - 2 ^ 63 <= kube_client_burst o < 2 ^ 63 →
  flags_end tail rest →
  Parse formal (render FormatFloat o ++ tail) s = Parsed (o, s.2) rest.
Proof.
  intros Hq Hb Ht. apply (proj1 (flag_syntax formal _ s formal_ok)).
  exists (option_settings FormatFloat o), tail. split; [done|]. split; [|done].
  by apply sets_all_options.
Qed.
