(* ===== verification/Chart.v ===== *)
(** * The chart's command line

    How [chart/oom-tracer/templates/daemonset.yaml] makes the agent's arguments from
    the chart's values, and what the agent makes of them.  The template writes each
    argument as plain YAML text; reading YAML is a parameter ([Yaml]) of which only
    texts without special characters are asked, and so is how Helm writes numbers
    ([Helm]): as floating-point numbers, which from a million on have an exponent. *)
From S2P Require Import Prelude GoStrings GoFlag Annotation GoBinary Metrics K8s Tracer Command CommandLine.

(** ** Values *)

(** The part of [values.yaml] the arguments are made of. *)
Record values := {
  logLevel : Z;
  victimAnnotation : gostring;
  dryRun : bool;
  metric_disabled : bool;
  metric_host : gostring;
  metric_port : Z;
  extraArgs : list gostring;
}.

Definition default_values : values := {|
  logLevel := 0; victimAnnotation := bs "oom-tracer.alpha.kubernetes.io/evict-me=yes";
  dryRun := false; metric_disabled := false; metric_host := []; metric_port := 8080;
  extraArgs := [] |}.

(** ** The template *)

(** [default d v] *)
Definition template_default (d v : gostring) : gostring := if decide (v = []) then d else v.

(** How a number of the values is written. *)
Class Helm := print_number : Z → gostring.

(** The text after [--victim_annotation=]. *)
Definition chart_annotation (v : values) : gostring :=
  if dryRun v then [x22; x22]
  else template_default (bs "oom-tracer.alpha.kubernetes.io/evict-me='yes'") (victimAnnotation v).

(** The text after [--metrics_bind_address=], unless it is left out. *)
Definition chart_address {P : Helm} (v : values) : gostring :=
  metric_host v ++ x3a :: print_number (metric_port v).

(** The items of [args] before the extra ones. *)
Definition arg_texts {P : Helm} (v : values) : list gostring :=
  [bs "--v=" ++ print_number (logLevel v); bs "--victim_annotation=" ++ chart_annotation v] ++
  (if metric_disabled v then [] else [bs "--metrics_bind_address=" ++ chart_address v]).

(** What the YAML text of an item is, if it is a string. *)
Class Yaml := scalar : gostring → option gostring.

(** Printable ASCII in which no colon ends a word, no hash begins one and nothing is
    expanded by the kubelet. *)
Fixpoint plain (s : gostring) : bool :=
  match s with
  | [] => true
  | c :: s =>
      (32 <=? byte_to_Z c) && (byte_to_Z c <=? 126) && negb (bool_decide (c = x24)) &&
      match s with
      | [] => negb (bool_decide (c = x3a)) && negb (bool_decide (c = x20))
      | c' :: _ =>
          negb (bool_decide (c = x3a) && bool_decide (c' = x20)) &&
          negb (bool_decide (c = x20) && bool_decide (c' = x23))
      end && plain s
  end.

(** A plain text that begins like a flag stands for itself. *)
Class YamlLaws {Y : Yaml} : Prop :=
  scalar_plain name s : plain (bs "--" ++ name ++ x3d :: s) = true →
    scalar (bs "--" ++ name ++ x3d :: s) = Some (bs "--" ++ name ++ x3d :: s).

(** The arguments of the container; extra ones are written by [toYaml], which quotes what
    has to be. *)
Definition container_args {P : Helm} {Y : Yaml} (v : values) : option (list gostring) :=
  (λ args, args ++ extraArgs v) <$> mapM scalar (arg_texts v).

(** ** The options *)

(** What the arguments make of the agent's defaults. *)
Definition options_of_values {P : Helm} {F} (v : values) (defaults : options F) : options F :=
  let opts := set_victim_annotation (chart_annotation v) defaults in
  if metric_disabled v then opts else set_metrics_bind_address (chart_address v) opts.

Definition chart_settings {P : Helm} (v : values) : list setting :=
  [option_setting "v" (print_number (logLevel v));
   option_setting "victim_annotation" (chart_annotation v)] ++
  (if metric_disabled v then [] else [option_setting "metrics_bind_address" (chart_address v)]).

Lemma chart_settings_spell {P : Helm} v : concat (spell <$> chart_settings v) = arg_texts v.
Proof. unfold chart_settings, arg_texts. by destruct (metric_disabled v). Qed.

Lemma container_args_plain {P : Helm} `{YL : YamlLaws} v :
  Forall (λ t, plain t = true) (arg_texts v) →
  container_args v = Some (arg_texts v ++ extraArgs v).
Proof.
  intros Hp. unfold container_args.
  assert (mapM scalar (arg_texts v) = Some (arg_texts v)) as ->; [|done].
  apply mapM_Some. unfold arg_texts in *.
  assert (∀ name s, plain (bs "--" ++ name ++ x3d :: s) = true →
    scalar (bs "--" ++ name ++ x3d :: s) = Some (bs "--" ++ name ++ x3d :: s)) as Hs
    by apply scalar_plain.
  inversion Hp as [|? ? H1 Hp1]; subst. inversion Hp1 as [|? ? H2 Hp2]; subst.
  constructor; [by apply (Hs (bs "v"))|].
  constructor; [by apply (Hs (bs "victim_annotation"))|].
  destruct (metric_disabled v); [constructor|]. inversion Hp2 as [|? ? H3 _]; subst.
  constructor; [by apply (Hs (bs "metrics_bind_address"))|constructor].
Qed.

Section chart.
Context {F S : Type} `{FL : Float64 F} `{KL : KlogLaws S} {P : Helm} `{YL : YamlLaws}.

Lemma lookup_klog_flag name (f : Flag S) :
  lookup_flag klog_flags name = Some f →
  lookup_flag (klog_flag (F := F) <$> klog_flags) name = Some (klog_flag f).
Proof using.
  unfold lookup_flag. induction klog_flags as [|g l IH]; [done|]. simpl.
  destruct (bool_decide (flag_name g = name)); [by intros [= ->]|done].
Qed.

(** klog accepts the verbosity. *)
Definition accepts_level (level : Z) (ks : S) : Prop :=
  ∃ f, lookup_flag klog_flags (bs "v") = Some f ∧ Set_ f (print_number level) klog_defaults = Some ks.

Lemma chart_sets v (o : options F) ks :
  accepts_level (logLevel v) ks →
  sets_all formal (chart_settings v) (o, klog_defaults) (options_of_values v o, ks).
Proof using.
  intros (f & Hf & Hs). unfold chart_settings, options_of_values. eexists. split.
  { exists (klog_flag f). split; [by apply lookup_klog_flag|]. split; [|exact I].
    cbn [klog_flag Set_ option_setting value_of snd]. by rewrite Hs. }
  eexists. split; [by eapply sets_main|].
  destruct (metric_disabled v); [done|]. eexists. split; [by eapply sets_main|done].
Qed.

Lemma chart_parses env v ks :
  Forall (λ t, plain t = true) (arg_texts v) → extraArgs v = [] → accepts_level (logLevel v) ks →
  container_args v = Some (arg_texts v) ∧
  parse_command_line env (arg_texts v) = Parsed (options_of_values v (default_options (fifty (F := F))
    (kube_config_default (HomeDir env) (Stat env)) (K8S_NODENAME env)), ks) [].
Proof using YL KL.
  intros Hp Hx Hk. rewrite container_args_plain, Hx, app_nil_r by done. split; [done|].
  apply flag_syntax; [apply formal_ok|]. exists (chart_settings v), [].
  rewrite chart_settings_spell, app_nil_r. split; [done|]. split; [by apply chart_sets|by right].
Qed.
End chart.

(** C31. The chart.  For values whose texts have no special characters, the agent starts
    with just the options the template asks for: its defaults (the node name of the
    downward API among them) but for the annotation and, unless metrics are disabled,
    the address of the metrics.  That is not what the chart means in three cases.  With
    [dryRun] the agent does not run in observation-only mode: the two quotation marks
    are no annotation, and the process ends before it traces anything, if it does not
    wait to be connected.  Without an
    annotation in the values the template's own marks pods with the value ['yes'] in
    quotation marks.  And disabled metrics are served all the same, on the default
    address. *)
Theorem chart_spec {F S W error} `{FL : Float64 F} `{KL : KlogLaws S} {P : Helm} `{YL : YamlLaws}
    `{HW : World W error} {U : Unix} `{CL : ClientLib error} to_float32 canceled env v
    (ks : S) load rs (w : W) :
  Forall (λ t, plain t = true) (arg_texts v) → extraArgs v = [] → accepts_level (logLevel v) ks →
  let opts := options_of_values v (default_options (fifty (F := F))
    (kube_config_default (HomeDir env) (Stat env)) (K8S_NODENAME env)) in
  ∃ args, container_args v = Some args ∧
    parse_command_line env args = Parsed (opts, ks) [] ∧
    oom_tracer (S := S) to_float32 canceled env args load rs w =
      inr (main to_float32 canceled opts load rs w) ∧
    (dryRun v = true →
      parseAnnotation (victim_annotation opts) = inr (InvalidAnnotation [x22; x22]) ∧
      match (main to_float32 canceled opts load rs w).1.1 with
      | Finished | Tracing | Fatal (TracerFailed _) => False
      | _ => patches (main to_float32 canceled opts load rs w).2 = patches w
      end) ∧
    (dryRun v = false → victimAnnotation v = [] →
      parseAnnotation (victim_annotation opts) =
        inl (bs "oom-tracer.alpha.kubernetes.io/evict-me", bs "'yes'")) ∧
    (metric_disabled v = true → metrics_bind_address opts = bs ":8080").
Proof.
  intros Hp Hx Hk opts. destruct (chart_parses env v ks Hp Hx Hk) as [Ha Hparse].
  exists (arg_texts v). split; [done|]. split; [done|]. split_and!.
  - unfold oom_tracer. by rewrite Hparse.
  - intros Hd.
    assert (victim_annotation opts = [x22; x22] ∧ print_version opts = false) as [Ho Hv].
    { unfold opts, options_of_values, chart_annotation. rewrite Hd. by destruct (metric_disabled v). }
    rewrite Ho. split; [reflexivity|]. unfold main, start_up. rewrite Hv, Ho.
    case_decide; [done|]. destruct (CreateClients _) as [[cl|err]|]; [|done..].
    destruct (NewMetrics _ w) as [[m w1]|] eqn:Hm; [|done].
    by destruct (NewMetrics_wf _ _ _ _ Hm) as (_ & Hp' & _).
  - intros Hd Hn. unfold opts, options_of_values, chart_annotation, template_default.
    rewrite Hd, Hn, decide_True by done. by destruct (metric_disabled v).
  - intros Hm. unfold opts, options_of_values. by rewrite Hm.
Qed.
