(* ===== verification/Fairness.v ===== *)
(** * Fair runs

    What "leads to" means along an infinite run of a system whose steps are made by
    actors, and the rules by which the liveness theorems of [Shutdown] and [Node]
    are put together: chaining, case distinction, a step that a fair actor cannot
    put off for ever, and a measure that such steps decrease. *)
From S2P Require Import Prelude.

Section fairness.
Context {State Actor : Type}.
Variable step : Actor → State → State → Prop.

(** [a] can make a step. *)
Definition enabled (a : Actor) (s : State) : Prop := ∃ s', step a s s'.

Variables (run : nat → State) (whose : nat → Actor).

(** An infinite run, with whose step each one is. *)
Definition infinite_run : Prop := ∀ n, step (whose n) (run n) (run (S n)).

(** Fairness to [a] where it [may] not be put off: time and again it makes a step or
    may be. *)
Definition fair (may : State → Prop) (a : Actor) : Prop :=
  ∀ n, ∃ m, (n <= m)%nat ∧ (whose m = a ∨ ¬ may (run m)).

Definition leads_to (P Q : State → Prop) : Prop :=
  ∀ n, P (run n) → ∃ m, (n <= m)%nat ∧ Q (run m).

Lemma leads_to_impl (P Q : State → Prop) : (∀ s, P s → Q s) → leads_to P Q.
Proof using. intros H n HP. exists n. split; [lia|]. by apply H. Qed.

Lemma leads_to_trans P Q R : leads_to P Q → leads_to Q R → leads_to P R.
Proof using.
  intros H1 H2 n HP. destruct (H1 n HP) as (m & Hm & HQ).
  destruct (H2 m HQ) as (m' & Hm' & HR). exists m'. split; [lia|done].
Qed.

Lemma leads_to_or P1 P2 Q :
  leads_to P1 Q → leads_to P2 Q → leads_to (λ s, P1 s ∨ P2 s) Q.
Proof using. intros H1 H2 n [HP|HP]; [by apply H1|by apply H2]. Qed.

(** A measure that decreases again and again until [Q] holds. *)
Lemma leads_to_measure (f : State → nat) P Q :
  (∀ k, leads_to (λ s, P s ∧ f s = k) (λ s, Q s ∨ P s ∧ (f s < k)%nat)) → leads_to P Q.
Proof using.
  intros H n. remember (f (run n)) as k eqn:Hk. revert n Hk.
  induction k as [k IH] using lt_wf_ind. intros n Hk HP.
  destruct (H k n) as (m & Hm & [HQ|[HP' Hlt]]); [done|by exists m|].
  destruct (IH (f (run m)) Hlt m eq_refl HP') as (m' & Hm' & HQ).
  exists m'. split; [lia|done].
Qed.

(** A change along the way happens in some step. *)
Lemma change (P : State → Prop) `{!∀ s, Decision (P s)} n m :
  (n <= m)%nat → P (run n) → ¬ P (run m) →
  ∃ j, (n <= j < m)%nat ∧ P (run j) ∧ ¬ P (run (S j)).
Proof using.
  induction 1 as [|m Hm IH]; [done|]. intros Hn Hm'.
  destruct (decide (P (run m))) as [HP|HP].
  - exists m. split_and!; [lia..|done|done].
  - destruct IH as (j & ? & ?); [done..|]. exists j. split; [lia|done].
Qed.

Hypothesis steps : infinite_run.

(** What holds until [Q] does, and makes an actor the scheduler is fair to bring about
    [Q], leads to [Q]. *)
Lemma ensures may a P Q :
  fair may a →
  (∀ s, P s → may s) →
  (∀ s s', P s → step a s s' → Q s') →
  (∀ b s s', P s → step b s s' → P s' ∨ Q s') →
  leads_to P Q.
Proof using steps.
  intros Hf Hmay Hact Hstay n HP. destruct (Hf n) as (m & Hm & Hfm).
  assert (∀ k, P (run (n + k)%nat) ∨ ∃ m', (n <= m')%nat ∧ Q (run m')) as Hk.
  { induction k as [|k [IH|IH]]; [left; by rewrite Nat.add_0_r| |by right].
    pose proof (steps (n + k)%nat) as Hs. rewrite Nat.add_succ_r.
    destruct (Hstay _ _ _ IH Hs) as [?|?]; [by left|]. right. exists (S (n + k)).
    split; [lia|done]. }
  destruct (Hk (m - n)%nat) as [HPm|?]; [|done].
  replace (n + (m - n))%nat with m in HPm by lia.
  destruct Hfm as [Ha|Hno]; [|by destruct Hno; apply Hmay].
  exists (S m). split; [lia|]. eapply Hact; [exact HPm|]. rewrite <- Ha. apply steps.
Qed.

(** What every step preserves holds all along. *)
Lemma always (P : State → Prop) :
  P (run 0%nat) → (∀ a s s', P s → step a s s' → P s') → ∀ n, P (run n).
Proof using steps. intros H0 Hs n. induction n; [done|]. by eapply Hs, steps. Qed.
End fairness.
