(* ===== verification/Shutdown.v ===== *)
(** * The agent's goroutines and its shutdown

    [TraceKernelOOMKills] as it runs in the process: the loop, the goroutine that
    closes the reader once the context is done, the signal that cancels the
    context, and the deferred closing of what [LoadBPF] opened.  [proc] is the
    state they share, [pstep] one step of one of them; everything else that
    happens is a step of the environment.

    A read is a step of its own that may return a sample or an error as long as
    the reader has not been closed, and [ringbuf.ErrClosed] from the moment its
    closing has begun, which is what the documentation of the reader promises.
    Handling one event is a step, too: it shares nothing with the other goroutines;
    what others do to the cluster between its listing of the pods and its patch is
    part of the step. *)
From S2P Require Import Prelude GoStrings Annotation GoRegexp Lookup GoBinary Metrics GoJson K8s GoErrors Loading Tracer Command Fairness.

(** ** The state *)

(** The goroutine: before [<-ctx.Done()], in [rd.Close()], or at its end. *)
Inductive goroutine := Awaiting | CallingClose | Exited.

(** The tracing function: in the loop, past its return statement but before the
    deferred call, or returned. *)
Inductive control (E : Type) :=
  | Loop
  | Deferred (err : option (goerror E))
  | Ended (err : option (goerror E)).
Arguments Loop {E}. Arguments Deferred {E}. Arguments Ended {E}.

Record proc (L W E : Type) := {
  ctx_Err : option (goerror E);
  bpf : option (resource * (L → L));
  waiter : goroutine;
  rd_closed : bool;
  pc : control E;
  lib : L;
  world : W;
}.
Arguments ctx_Err {L W E}. Arguments bpf {L W E}. Arguments waiter {L W E}.
Arguments rd_closed {L W E}. Arguments pc {L W E}. Arguments lib {L W E}.
Arguments world {L W E}.

(** [err == nil] *)
Definition succeeded {A} (err : option A) : bool := match err with None => true | _ => false end.

(** Whose step it is. *)
Inductive actor := Tracing_loop | Waiter | Environment.

(** What the tracing function has come to. *)
Definition outcome_of {E} (c : control E) : outcome (goerror E) :=
  match c with Loop => Running | Deferred err | Ended err => Returned err end.

Section processes.
Context {L W E : Type} `{Ebpf L E} `{World W (goerror E)} {U : Unix}.
Variables (o : OOMTracer) (_BpfBytes : list byte).

(** [TraceKernelOOMKills] up to its loop. *)
Definition start (ctx : option (goerror E)) (l : L) (w : W) : proc L W E :=
  match LoadBPF _BpfBytes (bs "oom_kill_process") l with
  | (inr err, l) =>
      {| ctx_Err := ctx; bpf := None; waiter := Exited; rd_closed := false;
         pc := Ended (Some err); lib := l; world := w |}
  | (inl b, l) =>
      {| ctx_Err := ctx; bpf := Some b; waiter := Awaiting; rd_closed := false;
         pc := Loop; lib := l; world := w |}
  end.

(** What [rd.Read()] may return; with [ErrClosed] comes [ctx.Err()]. *)
Definition readable (p : proc L W E) (r : read_result (goerror E)) : Prop :=
  match r with
  | ErrClosed err => err = ctx_Err p ∧ waiter p ≠ Awaiting
  | Sample _ | ErrRead _ => rd_closed p = false
  end.

(** What the rest of the world does to the cluster. *)
Variable others : W → W → Prop.

Inductive pstep : actor → proc L W E → proc L W E → Prop :=
  | loop_read ctx b g c l w r meanwhile out w' :
      readable {| ctx_Err := ctx; bpf := b; waiter := g; rd_closed := c; pc := Loop;
                  lib := l; world := w |} r →
      permitted others meanwhile →
      handle_meanwhile meanwhile o r w = (out, w') →
      pstep Tracing_loop
        {| ctx_Err := ctx; bpf := b; waiter := g; rd_closed := c; pc := Loop;
           lib := l; world := w |}
        {| ctx_Err := ctx; bpf := b; waiter := g; rd_closed := c;
           pc := match out with Running => Loop | Returned err => Deferred err end;
           lib := l; world := w' |}
  | loop_deferred ctx rd close g c err l w :
      pstep Tracing_loop
        {| ctx_Err := ctx; bpf := Some (rd, close); waiter := g; rd_closed := c;
           pc := Deferred err; lib := l; world := w |}
        {| ctx_Err := ctx; bpf := Some (rd, close); waiter := g; rd_closed := c;
           pc := Ended err; lib := close l; world := w |}
  | waiter_done ctx b c k l w :
      pstep Waiter
        {| ctx_Err := Some ctx; bpf := b; waiter := Awaiting; rd_closed := c; pc := k;
           lib := l; world := w |}
        {| ctx_Err := Some ctx; bpf := b; waiter := CallingClose; rd_closed := c; pc := k;
           lib := l; world := w |}
  | waiter_close ctx rd close c k l w :
      pstep Waiter
        {| ctx_Err := ctx; bpf := Some (rd, close); waiter := CallingClose; rd_closed := c;
           pc := k; lib := l; world := w |}
        {| ctx_Err := ctx; bpf := Some (rd, close); waiter := Exited;
           rd_closed := c || succeeded (Close (E := E) rd l).1; pc := k;
           lib := (Close (E := E) rd l).2; world := w |}
  | signal ctx b g c k l w :
      pstep Environment
        {| ctx_Err := ctx; bpf := b; waiter := g; rd_closed := c; pc := k;
           lib := l; world := w |}
        {| ctx_Err := Some Canceled; bpf := b; waiter := g; rd_closed := c; pc := k;
           lib := l; world := w |}
  | elsewhere ctx b g c k l w w' :
      w' = w ∨ others w w' →
      pstep Environment
        {| ctx_Err := ctx; bpf := b; waiter := g; rd_closed := c; pc := k;
           lib := l; world := w |}
        {| ctx_Err := ctx; bpf := b; waiter := g; rd_closed := c; pc := k;
           lib := l; world := w' |}.

(** A step of any of them. *)
Definition any_step (p p' : proc L W E) : Prop := ∃ a, pstep a p p'.
End processes.

(** ** Safety *)

Section safety.
Context {L W E : Type} `{EL : EbpfLaws L E} `{HW : World W (goerror E)} {U : Unix}.
Variables (o : OOMTracer) (_BpfBytes : list byte) (others : W → W → Prop).
Variables (l0 : L) (w0 : W).

(** Why the tracing function returns: loading failed, the context was cancelled, or
    pods could not be listed. *)
Definition cause (ctx : option (goerror E)) (err : option (goerror E)) : Prop :=
  (∃ e, (LoadBPF _BpfBytes (bs "oom_kill_process") l0).1 = inr e ∧ err = Some e) ∨
  (err = Some Canceled ∧ ctx = Some Canceled) ∨
  (∃ e w1, err = Some e ∧ list_pods (W := W) (nodeName o) w1 = inr e).

Record invariant (p : proc L W E) : Prop := {
  inv_ctx : ctx_Err p = None ∨ ctx_Err p = Some Canceled;
  inv_waiter : waiter p ≠ Awaiting → bpf p ≠ None → ctx_Err p = Some Canceled;
  inv_closed : rd_closed p = true → waiter p = Exited ∧ bpf p ≠ None;
  inv_bpf : match (LoadBPF _BpfBytes (bs "oom_kill_process") l0).1 with
    | inl b => bpf p = Some b
    | inr _ => bpf p = None ∧ waiter p = Exited ∧ ∃ err, pc p = Ended err
    end;
  inv_cause : ∀ err, outcome_of (pc p) = Returned err → cause (ctx_Err p) err;
  inv_run : rtc (step o (λ w w', w' = w ∨ others w w'))
    (outcome_of (pc (start (W := W) _BpfBytes None l0 w0)), w0) (outcome_of (pc p), world p);
}.

Lemma start_invariant ctx :
  ctx = None ∨ ctx = Some Canceled → invariant (start _BpfBytes ctx l0 w0).
Proof using.
  intros Hctx. split; unfold start, cause;
    destruct (LoadBPF _BpfBytes (bs "oom_kill_process") l0) as [[b|err] l1];
    cbn [ctx_Err waiter bpf rd_closed pc outcome_of fst world]; try done; eauto.
  intros err' [= <-]. left. eauto.
Qed.

Lemma cause_cancelled ctx err : cause ctx err → cause (Some Canceled) err.
Proof using.
  intros [Hl|[[Hc _]|Hp]]; [by left|by right; left|by right; right].
Qed.

Lemma step_invariant p p' :
  invariant p → any_step o others p p' → invariant p'.
Proof using.
  intros [Ictx Iw Ic Ib Icause Irun] [a Hs].
  destruct Hs as [ctx b g c l w r meanwhile out w' Hr Hm Hh|ctx rd close g c err l w|ctx b c k l w
    |ctx rd close c k l w|ctx b g c k l w|ctx b g c k l w w' Hw];
    cbn [ctx_Err waiter bpf rd_closed pc outcome_of world] in *;
    split; cbn [ctx_Err waiter bpf rd_closed pc outcome_of world]; try done; eauto.
  - destruct (LoadBPF _ _ _).1; [done|]. by destruct Ib as (_ & _ & ? & ?).
  - intros err Herr. assert (out = Returned err) as -> by (destruct out; simplify_eq/=; done).
    apply handle_returned in Hh as [->|(e & -> & He)]; [|right; right; eauto].
    destruct Hr as [-> Hg]. cbn [ctx_Err waiter] in *.
    destruct (LoadBPF _ _ _).1; [|by destruct Ib as (_ & _ & ? & ?)].
    right; left. rewrite Iw; [done|done|by rewrite Ib].
  - eapply rtc_r; [exact Irun|].
    replace (outcome_of _, w') with (handle_meanwhile meanwhile o r w)
      by (rewrite Hh; by destruct out).
    apply step_read. intros w0'. eapply rtc_subrel; [|apply Hm]. by right.
  - destruct (LoadBPF _ _ _).1; [done|]. by destruct Ib.
  - destruct Ictx; by simplify_eq.
  - intros Hc. by destruct (Ic Hc).
  - destruct (LoadBPF _ _ _).1; [done|]. by destruct Ib as (_ & ? & _).
  - destruct (LoadBPF _ _ _).1; [done|]. by destruct Ib.
  - intros err Herr. by eapply cause_cancelled, Icause.
  - eapply rtc_r; [exact Irun|]. by apply step_others.
Qed.

Lemma reachable_invariant ctx p :
  ctx = None ∨ ctx = Some Canceled →
  rtc (any_step o others) (start _BpfBytes ctx l0 w0) p → invariant p.
Proof using.
  intros Hctx Hr. assert (invariant (start _BpfBytes ctx l0 w0)) as Hi
    by by apply start_invariant.
  induction Hr as [|p1 p2 p3 Hs _ IH]; [done|]. apply IH. by eapply step_invariant.
Qed.

(** What is open, if loading has opened [R] with the reader [rd] among them: all of
    [R] until the goroutine closes the reader, and the rest of [R] until the
    tracing function ends; then nothing but what was open before, provided that
    nothing fails to close. *)
Definition holding (p : proc L W E) (rd : resource) (R : gset resource) : Prop :=
  match pc p with
  | Ended _ => opened l0 ⊆ opened (lib p) ∧
      (closable (L := L) (E := E) R → opened (lib p) = opened l0)
  | _ => (R ∪ opened l0) ∖ {[rd]} ⊆ opened (lib p) ⊆ R ∪ opened l0 ∧
      (waiter p ≠ Exited → opened (lib p) = R ∪ opened l0)
  end.

(** The load the process started with. *)
Definition loaded (objs : bpfObjects) (kp rd : resource) : Prop :=
  ∃ l1, LoadBPF (L := L) (E := E) _BpfBytes (bs "oom_kill_process") l0 =
      (inl (rd, closeFn objs kp rd), l1) ∧ size (resources objs kp rd) = 4%nat ∧
    resources objs kp rd ## opened l0 ∧ opened l1 = resources objs kp rd ∪ opened l0.

Lemma load_cases :
  (∃ objs kp rd, loaded objs kp rd) ∨
  ∃ err, (LoadBPF (L := L) (E := E) _BpfBytes (bs "oom_kill_process") l0).1 = inr err.
Proof using EL.
  destruct (LoadBPF _BpfBytes (bs "oom_kill_process") l0) as [[[rd close]|err] l1] eqn:El.
  - left. destruct (LoadBPF_opened _ _ _ _ _ _ El) as (objs & kp & -> & Hsz & Hd & Ho).
    exists objs, kp, rd, l1. by split_and!.
  - right. by exists err.
Qed.

Section held.
Variables (objs : bpfObjects) (kp rd : resource).
Hypothesis Hl : loaded objs kp rd.
Abbreviation R := (resources objs kp rd).
Abbreviation holds p := (bpf p = Some (rd, closeFn objs kp rd) ∧ holding p rd R).

Lemma start_holding ctx : holds (start (W := W) _BpfBytes ctx l0 w0).
Proof using Hl.
  clear others EL. destruct Hl as (l1 & El & _ & _ & Ho). unfold start. rewrite El. split; [done|].
  unfold holding. cbn [pc lib waiter]. rewrite Ho. set_solver.
Qed.

Lemma step_holding p p' : holds p → any_step o others p p' → holds p'.
Proof using Hl EL.
  clear w0. destruct Hl as (l1 & El & _ & Hd & _).
  assert (rd ∈ R) as Hrd by (unfold resources; set_solver).
  intros [Hb Hh] [a Hs]. unfold holding in *.
  destruct Hs as [ctx b g c l w r meanwhile out w' Hr _ _|ctx rd' close g c err l w|ctx b c k l w
    |ctx rd' close c k l w|ctx b g c k l w|ctx b g c k l w w' _];
    cbn [bpf waiter pc lib] in *; simplify_eq; split; try done.
  - by destruct out.
  - pose proof (closeFn_frame (L := L) (E := E) objs kp rd l) as Hf. split.
    + clear -Hh Hf Hd. set_solver.
    + intros Hc. rewrite closeFn_closes by done. clear -Hh Hd. set_solver.
  - destruct k; [|naive_solver..]. naive_solver.
  - pose proof (Close_frame (E := E) rd l) as Hf. destruct k as [|err|err]; [clear -Hh Hf Hrd..|].
    1, 2: destruct Hh as [Hh _]; split; [set_solver|done].
    destruct Hh as [Ho Hc]. split; [clear -Ho Hf Hd Hrd; set_solver|]. intros Hcl.
    rewrite Close_closed by (by apply Hcl). rewrite Hc by done. clear -Hd Hrd. set_solver.
Qed.

Lemma reachable_holding ctx p :
  rtc (any_step o others) (start _BpfBytes ctx l0 w0) p → holds p.
Proof using Hl EL.
  intros Hr. pose proof (start_holding ctx) as Hi. revert Hi.
  induction Hr as [|p1 p2 p3 Hs _ IH]; [done|]. intros Hi. apply IH. by eapply step_holding.
Qed.
(** The probe stays attached until the function has ended. *)
Lemma holding_attached (p : proc L W E) :
  holding p rd R → (∀ err, pc p ≠ Ended err) → kp ∈ opened (lib p).
Proof using Hl.
  clear others EL. destruct Hl as (l1 & _ & Hsz & _). intros Hh Hn.
  apply resources_apart in Hsz.
  assert (kp ∈ (R ∪ opened l0) ∖ {[rd]}) as Hin by (unfold resources; set_solver).
  unfold holding in Hh. destruct (pc p) as [|err|err] eqn:Hk; [| |by destruct (Hn err)].
  - destruct Hh as [[Hh _] _]. by apply Hh.
  - destruct Hh as [[Hh _] _]. by apply Hh.
Qed.
End held.
End safety.

(** C13. Safety of the goroutines.  Whatever order the loop, the goroutine that waits
    for the context, signals and the rest of the world take their steps in, every
    state of the process is one of the sequential loop: its outcome and world are
    reached by reading and by changes from outside.  The tracing function never
    returns without an error, and returns only for a failed load, because the
    context is cancelled, or because pods could not be listed; the reader is not
    closed unless the context is cancelled.  The program, the map and the
    probe stay open until the function has ended, the reader until the goroutine
    closes it, and once the function has ended all are closed, unless one of them
    fails to close, and nothing that was open before is. *)
Theorem shutdown_safe {L W E} `{EL : EbpfLaws L E} `{HW : World W (goerror E)} {U : Unix}
    o _BpfBytes others (l0 : L) (w0 : W) ctx p :
  ctx = None ∨ ctx = Some Canceled →
  let p0 := start _BpfBytes ctx l0 w0 in
  rtc (any_step o others) p0 p →
  rtc (step o (λ w w', w' = w ∨ others w w')) (outcome_of (pc p0), w0)
    (outcome_of (pc p), world p) ∧
  (∀ err, outcome_of (pc p) = Returned err →
    err ≠ None ∧ cause (W := W) o _BpfBytes l0 (ctx_Err p) err) ∧
  (rd_closed p = true → ctx_Err p = Some Canceled) ∧
  ((∃ err, pc p0 = Ended (Some err) ∧ bpf p0 = None) ∨
   ∃ objs kp rd, loaded _BpfBytes l0 objs kp rd ∧ holding l0 p rd (resources objs kp rd)).
Proof.
  intros Hctx p0 Hr.
  destruct (reachable_invariant o _BpfBytes others l0 w0 ctx p Hctx Hr) as [_ Iw Ic Ib Icause Irun].
  split_and!.
  - replace (outcome_of (pc p0)) with (outcome_of (pc (start (W := W) _BpfBytes None l0 w0)));
      [done|]. unfold p0, start. by destruct (LoadBPF _ _ l0) as [[b|err] l1].
  - intros err Herr. specialize (Icause err Herr). split; [|done].
    destruct Icause as [(e & _ & ->)|[[-> _]|(e & w1 & -> & _)]]; done.
  - intros Hc. destruct (Ic Hc) as [Hg Hb]. apply Iw; [by rewrite Hg|done].
  - destruct (load_cases _BpfBytes l0) as [(objs & kp & rd & Hl)|[err He]]; [right|left].
    + exists objs, kp, rd. split; [done|].
      by destruct (reachable_holding o _BpfBytes others l0 w0 objs kp rd Hl ctx p Hr) as [_ ?].
    + exists err. unfold p0, start. by destruct (LoadBPF _ _ l0) as [[b|err'] l1]; simplify_eq/=.
Qed.

(** ** Liveness *)

Section liveness.
Context {L W E : Type} `{EL : EbpfLaws L E} `{HW : World W (goerror E)} {U : Unix}.
Variables (o : OOMTracer) (others : W → W → Prop).

(** The goroutine has something to do; and the loop has something to do that does not
    block: a read may block for as long as the reader is open. *)
Definition can_wait : proc L W E → Prop := enabled (pstep o others) Waiter.
Definition unblocked (p : proc L W E) : Prop :=
  (pc p = Loop → rd_closed p = true) ∧ enabled (pstep o others) Tracing_loop p.

Variables (run : nat → proc L W E) (whose : nat → actor).
Hypothesis steps : infinite_run (pstep o others) run whose.

Variables (rd : resource) (close : L → L).
Hypothesis closes : ∀ l : L, (Close (E := E) rd l).1 = None.
Hypotheses (fair_waiter : fair run whose can_wait Waiter)
  (fair_loop : fair run whose unblocked Tracing_loop).

(** The stages of a shutdown. *)
Definition cancelled_at (g : goroutine) (p : proc L W E) : Prop :=
  ctx_Err p ≠ None ∧ bpf p = Some (rd, close) ∧ waiter p = g.
Definition closed_in (k : control E → Prop) (p : proc L W E) : Prop :=
  bpf p = Some (rd, close) ∧ waiter p = Exited ∧ rd_closed p = true ∧ k (pc p).

Abbreviation leads_to := (leads_to run).

Definition is_loop (k : control E) : Prop := k = Loop.
Definition is_deferred (k : control E) : Prop := ∃ err, k = Deferred err.
Definition is_ended (k : control E) : Prop := ∃ err, k = Ended err.

Lemma awaiting_ends : leads_to (cancelled_at Awaiting) (cancelled_at CallingClose).
Proof using steps fair_waiter.
  apply (ensures _ _ _ steps can_wait Waiter); [done| | |]; unfold cancelled_at.
  - intros [[c|] b g cl k l w] (Hc & Hb & Hg); simpl in *; [|done]. subst. eexists.
    apply waiter_done.
  - intros p p' (Hc & Hb & Hg) Hs. inversion Hs; subst; simpl in *; naive_solver.
  - intros a p p' (Hc & Hb & Hg) Hs. destruct Hs; simpl in *; naive_solver.
Qed.

Lemma calling_ends : leads_to (cancelled_at CallingClose) (closed_in (λ _, True)).
Proof using steps fair_waiter closes.
  apply (ensures _ _ _ steps can_wait Waiter); [done| | |]; unfold cancelled_at, closed_in.
  - intros [c b g cl k l w] (Hc & Hb & Hg); simpl in *. subst. eexists. apply waiter_close.
  - intros p p' (Hc & Hb & Hg) Hs. inversion Hs; subst; simpl in *; simplify_eq.
    rewrite closes. by rewrite orb_true_r.
  - intros a p p' (Hc & Hb & Hg) Hs. destruct Hs; simpl in *; simplify_eq;
      try (left; by split_and!).
    right. rewrite closes. by rewrite orb_true_r.
Qed.

Lemma loop_ends : leads_to (closed_in is_loop) (closed_in is_deferred).
Proof using steps fair_loop.
  apply (ensures _ _ _ steps unblocked Tracing_loop); [done| | |]; unfold closed_in, is_loop, is_deferred.
  - intros [c b g cl k l w] (Hb & Hg & Hc & Hk); simpl in *. subst. split; [done|]. eexists.
    apply (loop_read _ _ c _ _ _ _ _ (ErrClosed c) id (Returned c) w);
      [done|apply permitted_id|done].
  - intros p p' (Hb & Hg & Hc & Hk) Hs. inversion Hs as [? ? ? ? ? ? r meanwhile out w' Hr Hm Hh| | | | |];
      subst; simpl in *; simplify_eq.
    destruct r; simpl in *; try done. simplify_eq. eauto.
  - intros a p p' (Hb & Hg & Hc & Hk) Hs.
    destruct Hs as [? ? ? ? ? ? r meanwhile out w' Hr Hm Hh| | | | |]; simpl in *; simplify_eq; eauto.
    destruct r; simpl in *; try done. simplify_eq. eauto 6.
Qed.

Lemma deferred_ends : leads_to (closed_in is_deferred) (closed_in is_ended).
Proof using steps fair_loop.
  apply (ensures _ _ _ steps unblocked Tracing_loop); [done| | |]; unfold closed_in, is_deferred, is_ended.
  - intros [c b g cl k l w] (Hb & Hg & Hc & err & Hk); simpl in *. subst. split; [done|].
    eexists. apply loop_deferred.
  - intros p p' (Hb & Hg & Hc & err & Hk) Hs. inversion Hs; subst; simpl in *; simplify_eq.
    eauto 6.
  - intros a p p' (Hb & Hg & Hc & err & Hk) Hs. destruct Hs; simpl in *; simplify_eq;
      first [by left; eauto 6|by right; eauto 6].
Qed.

(** From a cancelled context to the end of the tracing function. *)
Lemma cancelled_ends :
  leads_to (λ p, ctx_Err p ≠ None ∧ bpf p = Some (rd, close) ∧
    (waiter p = Exited → rd_closed p = true)) (closed_in is_ended).
Proof using steps closes fair_waiter fair_loop.
  assert (leads_to (closed_in (λ _, True)) (closed_in is_ended)) as Hclosed.
  { intros n (Hb & Hg & Hc & _). destruct (pc (run n)) as [|err|err] eqn:Hk.
    - apply (leads_to_trans _ _ _ _ loop_ends deferred_ends). by split_and!.
    - apply deferred_ends. split_and!; [done..|]. by eexists.
    - exists n. split; [lia|]. split_and!; [done..|]. by eexists. }
  intros n (Hc & Hb & Hx). destruct (waiter (run n)) eqn:Hg.
  - eapply leads_to_trans; [apply awaiting_ends|eapply leads_to_trans; [apply calling_ends|]|];
      [done|by split_and!].
  - eapply leads_to_trans; [apply calling_ends|done|by split_and!].
  - apply Hclosed. split_and!; auto.
Qed.
End liveness.

(** With a reader that closes, the goroutine's end means that it is closed. *)
Lemma exited_closed_step {L W E} `{EL : EbpfLaws L E} `{HW : World W (goerror E)} {U : Unix}
    o others a (p p' : proc L W E) rd close :
  (∀ l : L, (Close (E := E) rd l).1 = None) → pstep o others a p p' →
  bpf p = Some (rd, close) ∧ (waiter p = Exited → rd_closed p = true) →
  bpf p' = Some (rd, close) ∧ (waiter p' = Exited → rd_closed p' = true).
Proof.
  intros Hc Hs [Hb Hx]. destruct Hs; simpl in *; simplify_eq; split; auto.
  - done.
  - intros _. rewrite Hc. by rewrite orb_true_r.
Qed.

(** At the end, neither goroutine has anything left to do. *)
Lemma ended_stuck {L W E} `{EL : EbpfLaws L E} `{HW : World W (goerror E)} {U : Unix}
    o others a (p p' : proc L W E) err :
  pc p = Ended err → waiter p = Exited → pstep o others a p p' → a = Environment.
Proof. intros Hk Hg Hs. by destruct Hs. Qed.

(** ** Runs from the start *)

Section from_start.
Context {L W E : Type} `{EL : EbpfLaws L E} `{HW : World W (goerror E)} {U : Unix}.
Variables (o : OOMTracer) (_BpfBytes : list byte) (others : W → W → Prop).
Variables (l0 : L) (w0 : W) (ctx : option (goerror E)).
Hypothesis Hctx : ctx = None ∨ ctx = Some Canceled.

(** How the process ends when the function has returned. *)
Definition ended_well (p : proc L W E) (err : option (goerror E)) : Prop :=
  match finish is_canceled (Returned err) with
  | Finished => True
  | Fatal (TracerFailed e) => err = Some e ∧
      ((LoadBPF _BpfBytes (bs "oom_kill_process") l0).1 = inr e ∨
       ∃ w, list_pods (W := W) (nodeName o) w = inr e)
  | _ => False
  end ∧
  (bpf p ≠ None → (∀ h l, (Close (E := E) (L := L) h l).1 = None) →
   opened (lib p) = opened l0).

Lemma reachable_ended p err :
  rtc (any_step o others) (start _BpfBytes ctx l0 w0) p → pc p = Ended err → ended_well p err.
Proof using EL Hctx.
  intros Hr Hm.
  destruct (reachable_invariant o _BpfBytes others l0 w0 ctx _ Hctx Hr) as [_ _ _ Ib Icause _].
  specialize (Icause err). rewrite Hm in Icause. split.
  - destruct (Icause eq_refl) as [(e & He & ->)|[[-> _]|(e & w1 & -> & He)]]; simpl; [|done|];
      destruct (is_canceled e); eauto.
  - intros Hb Hc. destruct (load_cases _BpfBytes l0) as [(objs & kp & rd & Hl)|[e He]].
    + destruct (reachable_holding o _BpfBytes others l0 w0 objs kp rd Hl ctx _ Hr) as [_ Hh].
      unfold holding in Hh. rewrite Hm in Hh. apply Hh. intros h l _. apply Hc.
    + rewrite He in Ib. by destruct Ib as [? _].
Qed.

Variables (run : nat → proc L W E) (whose : nat → actor).
Hypothesis run_start : run 0%nat = start _BpfBytes ctx l0 w0.
Hypothesis steps : infinite_run (pstep o others) run whose.

Lemma run_reachable n : rtc (any_step o others) (start _BpfBytes ctx l0 w0) (run n).
Proof using run_start steps.
  rewrite <- run_start. induction n as [|n IH]; [done|]. eapply rtc_r; [exact IH|].
  eexists. apply steps.
Qed.

(** A cancelled context ends the function. *)
Lemma run_ends objs kp rd n :
  loaded _BpfBytes l0 objs kp rd → (∀ l : L, (Close (E := E) rd l).1 = None) →
  fair run whose (can_wait o others) Waiter →
  fair run whose (unblocked o others) Tracing_loop →
  ctx_Err (run n) ≠ None → ∃ m err, (n <= m)%nat ∧ pc (run m) = Ended err.
Proof using EL run_start steps.
  intros Hl Hc Hfw Hfl Hn.
  assert (∀ k, bpf (run k) = Some (rd, closeFn objs kp rd) ∧
    (waiter (run k) = Exited → rd_closed (run k) = true)) as Hx.
  { apply (always _ _ _ steps (λ p, bpf p = Some (rd, closeFn objs kp rd) ∧
      (waiter p = Exited → rd_closed p = true))).
    - rewrite run_start. destruct Hl as (l1 & El & _). unfold start. by rewrite El.
    - intros a p p' Hp Hs. by eapply exited_closed_step. }
  destruct (Hx n) as [Hb Hg].
  destruct (cancelled_ends o others run whose steps rd (closeFn objs kp rd) Hc Hfw Hfl n)
    as (m & Hm & _ & _ & _ & err & He); eauto.
Qed.
End from_start.

(** C12. Liveness of the shutdown.  Along every infinite run of the process with a
    scheduler that is fair to the waiting goroutine, and to the loop whenever it
    is not in a read that may block because the reader is open: if the
    context is ever cancelled, or loading failed, the tracing function returns,
    whatever samples, errors and changes of the cluster come in between, provided
    that the reader closes without an error.  [main] then ends well, or with the
    failure to load or to list the pods, and if everything else closes, too,
    nothing is left open that was not before [LoadBPF]. *)
Theorem shutdown_live {L W E} `{EL : EbpfLaws L E} `{HW : World W (goerror E)} {U : Unix}
    o _BpfBytes others (l0 : L) (w0 : W) ctx (run : nat → proc L W E) whose n :
  ctx = None ∨ ctx = Some Canceled →
  run 0%nat = start _BpfBytes ctx l0 w0 →
  infinite_run (pstep o others) run whose →
  fair run whose (can_wait o others) Waiter →
  fair run whose (unblocked o others) Tracing_loop →
  (∀ rd close l1 l, LoadBPF _BpfBytes (bs "oom_kill_process") l0 = (inl (rd, close), l1) →
    (Close (E := E) (L := L) rd l).1 = None) →
  ctx_Err (run n) ≠ None ∨ bpf (run n) = None →
  ∃ m err, pc (run m) = Ended err ∧ ended_well o _BpfBytes l0 (run m) err.
Proof.
  intros Hctx H0 Hs Hfw Hfl Hcl Hn. pose proof (run_reachable _ _ _ _ _ _ _ _ H0 Hs) as Hreach.
  assert (∃ m err, pc (run m) = Ended err) as (m & err & Hm).
  { destruct (load_cases _BpfBytes l0) as [(objs & kp & rd & Hl)|[err He]].
    - destruct Hn as [Hn|Hn].
      + destruct (run_ends o _BpfBytes others l0 w0 ctx run whose H0 Hs objs kp rd n)
          as (m & err & _ & Hm); try done; eauto.
        destruct Hl as (l1 & El & _). intros l. by eapply Hcl.
      + by destruct (reachable_holding o _BpfBytes others l0 w0 objs kp rd Hl ctx _ (Hreach n))
          as [? _]; simplify_eq.
    - exists 0%nat, (Some err). rewrite H0. unfold start.
      by destruct (LoadBPF _ _ l0) as [[b|err'] l1]; simplify_eq/=. }
  exists m, err. split; [done|]. by eapply reachable_ended.
Qed.
