(* ===== verification/SimWorld.v ===== *)
(** * A concrete world for the agent

    Instances of the interfaces the agent's components are written against: a
    metrics library that keeps a list of increments, an API server that keeps
    annotations and reads the patch documents it is sent, and
    [ByteSliceToString] as its documentation has it.  They satisfy the laws of
    [Unix], [Prometheus], [Cluster] and [World], and the theorems about the
    agent are applied to them here; with a client library, the command runs. *)
From S2P Require Import Prelude GoStrings Annotation GoRegexp Lookup GoBinary Metrics GoJson K8s GoErrors Tracer Command.
From S2P Require Import OomKill BpfCoreRead.

(** ** [golang.org/x/sys/unix] *)

Fixpoint before_nul (s : list byte) : gostring :=
  match s with
  | [] => []
  | c :: s => if decide (c = x00) then [] else c :: before_nul s
  end.

#[global] Program Instance sim_unix : Unix := {| ByteSliceToString := before_nul |}.
Next Obligation.
  intros s rest Hs. induction s as [|c s IH]; [done|]. simpl.
  apply not_elem_of_cons in Hs as [Hc Hs]. rewrite decide_False by congruence. by rewrite IH.
Qed.
Next Obligation.
  intros s Hs. induction s as [|c s IH]; [done|]. simpl.
  apply not_elem_of_cons in Hs as [Hc Hs]. rewrite decide_False by congruence. by rewrite IH.
Qed.

(** ** The world *)

Record simw := {
  sw_counted : list entry;
  sw_pods : list Pod + goerror string;
  sw_patches : list patch_request;
  sw_stored : gmap (gostring * gostring) (gmap gostring gostring);
}.

#[global] Program Instance sim_prometheus : Prometheus simw := {|
  count w v ls := occurrences (v, ls) (sw_counted w);
  Inc v ls w := {| sw_counted := (v, ls) :: sw_counted w; sw_pods := sw_pods w;
                   sw_patches := sw_patches w; sw_stored := sw_stored w |};
  MustRegister _ w := Some w;
|}.
Next Obligation.
  intros w v ls v' ls' _. simpl. do 2 case_decide; naive_solver.
Qed.
Next Obligation. by intros ????? [= ->]. Qed.

Definition sim_sent (rq : patch_request)
    (st : gmap (gostring * gostring) (gmap gostring gostring)) (w : simw) : simw := {|
  sw_counted := sw_counted w; sw_pods := sw_pods w;
  sw_patches := sw_patches w ++ [rq]; sw_stored := st |}.

(** The server's side of a patch request. *)
Definition sim_patch (rq : patch_request) (w : simw) : option (goerror string) * simw :=
  let key := (rq_namespace rq, rq_name rq) in
  match rq_type rq, read_annotations (rq_data rq), sw_stored w !! key with
  | MergePatchType, Some m, Some old =>
      (None, sim_sent rq (<[key := m ∪ old]> (sw_stored w)) w)
  | _, _, _ => (Some (Other "rejected"%string), sim_sent rq (sw_stored w) w)
  end.

#[global] Program Instance sim_cluster : Cluster simw (goerror string) := {|
  list_pods _ := sw_pods;
  Patch := sim_patch;
  patches := sw_patches;
  stored w ns n := sw_stored w !! (ns, n);
|}.
Next Obligation.
  intros rq w. simpl. unfold sim_patch. repeat case_match; done.
Qed.
Next Obligation.
  intros rq m w Hm Ht Hd Hok.
  assert (sim_patch rq w = match sw_stored w !! (rq_namespace rq, rq_name rq) with
    | Some old => (None, sim_sent rq
        (<[(rq_namespace rq, rq_name rq) := m ∪ old]> (sw_stored w)) w)
    | None => (Some (Other "rejected"%string), sim_sent rq (sw_stored w) w)
    end) as Hp by (unfold sim_patch; by rewrite Ht, Hd, read_annotations_patch).
  rewrite Hp in *. destruct (sw_stored w !! _) as [old|] eqn:E; [|done].
  exists old. split; [done|]. intros ns n. simpl. case_decide as Hn.
  - destruct Hn as [-> ->]. by rewrite lookup_insert_eq.
  - rewrite lookup_insert_ne; [done|]. intros [= <- <-]. by destruct Hn.
Qed.

#[global] Program Instance sim_world : World simw (goerror string) := {|
  world_prometheus := sim_prometheus; world_cluster := sim_cluster |}.
Solve All Obligations with
  by (intros; simplify_eq/=; unfold sim_patch; simpl; repeat case_match; done).

(** ** An example node *)

Definition example_uid : gostring := bs "2f4c9a1e-77aa-4f0b-9d3c-5b8f1f0c2d11".
Definition example_cid : gostring :=
  bs "0123456789abcdef0123456789abcdef0123456789abcdef0123456789abcdef".

Definition other_pod : Pod := {|
  Namespace := bs "prod"; Name := bs "db-0"; UID := bs "00000000-aaaa-bbbb-cccc-000000000000";
  Annotations := ∅; ContainerStatuses := []; InitContainerStatuses := [];
  EphemeralContainerStatuses := [] |}.

Definition example_pod : Pod := {|
  Namespace := bs "prod"; Name := bs "web-0"; UID := example_uid;
  Annotations := {[ bs "team" := bs "a" ]}; ContainerStatuses := [];
  InitContainerStatuses := [{| ContainerID := bs "containerd://" ++ example_cid |}];
  EphemeralContainerStatuses := [] |}.

Definition example_world : simw := {|
  sw_counted := []; sw_pods := inl [other_pod; example_pod]; sw_patches := [];
  sw_stored := {[ (bs "prod", bs "web-0") := {[ bs "team" := bs "a" ]} ]} |}.

Definition example_metrics : Metrics := {|
  events := events_vec; markedVictims := marked_vec; bindAddr := bs ":8080" |}.

Definition example_tracer : OOMTracer := {|
  nodeName := bs "node-1"; metrics := Some example_metrics;
  victimAnnotationKey := bs "evict-me"; victimAnnotationVal := bs "yes";
  ignoreGlobalOOM := true |}.

Definition example_annotations : gmap gostring gostring := {[ bs "evict-me" := bs "yes" ]}.

(** ** The theorems on the example *)

Ltac ascii_utf8 :=
  repeat first [apply utf8_nil | eapply utf8_rune; [reflexivity|]; cbn [drop]].

Lemma example_annotations_utf8 : utf8_map example_annotations.
Proof. apply map_Forall_singleton. split; ascii_utf8. Defined.

Lemma example_tracer_wf : wf_tracer example_tracer.
Proof. by split_and!. Defined.

Lemma lookup_pod_cgroup_witness :
  LookupPod (bs "kubepods-burstable-pod2f4c9a1e_77aa_4f0b_9d3c_5b8f1f0c2d11.slice")
    [other_pod; example_pod] = Some (pod_ID example_pod).
Proof.
  destruct (lookup_pod_cgroup Burstable example_uid [other_pod; example_pod]) as [H _];
    [reflexivity|exact H].
Defined.

Lemma lookup_container_scope_witness :
  LookupPod (scope_name Containerd example_cid) [other_pod; example_pod] =
    Some (pod_ID example_pod).
Proof.
  destruct (lookup_container_scope Containerd example_cid [other_pod; example_pod]) as [H _];
    [reflexivity|reflexivity|exact H].
Defined.

Definition example_sample : event := {|
  victim_pid := 4242; trigger_pid := 77; victim_comm := cfield 16 (bs "stress");
  trigger_comm := cfield 16 (bs "kworker/u8:3"); totalpages := 65536; global_oom := true;
  names := cfield 128 <$> [bs "cri-containerd.scope"; bs "kubepods.slice"; []; []] |}.

Lemma example_sample_wf : wf_event example_sample.
Proof. constructor; try reflexivity; try (split; vm_compute; done). by repeat constructor. Defined.

Lemma read_event_roundtrip_witness :
  ∃ ev, read_event (encode_event example_sample ++ [x00; x01]) = inl (Some ev) ∧
    VictimPid ev = 4242 ∧ Int8SliceToString (VictimComm ev) = bs "stress" ∧
    Int8SliceToStringSlice (Names ev) =
      Some [bs "cri-containerd.scope"; bs "kubepods.slice"; []; []].
Proof.
  destruct (read_event_roundtrip example_sample [x00; x01] (bs "stress") (bs "kworker/u8:3")
    [bs "cri-containerd.scope"; bs "kubepods.slice"; []; []])
    as (ev & Hr & Hp & _ & _ & _ & Hv & _ & Hn);
    try reflexivity; try by apply (bool_decide_eq_true_1 _).
  - apply example_sample_wf.
  - exists ev. split; [exact Hr|]. split; [exact Hp|]. split; [exact Hv|exact Hn].
Defined.

Lemma metrics_spec_witness :
  ∃ w, NewMetrics (bs " :8080 ") example_world = Some (Some example_metrics, w) ∧
    count (IncEvent (Some example_metrics) (bs "skipped") [] w) events_vec
      [bs "skipped"; bs "none"] = 1%nat.
Proof.
  pose proof (metrics_spec (bs " :8080 ") example_world) as H.
  change (NewMetrics (bs " :8080 ") example_world)
    with (Some (Some example_metrics, example_world)) in H.
  destruct H as (_ & _ & _ & Hc). exists example_world. split; [reflexivity|].
  destruct (Hc (bs "skipped") [] example_world events_vec [bs "skipped"; bs "none"]) as [He _].
  rewrite He. reflexivity.
Defined.

Lemma annotate_pod_spec_witness :
  let w' := (AnnotatePod (error := goerror string) (bs "prod") (bs "web-0") example_annotations
    example_world).2 in
  patches w' = [annotate_request (bs "prod") (bs "web-0") example_annotations] ∧
  stored w' (bs "prod") (bs "web-0") = Some (example_annotations ∪ {[ bs "team" := bs "a" ]}).
Proof.
  pose proof (annotate_pod_spec (error := goerror string) (bs "prod") (bs "web-0") example_annotations
    example_world) as H.
  assert ((AnnotatePod (error := goerror string) (bs "prod") (bs "web-0") example_annotations
    example_world).1 = None) as E by (vm_compute; reflexivity).
  cbv zeta. destruct (AnnotatePod _ _ _ _) as [[[ns n err]|] w'].
  - discriminate E.
  - destruct H as [[Hm _]|(_ & Hp & Hs)].
    + exfalso. exact (map_non_empty_singleton _ _ Hm).
    + split; [exact Hp|]. destruct (Hs example_annotations_utf8) as (old & Ho & Hn).
      change (Some ({[ bs "team" := bs "a" ]} : gmap gostring gostring) = Some old) in Ho.
      injection Ho as <-. specialize (Hn (bs "prod") (bs "web-0")).
      rewrite (decide_True_pi (P := bs "prod" = bs "prod" ∧ bs "web-0" = bs "web-0")
        (conj eq_refl eq_refl)) in Hn. exact Hn.
Defined.

Lemma patch_carries_annotations_witness :
  read_annotations (rq_data (annotate_request (bs "prod") (bs "web-0") example_annotations)) =
    Some example_annotations.
Proof. apply patch_carries_annotations, example_annotations_utf8. Defined.

(** The event of the sample, with the pod's cgroup among its names. *)
Definition example_event_seen : BpfEvent := {|
  VictimPid := 4242; TriggerPid := 77; VictimComm := int8s (cfield 16 (bs "stress"));
  TriggerComm := int8s (cfield 16 (bs "kworker/u8:3")); Totalpages := 65536;
  GlobalOom := false;
  Names := (λ s, int8s (cfield 128 s)) <$>
    [bs "init.scope"; cgroupfs_name example_uid; bs "kubepods"; []] |}.

(** The pod is deleted after the listing: the request is sent, and fails. *)
Definition pod_deleted (w : simw) : simw := {|
  sw_counted := sw_counted w; sw_pods := inl [other_pod]; sw_patches := sw_patches w;
  sw_stored := ∅ |}.

Lemma handle_event_refines_witness :
  let '(out, w') := handle_event_meanwhile pod_deleted example_tracer example_event_seen
    example_world in
  out = Running ∧
  adds (metrics example_tracer) example_world w'
    [failed; identified; captured] [mark_request example_tracer (pod_ID example_pod)].
Proof.
  assert (frames (W := simw) pod_deleted) as Hf by (intros w; by split).
  pose proof (handle_event_refines pod_deleted example_tracer example_event_seen example_world
    example_tracer_wf Hf) as H.
  destruct (handle_event_meanwhile pod_deleted example_tracer example_event_seen example_world)
    as [out w'].
  change (list_pods (nodeName example_tracer) example_world)
    with (@inl (list Pod) (goerror string) [other_pod; example_pod]) in H.
  cbv beta iota zeta in H.
  assert (verdict_for example_tracer (GlobalOom example_event_seen)
    (candidates_of example_event_seen) [other_pod; example_pod] = ToMark (pod_ID example_pod))
    as E by (vm_compute; reflexivity).
  rewrite E in H.
  assert (accepted example_tracer (ToMark (pod_ID example_pod))
    (patch_world example_tracer pod_deleted example_world) = false) as Ea
    by (vm_compute; reflexivity).
  rewrite Ea in H. exact H.
Defined.

(** A run: the same victim twice, while the informer catches up in between. *)
Definition catch_up (w w' : simw) : Prop :=
  sw_counted w' = sw_counted w ∧ sw_patches w' = sw_patches w.

Definition example_reads : list (read_result (goerror string)) :=
  [ErrRead (Other "interrupted"%string); Sample [x00]; Sample (encode_event example_sample);
   ErrClosed (Some Canceled)].

Definition example_cause : goerror string := Canceled.

Definition example_end : simw := (trace example_tracer example_reads example_world).2.

Lemma example_run :
  rtc (step example_tracer catch_up) (Running, example_world)
    (Returned (Some example_cause), example_end).
Proof.
  pose proof (trace_steps example_tracer catch_up example_reads example_world) as H.
  replace (trace example_tracer example_reads example_world)
    with (Returned (Some example_cause), example_end) in H; [exact H|].
  unfold example_end. vm_compute. reflexivity.
Defined.

Lemma metrics_account_witness :
  ∃ pending, balanced example_tracer
    (λ e, if decide (e = captured) then count example_end e.1 e.2 - pending
          else count example_end e.1 e.2)%nat (length (sw_patches example_end)) ∧
    count example_end events_vec [bs "skipped"; bs "no_pod_match"] = 1%nat.
Proof.
  destruct (metrics_account example_tracer example_metrics catch_up example_world example_end
    (Returned (Some example_cause))) as (pending & _ & _ & Hb & _).
  - reflexivity.
  - by split_and!.
  - intros w1 w2 [Hc Hp]. split; [exact Hp|]. intros v ls. simpl. by rewrite Hc.
  - reflexivity.
  - reflexivity.
  - apply example_run.
  - exists pending. split; [exact Hb|vm_compute; reflexivity].
Defined.

(** Three samples: one that does not decode, one whose event names the pod's cgroup and
    one that stands for no pod. *)
Definition marking_sample : event := {|
  victim_pid := 4242; trigger_pid := 77; victim_comm := cfield 16 (bs "stress");
  trigger_comm := cfield 16 (bs "kworker/u8:3"); totalpages := 65536; global_oom := false;
  names := cfield 128 <$> [bs "init.scope"; cgroupfs_name example_uid; bs "kubepods"; []] |}.

Definition marking_reads : list (read_result (goerror string)) :=
  [Sample [x00]; Sample (encode_event marking_sample); Sample (encode_event example_sample)].

Definition marking_end : simw := (trace example_tracer marking_reads example_world).2.

(** The pod is marked once. *)
Lemma requests_justified_witness :
  ∃ hd, handled_run example_tracer catch_up (Running, example_world) hd (Running, marking_end) ∧
    hd.*1 = marking_reads ∧
    sw_patches marking_end = [mark_request example_tracer (pod_ID example_pod)] ∧
    origins example_tracer hd [mark_request example_tracer (pod_ID example_pod)].
Proof.
  destruct (trace_handled_run example_tracer catch_up marking_reads example_world)
    as (hd & Hh & _ & Hall).
  assert (trace example_tracer marking_reads example_world = (Running, marking_end)) as Et
    by (unfold marking_end; vm_compute; reflexivity).
  rewrite Et in Hh, Hall. exists hd. split; [exact Hh|]. split; [exact (Hall eq_refl)|].
  destruct (requests_justified example_tracer catch_up example_world marking_end Running)
    as [Hrun _].
  - apply example_tracer_wf.
  - intros w1 w2 [Hc Hp]. split; [exact Hp|]. intros v ls. simpl. by rewrite Hc.
  - destruct (Hrun hd Hh) as (rqs & Hp & _ & Ho & _).
    assert (sw_patches marking_end = [mark_request example_tracer (pod_ID example_pod)]) as E
      by (vm_compute; reflexivity).
    split; [exact E|].
    assert (rqs = [mark_request example_tracer (pod_ID example_pod)]) as <-
      by (rewrite <- E; symmetry; exact Hp).
    exact Ho.
Defined.

Lemma trace_returns_witness :
  ErrClosed (Some example_cause) ∈ example_reads ∧
  ∃ err w', TraceKernelOOMKills example_tracer None example_reads example_world =
    (Returned err, w').
Proof.
  assert (ErrClosed (Some example_cause) ∈ example_reads) as Hin
    by (do 3 right; left).
  split; [exact Hin|].
  pose proof (trace_returns example_tracer None example_reads example_world) as H.
  destruct (TraceKernelOOMKills example_tracer None example_reads example_world) as [out w'].
  destruct H as (_ & _ & Hc). destruct (Hc _ Hin) as [err ->]. by exists err, w'.
Defined.

(** ** The command *)

(** A client library that connects whenever it is given a kubeconfig. *)
#[global] Instance sim_client : ClientLib (goerror string) := {|
  rest_base := gostring; client := gostring * Z; float32 := Z;
  BuildConfigFromFlags _ path := if decide (path = []) then inr (Other "no config"%string) else inl path;
  NewForConfig base burst _ := inl (base, burst);
  BuildGetPodsAssignedToNodeFunc _ := None;
  WaitForCacheSync _ := true;
|}.

(** What the chart passes with metrics disabled is nothing, and the default serves them. *)
Definition chart_options : options Z :=
  default_options 50 (bs "/root/.kube/config") (bs "node-1").

Example metrics_served_by_default :
  (main id is_canceled chart_options None example_reads example_world).1 =
    (Finished, Some (bs ":8080")).
Proof. vm_compute. reflexivity. Qed.

(** With the chart's dry run the command stops, after it has begun to serve metrics. *)
Example chart_dry_run_stops :
  (main id is_canceled {| kube_config := kube_config chart_options;
     kube_client_qps := 50; kube_client_burst := 100; node_name := bs "node-1";
     print_version := false; metrics_bind_address := bs ":8080";
     victim_annotation := [x22; x22]; ignore_global_oom := false |}
     None example_reads example_world).1 =
    (Fatal (BadAnnotation (InvalidAnnotation [x22; x22])), Some (bs ":8080")).
Proof. vm_compute. reflexivity. Qed.
