(* ===== verification/SimCommand.v ===== *)
(** * Command lines of the example node

    klog with its verbosity flag, whole numbers for rates, and the command lines
    the chart and the README give: what the agent makes of them. *)
From S2P Require Import Prelude GoStrings GoFlag Annotation GoErrors GoBinary Metrics K8s Tracer Command CommandLine Chart SimWorld.

#[global] Instance sim_float : Float64 Z := {| ParseFloat := ParseInt; fifty := 50 |}.

#[global] Instance sim_klog : Klog Z := {|
  klog_flags := [{| flag_name := bs "v"; IsBoolFlag := false;
                    Set_ v _ := ParseInt v |}];
  klog_defaults := 0 |}.

#[global] Instance sim_klog_laws : KlogLaws Z.
Proof.
  constructor; [|constructor]. split; [by apply (bool_decide_eq_true_1 _)|done].
Qed.

Definition sim_env : environment := {|
  HomeDir := bs "/root"; Stat := λ path, bool_decide (path = bs "/root/.kube/config");
  K8S_NODENAME := bs "node-1" |}.

Definition sim_float32 (q : Z) : float32 (error := goerror string) := q.

(** What the chart passes by default. *)
Definition chart_args : list gostring :=
  [bs "--v=0"; bs "--victim_annotation=oom-tracer.alpha.kubernetes.io/evict-me=yes";
   bs "--metrics_bind_address=:8080"].

(** Small numbers are written in full. *)
#[global] Instance sim_helm : Helm := Itoa.

#[global] Instance sim_yaml : Yaml := λ t, if plain t then Some t else None.
#[global] Instance sim_yaml_laws : YamlLaws.
Proof. intros name s Hp. unfold scalar, sim_yaml. by rewrite Hp. Qed.

Example chart_args_default : container_args default_values = Some chart_args.
Proof. vm_compute. reflexivity. Qed.

Definition chart_parsed : options Z :=
  set_metrics_bind_address (bs ":8080")
    (set_victim_annotation (bs "oom-tracer.alpha.kubernetes.io/evict-me=yes") chart_options).

Lemma sim_kubeconfig path : kubeconfig_at sim_env path → path = bs "/root/.kube/config".
Proof.
  intros [[Hh _]|[_ [[_ ->]|[Hs _]]]]; [discriminate Hh|vm_compute; reflexivity|].
  vm_compute in Hs. discriminate Hs.
Qed.

Lemma command_line_spec_witness :
  parse_command_line sim_env chart_args = Parsed (chart_parsed, 0) [].
Proof.
  destruct (command_line_spec (F := Z) (S := Z) (error := goerror string) sim_float32 is_canceled sim_env
    chart_args None example_reads example_world) as ((path & Hk & Hp & _) & _).
  apply sim_kubeconfig in Hk as ->. apply Hp. exists []. split; [|by right].
  change chart_args with (spell (option_setting "v" (bs "0")) ++
    spell (option_setting "victim_annotation" (bs "oom-tracer.alpha.kubernetes.io/evict-me=yes")) ++
    spell (option_setting "metrics_bind_address" (bs ":8080")) ++ []).
  eapply settings_one; [|exact I|].
  { eapply (assigns_klog (bs "v")); [|reflexivity|reflexivity].
    apply (bool_decide_eq_true_1 _). reflexivity. }
  eapply settings_one; [apply assigns_victim_annotation|exact I|].
  eapply settings_one; [apply assigns_metrics_bind_address|exact I|]. apply settings_none.
Defined.

Lemma options_roundtrip_witness :
  Parse formal (render Itoa chart_parsed ++ [bs "--"; bs "more"]) (chart_options, 3) =
    Parsed (chart_parsed, 3) [bs "more"].
Proof.
  apply (options_roundtrip Itoa chart_parsed (chart_options, 3)).
  - reflexivity.
  - vm_compute. by split.
  - by left.
Defined.

(** The names the README gives are not those of the flags: with any of them the agent
    exits with status 2. *)
Example readme_flags_rejected :
  (λ arg, parse_command_line (F := Z) (S := Z) sim_env [arg]) <$>
    [bs "--victim-annotation=a=b"; bs "--metrics-bind-address=:8080"; bs "--kubeconfig=/k"] =
  [Exit 2; Exit 2; Exit 2].
Proof. vm_compute. reflexivity. Qed.

Example help_flag :
  parse_command_line (F := Z) (S := Z) sim_env [bs "--help"] = Exit 0.
Proof. vm_compute. reflexivity. Qed.

(** The whole program on the chart's command lines: with the default values, and for a dry
    run. *)
Definition run_chart (v : values) : option (Z + ending (goerror string) * option gostring) :=
  args ← container_args v;
  Some match oom_tracer (F := Z) (S := Z) sim_float32 is_canceled sim_env args None example_reads
          example_world with
  | inl code => inl code
  | inr (e, served, _) => inr (e, served)
  end.

Definition dry_run_values : values := {|
  logLevel := 2; victimAnnotation := []; dryRun := true; metric_disabled := true;
  metric_host := []; metric_port := 8080; extraArgs := [] |}.

Example chart_runs :
  run_chart default_values = Some (inr (Finished, Some (bs ":8080"))) ∧
  run_chart dry_run_values =
    Some (inr (Fatal (BadAnnotation (InvalidAnnotation [x22; x22])), Some (bs ":8080"))).
Proof. vm_compute. done. Qed.

Lemma chart_spec_witness :
  ∃ args opts, container_args dry_run_values = Some args ∧
    parse_command_line (F := Z) (S := Z) sim_env args = Parsed (opts, 2) [] ∧
    parseAnnotation (victim_annotation opts) = inr (InvalidAnnotation [x22; x22]) ∧
    metrics_bind_address opts = bs ":8080".
Proof.
  destruct (chart_spec (F := Z) (S := Z) sim_float32 is_canceled sim_env dry_run_values 2 None
    example_reads example_world) as (args & Ha & Hp & _ & Hd & _ & Hm).
  - repeat (constructor; [vm_compute; reflexivity|]). constructor.
  - reflexivity.
  - eexists. split; [reflexivity|]. vm_compute. reflexivity.
  - exists args. eexists. split; [exact Ha|]. split; [exact Hp|].
    split; [exact (proj1 (Hd eq_refl))|exact (Hm eq_refl)].
Defined.
