(* ===== verification/SimShutdown.v ===== *)
(** * A run of the process

    The theorems about the goroutines on a concrete run: the example library and
    world, one sample, then SIGTERM, the closing of the reader and the end of
    the tracing function. *)
From S2P Require Import Prelude BpfCoreRead OomKill GoStrings GoErrors Loading GoRegexp Lookup GoBinary Metrics K8s Tracer Command Fairness Shutdown SimWorld.

Definition sim_objs : bpfObjects := {| KprobeOomKillProcess := 8; Events := 9 |}%positive.

Abbreviation sim_close := (closeFn (L := simlib) (E := string) sim_objs 10 11).
Abbreviation sim_proc := (proc simlib simw string).

(** The library once everything is loaded. *)
Definition sim_loaded : simlib :=
  (LoadBPF (E := string) [] (bs "oom_kill_process") (example_lib [])).2.

Lemma sim_load :
  LoadBPF [] (bs "oom_kill_process") (example_lib []) = (inl (11%positive, sim_close), sim_loaded).
Proof. vm_compute. reflexivity. Qed.

(** The process in the loop, with a context and a goroutine in some state. *)
Definition sim_state (ctx : option (goerror string)) (g : goroutine) (c : bool)
    (k : control string) (l : simlib) (w : simw) : sim_proc := {|
  ctx_Err := ctx; bpf := Some (11%positive, sim_close); waiter := g; rd_closed := c; pc := k;
  lib := l; world := w |}.

Definition sim_sample : read_result (goerror string) := Sample (encode_event example_sample).
Definition sim_handled : simw := (handle example_tracer sim_sample example_world).2.
Definition sim_reader_closed : simlib := (Close (E := string) 11%positive sim_loaded).2.

Definition sim_run (n : nat) : sim_proc :=
  match n with
  | 0 => sim_state None Awaiting false Loop sim_loaded example_world
  | 1 => sim_state None Awaiting false Loop sim_loaded sim_handled
  | 2 => sim_state (Some Canceled) Awaiting false Loop sim_loaded sim_handled
  | 3 => sim_state (Some Canceled) CallingClose false Loop sim_loaded sim_handled
  | 4 => sim_state (Some Canceled) Exited true Loop sim_reader_closed sim_handled
  | 5 => sim_state (Some Canceled) Exited true (Deferred (Some Canceled)) sim_reader_closed
           sim_handled
  | _ => sim_state (Some Canceled) Exited true (Ended (Some Canceled))
           (sim_close sim_reader_closed) sim_handled
  end%nat.

Definition sim_whose (n : nat) : actor :=
  match n with
  | 0 | 4 | 5 => Tracing_loop
  | 2 | 3 => Waiter
  | _ => Environment
  end%nat.

Abbreviation sim_step := (pstep (L := simlib) (E := string) example_tracer catch_up).

Lemma sim_steps : infinite_run sim_step sim_run sim_whose.
Proof.
  intros n. destruct n as [|[|[|[|[|[|n]]]]]]; cbn [sim_whose sim_run].
  - apply (loop_read _ _ _ _ _ _ _ _ sim_sample id Running sim_handled);
      [done|apply permitted_id|].
    vm_compute. reflexivity.
  - apply signal.
  - apply waiter_done.
  - exact (waiter_close example_tracer catch_up (Some Canceled) 11 sim_close false Loop
      sim_loaded sim_handled).
  - apply (loop_read _ _ _ _ _ _ _ _ (ErrClosed (Some Canceled)) id (Returned (Some Canceled)));
      [done|apply permitted_id|reflexivity].
  - apply loop_deferred.
  - apply elsewhere. by left.
Qed.

Lemma sim_start : sim_run 0 = start [] None (example_lib []) example_world.
Proof. unfold start. by rewrite sim_load. Qed.

Lemma sim_fair a may :
  a ≠ Environment → (∀ p, may p → enabled sim_step a p) → fair sim_run sim_whose may a.
Proof.
  intros Ha Hmay n. exists (n + 6)%nat. split; [lia|]. right. intros [p Hp]%Hmay.
  rewrite Nat.add_comm in Hp. simpl in Hp. apply Ha. by eapply ended_stuck in Hp.
Qed.

Lemma sim_reached n : rtc (any_step example_tracer catch_up)
  (start [] None (example_lib []) example_world) (sim_run n).
Proof. apply (run_reachable _ _ _ _ _ _ _ _ sim_start sim_steps). Qed.

Lemma shutdown_safe_witness :
  rtc (step example_tracer (λ w w', w' = w ∨ catch_up w w')) (Running, example_world)
    (Returned (Some Canceled), sim_handled) ∧
  cause (L := simlib) (W := simw) example_tracer [] (example_lib []) (Some Canceled)
    (Some Canceled).
Proof.
  destruct (shutdown_safe example_tracer [] catch_up (example_lib []) example_world None
    (sim_run 6)) as (Hr & Hc & _).
  - by left.
  - apply sim_reached.
  - split; [exact Hr|]. by apply Hc.
Defined.

Lemma shutdown_live_witness :
  ∃ m err, pc (sim_run m) = Ended err ∧ opened (lib (sim_run m)) = {[7%positive]}.
Proof.
  destruct (shutdown_live example_tracer [] catch_up (example_lib []) example_world None sim_run
    sim_whose 2) as (m & err & Hm & _ & Ho).
  - by left.
  - apply sim_start.
  - apply sim_steps.
  - by apply sim_fair.
  - apply sim_fair; [done|]. by intros p [_ ?].
  - done.
  - by left.
  - exists m, err. split; [exact Hm|]. apply Ho; [|done].
    destruct m as [|[|[|[|[|[|m]]]]]]; done.
Defined.
