(* ===== verification/EndToEnd.v ===== *)
(** * From kernel memory to the cluster

    The probe and the agent composed: the sample the probe submits for an OOM
    kill makes the agent carry out the verdict for the victim's cgroup path.
    The last part applies the theorem to the example kernel and world: a
    container's kill ends in the one patch request that marks its pod. *)
From S2P Require Import Prelude CTypes BpfTracing BpfCoreRead SimKernel OomKill OomKillCorrect OomKillProps.
From S2P Require Import GoStrings Annotation GoRegexp Lookup GoBinary Metrics GoJson K8s Tracer SimWorld.

(** ** The names of an OOM kill *)

(** The names the agent gets for a path: the first four, 127 bytes of each, absent ones
    empty. *)
Definition path_names (path : list (option (list byte))) : list gostring :=
  (λ s, take 127 (default [] s)) <$> take 4 path.

Lemma name_slots_spec n path :
  name_slots n path =
  (λ s, cfield 128 (default [] s)) <$> (take n path ++ replicate (n - length path) None).
Proof.
  revert path. induction n as [|n IH]; intros [|s path]; [done..| |]; simpl; f_equal.
  - rewrite IH. simpl. by rewrite take_nil, Nat.sub_0_r.
  - apply IH.
Qed.

(** Empty names are not looked up. *)
Lemma named_app_empty candidates n pods :
  named (candidates ++ replicate n []) pods = named candidates pods.
Proof.
  unfold named. induction candidates as [|s candidates IH]; simpl.
  - by induction n.
  - by destruct (_ && _).
Qed.

Lemma verdict_app_empty o g candidates n pods :
  verdict_for o g (candidates ++ replicate n []) pods = verdict_for o g candidates pods.
Proof. unfold verdict_for. by rewrite named_app_empty. Qed.

Lemma kn_path_nul_free lo mem kn path :
  kn_path lo mem kn path → Forall (λ s, x00 ∉ default [] s) path.
Proof.
  induction 1 as [| |kn nm s up path _ _ _ [Hs _] _ _ IH]; constructor; simpl; try done.
  by apply not_elem_of_nil.
Qed.

Lemma cgroup_path_nul_free lo mem cg path :
  cgroup_path lo mem cg path → Forall (λ s, x00 ∉ default [] s) path.
Proof. destruct 1; [constructor|]. by eapply kn_path_nul_free. Qed.

Lemma view_path_nul_free lo mem oc v :
  oom_at lo mem oc v → Forall (λ s, x00 ∉ default [] s) (view_path v).
Proof.
  intros [_ (p & _ & Hv) (m & _ & Hm)]. unfold view_path. destruct (v_victim v) as [tv|].
  - destruct Hv as (_ & _ & [_ _ (css & cg & _ & _ & Hp)]). by eapply cgroup_path_nul_free.
  - destruct (v_memcg v) as [path|]; simpl; [|constructor].
    destruct Hm as (_ & cg & _ & Hp). by eapply cgroup_path_nul_free.
Qed.

Section agent.
Context {U : Unix}.

Lemma candidates_of_go_event e : candidates_of (go_event e) = ByteSliceToString <$> names e.
Proof using.
  unfold candidates_of. simpl. rewrite <- list_fmap_compose.
  apply list_fmap_ext. intros i x _. simpl. by rewrite bytes_of_int8s.
Qed.

Lemma slots_text (path : list (option (list byte))) :
  Forall (λ s, x00 ∉ default [] s) path →
  ByteSliceToString <$> ((λ s, cfield 128 (default [] s)) <$> path) =
  (λ s, take 127 (default [] s)) <$> path.
Proof using.
  intros Hp. rewrite <- list_fmap_compose. apply list_fmap_ext. intros i s Hi. simpl.
  apply ByteSliceToString_cfield; [lia|]. by eapply Forall_lookup_1 in Hp.
Qed.

Lemma candidates_of_slots path e :
  Forall (λ s, x00 ∉ default [] s) path → names e = name_slots 4 path →
  candidates_of (go_event e) = path_names path ++ replicate (4 - length path) [].
Proof using.
  intros Hp Hn. rewrite candidates_of_go_event, Hn, name_slots_spec, slots_text.
  - rewrite fmap_app. unfold path_names. f_equal. by rewrite fmap_replicate.
  - apply Forall_app. split; [by apply Forall_take|].
    apply Forall_replicate. by apply not_elem_of_nil.
Qed.

(** The agent on the sample of a kill: the loop body on its event, whose scope and names
    are those of the kill. *)
Lemma handle_sample {W error} `{HW : World W error} meanwhile o e (w : W) :
  wf_event e →
  handle_meanwhile meanwhile o (Sample (encode_event e)) w =
    handle_event_meanwhile meanwhile o (go_event e) w.
Proof using.
  intros He. cbn [handle_meanwhile]. pose proof (read_event_encoded e [] He) as Hread.
  rewrite app_nil_r in Hread. by rewrite Hread.
Qed.

Lemma verdict_of_kill {K} `{HK : BpfKernel K} o lo mem oc (k : K) v pods :
  oom_at lo mem oc v →
  verdict_for o (GlobalOom (go_event (spec_event k v)))
    (candidates_of (go_event (spec_event k v))) pods =
  verdict_for o (bool_decide (v_memcg v = None)) (path_names (view_path v)) pods.
Proof using.
  intros Hv. rewrite (candidates_of_slots (view_path v)) by (done || by eapply view_path_nul_free).
  by rewrite verdict_app_empty.
Qed.
End agent.

(** C1. End to end: when an OOM kill stays in kernel memory at the probed function's
    argument while the program runs and the ring buffer has room, either shipped program submits one
    sample, and on that sample, with the node's pods listed, the agent goes on
    and does exactly what the verdict says for the kill: its scope is global when
    no memory cgroup is involved, its names are the first four of the cgroup
    path, leaf first, and its counters and its requests are those of the verdict,
    whatever others do to the cluster in the meantime. *)
Theorem end_to_end {K W error} `{HK : BpfKernel K, HL : !BpfKernelLaws K} `{HW : World W error}
    {U : Unix} sp a kenv lo {HO : HasLayout (b_headers (shipped a)) kenv lo}
    mem meantime (k : K) ctx v rec k1 meanwhile o (w : W) pods :
  oc_totalpages lo = oc_totalpages (layout_of a) →
  undisturbed mem meantime k → oom_at lo mem (oc_arg a ctx) v →
  ringbuf_reserve k (sizeof event_t) 0 = (Some rec, k1) →
  wf_tracer o → frames meanwhile → list_pods (nodeName o) w = inl pods →
  ∃ k' sample, kprobe__oom_kill_process sp (shipped a) kenv meantime k ctx = Some (0, k') ∧
    submitted k' = submitted k ++ [sample] ∧
    let d := verdict_for o (bool_decide (v_memcg v = None)) (path_names (view_path v)) pods in
    (handle_meanwhile meanwhile o (Sample sample) w).1 = Running ∧
    adds (metrics o) w (handle_meanwhile meanwhile o (Sample sample) w).2
      (tally d (accepted o d (patch_world o meanwhile w))) (requests_for o d).
Proof.
  intros Hlo Hu Hv Hr wf Hf Hpods.
  assert (u64_at mem (oc_arg a ctx + oc_totalpages (layout_of a)) (v_totalpages v)) as Ht
    by (rewrite <- Hlo; by destruct Hv).
  destruct (probe_run sp a kenv lo mem meantime k ctx v _ rec k1 Hu Hv Ht Hr) as (k' & Hrun & Hsub & _).
  change (set_totalpages _ _) with (spec_event k v) in Hsub.
  exists k', (encode_event (spec_event k v)). split_and!; [done..|].
  cbv zeta. rewrite handle_sample by by eapply wf_spec_event.
  rewrite <- (verdict_of_kill o lo _ _ k v pods Hv). by apply handle_event_verdict.
Qed.

(** ** The example, end to end *)

(** The example kernel's kill, submitted by the x86-64 program, marks the example pod:
    the container's scope names it by its init container. *)
Lemma end_to_end_witness :
  ∃ k' sample,
    kprobe__oom_kill_process example_sparc (shipped amd64)
      VmlinuxX86.vmlinux busy (example_kernel x86_layout 131072) (example_ctx amd64) = Some (0, k') ∧
    sim_ring k' = [sample] ∧
    adds (metrics example_tracer) example_world
      (handle example_tracer (Sample sample) example_world).2
      [applied; identified; captured] [mark_request example_tracer (pod_ID example_pod)].
Proof.
  destruct (end_to_end example_sparc amd64 VmlinuxX86.vmlinux x86_layout
    (kmem (example_kernel x86_layout 131072)) busy
    (example_kernel x86_layout 131072) (example_ctx amd64)
    example_view (junk 568) (sim_ringbuf [] 1 0 (example_kernel x86_layout 131072))
    id example_tracer example_world [other_pod; example_pod])
    as (k' & sample & Hrun & Hsub & _ & Ha).
  - reflexivity.
  - apply busy_undisturbed.
  - apply (example_oom_at (Native amd64)).
  - reflexivity.
  - apply example_tracer_wf.
  - exact frames_id.
  - reflexivity.
  - exists k', sample. split; [exact Hrun|]. split; [exact Hsub|].
    assert (verdict_for example_tracer (bool_decide (v_memcg example_view = None))
      (path_names (view_path example_view)) [other_pod; example_pod] =
      ToMark (pod_ID example_pod)) as E by (vm_compute; reflexivity).
    rewrite E in Ha.
    assert (accepted example_tracer (ToMark (pod_ID example_pod))
      (patch_world example_tracer id example_world) = true) as Ea by (vm_compute; reflexivity).
    rewrite Ea in Ha. exact Ha.
Defined.
