(* ===== verification/System.v ===== *)
(** * The system: kernel, ring buffer and agent over time

    A node while the agent runs: the kernel kills for lack of memory again and
    again, and changes in between and meanwhile; each kill runs the probe to its end
    ([oom_kill_process] is serialised by the kernel's [oom_lock], and a probe run
    is not interrupted by another); the agent reads the samples in the order in
    which they were submitted, whenever it gets to it; the cluster changes under
    it.  [consistent] relates the whole run to the kills: the samples in the ring
    buffer are those of the kills that found room, and the counters and requests
    of the agent are those of the verdicts for them, in order; where the OOM
    situation lasted for the run of its probe, the sample and the verdict are the
    situation's.  [no_kill_lost] says when there is room. *)
From S2P Require Import Prelude CTypes BpfTracing BpfCoreRead RingBuffer OomKill OomKillCorrect OomKillProps.
From S2P Require Import SimKernel GoStrings Annotation GoRegexp Lookup GoBinary Metrics GoJson K8s Tracer SimWorld EndToEnd.

(** A kill, by what the probe saw of it: the OOM situation [v], in the kernel state [k] in
    which the run started, where that lasted for the run; or, where what it reads may
    have changed under it, the sample it made of that. *)
Inductive kill (K : Type) := Steady (k : K) (v : oom_view) | Torn (sample : list byte).
Arguments Steady {K}. Arguments Torn {K}.

Record sys (K W error : Type) := {
  s_kernel : K;
  s_world : W;
  s_outcome : outcome error;
  (** the kills so far that the ring buffer had room for *)
  s_kills : list (kill K);
}.
Arguments s_kernel {K W error}. Arguments s_world {K W error}.
Arguments s_outcome {K W error}. Arguments s_kills {K W error}.

(** The verdict on a kill, on a listing of the pods. *)
Definition verdict_on {U : Unix} (o : OOMTracer) (v : oom_view) (pods : list Pod) : verdict :=
  verdict_for o (bool_decide (v_memcg v = None)) (path_names (view_path v)) pods.

(** On what a sample says. *)
Definition verdict_on_sample {U : Unix} (o : OOMTracer) (sample : list byte) (pods : list Pod)
    : verdict :=
  match read_event sample with
  | inl (Some event) => verdict_for o (GlobalOom event) (candidates_of event) pods
  | _ => Ignored
  end.

Definition verdict_of {K} {U : Unix} (o : OOMTracer) (kl : kill K) (pods : list Pod) : verdict :=
  match kl with
  | Steady _ v => verdict_on o v pods
  | Torn sample => verdict_on_sample o sample pods
  end.

Section system.
Context {K W error : Type} `{HK : BpfKernel K, HL : !BpfKernelLaws K}.
Context {HR : RingBuffer K} {HRL : RingBufferLaws K} `{HW : World W error} {U : Unix}.
Variables (sp : sparc_numbers) (a : arch) (kenv : list (string * ctype)) (lo : layout).
Context {HO : HasLayout (b_headers (shipped a)) kenv lo}.
Variables (o : OOMTracer) (others : W → W → Prop).

(** What else happens in the kernel leaves the ring buffer alone: only the probe writes
    to it. *)
Definition kernel_step (k k' : K) : Prop :=
  submitted k' = submitted k ∧ outstanding k' = outstanding k ∧ released k' = released k.

(** The kills on record after another one from kernel state [k]. *)
Definition record_kill (k : K) (kl : kill K) (kills : list (kill K)) : list (kill K) :=
  match (ringbuf_reserve k (sizeof event_t) 0).1 with
  | Some _ => kills ++ [kl]
  | None => kills
  end.

(** A kill: its victim is chosen, and the probe runs, while the kernel goes on.  What the
    agent reads during the run is what it reads before or after it. *)
Definition kill_step (k : K) (kl : kill K) (k' : K) : Prop :=
  ∃ meantime ctx r, (∀ i, kernel_step (reserved k) (meantime i (reserved k))) ∧
    kprobe__oom_kill_process sp (shipped a) kenv meantime k ctx = Some (r, k') ∧
    match kl with
    | Steady k0 v => k0 = k ∧ ∃ mem, undisturbed mem meantime k ∧ oom_at lo mem (oc_arg a ctx) v
    | Torn sample =>
        is_Some (ringbuf_reserve k (sizeof event_t) 0).1 → submitted k' = submitted k ++ [sample]
    end.

Inductive sys_step : sys K W error → sys K W error → Prop :=
  | sys_kill k w out kills kl k' :
      kill_step k kl k' →
      sys_step
        {| s_kernel := k; s_world := w; s_outcome := out; s_kills := kills |}
        {| s_kernel := k'; s_world := w; s_outcome := out; s_kills := record_kill k kl kills |}
  | sys_kernel k w out kills k' :
      kernel_step k k' →
      sys_step
        {| s_kernel := k; s_world := w; s_outcome := out; s_kills := kills |}
        {| s_kernel := k'; s_world := w; s_outcome := out; s_kills := kills |}
  | sys_sample k w kills sample meanwhile :
      (** the agent reads the next sample and handles it *)
      submitted k !! released k = Some sample →
      permitted others meanwhile →
      sys_step
        {| s_kernel := k; s_world := w; s_outcome := Running; s_kills := kills |}
        {| s_kernel := ringbuf_consume k;
           s_world := (handle_meanwhile meanwhile o (Sample sample) w).2;
           s_outcome := (handle_meanwhile meanwhile o (Sample sample) w).1;
           s_kills := kills |}
  | sys_no_sample k w kills r :
      (** a read fails, or the reader is closed *)
      match r with Sample _ => False | _ => True end →
      sys_step
        {| s_kernel := k; s_world := w; s_outcome := Running; s_kills := kills |}
        {| s_kernel := k; s_world := (handle o r w).2; s_outcome := (handle o r w).1;
           s_kills := kills |}
  | sys_others k w out kills w' :
      others w w' →
      sys_step
        {| s_kernel := k; s_world := w; s_outcome := out; s_kills := kills |}
        {| s_kernel := k; s_world := w'; s_outcome := out; s_kills := kills |}.

(** The sample of a kill. *)
Definition sample_of (kl : kill K) : list byte :=
  match kl with
  | Steady k v => encode_event (spec_event k v)
  | Torn sample => sample
  end.

(** What a kill's sample makes of the agent. *)
Record handled := { h_kill : kill K; h_pods : list Pod; h_ok : bool }.

Definition history (hs : list handled) : list (verdict * bool) :=
  (λ h, (verdict_of o (h_kill h) (h_pods h), h_ok h)) <$> hs.

(** The pods of a handled kill are a listing of the node, if its verdict needs one. *)
Definition listed (h : handled) : Prop :=
  verdict_of o (h_kill h) (h_pods h) = Ignored ∨
  ∃ w, list_pods (W := W) (nodeName o) w = inl (h_pods h).

(** What the agent has counted and requested since world [w0] is that of the verdicts
    on the kills it has read, in order: all of them but, if it has returned because pods
    could not be listed, the last, of which only the capture is counted. *)
Definition accounted (w0 : W) (s : sys K W error) : Prop :=
  ∃ hs last,
    adds (metrics o) w0 (s_world s) (tallies (history hs) ++ last) (requests_of o (history hs)) ∧
    h_kill <$> hs = take (length hs) (s_kills s) ∧ Forall listed hs ∧
    (last = [] ∧ length hs = released (s_kernel s) ∨
     last = [captured] ∧ S (length hs) = released (s_kernel s) ∧
       ∃ err w, s_outcome s = Returned (Some err) ∧ list_pods (W := W) (nodeName o) w = inr err).

(** How many unread events the ring buffer holds. *)
Definition event_capacity : nat := ring_capacity (sizeof event_t).

(** What is known of a kill on record. *)
Definition genuine (kl : kill K) : Prop :=
  match kl with
  | Steady k v => ∃ oc, oom_at lo (kmem k) oc v
  | Torn sample => Z.of_nat (length sample) = sizeof event_t
  end.

(** The invariant of a run that starts in world [w0]. *)
Record consistent (w0 : W) (s : sys K W error) : Prop := {
  con_submitted : submitted (s_kernel s) = sample_of <$> s_kills s;
  con_genuine : Forall genuine (s_kills s);
  con_outstanding : outstanding (s_kernel s) = 0%nat;
  con_released : (released (s_kernel s) <= length (s_kills s))%nat;
  con_room : (length (s_kills s) <= released (s_kernel s) + event_capacity)%nat;
  con_accounted : accounted w0 s;
}.

Hypothesis wf : wf_tracer o.
Hypothesis same_totalpages : oc_totalpages lo = oc_totalpages (layout_of a).
Hypothesis others_frame : ∀ w w', others w w' →
  patches w' = patches w ∧ ∀ v ls, count w' v ls = count w v ls.

(** The probe releases nothing. *)
Lemma released_kill (k k' : K) kl : kill_step k kl k' → released k' = released k.
Proof using HRL.
  clear wf others_frame others HO same_totalpages.
  intros (meantime & ctx & r & Hm & Hp & _). destruct (Hm last_call) as (_ & _ & Hrel).
  pose proof (released_reserve k (sizeof event_t) 0) as Hr.
  rewrite probe_runs in Hp. unfold oom_kill_process, reserved in *.
  crush_match; simplify_eq/=; by rewrite ?released_submit, ?Hrel.
Qed.

(** It submits after what is there. *)
Lemma submitted_kill (k k' : K) kl :
  kill_step k kl k' → ∃ more, submitted k' = submitted k ++ more.
Proof using HL HO.
  clear wf others_frame others same_totalpages.
  intros (meantime & ctx & r & Hm & Hp & _). destruct (Hm last_call) as (Hsub & _ & _).
  destruct (probe_completes sp a kenv lo meantime k ctx) as (k2 & Hp' & Hc).
  rewrite Hp in Hp'. injection Hp' as -> <-. revert Hc. unfold completed.
  destruct (ringbuf_reserve k (sizeof event_t) 0) as [[e|] k1] eqn:Hr; cbn [fst].
  - rewrite bool_decide_eq_true_2 by eauto. intros (_ & _ & _ & s & -> & _). exists [s].
    rewrite Hsub. unfold reserved. rewrite Hr. cbn [snd].
    by destruct (reserve_event k e k1 Hr) as (_ & _ & -> & _).
  - rewrite bool_decide_eq_false_2 by (by intros [??]). intros (_ & _ & ->). exists [].
    by rewrite app_nil_r.
Qed.

(** The probe on a kill: its sample if there is room, and nothing else. *)
Lemma probe_submits (k k' : K) kl kills :
  kill_step k kl k' → submitted k = sample_of <$> kills →
  submitted k' = sample_of <$> record_kill k kl kills ∧
  outstanding k' = outstanding k ∧ released k' = released k ∧
  (is_Some (ringbuf_reserve k (sizeof event_t) 0).1 → genuine kl).
Proof using HL HRL HO same_totalpages.
  clear wf others_frame others. intros Hk Hs. pose proof (released_kill k k' kl Hk) as Hrel.
  destruct Hk as (meantime & ctx & r & Hm & Hp & Hkl). destruct (Hm last_call) as (Hsub & Hout & _).
  destruct (probe_completes sp a kenv lo meantime k ctx) as (k2 & Hp' & Hc).
  rewrite Hp in Hp'. injection Hp' as -> <-. revert Hc. unfold record_kill, completed.
  destruct (ringbuf_reserve k (sizeof event_t) 0) as [[e|] k1] eqn:Hr; cbn [fst].
  2: { rewrite bool_decide_eq_false_2 by (by intros [??]). intros (_ & -> & ->).
       split_and!; [done..|]. by intros [??]. }
  rewrite bool_decide_eq_true_2 by eauto. intros (_ & Ho & Ho' & s & Hs' & Hlen).
  rewrite Ho', Hout, Ho. destruct (reserve_event k e k1 Hr) as (_ & _ & Hsk & _).
  assert (submitted (reserved k) = submitted k) as E by (unfold reserved; by rewrite Hr).
  rewrite fmap_app, <- Hs. destruct kl as [k0 v|sample]; cbn [fmap list_fmap sample_of genuine].
  - destruct Hkl as (-> & mem & Hu & Hv).
    destruct (probe_run sp a kenv lo mem meantime k ctx v (v_totalpages v) e k1)
      as (k2 & Hp' & Hs2 & _); [done|done|rewrite <- same_totalpages; by destruct Hv|done|].
    rewrite Hp in Hp'. injection Hp' as <-. split_and!; [exact Hs2|done..|]. intros _.
    exists (oc_arg a ctx). apply (oom_at_holds mem); [by destruct Hu|done].
  - pose proof (Hkl ltac:(by eexists)) as Hk'. split_and!; [done..|]. intros _.
    rewrite Hk', Hsub, E in Hs'. apply app_inj_tail in Hs' as [_ ->]. exact Hlen.
Qed.

(** Every run of the probe is one of these. *)
Lemma run_kills meantime ctx (k : K) :
  (∀ i, kernel_step (reserved k) (meantime i (reserved k))) →
  ∃ kl k', kprobe__oom_kill_process sp (shipped a) kenv meantime k ctx = Some (0, k') ∧
    kill_step k kl k'.
Proof using HL HO.
  clear wf others_frame others same_totalpages. intros Hm.
  destruct (probe_completes sp a kenv lo meantime k ctx) as (k' & Hp & Hc). revert Hc.
  unfold completed. case_bool_decide as Hroom.
  - intros (_ & _ & _ & s & Hs & _). exists (Torn s), k'. split; [done|].
    exists meantime, ctx, 0. split; [done|]. split; [done|]. intros [e He].
    rewrite Hs. destruct (Hm last_call) as (-> & _). f_equal. unfold reserved.
    destruct (ringbuf_reserve k (sizeof event_t) 0) as [r k1] eqn:Hr. cbn [fst snd] in *.
    subst r. by destruct (reserve_event k e k1 Hr) as (_ & _ & -> & _).
  - intros _. exists (Torn []), k'. split; [done|]. exists meantime, ctx, 0. done.
Qed.

(** A genuine kill's sample has the size of the event. *)
Lemma genuine_length kl : genuine kl → Z.of_nat (length (sample_of kl)) = sizeof event_t.
Proof using HL.
  clear wf others_frame others HO same_totalpages. destruct kl as [k v|s]; [|done].
  intros [oc Hv]. apply (wf_spec_event _ _ k) in Hv. cbn [sample_of].
  by rewrite length_encode by eauto with otdb.
Qed.

(** There is room for the event of a kill exactly below the capacity. *)
Lemma room_for_kill w0 s :
  consistent w0 s →
  is_Some (ringbuf_reserve (s_kernel s) (sizeof event_t) 0).1 ↔
  (length (s_kills s) - released (s_kernel s) < event_capacity)%nat.
Proof using HL HRL.
  clear wf others_frame others HO same_totalpages. intros [Hs Hat Ho _ _ _].
  rewrite room_below_capacity by (done || (unfold unread; rewrite Hs; shelve)).
  { unfold unread. by rewrite length_drop, Hs, length_fmap. }
  Unshelve. apply Forall_drop, Forall_fmap. eapply Forall_impl; [exact Hat|exact genuine_length].
Qed.

(** The agent on the sample of a kill. *)
Lemma sample_verdict kl :
  genuine kl → ∃ event, read_event (sample_of kl) = inl (Some event) ∧
    ∀ pods, verdict_for o (GlobalOom event) (candidates_of event) pods = verdict_of o kl pods.
Proof using HL.
  clear wf others_frame others HO same_totalpages. destruct kl as [k v|s]; cbn [genuine sample_of].
  - intros [oc Hv]. exists (go_event (spec_event k v)). split.
    + pose proof (read_event_encoded (spec_event k v) []) as Hread. rewrite app_nil_r in Hread.
      by eapply Hread, wf_spec_event.
    + intros pods. by eapply verdict_of_kill.
  - intros Hlen. destruct (read_event_long s) as [event Hr]; [change (sizeof event_t) with 568 in Hlen; lia|].
    specialize (Hr (drop 568 s)). rewrite take_drop in Hr. exists event. split; [done|].
    intros pods. cbn [verdict_of]. unfold verdict_on_sample. by rewrite Hr.
Qed.

Lemma handle_kill meanwhile (kl : kill K) (w : W) :
  frames meanwhile → genuine kl →
  (∃ h, h_kill h = kl ∧ listed h ∧
    let '(d, ok) := (verdict_of o (h_kill h) (h_pods h), h_ok h) in
    (handle_meanwhile meanwhile o (Sample (sample_of kl)) w).1 = Running ∧
    adds (metrics o) w (handle_meanwhile meanwhile o (Sample (sample_of kl)) w).2 (tally d ok)
      (requests_for o d)) ∨
  (∃ err, (handle_meanwhile meanwhile o (Sample (sample_of kl)) w).1 = Returned (Some err) ∧
    list_pods (nodeName o) w = inr err) ∧
  adds (metrics o) w (handle_meanwhile meanwhile o (Sample (sample_of kl)) w).2 [captured] [].
Proof using wf HL.
  intros Hf (event & Hr & Hv)%sample_verdict. cbn [handle_meanwhile]. rewrite Hr.
  destruct (handle_event_cases o wf meanwhile event w Hf)
    as [(d & pods & Hd & Hp & Ho & Ha)|(err & Hp & _ & Ho & Ha)]; [left|right].
  - rewrite Hv in Hd. subst d.
    exists {| h_kill := kl; h_pods := pods;
      h_ok := accepted o (verdict_of o kl pods) (patch_world o meanwhile w) |}.
    split; [done|]. split; [|done].
    unfold listed. cbn [h_kill h_pods]. destruct Hp as [Hp|Hp]; [by left|right; eauto].
  - split; [|done]. by exists err.
Qed.

Lemma history_app hs h : history (hs ++ [h]) = history hs ++ history [h].
Proof using. apply fmap_app. Qed.

Lemma tallies_app h1 h2 : tallies (h1 ++ h2) = tallies h1 ++ tallies h2.
Proof using. unfold tallies. by rewrite fmap_app, concat_app. Qed.

Lemma requests_of_app h1 h2 : requests_of o (h1 ++ h2) = requests_of o h1 ++ requests_of o h2.
Proof using. unfold requests_of. by rewrite fmap_app, concat_app. Qed.

(** Reading the next sample. *)
Lemma accounted_sample meanwhile w0 k w kills sample :
  frames meanwhile →
  consistent w0 {| s_kernel := k; s_world := w; s_outcome := Running; s_kills := kills |} →
  submitted k !! released k = Some sample →
  accounted w0 {| s_kernel := ringbuf_consume k;
                  s_world := (handle_meanwhile meanwhile o (Sample sample) w).2;
                  s_outcome := (handle_meanwhile meanwhile o (Sample sample) w).1;
                  s_kills := kills |}.
Proof using wf HL HRL.
  intros Hf [Hsub Hat _ _ _ (hs & last & Ha & Hv & Hl & Hlast)] Hn. unfold accounted.
  cbn [s_kernel s_world s_outcome s_kills] in *.
  destruct (consume_spec k) as (_ & _ & ->).
  destruct Hlast as [[-> Hlen]|(_ & _ & ? & ? & ? & _)]; [|done]. rewrite app_nil_r in Ha.
  rewrite Hsub, list_lookup_fmap in Hn. apply fmap_Some in Hn as (kl & Hk & ->).
  assert (genuine kl) as Hg by (by eapply Forall_lookup_1 in Hat).
  destruct (handle_kill meanwhile kl w Hf Hg) as [(h & <- & Hh & _ & Hadd)|[Hr Hadd]].
  - exists (hs ++ [h]), []. rewrite history_app, tallies_app, requests_of_app, app_nil_r.
    split_and!.
    + eapply adds_trans; [exact Ha|]. unfold tallies, requests_of, history. simpl.
      by rewrite !app_nil_r.
    + rewrite fmap_app, Hv, length_app, Hlen. simpl. rewrite Nat.add_1_r.
      symmetry. by apply take_S_r.
    + by apply Forall_app_2; [|constructor].
    + left. split; [done|]. rewrite length_app. simpl. lia.
  - exists hs, [captured]. split_and!; [|done|done|].
    + rewrite <- (app_nil_r (requests_of o (history hs))). by eapply adds_trans.
    + right. split; [done|]. split; [lia|]. destruct Hr as (err & ? & ?). eauto.
Qed.

(** What is accounted for stays so until the agent reads again. *)
Lemma accounted_same w0 k w out kills k' w' kills' :
  accounted w0 {| s_kernel := k; s_world := w; s_outcome := out; s_kills := kills |} →
  (∃ more, kills' = kills ++ more) → (released k <= length kills)%nat →
  released k' = released k → patches w' = patches w → (∀ v ls, count w' v ls = count w v ls) →
  accounted w0 {| s_kernel := k'; s_world := w'; s_outcome := out; s_kills := kills' |}.
Proof using.
  intros (hs & last & [Hp Hc] & Hv & Hl & Hlast) [more ->] Hle Hk Hp' Hc'. unfold accounted.
  cbn [s_kernel s_world s_outcome s_kills] in *. rewrite Hk.
  exists hs, last. split_and!; [|rewrite take_app_le; [done|]|done|done].
  - split; [congruence|]. intros. by rewrite Hc', Hc.
  - destruct Hlast as [[_ ?]|(_ & ? & _)]; lia.
Qed.

Lemma record_kill_prefix k kl kills : ∃ more, record_kill k kl kills = kills ++ more.
Proof using.
  unfold record_kill. destruct (ringbuf_reserve _ _ _).1; [by eexists|].
  exists []. by rewrite app_nil_r.
Qed.

Lemma consistent_kill w0 k w out kills kl k' :
  consistent w0 {| s_kernel := k; s_world := w; s_outcome := out; s_kills := kills |} →
  kill_step k kl k' →
  consistent w0 {| s_kernel := k'; s_world := w; s_outcome := out;
                   s_kills := record_kill k kl kills |}.
Proof using HL HRL HO same_totalpages.
  clear wf others_frame others. intros Hc Hk. pose proof (room_for_kill _ _ Hc) as Hroom.
  destruct Hc as [Hsub Hat Ho Hle Hrm Hacc]. cbn [s_kernel s_world s_outcome s_kills] in *.
  destruct (probe_submits k k' kl kills Hk Hsub) as (Hs' & Ho' & Hr' & Hg).
  split; cbn [s_kernel s_world s_outcome s_kills]; rewrite ?Hr', ?Ho'; try done.
  - revert Hg. unfold record_kill. destruct (ringbuf_reserve _ _ _).1; [|done]. intros Hg.
    apply Forall_app_2; [done|]. constructor; [apply Hg; by eexists|constructor].
  - destruct (record_kill_prefix k kl kills) as [more ->]. rewrite length_app. lia.
  - unfold record_kill. destruct (ringbuf_reserve _ _ _).1 as [e|]; [|done].
    rewrite length_app. simpl. pose proof (proj1 Hroom ltac:(by eexists)). lia.
  - eapply accounted_same; [exact Hacc|apply record_kill_prefix|done..].
Qed.

Lemma consistent_step w0 s s' : consistent w0 s → sys_step s s' → consistent w0 s'.
Proof using wf HL HRL HO same_totalpages others_frame.
  intros Hc Hs. destruct Hs as [k w out kills kl k' Hk|k w out kills k' (Hsub & Hout & Hrel)
    |k w kills sample meanwhile Hn Hm|k w kills r Hr|k w out kills w' Hw].
  - by apply consistent_kill.
  - destruct Hc as [Hs Hat Ho Hle Hrm Hacc]. cbn [s_kernel s_kills] in *.
    split; cbn [s_kernel s_kills]; rewrite ?Hsub, ?Hout, ?Hrel; try done.
    eapply accounted_same; [exact Hacc|by exists []; rewrite app_nil_r|done..].
  - apply permitted_frames in Hm; [|done].
    pose proof (accounted_sample _ _ _ _ _ _ Hm Hc Hn) as Hacc'.
    destruct Hc as [Hs Hat Ho Hle Hrm Hacc]. cbn [s_kernel s_kills] in *.
    destruct (consume_spec k) as (Hsub & Hout & Hrel).
    split; cbn [s_kernel s_kills]; rewrite ?Hsub, ?Hout, ?Hrel; try done; [|lia].
    apply lookup_lt_Some in Hn. rewrite Hs, length_fmap in Hn. lia.
  - destruct Hc as [Hs Hat Ho Hle Hrm Hacc]. split; [done..|].
    destruct Hacc as (hs & last & Ha & Hvs & Hl & Hlast). exists hs, last.
    destruct r as [raw|ctx|err]; [done| |done]. split_and!; try done.
    simpl in *. destruct Hlast as [[-> Hlen]|(_ & _ & ? & ? & ? & _)]; [by left|done].
  - destruct Hc as [Hs Hat Ho Hle Hrm Hacc]. split; [done..|].
    destruct (others_frame _ _ Hw) as [Hp' Hc'].
    eapply accounted_same; [exact Hacc|by exists []; rewrite app_nil_r|done..].
Qed.

(** A node whose agent has just attached the probe. *)
Definition sys_start (k0 : K) (w0 : W) : sys K W error :=
  {| s_kernel := k0; s_world := w0; s_outcome := Running; s_kills := [] |}.

(** An empty ring buffer. *)
Definition fresh (k0 : K) : Prop :=
  submitted k0 = [] ∧ outstanding k0 = 0%nat ∧ released k0 = 0%nat.

Lemma consistent_start k0 w0 : fresh k0 → consistent w0 (sys_start k0 w0).
Proof using.
  intros (Hs & Ho & Hr). split; cbn [sys_start s_kernel s_kills]; rewrite ?Hs, ?Ho, ?Hr; try done.
  - simpl. lia.
  - exists [], []. split; [apply adds_nothing|]. split; [done|]. split; [constructor|]. by left.
Qed.

Lemma reachable_consistent k0 w0 s :
  fresh k0 → rtc sys_step (sys_start k0 w0) s → consistent w0 s.
Proof using wf HL HRL HO same_totalpages others_frame.
  intros Hf%(consistent_start _ w0) Hr.
  induction Hr as [|s1 s2 s3 Hs _ IH]; [done|]. apply IH. by eapply consistent_step.
Qed.
End system.

(** C4. When kills are lost.  In every run of a node that starts with an empty ring
    buffer, at most 29127 events are unread at any time; the probe records the next
    kill if fewer are, and drops it if as many are: an agent that is no further
    behind than that misses no kill, whatever happens in between.  This is about
    every run of the probe: whatever registers it is called with and whatever else
    the kernel does meanwhile, the run is one of the node's kills, as long as
    nobody else uses the ring buffer. *)
Theorem no_kill_lost {K W error} `{HK : BpfKernel K, HL : !BpfKernelLaws K}
    {HR : RingBuffer K} {HRL : RingBufferLaws K} `{HW : World W error}
    {U : Unix} sp a kenv lo {HO : HasLayout (b_headers (shipped a)) kenv lo} o others
    (k0 : K) (w0 : W) s :
  oc_totalpages lo = oc_totalpages (layout_of a) → wf_tracer o →
  (∀ w w', others w w' → patches w' = patches w ∧ ∀ v ls, count w' v ls = count w v ls) →
  fresh k0 →
  rtc (sys_step sp a kenv lo o others) (sys_start k0 w0) s →
  let unread := (length (s_kills s) - released (s_kernel s))%nat in
  (Z.of_nat unread <= 29127) ∧
  (∀ kl k', kill_step sp a kenv lo (s_kernel s) kl k' →
    record_kill (s_kernel s) kl (s_kills s) =
      (if Z.of_nat unread <? 29127 then s_kills s ++ [kl] else s_kills s) ∧
    submitted k' = sample_of <$> record_kill (s_kernel s) kl (s_kills s)) ∧
  ∀ meantime ctx, (∀ i, kernel_step (reserved (s_kernel s)) (meantime i (reserved (s_kernel s)))) →
    ∃ kl k', kprobe__oom_kill_process sp (shipped a) kenv meantime (s_kernel s) ctx = Some (0, k') ∧
      kill_step sp a kenv lo (s_kernel s) kl k'.
Proof.
  intros Htp wf Hothers H0 Hr unread.
  pose proof (reachable_consistent sp a kenv lo o others wf Htp Hothers k0 w0 s H0 Hr) as Hc.
  assert (Z.of_nat event_capacity = 29127) as Hcap by (vm_compute; reflexivity).
  pose proof (room_for_kill lo o w0 s Hc) as Hroom.
  destruct Hc as [Hsub _ _ Hle Hrm _]. split; [lia|]. split.
  - intros kl k' Hk. split.
    + unfold record_kill. destruct (Z.ltb_spec (Z.of_nat unread) 29127) as [Hlt|Hge].
      * by destruct (proj2 Hroom ltac:(lia)) as [e ->].
      * destruct (ringbuf_reserve _ _ _).1 as [e|]; [|done].
        pose proof (proj1 Hroom ltac:(by eexists)). lia.
    + by apply (probe_submits sp a kenv lo Htp (s_kernel s) k' kl (s_kills s) Hk Hsub).
  - intros meantime ctx Hm. by apply (run_kills sp a kenv lo).
Qed.

(** ** The example node *)

Lemma catch_up_frame w w' :
  catch_up w w' → patches w' = patches w ∧ ∀ v ls, count w' v ls = count w v ls.
Proof. intros [Hc Hp]. split; [exact Hp|]. intros v ls. simpl. by rewrite Hc. Qed.

Lemma busy_kernel_step i :
  kernel_step (reserved (example_kernel x86_layout 131072))
    (busy i (reserved (example_kernel x86_layout 131072))).
Proof. split; [reflexivity|]. split; reflexivity. Qed.

(** The probe on the one kill of the example kernel. *)
Lemma example_kill :
  ∃ k', kill_step example_sparc amd64 VmlinuxX86.vmlinux x86_layout
      (example_kernel x86_layout 131072) (Steady (example_kernel x86_layout 131072) example_view) k' ∧
    submitted k' = [sample_of (Steady (example_kernel x86_layout 131072) example_view)] ∧
    released k' = 0%nat.
Proof.
  destruct (run_kills example_sparc amd64 VmlinuxX86.vmlinux x86_layout busy (example_ctx amd64)
    (example_kernel x86_layout 131072) busy_kernel_step) as (_ & k' & Hrun & _).
  assert (kill_step example_sparc amd64 VmlinuxX86.vmlinux x86_layout
      (example_kernel x86_layout 131072) (Steady (example_kernel x86_layout 131072) example_view) k')
    as Hk.
  { exists busy, (example_ctx amd64), 0. split; [exact busy_kernel_step|].
    split; [exact Hrun|]. split; [reflexivity|].
    exists (kmem (example_kernel x86_layout 131072)).
    split; [apply busy_undisturbed|apply (example_oom_at (Native amd64))]. }
  exists k'. split; [exact Hk|].
  destruct (probe_submits example_sparc amd64 VmlinuxX86.vmlinux x86_layout eq_refl _ _ _ [] Hk eq_refl)
    as (Hs & _ & Hr & _). exact (conj Hs Hr).
Qed.

(** The first kill is recorded. *)
Lemma no_kill_lost_witness :
  ∃ k', kill_step example_sparc amd64 VmlinuxX86.vmlinux x86_layout
      (example_kernel x86_layout 131072) (Steady (example_kernel x86_layout 131072) example_view) k' ∧
    submitted k' = sample_of <$> [Steady (example_kernel x86_layout 131072) example_view].
Proof.
  destruct example_kill as (k' & Hk & _ & _). exists k'. split; [exact Hk|].
  destruct (no_kill_lost example_sparc amd64 VmlinuxX86.vmlinux x86_layout example_tracer catch_up
    (example_kernel x86_layout 131072) example_world
    (sys_start (example_kernel x86_layout 131072) example_world)) as (_ & Hrec & _).
  - reflexivity.
  - exact example_tracer_wf.
  - exact catch_up_frame.
  - done.
  - apply rtc_refl.
  - destruct (Hrec _ k' Hk) as [Heq Hs]. rewrite Hs, Heq. reflexivity.
Defined.
