(* ===== verification/Node.v ===== *)
(** * The node: kernel, process and cluster

    The composition of [System] and [Shutdown]: the kernel with its ring buffer, the
    goroutines of the agent with the resources they hold, and the cluster take
    their steps in any order.  The two halves meet in two places: a kill runs the
    probe only while the link that attaches it is open, and a read that returns a
    sample returns the next one of the ring buffer and releases it.  Every run of
    the node is a run of both, so that what is shown about each holds of the
    whole; what needs both is shown here: no kill goes unnoticed while the
    tracing function runs, and with a fair scheduler each one that is recorded is
    handled. *)
From S2P Require Import Prelude CTypes BpfTracing BpfCoreRead RingBuffer OomKill OomKillCorrect OomKillProps.
From S2P Require Import GoStrings Annotation GoRegexp Lookup GoBinary Metrics GoJson K8s GoErrors Loading Tracer Command Fairness Shutdown System.

Record node (K L W E : Type) := {
  n_kernel : K;
  n_proc : proc L W E;
  (** the kills on record, as in [sys] *)
  n_kills : list (kill K);
}.
Arguments n_kernel {K L W E}. Arguments n_proc {K L W E}. Arguments n_kills {K L W E}.

(** Whose step it is: the kernel's, the loop's with a read that gives a sample or finds
    the reader closed, the loop's with a read that fails, or another of the process. *)
Inductive node_actor := InKernel | Reads | Fails | Process (a : actor).

Definition process_actor (na : node_actor) : actor :=
  match na with InKernel => Environment | Reads | Fails => Tracing_loop | Process a => a end.

Section node.
Context {K L W E : Type} `{HK : BpfKernel K, HL : !BpfKernelLaws K}.
Context {HR : RingBuffer K} {HRL : RingBufferLaws K} `{EL : EbpfLaws L E}.
Context `{HW : World W (goerror E)} {U : Unix}.
Variables (sp : sparc_numbers) (a : arch) (kenv : list (string * ctype)) (lo : layout).
Context {HO : HasLayout (b_headers (shipped a)) kenv lo}.
Variables (o : OOMTracer) (others : W → W → Prop).
(** the link that attaches the probe *)
Variable kp : resource.

(** The process after a read that returned [r], and its handling. *)
Definition after_read (meanwhile : W → W) (r : read_result (goerror E)) (p : proc L W E) :
    proc L W E := {|
  ctx_Err := ctx_Err p; bpf := bpf p; waiter := waiter p; rd_closed := rd_closed p;
  pc := match (handle_meanwhile meanwhile o r (world p)).1 with
        | Running => Loop
        | Returned err => Deferred err
        end;
  lib := lib p; world := (handle_meanwhile meanwhile o r (world p)).2 |}.

Inductive node_step : node_actor → node K L W E → node K L W E → Prop :=
  | node_kill k p kills kl k' :
      kp ∈ opened (lib p) → kill_step sp a kenv lo k kl k' →
      node_step InKernel {| n_kernel := k; n_proc := p; n_kills := kills |}
        {| n_kernel := k'; n_proc := p; n_kills := record_kill k kl kills |}
  | node_kernel k p kills k' :
      kernel_step k k' →
      node_step InKernel {| n_kernel := k; n_proc := p; n_kills := kills |}
        {| n_kernel := k'; n_proc := p; n_kills := kills |}
  | node_sample k p kills sample meanwhile :
      pc p = Loop → rd_closed p = false → submitted k !! released k = Some sample →
      permitted others meanwhile →
      node_step Reads {| n_kernel := k; n_proc := p; n_kills := kills |}
        {| n_kernel := ringbuf_consume k; n_proc := after_read meanwhile (Sample sample) p;
           n_kills := kills |}
  | node_closed k p kills :
      pc p = Loop → waiter p ≠ Awaiting →
      node_step Reads {| n_kernel := k; n_proc := p; n_kills := kills |}
        {| n_kernel := k; n_proc := after_read id (ErrClosed (ctx_Err p)) p; n_kills := kills |}
  | node_error k p kills err :
      pc p = Loop → rd_closed p = false →
      node_step Fails {| n_kernel := k; n_proc := p; n_kills := kills |}
        {| n_kernel := k; n_proc := after_read id (ErrRead err) p; n_kills := kills |}
  | node_process act k p kills p' :
      pstep o others act p p' → act ≠ Tracing_loop ∨ pc p ≠ Loop →
      node_step (Process act) {| n_kernel := k; n_proc := p; n_kills := kills |}
        {| n_kernel := k; n_proc := p'; n_kills := kills |}.

Definition any_node_step (nd nd' : node K L W E) : Prop := ∃ na, node_step na nd nd'.

(** ** The two projections *)

Definition sys_of (nd : node K L W E) : sys K W (goerror E) := {|
  s_kernel := n_kernel nd; s_world := world (n_proc nd);
  s_outcome := outcome_of (pc (n_proc nd)); s_kills := n_kills nd |}.

Lemma after_read_step meanwhile r p :
  pc p = Loop → readable p r → permitted others meanwhile →
  pstep o others Tracing_loop p (after_read meanwhile r p).
Proof using.
  destruct p as [ctx b g c k l w]. simpl. intros -> Hr Hm. unfold after_read. simpl.
  destruct (handle_meanwhile meanwhile o r w) as [out w'] eqn:Hh.
  by apply loop_read with r meanwhile.
Qed.

Lemma outcome_after_read meanwhile r p :
  outcome_of (pc (after_read meanwhile r p)) = (handle_meanwhile meanwhile o r (world p)).1.
Proof using. simpl. by destruct (handle_meanwhile meanwhile o r (world p)).1. Qed.

(** Each step is one of the process, where the kernel's are stutters. *)
Lemma node_pstep na nd nd' :
  node_step na nd nd' → pstep o others (process_actor na) (n_proc nd) (n_proc nd').
Proof using.
  clear. assert (∀ p : proc L W E, pstep o others Environment p p) as Hstutter.
  { intros []. apply elsewhere. by left. }
  pose proof (permitted_id others) as Hid.
  intros Hs. destruct Hs; cbn [process_actor n_proc]; auto; by apply after_read_step.
Qed.

(** Each step is one of the system, or none of it where only the goroutines are
    concerned. *)
Lemma node_sys_step na nd nd' :
  node_step na nd nd' →
  sys_of nd' = sys_of nd ∨ sys_step sp a kenv lo o others (sys_of nd) (sys_of nd').
Proof using.
  intros Hs. destruct Hs as [k p kills kl k' _ Hk|k p kills k' Hk|k p kills sample meanwhile Hl _ Hn Hm
    |k p kills Hl _|k p kills err Hl _|act k p kills p' Hp Hact];
    unfold sys_of; cbn [n_kernel n_proc n_kills]; rewrite ?outcome_after_read.
  - right. by apply sys_kill.
  - right. by apply sys_kernel.
  - right. rewrite Hl. by apply sys_sample.
  - right. rewrite Hl. by apply (sys_no_sample _ _ _ _ _ _ _ _ _ (ErrClosed (ctx_Err p))).
  - right. rewrite Hl. by apply (sys_no_sample _ _ _ _ _ _ _ _ _ (ErrRead err)).
  - destruct Hp as [ctx b g c l w r out w' Hr Hh|ctx rd close g c err l w|ctx b c k0 l w
      |ctx rd close c k0 l w|ctx b g c k0 l w|ctx b g c k0 l w w' [->|Hw]];
      cbn [pc world outcome_of] in *; [|by left..|by right; apply sys_others].
    by destruct Hact.
Qed.

(** ** Runs *)

Variables (_BpfBytes : list byte) (l0 : L) (w0 : W) (ctx : option (goerror E)).
Variables (k0 : K) (objs : bpfObjects) (rd : resource).
Hypothesis Hl : loaded _BpfBytes l0 objs kp rd.

(** The node when [LoadBPF] has returned. *)
Definition node_start : node K L W E :=
  {| n_kernel := k0; n_proc := start _BpfBytes ctx l0 w0; n_kills := [] |}.

Lemma node_start_proc :
  ctx_Err (n_proc node_start) = ctx ∧ pc (n_proc node_start) = Loop ∧
  world (n_proc node_start) = w0.
Proof using Hl.
  clear others EL. destruct Hl as (l1 & El & _). unfold node_start, start. cbn [n_proc].
  by rewrite El.
Qed.

Lemma node_reachable_proc nd :
  rtc any_node_step node_start nd →
  rtc (any_step o others) (start _BpfBytes ctx l0 w0) (n_proc nd).
Proof using.
  change (start _ _ _ _) with (n_proc node_start).
  intros Hr. induction Hr as [|nd1 nd2 nd3 [na Hs] _ IH]; [done|].
  eapply rtc_l; [|exact IH]. exists (process_actor na). by apply node_pstep.
Qed.

Lemma node_reachable_sys nd :
  rtc any_node_step node_start nd →
  rtc (sys_step sp a kenv lo o others) (sys_start k0 w0) (sys_of nd).
Proof using Hl.
  clear EL. assert (sys_start k0 w0 = sys_of node_start) as ->.
  { destruct node_start_proc as (_ & Hpc & Hw). unfold sys_start, sys_of.
    by rewrite Hpc, Hw. }
  intros Hr. induction Hr as [|nd1 nd2 nd3 [na Hs] _ IH]; [done|].
  destruct (node_sys_step _ _ _ Hs) as [<-|Hs']; [done|]. by eapply rtc_l.
Qed.

(** The loop has handled just the samples released, in order. *)
Definition handles (hd : list (read_result (goerror E) * W)) (nd : node K L W E) : Prop :=
  handled_run o others (outcome_of (pc (n_proc node_start)), world (n_proc node_start)) hd
    (outcome_of (pc (n_proc nd)), world (n_proc nd)) ∧
  samples_of hd = take (released (n_kernel nd)) (submitted (n_kernel nd)) ∧
  (released (n_kernel nd) <= length (submitted (n_kernel nd)))%nat.

Lemma handles_read hd k k' p kills kills' meanwhile r :
  handles hd {| n_kernel := k; n_proc := p; n_kills := kills |} → pc p = Loop →
  permitted others meanwhile →
  submitted k' = submitted k →
  match r with
  | Sample raw => submitted k !! released k = Some raw ∧ released k' = S (released k)
  | _ => released k' = released k
  end →
  handles (hd ++ [(r, world p)])
    {| n_kernel := k'; n_proc := after_read meanwhile r p; n_kills := kills' |}.
Proof using.
  unfold handles. cbn [n_kernel n_proc]. intros (Hh & Hs & Hle) Hpc Hm Hsub Hr.
  rewrite Hpc in Hh. cbn [outcome_of] in Hh. split; [|].
  - rewrite outcome_after_read. unfold after_read. cbn [world].
    pose proof (handled_read o others _ hd meanwhile r (world p) Hh Hm) as Hh'.
    by destruct (handle_meanwhile meanwhile o r (world p)).
  - unfold samples_of in *. rewrite omap_app, Hs, Hsub.
    destruct r as [raw|err|err]; [destruct Hr as [Hnext ->]|rewrite Hr, app_nil_r; by split..].
    split; [by erewrite take_S_r|]. apply lookup_lt_Some in Hnext. lia.
Qed.

Lemma handles_grows hd k k' p kills kills' :
  handles hd {| n_kernel := k; n_proc := p; n_kills := kills |} →
  (∃ more, submitted k' = submitted k ++ more) → released k' = released k →
  handles hd {| n_kernel := k'; n_proc := p; n_kills := kills' |}.
Proof using.
  unfold handles. cbn [n_kernel n_proc]. intros (Hh & Hs & Hle) [more ->] ->.
  split; [done|]. rewrite take_app_le, length_app by done. split; [done|lia].
Qed.

Lemma handles_step hd na nd nd' :
  handles hd nd → node_step na nd nd' → ∃ hd', handles hd' nd'.
Proof using HRL HO HL.
  clear EL. intros Hh Hs.
  destruct Hs as [k p kills kl k' _ Hk|k p kills k' (Hsub & _ & Hrel)|k p kills sample meanwhile Hlp _ Hn Hm
    |k p kills Hlp _|k p kills err Hlp _|act k p kills p' Hp Hact].
  - exists hd. eapply handles_grows; [exact Hh|by eapply submitted_kill|by eapply released_kill].
  - exists hd. eapply handles_grows; [exact Hh|exists []; by rewrite app_nil_r|done].
  - destruct (consume_spec k) as (Hsub & _ & Hrel).
    eexists. by apply (handles_read _ _ _ _ _ _ _ (Sample sample) Hh Hlp Hm Hsub).
  - eexists. by apply (handles_read _ _ _ _ _ _ _ (ErrClosed (ctx_Err p)) Hh Hlp (permitted_id others)).
  - eexists. by apply (handles_read _ _ _ _ _ _ _ (ErrRead err) Hh Hlp (permitted_id others)).
  - exists hd. revert Hh. unfold handles.
    destruct Hp as [ctx' b g c l w r out w' Hr Hh'|ctx' rd' close g c err l w|ctx' b c k1 l w
      |ctx' rd' close c k1 l w|ctx' b g c k1 l w|ctx' b g c k1 l w w' Hw];
      cbn [n_kernel n_proc pc world outcome_of] in *; try done.
    + by destruct Hact.
    + destruct Hw as [->|Hw]; [done|]. intros (Hh & Hrest). split; [|done].
      by eapply handled_others.
Qed.

Lemma node_handles nd :
  fresh k0 → rtc any_node_step node_start nd → ∃ hd, handles hd nd.
Proof using HRL HO HL.
  clear EL. intros (Hs & _ & Hr). revert nd. apply rtc_ind_r.
  - exists []. unfold handles. split; [constructor|]. unfold node_start. cbn [n_kernel].
    rewrite Hs, Hr. by split.
  - intros nd nd' _ [na Hstep] [hd IH]. by eapply handles_step.
Qed.

Section invariants.
Hypothesis Hctx : ctx = None ∨ ctx = Some Canceled.
Hypothesis wf : wf_tracer o.
Hypothesis same_totalpages : oc_totalpages lo = oc_totalpages (layout_of a).
Hypothesis others_frame : ∀ w w', others w w' →
  patches w' = patches w ∧ ∀ v ls, count w' v ls = count w v ls.
Hypothesis Hfresh : fresh k0.

(** What holds of every reachable node, from both sides. *)
Record node_invariant (nd : node K L W E) : Prop := {
  ni_consistent : consistent lo o w0 (sys_of nd);
  ni_process : invariant o _BpfBytes others l0 w0 (n_proc nd);
  ni_held : bpf (n_proc nd) = Some (rd, closeFn objs kp rd) ∧
    holding l0 (n_proc nd) rd (resources objs kp rd);
}.

Lemma node_reachable_invariant nd : rtc any_node_step node_start nd → node_invariant nd.
Proof using Type*.
  intros Hr. pose proof (node_reachable_proc nd Hr) as Hp. split.
  - eapply reachable_consistent; [done..|]. by apply node_reachable_sys.
  - by eapply reachable_invariant.
  - by eapply reachable_holding.
Qed.

(** ** Progress *)

(** Kills stay on record, and what is released stays so. *)
Lemma node_step_grows na nd nd' :
  node_step na nd nd' →
  (∃ more, n_kills nd' = n_kills nd ++ more) ∧
  (released (n_kernel nd) <= released (n_kernel nd'))%nat.
Proof using HRL.
  clear -HRL. intros Hs. assert (∀ kills : list (kill K), ∃ more, kills = kills ++ more)
    as Hnil by (intros kills; exists []; by rewrite app_nil_r).
  destruct Hs as [k p kills kl k' _ Hk|k p kills k' Hk|k p kills sample meanwhile Hp _ Hn _
    |k p kills _ _|k p kills err _ _|act k p kills p' _ _]; cbn [n_kills n_kernel];
    try by (split; [auto|]).
  - split; [apply record_kill_prefix|]. apply released_kill in Hk. lia.
  - split; [auto|]. destruct Hk as (_ & _ & ->). lia.
  - split; [auto|]. destruct (consume_spec k) as (_ & _ & ->). lia.
Qed.

(** Kill [i] is on record and waits for the loop to read it; and it waits no more. *)
Definition pending (i : nat) (nd : node K L W E) : Prop :=
  rtc any_node_step node_start nd ∧ pc (n_proc nd) = Loop ∧
  (i < length (n_kills nd))%nat ∧ (released (n_kernel nd) <= i)%nat.
Definition settled (i : nat) (nd : node K L W E) : Prop :=
  pc (n_proc nd) ≠ Loop ∨ (i < released (n_kernel nd))%nat.

(** How many reads it is away. *)
Definition distance (i : nat) (nd : node K L W E) : nat := (i - released (n_kernel nd))%nat.

Lemma pending_readable i nd : pending i nd → enabled node_step Reads nd.
Proof using Type*.
  intros (Hr & Hpc & Hi & Hrel). destruct (node_reachable_invariant nd Hr) as [Hc Hp [Hb _]].
  destruct nd as [k p kills]. cbn [n_kernel n_proc n_kills] in *.
  destruct (rd_closed p) eqn:Hcl.
  - eexists. apply node_closed; [done|]. destruct (inv_closed _ _ _ _ _ _ Hp Hcl) as [-> _]. done.
  - destruct (lookup_lt_is_Some_2 (sample_of <$> kills) (released k)) as [sample Hs].
    { rewrite length_fmap. lia. }
    eexists. apply (node_sample _ _ _ sample id); [done..| |apply permitted_id].
    destruct Hc as [Hsub _ _ _ _ _]. cbn [sys_of s_kernel s_kills n_kernel n_kills] in Hsub.
    by rewrite Hsub.
Qed.

(** Any step leaves it pending, no further away, or settles it. *)
Lemma pending_step i na nd nd' :
  pending i nd → node_step na nd nd' →
  settled i nd' ∨ pending i nd' ∧ (distance i nd' <= distance i nd)%nat.
Proof using HRL.
  clear -HRL. intros (Hr & Hpc & Hi & Hrel) Hs.
  destruct (node_step_grows _ _ _ Hs) as [[more Hk] Hle].
  destruct (decide (i < released (n_kernel nd'))%nat) as [?|Hnr]; [by left; right|].
  destruct (pc (n_proc nd')) as [|err|err] eqn:Hpc'; [|by left; left; rewrite Hpc'..].
  right. unfold pending, distance. split_and!; [|done|rewrite Hk, length_app; lia|lia..].
  eapply rtc_r; [exact Hr|]. by exists na.
Qed.

(** A read brings it closer. *)
Lemma pending_read i nd nd' :
  pending i nd → node_step Reads nd nd' →
  settled i nd' ∨ pending i nd' ∧ (distance i nd' < distance i nd)%nat.
Proof using HRL.
  clear -HRL. intros Hp Hs. destruct (pending_step _ _ _ _ Hp Hs) as [?|[Hp' Hle]]; [by left|].
  destruct Hp as (_ & _ & _ & Hrel), Hp' as (Hr' & Hpc' & Hi' & Hrel').
  inversion Hs as [| |k p kills sample meanwhile Hpc Hcl Hn Hm|k p kills Hpc Hw| |]; subst;
    cbn [n_kernel n_proc n_kills] in *.
  - right. split; [by split_and!|]. unfold distance in *. cbn [n_kernel] in *.
    destruct (consume_spec k) as (_ & _ & Hrc). rewrite Hrc in *. lia.
  - by left; left.
Qed.

Section progress.
Variables (run : nat → node K L W E) (whose : nat → node_actor).
Hypothesis run_start : run 0%nat = node_start.
Hypothesis steps : infinite_run node_step run whose.
Hypothesis fair_reads : fair run whose (enabled node_step Reads) Reads.

Lemma run_reaches n : rtc any_node_step node_start (run n).
Proof using run_start steps.
  rewrite <- run_start. induction n as [|n IH]; [done|]. eapply rtc_r; [exact IH|].
  eexists. apply steps.
Qed.

(** A kill on record does not wait for ever. *)
Lemma pending_settled i : leads_to run (pending i) (settled i).
Proof using Type*.
  apply (leads_to_measure _ (distance i)). intros d.
  apply (ensures _ _ _ steps (enabled node_step Reads) Reads); [done| | |].
  - intros nd [Hp _]. by eapply pending_readable.
  - intros nd nd' [Hp Hd] Hs. subst d. by apply pending_read.
  - intros na nd nd' [Hp Hd] Hs. subst d.
    destruct (pending_step _ _ _ _ Hp Hs) as [?|[Hp' Hle]]; [by right; left|].
    apply Nat.lt_eq_cases in Hle as [?|?]; [by right; right|by left].
Qed.

(** The process along the run. *)
Abbreviation prun := (λ n, n_proc (run n)).
Abbreviation pwhose := (λ n, process_actor (whose n)).

Lemma prun_steps : infinite_run (pstep o others) prun pwhose.
Proof using steps. intros n. by apply node_pstep, steps. Qed.

(** A step of the process that is not a read is one of the node. *)
Lemma process_enabled act nd :
  act ≠ Tracing_loop ∨ pc (n_proc nd) ≠ Loop → enabled (pstep o others) act (n_proc nd) →
  enabled node_step (Process act) nd.
Proof using. clear. intros Ha [p' Hp]. destruct nd. eexists. by apply node_process. Qed.

Hypothesis fair_waiter :
  fair run whose (enabled node_step (Process Waiter)) (Process Waiter).
Hypothesis fair_deferred :
  fair run whose (enabled node_step (Process Tracing_loop)) (Process Tracing_loop).

Lemma prun_fair_waiter : fair prun pwhose (can_wait o others) Waiter.
Proof using fair_waiter.
  clear -fair_waiter. intros n. destruct (fair_waiter n) as (m & Hm & [Hw|Hno]); exists m.
  - split; [done|]. left. by rewrite Hw.
  - split; [done|]. right. intros He. apply Hno. apply process_enabled; [by left|done].
Qed.

(** When the loop has nothing to read and the reader is open, it is blocked. *)
Lemma not_readable_blocked n :
  ¬ enabled node_step Reads (run n) → pc (n_proc (run n)) = Loop →
  ¬ unblocked o others (n_proc (run n)).
Proof using Type*.
  intros Hno Hpc [Hcl _]. apply Hno.
  destruct (node_reachable_invariant _ (run_reaches n)) as [_ Hp _].
  destruct (run n) as [k p kills]. cbn [n_proc] in *. eexists. apply node_closed; [done|].
  by destruct (inv_closed _ _ _ _ _ _ Hp (Hcl Hpc)) as [-> _].
Qed.

Lemma prun_fair_loop : fair prun pwhose (unblocked o others) Tracing_loop.
Proof using Type*.
  intros n. destruct (fair_deferred n) as (m & Hm & [Hw|Hno]).
  { exists m. split; [done|]. left. by rewrite Hw. }
  assert (∀ j, {pc (n_proc (run j)) = Loop} + {pc (n_proc (run j)) ≠ Loop}) as Hdec.
  { intros j. by destruct (pc (n_proc (run j))); [left|right..]. }
  destruct (Hdec m) as [Hpc|Hpc].
  2: { exists m. split; [done|]. right. intros [_ He]. apply Hno, process_enabled; [by right|done]. }
  destruct (fair_reads m) as (m' & Hm' & [Hw|Hno']).
  { exists m'. split; [lia|]. left. by rewrite Hw. }
  destruct (Hdec m') as [Hpc'|Hpc'].
  { exists m'. split; [lia|]. right. by apply not_readable_blocked. }
  assert (∀ nd : node K L W E, Decision (pc (n_proc nd) = Loop)) as Hd.
  { intros nd. by destruct (pc (n_proc nd)); [left|right..]. }
  destruct (change run (λ nd, pc (n_proc nd) = Loop) m m') as (j & Hj & Hin & Hout); [done..|].
  exists j. split; [lia|]. left. pose proof (prun_steps j) as Hs. cbn beta in Hs.
  revert Hs Hin Hout. generalize (n_proc (run j)), (n_proc (run (S j))), (pwhose j). clear.
  intros p p' act Hs Hin Hout. by destruct Hs.
Qed.

(** A cancelled context ends the function. *)
Lemma node_run_ends n :
  (∀ l : L, (Close (E := E) rd l).1 = None) → ctx_Err (n_proc (run n)) ≠ None →
  ∃ m err, (n <= m)%nat ∧ pc (n_proc (run m)) = Ended err.
Proof using Type*.
  intros Hc Hn.
  apply (run_ends o _BpfBytes others l0 w0 ctx prun pwhose) with objs kp rd; try done.
  - by rewrite run_start.
  - apply prun_steps.
  - apply prun_fair_waiter.
  - apply prun_fair_loop.
Qed.
End progress.
End invariants.
End node.

(** C2. A whole run of the node.  Start the agent on an empty ring buffer and let kills
    (each with its probe run while the kernel goes on, as long as the probe is
    attached), other changes of the kernel, reads that give the next
    sample, fail or find the reader closed, the steps of the goroutines, signals
    and changes of the cluster happen in any order.  Then every state is one of a
    run of the system and one of a run of the process.  The probe is attached
    until the tracing function has ended, so that until then no kill passes it
    by; once it has ended and everything closed, it is not.  The ring buffer has
    received one sample for each kill on record, in order and nothing else; and
    what the agent has counted and requested is exactly, kill by kill and in
    order, what the verdicts for the kills it has read samples of say, each on a
    listing of the node's pods, and for the OOM situation if that lasted while the
    probe ran, for what the sample says otherwise: no kill is handled twice or out of order, and none
    that it has read is left out but, when it stops because pods could not be
    listed, the last. *)
Theorem node_spec {K L W E} `{HK : BpfKernel K, HL : !BpfKernelLaws K}
    {HR : RingBuffer K} {HRL : RingBufferLaws K} `{EL : EbpfLaws L E}
    `{HW : World W (goerror E)} {U : Unix} sp a kenv lo
    {HO : HasLayout (b_headers (shipped a)) kenv lo} o others
    _BpfBytes (l0 : L) (w0 : W) ctx (k0 : K) objs kp rd nd :
  ctx = None ∨ ctx = Some Canceled →
  wf_tracer o → oc_totalpages lo = oc_totalpages (layout_of a) →
  (∀ w w', others w w' → patches w' = patches w ∧ ∀ v ls, count w' v ls = count w v ls) →
  fresh k0 → loaded _BpfBytes l0 objs kp rd →
  rtc (any_node_step sp a kenv lo o others kp) (node_start _BpfBytes l0 w0 ctx k0) nd →
  rtc (sys_step sp a kenv lo o others) (sys_start k0 w0) (sys_of nd) ∧
  rtc (any_step o others) (start _BpfBytes ctx l0 w0) (n_proc nd) ∧
  match pc (n_proc nd) with
  | Ended err => cause (W := W) o _BpfBytes l0 (ctx_Err (n_proc nd)) err ∧
      (closable (L := L) (E := E) (resources objs kp rd) → (kp ∉ opened (lib (n_proc nd))))
  | _ => kp ∈ opened (lib (n_proc nd))
  end ∧
  submitted (n_kernel nd) = sample_of <$> n_kills nd ∧
  (released (n_kernel nd) <= length (n_kills nd) <= released (n_kernel nd) + event_capacity)%nat ∧
  accounted o w0 (sys_of nd).
Proof.
  intros Hctx wf Htp Hothers H0 Hl Hr.
  pose proof (node_reachable_proc sp a kenv lo o others kp _BpfBytes l0 w0 ctx k0 nd Hr) as Hrp.
  pose proof (node_reachable_sys sp a kenv lo o others kp _BpfBytes l0 w0 ctx k0 objs rd Hl nd Hr)
    as Hrs.
  destruct (node_reachable_invariant sp a kenv lo o others kp _BpfBytes l0 w0 ctx k0 objs rd Hl
    Hctx wf Htp Hothers H0 nd Hr) as [[Hsub _ _ Hle Hrm Hacc] Hp [_ Hh]].
  split; [done|]. split; [done|]. split; [|done].
  pose proof (holding_attached _BpfBytes l0 objs kp rd Hl (n_proc nd) Hh) as Hat.
  pose proof (inv_cause _ _ _ _ _ _ Hp) as Hcause. unfold holding in Hh.
  destruct (pc (n_proc nd)) as [|err|err]; [by apply Hat..|].
  split; [by apply Hcause|]. intros Hcl. destruct Hh as [_ Hh]. rewrite Hh by done.
  destruct Hl as (l1 & _ & _ & Hd & _). unfold resources in Hd. set_solver.
Qed.

(** C11. Liveness of the node.  Along every infinite run whose scheduler is fair to reads
    that find a sample or the reader closed (reads do not fail for ever while
    there is something to read): every kill on record is read and handled in the
    end, whatever happens in between, unless the tracing function returns.  And if
    it is also fair to the waiting goroutine and to the deferred call, and the
    reader closes without an error, then once the context is cancelled the function
    does return, with the outcome of [shutdown_live]. *)
Theorem node_live {K L W E} `{HK : BpfKernel K, HL : !BpfKernelLaws K}
    {HR : RingBuffer K} {HRL : RingBufferLaws K} `{EL : EbpfLaws L E}
    `{HW : World W (goerror E)} {U : Unix} sp a kenv lo
    {HO : HasLayout (b_headers (shipped a)) kenv lo} o others
    _BpfBytes (l0 : L) (w0 : W) ctx (k0 : K) objs kp rd
    (run : nat → node K L W E) (whose : nat → node_actor) :
  ctx = None ∨ ctx = Some Canceled →
  wf_tracer o → oc_totalpages lo = oc_totalpages (layout_of a) →
  (∀ w w', others w w' → patches w' = patches w ∧ ∀ v ls, count w' v ls = count w v ls) →
  fresh k0 → loaded _BpfBytes l0 objs kp rd →
  let step := node_step sp a kenv lo o others kp in
  run 0%nat = node_start _BpfBytes l0 w0 ctx k0 →
  infinite_run step run whose →
  fair run whose (enabled step Reads) Reads →
  (∀ n i, (i < length (n_kills (run n)))%nat →
    ∃ m, (n <= m)%nat ∧ accounted o w0 (sys_of (run m)) ∧
      (pc (n_proc (run m)) ≠ Loop ∨ (i < released (n_kernel (run m)))%nat)) ∧
  (fair run whose (enabled step (Process Waiter)) (Process Waiter) →
   fair run whose (enabled step (Process Tracing_loop)) (Process Tracing_loop) →
   (∀ l : L, (Close (E := E) rd l).1 = None) →
   ∀ n, ctx_Err (n_proc (run n)) ≠ None →
     ∃ m err, (n <= m)%nat ∧ pc (n_proc (run m)) = Ended err ∧
       ended_well o _BpfBytes l0 (n_proc (run m)) err).
Proof.
  intros Hctx wf Htp Hothers H0 Hl step Hstart Hs Hfr.
  pose proof (run_reaches sp a kenv lo o others kp _BpfBytes l0 w0 ctx k0 run whose Hstart Hs)
    as Hreach.
  split.
  - intros n i Hi.
    assert (∃ m, (n <= m)%nat ∧ settled i (run m)) as (m & Hm & Hset).
    { destruct (pc (n_proc (run n))) as [|err|err] eqn:Hpc;
        [|by exists n; split; [lia|]; left; rewrite Hpc..].
      destruct (decide (i < released (n_kernel (run n)))%nat) as [Hlt|Hge].
      { exists n. split; [lia|]. by right. }
      apply (pending_settled sp a kenv lo o others kp _BpfBytes l0 w0 ctx k0 objs rd Hl Hctx wf
        Htp Hothers H0 run whose Hstart Hs Hfr i n).
      split_and!; [apply Hreach|done|done|lia]. }
    exists m. split; [done|]. split; [|exact Hset].
    by destruct (node_reachable_invariant sp a kenv lo o others kp _BpfBytes l0 w0 ctx k0 objs rd Hl
      Hctx wf Htp Hothers H0 (run m) (Hreach m)) as [[] _ _].
  - intros Hfw Hfd Hcl n Hn.
    destruct (node_run_ends sp a kenv lo o others kp _BpfBytes l0 w0 ctx k0 objs rd Hl Hctx wf
      Htp Hothers H0 run whose Hstart Hs Hfr Hfw Hfd n Hcl Hn) as (m & err & Hm & He).
    exists m, err. split; [done|]. split; [done|].
    eapply reachable_ended; [done| |done]. by eapply node_reachable_proc, Hreach.
Qed.
