(* ===== verification/Agent.v ===== *)
(** * The agent: from the command line to its last step

    [CommandLine], [Command] and [Node] composed: the program is launched with
    its arguments, ends before it traces anything or goes on as the process of a
    node, and stops when the tracing function has returned. *)
From S2P Require Import Prelude CTypes BpfTracing BpfCoreRead RingBuffer OomKill OomKillCorrect OomKillProps.
From S2P Require Import GoStrings GoFlag Annotation GoRegexp Lookup GoBinary Metrics GoJson K8s GoErrors Loading Tracer Command CommandLine Fairness Shutdown System Node.

(** The program: the flag package has ended it with a status, it waits for the informers'
    caches, it has stopped, or it traces, with the metrics served on an address, if any. *)
Inductive agent (K L W E : Type) :=
  | FlagExit (status : Z) (w : W)
  | Waiting (w : W)
  | Stopped (e : ending (goerror E)) (served : option gostring) (w : W)
  | Serving (o : OOMTracer) (served : option gostring) (nd : node K L W E).
Arguments FlagExit {K L W E}. Arguments Waiting {K L W E}. Arguments Stopped {K L W E}. Arguments Serving {K L W E}.

Definition agent_world {K L W E} (ag : agent K L W E) : W :=
  match ag with FlagExit _ w | Waiting w | Stopped _ _ w => w | Serving _ _ nd => world (n_proc nd) end.

Section agent.
Context {K L W E F S : Type} `{HK : BpfKernel K, HL : !BpfKernelLaws K}.
Context {HR : RingBuffer K} {HRL : RingBufferLaws K} `{EL : EbpfLaws L E}.
Context `{HW : World W (goerror E)} {U : Unix} `{CL : ClientLib (goerror E)}.
Context `{FL : Float64 F} `{KL : KlogLaws S}.
Variables (sp : sparc_numbers) (a : arch) (kenv : list (string * ctype)) (lo : layout).
Context {HO : HasLayout (b_headers (shipped a)) kenv lo}.
Variables (others : W → W → Prop) (kp : resource).
Variables (to_float32 : F → float32) (_BpfBytes : list byte).

(** The program is started with [args] in the environment [env]; the kernel, the eBPF
    library, the context and the cluster are as they are then. *)
Definition launch (env : environment) (args : list gostring) (k0 : K) (l0 : L)
    (ctx : option (goerror E)) (w0 : W) : agent K L W E :=
  match parse_command_line (S := S) env args with
  | Exit status => FlagExit status w0
  | Parsed (opts, _) _ =>
      match start_up to_float32 opts w0 with
      | (inl Connecting, _, w) => Waiting w
      | (inl e, served, w) => Stopped e served w
      | (inr o, served, w) => Serving o served (node_start _BpfBytes l0 w ctx k0)
      end
  end.

Inductive agent_step : agent K L W E → agent K L W E → Prop :=
  | agent_node o served nd nd' :
      any_node_step sp a kenv lo o others kp nd nd' →
      agent_step (Serving o served nd) (Serving o served nd')
  | agent_stop o served nd err :
      pc (n_proc nd) = Ended err →
      agent_step (Serving o served nd)
        (Stopped (finish is_canceled (Returned err)) served (world (n_proc nd))).

(** While it traces, the program runs as its node does. *)
Lemma agent_serving o served nd nd' :
  rtc (any_node_step sp a kenv lo o others kp) nd nd' →
  rtc agent_step (Serving o served nd) (Serving o served nd').
Proof using.
  induction 1 as [|nd1 nd2 nd3 Hs _ IH]; [done|]. eapply rtc_l; [|exact IH].
  by apply agent_node.
Qed.

Variables (env : environment) (args : list gostring).
Variables (k0 : K) (l0 : L) (ctx : option (goerror E)) (w0 : W).

(** The node of the options, started by [main] in world [w1] and run to [nd]. *)
Definition traced (opts : options F) (o : OOMTracer) (served : option gostring) (w1 : W)
    (nd : node K L W E) : Prop :=
  start_up to_float32 opts w0 = (inr o, served, w1) ∧
  rtc (any_node_step sp a kenv lo o others kp) (node_start _BpfBytes l0 w1 ctx k0) nd.

(** Where the program can be. *)
Definition agent_invariant (ag : agent K L W E) : Prop :=
  match ag with
  | FlagExit status w => parse_command_line (F := F) (S := S) env args = Exit status ∧ w = w0
  | Waiting w =>
      ∃ (opts : options F) (ks : S) rest served,
        parse_command_line env args = Parsed (opts, ks) rest ∧
        start_up to_float32 opts w0 = (inl Connecting, served, w)
  | Stopped e served w =>
      ∃ (opts : options F) (ks : S) rest, parse_command_line env args = Parsed (opts, ks) rest ∧
        (e ≠ Connecting ∧ start_up to_float32 opts w0 = (inl e, served, w) ∨
         ∃ o w1 nd err, traced opts o served w1 nd ∧ pc (n_proc nd) = Ended err ∧
           e = finish is_canceled (Returned err) ∧ w = world (n_proc nd))
  | Serving o served nd =>
      ∃ (opts : options F) (ks : S) rest w1, parse_command_line env args = Parsed (opts, ks) rest ∧
        traced opts o served w1 nd
  end.

Lemma agent_reachable ag :
  rtc agent_step (launch env args k0 l0 ctx w0) ag → agent_invariant ag.
Proof using.
  revert ag. apply rtc_ind_r.
  - unfold launch, agent_invariant.
    destruct (parse_command_line env args) as [[opts ks] rest|status] eqn:Hp; [|by split].
    destruct (start_up to_float32 opts w0) as [[[e|o] served] w] eqn:Hs.
    + destruct e; [|..|exists opts, ks, rest, served; by split|];
        exists opts, ks, rest; (split; [done|]); by left.
    + exists opts, ks, rest, w. split; [done|]. by split.
  - intros ag ag' _ Hs. destruct Hs as [o served nd nd' Hn|o served nd err Hpc];
      intros (opts & ks & rest & w1 & Hp & Ht).
    + exists opts, ks, rest, w1. split; [done|]. destruct Ht as [Hst Hr]. split; [done|].
      by eapply rtc_r.
    + exists opts, ks, rest. split; [done|]. right. by exists o, w1, nd, err.
Qed.

Hypothesis Hctx : ctx = None ∨ ctx = Some Canceled.
Hypothesis same_totalpages : oc_totalpages lo = oc_totalpages (layout_of a).
Hypothesis others_frame : ∀ w w', others w w' →
  patches w' = patches w ∧ ∀ v ls, count w' v ls = count w v ls.
Hypothesis Hfresh : fresh k0.

(** The tracer of the options, the accounts of its node, and its requests. *)
Lemma traced_tracer opts o served w1 nd :
  traced opts o served w1 nd →
  tracer_of to_float32 opts w0 o w1 ∧ served = asked_address opts.
Proof using.
  intros [Hs _]. pose proof (start_up_spec to_float32 opts w0) as Hst. by rewrite Hs in Hst.
Qed.

Lemma traced_accounted opts o served w1 nd objs rd :
  traced opts o served w1 nd → loaded _BpfBytes l0 objs kp rd → accounted o w1 (sys_of nd).
Proof using Type*.
  intros Ht Hl. destruct (traced_tracer _ _ _ _ _ Ht) as [wf%tracer_of_wf _].
  by destruct (node_reachable_invariant sp a kenv lo o others kp _BpfBytes l0 w1 ctx k0 objs rd Hl
    Hctx wf same_totalpages others_frame Hfresh nd (proj2 Ht)) as [[] _ _].
Qed.

Lemma traced_proc opts o served w1 nd :
  traced opts o served w1 nd → invariant o _BpfBytes others l0 w1 (n_proc nd).
Proof using Hctx.
  intros [_ Hr%node_reachable_proc]. by eapply reachable_invariant.
Qed.

Lemma traced_requests opts o served w1 nd :
  traced opts o served w1 nd →
  ∃ hd, handles o others _BpfBytes l0 w1 ctx k0 hd nd ∧
    requested w0 o hd (world (n_proc nd)).
Proof using HL HO HRL Hfresh others_frame.
  intros Ht. destruct (traced_tracer _ _ _ _ _ Ht) as [Htr _].
  destruct (node_handles sp a kenv lo o others kp _BpfBytes l0 w1 ctx k0 nd Hfresh (proj2 Ht))
    as [hd Hh]. exists hd. split; [exact Hh|]. destruct Hh as [Hh _].
  eapply requested_run; [|exact others_frame|].
  - exact Htr.
  - assert (world (n_proc (node_start (K := K) _BpfBytes l0 w1 ctx k0)) = w1) as Ew.
    { unfold node_start, start. by destruct (LoadBPF _BpfBytes _ l0) as [[]]. }
    rewrite Ew in Hh. exact Hh.
Qed.
End agent.

(** C3. The whole program, from its command line on.  Whatever happens after its start,
    it is in one of four states.  The flag package has ended it with status 0 or
    2, before anything else happened.  Or it waits for the caches of its client, as
    the options of the command line make it do.  Or it has stopped: before it traced
    anything, in the way [main] does with the options of the command line and
    without a request; or after tracing, for the cause the tracing function
    returned for.  Or it traces on a node that was started with just these
    options, its metrics served where they ask.  Where it traces, or has, its counters
    and requests are those of the verdicts for the kills it has read, if its program
    was loaded; it has handled just the samples that the ring buffer has released, in
    order; and the requests it has sent are exactly those that these reads asked for,
    each justified by its own read and the options of the command line. *)
Theorem agent_spec {K L W E F S} `{HK : BpfKernel K, HL : !BpfKernelLaws K}
    {HR : RingBuffer K} {HRL : RingBufferLaws K} `{EL : EbpfLaws L E}
    `{HW : World W (goerror E)} {U : Unix} `{CL : ClientLib (goerror E)}
    `{FL : Float64 F} `{KL : KlogLaws S} sp a kenv lo
    {HO : HasLayout (b_headers (shipped a)) kenv lo} others kp to_float32
    _BpfBytes env args (k0 : K) (l0 : L) ctx (w0 : W) (ag : agent K L W E) :
  ctx = None ∨ ctx = Some Canceled →
  oc_totalpages lo = oc_totalpages (layout_of a) →
  (∀ w w', others w w' → patches w' = patches w ∧ ∀ v ls, count w' v ls = count w v ls) →
  fresh k0 →
  rtc (agent_step sp a kenv lo others kp)
    (launch (F := F) (S := S) to_float32 _BpfBytes env args k0 l0 ctx w0) ag →
  let parse := parse_command_line (F := F) (S := S) env args in
  let runs opts o served nd := asked opts o ∧ served = asked_address opts ∧ ∃ w1,
    traced sp a kenv lo others kp to_float32 _BpfBytes k0 l0 ctx w0 opts o served w1 nd ∧
    (∀ objs rd, loaded _BpfBytes l0 objs kp rd → accounted o w1 (sys_of nd)) ∧
    ∃ hd, handles o others _BpfBytes l0 w1 ctx k0 hd nd ∧
      requested w0 o hd (world (n_proc nd)) in
  match ag with
  | FlagExit status w => (status = 0 ∨ status = 2) ∧ parse = Exit status ∧ w = w0
  | Waiting w => ∃ opts ks rest, parse = Parsed (opts, ks) rest ∧ to_run opts ∧
      CreateClients (connection to_float32 opts) = None ∧ w = w0
  | Stopped e served w =>
      ∃ opts ks rest, parse = Parsed (opts, ks) rest ∧
        (e ≠ Connecting ∧ start_up to_float32 opts w0 = (inl e, served, w) ∧
           patches w = patches w0 ∨
         ∃ o nd err, runs opts o served nd ∧ w = world (n_proc nd) ∧
           e = finish is_canceled (Returned err) ∧
           cause (W := W) o _BpfBytes l0 (ctx_Err (n_proc nd)) err)
  | Serving o served nd => ∃ opts ks rest, parse = Parsed (opts, ks) rest ∧ runs opts o served nd
  end.
Proof.
  intros Hctx Htp Hothers Hfresh Hr parse runs.
  pose proof (agent_reachable sp a kenv lo others kp to_float32 _BpfBytes env args k0 l0 ctx w0 ag Hr)
    as Hi.
  assert (Hruns : ∀ opts o served w1 nd,
    traced sp a kenv lo others kp to_float32 _BpfBytes k0 l0 ctx w0 opts o served w1 nd →
    runs opts o served nd).
  { intros opts o served w1 nd Ht.
    destruct (traced_tracer _ _ _ _ _ _ _ _ _ _ _ _ _ _ _ _ _ Ht) as [(_ & Ha & _) Hs].
    split; [exact Ha|]. split; [exact Hs|]. exists w1. split; [exact Ht|]. split.
    - intros objs rd Hl. by eapply traced_accounted.
    - by eapply traced_requests. }
  destruct ag as [status w|w|e served w|o served nd]; cbn [agent_invariant] in Hi.
  - destruct Hi as [Hp ->]. split; [|done]. by eapply (flag_syntax formal args _ formal_ok).
  - destruct Hi as (opts & ks & rest & served & Hp & Hs). exists opts, ks, rest. split; [done|].
    pose proof (start_up_spec to_float32 opts w0) as Hst. rewrite Hs in Hst.
    by destruct Hst as (? & ? & _ & ?).
  - destruct Hi as (opts & ks & rest & Hp & [[He Hs]|(o & w1 & nd & err & Ht & Hpc & -> & ->)]);
      exists opts, ks, rest; (split; [done|]).
    + left. split; [done|]. split; [done|]. pose proof (start_up_spec to_float32 opts w0) as Hst.
      rewrite Hs in Hst. unfold start_spec in Hst. repeat case_match; naive_solver.
    + right. exists o, nd, err. split; [by eapply Hruns|]. split; [done|]. split; [done|].
      pose proof (traced_proc sp a kenv lo others kp to_float32 _BpfBytes k0 l0 ctx w0 Hctx
        _ _ _ _ _ Ht) as Hinv.
      apply (inv_cause _ _ _ _ _ _ Hinv). by rewrite Hpc.
  - destruct Hi as (opts & ks & rest & w1 & Hp & Ht). exists opts, ks, rest.
    split; [done|by eapply Hruns].
Qed.
