(* ===== verification/SimNode.v ===== *)
(** * A run of the node

    The theorems of [Node] and [Agent] on a concrete run: a kill on the example kernel,
    the agent reads its event and marks the pod, then SIGTERM, the closing of the
    reader and the end of the tracing function; and the program that was started
    for it. *)
From S2P Require Import Prelude CTypes BpfTracing BpfCoreRead RingBuffer SimKernel OomKill OomKillCorrect OomKillProps.
From S2P Require Import GoStrings Annotation GoRegexp Lookup GoBinary Metrics GoJson K8s GoErrors Loading Tracer Command Fairness Shutdown SimWorld SimShutdown EndToEnd System Node.
From S2P Require Import GoFlag CommandLine SimCommand Agent.
From S2P Require VmlinuxX86.

Abbreviation kernel0 := (example_kernel x86_layout 131072).
Definition kernel0_sample : list byte := sample_of (Steady kernel0 example_view).
Definition world1 : simw := (handle example_tracer (Sample (error := goerror string) kernel0_sample) example_world).2.

Lemma kernel0_handled :
  handle example_tracer (Sample (error := goerror string) kernel0_sample) example_world =
  (Running, world1).
Proof. vm_compute. reflexivity. Qed.

Lemma sim_is_loaded : loaded (L := simlib) (E := string) [] (example_lib []) sim_objs 10 11.
Proof.
  exists sim_loaded. split; [apply sim_load|].
  split; [vm_compute; reflexivity|]. split; [by apply (bool_decide_eq_true_1 _)|].
  vm_compute. reflexivity.
Qed.

Abbreviation sim_node := (node sim simlib simw string).
Abbreviation sim_node_step := (node_step (L := simlib) (E := string) example_sparc amd64
  VmlinuxX86.vmlinux x86_layout example_tracer catch_up 10%positive).

Section run.
(** The kernel after the probe. *)
Variable kernel1 : sim.
Hypothesis killed : kill_step example_sparc amd64 VmlinuxX86.vmlinux x86_layout kernel0
  (Steady kernel0 example_view) kernel1.
Hypothesis submits : submitted kernel1 = [kernel0_sample].
Hypothesis releases : released kernel1 = 0%nat.

Definition node_at (k : sim) (p : sim_proc) (kills : list (kill sim)) : sim_node :=
  {| n_kernel := k; n_proc := p; n_kills := kills |}.

Abbreviation kernel2 := (ringbuf_consume kernel1).
Abbreviation kills1 := [Steady kernel0 example_view].

Definition node_run (n : nat) : sim_node :=
  match n with
  | 0 => node_at kernel0 (sim_state None Awaiting false Loop sim_loaded example_world) []
  | 1 => node_at kernel1 (sim_state None Awaiting false Loop sim_loaded example_world) kills1
  | 2 => node_at kernel2 (sim_state None Awaiting false Loop sim_loaded world1) kills1
  | 3 => node_at kernel2 (sim_state (Some Canceled) Awaiting false Loop sim_loaded world1) kills1
  | 4 => node_at kernel2 (sim_state (Some Canceled) CallingClose false Loop sim_loaded world1)
           kills1
  | 5 => node_at kernel2 (sim_state (Some Canceled) Exited true Loop sim_reader_closed world1)
           kills1
  | 6 => node_at kernel2 (sim_state (Some Canceled) Exited true (Deferred (Some Canceled))
           sim_reader_closed world1) kills1
  | _ => node_at kernel2 (sim_state (Some Canceled) Exited true (Ended (Some Canceled))
           (sim_close sim_reader_closed) world1) kills1
  end%nat.

Definition node_whose (n : nat) : node_actor :=
  match n with
  | 1 | 5 => Reads
  | 2 => Process Environment
  | 3 | 4 => Process Waiter
  | 6 => Process Tracing_loop
  | _ => InKernel
  end%nat.

(** The event is recorded: the example ring buffer is empty. *)
Lemma kernel0_recorded : record_kill kernel0 (Steady kernel0 example_view) [] = kills1.
Proof using. reflexivity. Qed.

Lemma node_steps : infinite_run sim_node_step node_run node_whose.
Proof using killed submits releases.
  intros n. destruct n as [|[|[|[|[|[|[|n]]]]]]]; cbn [node_whose node_run].
  - unfold node_at at 2. rewrite <- kernel0_recorded. apply node_kill; [|exact killed].
    by apply (bool_decide_eq_true_1 _).
  - replace (sim_state None Awaiting false Loop sim_loaded world1)
      with (after_read (L := simlib) (E := string) example_tracer id (Sample kernel0_sample)
        (sim_state None Awaiting false Loop sim_loaded example_world))
      by (unfold after_read; cbn [world sim_state];
        fold (handle (W := simw) (error := goerror string)); by rewrite kernel0_handled).
    apply node_sample; [done..| |apply permitted_id]. by rewrite submits, releases.
  - apply node_process; [apply signal|by left].
  - apply node_process; [apply waiter_done|by left].
  - apply node_process; [|by left].
    exact (waiter_close example_tracer catch_up (Some Canceled) 11 sim_close false Loop
      sim_loaded world1).
  - apply (node_closed _ _ _ _ _ _ _ kernel2
      (sim_state (Some Canceled) Exited true Loop sim_reader_closed world1)); done.
  - apply node_process; [apply loop_deferred|by right].
  - by apply node_kernel.
Qed.

Lemma node_run_start :
  node_run 0 = node_start [] (example_lib []) example_world None kernel0.
Proof using. unfold node_start. by rewrite <- sim_start. Qed.

(** At the end only the kernel and the environment make steps. *)
Lemma node_fair na :
  match na with Reads | Process Waiter | Process Tracing_loop => True | _ => False end →
  fair node_run node_whose (enabled sim_node_step na) na.
Proof using.
  clear killed submits releases. intros Hna n. exists (n + 7)%nat. split; [lia|]. right. intros [nd Hs].
  rewrite Nat.add_comm in Hs. cbn [Nat.add node_run] in Hs. unfold node_at in Hs.
  inversion Hs; subst; try done.
  match goal with H : pstep _ _ _ _ _ |- _ => apply (ended_stuck _ _ _ _ _ (Some Canceled)) in H end;
    [by subst|done..].
Qed.
End run.

(** The run, for the witnesses. *)
Lemma node_example :
  ∃ run whose, run 0%nat = node_start [] (example_lib []) example_world None kernel0 ∧
    infinite_run sim_node_step run whose ∧
    fair run whose (enabled sim_node_step Reads) Reads ∧
    fair run whose (enabled sim_node_step (Process Waiter)) (Process Waiter) ∧
    fair run whose (enabled sim_node_step (Process Tracing_loop)) (Process Tracing_loop) ∧
    n_kills (run 1%nat) = [Steady kernel0 example_view] ∧
    released (n_kernel (run 2%nat)) = 1%nat ∧ pc (n_proc (run 2%nat)) = Loop ∧
    n_kills (run 2%nat) = [Steady kernel0 example_view] ∧
    ctx_Err (n_proc (run 3%nat)) = Some Canceled ∧
    pc (n_proc (run 7%nat)) = Ended (Some Canceled).
Proof.
  destruct example_kill as (kernel1 & Hk & Hs & Hr).
  exists (node_run kernel1), node_whose. split; [apply node_run_start|].
  split; [by apply node_steps|]. do 3 (split; [by apply node_fair|]).
  split; [done|]. split; [simpl in *; by rewrite Hr|done].
Qed.

(** When the agent has read the event of the one kill, the probe is attached and the
    kill handled. *)
Lemma node_spec_witness :
  ∃ (nd : sim_node) h, pc (n_proc nd) = Loop ∧ 10%positive ∈ opened (lib (n_proc nd)) ∧
    h_kill h = Steady kernel0 example_view ∧
    adds (metrics example_tracer) example_world (world (n_proc nd))
      (tally (verdict_on example_tracer example_view (h_pods h)) (h_ok h))
      (requests_for example_tracer (verdict_on example_tracer example_view (h_pods h))).
Proof.
  destruct node_example as (run & whose & H0 & Hsteps & _ & _ & _ & _ & Hrel & Hpc & Hkills & _).
  set (nd := run 2%nat) in *. exists nd.
  destruct (node_spec example_sparc amd64 VmlinuxX86.vmlinux x86_layout example_tracer catch_up
    [] (example_lib []) example_world None kernel0 sim_objs 10 11 nd)
    as (_ & _ & Hat & _ & _ & hs & last & Ha & Hvs & _ & Hl).
  - by left.
  - exact example_tracer_wf.
  - reflexivity.
  - exact catch_up_frame.
  - done.
  - exact sim_is_loaded.
  - eapply run_reaches; [exact H0|exact Hsteps].
  - cbn [sys_of s_kernel s_kills s_outcome s_world] in *. rewrite Hpc in Hat, Hl.
    rewrite Hrel in Hl. destruct Hl as [[-> Hlen]|(_ & _ & err & w & Hout & _)]; [|done].
    destruct hs as [|h [|h' hs]]; [discriminate Hlen| |discriminate Hlen].
    exists h. split; [exact Hpc|]. split; [exact Hat|].
    rewrite Hkills in Hvs. change ([h_kill h] = [Steady kernel0 example_view]) in Hvs. injection Hvs as Hvs.
    split; [exact Hvs|].
    unfold history, tallies, requests_of in Ha. cbn [fmap list_fmap concat fst snd] in Ha.
    rewrite Hvs, !app_nil_r in Ha. exact Ha.
Defined.

Lemma node_live_witness :
  ∃ run : nat → sim_node, n_kills (run 1%nat) = [Steady kernel0 example_view] ∧
    (∃ m, pc (n_proc (run m)) ≠ Loop ∨ (0 < released (n_kernel (run m)))%nat) ∧
    ∃ m err, pc (n_proc (run m)) = Ended err.
Proof.
  destruct node_example as (run & whose & H0 & Hsteps & Hfr & Hfw & Hfd & Hk1 & _ & _ & _ & Hc & _).
  exists run. split; [exact Hk1|].
  destruct (node_live example_sparc amd64 VmlinuxX86.vmlinux x86_layout example_tracer catch_up
    [] (example_lib []) example_world None kernel0 sim_objs 10 11 run whose) as [Hhandled Hends].
  - by left.
  - exact example_tracer_wf.
  - reflexivity.
  - exact catch_up_frame.
  - done.
  - exact sim_is_loaded.
  - exact H0.
  - exact Hsteps.
  - exact Hfr.
  - split.
    + destruct (Hhandled 1%nat 0%nat) as (m & _ & _ & Hm); [rewrite Hk1; apply le_n|].
      by exists m.
    + destruct (Hends Hfw Hfd ltac:(done) 3%nat) as (m & err & _ & Hm & _); [by rewrite Hc|].
      by exists m, err.
Defined.

(** ** The program *)

Definition agent_args : list gostring :=
  [bs "--victim_annotation=evict-me=yes"; bs "-ignore_global_oom"].

Abbreviation sim_launch := (launch (K := sim) (F := Z) (S := Z) (E := string) sim_float32 []
  sim_env agent_args kernel0 (example_lib []) None example_world).

Lemma agent_launched :
  sim_launch = Serving example_tracer (Some (bs ":8080"))
    (node_start [] (example_lib []) example_world None kernel0).
Proof.
  unfold launch. destruct (parse_command_line _ _) as [[opts ks] rest|] eqn:Ep.
  - assert (start_up (error := goerror string) sim_float32 opts example_world =
      (inr example_tracer, Some (bs ":8080"), example_world)) as ->; [|reflexivity].
    vm_compute in Ep. injection Ep as <- _ _. vm_compute. reflexivity.
  - vm_compute in Ep. discriminate Ep.
Qed.

(** The program runs from its command line to a good end, and the requests it has sent by
    then are those of the samples it was given. *)
Lemma agent_spec_witness :
  ∃ w, rtc (agent_step example_sparc amd64 VmlinuxX86.vmlinux x86_layout catch_up 10%positive)
      sim_launch (Stopped Finished (Some (bs ":8080")) w) ∧
    ∃ (opts : options Z) (ks : Z) rest o (nd : sim_node) hd,
      parse_command_line sim_env agent_args = Parsed (opts, ks) rest ∧ asked opts o ∧
      samples_of hd = take (released (n_kernel nd)) (submitted (n_kernel nd)) ∧
      patches w = concat (asks o <$> hd) ∧ origins o hd (patches w).
Proof.
  destruct node_example as (run & whose & H0 & Hsteps & _ & _ & _ & _ & _ & _ & _ & _ & Hend).
  set (w := world (n_proc (run 7%nat))).
  assert (rtc (agent_step example_sparc amd64 VmlinuxX86.vmlinux x86_layout catch_up 10%positive)
    sim_launch (Stopped Finished (Some (bs ":8080")) w)) as Hr.
  { rewrite agent_launched. eapply rtc_r.
    - apply (agent_serving example_sparc amd64 VmlinuxX86.vmlinux x86_layout catch_up 10%positive
        example_tracer (Some (bs ":8080")) _ (run 7%nat)).
      eapply run_reaches; [exact H0|exact Hsteps].
    - exact (agent_stop _ _ _ _ _ _ example_tracer (Some (bs ":8080")) (run 7%nat)
        (Some Canceled) Hend). }
  exists w. split; [exact Hr|].
  destruct (agent_spec (F := Z) (S := Z) example_sparc amd64 VmlinuxX86.vmlinux x86_layout catch_up
    10%positive sim_float32 [] sim_env agent_args kernel0 (example_lib []) None example_world
    (Stopped Finished (Some (bs ":8080")) w))
    as (opts & ks & rest & Hp & [(_ & Hs & _)|(o & nd & err & (Ha & _ & w1 & _ & _ & hd & Hh & Hq) & Hw & _)]).
  - by left.
  - reflexivity.
  - exact catch_up_frame.
  - done.
  - exact Hr.
  - exfalso. vm_compute in Hp. injection Hp as <- _ _. vm_compute in Hs. discriminate Hs.
  - exists opts, ks, rest, o, nd, hd. split; [exact Hp|]. split; [exact Ha|].
    destruct Hh as (_ & Hsm & _). split; [exact Hsm|].
    destruct Hq as (rqs & Hpa & Hrq & Ho). rewrite <- Hw in Hpa.
    change (patches w = rqs) in Hpa. rewrite Hpa. split; [exact Hrq|exact Ho].
Defined.
